(* ===== verification/_CoqProject ===== *)
-Q . S2P
Prelude.v
Environment.v
Packed.v
Rings.v
Abi.v
QemuDevice.v
DeviceSafety.v
DeviceQueue.v
DeviceData.v
DeviceRegisters.v
Blocks.v
BlockSpec.v
AbiBridge.v
DeviceFixture.v
DeviceTheorems.v
BlockTheorems.v
DriverState.v
DriverQueue.v
DriverCore.v
DriverLogic.v
DriverFrame.v
DriverSafety.v
DriverSubmit.v
DriverResources.v
System.v
SystemSync.v
SystemSubmit.v
SystemAdmin.v
SystemReset.v
SystemProbe.v
SystemRun.v
SystemTrace.v
SystemLife.v
SystemRebind.v
SystemFixture.v
DriverTheorems.v
SystemTheorems.v
