(* ===== verification/Prelude.v ===== *)
(** * OpenFlash: a verified model of the QEMU controller and its Linux driver

    OpenFlash is a PCIe block storage controller, implemented as a QEMU device
    (qemu/hw/block/openflash.c), and its Linux block driver
    (driver/openflash/).  They share a wire format, declared twice:
    driver/openflash/openflash_abi.h on one side, the head of openflash.c on
    the other.  The driver publishes 64-byte commands in a submission ring in
    guest memory and writes a doorbell register; the device executes the
    commands at once, by DMA, and posts 64-byte completions with alternating
    phase tags in a completion ring; an MSI-X interrupt makes the driver
    consume them.

    ** The program in definitions

    C functions become functions with the C name.  Unsigned integers are [Z]
    with the wrap written out ([u16], [u32], [u64]); structures that cross the
    bus are packed by field widths (Packed).  Code returns an [outcome]: a
    value, undefined behaviour (an access outside an object, a null or
    unassigned value, a division by zero, a release of what is not held) or
    the end of the fuel of a loop that need not terminate.

    - Environment: guest memory and host files as type classes of operations
      with separate classes of laws, and concrete instances for evaluation.
    - Packed, Rings, Blocks: little-endian structures; ring slots and phases;
      byte strings as arrays of blocks.
    - Abi: openflash_abi.h.  QemuDevice: openflash.c, every function, on a
      [machine] of device state, guest memory, host files and MSI-X state.
    - DriverState: openflash.h and the kernel the driver runs in: its state
      (resources held, DMA mappings, requests in flight and ended), its
      services as a class whose answers are arbitrary, the controller behind
      the BAR as a class, and the state and error monad [drv].
    - DriverQueue: openflash_queue.c.  DriverCore: openflash_core.c.  A
      [goto] label is a definition of its own, e.g. [admin_free_cq].
    - System: the QEMU device as the controller of the driver.

    ** The theorems

    - DeviceSafety, DeviceQueue, DeviceData, DeviceRegisters, with the claims
      in DeviceTheorems: the device invariant and memory safety against every
      guest; what a doorbell serves, in which order, with which completions,
      and that it returns; the registers; reset; refused commands; and a
      command on the I/O queue that makes a doorbell never return.
    - BlockSpec, claims in BlockTheorems: [openflash_execute] refines an array
      of 4 KiB blocks with a saved image; round trip, durability, isolation,
      exact acceptance of data; equivalence of segmentations; aliasing of block
      addresses; partial effect of rejected writes.
    - AbiBridge: both declarations of the wire format agree.
    - DriverLogic, DriverFrame, DriverSafety, DriverSubmit, DriverResources,
      claims in DriverTheorems: a small program logic for [drv]; what each
      function leaves alone in any state; ownership of requests
      and mappings; the interrupt handler against any completion ring, equal
      to the reference [drain]; submission as all or nothing, with the reason
      of every refusal; probe balanced on every path on which descriptor lists
      can be allocated; remove, which waits in [del_gendisk] for the requests in
      flight and then releases everything; and the defects found: FUA writes
      are not saved, requests of many segments overflow the descriptor list,
      recovery and remove wait for requests they alone could end, an unassigned
      error code is returned.
    - SystemSync, SystemSubmit, SystemRun, claims in SystemTheorems: the
      invariant that driver and device are in step, and that the composition
      implements the block device: every valid request without FUA is ended
      exactly once with the answer of the specification, in order, also in
      batches.  The specification keeps FUA; fua_write_served_plain states how
      the system departs from it on FUA writes.
      SystemTrace: the specification as a step relation, and that every run of
      submissions, interrupts, recoveries and client stores simulates it.
      SystemLife: probe, any such run and remove, composed.  SystemRebind: the
      probe after a remove times out, as the device keeps its ring cursors.
      SystemAdmin: the same for the admin queue, up to the caller that waits.
      SystemProbe, SystemReset: the probe establishes the invariant, a reset
      restores it from any state of the device, and the reset work returns when
      the device has answered.
    - DeviceFixture, SystemFixture: concrete machines and a probed host on
      which the theorems are instantiated.

    ** Bounds

    The loop of [openflash_process_sq] and the completion loops of the driver
    take fuel.  A ring has at most 4096 entries, which bounds the iterations
    of every doorbell that returns (admin_doorbell_serves,
    io_doorbell_serves), so 4096 is the fuel of the composed system; the
    handlers return with fuel [depth] (io_interrupt_safe).  While an admin
    command is waited for, interrupts arrive by a [schedule]: any number before
    the timeout and after it; the theorems that a command succeeds ask for one
    interrupt before the timeout.  A probe calls the kernel 143 times at most,
    the [room] its theorem asks for; one that times out on its first command 9
    times.  The waits for requests in flight (freezing the queue, [del_gendisk])
    take a number of interrupts; if requests are left in flight after them they
    do not return.

    ** Not modelled

    Locks and preemption: driver entry points are sequences of steps, with
    interrupts at the points where the code waits; a remove does not overlap a
    running reset work.  The writes [del_gendisk] starts for dirty pages are
    submissions before it.  DMA of the device into its
    own registers.  Kernel and QEMU internals: the laws of guest memory, host
    files, [dma_map_bvec] and (for the probe) of a kernel whose services succeed
    state what is relied on.  The tables that register
    the functions (QOM types, properties, [pci_driver], [blk_mq_ops]) and log
    messages.  The Python model of the flash translation layer under
    src/openflash, which neither C program uses, and the tests. *)

From stdpp Require Export base numbers list gmap option strings.
From coqutil Require Export Word.LittleEndianList.

#[global] Open Scope Z_scope.

Abbreviation byte := Corelib.Init.Byte.byte.
Abbreviation len l := (Z.of_nat (length l)).

(** ** Outcomes of C code

    [Done a]: the code returned [a].  [Undef]: it reached undefined behaviour
    (an access outside an object, a null pointer, a division by zero).
    [NoFuel]: the bound given to a loop that need not terminate ran out. *)
Inductive outcome (A : Type) : Type :=
| Done (a : A)
| Undef
| NoFuel.
Arguments Done {A} a.
Arguments Undef {A}.
Arguments NoFuel {A}.

#[export] Instance outcome_ret : MRet outcome := @Done.
#[export] Instance outcome_bind : MBind outcome := λ A B k o,
  match o with Done a => k a | Undef => Undef | NoFuel => NoFuel end.

(** Turns a lookup that C performs unchecked into an outcome. *)
Definition deref {A} (o : option A) : outcome A :=
  match o with Some a => Done a | None => Undef end.

Definition is_done {A} (o : outcome A) : bool :=
  match o with Done _ => true | _ => false end.

(** Closes [f x = r] on closed terms by the kernel's conversion alone. *)
Ltac evaluated := match goal with |- _ = ?r => exact_no_check (eq_refl r) end.

(** ** Machine integers: C's unsigned types as [Z] with the wrap written out *)
Definition u8 (z : Z) : Z := z `mod` 2 ^ 8.
Definition u16 (z : Z) : Z := z `mod` 2 ^ 16.
Definition u32 (z : Z) : Z := z `mod` 2 ^ 32.
Definition u64 (z : Z) : Z := z `mod` 2 ^ 64.

(** [BIT(n)] of QEMU and Linux. *)
Definition BIT (n : Z) : Z := Z.shiftl 1 n.

(** [a & mask] used as a condition. *)
Definition has_flag (a mask : Z) : bool := negb (Z.land a mask =? 0).

(** [a % b] on unsigned operands: undefined for a zero divisor. *)
Definition c_mod (a b : Z) : outcome Z :=
  if b =? 0 then Undef else Done (a `mod` b).

(** ** Tactics *)

(** Case analysis on the innermost [match] or [if] of a hypothesis or goal,
    keeping the equation. *)
Ltac case_split :=
  match goal with
  | H : context [match ?x with _ => _ end] |- _ =>
      lazymatch x with
      | context [match _ with _ => _ end] => fail
      | _ => destruct x eqn:?
      end
  | |- context [match ?x with _ => _ end] =>
      lazymatch x with
      | context [match _ with _ => _ end] => fail
      | _ => destruct x eqn:?
      end
  end.

(** Moves boolean tests of the code into propositions [lia] understands. *)
Ltac bprop :=
  repeat match goal with
  | H : (_ && _)%bool = true |- _ => apply andb_true_iff in H; destruct H
  | H : (_ || _)%bool = false |- _ => apply orb_false_iff in H; destruct H
  | H : negb _ = true |- _ => apply negb_true_iff in H
  | H : negb _ = false |- _ => apply negb_false_iff in H
  | H : (_ =? _) = true |- _ => apply Z.eqb_eq in H
  | H : (_ =? _) = false |- _ => apply Z.eqb_neq in H
  | H : (_ <? _) = true |- _ => apply Z.ltb_lt in H
  | H : (_ <? _) = false |- _ => apply Z.ltb_ge in H
  | H : (_ <=? _) = true |- _ => apply Z.leb_le in H
  | H : (_ <=? _) = false |- _ => apply Z.leb_gt in H
  end.

(** Reduces the binds of outcomes, and nothing else. *)
Ltac outcomes := cbn [mbind outcome_bind mret outcome_ret deref].
Tactic Notation "outcomes" "in" hyp(H) :=
  cbn [mbind outcome_bind mret outcome_ret deref] in H.

(** Inverts a chain of binds that is known to have returned. *)
Ltac inv_bind H :=
  lazymatch type of H with
  | mbind _ ?o = Done _ =>
      let E := fresh "E" in
      destruct o eqn:E; [cbn [mbind outcome_bind] in H | discriminate H | discriminate H]
  end.

Create HintDb openflash.
Create Rewrite HintDb words.
Create Rewrite HintDb slices.

(** ** Integer lemmas *)
Section Integers.
Implicit Types z a b n : Z.

Lemma u8_range z : 0 ≤ u8 z < 2 ^ 8.
Proof. by apply Z.mod_pos_bound. Qed.
Lemma u16_range z : 0 ≤ u16 z < 2 ^ 16.
Proof. by apply Z.mod_pos_bound. Qed.
Lemma u32_range z : 0 ≤ u32 z < 2 ^ 32.
Proof. by apply Z.mod_pos_bound. Qed.
Lemma u64_range z : 0 ≤ u64 z < 2 ^ 64.
Proof. by apply Z.mod_pos_bound. Qed.

Lemma u8_small z : 0 ≤ z < 2 ^ 8 → u8 z = z.
Proof. apply Z.mod_small. Qed.
Lemma u16_small z : 0 ≤ z < 2 ^ 16 → u16 z = z.
Proof. apply Z.mod_small. Qed.
Lemma u32_small z : 0 ≤ z < 2 ^ 32 → u32 z = z.
Proof. apply Z.mod_small. Qed.
Lemma u64_small z : 0 ≤ z < 2 ^ 64 → u64 z = z.
Proof. apply Z.mod_small. Qed.

Lemma c_mod_pos a b : 0 < b → c_mod a b = Done (a `mod` b).
Proof. intros. unfold c_mod. by rewrite (proj2 (Z.eqb_neq b 0)) by lia. Qed.

Lemma bounded_pow2_bits z n :
  0 ≤ n → 0 ≤ z → (∀ i, n ≤ i → Z.testbit z i = false) → z < 2 ^ n.
Proof.
  intros Hn Hz Hbits.
  enough (z = z `mod` 2 ^ n) as -> by (apply Z.mod_pos_bound; lia).
  apply Z.bits_inj'. intros i Hi.
  destruct (Z.lt_ge_cases i n).
  - by rewrite Z.mod_pow2_bits_low by lia.
  - by rewrite Z.mod_pow2_bits_high by lia; auto.
Qed.

Lemma bits_above z n i : 0 ≤ z < 2 ^ n → 0 ≤ n ≤ i → Z.testbit z i = false.
Proof.
  intros Hz Hi. rewrite <- (Z.mod_small z (2 ^ n)) by lia.
  apply Z.mod_pow2_bits_high. lia.
Qed.

Lemma lor_range a b n :
  0 ≤ n → 0 ≤ a < 2 ^ n → 0 ≤ b < 2 ^ n → 0 ≤ Z.lor a b < 2 ^ n.
Proof.
  intros Hn Ha Hb. split; [apply Z.lor_nonneg; lia |].
  apply bounded_pow2_bits; [lia | apply Z.lor_nonneg; lia |].
  intros i Hi. rewrite Z.lor_spec, !(bits_above _ n) by lia. done.
Qed.

Lemma land_range a b n :
  0 ≤ n → 0 ≤ a < 2 ^ n → 0 ≤ Z.land a b < 2 ^ n.
Proof.
  intros Hn Ha. split; [apply Z.land_nonneg; lia |].
  apply bounded_pow2_bits; [lia | apply Z.land_nonneg; lia |].
  intros i Hi. rewrite Z.land_spec, (bits_above _ n) by lia. done.
Qed.
End Integers.

#[export] Hint Resolve u8_range u16_range u32_range u64_range : openflash.
#[export] Hint Rewrite u8_small u16_small u32_small u64_small using lia : words.

(** ** Byte ranges of a buffer

    [slice o n l] is the [n] bytes of [l] from offset [o]; [splice o bs l]
    is [l] with [bs] copied over it from offset [o] (memcpy into a buffer). *)
Section Slices.
Local Open Scope nat_scope.
Context {A : Type}.
Implicit Types l bs : list A.

Definition slice (o n : nat) l : list A := take n (drop o l).
Definition splice (o : nat) bs l : list A :=
  take o l ++ bs ++ drop (o + length bs) l.

Lemma lookup_slice o n l i :
  slice o n l !! i = if decide (i < n) then l !! (o + i) else None.
Proof. unfold slice. rewrite lookup_take, lookup_drop. done. Qed.

Lemma length_slice o n l : o + n ≤ length l → length (slice o n l) = n.
Proof. intros. unfold slice. rewrite length_take, length_drop. lia. Qed.

Lemma lookup_splice o bs l i :
  o ≤ length l →
  splice o bs l !! i =
    if decide (o ≤ i < o + length bs) then bs !! (i - o) else l !! i.
Proof.
  intros Ho. unfold splice.
  destruct (decide (i < o)).
  { rewrite lookup_app_l by (rewrite length_take; lia).
    rewrite lookup_take_lt by lia. case_decide; [lia | done]. }
  rewrite lookup_app_r by (rewrite length_take; lia).
  rewrite length_take, Nat.min_l by lia.
  destruct (decide (i < o + length bs)).
  - rewrite lookup_app_l by lia. case_decide; [done | lia].
  - rewrite lookup_app_r, lookup_drop by lia.
    case_decide; [lia |]. f_equal. lia.
Qed.

Lemma length_splice o bs l :
  o + length bs ≤ length l → length (splice o bs l) = length l.
Proof. intros. unfold splice. rewrite !length_app, length_take, length_drop. lia. Qed.

Lemma slice_splice_other o bs l o' n :
  o ≤ length l → o' + n ≤ o ∨ o + length bs ≤ o' →
  slice o' n (splice o bs l) = slice o' n l.
Proof.
  intros. apply list_eq. intros i. rewrite !lookup_slice.
  case_decide; [| done]. rewrite lookup_splice by lia.
  case_decide; [lia | done].
Qed.

Lemma splice_splice_app o a b l :
  o + length a ≤ length l →
  splice (o + length a) b (splice o a l) = splice o (a ++ b) l.
Proof.
  intros. apply list_eq. intros i.
  rewrite lookup_splice by (rewrite length_splice; lia).
  rewrite !lookup_splice, length_app by lia.
  repeat case_decide; try lia; try done.
  - rewrite lookup_app_r by lia. f_equal. lia.
  - by rewrite lookup_app_l by lia.
Qed.

End Slices.

#[export] Hint Rewrite @length_slice @length_splice using lia : slices.

(** ** Updating an entry of a list *)
Lemma alter_insert {A} (f : A → A) i (l : list A) x :
  l !! i = Some x → alter f i l = <[i := f x]> l.
Proof.
  intros Hx. apply list_eq. intros j. destruct (decide (j = i)) as [-> | Hne].
  - rewrite list_lookup_alter_eq, Hx, list_lookup_insert_eq; [done |].
    by eapply lookup_lt_Some.
  - by rewrite list_lookup_alter_ne, list_lookup_insert_ne by done.
Qed.

Lemma bind_ext_elem {A B} (f g : A → list B) (l : list A) :
  (∀ x, x ∈ l → f x = g x) → l ≫= f = l ≫= g.
Proof.
  induction l as [| x l IH]; intros Hfg; [done |]. cbn.
  rewrite (Hfg x) by apply list_elem_of_here. f_equal. apply IH.
  intros y Hy. apply Hfg. by apply list_elem_of_further.
Qed.

Lemma length_omap_le {A B} (f : A → option B) l : (length (omap f l) ≤ length l)%nat.
Proof. induction l as [| x l IH]; cbn; [done |]. destruct (f x); cbn; lia. Qed.

Lemma bind_nil {A B} (f : A → list B) (l : list A) :
  (∀ x, x ∈ l → f x = []) → l ≫= f = [].
Proof.
  intros Hf. rewrite (bind_ext_elem f (λ _, [])) by done. clear. by induction l.
Qed.

(** ** Removing one occurrence from a list *)
Section RemoveOne.
Context {A : Type} `{EqDecision A}.
Implicit Types l : list A.

Fixpoint remove_one (x : A) l : option (list A) :=
  match l with
  | [] => None
  | y :: l => if decide (x = y) then Some l else (y ::.) <$> remove_one x l
  end.

Lemma remove_one_perm x l l' : remove_one x l = Some l' → l ≡ₚ x :: l'.
Proof.
  revert l'. induction l as [| y l IH]; intros l' E; simplify_eq/=.
  case_decide; simplify_eq; [done |].
  destruct (remove_one x l) as [l1 |] eqn:E1; simplify_eq/=.
  etrans; [by apply Permutation_skip, IH | apply Permutation_swap].
Qed.

Lemma remove_one_elem x l : x ∈ l → ∃ l', remove_one x l = Some l'.
Proof.
  induction 1 as [x l | x y l _ [l' IH]]; simpl; [by rewrite decide_True by done; eauto |].
  case_decide; [eauto |]. rewrite IH. eauto.
Qed.

End RemoveOne.
