(* ===== verification/Environment.v ===== *)
(** * Environment of the device and the driver

    The code under verification calls into QEMU, GLib and the Linux kernel.
    What it uses of them is stated here as type classes: the operations are
    class fields (parameters of every model built on them) and the documented
    behaviour the code relies on is a separate class of laws.  [Ram] and
    [ModelFiles] are concrete instances, used to evaluate the models. *)
From S2P Require Import Prelude.

(** ** Guest memory as seen through DMA

    [dma_read m a n] is the content of an [n]-byte buffer after
    [pci_dma_read(pdev, a, buf, n)]; [dma_write m a bs] is memory after
    [pci_dma_write(pdev, a, bs, |bs|)].  Both calls return an error code that
    the code ignores.  The driver reaches the same bytes with plain loads and
    stores through the CPU mapping that [dma_alloc_coherent] returned. *)
Class GuestMemory (M : Type) := {
  dma_read : M → Z → Z → list byte;
  dma_write : M → Z → list byte → M;
}.

(** Laws.  A read always fills the whole buffer.  On ranges of guest RAM
    ([is_ram]) reads return what was last written, byte by byte. *)
Class GuestMemoryLaws (M : Type) `{GuestMemory M} := {
  is_ram : Z → Z → Prop;
  is_ram_sub a n b k : is_ram a n → a ≤ b → 0 ≤ k → b + k ≤ a + n → is_ram b k;
  dma_read_length m a n : length (dma_read m a n) = Z.to_nat n;
  dma_read_write_same m a bs :
    is_ram a (len bs) → dma_read (dma_write m a bs) a (len bs) = bs;
  dma_read_write_other m a bs b n :
    is_ram a (len bs) → is_ram b n → b + n ≤ a ∨ a + len bs ≤ b →
    dma_read (dma_write m a bs) b n = dma_read m b n;
  dma_read_app m a n k :
    is_ram a (n + k) → 0 ≤ n → 0 ≤ k →
    dma_read m a (n + k) = dma_read m a n ++ dma_read m (a + n) k;
}.

(** A read inside a range is a slice of the read of the range. *)
Lemma dma_read_sub `{GuestMemoryLaws M} m a n b k :
  is_ram a n → a ≤ b → 0 ≤ k → b + k ≤ a + n →
  dma_read m b k = slice (Z.to_nat (b - a)) (Z.to_nat k) (dma_read m a n).
Proof.
  intros Hr Hab Hk Hn.
  assert (dma_read m a n = dma_read m a (b - a) ++ dma_read m b k ++
    dma_read m (b + k) (a + n - (b + k))) as ->.
  { replace n with ((b - a) + (k + (a + n - (b + k)))) at 1 by lia.
    rewrite dma_read_app by (try lia; by replace (_ + _) with n by lia).
    replace (a + (b - a)) with b by lia. f_equal. apply dma_read_app; [| lia..].
    eapply is_ram_sub; [exact Hr | lia..]. }
  unfold slice. rewrite drop_app_length', take_app_length'; by rewrite ?dma_read_length.
Qed.

(** ** Host files, as GLib presents them

    [g_file_set_contents fs name bs] is the file system after the call and
    whether it succeeded. *)
Class HostFiles (F : Type) := {
  g_file_set_contents : F → string → list byte → F * bool;
  g_file_get_contents : F → string → option (list byte);
  g_file_test_exists : F → string → bool;
}.

(** Laws.  A successful [g_file_set_contents] replaces the file's content;
    a failed one leaves the old file (it writes a temporary file and renames
    it over the target). *)
Class HostFilesLaws (F : Type) `{HostFiles F} := {
  set_contents_ok fs name bs fs' :
    g_file_set_contents fs name bs = (fs', true) →
    g_file_get_contents fs' name = Some bs ∧ g_file_test_exists fs' name = true;
  set_contents_failed fs name bs fs' :
    g_file_set_contents fs name bs = (fs', false) →
    g_file_get_contents fs' name = g_file_get_contents fs name ∧
    g_file_test_exists fs' name = g_file_test_exists fs name;
}.

(** ** Concrete memory: the log of the writes, zero where nothing was written

    An entry is the address, the length and the bytes of one write, the last
    one first.  A log is evaluated only where it is read. *)
Module Ram.
Abbreviation t := (list (Z * Z * list byte)).

Fixpoint get (m : t) (a : Z) : byte :=
  match m with
  | [] => Byte.x00
  | (b, n, bs) :: m =>
      if (b <=? a) && (a <? b + n) then default Byte.x00 (bs !! Z.to_nat (a - b))
      else get m a
  end.

Definition read (m : t) (a n : Z) : list byte :=
  (λ i, get m (a + Z.of_nat i)) <$> seq 0 (Z.to_nat n).

Definition write (m : t) (a : Z) (bs : list byte) : t := (a, len bs, bs) :: m.

Lemma lookup_read m a n i :
  read m a n !! i =
    if decide (i < Z.to_nat n)%nat then Some (get m (a + Z.of_nat i)) else None.
Proof.
  unfold read. rewrite list_lookup_fmap. case_decide as Hi.
  - by rewrite lookup_seq_lt by lia.
  - by rewrite lookup_seq_ge by lia.
Qed.

Lemma get_write m a bs b :
  get (write m a bs) b =
    if decide (a ≤ b < a + len bs)
    then default Byte.x00 (bs !! Z.to_nat (b - a)) else get m b.
Proof.
  cbn [write get]. destruct (Z.leb_spec a b); destruct (Z.ltb_spec b (a + len bs));
    case_decide; try lia; done.
Qed.

#[export] Instance memory : GuestMemory t := {
  dma_read := read;
  dma_write := write;
}.

Definition in_space (a n : Z) : Prop := 0 ≤ a ∧ 0 ≤ n.

Lemma read_write_same m a bs :
  read (write m a bs) a (len bs) = bs.
Proof.
  apply list_eq. intros i. rewrite lookup_read, Nat2Z.id.
  case_decide as Hi; [| by rewrite lookup_ge_None_2 by lia].
  rewrite get_write, decide_True by lia.
  replace (Z.to_nat (a + Z.of_nat i - a)) with i by lia.
  destruct (lookup_lt_is_Some_2 bs i Hi) as [x ->]. done.
Qed.

Lemma read_write_other m a bs b n :
  b + n ≤ a ∨ a + len bs ≤ b → read (write m a bs) b n = read m b n.
Proof.
  intros Hd. apply list_eq. intros i. rewrite !lookup_read.
  case_decide as Hi; [| done]. rewrite get_write, decide_False by lia. done.
Qed.

Lemma read_app m a n k :
  0 ≤ n → 0 ≤ k → read m a (n + k) = read m a n ++ read m (a + n) k.
Proof.
  intros. unfold read. rewrite Z2Nat.inj_add by lia.
  rewrite seq_app, fmap_app. f_equal.
  apply list_eq. intros i. rewrite !list_lookup_fmap. simpl.
  destruct (decide (i < Z.to_nat k)%nat).
  - rewrite !lookup_seq_lt by lia. simpl. do 2 f_equal. lia.
  - by rewrite !lookup_seq_ge by lia.
Qed.

#[export] Program Instance memory_laws : GuestMemoryLaws t := {
  is_ram := in_space;
}.
Next Obligation. unfold in_space. lia. Qed.
Next Obligation.
  intros. simpl. unfold read. by rewrite length_fmap, length_seq.
Qed.
Next Obligation. intros. apply read_write_same. Qed.
Next Obligation. intros. by apply read_write_other. Qed.
Next Obligation. intros. by apply read_app. Qed.
End Ram.

(** ** Concrete host files: a map of contents and a flag for a full disk *)
Module ModelFiles.
Record t := Files { contents : gmap string (list byte); writable : bool }.

Definition set (fs : t) (name : string) (bs : list byte) : t * bool :=
  if writable fs
  then (Files (<[name := bs]> (contents fs)) true, true)
  else (fs, false).

#[export] Instance files : HostFiles t := {
  g_file_set_contents := set;
  g_file_get_contents fs name := contents fs !! name;
  g_file_test_exists fs name := bool_decide (is_Some (contents fs !! name));
}.

#[export] Program Instance files_laws : HostFilesLaws t.
Next Obligation.
  intros fs name bs fs' E. cbn in *. unfold set in E.
  destruct (writable fs); simplify_eq/=. by rewrite lookup_insert_eq.
Qed.
Next Obligation.
  intros fs name bs fs' E. cbn in *. unfold set in E.
  destruct (writable fs); simplify_eq/=. done.
Qed.
End ModelFiles.
