(* ===== verification/Packed.v ===== *)
(** * Packed little-endian structures

    The C structures that cross the bus are packed and little-endian, so each
    is described by its field widths; encoding is field by field, in order. *)
From S2P Require Import Prelude.

Section Packed.
(** [pack ws vs]: the bytes of the fields [vs], of widths [ws] bytes. *)
Fixpoint pack (ws : list nat) (vs : list Z) : list byte :=
  match ws, vs with
  | w :: ws, v :: vs => le_split w v ++ pack ws vs
  | _, _ => []
  end.

(** [unpack ws bs]: the fields found in [bs]. *)
Fixpoint unpack (ws : list nat) (bs : list byte) : list Z :=
  match ws with
  | [] => []
  | w :: ws => le_combine (take w bs) :: unpack ws (drop w bs)
  end.

(** [sizeof] of a packed structure. *)
Definition sizeof (ws : list nat) : nat := sum_list ws.

(** Every field value fits its width. *)
Definition fits (ws : list nat) (vs : list Z) : Prop :=
  Forall2 (λ w v, 0 ≤ v < 2 ^ (8 * Z.of_nat w)) ws vs.

#[export] Instance fits_dec ws vs : Decision (fits ws vs).
Proof. unfold fits. apply _. Defined.

Lemma length_pack ws vs : length vs = length ws → length (pack ws vs) = sizeof ws.
Proof.
  revert vs. induction ws as [| w ws IH]; intros [| v vs] Hl; simplify_eq/=; [done |].
  rewrite length_app, length_le_split, IH by lia. done.
Qed.

Lemma unpack_pack ws vs : fits ws vs → unpack ws (pack ws vs) = vs.
Proof.
  induction 1 as [| w v ws vs Hv _ IH]; [done |]. simpl.
  rewrite take_app_length', drop_app_length' by (by rewrite length_le_split).
  rewrite IH, le_combine_split, Z.mod_small; [done |].
  by rewrite (Z.mul_comm _ 8).
Qed.

Lemma unpack_fits ws bs : length bs = sizeof ws → fits ws (unpack ws bs).
Proof.
  revert bs. induction ws as [| w ws IH]; intros bs Hl; [constructor |].
  simpl in *. unfold sizeof in Hl. simpl in Hl. constructor.
  - pose proof (le_combine_bound (take w bs)) as Hb.
    rewrite length_take, Nat.min_l in Hb by lia. done.
  - apply IH. rewrite length_drop. unfold sizeof. lia.
Qed.

Lemma pack_unpack ws bs : length bs = sizeof ws → pack ws (unpack ws bs) = bs.
Proof.
  revert bs. induction ws as [| w ws IH]; intros bs Hl; simpl in *.
  { by destruct bs. }
  unfold sizeof in Hl. simpl in Hl.
  rewrite split_le_combine' by (rewrite length_take; lia).
  rewrite IH by (rewrite length_drop; unfold sizeof; lia).
  apply take_drop.
Qed.

Lemma length_unpack ws bs : length (unpack ws bs) = length ws.
Proof. revert bs. induction ws; intros; simpl; auto. Qed.
End Packed.
