(* ===== verification/Rings.v ===== *)
(** * Ring arithmetic shared by the device and the driver

    Both sides count ring entries from the creation of a ring.  Entry [k] of
    a ring of [d] entries is in slot [k mod d] and carries the phase tag
    [phase_of d k]: 1 on the first pass, then alternating.  Negative numbers
    name the passes before the first: zeroed memory is pass -1, of phase 0. *)
From S2P Require Import Prelude.

(** Slots [h], [h + 1], ... of a ring of [d] entries, [n] of them. *)
Definition ring_slots (h : Z) (n : nat) (d : Z) : list Z :=
  (λ k, (h + Z.of_nat k) `mod` d) <$> seq 0 n.

Definition phase_of (d k : Z) : Z := (k / d + 1) `mod` 2.

Lemma ring_slots_cons h n d :
  ring_slots h (S n) d = h `mod` d :: ring_slots (h + 1) n d.
Proof.
  unfold ring_slots. cbn [seq fmap list_fmap]. rewrite Z.add_0_r. f_equal.
  rewrite <- fmap_S_seq, <- list_fmap_compose.
  apply list_fmap_ext. intros i k _. cbn. f_equal. lia.
Qed.

Lemma ring_slots_mod h n d : 0 < d → ring_slots (h `mod` d) n d = ring_slots h n d.
Proof.
  intros. unfold ring_slots. apply list_fmap_ext. intros.
  by rewrite Zplus_mod_idemp_l.
Qed.

Lemma phase_of_bit d k : phase_of d k = 0 ∨ phase_of d k = 1.
Proof. unfold phase_of. pose proof (Z.mod_pos_bound (k / d + 1) 2). lia. Qed.

(** The same slot one pass later has the other phase. *)
Lemma phase_of_pass d k : 0 < d → phase_of d (k + d) = 1 - phase_of d k.
Proof.
  intros Hd. unfold phase_of. replace (k + d) with (k + 1 * d) by lia.
  rewrite Z.div_add by lia. replace (k / d + 1 + 1) with (Z.succ (k / d + 1)) by lia.
  generalize (k / d + 1). intros z.
  pose proof (Z.div_mod z 2). pose proof (Z.mod_pos_bound z 2).
  pose proof (Z.div_mod (Z.succ z) 2). pose proof (Z.mod_pos_bound (Z.succ z) 2). lia.
Qed.

(** How both sides step a cursor and its phase: increment modulo the depth,
    flip on the wrap to zero. *)
Lemma ring_step d k : 0 < d →
  (k `mod` d + 1) `mod` d = (k + 1) `mod` d ∧
  (if (k + 1) `mod` d =? 0 then Z.lxor (phase_of d k) 1 else phase_of d k)
    = phase_of d (k + 1).
Proof.
  intros Hd. split; [apply Zplus_mod_idemp_l |]. unfold phase_of.
  pose proof (Z.div_mod k d). pose proof (Z.mod_pos_bound k d Hd).
  destruct (Z.eqb_spec ((k + 1) `mod` d) 0) as [E | E].
  - assert ((k + 1) / d = k / d + 1) as ->.
    { pose proof (Z.div_mod (k + 1) d). nia. }
    rewrite (Z.add_mod (k / d + 1) 1 2) by lia.
    pose proof (Z.mod_pos_bound (k / d + 1) 2).
    assert ((k / d + 1) `mod` 2 = 0 ∨ (k / d + 1) `mod` 2 = 1) as [-> | ->] by lia; done.
  - assert ((k + 1) / d = k / d) as ->; [| done].
    pose proof (Z.div_mod (k + 1) d). pose proof (Z.mod_pos_bound (k + 1) d Hd). nia.
Qed.

(** Entries less than a pass apart are in different slots. *)
Lemma slots_differ d a b : 0 < b - a < d → a `mod` d ≠ b `mod` d.
Proof.
  intros Hd E. pose proof (Z.div_mod a d). pose proof (Z.div_mod b d).
  assert (b - a = d * (b / d) - d * (a / d)) by lia.
  destruct (Z.le_gt_cases (b / d) (a / d)); nia.
Qed.
