(* ===== verification/Abi.v ===== *)
(** * Host/controller ABI (driver/openflash/openflash_abi.h)

    The registers, opcodes, status codes and flags of the normative header and
    the three packed little-endian structures, as records with an encoder to
    or a decoder from their bytes, as the driver uses them. *)
From S2P Require Import Prelude Packed.

(** ** Registers and constants *)
Definition OPENFLASH_ABI_VERSION_MAJOR : Z := 0.
Definition OPENFLASH_ABI_VERSION_MINOR : Z := 2.
Definition OPENFLASH_ABI_VERSION : Z :=
  Z.lor (Z.shiftl OPENFLASH_ABI_VERSION_MAJOR 16) OPENFLASH_ABI_VERSION_MINOR.

Definition OPENFLASH_REG_ABI_VERSION : Z := 0x0000.
Definition OPENFLASH_REG_CAPABILITIES : Z := 0x0008.
Definition OPENFLASH_REG_CONTROL : Z := 0x0010.
Definition OPENFLASH_REG_STATUS : Z := 0x0014.
Definition OPENFLASH_REG_ADMIN_SQ_LO : Z := 0x0020.
Definition OPENFLASH_REG_ADMIN_SQ_HI : Z := 0x0024.
Definition OPENFLASH_REG_ADMIN_CQ_LO : Z := 0x0028.
Definition OPENFLASH_REG_ADMIN_CQ_HI : Z := 0x002c.
Definition OPENFLASH_REG_ADMIN_QSIZE : Z := 0x0030.
Definition OPENFLASH_REG_DOORBELL_BASE : Z := 0x1000.
Definition OPENFLASH_REG_DOORBELL_STRIDE : Z := 0x0008.
Definition OPENFLASH_SQ_TAIL_DB (qid : Z) : Z :=
  OPENFLASH_REG_DOORBELL_BASE + qid * OPENFLASH_REG_DOORBELL_STRIDE.
Definition OPENFLASH_CQ_HEAD_DB (qid : Z) : Z := OPENFLASH_SQ_TAIL_DB qid + 4.

Definition OPENFLASH_CAP_FLUSH : Z := BIT 0.
Definition OPENFLASH_CAP_FUA : Z := BIT 1.
Definition OPENFLASH_CAP_DISCARD : Z := BIT 2.
Definition OPENFLASH_CAP_ECC_TELEMETRY : Z := BIT 3.
Definition OPENFLASH_CAP_FAULT_INJECTION : Z := BIT 4.

Definition OPENFLASH_CTRL_ENABLE : Z := BIT 0.
Definition OPENFLASH_CTRL_RESET : Z := BIT 1.
Definition OPENFLASH_STATUS_READY : Z := BIT 0.
Definition OPENFLASH_STATUS_FATAL : Z := BIT 1.

Definition OPENFLASH_OP_READ : Z := 0x01.
Definition OPENFLASH_OP_WRITE : Z := 0x02.
Definition OPENFLASH_OP_FLUSH : Z := 0x03.
Definition OPENFLASH_OP_DISCARD : Z := 0x04.
Definition OPENFLASH_ADMIN_IDENTIFY : Z := 0x80.
Definition OPENFLASH_ADMIN_CREATE_IOQ : Z := 0x81.
Definition OPENFLASH_ADMIN_DELETE_IOQ : Z := 0x82.
Definition OPENFLASH_ADMIN_GET_LOG : Z := 0x83.

Definition OPENFLASH_SC_SUCCESS : Z := 0.
Definition OPENFLASH_SC_INVALID_OPCODE : Z := 1.
Definition OPENFLASH_SC_INVALID_FIELD : Z := 2.
Definition OPENFLASH_SC_LBA_RANGE : Z := 3.
Definition OPENFLASH_SC_MEDIA_ERROR : Z := 4.
Definition OPENFLASH_SC_ECC_UNCORRECTABLE : Z := 5.
Definition OPENFLASH_SC_ABORTED : Z := 6.
Definition OPENFLASH_SC_INTERNAL : Z := 7.

(** [CREATE_IOQ]: control[15:0] = qid, control[31:16] = MSI-X vector. *)
Definition OPENFLASH_CREATE_IOQ_CONTROL (qid vector : Z) : Z :=
  Z.lor (u32 (Z.shiftl (u32 vector) 16)) (u16 qid).

Definition OPENFLASH_CQE_PHASE : Z := BIT 0.
Definition OPENFLASH_CMD_F_FUA : Z := BIT 0.
Definition OPENFLASH_CMD_F_SGL : Z := BIT 1.
Definition OPENFLASH_MAX_SGL_ENTRIES : Z := 16.

(** ** struct openflash_command *)
Record openflash_command := {
  opcode : Z; flags : Z; qid : Z; cid : Z; reserved0 : Z; lba : Z;
  nblocks : Z; control : Z; data_addr : Z; metadata_addr : Z; user_data : Z;
  reserved1_0 : Z; reserved1_1 : Z;
}.

Definition command_layout : list nat :=
  [1; 1; 2; 2; 2; 8; 4; 4; 8; 8; 8; 8; 8]%nat.

Definition command_fields (c : openflash_command) : list Z :=
  [opcode c; flags c; qid c; cid c; reserved0 c; lba c; nblocks c; control c;
   data_addr c; metadata_addr c; user_data c; reserved1_0 c; reserved1_1 c].

Definition encode_command (c : openflash_command) : list byte :=
  pack command_layout (command_fields c).

(** [memset(cmd, 0, sizeof *cmd)] and the unnamed fields of an initialiser. *)
Definition command_zero : openflash_command :=
  {| opcode := 0; flags := 0; qid := 0; cid := 0; reserved0 := 0; lba := 0;
     nblocks := 0; control := 0; data_addr := 0; metadata_addr := 0;
     user_data := 0; reserved1_0 := 0; reserved1_1 := 0 |}.

(** ** struct openflash_completion *)
Record openflash_completion := {
  cqe_result : Z; cqe_user_data : Z; cqe_sq_head : Z; cqe_cid : Z;
  cqe_status : Z; cqe_flags : Z; cqe_reserved : list Z;
}.

Definition completion_layout : list nat := [8; 8; 2; 2; 2; 2; 8; 8; 8; 8; 8]%nat.

Definition decode_completion (bs : list byte) : openflash_completion :=
  match unpack completion_layout bs with
  | [r; u; h; i; s; f; r0; r1; r2; r3; r4] =>
      {| cqe_result := r; cqe_user_data := u; cqe_sq_head := h; cqe_cid := i;
         cqe_status := s; cqe_flags := f; cqe_reserved := [r0; r1; r2; r3; r4] |}
  | _ => {| cqe_result := 0; cqe_user_data := 0; cqe_sq_head := 0; cqe_cid := 0;
            cqe_status := 0; cqe_flags := 0; cqe_reserved := [] |}
  end.

(** ** struct openflash_sgl_desc *)
Record openflash_sgl_desc := { sgl_addr : Z; sgl_length : Z; sgl_reserved : Z }.

Definition sgl_layout : list nat := [8; 4; 4]%nat.

Definition encode_sgl (d : openflash_sgl_desc) : list byte :=
  pack sgl_layout [sgl_addr d; sgl_length d; sgl_reserved d].

Definition decode_sgl (bs : list byte) : openflash_sgl_desc :=
  match unpack sgl_layout bs with
  | [a; n; r] => {| sgl_addr := a; sgl_length := n; sgl_reserved := r |}
  | _ => {| sgl_addr := 0; sgl_length := 0; sgl_reserved := 0 |}
  end.
