(* ===== verification/QemuDevice.v ===== *)
(** * The QEMU controller model (qemu/hw/block/openflash.c)

    One definition per function of the device, in source order.  A device
    function takes the machine it runs in (device state, guest memory, host
    files, MSI-X notifications) and returns the outcome of running it.  The
    pointers into [s->queues] are indices, looked up again after every call
    that may change the queue. *)
From S2P Require Import Prelude Packed Environment.

(** ** Constants *)
Definition OF_ABI_VERSION : Z := 0x00000002.
Definition OF_BAR_SIZE : Z := 0x2000.
Definition OF_REG_ABI_VERSION : Z := 0x0000.
Definition OF_REG_CAPABILITIES : Z := 0x0008.
Definition OF_REG_CONTROL : Z := 0x0010.
Definition OF_REG_STATUS : Z := 0x0014.
Definition OF_REG_ADMIN_SQ_LO : Z := 0x0020.
Definition OF_REG_ADMIN_SQ_HI : Z := 0x0024.
Definition OF_REG_ADMIN_CQ_LO : Z := 0x0028.
Definition OF_REG_ADMIN_CQ_HI : Z := 0x002c.
Definition OF_REG_ADMIN_QSIZE : Z := 0x0030.
Definition OF_REG_DOORBELL_BASE : Z := 0x1000.

Definition OF_CTRL_ENABLE : Z := BIT 0.
Definition OF_CTRL_RESET : Z := BIT 1.
Definition OF_STATUS_READY : Z := BIT 0.
Definition OF_CAPABILITIES : Z :=
  Z.lor (Z.lor (Z.lor (BIT 0) (BIT 1)) (BIT 2)) (BIT 4).

Definition OF_OP_READ : Z := 0x01.
Definition OF_OP_WRITE : Z := 0x02.
Definition OF_OP_FLUSH : Z := 0x03.
Definition OF_OP_DISCARD : Z := 0x04.
Definition OF_ADMIN_IDENTIFY : Z := 0x80.
Definition OF_ADMIN_CREATE_IOQ : Z := 0x81.

Definition OF_SC_SUCCESS : Z := 0.
Definition OF_SC_INVALID_OPCODE : Z := 1.
Definition OF_SC_INVALID_FIELD : Z := 2.
Definition OF_SC_LBA_RANGE : Z := 3.
Definition OF_SC_INTERNAL : Z := 7.

Definition OF_CMD_F_FUA : Z := BIT 0.
Definition OF_CMD_F_SGL : Z := BIT 1.
Definition OF_MAX_SGL_ENTRIES : Z := 16.

Definition OF_BLOCK_SIZE : Z := 4096.
Definition OF_DEFAULT_CAPACITY : Z := 64 * (1024 * 1024).
Definition OF_MAX_QUEUES : Z := 2.

(** ** Structures on the bus *)
Record OpenFlashCommand := {
  c_opcode : Z; c_flags : Z; c_qid : Z; c_cid : Z; c_reserved0 : Z;
  c_lba : Z; c_nblocks : Z; c_control : Z; c_data_addr : Z;
  c_metadata_addr : Z; c_user_data : Z; c_reserved1_0 : Z; c_reserved1_1 : Z;
}.

Definition OpenFlashCommand_layout : list nat :=
  [1; 1; 2; 2; 2; 8; 4; 4; 8; 8; 8; 8; 8]%nat.

(** The command fetched into [cmd], all zero before the fetch. *)
Definition decode_OpenFlashCommand (bs : list byte) : OpenFlashCommand :=
  match unpack OpenFlashCommand_layout bs with
  | [op; fl; q; i; r0; l; n; ct; da; ma; ud; r1; r2] =>
      {| c_opcode := op; c_flags := fl; c_qid := q; c_cid := i;
         c_reserved0 := r0; c_lba := l; c_nblocks := n; c_control := ct;
         c_data_addr := da; c_metadata_addr := ma; c_user_data := ud;
         c_reserved1_0 := r1; c_reserved1_1 := r2 |}
  | _ =>
      {| c_opcode := 0; c_flags := 0; c_qid := 0; c_cid := 0;
         c_reserved0 := 0; c_lba := 0; c_nblocks := 0; c_control := 0;
         c_data_addr := 0; c_metadata_addr := 0; c_user_data := 0;
         c_reserved1_0 := 0; c_reserved1_1 := 0 |}
  end.

Record OpenFlashCompletion := {
  e_result : Z; e_user_data : Z; e_sq_head : Z; e_cid : Z; e_status : Z;
  e_flags : Z;
}.

Definition OpenFlashCompletion_layout : list nat :=
  [8; 8; 2; 2; 2; 2; 8; 8; 8; 8; 8]%nat.

(** The five reserved words keep their initial zero. *)
Definition encode_OpenFlashCompletion (e : OpenFlashCompletion) : list byte :=
  pack OpenFlashCompletion_layout
    [e_result e; e_user_data e; e_sq_head e; e_cid e; e_status e; e_flags e;
     0; 0; 0; 0; 0].

Record OpenFlashSglDesc := { d_addr : Z; d_length : Z; d_reserved : Z }.

Definition OpenFlashSglDesc_layout : list nat := [8; 4; 4]%nat.

Definition decode_OpenFlashSglDesc (bs : list byte) : OpenFlashSglDesc :=
  match unpack OpenFlashSglDesc_layout bs with
  | [a; n; r] => {| d_addr := a; d_length := n; d_reserved := r |}
  | _ => {| d_addr := 0; d_length := 0; d_reserved := 0 |}
  end.

Arguments decode_OpenFlashCommand : simpl never.
Arguments encode_OpenFlashCompletion : simpl never.
Arguments decode_OpenFlashSglDesc : simpl never.

(** ** Device state *)
Record OpenFlashQueue := {
  q_sq_addr : Z; q_cq_addr : Z; q_depth : Z; q_sq_head : Z; q_cq_tail : Z;
  q_cq_head : Z; q_vector : Z; q_cq_phase : Z; q_enabled : bool;
}.

Definition queue_zero : OpenFlashQueue :=
  {| q_sq_addr := 0; q_cq_addr := 0; q_depth := 0; q_sq_head := 0;
     q_cq_tail := 0; q_cq_head := 0; q_vector := 0; q_cq_phase := 0;
     q_enabled := false |}.

Record OpenFlashState := {
  s_queues : list OpenFlashQueue;
  s_control : Z;
  s_status : Z;
  s_capacity : Z;
  s_storage : option (list byte);
  s_backing_file : option string;
}.

(** ** The machine a device function runs in *)
Record machine (M F : Type) := Machine {
  m_dev : OpenFlashState;
  m_mem : M;
  m_files : F;
  m_msix_enabled : bool;
  m_notified : list Z;
}.
Arguments Machine {M F}.
Arguments m_dev {M F}.
Arguments m_mem {M F}.
Arguments m_files {M F}.
Arguments m_msix_enabled {M F}.
Arguments m_notified {M F}.

(** ** Field updates *)
Definition set_sq_addr a q := {| q_sq_addr := a; q_cq_addr := q_cq_addr q;
  q_depth := q_depth q; q_sq_head := q_sq_head q; q_cq_tail := q_cq_tail q;
  q_cq_head := q_cq_head q; q_vector := q_vector q; q_cq_phase := q_cq_phase q;
  q_enabled := q_enabled q |}.
Definition set_cq_addr a q := {| q_sq_addr := q_sq_addr q; q_cq_addr := a;
  q_depth := q_depth q; q_sq_head := q_sq_head q; q_cq_tail := q_cq_tail q;
  q_cq_head := q_cq_head q; q_vector := q_vector q; q_cq_phase := q_cq_phase q;
  q_enabled := q_enabled q |}.
Definition set_size d en q := {| q_sq_addr := q_sq_addr q;
  q_cq_addr := q_cq_addr q; q_depth := d; q_sq_head := q_sq_head q;
  q_cq_tail := q_cq_tail q; q_cq_head := q_cq_head q; q_vector := q_vector q;
  q_cq_phase := q_cq_phase q; q_enabled := en |}.
Definition set_sq_head h q := {| q_sq_addr := q_sq_addr q;
  q_cq_addr := q_cq_addr q; q_depth := q_depth q; q_sq_head := h;
  q_cq_tail := q_cq_tail q; q_cq_head := q_cq_head q; q_vector := q_vector q;
  q_cq_phase := q_cq_phase q; q_enabled := q_enabled q |}.
Definition set_cq_tail t ph q := {| q_sq_addr := q_sq_addr q;
  q_cq_addr := q_cq_addr q; q_depth := q_depth q; q_sq_head := q_sq_head q;
  q_cq_tail := t; q_cq_head := q_cq_head q; q_vector := q_vector q;
  q_cq_phase := ph; q_enabled := q_enabled q |}.
Definition set_cq_head h q := {| q_sq_addr := q_sq_addr q;
  q_cq_addr := q_cq_addr q; q_depth := q_depth q; q_sq_head := q_sq_head q;
  q_cq_tail := q_cq_tail q; q_cq_head := h; q_vector := q_vector q;
  q_cq_phase := q_cq_phase q; q_enabled := q_enabled q |}.

Definition set_queues qs s := {| s_queues := qs; s_control := s_control s;
  s_status := s_status s; s_capacity := s_capacity s;
  s_storage := s_storage s; s_backing_file := s_backing_file s |}.
Definition set_storage st s := {| s_queues := s_queues s;
  s_control := s_control s; s_status := s_status s;
  s_capacity := s_capacity s; s_storage := st;
  s_backing_file := s_backing_file s |}.
Definition set_control c st s := {| s_queues := s_queues s; s_control := c;
  s_status := st; s_capacity := s_capacity s; s_storage := s_storage s;
  s_backing_file := s_backing_file s |}.

(** [s->queues[i] = f s->queues[i]] *)
Definition update_queue (i : nat) (f : OpenFlashQueue → OpenFlashQueue) s :=
  set_queues (alter f i (s_queues s)) s.

(** ** openflash_reset *)
Definition reset_queues : list OpenFlashQueue :=
  [ {| q_sq_addr := 0; q_cq_addr := 0; q_depth := 0; q_sq_head := 0;
       q_cq_tail := 0; q_cq_head := 0; q_vector := 0; q_cq_phase := 1;
       q_enabled := false |};
    queue_zero ].

Definition openflash_reset (s : OpenFlashState) : OpenFlashState :=
  {| s_queues := reset_queues; s_control := 0; s_status := 0;
     s_capacity := s_capacity s; s_storage := s_storage s;
     s_backing_file := s_backing_file s |}.

(** ** Accesses to the [capacity]-byte buffer [s->storage] *)
Definition storage_load (s : OpenFlashState) (pos n : Z) : outcome (list byte) :=
  st ← deref (s_storage s);
  if (0 <=? pos) && (0 <=? n) && (pos + n <=? len st)
  then Done (slice (Z.to_nat pos) (Z.to_nat n) st) else Undef.

Definition storage_store (s : OpenFlashState) (pos n : Z) (bs : list byte)
    : outcome OpenFlashState :=
  st ← deref (s_storage s);
  if (0 <=? pos) && (0 <=? n) && (pos + n <=? len st)
  then Done (set_storage (Some (splice (Z.to_nat pos) bs st)) s) else Undef.

(** ** Device functions *)
Section Device.
Context {M F : Type} `{GuestMemory M, HostFiles F}.
Implicit Types w : machine M F.

Definition with_dev (s : OpenFlashState) w : machine M F :=
  Machine s (m_mem w) (m_files w) (m_msix_enabled w) (m_notified w).
Definition with_mem (m : M) w : machine M F :=
  Machine (m_dev w) m (m_files w) (m_msix_enabled w) (m_notified w).
Definition with_files (f : F) w : machine M F :=
  Machine (m_dev w) (m_mem w) f (m_msix_enabled w) (m_notified w).

(** [msix_notify(pdev, vector)], recorded in order. *)
Definition msix_notify (vector : Z) w : machine M F :=
  Machine (m_dev w) (m_mem w) (m_files w) (m_msix_enabled w)
    (m_notified w ++ [vector]).

(** The [if (write) pci_dma_read(...) else pci_dma_write(...)] of
    [openflash_transfer]: [n] bytes between guest address [addr] and
    [s->storage + pos]. *)
Definition transfer_segment (write : bool) (addr pos n : Z) w
    : outcome (machine M F) :=
  if write then
    s ← storage_store (m_dev w) pos n (dma_read (m_mem w) addr n);
    Done (with_dev s w)
  else
    bs ← storage_load (m_dev w) pos n;
    Done (with_mem (dma_write (m_mem w) addr bs) w).

(** The descriptor loop; [k] iterations remain from [index]. *)
Fixpoint transfer_sgl (write : bool) (dma offset length : Z) (k : nat)
    (index transferred : Z) w : outcome (bool * machine M F) :=
  match k with
  | O => Done (transferred =? length, w)
  | S k =>
      let desc := decode_OpenFlashSglDesc
        (dma_read (m_mem w) (u64 (dma + index * 16)) 16) in
      let addr := d_addr desc in
      let segment_length := d_length desc in
      if (addr =? 0) || (segment_length =? 0)
         || (u64 (length - transferred) <? segment_length)
      then Done (false, w)
      else
        w ← transfer_segment write addr (offset + transferred) segment_length w;
        transfer_sgl write dma offset length k (index + 1)
          (u64 (transferred + segment_length)) w
  end.

Definition openflash_transfer w (cmd : OpenFlashCommand) (offset length : Z)
    (write : bool) : outcome (bool * machine M F) :=
  let dma := c_data_addr cmd in
  if negb (has_flag (c_flags cmd) OF_CMD_F_SGL) then
    if dma =? 0 then Done (false, w)
    else
      w ← transfer_segment write dma offset length w;
      Done (true, w)
  else
    let count := u16 (Z.land (c_control cmd) 0xffff) in
    if (count =? 0) || (OF_MAX_SGL_ENTRIES <? count) || (dma =? 0)
    then Done (false, w)
    else transfer_sgl write dma offset length (Z.to_nat count) 0 0 w.

Definition openflash_persist w : outcome (bool * machine M F) :=
  match s_backing_file (m_dev w) with
  | None => Done (true, w)
  | Some name =>
      bs ← storage_load (m_dev w) 0 (s_capacity (m_dev w));
      let '(fs, ok) := g_file_set_contents (m_files w) name bs in
      Done (ok, with_files fs w)
  end.

(** The queue written by a successful [CREATE_IOQ]. *)
Definition created_queue (cmd : OpenFlashCommand) (vector : Z) : OpenFlashQueue :=
  {| q_sq_addr := c_data_addr cmd; q_cq_addr := c_metadata_addr cmd;
     q_depth := c_nblocks cmd; q_sq_head := 0; q_cq_tail := 0;
     q_cq_head := 0; q_vector := vector; q_cq_phase := 1;
     q_enabled := true |}.

(** The [OF_ADMIN_CREATE_IOQ] block of [openflash_execute]. *)
Definition execute_create_ioq w (cmd : OpenFlashCommand)
    : outcome (Z * Z * machine M F) :=
  let nblocks := c_nblocks cmd in
  let control := c_control cmd in
  let qid := u16 (Z.land control 0xffff) in
  let vector := u16 (Z.shiftr control 16) in
  if (qid =? 0) || (OF_MAX_QUEUES <=? qid) || (OF_MAX_QUEUES <=? vector)
     || (nblocks =? 0) || (4096 <? nblocks) || (c_data_addr cmd =? 0)
     || (c_metadata_addr cmd =? 0)
  then Done (OF_SC_INVALID_FIELD, 0, w)
  else
    _ ← deref (s_queues (m_dev w) !! Z.to_nat qid);
    Done (OF_SC_SUCCESS, qid,
          with_dev (set_queues
            (<[Z.to_nat qid := created_queue cmd vector]> (s_queues (m_dev w)))
            (m_dev w)) w).

(** The [switch] of [openflash_execute] and what follows it. *)
Definition execute_switch w (cmd : OpenFlashCommand) (offset length : Z)
    : outcome (Z * Z * machine M F) :=
  let nblocks := c_nblocks cmd in
  if c_opcode cmd =? OF_OP_READ then
    '(ok, w) ← openflash_transfer w cmd offset length false;
    if negb ok then Done (OF_SC_INVALID_FIELD, 0, w)
    else Done (OF_SC_SUCCESS, nblocks, w)
  else if c_opcode cmd =? OF_OP_WRITE then
    '(ok, w) ← openflash_transfer w cmd offset length true;
    if negb ok then Done (OF_SC_INVALID_FIELD, 0, w)
    else if has_flag (c_flags cmd) OF_CMD_F_FUA then
      '(ok, w) ← openflash_persist w;
      if negb ok then Done (OF_SC_INTERNAL, 0, w)
      else Done (OF_SC_SUCCESS, nblocks, w)
    else Done (OF_SC_SUCCESS, nblocks, w)
  else if c_opcode cmd =? OF_OP_DISCARD then
    s ← storage_store (m_dev w) offset length
          (replicate (Z.to_nat length) Byte.x00);
    Done (OF_SC_SUCCESS, nblocks, with_dev s w)
  else Done (OF_SC_INVALID_OPCODE, 0, w).

(** The status, the value stored in [*result] and the machine. *)
Definition openflash_execute w (cmd : OpenFlashCommand)
    : outcome (Z * Z * machine M F) :=
  let lba := c_lba cmd in
  let nblocks := c_nblocks cmd in
  let offset := u64 (lba * OF_BLOCK_SIZE) in
  let length := u64 (nblocks * OF_BLOCK_SIZE) in
  let capacity := s_capacity (m_dev w) in
  if c_opcode cmd =? OF_ADMIN_IDENTIFY then
    Done (OF_SC_SUCCESS, capacity / OF_BLOCK_SIZE, w)
  else if c_opcode cmd =? OF_ADMIN_CREATE_IOQ then execute_create_ioq w cmd
  else if c_opcode cmd =? OF_OP_FLUSH then
    '(ok, w) ← openflash_persist w;
    Done (if ok : bool then OF_SC_SUCCESS else OF_SC_INTERNAL, 0, w)
  else if nblocks =? 0 then Done (OF_SC_INVALID_FIELD, 0, w)
  else if (capacity <? offset) || (u64 (capacity - offset) <? length)
  then Done (OF_SC_LBA_RANGE, 0, w)
  else execute_switch w cmd offset length.

(** One iteration of the loop of [openflash_process_sq]. *)
Definition process_command w (qid : nat) : outcome (machine M F) :=
  queue ← deref (s_queues (m_dev w) !! qid);
  let cmd := decode_OpenFlashCommand
    (dma_read (m_mem w) (u64 (q_sq_addr queue + q_sq_head queue * 64)) 64) in
  '(status, result, w) ← openflash_execute w cmd;
  queue ← deref (s_queues (m_dev w) !! qid);
  head ← c_mod (q_sq_head queue + 1) (q_depth queue);
  let sq_head := u16 head in
  let cqe := {| e_result := result; e_user_data := c_user_data cmd;
                e_sq_head := sq_head; e_cid := c_cid cmd;
                e_status := status; e_flags := q_cq_phase queue |} in
  let mem := dma_write (m_mem w)
    (u64 (q_cq_addr queue + q_cq_tail queue * 64))
    (encode_OpenFlashCompletion cqe) in
  tail ← c_mod (q_cq_tail queue + 1) (q_depth queue);
  let cq_tail := u16 tail in
  let cq_phase := if cq_tail =? 0 then Z.lxor (q_cq_phase queue) 1
                  else q_cq_phase queue in
  Done (with_mem mem (with_dev
    (update_queue qid (λ q, set_cq_tail cq_tail cq_phase (set_sq_head sq_head q))
       (m_dev w)) w)).

(** [while (queue->sq_head != new_tail)]: at most [fuel] iterations. *)
Fixpoint process_loop (fuel : nat) w (qid : nat) (new_tail : Z)
    : outcome (machine M F) :=
  queue ← deref (s_queues (m_dev w) !! qid);
  if q_sq_head queue =? new_tail then Done w
  else match fuel with
       | O => NoFuel
       | S fuel => w ← process_command w qid; process_loop fuel w qid new_tail
       end.

Definition openflash_process_sq (fuel : nat) w (qid new_tail : Z)
    : outcome (machine M F) :=
  if OF_MAX_QUEUES <=? qid then Done w
  else
    queue ← deref (s_queues (m_dev w) !! Z.to_nat qid);
    if negb (has_flag (s_status (m_dev w)) OF_STATUS_READY)
       || negb (q_enabled queue) || (q_depth queue =? 0)
       || (q_depth queue <=? new_tail)
    then Done w
    else
      w ← process_loop fuel w (Z.to_nat qid) new_tail;
      if m_msix_enabled w then
        queue ← deref (s_queues (m_dev w) !! Z.to_nat qid);
        Done (msix_notify (q_vector queue) w)
      else Done w.

Definition openflash_mmio_read (s : OpenFlashState) (addr : Z) : outcome Z :=
  if addr =? OF_REG_ABI_VERSION then Done OF_ABI_VERSION
  else if addr =? OF_REG_CAPABILITIES then Done OF_CAPABILITIES
  else if addr =? OF_REG_CONTROL then Done (s_control s)
  else if addr =? OF_REG_STATUS then Done (s_status s)
  else if addr =? OF_REG_ADMIN_SQ_LO then
    q ← deref (s_queues s !! 0%nat); Done (u32 (q_sq_addr q))
  else if addr =? OF_REG_ADMIN_SQ_HI then
    q ← deref (s_queues s !! 0%nat); Done (Z.shiftr (q_sq_addr q) 32)
  else if addr =? OF_REG_ADMIN_CQ_LO then
    q ← deref (s_queues s !! 0%nat); Done (u32 (q_cq_addr q))
  else if addr =? OF_REG_ADMIN_CQ_HI then
    q ← deref (s_queues s !! 0%nat); Done (Z.shiftr (q_cq_addr q) 32)
  else if addr =? OF_REG_ADMIN_QSIZE then
    q ← deref (s_queues s !! 0%nat); Done (q_depth q)
  else Done 0.

(** [~0xffffffffULL] *)
Definition HIGH_MASK : Z := u64 (Z.lnot 0xffffffff).

Definition openflash_mmio_write (fuel : nat) w (addr value : Z)
    : outcome (machine M F) :=
  let s := m_dev w in
  if addr =? OF_REG_CONTROL then
    if has_flag value OF_CTRL_RESET then Done (with_dev (openflash_reset s) w)
    else Done (with_dev (set_control (u32 value)
           (if has_flag value OF_CTRL_ENABLE then OF_STATUS_READY else 0) s) w)
  else if addr =? OF_REG_ADMIN_SQ_LO then
    Done (with_dev (update_queue 0 (λ q, set_sq_addr
      (Z.lor (Z.land (q_sq_addr q) HIGH_MASK) value) q) s) w)
  else if addr =? OF_REG_ADMIN_SQ_HI then
    Done (with_dev (update_queue 0 (λ q, set_sq_addr
      (Z.lor (Z.land (q_sq_addr q) 0xffffffff) (u64 (Z.shiftl value 32))) q) s) w)
  else if addr =? OF_REG_ADMIN_CQ_LO then
    Done (with_dev (update_queue 0 (λ q, set_cq_addr
      (Z.lor (Z.land (q_cq_addr q) HIGH_MASK) value) q) s) w)
  else if addr =? OF_REG_ADMIN_CQ_HI then
    Done (with_dev (update_queue 0 (λ q, set_cq_addr
      (Z.lor (Z.land (q_cq_addr q) 0xffffffff) (u64 (Z.shiftl value 32))) q) s) w)
  else if addr =? OF_REG_ADMIN_QSIZE then
    let depth := if (2 <=? value) && (value <=? 4096) then value else 0 in
    Done (with_dev (update_queue 0 (set_size depth (negb (depth =? 0))) s) w)
  else if (OF_REG_DOORBELL_BASE <=? addr)
          && (addr <? OF_REG_DOORBELL_BASE + OF_MAX_QUEUES * 8) then
    let qid := u16 ((addr - OF_REG_DOORBELL_BASE) / 8) in
    queue ← deref (s_queues s !! Z.to_nat qid);
    if (addr - OF_REG_DOORBELL_BASE) `mod` 8 =? 0
    then openflash_process_sq fuel w qid (u16 value)
    else if value <? q_depth queue
    then Done (with_dev (update_queue (Z.to_nat qid) (set_cq_head (u16 value)) s) w)
    else Done w
  else Done w.

(** ** openflash_realize

    [msix_ok] is whether [msix_init_exclusive_bar] succeeds. *)
Inductive realize_error :=
| EBadCapacity
| ECannotLoad
| EBadLength
| EMsix.

Definition openflash_realize (msix_ok : bool) w
    : option realize_error * machine M F :=
  let s := m_dev w in
  if (s_capacity s <? OF_BLOCK_SIZE)
     || negb (s_capacity s `mod` OF_BLOCK_SIZE =? 0)
  then (Some EBadCapacity, w)
  else
    let zeroed := replicate (Z.to_nat (s_capacity s)) Byte.x00 in
    let loaded : realize_error + list byte :=
      match s_backing_file s with
      | Some name =>
          if g_file_test_exists (m_files w) name then
            match g_file_get_contents (m_files w) name with
            | None => inl ECannotLoad
            | Some contents =>
                if negb (len contents =? s_capacity s) then inl EBadLength
                else inr (splice 0 contents zeroed)
            end
          else inr zeroed
      | None => inr zeroed
      end in
    match loaded with
    | inl e => (Some e, with_dev (set_storage None s) w)
    | inr storage =>
        if negb msix_ok then (Some EMsix, with_dev (set_storage None s) w)
        else (None, with_dev (openflash_reset (set_storage (Some storage) s)) w)
    end.

(** [openflash_exit]: the freed buffer can no longer be used. *)
Definition openflash_exit w : machine M F :=
  with_dev (set_storage None (m_dev w)) w.
End Device.

(** ** PCI identity (openflash_class_init) *)
Record pci_identity := { vendor_id : Z; device_id : Z; revision : Z }.

Definition openflash_identity : pci_identity :=
  {| vendor_id := 0x1d1d; device_id := 0xf15a; revision := 1 |}.
