(* ===== verification/DeviceSafety.v ===== *)
(** * Safety of the QEMU device against an arbitrary guest

    The type invariant of the device state, its preservation by every device
    function, and memory safety: whatever bytes the guest leaves in its rings
    and whatever it writes to the registers, no device function reaches
    undefined behaviour. *)
From S2P Require Import Prelude Packed Environment QemuDevice.

(** ** Invariants *)
Record queue_wf (q : OpenFlashQueue) : Prop := {
  wf_sq_addr : 0 ≤ q_sq_addr q < 2 ^ 64;
  wf_cq_addr : 0 ≤ q_cq_addr q < 2 ^ 64;
  wf_depth : 0 ≤ q_depth q ≤ 4096;
  wf_sq_head : 0 ≤ q_sq_head q < 2 ^ 16;
  wf_cq_tail : 0 ≤ q_cq_tail q < 2 ^ 16;
  wf_cq_head : 0 ≤ q_cq_head q < 2 ^ 16;
  wf_vector : 0 ≤ q_vector q < OF_MAX_QUEUES;
  wf_phase : q_cq_phase q = 0 ∨ q_cq_phase q = 1;
  wf_enabled : q_enabled q = true → 0 < q_depth q;
}.

(** The buffer behind [s->storage] has exactly [capacity] bytes, a whole number
    of blocks. *)
Definition storage_wf (s : OpenFlashState) : Prop :=
  (4096 ≤ s_capacity s < 2 ^ 64 ∧ s_capacity s `mod` OF_BLOCK_SIZE = 0) ∧
  ∃ st, s_storage s = Some st ∧ len st = s_capacity s.

Record dev_wf (s : OpenFlashState) : Prop := {
  wf_queues_len : len (s_queues s) = OF_MAX_QUEUES;
  wf_queues : Forall queue_wf (s_queues s);
  wf_control : 0 ≤ s_control s < 2 ^ 32;
  wf_status : s_status s = 0 ∨ s_status s = OF_STATUS_READY;
  wf_storage : storage_wf s;
}.

Lemma length_encode_completion e : length (encode_OpenFlashCompletion e) = 64%nat.
Proof. unfold encode_OpenFlashCompletion. by rewrite length_pack. Qed.

(** Fields of a fetched command are within their widths. *)
Record cmd_wf (c : OpenFlashCommand) : Prop := {
  wf_lba : 0 ≤ c_lba c < 2 ^ 64;
  wf_nblocks : 0 ≤ c_nblocks c < 2 ^ 32;
  wf_ctl : 0 ≤ c_control c < 2 ^ 32;
  wf_data : 0 ≤ c_data_addr c < 2 ^ 64;
  wf_meta : 0 ≤ c_metadata_addr c < 2 ^ 64;
}.

Lemma decode_command_wf bs : length bs = 64%nat → cmd_wf (decode_OpenFlashCommand bs).
Proof.
  intros Hl. unfold decode_OpenFlashCommand.
  pose proof (unpack_fits OpenFlashCommand_layout bs Hl) as Hf.
  pose proof (length_unpack OpenFlashCommand_layout bs) as Hn.
  destruct (unpack OpenFlashCommand_layout bs) as [| ? l]; [done |].
  do 12 (destruct l as [| ? l]; [done |]). destruct l; [| done].
  unfold fits, OpenFlashCommand_layout in Hf. rewrite !Forall2_cons in Hf.
  destruct_and!. by constructor.
Qed.

Lemma decode_sgl_wf bs :
  length bs = 16%nat →
  0 ≤ d_addr (decode_OpenFlashSglDesc bs) < 2 ^ 64 ∧
  0 ≤ d_length (decode_OpenFlashSglDesc bs) < 2 ^ 32.
Proof.
  intros Hl. unfold decode_OpenFlashSglDesc.
  pose proof (unpack_fits OpenFlashSglDesc_layout bs Hl) as Hf.
  pose proof (length_unpack OpenFlashSglDesc_layout bs) as Hn.
  destruct (unpack OpenFlashSglDesc_layout bs) as [| ? [| ? [| ? [|]]]]; try done.
  unfold fits, OpenFlashSglDesc_layout in Hf. rewrite !Forall2_cons in Hf.
  destruct_and!. done.
Qed.

(** What data transfers leave alone: everything but the bytes of the buffer. *)
Record same_transport (s s' : OpenFlashState) : Prop := {
  st_queues : s_queues s' = s_queues s;
  st_control : s_control s' = s_control s;
  st_status : s_status s' = s_status s;
  st_capacity : s_capacity s' = s_capacity s;
  st_backing : s_backing_file s' = s_backing_file s;
}.

Lemma same_transport_refl s : same_transport s s.
Proof. by constructor. Qed.

Lemma same_transport_trans s1 s2 s3 :
  same_transport s1 s2 → same_transport s2 s3 → same_transport s1 s3.
Proof. intros [] []. constructor; congruence. Qed.

#[export] Instance same_transport_preorder : PreOrder same_transport.
Proof. split; [exact same_transport_refl | exact same_transport_trans]. Qed.

Lemma storage_len_wf s st st' :
  dev_wf s → s_storage s = Some st → length st' = length st →
  dev_wf (set_storage (Some st') s).
Proof.
  intros [? ? ? ? (Hc & st0 & Hst & Hlen)] E Hl. constructor; simpl; try done.
  split; [done |]. exists st'. split; [done |]. simpl. simplify_eq. lia.
Qed.

(** ** Buffer accesses *)
Lemma storage_load_ok s pos n :
  dev_wf s → 0 ≤ pos → 0 ≤ n → pos + n ≤ s_capacity s →
  ∃ st, s_storage s = Some st ∧
    storage_load s pos n = Done (slice (Z.to_nat pos) (Z.to_nat n) st) ∧
    len (slice (Z.to_nat pos) (Z.to_nat n) st) = n.
Proof.
  intros Hwf Hp Hn Hb. destruct (wf_storage _ Hwf) as (_ & st & Hst & Hlen).
  exists st. unfold storage_load. rewrite Hst. cbn.
  rewrite !(proj2 (Z.leb_le _ _)) by lia. cbn.
  repeat split. rewrite length_slice; lia.
Qed.

Lemma storage_store_ok s pos n bs :
  dev_wf s → 0 ≤ pos → 0 ≤ n → pos + n ≤ s_capacity s → len bs = n →
  ∃ st, s_storage s = Some st ∧
    storage_store s pos n bs =
      Done (set_storage (Some (splice (Z.to_nat pos) bs st)) s) ∧
    dev_wf (set_storage (Some (splice (Z.to_nat pos) bs st)) s).
Proof.
  intros Hwf Hp Hn Hb Hbs. destruct (wf_storage _ Hwf) as (_ & st & Hst & Hlen).
  exists st. unfold storage_store. rewrite Hst. cbn.
  rewrite !(proj2 (Z.leb_le _ _)) by lia. cbn.
  do 2 (split; [done |]). eapply storage_len_wf; [done.. |].
  apply length_splice. lia.
Qed.

(** ** Device functions *)
Section Safety.
Context {M F : Type} `{GM : GuestMemory M, !GuestMemoryLaws M, HF : HostFiles F}.
Implicit Types w : machine M F.

(** A step of a data command: it may rewrite the buffer and guest memory. *)
Record data_step w w' : Prop := {
  ds_wf : dev_wf (m_dev w');
  ds_transport : same_transport (m_dev w) (m_dev w');
  ds_msix : m_msix_enabled w' = m_msix_enabled w;
  ds_notified : m_notified w' = m_notified w;
}.

Lemma data_step_refl w : dev_wf (m_dev w) → data_step w w.
Proof. by constructor. Qed.

Lemma data_step_trans w1 w2 w3 :
  data_step w1 w2 → data_step w2 w3 → data_step w1 w3.
Proof. intros [] []. constructor; [done | by etrans | congruence..]. Qed.

Lemma transfer_segment_safe write addr pos n w :
  dev_wf (m_dev w) → 0 ≤ pos → 0 ≤ n → pos + n ≤ s_capacity (m_dev w) →
  ∃ w', transfer_segment write addr pos n w = Done w' ∧ data_step w w'.
Proof.
  intros Hwf Hp Hn Hb. unfold transfer_segment. destruct write.
  - destruct (storage_store_ok (m_dev w) pos n (dma_read (m_mem w) addr n))
      as (st & Hst & -> & Hwf'); [done.. | rewrite dma_read_length; lia |].
    eexists. split; [done |]. by constructor.
  - destruct (storage_load_ok (m_dev w) pos n) as (st & Hst & -> & _); [done.. |].
    eexists. split; [done |]. by constructor.
Qed.

Lemma transfer_sgl_safe write dma offset length k index transferred w :
  dev_wf (m_dev w) → 0 ≤ offset → 0 ≤ transferred ≤ length →
  offset + length ≤ s_capacity (m_dev w) →
  ∃ ok w', transfer_sgl write dma offset length k index transferred w
             = Done (ok, w') ∧ data_step w w'.
Proof.
  intros Hwf Ho. revert index transferred w Hwf.
  induction k as [| k IH]; intros index transferred w Hwf Ht Hb; cbn [transfer_sgl].
  { eauto using data_step_refl. }
  destruct (wf_storage _ Hwf) as [Hcap _].
  case_split; [eauto using data_step_refl |]. bprop.
  destruct (decode_sgl_wf (dma_read (m_mem w) (u64 (dma + index * 16)) 16)) as [Ha Hl].
  { by rewrite dma_read_length. }
  set (d := decode_OpenFlashSglDesc _) in *.
  match goal with Hle : _ ≤ u64 _ |- _ => rewrite u64_small in Hle by lia end.
  destruct (transfer_segment_safe write (d_addr d) (offset + transferred) (d_length d) w)
    as (w1 & -> & Hs1); [done | lia.. |]. outcomes.
  rewrite u64_small by lia.
  destruct (IH (index + 1) (transferred + d_length d) w1) as (ok & w2 & -> & Hs2).
  - apply Hs1.
  - lia.
  - rewrite (st_capacity _ _ (ds_transport _ _ Hs1)). lia.
  - eauto using data_step_trans.
Qed.

Lemma transfer_safe w cmd offset length write :
  dev_wf (m_dev w) → 0 ≤ offset → 0 ≤ length →
  offset + length ≤ s_capacity (m_dev w) →
  ∃ ok w', openflash_transfer w cmd offset length write = Done (ok, w') ∧
    data_step w w'.
Proof.
  intros Hwf Ho Hl Hb. unfold openflash_transfer.
  repeat case_split; eauto using data_step_refl.
  - destruct (transfer_segment_safe write (c_data_addr cmd) offset length w)
      as (w1 & -> & Hs); eauto.
  - apply transfer_sgl_safe; auto; lia.
Qed.

Lemma persist_safe w :
  dev_wf (m_dev w) →
  ∃ ok fs, openflash_persist w = Done (ok, with_files fs w).
Proof.
  intros Hwf. unfold openflash_persist.
  case_split; [| exists true, (m_files w); by destruct w].
  destruct (wf_storage _ Hwf) as [[Hcap _] _].
  destruct (storage_load_ok (m_dev w) 0 (s_capacity (m_dev w)))
    as (st & _ & -> & _); [done | done | lia.. |].
  outcomes. destruct (g_file_set_contents _ _ _) as [fs ok]. eauto.
Qed.

(** A step of [openflash_execute]: only [CREATE_IOQ] touches the queues, and
    only queue 1. *)
Record exec_step (cmd : OpenFlashCommand) w w' : Prop := {
  es_wf : dev_wf (m_dev w');
  es_status : s_status (m_dev w') = s_status (m_dev w);
  es_capacity : s_capacity (m_dev w') = s_capacity (m_dev w);
  es_backing : s_backing_file (m_dev w') = s_backing_file (m_dev w);
  es_msix : m_msix_enabled w' = m_msix_enabled w;
  es_notified : m_notified w' = m_notified w;
  es_queues :
    s_queues (m_dev w') = s_queues (m_dev w) ∨
    c_opcode cmd = OF_ADMIN_CREATE_IOQ ∧
    ∃ v, s_queues (m_dev w') = <[1%nat := created_queue cmd v]> (s_queues (m_dev w));
}.

Lemma data_exec_step cmd w w' : data_step w w' → exec_step cmd w w'.
Proof. intros [? [] ? ?]. constructor; auto. Qed.

Lemma exec_step_refl cmd w : dev_wf (m_dev w) → exec_step cmd w w.
Proof. constructor; auto. Qed.

Lemma created_queue_wf cmd v :
  cmd_wf cmd → 0 ≤ v < OF_MAX_QUEUES → 0 < c_nblocks cmd ≤ 4096 →
  queue_wf (created_queue cmd v).
Proof. intros [] ? ?. constructor; cbn; auto; lia. Qed.

Lemma create_exec_step cmd w v :
  dev_wf (m_dev w) → cmd_wf cmd → c_opcode cmd = OF_ADMIN_CREATE_IOQ →
  0 ≤ v < OF_MAX_QUEUES → 0 < c_nblocks cmd ≤ 4096 →
  exec_step cmd w (with_dev (set_queues
    (<[1%nat := created_queue cmd v]> (s_queues (m_dev w))) (m_dev w)) w).
Proof.
  intros [] Hc Hop Hv Hn. constructor; cbn; try done; [| right; eauto].
  constructor; cbn; try done.
  - by rewrite length_insert.
  - apply Forall_insert; [done |]. by apply created_queue_wf.
Qed.

(** The status codes the device completes commands with. *)
Definition completion_codes : list Z :=
  [OF_SC_SUCCESS; OF_SC_INVALID_OPCODE; OF_SC_INVALID_FIELD; OF_SC_LBA_RANGE;
   OF_SC_INTERNAL].

Lemma completion_codes_range status : status ∈ completion_codes → 0 ≤ status < 2 ^ 16.
Proof.
  unfold completion_codes. intros Hst.
  repeat (apply elem_of_cons in Hst as [-> | Hst]; [done |]). inversion Hst.
Qed.

Definition exec_ok (cmd : OpenFlashCommand) w
    (o : outcome (Z * Z * machine M F)) : Prop :=
  ∃ status result w', o = Done (status, result, w') ∧ exec_step cmd w w' ∧
    status ∈ completion_codes ∧ 0 ≤ result < 2 ^ 64.

Lemma exec_ok_done cmd w w' status result :
  exec_step cmd w w' → status ∈ completion_codes → 0 ≤ result < 2 ^ 64 →
  exec_ok cmd w (Done (status, result, w')).
Proof. unfold exec_ok. eauto 8. Qed.

Ltac in_codes := unfold completion_codes; repeat first [by left | right].

Lemma create_ioq_safe w cmd :
  dev_wf (m_dev w) → cmd_wf cmd → c_opcode cmd = OF_ADMIN_CREATE_IOQ →
  exec_ok cmd w (execute_create_ioq w cmd).
Proof.
  intros Hwf Hc Hop. unfold execute_create_ioq.
  case_split; [apply exec_ok_done; [by apply exec_step_refl | in_codes | lia] |].
  bprop. pose proof (wf_nblocks _ Hc) as Hnb.
  pose proof (u16_range (Z.land (c_control cmd) 0xffff)) as Hq.
  pose proof (u16_range (Z.shiftr (c_control cmd) 16)) as Hv.
  pose proof (wf_queues_len _ Hwf) as Hl. unfold OF_MAX_QUEUES in *.
  assert (u16 (Z.land (c_control cmd) 0xffff) = 1) as -> by lia.
  destruct (lookup_lt_is_Some_2 (s_queues (m_dev w)) (Z.to_nat 1)) as [q ->];
    [lia |]. outcomes.
  apply exec_ok_done; [| in_codes | lia].
  apply create_exec_step; auto; unfold OF_MAX_QUEUES; lia.
Qed.

Lemma persist_exec_step cmd w fs :
  dev_wf (m_dev w) → exec_step cmd w (with_files fs w).
Proof. constructor; auto. Qed.

Lemma exec_step_trans_data cmd w1 w2 w3 :
  data_step w1 w2 → exec_step cmd w2 w3 → exec_step cmd w1 w3.
Proof.
  intros [? [Hq] ? ?] []. rewrite Hq in *. constructor; congruence.
Qed.

Lemma switch_safe w cmd offset length :
  dev_wf (m_dev w) → cmd_wf cmd → 0 ≤ offset → 0 ≤ length →
  offset + length ≤ s_capacity (m_dev w) →
  exec_ok cmd w (execute_switch w cmd offset length).
Proof.
  intros Hwf Hc Ho Hl Hb. unfold execute_switch.
  pose proof (wf_nblocks _ Hc) as Hnb.
  case_split.
  { destruct (transfer_safe w cmd offset length false) as (ok & w1 & -> & Hs); auto.
    outcomes. apply data_exec_step with (cmd := cmd) in Hs.
    case_split; apply exec_ok_done; auto; (in_codes || lia). }
  case_split.
  { destruct (transfer_safe w cmd offset length true) as (ok & w1 & -> & Hs); auto.
    outcomes. pose proof (data_exec_step cmd _ _ Hs) as Hs'.
    destruct (persist_safe w1 (ds_wf _ _ Hs)) as (ok' & fs & ->). outcomes.
    pose proof (exec_step_trans_data cmd _ _ _ Hs
                  (persist_exec_step cmd w1 fs (ds_wf _ _ Hs))).
    repeat case_split; apply exec_ok_done; auto; (in_codes || lia). }
  case_split; [| apply exec_ok_done; auto using exec_step_refl; (in_codes || lia)].
  destruct (storage_store_ok (m_dev w) offset length
              (replicate (Z.to_nat length) Byte.x00)) as (st & Hst & -> & Hwf');
    [auto.. | rewrite length_replicate; lia |]. outcomes.
  apply exec_ok_done; [by constructor; auto | in_codes | lia].
Qed.

(** The range check of [openflash_execute] keeps transfers in the buffer,
    also when [lba * 4096] wraps. *)
Lemma range_check_sound capacity offset length :
  0 ≤ capacity < 2 ^ 64 → 0 ≤ offset → 
  (capacity <? offset) || (u64 (capacity - offset) <? length) = false →
  offset + length ≤ capacity.
Proof. intros. bprop. rewrite u64_small in *; lia. Qed.

Lemma execute_safe w cmd :
  dev_wf (m_dev w) → cmd_wf cmd → exec_ok cmd w (openflash_execute w cmd).
Proof.
  intros Hwf Hc. unfold openflash_execute.
  destruct (wf_storage _ Hwf) as [Hcap _].
  pose proof (exec_step_refl cmd w Hwf) as Hr.
  pose proof (u64_range (c_lba cmd * OF_BLOCK_SIZE)) as Hoff.
  pose proof (u64_range (c_nblocks cmd * OF_BLOCK_SIZE)) as Hlen.
  case_split.
  { apply exec_ok_done; [done | in_codes |]. unfold OF_BLOCK_SIZE.
    split; [apply Z.div_pos | apply Z.div_lt_upper_bound]; lia. }
  case_split; [bprop; by apply create_ioq_safe |].
  case_split.
  { destruct (persist_safe w Hwf) as (ok & fs & ->). outcomes.
    apply exec_ok_done; [by apply persist_exec_step | | lia].
    destruct ok; in_codes. }
  case_split; [apply exec_ok_done; [done | in_codes | lia] |].
  case_split; [apply exec_ok_done; [done | in_codes | lia] |].
  apply switch_safe; auto; [lia.. |]. apply range_check_sound; auto; lia.
Qed.

(** ** Submission queue processing *)
Lemma update_queue_wf s i f :
  dev_wf s → (∀ q, s_queues s !! i = Some q → queue_wf q → queue_wf (f q)) →
  dev_wf (update_queue i f s).
Proof.
  intros [] Hf. constructor; cbn; auto.
  - by rewrite length_alter.
  - apply Forall_alter; auto.
Qed.

(** The ring part of one loop iteration: both cursors advance modulo the
    depth, the phase flips when the completion cursor wraps to zero. *)
Definition advance (q : OpenFlashQueue) : OpenFlashQueue :=
  let tail := (q_cq_tail q + 1) `mod` q_depth q in
  set_cq_tail tail (if tail =? 0 then Z.lxor (q_cq_phase q) 1 else q_cq_phase q)
    (set_sq_head ((q_sq_head q + 1) `mod` q_depth q) q).

Lemma advance_wf q : queue_wf q → 0 < q_depth q → queue_wf (advance q).
Proof.
  intros [] Hd.
  pose proof (Z.mod_pos_bound (q_sq_head q + 1) (q_depth q) Hd).
  pose proof (Z.mod_pos_bound (q_cq_tail q + 1) (q_depth q) Hd).
  constructor; cbn; auto; try lia.
  case_split; [| done]. destruct wf_phase0 as [-> | ->]; auto.
Qed.

(** The fetched command and the queue entry an iteration completes. *)
Definition fetch w (q : OpenFlashQueue) : OpenFlashCommand :=
  decode_OpenFlashCommand
    (dma_read (m_mem w) (u64 (q_sq_addr q + q_sq_head q * 64)) 64).

Definition completion_of (cmd : OpenFlashCommand) (q : OpenFlashQueue)
    (status result : Z) : OpenFlashCompletion :=
  {| e_result := result; e_user_data := c_user_data cmd;
     e_sq_head := q_sq_head (advance q); e_cid := c_cid cmd;
     e_status := status; e_flags := q_cq_phase q |}.

Lemma fetch_wf w q : cmd_wf (fetch w q).
Proof. apply decode_command_wf. by rewrite dma_read_length. Qed.

(** The machine after the completion is written and the cursors advanced. *)
Definition post (qid : nat) (q : OpenFlashQueue) (cmd : OpenFlashCommand)
    (status result : Z) w : machine M F :=
  with_mem (dma_write (m_mem w) (u64 (q_cq_addr q + q_cq_tail q * 64))
      (encode_OpenFlashCompletion (completion_of cmd q status result)))
    (with_dev (set_queues (<[qid := advance q]> (s_queues (m_dev w))) (m_dev w)) w).

(** One iteration, in terms of [openflash_execute] and [post]: [q1] is the
    queue as the command left it. *)
Lemma process_command_eq w qid q status result w1 q1 :
  s_queues (m_dev w) !! qid = Some q →
  openflash_execute w (fetch w q) = Done (status, result, w1) →
  s_queues (m_dev w1) !! qid = Some q1 → queue_wf q1 → 0 < q_depth q1 →
  process_command w qid = Done (post qid q1 (fetch w q) status result w1).
Proof.
  intros Hq He Hq1 Hwf Hd. unfold process_command. rewrite Hq. outcomes.
  unfold fetch in *. rewrite He. outcomes. rewrite Hq1. outcomes.
  pose proof (Z.mod_pos_bound (q_sq_head q1 + 1) (q_depth q1) Hd).
  pose proof (Z.mod_pos_bound (q_cq_tail q1 + 1) (q_depth q1) Hd).
  pose proof (wf_depth _ Hwf).
  rewrite !c_mod_pos by done. outcomes. rewrite !u16_small by lia.
  unfold post, update_queue. rewrite (alter_insert _ _ _ q1) by done. done.
Qed.

(** What survives an iteration of the loop on an enabled queue. *)
Record loop_step (qid : nat) w w' : Prop := {
  ls_wf : dev_wf (m_dev w');
  ls_enabled : ∃ q, s_queues (m_dev w') !! qid = Some q ∧ q_enabled q = true;
  ls_status : s_status (m_dev w') = s_status (m_dev w);
  ls_capacity : s_capacity (m_dev w') = s_capacity (m_dev w);
  ls_backing : s_backing_file (m_dev w') = s_backing_file (m_dev w);
  ls_msix : m_msix_enabled w' = m_msix_enabled w;
  ls_notified : m_notified w' = m_notified w;
}.

Lemma loop_step_trans qid w1 w2 w3 :
  loop_step qid w1 w2 → loop_step qid w2 w3 → loop_step qid w1 w3.
Proof. intros [] []. constructor; [done | done | congruence..]. Qed.

(** The queue a command runs on is still enabled after it. *)
Lemma exec_step_enabled cmd w w' qid q :
  exec_step cmd w w' → s_queues (m_dev w) !! qid = Some q → q_enabled q = true →
  ∃ q', s_queues (m_dev w') !! qid = Some q' ∧ q_enabled q' = true.
Proof.
  intros Hs Hq Hen. destruct (es_queues _ _ _ Hs) as [-> | (_ & v & ->)]; [eauto |].
  destruct (decide (qid = 1%nat)) as [-> | Hne].
  - rewrite list_lookup_insert_eq by (by eapply lookup_lt_Some). eauto.
  - rewrite list_lookup_insert_ne by done. eauto.
Qed.

Lemma process_command_safe w qid q :
  dev_wf (m_dev w) → s_queues (m_dev w) !! qid = Some q → q_enabled q = true →
  ∃ w', process_command w qid = Done w' ∧ loop_step qid w w'.
Proof.
  intros Hwf Hq Hen.
  destruct (execute_safe w (fetch w q) Hwf (fetch_wf w q))
    as (status & result & w1 & He & Hs & _).
  destruct (exec_step_enabled _ _ _ _ _ Hs Hq Hen) as (q1 & Hq1 & Hen1).
  pose proof (Forall_lookup_1 _ _ _ _ (wf_queues _ (es_wf _ _ _ Hs)) Hq1) as Hwf1.
  pose proof (wf_enabled _ Hwf1 Hen1) as Hd.
  rewrite (process_command_eq w qid q status result w1 q1) by done.
  eexists. split; [done |]. destruct Hs. constructor; cbn; auto.
  - destruct es_wf0. constructor; cbn; auto.
    + by rewrite length_insert.
    + by apply Forall_insert, advance_wf.
  - exists (advance q1). rewrite list_lookup_insert_eq; [done |].
    by eapply lookup_lt_Some.
Qed.

(** [safe P o]: [o] is not undefined, and satisfies [P] if it returned. *)
Definition safe {A} (P : A → Prop) (o : outcome A) : Prop :=
  match o with Done a => P a | Undef => False | NoFuel => True end.

Lemma process_loop_safe fuel w qid q new_tail :
  dev_wf (m_dev w) → s_queues (m_dev w) !! qid = Some q → q_enabled q = true →
  safe (loop_step qid w) (process_loop fuel w qid new_tail).
Proof.
  revert w q. induction fuel as [| fuel IH]; intros w q Hwf Hq Hen;
    cbn [process_loop]; rewrite Hq; outcomes; (case_split; [constructor; eauto |]); [done |].
  destruct (process_command_safe w qid q Hwf Hq Hen) as (w1 & -> & Hs). outcomes.
  destruct (ls_enabled _ _ _ Hs) as (q1 & Hq1 & Hen1).
  specialize (IH w1 q1 (ls_wf _ _ _ Hs) Hq1 Hen1).
  destruct (process_loop fuel w1 qid new_tail); [| done..].
  cbn in *. by eapply loop_step_trans.
Qed.

Lemma process_sq_safe fuel w qid new_tail :
  dev_wf (m_dev w) → 0 ≤ qid →
  safe (λ w', dev_wf (m_dev w')) (openflash_process_sq fuel w qid new_tail).
Proof.
  intros Hwf Hqid. unfold openflash_process_sq.
  destruct (Z.leb_spec OF_MAX_QUEUES qid) as [| Hlt]; [done |].
  pose proof (wf_queues_len _ Hwf) as Hl.
  destruct (lookup_lt_is_Some_2 (s_queues (m_dev w)) (Z.to_nat qid)) as [q Hq]; [lia |].
  rewrite Hq. outcomes. case_split; [done |]. bprop.
  pose proof (process_loop_safe fuel w (Z.to_nat qid) q new_tail Hwf Hq) as Hs.
  destruct (process_loop fuel w (Z.to_nat qid) new_tail) as [w1 | |]; [| tauto | done].
  specialize (Hs ltac:(done)). outcomes.
  destruct (ls_enabled _ _ _ Hs) as (q1 & -> & _). outcomes.
  case_split; apply Hs.
Qed.

(** ** Register access *)
Lemma addr_lo_range a value :
  0 ≤ a < 2 ^ 64 → 0 ≤ value < 2 ^ 64 →
  0 ≤ Z.lor (Z.land a HIGH_MASK) value < 2 ^ 64.
Proof. intros. apply lor_range; [lia | | done]. by apply land_range. Qed.

Lemma addr_hi_range a value :
  0 ≤ a < 2 ^ 64 → 0 ≤ Z.lor (Z.land a 0xffffffff) (u64 (Z.shiftl value 32)) < 2 ^ 64.
Proof.
  intros. apply lor_range; [lia | by apply land_range | apply u64_range].
Qed.

Lemma queue0_ok s : dev_wf s → ∃ q, s_queues s !! 0%nat = Some q ∧ queue_wf q.
Proof.
  intros [Hl Hq _ _ _]. destruct (s_queues s) as [| q qs]; [done |].
  exists q. split; [done |]. by apply Forall_cons in Hq as [? _].
Qed.

Lemma reset_wf s : dev_wf s → dev_wf (openflash_reset s).
Proof.
  intros [? ? ? ? Hst]. constructor; cbn; auto; [| lia].
  repeat constructor; cbn; auto; done.
Qed.

Lemma mmio_write_safe fuel w addr value :
  dev_wf (m_dev w) → 0 ≤ value < 2 ^ 64 →
  safe (λ w', dev_wf (m_dev w')) (openflash_mmio_write fuel w addr value).
Proof.
  intros Hwf Hv. unfold openflash_mmio_write.
  case_split.
  { case_split; [by apply reset_wf |]. destruct Hwf. constructor; cbn; auto.
    - apply u32_range.
    - case_split; auto. }
  do 4 (case_split; [apply update_queue_wf; [done |]; intros q _ [];
    constructor; cbn; auto using addr_lo_range, addr_hi_range |]).
  case_split.
  { apply update_queue_wf; [done |]. intros q _ []. constructor; cbn; auto.
    - case_split; bprop; lia.
    - intros. bprop. case_split; bprop; lia. }
  destruct (_ && _) eqn:Hdb; [| done]. bprop. unfold OF_MAX_QUEUES in *.
  set (qid := u16 _). assert (0 ≤ qid < 2) as Hqid.
  { unfold qid. rewrite u16_small.
    all: split; [apply Z.div_pos; lia | apply Z.div_lt_upper_bound; lia]. }
  pose proof (wf_queues_len _ Hwf) as Hl. unfold OF_MAX_QUEUES in Hl.
  destruct (lookup_lt_is_Some_2 (s_queues (m_dev w)) (Z.to_nat qid)) as [q Hq]; [lia |].
  rewrite Hq. outcomes.
  case_split; [apply process_sq_safe; [done | lia] |].
  case_split; [| done]. apply update_queue_wf; [done |]. intros q' _ [].
  constructor; cbn; auto. apply u16_range.
Qed.

Lemma mmio_read_safe s addr : dev_wf s → ∃ v, openflash_mmio_read s addr = Done v.
Proof.
  intros Hwf. destruct (queue0_ok s Hwf) as (q & Hq & _).
  unfold openflash_mmio_read. rewrite Hq. outcomes. repeat case_split; eauto.
Qed.

(** The width of each register. *)
Lemma mmio_read_typed s addr :
  dev_wf s → ∃ v, openflash_mmio_read s addr = Done v ∧
    0 ≤ v < (if addr =? OF_REG_CAPABILITIES then 2 ^ 64 else 2 ^ 32).
Proof.
  intros Hwf. destruct (queue0_ok s Hwf) as (q & Hq & [[? Hs] [? Hc] ? _ _ _ _ _ _]).
  assert (∀ a, 0 ≤ a < 2 ^ 64 → 0 ≤ Z.shiftr a 32 < 2 ^ 32) as Hhi.
  { intros a Ha. rewrite Z.shiftr_div_pow2 by done.
    split; [apply Z.div_pos; lia | apply Z.div_lt_upper_bound; lia]. }
  unfold openflash_mmio_read. rewrite Hq. outcomes.
  destruct (addr =? OF_REG_ABI_VERSION) eqn:E; bprop; [subst; by eexists |].
  destruct (addr =? OF_REG_CAPABILITIES); [by eexists |].
  repeat (destruct (_ =? _); [eexists; split; [done |];
    first [apply Hwf | destruct (wf_status _ Hwf) as [-> | ->]; done | apply u32_range |
           apply Hhi; done | lia] |]).
  by eexists.
Qed.
End Safety.

(** ** Reachable machines *)
Section Reachable.
Context {M F : Type} `{GM : GuestMemory M, !GuestMemoryLaws M, HF : HostFiles F}.
Implicit Types w : machine M F.

(** What a guest can do to a realized device: rewrite its own memory, switch
    MSI-X on or off, reset the device, access its registers. *)
Inductive guest_step : relation (machine M F) :=
| guest_memory w m : guest_step w (with_mem m w)
| guest_msix w b :
    guest_step w (Machine (m_dev w) (m_mem w) (m_files w) b (m_notified w))
| guest_reset w : guest_step w (with_dev (openflash_reset (m_dev w)) w)
| guest_mmio w fuel addr value w' :
    0 ≤ value < 2 ^ 64 → openflash_mmio_write fuel w addr value = Done w' →
    guest_step w w'.

Lemma guest_step_wf w w' : guest_step w w' → dev_wf (m_dev w) → dev_wf (m_dev w').
Proof.
  intros [| | | w0 fuel addr value w1 Hv E] Hwf; [done.. | by apply reset_wf |].
  pose proof (mmio_write_safe fuel w0 addr value Hwf Hv) as Hs. by rewrite E in Hs.
Qed.

Lemma guest_steps_wf w w' : rtc guest_step w w' → dev_wf (m_dev w) → dev_wf (m_dev w').
Proof. induction 1; eauto using guest_step_wf. Qed.

(** A realized device satisfies the invariant, with a zeroed or loaded buffer. *)
Lemma realize_wf msix_ok w w' :
  s_capacity (m_dev w) < 2 ^ 64 →
  openflash_realize msix_ok w = (None, w') → dev_wf (m_dev w').
Proof.
  intros Hcap. unfold openflash_realize.
  destruct (Z.ltb_spec (s_capacity (m_dev w)) OF_BLOCK_SIZE) as [| Hmin]; [done |].
  unfold OF_BLOCK_SIZE in Hmin. cbn [orb].
  case_split; [done |].
  set (zeroed := replicate _ _).
  assert (len zeroed = s_capacity (m_dev w)) as Hz
    by (unfold zeroed; rewrite length_replicate; lia).
  assert (∀ st, len st = s_capacity (m_dev w) →
    dev_wf (openflash_reset (set_storage (Some st) (m_dev w)))) as Hok.
  { intros st Hst. constructor; cbn; auto; [| lia |].
    - repeat constructor; cbn; auto; done.
    - split; [cbn; lia | eauto]. }
  intros E. repeat case_split; simplify_eq; cbn; auto.
  bprop. apply Hok. rewrite length_splice; lia.
Qed.
End Reachable.
