(* ===== verification/DeviceQueue.v ===== *)
(** * Queue processing of the QEMU device

    [openflash_process_sq] serves exactly the entries between the head it kept
    and the tail it was given, in ring order, and posts one completion per
    entry, with the phase tag of its ring pass.  The loop terminates on the
    admin queue; on the I/O queue it does as long as no served command is a
    [CREATE_IOQ]. *)
From S2P Require Import Prelude Packed Environment Rings QemuDevice DeviceSafety.

(** ** Ring arithmetic *)

(** Iterations the loop needs to bring the head to [t]. *)
Definition steps_to (q : OpenFlashQueue) (t : Z) : nat :=
  if q_sq_head q =? t then 0
  else S (Z.to_nat ((t - (q_sq_head q + 1)) `mod` q_depth q)).

(** [q] has posted [k] completions since it was created. *)
Definition posted (q : OpenFlashQueue) (k : Z) : Prop :=
  0 ≤ k ∧ q_cq_tail q = k `mod` q_depth q ∧ q_cq_phase q = phase_of (q_depth q) k.

Lemma steps_to_advance q t :
  0 < q_depth q → 0 ≤ t < q_depth q → q_sq_head q ≠ t →
  steps_to q t = S (steps_to (advance q) t).
Proof.
  intros Hd Ht Hne. unfold steps_to. cbn [advance q_sq_head q_depth set_cq_tail set_sq_head].
  rewrite (proj2 (Z.eqb_neq _ _) Hne). f_equal.
  set (d := q_depth q) in *. set (h := q_sq_head q + 1). clearbody h d.
  pose proof (Z.mod_pos_bound (t - h) d Hd) as Hr.
  destruct (Z.eqb_spec (h `mod` d) t) as [<- | Hne'].
  - rewrite Zminus_mod_idemp_l, Z.sub_diag. by rewrite Z.mod_0_l by lia.
  - assert ((t - h) `mod` d ≠ 0) as Hnz.
    { intros E. apply Hne'. apply Z.mod_divide in E as [k E]; [| lia].
      replace h with (t + (- k) * d) by lia.
      rewrite Z_mod_plus_full. by apply Z.mod_small. }
    replace ((t - (h `mod` d + 1)) `mod` d) with ((t - h) `mod` d - 1); [lia |].
    replace (t - (h `mod` d + 1)) with ((t - 1) - h `mod` d) by lia.
    rewrite Zminus_mod_idemp_r. replace (t - 1 - h) with ((t - h) - 1) by lia.
    rewrite <- (Zminus_mod_idemp_l (t - h) 1). by rewrite (Z.mod_small (_ - 1)) by lia.
Qed.

Lemma steps_to_bound q t : 0 < q_depth q → Z.of_nat (steps_to q t) ≤ q_depth q.
Proof.
  intros Hd. unfold steps_to. case_split; [lia |].
  pose proof (Z.mod_pos_bound (t - (q_sq_head q + 1)) (q_depth q) Hd). lia.
Qed.

Lemma posted_advance q k : 0 < q_depth q → posted q k → posted (advance q) (k + 1).
Proof.
  intros Hd (Hk & Ht & Hp). destruct (ring_step (q_depth q) k Hd) as [H1 H2].
  unfold posted. cbn. rewrite Ht, Hp, H1, H2. split; [lia | done].
Qed.

(** ** What the loop serves *)
Section Serving.
Context {M F : Type} `{GM : GuestMemory M, !GuestMemoryLaws M, HF : HostFiles F}.
Implicit Types w : machine M F.

(** One served entry: where it was fetched, what it was, where and how it was
    completed. *)
Record service := {
  sv_slot : Z; sv_cmd : OpenFlashCommand;
  sv_cslot : Z; sv_phase : Z; sv_status : Z; sv_result : Z;
}.

(** [serves qid w tr w']: serving the entries [tr] in order, each fetched at
    the head and completed at the tail the queue had at that moment. *)
Inductive serves (qid : nat) : machine M F → list service → machine M F → Prop :=
| serves_nil w : serves qid w [] w
| serves_cons w q status result w1 tr w' :
    s_queues (m_dev w) !! qid = Some q →
    openflash_execute w (fetch w q) = Done (status, result, w1) →
    s_queues (m_dev w1) !! qid = Some q →
    serves qid (post qid q (fetch w q) status result w1) tr w' →
    serves qid w
      ({| sv_slot := q_sq_head q; sv_cmd := fetch w q; sv_cslot := q_cq_tail q;
          sv_phase := q_cq_phase q; sv_status := status; sv_result := result |}
       :: tr) w'.

(** None of the next [n] commands of the queue is a [CREATE_IOQ]. *)
Fixpoint no_create (n : nat) w (qid : nat) : Prop :=
  match n with
  | O => True
  | S n =>
      (∀ q, s_queues (m_dev w) !! qid = Some q →
         c_opcode (fetch w q) ≠ OF_ADMIN_CREATE_IOQ) ∧
      (∀ w', process_command w qid = Done w' → no_create n w' qid)
  end.

(** A command leaves its own queue alone, unless it is a [CREATE_IOQ] on the
    I/O queue. *)
Lemma execute_keeps_queue w qid q cmd status result w1 :
  exec_step cmd w w1 → openflash_execute w cmd = Done (status, result, w1) →
  qid = 0%nat ∨ c_opcode cmd ≠ OF_ADMIN_CREATE_IOQ →
  s_queues (m_dev w) !! qid = Some q → s_queues (m_dev w1) !! qid = Some q.
Proof.
  intros Hs He Hk Hq. destruct (es_queues _ _ _ Hs) as [-> | (Hop & v & ->)]; [done |].
  destruct Hk as [-> | ?]; [| done]. by rewrite list_lookup_insert_ne.
Qed.

(** One iteration that leaves the queue alone. *)
Lemma process_command_serves w qid q :
  dev_wf (m_dev w) → s_queues (m_dev w) !! qid = Some q → q_enabled q = true →
  qid = 0%nat ∨ c_opcode (fetch w q) ≠ OF_ADMIN_CREATE_IOQ →
  ∃ status result w1,
    openflash_execute w (fetch w q) = Done (status, result, w1) ∧
    s_queues (m_dev w1) !! qid = Some q ∧
    process_command w qid = Done (post qid q (fetch w q) status result w1) ∧
    s_queues (m_dev (post qid q (fetch w q) status result w1)) !! qid
      = Some (advance q).
Proof.
  intros Hwf Hq Hen Hk.
  destruct (execute_safe w (fetch w q) Hwf (fetch_wf w q))
    as (status & result & w1 & He & Hs & _).
  pose proof (execute_keeps_queue _ _ _ _ _ _ _ Hs He Hk Hq) as Hq1.
  pose proof (Forall_lookup_1 _ _ _ _ (wf_queues _ Hwf) Hq) as Hqwf.
  exists status, result, w1. do 2 (split; [done |]). split.
  - apply process_command_eq; auto using wf_enabled.
  - cbn. apply list_lookup_insert_eq. by eapply lookup_lt_Some.
Qed.

Lemma process_loop_serves fuel w qid q t :
  dev_wf (m_dev w) → s_queues (m_dev w) !! qid = Some q → q_enabled q = true →
  0 ≤ t < q_depth q → (steps_to q t ≤ fuel)%nat →
  qid = 0%nat ∨ no_create (steps_to q t) w qid →
  ∃ tr w', process_loop fuel w qid t = Done w' ∧ serves qid w tr w' ∧
    length tr = steps_to q t ∧ loop_step qid w w'.
Proof.
  revert w q. induction fuel as [| fuel IH]; intros w q Hwf Hq Hen Ht Hf Hk;
    cbn [process_loop]; rewrite Hq; outcomes;
    destruct (Z.eqb_spec (q_sq_head q) t) as [Heq | Hne].
  1, 3: exists [], w; unfold steps_to; rewrite Heq, Z.eqb_refl;
        do 3 (split; [done || constructor |]); constructor; eauto.
  { unfold steps_to in Hf. apply Z.eqb_neq in Hne. rewrite Hne in Hf. lia. }
  pose proof (steps_to_advance q t ltac:(lia) Ht Hne) as Hst. rewrite Hst in *.
  destruct (process_command_serves w qid q) as (st & r & w1 & He & Hq1 & Hp & Hq2);
    [done.. | destruct Hk as [| [Hk _]]; eauto |].
  destruct (process_command_safe w qid q Hwf Hq Hen) as (w2 & Hp' & Hs).
  rewrite Hp in Hp'. simplify_eq. rewrite Hp. outcomes.
  destruct (IH (post qid q (fetch w q) st r w1) (advance q)) as (tr & w' & -> & Hsv & Hl & Hs');
    [apply Hs | done | done | done | lia | |].
  { destruct Hk as [| Hk]; [by left | right]. by apply Hk. }
  eexists _, w'. split; [done |]. split; [by econstructor |].
  split; [cbn; lia |]. by eapply loop_step_trans.
Qed.

(** ** Where entries are fetched and completions posted *)
Lemma serves_ring qid w tr w' q k :
  serves qid w tr w' → s_queues (m_dev w) !! qid = Some q →
  0 < q_depth q → 0 ≤ q_sq_head q < q_depth q → posted q k →
  sv_slot <$> tr = ring_slots (q_sq_head q) (length tr) (q_depth q) ∧
  sv_cslot <$> tr = ring_slots k (length tr) (q_depth q) ∧
  sv_phase <$> tr = (λ i, phase_of (q_depth q) (k + Z.of_nat i)) <$> seq 0 (length tr) ∧
  ∃ q', s_queues (m_dev w') !! qid = Some q' ∧ q_depth q' = q_depth q ∧
    q_vector q' = q_vector q ∧
    q_sq_head q' = (q_sq_head q + len tr) `mod` q_depth q ∧ posted q' (k + len tr).
Proof.
  intros Hs. revert q k. induction Hs as [w | w q0 st r w1 tr w' Hq0 He Hq1 Hs IH];
    intros q k Hq Hd Hh Hp.
  { cbn. repeat split; [done.. |]. exists q. rewrite !Z.add_0_r, Z.mod_small by lia. done. }
  rewrite Hq in Hq0. simplify_eq.
  pose proof (Z.mod_pos_bound (q_sq_head q0 + 1) (q_depth q0) Hd) as Hm.
  destruct (IH (advance q0) (k + 1)) as (H1 & H2 & H3 & q' & Hq' & Hd' & Hv' & Hh' & Hp').
  - cbn. apply list_lookup_insert_eq. by eapply lookup_lt_Some.
  - done.
  - done.
  - by apply posted_advance.
  - destruct Hp as (Hk & Htail & Hph). cbn [fmap list_fmap length sv_slot sv_cslot sv_phase].
    cbn [advance q_depth q_sq_head set_cq_tail set_sq_head] in H1, H2, H3, Hd', Hh'.
    rewrite !ring_slots_cons. rewrite ring_slots_mod in H1 by done.
    rewrite H1, H2, H3, (Z.mod_small (q_sq_head q0)), Htail by done.
    do 2 (split; [done |]). split.
    { cbn [seq fmap list_fmap]. rewrite Z.add_0_r, Hph. f_equal.
      rewrite <- fmap_S_seq, <- list_fmap_compose.
      apply list_fmap_ext. intros. cbn. f_equal. lia. }
    exists q'. do 2 (split; [done |]). split; [done |].
    rewrite Nat2Z.inj_succ. split.
    + rewrite Hh', Zplus_mod_idemp_l. f_equal. lia.
    + by replace (k + Z.succ (len tr)) with (k + 1 + len tr) by lia.
Qed.

Lemma steps_to_ring q t :
  0 < q_depth q → 0 ≤ q_sq_head q < q_depth q → 0 ≤ t < q_depth q →
  Z.of_nat (steps_to q t) = (t - q_sq_head q) `mod` q_depth q.
Proof.
  intros Hd Hh Ht. unfold steps_to. destruct (Z.eqb_spec (q_sq_head q) t) as [-> | Hne].
  { by rewrite Z.sub_diag, Z.mod_0_l by lia. }
  pose proof (Z.mod_pos_bound (t - (q_sq_head q + 1)) (q_depth q) Hd).
  rewrite Nat2Z.inj_succ, Z2Nat.id by lia.
  destruct (Z.lt_ge_cases (q_sq_head q) t).
  - rewrite !Z.mod_small by lia. lia.
  - rewrite <- (Z_mod_plus_full (t - q_sq_head q) 1), <- (Z_mod_plus_full (t - _) 1).
    rewrite !Z.mod_small by lia. lia.
Qed.

(** A doorbell on a ready queue that no served command redefines. *)
Lemma process_sq_serves fuel w qid q k t :
  dev_wf (m_dev w) → has_flag (s_status (m_dev w)) OF_STATUS_READY = true →
  0 ≤ qid < OF_MAX_QUEUES →
  s_queues (m_dev w) !! Z.to_nat qid = Some q → q_enabled q = true →
  0 ≤ q_sq_head q < q_depth q → posted q k → 0 ≤ t < q_depth q →
  q_depth q ≤ Z.of_nat fuel →
  qid = 0 ∨ no_create (Z.to_nat ((t - q_sq_head q) `mod` q_depth q)) w (Z.to_nat qid) →
  ∃ tr w' q',
    openflash_process_sq fuel w qid t =
      Done (if m_msix_enabled w then msix_notify (q_vector q) w' else w') ∧
    serves (Z.to_nat qid) w tr w' ∧ len tr = (t - q_sq_head q) `mod` q_depth q ∧
    sv_slot <$> tr = ring_slots (q_sq_head q) (length tr) (q_depth q) ∧
    sv_cslot <$> tr = ring_slots k (length tr) (q_depth q) ∧
    sv_phase <$> tr =
      (λ i, phase_of (q_depth q) (k + Z.of_nat i)) <$> seq 0 (length tr) ∧
    s_queues (m_dev w') !! Z.to_nat qid = Some q' ∧ q_sq_head q' = t ∧
    posted q' (k + len tr).
Proof.
  intros Hwf Hr Hqid Hq Hen Hh Hp Ht Hf Hk.
  assert (0 < q_depth q) as Hd by lia.
  pose proof (steps_to_ring q t Hd Hh Ht) as Hst.
  pose proof (steps_to_bound q t Hd) as Hsb.
  destruct (process_loop_serves fuel w (Z.to_nat qid) q t)
    as (tr & w' & Hl & Hsv & Hlen & Hs); [done.. | lia | |].
  { destruct Hk as [-> | Hk]; [by left | right].
    by replace (steps_to q t) with (Z.to_nat ((t - q_sq_head q) `mod` q_depth q)) by lia. }
  destruct (serves_ring _ _ _ _ q k Hsv Hq Hd Hh Hp)
    as (H1 & H2 & H3 & q' & Hq' & Hd' & Hv' & Hh' & Hp').
  exists tr, w', q'. split.
  { unfold openflash_process_sq.
    rewrite (proj2 (Z.leb_gt _ _)), Hq by lia. outcomes.
    rewrite Hr, Hen, (proj2 (Z.eqb_neq _ _)), (proj2 (Z.leb_gt _ _)) by lia. cbn [negb orb].
    rewrite Hl. outcomes. rewrite (ls_msix _ _ _ Hs), Hq'. outcomes.
    rewrite Hv'. by case_split. }
  split; [done |]. split; [lia |]. do 4 (split; [done |]). split; [| done].
  rewrite Hh', Hlen, Hst, Zplus_mod_idemp_r.
  replace (q_sq_head q + (t - q_sq_head q)) with t by lia. by apply Z.mod_small.
Qed.

(** A tail one entry ahead: the machine after the one command served. *)
Lemma process_sq_one fuel w qid q status result w1 :
  dev_wf (m_dev w) → has_flag (s_status (m_dev w)) OF_STATUS_READY = true →
  0 ≤ qid < OF_MAX_QUEUES → s_queues (m_dev w) !! Z.to_nat qid = Some q →
  q_enabled q = true → 0 ≤ q_sq_head q < q_depth q → 1 < q_depth q → (0 < fuel)%nat →
  Z.to_nat qid = 0%nat ∨ c_opcode (fetch w q) ≠ OF_ADMIN_CREATE_IOQ →
  openflash_execute w (fetch w q) = Done (status, result, w1) →
  let w' := post (Z.to_nat qid) q (fetch w q) status result w1 in
  openflash_process_sq fuel w qid ((q_sq_head q + 1) `mod` q_depth q) =
    Done (if m_msix_enabled w then msix_notify (q_vector q) w' else w') ∧
  s_queues (m_dev w1) !! Z.to_nat qid = Some q ∧
  s_queues (m_dev w') !! Z.to_nat qid = Some (advance q).
Proof.
  intros Hwf Hr Hqid Hq Hen Hh Hd Hf Hk He w'.
  destruct (process_command_serves w _ q Hwf Hq Hen Hk)
    as (st & res & w2 & He' & Hq1 & Hpc & Hq2).
  rewrite He in He'. injection He' as <- <- <-. fold w' in Hpc, Hq2.
  split; [| done]. set (t := (q_sq_head q + 1) `mod` q_depth q).
  assert (0 ≤ t < q_depth q) as Ht by (apply Z.mod_pos_bound; lia).
  assert (q_sq_head q ≠ t) as Hne.
  { unfold t. destruct (decide (q_sq_head q + 1 = q_depth q)) as [E | ?].
    - rewrite E, Z.mod_same; lia.
    - rewrite Z.mod_small; lia. }
  unfold openflash_process_sq.
  rewrite (proj2 (Z.leb_gt _ _)), Hq by lia. outcomes.
  rewrite Hr, Hen, (proj2 (Z.eqb_neq (q_depth q) 0)), (proj2 (Z.leb_gt (q_depth q) t)) by lia.
  cbn [negb orb]. destruct fuel as [| fuel]; [lia |]. cbn [process_loop].
  rewrite Hq. outcomes. rewrite (proj2 (Z.eqb_neq _ _)), Hpc by done. outcomes.
  destruct (execute_safe w (fetch w q) Hwf (fetch_wf w q)) as (? & ? & ? & He' & Hs & _).
  rewrite He in He'. injection He' as <- <- <-.
  replace (process_loop fuel w' (Z.to_nat qid) t) with (Done w').
  - outcomes. change (m_msix_enabled w') with (m_msix_enabled w1).
    rewrite (es_msix _ _ _ Hs), Hq2. by destruct (m_msix_enabled w).
  - destruct fuel; cbn [process_loop]; rewrite Hq2; outcomes;
      by rewrite (proj2 (Z.eqb_eq (q_sq_head (advance q)) t)).
Qed.

(** ** A command that never lets the loop end *)

(** A [CREATE_IOQ] for the queue it is served from, of one entry, whose first
    slot is not overwritten by the queue's only completion. *)
Record recreation (cmd : OpenFlashCommand) : Prop := {
  rc_opcode : c_opcode cmd = OF_ADMIN_CREATE_IOQ;
  rc_qid : Z.land (c_control cmd) 0xffff = 1;
  rc_vector : u16 (Z.shiftr (c_control cmd) 16) < OF_MAX_QUEUES;
  rc_depth : c_nblocks cmd = 1;
  rc_addr : c_data_addr cmd ≠ 0 ∧ c_metadata_addr cmd ≠ 0;
  rc_ram : is_ram (c_data_addr cmd) 64 ∧ is_ram (c_metadata_addr cmd) 64;
  rc_apart : c_data_addr cmd + 64 ≤ c_metadata_addr cmd ∨
    c_metadata_addr cmd + 64 ≤ c_data_addr cmd;
}.

(** The I/O queue is about to serve [cmd], and so will the queue it creates. *)
Record respawning (cmd : OpenFlashCommand) w (q : OpenFlashQueue) : Prop := {
  rs_wf : dev_wf (m_dev w);
  rs_queue : s_queues (m_dev w) !! 1%nat = Some q;
  rs_fetch : fetch w q = cmd;
  rs_again : decode_OpenFlashCommand (dma_read (m_mem w) (c_data_addr cmd) 64) = cmd;
}.

Lemma recreation_executes cmd w :
  recreation cmd → dev_wf (m_dev w) →
  ∃ vector, openflash_execute w cmd = Done (OF_SC_SUCCESS, 1,
    with_dev (set_queues (<[1%nat := created_queue cmd vector]> (s_queues (m_dev w)))
      (m_dev w)) w).
Proof.
  intros [Hop Hqid Hv Hd [Hda Hma] _ _] Hwf. unfold openflash_execute.
  rewrite Hop. cbn [Z.eqb OF_ADMIN_IDENTIFY OF_ADMIN_CREATE_IOQ Pos.eqb].
  unfold execute_create_ioq. rewrite Hqid, Hd.
  rewrite (proj2 (Z.leb_gt _ _) Hv), !(proj2 (Z.eqb_neq _ _)) by done.
  pose proof (wf_queues_len _ Hwf) as Hl. unfold OF_MAX_QUEUES in Hl.
  destruct (lookup_lt_is_Some_2 (s_queues (m_dev w)) 1) as [q Hq]; [lia |].
  change (Z.to_nat (u16 1)) with 1%nat. rewrite Hq. eauto.
Qed.

Lemma respawning_step cmd w q :
  recreation cmd → respawning cmd w q →
  ∃ w' q', process_command w 1 = Done w' ∧ respawning cmd w' q' ∧ q_sq_head q' = 0.
Proof.
  intros Hrc [Hwf Hq Hf Hag].
  destruct (recreation_executes cmd w Hrc Hwf) as [v He].
  destruct (execute_safe w cmd Hwf) as (? & ? & w1 & He' & Hs & _);
    [rewrite <- Hf; apply fetch_wf |].
  pose proof He as He2. rewrite He in He'. injection He' as <- <- <-.
  pose proof (lookup_lt_Some _ _ _ Hq) as Hlt. set (q1 := created_queue cmd v) in *.
  set (w1 := with_dev _ w) in *.
  assert (s_queues (m_dev w1) !! 1%nat = Some q1) as Hq1 by (by apply list_lookup_insert_eq).
  pose proof (Forall_lookup_1 _ _ _ _ (wf_queues _ (es_wf _ _ _ Hs)) Hq1) as Hwf1.
  assert (cmd_wf cmd) as Hcw by (rewrite <- Hf; apply fetch_wf).
  destruct Hrc as [_ _ _ Hd _ [Hr1 Hr2] Hap].
  exists (post 1 q1 cmd OF_SC_SUCCESS 1 w1), (advance q1).
  rewrite (process_command_eq w 1 q OF_SC_SUCCESS 1 w1 q1);
    [| done | by rewrite Hf | done | done | cbn; lia].
  rewrite Hf. split; [done |].
  assert (q_sq_head (advance q1) = 0) as Hh by (cbn; by rewrite Hd).
  assert (dma_read (m_mem (post 1 q1 cmd OF_SC_SUCCESS 1 w1)) (c_data_addr cmd) 64 =
    dma_read (m_mem w) (c_data_addr cmd) 64) as Hsame.
  { cbn. rewrite Z.add_0_r, u64_small by apply Hcw.
    rewrite dma_read_write_other; rewrite ?length_encode_completion; done. }
  split; [| done]. constructor.
  - destruct (es_wf _ _ _ Hs). constructor; cbn in *; auto.
    + by rewrite length_insert.
    + apply Forall_insert; [done |]. apply advance_wf; [done | cbn; lia].
  - cbn. apply list_lookup_insert_eq. by rewrite length_insert.
  - unfold fetch. rewrite Hh.
    change (q_sq_addr (advance q1)) with (c_data_addr cmd).
    rewrite Z.mul_0_l, Z.add_0_r, u64_small by apply Hcw. by rewrite Hsame.
  - by rewrite Hsame.
Qed.

Lemma process_loop_respawns cmd w q t :
  recreation cmd → respawning cmd w q → q_sq_head q ≠ t → t ≠ 0 →
  ∀ fuel, process_loop fuel w 1 t = NoFuel.
Proof.
  intros Hrc Hrs Hh Ht fuel. revert w q Hrs Hh.
  induction fuel as [| fuel IH]; intros w q Hrs Hh; cbn [process_loop];
    rewrite (rs_queue _ _ _ Hrs); outcomes; rewrite (proj2 (Z.eqb_neq _ _)) by done; [done |].
  destruct (respawning_step cmd w q Hrc Hrs) as (w' & q' & -> & Hrs' & Hh').
  outcomes. eapply IH; [done | congruence].
Qed.
End Serving.
