(* ===== verification/DeviceData.v ===== *)
(** * Data transfers of the QEMU device

    What [openflash_transfer] moves: a command's data is the concatenation of
    its segments (one for a contiguous buffer, the descriptor table's for a
    scatter-gather list).  A write stores the gathered bytes at the byte
    offset of the command's first block, a read scatters the bytes found
    there. *)
From S2P Require Import Prelude Packed Environment QemuDevice DeviceSafety.

(** ** Buffer accesses in normal form *)
Section Buffer.
Context (s : OpenFlashState) (st : list byte).
Hypothesis (Hst : s_storage s = Some st).

Lemma storage_load_eq pos n :
  0 ≤ pos → 0 ≤ n → pos + n ≤ len st →
  storage_load s pos n = Done (slice (Z.to_nat pos) (Z.to_nat n) st).
Proof.
  intros. unfold storage_load. rewrite Hst. outcomes.
  rewrite !(proj2 (Z.leb_le _ _)) by lia. done.
Qed.

Lemma storage_store_eq pos n bs :
  0 ≤ pos → 0 ≤ n → pos + n ≤ len st →
  storage_store s pos n bs = Done (set_storage (Some (splice (Z.to_nat pos) bs st)) s).
Proof.
  intros. unfold storage_store. rewrite Hst. outcomes.
  rewrite !(proj2 (Z.leb_le _ _)) by lia. done.
Qed.
End Buffer.

(** ** Segments *)
Section Segments.
Context {M F : Type} `{GM : GuestMemory M, !GuestMemoryLaws M, HF : HostFiles F}.
Implicit Types (w : machine M F) (m : M) (segs : list (Z * Z)).

(** Address and length of the [k] descriptors of a table from [index] on. *)
Fixpoint descriptors m (dma index : Z) (k : nat) : list (Z * Z) :=
  match k with
  | O => []
  | S k =>
      let d := decode_OpenFlashSglDesc (dma_read m (u64 (dma + index * 16)) 16) in
      (d_addr d, d_length d) :: descriptors m dma (index + 1) k
  end.

(** The segments of a command's data, [length] bytes in all. *)
Definition command_segments m (cmd : OpenFlashCommand) (length : Z) : list (Z * Z) :=
  if has_flag (c_flags cmd) OF_CMD_F_SGL
  then descriptors m (c_data_addr cmd) 0 (Z.to_nat (u16 (Z.land (c_control cmd) 0xffff)))
  else [(c_data_addr cmd, length)].

Definition total segs : Z := foldr (λ s acc, s.2 + acc) 0 segs.

(** A list the device accepts: no null address, no empty segment, and exactly
    [length] bytes in all. *)
Definition segments_ok segs (length : Z) : Prop :=
  Forall (λ s, s.1 ≠ 0 ∧ 0 < s.2) segs ∧ total segs = length.

(** A command whose data the device accepts. *)
Definition data_ok m (cmd : OpenFlashCommand) (length : Z) : Prop :=
  c_data_addr cmd ≠ 0 ∧
  (has_flag (c_flags cmd) OF_CMD_F_SGL = true →
     0 < u16 (Z.land (c_control cmd) 0xffff) ≤ OF_MAX_SGL_ENTRIES ∧
     segments_ok (command_segments m cmd length) length).

(** The bytes of the segments, in order. *)
Definition gather m segs : list byte :=
  concat ((λ s, dma_read m s.1 s.2) <$> segs).

(** Memory after [bs] was written over the segments, in order. *)
Fixpoint scatter m segs (bs : list byte) : M :=
  match segs with
  | [] => m
  | (a, n) :: segs =>
      scatter (dma_write m a (take (Z.to_nat n) bs)) segs (drop (Z.to_nat n) bs)
  end.

Lemma total_nonneg segs : Forall (λ s, s.1 ≠ 0 ∧ 0 < s.2) segs → 0 ≤ total segs.
Proof. unfold total. induction 1; cbn in *; lia. Qed.

Lemma total_cons a n segs : total ((a, n) :: segs) = n + total segs.
Proof. done. Qed.

Lemma length_gather m segs : Forall (λ s, 0 ≤ s.2) segs → len (gather m segs) = total segs.
Proof.
  unfold gather, total. induction 1 as [| s segs Hs _ IH]; [done |].
  cbn. rewrite length_app, dma_read_length. cbn in *. lia.
Qed.

Lemma gather_cons m a n segs : gather m ((a, n) :: segs) = dma_read m a n ++ gather m segs.
Proof. done. Qed.

Lemma segment_total segs length :
  segments_ok segs length → Forall (λ s, 0 ≤ s.2) segs.
Proof. intros [H _]. eapply Forall_impl; [exact H |]. cbn. lia. Qed.

(** Device to guest and guest to device, one segment. *)
Lemma segment_write_eq w st addr pos n :
  s_storage (m_dev w) = Some st → 0 ≤ pos → 0 ≤ n → pos + n ≤ len st →
  transfer_segment true addr pos n w =
    Done (with_dev (set_storage
      (Some (splice (Z.to_nat pos) (dma_read (m_mem w) addr n) st)) (m_dev w)) w).
Proof.
  intros. unfold transfer_segment. by rewrite (storage_store_eq _ st).
Qed.

Lemma segment_read_eq w st addr pos n :
  s_storage (m_dev w) = Some st → 0 ≤ pos → 0 ≤ n → pos + n ≤ len st →
  transfer_segment false addr pos n w =
    Done (with_mem (dma_write (m_mem w) addr
      (slice (Z.to_nat pos) (Z.to_nat n) st)) w).
Proof.
  intros. unfold transfer_segment. by rewrite (storage_load_eq _ st).
Qed.

(** The descriptor test of the loop body. *)
Lemma descriptor_accepted addr n left :
  addr ≠ 0 → 0 < n → n ≤ left → left < 2 ^ 64 →
  (addr =? 0) || (n =? 0) || (u64 left <? n) = false.
Proof.
  intros. rewrite u64_small by lia.
  rewrite !(proj2 (Z.eqb_neq _ _)), (proj2 (Z.ltb_ge _ _)) by lia. done.
Qed.

(** ** Scatter-gather writes *)
Lemma transfer_sgl_write dma offset length k index transferred w st :
  s_storage (m_dev w) = Some st → 0 ≤ offset → 0 ≤ transferred →
  offset + length ≤ len st → length < 2 ^ 64 →
  segments_ok (descriptors (m_mem w) dma index k) (length - transferred) →
  transfer_sgl true dma offset length k index transferred w =
    Done (true, with_dev (set_storage (Some (splice (Z.to_nat (offset + transferred))
      (gather (m_mem w) (descriptors (m_mem w) dma index k)) st)) (m_dev w)) w).
Proof.
  intros Hst Ho. revert index transferred w st Hst.
  induction k as [| k IH]; intros index transferred w st Hst Ht Hb Hl [Hok Hsum].
  { cbn in *. rewrite (proj2 (Z.eqb_eq _ _)) by lia. do 2 f_equal.
    assert (splice (Z.to_nat (offset + transferred)) [] st = st) as ->
      by (unfold splice; cbn; rewrite Nat.add_0_r; apply take_drop).
    destruct w as [[] ? ? ? ?]. by cbn in *; subst. }
  cbn [transfer_sgl descriptors] in *.
  set (d := decode_OpenFlashSglDesc _) in *.
  apply Forall_cons in Hok as [[Ha Hn] Hok]. cbn in Ha, Hn. rewrite total_cons in Hsum.
  pose proof (total_nonneg _ Hok).
  rewrite descriptor_accepted by lia.
  rewrite (segment_write_eq w st) by (done || lia). outcomes.
  rewrite u64_small by lia.
  rewrite (IH (index + 1) (transferred + d_length d) _
             (splice (Z.to_nat (offset + transferred)) (dma_read (m_mem w) (d_addr d) (d_length d)) st));
    [| done | lia | | done |].
  - rewrite gather_cons, <- splice_splice_app by (rewrite dma_read_length; lia).
    rewrite dma_read_length, <- Z2Nat.inj_add by lia.
    by rewrite Z.add_assoc.
  - rewrite length_splice; rewrite ?dma_read_length; lia.
  - split; [done |]. cbn [with_dev m_mem]. lia.
Qed.

(** The loop stops at the first entry it does not accept: a null address, no
    bytes, or more than are left.  What comes before it is stored. *)
Definition offending (s : Z * Z) (left : Z) : Prop := s.1 = 0 ∨ s.2 = 0 ∨ left < s.2.

Lemma transfer_sgl_stops dma offset length k index transferred w st good bad rest :
  s_storage (m_dev w) = Some st → 0 ≤ offset → 0 ≤ transferred →
  offset + length ≤ len st → length < 2 ^ 64 →
  descriptors (m_mem w) dma index k = good ++ bad :: rest →
  Forall (λ s, s.1 ≠ 0 ∧ 0 < s.2) good → transferred + total good ≤ length →
  offending bad (length - transferred - total good) →
  transfer_sgl true dma offset length k index transferred w =
    Done (false, with_dev (set_storage (Some (splice (Z.to_nat (offset + transferred))
      (gather (m_mem w) good) st)) (m_dev w)) w).
Proof.
  intros Hst Ho. revert index transferred w st good Hst.
  induction k as [| k IH]; intros index transferred w st good Hst Ht Hb Hl Hd Hok Hle Hbad.
  { by destruct good. }
  cbn [transfer_sgl descriptors] in *. set (d := decode_OpenFlashSglDesc _) in *.
  clearbody d. destruct good as [| g good]; injection Hd as Hg Hd.
  - subst bad. unfold offending, total in *. cbn [foldr fst snd] in Hle, Hbad.
    rewrite u64_small by lia.
    assert ((d_addr d =? 0) || (d_length d =? 0) || (length - transferred <? d_length d) = true)
      as -> by (destruct Hbad as [-> | [-> | Hlt]]; rewrite ?Z.eqb_refl, ?orb_true_r; try done;
        rewrite (proj2 (Z.ltb_lt _ _)), orb_true_r by lia; done).
    do 2 f_equal. unfold gather. cbn.
    assert (splice (Z.to_nat (offset + transferred)) [] st = st) as ->
      by (unfold splice; cbn; rewrite Nat.add_0_r; apply take_drop).
    destruct w as [[] ? ? ? ?]. by cbn in *; subst.
  - subst g. apply Forall_cons in Hok as [[Ha Hn] Hok]. cbn in Ha, Hn.
    rewrite total_cons in Hle, Hbad. pose proof (total_nonneg _ Hok).
    rewrite descriptor_accepted by lia.
    rewrite (segment_write_eq w st) by (done || lia). outcomes. rewrite u64_small by lia.
    rewrite (IH (index + 1) (transferred + d_length d) _
      (splice (Z.to_nat (offset + transferred)) (dma_read (m_mem w) (d_addr d) (d_length d)) st)
      good); [| done | lia | | done | done | done | lia |].
    + rewrite gather_cons, <- splice_splice_app by (rewrite dma_read_length; lia).
      rewrite dma_read_length, <- Z2Nat.inj_add by lia. by rewrite Z.add_assoc.
    + rewrite length_splice; rewrite ?dma_read_length; lia.
    + by replace (length - (transferred + d_length d) - total good)
        with (length - transferred - (d_length d + total good)) by lia.
Qed.

(** The loop accepts a table only if it is acceptable. *)
Lemma transfer_sgl_accepts dma offset length k index transferred w w' :
  dev_wf (m_dev w) → 0 ≤ offset → 0 ≤ transferred ≤ length →
  offset + length ≤ s_capacity (m_dev w) →
  transfer_sgl true dma offset length k index transferred w = Done (true, w') →
  segments_ok (descriptors (m_mem w) dma index k) (length - transferred).
Proof.
  intros Hwf Ho. revert index transferred w Hwf.
  induction k as [| k IH]; intros index transferred w Hwf Ht Hb E; cbn [transfer_sgl] in E.
  { simplify_eq. bprop. split; [constructor | cbn; lia]. }
  cbn [descriptors]. destruct (wf_storage _ Hwf) as (Hcap & st & Hst & Hlen).
  destruct (decode_sgl_wf (dma_read (m_mem w) (u64 (dma + index * 16)) 16)) as [Ha Hl].
  { by rewrite dma_read_length. }
  set (d := decode_OpenFlashSglDesc _) in *.
  case_split; [done |]. bprop.
  match goal with Hle : _ ≤ u64 _ |- _ => rewrite u64_small in Hle by lia end.
  destruct (transfer_segment_safe true (d_addr d) (offset + transferred) (d_length d) w)
    as (w1 & Hw1 & Hs); [done | lia.. |].
  rewrite (segment_write_eq w st) in Hw1 by (done || lia). simplify_eq.
  rewrite (segment_write_eq w st) in E by (done || lia). outcomes in E.
  rewrite u64_small in E by lia. apply IH in E as [Hok Hsum].
  - cbn [with_dev m_mem] in Hok, Hsum. split; [constructor; cbn; [lia | done] |].
    rewrite total_cons. lia.
  - apply Hs.
  - lia.
  - done.
Qed.

(** ** openflash_transfer, guest to device *)
Lemma transfer_write_eq w cmd offset length st :
  s_storage (m_dev w) = Some st → 0 ≤ offset → 0 ≤ length < 2 ^ 64 →
  offset + length ≤ len st → data_ok (m_mem w) cmd length →
  openflash_transfer w cmd offset length true =
    Done (true, with_dev (set_storage (Some (splice (Z.to_nat offset)
      (gather (m_mem w) (command_segments (m_mem w) cmd length)) st)) (m_dev w)) w).
Proof.
  intros Hst Ho Hl Hb [Hdma Hsgl]. unfold openflash_transfer, command_segments in *.
  destruct (has_flag (c_flags cmd) OF_CMD_F_SGL); cbn [negb].
  - destruct (Hsgl eq_refl) as [Hc Hok]. unfold OF_MAX_SGL_ENTRIES in *.
    rewrite !(proj2 (Z.eqb_neq _ _)), (proj2 (Z.ltb_ge _ _)) by lia. cbn [orb].
    rewrite (transfer_sgl_write _ _ _ _ _ _ _ st); try done; try lia.
    + by rewrite Z.add_0_r.
    + by rewrite Z.sub_0_r.
  - rewrite (proj2 (Z.eqb_neq _ _)) by done.
    rewrite (segment_write_eq w st) by (done || lia). outcomes.
    by rewrite gather_cons, app_nil_r.
Qed.

(** A write transfer succeeds exactly on acceptable data. *)
Lemma transfer_write_iff w cmd offset length :
  dev_wf (m_dev w) → 0 ≤ offset → 0 ≤ length < 2 ^ 64 →
  offset + length ≤ s_capacity (m_dev w) →
  (∃ w', openflash_transfer w cmd offset length true = Done (true, w')) ↔
  data_ok (m_mem w) cmd length.
Proof.
  intros Hwf Ho Hl Hb. destruct (wf_storage _ Hwf) as (Hcap & st & Hst & Hlen).
  split; [intros [w' E] | intros Hok; eexists; apply (transfer_write_eq _ _ _ _ st); auto; lia].
  unfold openflash_transfer in E. unfold data_ok, command_segments.
  destruct (has_flag (c_flags cmd) OF_CMD_F_SGL); cbn [negb] in E.
  - case_split; [done |]. bprop. split; [done |]. intros _.
    pose proof (u16_range (Z.land (c_control cmd) 0xffff)).
    split; [lia |]. apply transfer_sgl_accepts in E; [| auto; lia..].
    by rewrite Z.sub_0_r in E.
  - case_split; [done |]. by bprop.
Qed.

(** ** openflash_transfer, device to guest *)
Definition apart (a n b k : Z) : Prop := a + n ≤ b ∨ b + k ≤ a.

(** The descriptor table and the segments are RAM and do not overlap. *)
Definition table_apart (dma index : Z) (k : nat) segs : Prop :=
  ∀ i, index ≤ i < index + Z.of_nat k →
    is_ram (u64 (dma + i * 16)) 16 ∧
    Forall (λ s, is_ram s.1 s.2 ∧ apart s.1 s.2 (u64 (dma + i * 16)) 16) segs.

Lemma descriptors_write m dma index k a bs :
  (∀ i, index ≤ i < index + Z.of_nat k →
     is_ram (u64 (dma + i * 16)) 16 ∧ is_ram a (len bs) ∧
     apart a (len bs) (u64 (dma + i * 16)) 16) →
  descriptors (dma_write m a bs) dma index k = descriptors m dma index k.
Proof.
  revert index. induction k as [| k IH]; intros index Hap; [done |]. cbn [descriptors].
  destruct (Hap index ltac:(lia)) as (Hr & Ha & Hd).
  rewrite IH by (intros; apply Hap; lia).
  rewrite dma_read_write_other; [done | done | done |]. unfold apart in Hd. lia.
Qed.

Lemma slice_tail o n k (l : list byte) :
  slice (o + n) k l = drop n (slice o (n + k) l).
Proof.
  unfold slice. rewrite <- drop_drop, <- take_drop_commute. f_equal.
Qed.

Lemma slice_head o n k (l : list byte) : (n ≤ k)%nat → take n (slice o k l) = slice o n l.
Proof. intros. unfold slice. by rewrite take_take, Nat.min_l. Qed.

Lemma transfer_sgl_read dma offset length k index transferred w st :
  s_storage (m_dev w) = Some st → 0 ≤ offset → 0 ≤ transferred →
  offset + length ≤ len st → length < 2 ^ 64 →
  segments_ok (descriptors (m_mem w) dma index k) (length - transferred) →
  table_apart dma index k (descriptors (m_mem w) dma index k) →
  transfer_sgl false dma offset length k index transferred w =
    Done (true, with_mem (scatter (m_mem w) (descriptors (m_mem w) dma index k)
      (slice (Z.to_nat (offset + transferred)) (Z.to_nat (length - transferred)) st)) w).
Proof.
  intros Hst Ho. revert index transferred w Hst.
  induction k as [| k IH]; intros index transferred w Hst Ht Hb Hl [Hok Hsum] Hap.
  { cbn in *. rewrite (proj2 (Z.eqb_eq _ _)) by lia. by destruct w. }
  cbn [transfer_sgl descriptors] in *.
  set (d := decode_OpenFlashSglDesc _) in *.
  apply Forall_cons in Hok as [[Ha Hn] Hok]. cbn in Ha, Hn. rewrite total_cons in Hsum.
  pose proof (total_nonneg _ Hok).
  rewrite descriptor_accepted by lia.
  rewrite (segment_read_eq w st) by (done || lia). outcomes. rewrite u64_small by lia.
  set (chunk := slice (Z.to_nat (offset + transferred)) (Z.to_nat (d_length d)) st).
  assert (len chunk = d_length d) as Hc by (unfold chunk; rewrite length_slice; lia).
  assert (descriptors (dma_write (m_mem w) (d_addr d) chunk) dma (index + 1) k
          = descriptors (m_mem w) dma (index + 1) k) as Hdesc.
  { apply descriptors_write. intros i Hi. destruct (Hap i ltac:(lia)) as [Hr Hf].
    apply Forall_cons in Hf as [[? ?] _]. by rewrite Hc. }
  rewrite IH; cbn [with_mem m_mem m_dev]; rewrite ?Hdesc; try done; try lia.
  - cbn [scatter]. rewrite slice_head by lia.
    replace (Z.to_nat (length - transferred)) with
      (Z.to_nat (d_length d) + Z.to_nat (length - (transferred + d_length d)))%nat by lia.
    rewrite <- slice_tail, <- Z2Nat.inj_add by lia. by rewrite Z.add_assoc.
  - split; [done | lia].
  - intros i Hi. destruct (Hap i ltac:(lia)) as [Hr Hf].
    by apply Forall_cons in Hf as [_ Hf].
Qed.

(** The guest buffers of a command, apart from its descriptor table. *)
Definition buffers_apart m (cmd : OpenFlashCommand) (length : Z) : Prop :=
  has_flag (c_flags cmd) OF_CMD_F_SGL = true →
  table_apart (c_data_addr cmd) 0 (Z.to_nat (u16 (Z.land (c_control cmd) 0xffff)))
    (command_segments m cmd length).

Lemma transfer_read_eq w cmd offset length st :
  s_storage (m_dev w) = Some st → 0 ≤ offset → 0 ≤ length < 2 ^ 64 →
  offset + length ≤ len st → data_ok (m_mem w) cmd length →
  buffers_apart (m_mem w) cmd length →
  openflash_transfer w cmd offset length false =
    Done (true, with_mem (scatter (m_mem w) (command_segments (m_mem w) cmd length)
      (slice (Z.to_nat offset) (Z.to_nat length) st)) w).
Proof.
  intros Hst Ho Hl Hb [Hdma Hsgl] Hap.
  unfold openflash_transfer, buffers_apart, command_segments in *.
  destruct (has_flag (c_flags cmd) OF_CMD_F_SGL); cbn [negb].
  - destruct (Hsgl eq_refl) as [Hc Hok]. specialize (Hap eq_refl).
    unfold OF_MAX_SGL_ENTRIES in *.
    rewrite !(proj2 (Z.eqb_neq _ _)), (proj2 (Z.ltb_ge _ _)) by lia. cbn [orb].
    rewrite (transfer_sgl_read _ _ _ _ _ _ _ st); try done; try lia.
    + by rewrite Z.add_0_r, Z.sub_0_r.
    + by rewrite Z.sub_0_r.
  - rewrite (proj2 (Z.eqb_neq _ _)) by done.
    rewrite (segment_read_eq w st) by (done || lia). outcomes. cbn [scatter].
    by rewrite slice_head.
Qed.

(** ** Scattered data *)
Fixpoint disjoint_segments segs : Prop :=
  match segs with
  | [] => True
  | s :: segs => Forall (λ t, apart s.1 s.2 t.1 t.2) segs ∧ disjoint_segments segs
  end.

Lemma scatter_other m segs bs b n :
  Forall (λ s, 0 ≤ s.2 ∧ is_ram s.1 s.2 ∧ apart s.1 s.2 b n) segs →
  is_ram b n → len bs = total segs →
  dma_read (scatter m segs bs) b n = dma_read m b n.
Proof.
  intros Hf Hb. revert m bs.
  induction Hf as [| [a k] segs (Hk & Hr & Ha) Hf IH]; intros m bs Hl; [done |].
  rewrite total_cons in Hl. cbn in Hk, Hr, Ha. cbn [scatter].
  assert (0 ≤ total segs) by (clear -Hf; unfold total; induction Hf; cbn in *; lia).
  rewrite IH by (rewrite length_drop; lia).
  assert (len (take (Z.to_nat k) bs) = k) as Hlt by (rewrite length_take; lia).
  unfold apart in Ha. apply dma_read_write_other; rewrite ?Hlt; [done | done | lia].
Qed.

Lemma gather_scatter m segs bs :
  Forall (λ s, 0 ≤ s.2 ∧ is_ram s.1 s.2) segs → disjoint_segments segs →
  len bs = total segs → gather (scatter m segs bs) segs = bs.
Proof.
  revert m bs. induction segs as [| [a k] segs IH]; intros m bs Hf Hd Hl.
  { by destruct bs. }
  apply Forall_cons in Hf as [[Hk Hr] Hf]. destruct Hd as [Hd1 Hd2].
  rewrite total_cons in Hl. cbn in Hk, Hr, Hd1. cbn [scatter]. rewrite gather_cons.
  assert (0 ≤ total segs) by (clear -Hf; unfold total; induction Hf; cbn in *; lia).
  assert (len (take (Z.to_nat k) bs) = k) as Hlt by (rewrite length_take; lia).
  rewrite IH by (done || rewrite length_drop; lia).
  rewrite scatter_other; [| | done | rewrite length_drop; lia].
  - rewrite <- Hlt at 2. rewrite dma_read_write_same by (by rewrite Hlt).
    apply take_drop.
  - rewrite Forall_forall in *. intros t Ht.
    destruct (Hf t Ht) as [? ?]. split; [done |]. split; [done |].
    destruct (Hd1 t Ht); [right | left]; lia.
Qed.

(** ** Transfers stay in their range, accepted or not *)
Definition confined (offset length : Z) w w' : Prop :=
  ∀ st, s_storage (m_dev w) = Some st →
    ∃ st', s_storage (m_dev w') = Some st' ∧
      ∀ i, Z.of_nat i < offset ∨ offset + length ≤ Z.of_nat i → st' !! i = st !! i.

Lemma confined_refl offset length w : confined offset length w w.
Proof. intros st Hst. eauto. Qed.

Lemma confined_trans offset length w1 w2 w3 :
  confined offset length w1 w2 → confined offset length w2 w3 →
  confined offset length w1 w3.
Proof.
  intros H12 H23 st Hst. destruct (H12 st Hst) as (st2 & Hst2 & He2).
  destruct (H23 st2 Hst2) as (st3 & Hst3 & He3).
  exists st3. split; [done |]. intros i Hi. by rewrite He3, He2.
Qed.

Lemma segment_confined write addr pos n w w' offset length :
  transfer_segment write addr pos n w = Done w' →
  offset ≤ pos → pos + n ≤ offset + length → confined offset length w w'.
Proof.
  intros E Hlo Hhi st Hst. unfold transfer_segment in E. destruct write.
  - unfold storage_store in E. rewrite Hst in E. outcomes in E.
    case_split; [| done]. bprop. outcomes in E. simplify_eq. cbn.
    eexists. split; [done |]. intros i Hi. rewrite lookup_splice by lia.
    rewrite decide_False; [done |]. rewrite dma_read_length. lia.
  - unfold storage_load in E. rewrite Hst in E. outcomes in E.
    case_split; [| done]. outcomes in E. simplify_eq. cbn. eauto.
Qed.

Lemma transfer_sgl_confined write dma offset length k index transferred w ok w' :
  transfer_sgl write dma offset length k index transferred w = Done (ok, w') →
  0 ≤ transferred ≤ length → length < 2 ^ 64 → confined offset length w w'.
Proof.
  revert index transferred w. induction k as [| k IH]; intros index transferred w E Ht Hl;
    cbn [transfer_sgl] in E; [simplify_eq; apply confined_refl |].
  destruct (decode_sgl_wf (dma_read (m_mem w) (u64 (dma + index * 16)) 16)) as [_ Hd].
  { by rewrite dma_read_length. }
  set (d := decode_OpenFlashSglDesc _) in *.
  case_split; [simplify_eq; apply confined_refl |]. bprop.
  match goal with Hle : _ ≤ u64 _ |- _ => rewrite u64_small in Hle by lia end.
  destruct (transfer_segment _ _ _ _ _) as [w1 | |] eqn:E1; [| done..].
  outcomes in E. rewrite u64_small in E by lia.
  eapply confined_trans; [eapply segment_confined; [exact E1 | lia | lia] |].
  eapply IH; [exact E | lia | lia].
Qed.

Lemma transfer_confined w cmd offset length write ok w' :
  openflash_transfer w cmd offset length write = Done (ok, w') →
  0 ≤ length < 2 ^ 64 → confined offset length w w'.
Proof.
  intros E Hl. unfold openflash_transfer in E.
  case_split.
  - case_split; [simplify_eq; apply confined_refl |].
    destruct (transfer_segment _ _ _ _ _) as [w1 | |] eqn:E1; [| done..].
    outcomes in E. simplify_eq. eapply segment_confined; [exact E1 | lia | lia].
  - case_split; [simplify_eq; apply confined_refl |].
    eapply transfer_sgl_confined; [exact E | lia | lia].
Qed.

Lemma persist_confined offset length w ok w' :
  openflash_persist w = Done (ok, w') → confined offset length w w'.
Proof.
  unfold openflash_persist. intros E st Hst.
  case_split; [| simplify_eq; eauto].
  destruct (storage_load _ _ _); [| done..]. outcomes in E.
  destruct (g_file_set_contents _ _ _). simplify_eq. cbn. eauto.
Qed.

Lemma switch_confined w cmd offset length status result w' :
  0 ≤ offset → 0 ≤ length < 2 ^ 64 →
  execute_switch w cmd offset length = Done (status, result, w') →
  confined offset length w w'.
Proof.
  intros Ho Hl E. unfold execute_switch in E. case_split.
  { destruct (openflash_transfer _ _ _ _ _) as [[ok w1] | |] eqn:E1; [| done..].
    apply transfer_confined in E1; [| done].
    outcomes in E. case_split; by simplify_eq. }
  case_split.
  { destruct (openflash_transfer _ _ _ _ _) as [[ok w1] | |] eqn:E1; [| done..].
    apply transfer_confined in E1; [| done].
    outcomes in E. case_split; [by simplify_eq |]. case_split; [| by simplify_eq].
    destruct (openflash_persist w1) as [[ok' w2] | |] eqn:E2; [| done..].
    apply (persist_confined offset length) in E2.
    outcomes in E. case_split; simplify_eq; by eapply confined_trans. }
  case_split; [| simplify_eq; apply confined_refl].
  unfold storage_store in E. destruct (s_storage (m_dev w)) as [st |] eqn:Hst; [| done].
  outcomes in E. case_split; [| done]. outcomes in E. simplify_eq.
  intros st' Hst'. bprop. simplify_eq. cbn. eexists. split; [done |]. intros i Hi.
  rewrite lookup_splice by lia. rewrite decide_False; [done |]. rewrite length_replicate. lia.
Qed.

(** A command changes no byte of the buffer outside its range. *)
Lemma execute_confined w cmd status result w' :
  cmd_wf cmd → openflash_execute w cmd = Done (status, result, w') →
  confined (u64 (c_lba cmd * OF_BLOCK_SIZE)) (c_nblocks cmd * OF_BLOCK_SIZE) w w'.
Proof.
  intros Hc E. pose proof (wf_nblocks _ Hc). unfold openflash_execute in E.
  assert (u64 (c_nblocks cmd * OF_BLOCK_SIZE) = c_nblocks cmd * OF_BLOCK_SIZE) as Hl
    by (apply u64_small; unfold OF_BLOCK_SIZE; lia).
  pose proof (u64_range (c_lba cmd * OF_BLOCK_SIZE)).
  pose proof (u64_range (c_nblocks cmd * OF_BLOCK_SIZE)).
  rewrite <- Hl. set (offset := u64 (c_lba _ * _)) in *.
  case_split; [simplify_eq; apply confined_refl |].
  case_split.
  { unfold execute_create_ioq in E. case_split; [simplify_eq; apply confined_refl |].
    destruct (deref _); outcomes in E; simplify_eq. intros st Hst. cbn. eauto. }
  case_split.
  { destruct (openflash_persist w) as [[ok w1] | |] eqn:E1; [| done..].
    outcomes in E. simplify_eq. by eapply persist_confined. }
  do 2 (case_split; [simplify_eq; apply confined_refl |]).
  eapply switch_confined; [lia | lia | exact E].
Qed.
End Segments.
