(* ===== verification/DeviceRegisters.v ===== *)
(** * Register interface of the QEMU device

    Lemmas on the branches of [openflash_mmio_write] and [openflash_mmio_read]
    the driver uses: the 64-bit ring addresses written as two halves, the
    queue size, the control register, doorbells that are ignored. *)
From S2P Require Import Prelude Packed Environment QemuDevice DeviceSafety.

(** ** A 64-bit address written as two 32-bit halves *)
Lemma land_high_mask a :
  0 ≤ a < 2 ^ 64 → Z.land a HIGH_MASK = Z.shiftl (Z.shiftr a 32) 32.
Proof.
  intros Ha. rewrite <- Z.ldiff_ones_r by lia.
  change HIGH_MASK with (Z.ldiff (Z.ones 64) (Z.ones 32)).
  apply Z.bits_inj'. intros i Hi. rewrite Z.land_spec, !Z.ldiff_spec.
  rewrite (Z.testbit_ones_nonneg 64) by lia.
  destruct (Z.ltb_spec i 64); [by rewrite andb_true_l |].
  by rewrite (bits_above a 64) by lia.
Qed.

Lemma halves_apart hi lo : 0 ≤ lo < 2 ^ 32 → Z.land (Z.shiftl hi 32) lo = 0.
Proof.
  intros Hlo. apply Z.bits_inj'. intros i Hi. rewrite Z.land_spec, Z.bits_0.
  destruct (Z.lt_ge_cases i 32).
  - by rewrite Z.shiftl_spec_low by lia.
  - by rewrite (bits_above lo 32), andb_false_r by lia.
Qed.

Lemma lor_halves hi lo :
  0 ≤ lo < 2 ^ 32 → Z.lor (Z.shiftl hi 32) lo = hi * 2 ^ 32 + lo.
Proof.
  intros. rewrite <- Z.add_nocarry_lor by (by apply halves_apart).
  by rewrite Z.shiftl_mul_pow2.
Qed.

Lemma write_lo a lo :
  0 ≤ a < 2 ^ 64 → 0 ≤ lo < 2 ^ 32 →
  Z.lor (Z.land a HIGH_MASK) lo = a / 2 ^ 32 * 2 ^ 32 + lo.
Proof.
  intros. rewrite land_high_mask, lor_halves by done. by rewrite Z.shiftr_div_pow2.
Qed.

Lemma write_hi a hi :
  0 ≤ hi < 2 ^ 32 →
  Z.lor (Z.land a 0xffffffff) (u64 (Z.shiftl hi 32)) = hi * 2 ^ 32 + a `mod` 2 ^ 32.
Proof.
  intros. change 0xffffffff with (Z.ones 32). rewrite Z.land_ones by done.
  rewrite u64_small by (rewrite Z.shiftl_mul_pow2 by done; lia).
  rewrite Z.lor_comm. apply lor_halves. by apply Z.mod_pos_bound.
Qed.

Lemma write_halves a lo hi :
  0 ≤ a < 2 ^ 64 → 0 ≤ lo < 2 ^ 32 → 0 ≤ hi < 2 ^ 32 →
  Z.lor (Z.land (Z.lor (Z.land a HIGH_MASK) lo) 0xffffffff) (u64 (Z.shiftl hi 32)) =
  hi * 2 ^ 32 + lo.
Proof.
  intros. rewrite write_hi, write_lo by done. f_equal.
  rewrite Z.add_comm, Z_mod_plus_full. by apply Z.mod_small.
Qed.

Section Registers.
Context {M F : Type} `{GM : GuestMemory M, HF : HostFiles F}.
Implicit Types w : machine M F.

(** Register writes in order. *)
Fixpoint mmio_writes (fuel : nat) w (rs : list (Z * Z)) : outcome (machine M F) :=
  match rs with
  | [] => Done w
  | (addr, value) :: rs =>
      w ← openflash_mmio_write fuel w addr value; mmio_writes fuel w rs
  end.

(** The admin queue as the six configuration registers leave it: addresses and
    size are set, the cursors and the phase stay. *)
Definition configured_admin (sq cq depth : Z) (q : OpenFlashQueue) : OpenFlashQueue :=
  {| q_sq_addr := sq; q_cq_addr := cq; q_depth := depth;
     q_sq_head := q_sq_head q; q_cq_tail := q_cq_tail q;
     q_cq_head := q_cq_head q; q_vector := q_vector q;
     q_cq_phase := q_cq_phase q; q_enabled := true |}.

Lemma update_queue_twice i f g s :
  update_queue i f (update_queue i g s) = update_queue i (f ∘ g) s.
Proof.
  unfold update_queue, set_queues. cbn. f_equal. apply list_eq. intros j.
  destruct (decide (j = i)) as [-> | Hne].
  - rewrite !list_lookup_alter_eq. by destruct (_ !! _).
  - by rewrite !list_lookup_alter_ne by done.
Qed.

Lemma update_queue_insert i f s q :
  s_queues s !! i = Some q → update_queue i f s = set_queues (<[i := f q]> (s_queues s)) s.
Proof.
  intros Hq. unfold update_queue. f_equal. by apply alter_insert.
Qed.

(** The set-up sequence of the driver and of the QTests. *)
Definition configure (sq_lo sq_hi cq_lo cq_hi depth control : Z) : list (Z * Z) :=
  [(OF_REG_ADMIN_SQ_LO, sq_lo); (OF_REG_ADMIN_SQ_HI, sq_hi);
   (OF_REG_ADMIN_CQ_LO, cq_lo); (OF_REG_ADMIN_CQ_HI, cq_hi);
   (OF_REG_ADMIN_QSIZE, depth); (OF_REG_CONTROL, control)].

Lemma configure_eq fuel w q sq_lo sq_hi cq_lo cq_hi depth :
  s_queues (m_dev w) !! 0%nat = Some q → queue_wf q →
  0 ≤ sq_lo < 2 ^ 32 → 0 ≤ sq_hi < 2 ^ 32 → 0 ≤ cq_lo < 2 ^ 32 → 0 ≤ cq_hi < 2 ^ 32 →
  2 ≤ depth ≤ 4096 →
  mmio_writes fuel w (configure sq_lo sq_hi cq_lo cq_hi depth OF_CTRL_ENABLE) =
  Done (with_dev (set_control OF_CTRL_ENABLE OF_STATUS_READY (set_queues
    (<[0%nat := configured_admin (sq_hi * 2 ^ 32 + sq_lo) (cq_hi * 2 ^ 32 + cq_lo)
                  depth q]> (s_queues (m_dev w))) (m_dev w))) w).
Proof.
  intros Hq [Hsq Hcq _ _ _ _ _ _ _] ? ? ? ? Hd.
  cbn -[update_queue HIGH_MASK u64 u32 Z.leb].
  rewrite (proj2 (Z.leb_le 2 depth)), (proj2 (Z.leb_le depth 4096)) by lia.
  cbn [andb]. rewrite (proj2 (Z.eqb_neq depth 0)) by lia. cbn [negb].
  rewrite !update_queue_twice, (update_queue_insert _ _ _ q) by done.
  unfold compose. cbn [set_sq_addr set_cq_addr set_size q_sq_addr q_cq_addr].
  rewrite !write_halves by done. done.
Qed.

(** The two doorbells of a queue. *)
Lemma sq_doorbell_eq fuel w qid v :
  qid = 0 ∨ qid = 1 → is_Some (s_queues (m_dev w) !! Z.to_nat qid) →
  openflash_mmio_write fuel w (OF_REG_DOORBELL_BASE + qid * 8) v =
  openflash_process_sq fuel w qid (u16 v).
Proof.
  intros Hqid [q Hq].
  assert (openflash_mmio_write fuel w (OF_REG_DOORBELL_BASE + qid * 8) v =
    (_ ← deref (s_queues (m_dev w) !! Z.to_nat qid);
     openflash_process_sq fuel w qid (u16 v))) as -> by (by destruct Hqid as [-> | ->]).
  by rewrite Hq.
Qed.

Lemma cq_doorbell_eq fuel w qid v q :
  qid = 0 ∨ qid = 1 → s_queues (m_dev w) !! Z.to_nat qid = Some q →
  openflash_mmio_write fuel w (OF_REG_DOORBELL_BASE + qid * 8 + 4) v =
  Done (if v <? q_depth q
        then with_dev (update_queue (Z.to_nat qid) (set_cq_head (u16 v)) (m_dev w)) w
        else w).
Proof.
  intros Hqid Hq.
  assert (openflash_mmio_write fuel w (OF_REG_DOORBELL_BASE + qid * 8 + 4) v =
    (queue ← deref (s_queues (m_dev w) !! Z.to_nat qid);
     if v <? q_depth queue
     then Done (with_dev (update_queue (Z.to_nat qid) (set_cq_head (u16 v)) (m_dev w)) w)
     else Done w)) as -> by (by destruct Hqid as [-> | ->]).
  rewrite Hq. outcomes. by destruct (_ <? _).
Qed.

Lemma process_sq_disabled fuel w qid t :
  length (s_queues (m_dev w)) = 2%nat → 0 ≤ qid →
  (∀ q, s_queues (m_dev w) !! Z.to_nat qid = Some q → q_enabled q = false) →
  openflash_process_sq fuel w qid t = Done w.
Proof.
  intros Hl Hqid Hen. unfold openflash_process_sq. case_split; [done |]. bprop.
  unfold OF_MAX_QUEUES in *.
  destruct (lookup_lt_is_Some_2 (s_queues (m_dev w)) (Z.to_nat qid)) as [q Hq]; [lia |].
  rewrite Hq. outcomes. rewrite (Hen q Hq). cbn [negb]. by rewrite orb_true_r.
Qed.

(** Doorbells of a device whose queues have size zero and are off. *)
Lemma doorbell_ignored fuel w addr value :
  s_queues (m_dev w) = reset_queues → OF_REG_DOORBELL_BASE ≤ addr → 0 ≤ value →
  openflash_mmio_write fuel w addr value = Done w.
Proof.
  intros Hq Ha Hv. unfold openflash_mmio_write.
  unfold OF_REG_DOORBELL_BASE in Ha.
  do 6 (rewrite (proj2 (Z.eqb_neq _ _)) by
    (unfold OF_REG_CONTROL, OF_REG_ADMIN_SQ_LO, OF_REG_ADMIN_SQ_HI, OF_REG_ADMIN_CQ_LO,
       OF_REG_ADMIN_CQ_HI, OF_REG_ADMIN_QSIZE; lia)).
  destruct (_ && _) eqn:Hdb; [| done]. bprop.
  unfold OF_REG_DOORBELL_BASE, OF_MAX_QUEUES in *.
  assert ((addr - 0x1000) / 8 = 0 ∨ (addr - 0x1000) / 8 = 1) as Hd.
  { assert (0 ≤ (addr - 0x1000) / 8 < 2); [| lia].
    split; [apply Z.div_pos; lia | apply Z.div_lt_upper_bound; lia]. }
  assert (∃ q, s_queues (m_dev w) !! Z.to_nat (u16 ((addr - 0x1000) / 8)) = Some q ∧
    q_depth q = 0 ∧ q_enabled q = false) as (q & -> & Hdep & Hen).
  { rewrite Hq. destruct Hd as [-> | ->]; eexists; repeat split. }
  outcomes. rewrite Hdep, (proj2 (Z.ltb_ge value 0) Hv). case_split; [| done].
  apply process_sq_disabled; [by rewrite Hq | apply u16_range |].
  rewrite Hq. destruct Hd as [-> | ->]; intros q' Hq'; by injection Hq' as <-.
Qed.
End Registers.

(** ** Commands the device refuses *)
Section Refused.
Context {M F : Type} `{GM : GuestMemory M, HF : HostFiles F}.
Implicit Types w : machine M F.

Definition known_opcodes : list Z :=
  [OF_OP_READ; OF_OP_WRITE; OF_OP_FLUSH; OF_OP_DISCARD; OF_ADMIN_IDENTIFY;
   OF_ADMIN_CREATE_IOQ].

(** The range test, on the 64-bit byte offset and length. *)
Definition out_of_range (s : OpenFlashState) (cmd : OpenFlashCommand) : bool :=
  (s_capacity s <? u64 (c_lba cmd * OF_BLOCK_SIZE)) ||
  (u64 (s_capacity s - u64 (c_lba cmd * OF_BLOCK_SIZE))
     <? u64 (c_nblocks cmd * OF_BLOCK_SIZE)).

(** The status after the switch, when it is neither a success nor an internal
    error, tells whether the opcode was known. *)
Lemma switch_status w cmd offset length status res w' :
  execute_switch w cmd offset length = Done (status, res, w') →
  status ≠ OF_SC_LBA_RANGE ∧ (status = OF_SC_INVALID_OPCODE → w' = w ∧ res = 0).
Proof.
  unfold execute_switch. intros E.
  destruct (_ =? _).
  { destruct openflash_transfer as [[[] ?] | |]; outcomes in E; by simplify_eq/=. }
  destruct (_ =? _).
  { destruct openflash_transfer as [[[] ?] | |]; outcomes in E; cbn [negb] in E;
      [| by simplify_eq..].
    destruct has_flag; [| by simplify_eq].
    destruct openflash_persist as [[[] ?] | |]; outcomes in E; by simplify_eq/=. }
  destruct (_ =? _); [destruct storage_store; outcomes in E; by simplify_eq |].
  by simplify_eq.
Qed.

Lemma refused_pure w cmd status res w' :
  openflash_execute w cmd = Done (status, res, w') →
  status = OF_SC_LBA_RANGE ∨ status = OF_SC_INVALID_OPCODE → w' = w ∧ res = 0.
Proof.
  unfold openflash_execute. intros E Hst.
  destruct (_ =? OF_ADMIN_IDENTIFY); [by simplify_eq; destruct Hst |].
  destruct (_ =? OF_ADMIN_CREATE_IOQ).
  { unfold execute_create_ioq in E. case_split; [by simplify_eq; destruct Hst |].
    destruct (_ !! _); outcomes in E; simplify_eq; by destruct Hst. }
  destruct (_ =? OF_OP_FLUSH).
  { destruct openflash_persist as [[[] ?] | |]; outcomes in E; simplify_eq; by destruct Hst. }
  case_split; [by simplify_eq; destruct Hst |]. case_split; [by simplify_eq |].
  apply switch_status in E as [? ?]. destruct Hst; [done | auto].
Qed.

Lemma unknown_opcode w cmd :
  c_opcode cmd ∉ known_opcodes →
  openflash_execute w cmd =
    Done (if c_nblocks cmd =? 0 then OF_SC_INVALID_FIELD
          else if out_of_range (m_dev w) cmd then OF_SC_LBA_RANGE
          else OF_SC_INVALID_OPCODE, 0, w).
Proof.
  unfold known_opcodes. rewrite !not_elem_of_cons.
  intros (H1 & H2 & H3 & H4 & H5 & H6 & _).
  unfold openflash_execute, execute_switch, out_of_range.
  apply Z.eqb_neq in H1, H2, H3, H4, H5, H6.
  rewrite H1, H2, H3, H4, H5, H6. by repeat case_split.
Qed.
End Refused.
