(* ===== verification/Blocks.v ===== *)
(** * Byte buffers as arrays of blocks

    [to_blocks b l] cuts a buffer of a whole number of [b]-byte blocks into
    its blocks.  The byte-range operations on the buffer are the block-range
    operations on the array. *)
From S2P Require Import Prelude.

Section Blocks.
Local Open Scope nat_scope.
Context (b : nat) (Hb : 0 < b).
Implicit Types l data : list byte.

Definition to_blocks l : list (list byte) :=
  (λ i, slice (i * b) b l) <$> seq 0 (length l / b).

Lemma length_to_blocks l n : length l = n * b → length (to_blocks l) = n.
Proof.
  intros Hl. unfold to_blocks. rewrite length_fmap, length_seq, Hl.
  apply Nat.div_mul. lia.
Qed.

Lemma lookup_to_blocks l n i :
  length l = n * b →
  to_blocks l !! i = if decide (i < n) then Some (slice (i * b) b l) else None.
Proof.
  intros Hl. unfold to_blocks. rewrite list_lookup_fmap, Hl, Nat.div_mul by lia.
  case_decide; [by rewrite lookup_seq_lt by lia | by rewrite lookup_seq_ge by lia].
Qed.

Lemma slice_splice_block data l p k i :
  length data = k * b → p * b ≤ length l → p ≤ i < p + k →
  slice (i * b) b (splice (p * b) data l) = slice ((i - p) * b) b data.
Proof.
  intros Hd Hl Hi. apply list_eq. intros j. rewrite !lookup_slice.
  case_decide; [| done]. rewrite lookup_splice by lia.
  rewrite decide_True by (rewrite Hd; nia). f_equal. nia.
Qed.

(** Copying whole blocks into the buffer replaces those blocks of the array. *)
Lemma to_blocks_splice data l p k n :
  length data = k * b → length l = n * b → p + k ≤ n →
  to_blocks (splice (p * b) data l) = list_inserts p (to_blocks data) (to_blocks l).
Proof.
  intros Hd Hl Hpk.
  assert (length (splice (p * b) data l) = n * b) as Hs by (rewrite length_splice; nia).
  apply list_eq. intros i. rewrite (lookup_to_blocks _ n) by done.
  pose proof (length_to_blocks data k Hd). pose proof (length_to_blocks l n Hl).
  destruct (decide (p ≤ i < p + k)).
  - rewrite list_lookup_inserts, (lookup_to_blocks _ k) by lia.
    rewrite !decide_True by lia. f_equal. by apply (slice_splice_block _ _ _ k); nia.
  - destruct (decide (i < p)).
    + rewrite list_lookup_inserts_lt, (lookup_to_blocks _ n) by done.
      case_decide; [| done]. f_equal. apply slice_splice_other; nia.
    + rewrite list_lookup_inserts_ge, (lookup_to_blocks _ n) by (done || lia).
      case_decide; [| done]. f_equal. apply slice_splice_other; nia.
Qed.

(** A block-aligned range of the buffer is a range of the array. *)
Lemma to_blocks_slice l p k n :
  length l = n * b → p + k ≤ n →
  to_blocks (slice (p * b) (k * b) l) = take k (drop p (to_blocks l)).
Proof.
  intros Hl Hpk.
  assert (length (slice (p * b) (k * b) l) = k * b) as Hs by (apply length_slice; nia).
  apply list_eq. intros i. rewrite (lookup_to_blocks _ k), lookup_take, lookup_drop by done.
  rewrite (lookup_to_blocks _ n) by done.
  case_decide; [| done]. rewrite decide_True by lia. f_equal.
  apply list_eq. intros j. rewrite !lookup_slice. case_decide; [| done].
  rewrite decide_True by nia. f_equal. lia.
Qed.

Lemma to_blocks_replicate k x : to_blocks (replicate (k * b) x) = replicate k (replicate b x).
Proof.
  apply list_eq. intros i. rewrite (lookup_to_blocks _ k) by apply length_replicate.
  case_decide as Hi.
  - rewrite lookup_replicate_2 by done. f_equal. apply list_eq. intros j.
    rewrite lookup_slice. case_decide.
    + rewrite !lookup_replicate_2; [done | done | nia].
    + rewrite lookup_ge_None_2; [done |]. rewrite length_replicate. lia.
  - rewrite lookup_ge_None_2; [done |]. rewrite length_replicate. lia.
Qed.

Lemma concat_to_blocks l n : length l = n * b → concat (to_blocks l) = l.
Proof.
  revert l. induction n as [| n IH]; intros l Hl.
  { by destruct l; [unfold to_blocks; rewrite Nat.Div0.div_0_l |]. }
  assert (to_blocks l = take b l :: to_blocks (drop b l)) as ->.
  { unfold to_blocks. rewrite length_drop, Hl.
    replace (S n * b - b) with (n * b) by lia. rewrite !Nat.div_mul by lia.
    cbn [seq fmap list_fmap]. f_equal.
    rewrite <- fmap_S_seq, <- list_fmap_compose. apply list_fmap_ext.
    intros i j _. cbn. unfold slice. rewrite drop_drop. do 2 f_equal. }
  cbn. rewrite IH by (rewrite length_drop; lia). apply take_drop.
Qed.
End Blocks.

(** Reading back an inserted range. *)
Lemma take_drop_inserts {A} (k l : list A) (i : nat) :
  (i + length k ≤ length l)%nat → take (length k) (drop i (list_inserts i k l)) = k.
Proof.
  intros Hl. apply list_eq. intros j. rewrite lookup_take, lookup_drop.
  case_decide.
  - rewrite list_lookup_inserts by lia. f_equal. lia.
  - by rewrite lookup_ge_None_2 by lia.
Qed.
