(* ===== verification/BlockSpec.v ===== *)
(** * The block device the controller promises

    An abstract disk: an array of 4 KiB blocks and, if the device has a
    backing file, the image that survives a power cycle.  [spec_step] answers
    a block request on it; [execute_refines] shows that [openflash_execute]
    implements it on every acceptable command. *)
From S2P Require Import Prelude Packed Environment Blocks QemuDevice.
From S2P Require Import DeviceSafety DeviceData.

(** ** Specification *)
Abbreviation block := (list byte).

Record disk := Disk {
  blocks : list block;
  persistent : bool;
  image : option (list block);
}.

Inductive request :=
| Identify
| Flush
| Read (lba n : Z)
| Write (lba : Z) (data : list block) (fua : bool)
| Discard (lba n : Z).

Record reply := Reply { r_status : Z; r_result : Z; r_data : list block }.

Definition success (result : Z) (data : list block) : reply :=
  Reply OF_SC_SUCCESS result data.
Definition failure (status : Z) : reply := Reply status 0 [].

(** Saving the image; [ok] is whether the host could. *)
Definition save (ok : bool) (d : disk) : bool * disk :=
  if persistent d then
    (ok, if ok then Disk (blocks d) true (Some (blocks d)) else d)
  else (true, d).

(** The checks common to block commands. *)
Definition in_range (d : disk) (lba n : Z) : option Z :=
  if n =? 0 then Some OF_SC_INVALID_FIELD
  else if len (blocks d) <? lba + n then Some OF_SC_LBA_RANGE
  else None.

Definition write_blocks (lba : Z) (data : list block) (d : disk) : disk :=
  Disk (list_inserts (Z.to_nat lba) data (blocks d)) (persistent d) (image d).

Definition zero_block : block := replicate (Z.to_nat OF_BLOCK_SIZE) Byte.x00.

Definition spec_step (ok : bool) (r : request) (d : disk) : reply * disk :=
  match r with
  | Identify => (success (len (blocks d)) [], d)
  | Flush =>
      let '(saved, d) := save ok d in
      (if saved then success 0 [] else failure OF_SC_INTERNAL, d)
  | Read lba n =>
      match in_range d lba n with
      | Some e => (failure e, d)
      | None =>
          (success n (take (Z.to_nat n) (drop (Z.to_nat lba) (blocks d))), d)
      end
  | Write lba data fua =>
      match in_range d lba (len data) with
      | Some e => (failure e, d)
      | None =>
          let d := write_blocks lba data d in
          if fua then
            let '(saved, d) := save ok d in
            (if saved then success (len data) [] else failure OF_SC_INTERNAL, d)
          else (success (len data) [], d)
      end
  | Discard lba n =>
      match in_range d lba n with
      | Some e => (failure e, d)
      | None => (success n [], write_blocks lba (replicate (Z.to_nat n) zero_block) d)
      end
  end.

(** ** Facts of the specification *)
Lemma save_blocks ok d : blocks (save ok d).2 = blocks d.
Proof. unfold save. by repeat case_split. Qed.

(** A write that succeeded was in range and left its data in place. *)
Lemma spec_write_success ok lba data fua d :
  r_status (spec_step ok (Write lba data fua) d).1 = OF_SC_SUCCESS →
  in_range d lba (len data) = None ∧
  blocks (spec_step ok (Write lba data fua) d).2 =
    list_inserts (Z.to_nat lba) data (blocks d).
Proof.
  cbn [spec_step]. destruct (in_range d lba (len data)) as [e |] eqn:He.
  - cbn. unfold in_range in He. repeat case_split; by simplify_eq.
  - intros _. split; [done |]. destruct fua; [| done].
    pose proof (save_blocks ok (write_blocks lba data d)) as Hs.
    by destruct (save ok _) as [[] d'].
Qed.

Lemma in_range_fits d lba n :
  0 ≤ lba → 0 ≤ n → in_range d lba n = None →
  n ≠ 0 ∧ (Z.to_nat lba + Z.to_nat n ≤ length (blocks d))%nat.
Proof. unfold in_range. intros. repeat case_split; bprop; [done | done | lia]. Qed.

(** Reading the blocks a successful write left. *)
Lemma spec_read_written ok d d' lba data :
  0 ≤ lba → in_range d lba (len data) = None →
  blocks d' = list_inserts (Z.to_nat lba) data (blocks d) →
  spec_step ok (Read lba (len data)) d' = (success (len data) data, d').
Proof.
  intros Hlba Hin Hb. destruct (in_range_fits d lba (len data)) as [Hne Hfit]; [lia.. | done |].
  cbn [spec_step].
  assert (in_range d' lba (len data) = None) as ->.
  { unfold in_range in *. by rewrite Hb, length_inserts. }
  rewrite Hb. rewrite Nat2Z.id. by rewrite take_drop_inserts by lia.
Qed.

(** ** Abstraction *)
Section Refinement.
Context {M F : Type} `{GM : GuestMemory M, !GuestMemoryLaws M}.
Context `{HF : HostFiles F, !HostFilesLaws F}.
Implicit Types w : machine M F.

Definition bs : nat := Z.to_nat OF_BLOCK_SIZE.

(** The disk a machine's device holds. *)
Record abs w (d : disk) : Prop := {
  abs_blocks : ∃ st, s_storage (m_dev w) = Some st ∧ blocks d = to_blocks bs st;
  abs_persistent : persistent d = bool_decide (is_Some (s_backing_file (m_dev w)));
  abs_image : ∀ name, s_backing_file (m_dev w) = Some name →
    image d = to_blocks bs <$> g_file_get_contents (m_files w) name;
}.

(** Bytes a block command covers. *)
Definition cmd_length (cmd : OpenFlashCommand) : Z := c_nblocks cmd * OF_BLOCK_SIZE.

(** The request a command stands for; writes carry the data the command's
    segments hold when it is executed. *)
Definition request_of w (cmd : OpenFlashCommand) : option request :=
  if c_opcode cmd =? OF_ADMIN_IDENTIFY then Some Identify
  else if c_opcode cmd =? OF_OP_FLUSH then Some Flush
  else if c_opcode cmd =? OF_OP_READ then Some (Read (c_lba cmd) (c_nblocks cmd))
  else if c_opcode cmd =? OF_OP_WRITE then
    Some (Write (c_lba cmd)
            (to_blocks bs (gather (m_mem w)
               (command_segments (m_mem w) cmd (cmd_length cmd))))
            (has_flag (c_flags cmd) OF_CMD_F_FUA))
  else if c_opcode cmd =? OF_OP_DISCARD then Some (Discard (c_lba cmd) (c_nblocks cmd))
  else None.

(** Commands whose data the device accepts: reads and writes need acceptable
    segments, and a read's descriptor table must not lie in its own buffers. *)
Definition acceptable w (cmd : OpenFlashCommand) : Prop :=
  (c_opcode cmd = OF_OP_READ ∨ c_opcode cmd = OF_OP_WRITE →
     data_ok (m_mem w) cmd (cmd_length cmd)) ∧
  (c_opcode cmd = OF_OP_READ → buffers_apart (m_mem w) cmd (cmd_length cmd)).

(** What the guest finds in memory after a reply: the data of a read in the
    command's segments, and nothing else changed. *)
Definition delivered w (cmd : OpenFlashCommand) (rep : reply) w' : Prop :=
  m_mem w' = scatter (m_mem w)
    (if bool_decide (r_data rep = []) then []
     else command_segments (m_mem w) cmd (cmd_length cmd)) (concat (r_data rep)).

Lemma bs_pos : (0 < bs)%nat.
Proof. unfold bs, OF_BLOCK_SIZE. lia. Qed.

Lemma bs_Z n : 0 ≤ n → Z.to_nat (n * OF_BLOCK_SIZE) = (Z.to_nat n * bs)%nat.
Proof. intros. unfold bs, OF_BLOCK_SIZE. lia. Qed.

(** The buffer of a well-formed device holds [capacity / 4096] blocks. *)
Lemma storage_blocks s st :
  dev_wf s → s_storage s = Some st →
  length st = (Z.to_nat (s_capacity s / OF_BLOCK_SIZE) * bs)%nat ∧
  len (to_blocks bs st) = s_capacity s / OF_BLOCK_SIZE ∧
  0 ≤ s_capacity s / OF_BLOCK_SIZE.
Proof.
  intros Hwf Hst. destruct (wf_storage _ Hwf) as ((Hc & Hm) & st' & Hst' & Hl).
  assert (st' = st) as -> by congruence.
  assert (0 ≤ s_capacity s / OF_BLOCK_SIZE) as Hd by (apply Z.div_pos; unfold OF_BLOCK_SIZE; lia).
  assert (length st = (Z.to_nat (s_capacity s / OF_BLOCK_SIZE) * bs)%nat) as Hlen.
  { rewrite <- bs_Z by done. pose proof (Z.div_mod (s_capacity s) OF_BLOCK_SIZE).
    unfold OF_BLOCK_SIZE in *. lia. }
  split; [done |]. split; [| done].
  rewrite (length_to_blocks _ bs_pos _ _ Hlen). lia.
Qed.

(** ** The range check in blocks *)
Lemma range_check_blocks s lba n :
  dev_wf s → 0 ≤ lba < 2 ^ 52 → 0 ≤ n < 2 ^ 32 →
  u64 (lba * OF_BLOCK_SIZE) = lba * OF_BLOCK_SIZE ∧
  u64 (n * OF_BLOCK_SIZE) = n * OF_BLOCK_SIZE ∧
  (s_capacity s <? lba * OF_BLOCK_SIZE)
    || (u64 (s_capacity s - lba * OF_BLOCK_SIZE) <? n * OF_BLOCK_SIZE)
  = (s_capacity s / OF_BLOCK_SIZE <? lba + n).
Proof.
  intros Hwf Hlba Hn. destruct (wf_storage _ Hwf) as ((Hc & Hm) & _).
  pose proof (Z.div_mod (s_capacity s) OF_BLOCK_SIZE) as Hdm.
  unfold OF_BLOCK_SIZE in *. rewrite !u64_small by lia.
  do 2 (split; [done |]).
  destruct (Z.ltb_spec (s_capacity s) (lba * 4096)); cbn [orb].
  - symmetry. apply Z.ltb_lt. lia.
  - rewrite u64_small by lia. 
    destruct (Z.ltb_spec (s_capacity s / 4096) (lba + n));
      [apply Z.ltb_lt | apply Z.ltb_ge]; lia.
Qed.

(** ** Saving the image *)
(** The disk is the buffer and the file. *)
Lemma abs_ext w w' d :
  abs w d → s_storage (m_dev w') = s_storage (m_dev w) →
  s_backing_file (m_dev w') = s_backing_file (m_dev w) → m_files w' = m_files w → abs w' d.
Proof. intros [] Hs Hb Hf. constructor; by rewrite ?Hs, ?Hb, ?Hf. Qed.

Lemma abs_same w w' d :
  abs w d → m_dev w' = m_dev w → m_files w' = m_files w → abs w' d.
Proof. intros Ha Hd Hf. eapply abs_ext; [done | by rewrite Hd.. | done]. Qed.

Lemma persist_refines w d :
  dev_wf (m_dev w) → abs w d →
  ∃ ok fs, openflash_persist w = Done ((save ok d).1, with_files fs w) ∧
    abs (with_files fs w) (save ok d).2.
Proof.
  intros Hwf [(st & Hst & Hbl) Hp Hi].
  destruct (wf_storage _ Hwf) as (Hcap & st' & Hst' & Hlen).
  assert (st' = st) as -> by congruence.
  unfold openflash_persist, save. rewrite Hp.
  destruct (s_backing_file (m_dev w)) as [name |] eqn:Hn; cbn [bool_decide].
  2: { exists true, (m_files w). split; [by destruct w |].
       constructor; cbn; [eauto | by rewrite Hn | by rewrite Hn]. }
  rewrite (storage_load_eq _ st) by (done || lia). outcomes.
  assert (slice (Z.to_nat 0) (Z.to_nat (s_capacity (m_dev w))) st = st) as ->
    by (unfold slice; rewrite drop_0, take_ge; [done | lia]).
  destruct (g_file_set_contents (m_files w) name st) as [fs ok] eqn:E.
  exists ok, fs. rewrite bool_decide_eq_true_2 by eauto. cbn [fst snd].
  split; [done |]. destruct ok.
  - apply set_contents_ok in E as [Hg _]. constructor; cbn [blocks persistent image].
    + exists st. done.
    + cbn. by rewrite Hn, bool_decide_eq_true_2 by eauto.
    + intros name' Hn'. cbn in Hn'. simplify_eq. cbn. by rewrite Hg, Hbl.
  - apply set_contents_failed in E as [Hg _]. constructor; cbn.
    + eauto.
    + by rewrite Hn.
    + intros name' Hn'. simplify_eq. rewrite Hg. eauto.
Qed.

(** ** Writing blocks *)
Lemma write_refines w d st lba data n :
  dev_wf (m_dev w) → abs w d → s_storage (m_dev w) = Some st →
  0 ≤ lba → 0 ≤ n → lba + n ≤ s_capacity (m_dev w) / OF_BLOCK_SIZE →
  length data = (Z.to_nat n * bs)%nat →
  abs (with_dev (set_storage (Some (splice (Z.to_nat (lba * OF_BLOCK_SIZE)) data st))
         (m_dev w)) w)
      (write_blocks lba (to_blocks bs data) d).
Proof.
  intros Hwf [(st' & Hst' & Hbl) Hp Hi] Hst Hlba Hn Hr Hd.
  assert (st' = st) as -> by congruence.
  destruct (storage_blocks _ _ Hwf Hst) as (Hlen & _ & _).
  constructor; cbn; [| done | done].
  eexists. split; [done |]. rewrite Hbl, bs_Z by done. symmetry.
  eapply to_blocks_splice; [apply bs_pos | done | done | lia].
Qed.

(** ** One command *)
Definition refines w (cmd : OpenFlashCommand) (d : disk) (r : request)
    (o : outcome (Z * Z * machine M F)) : Prop :=
  ∃ ok w',
    o = Done (r_status (spec_step ok r d).1, r_result (spec_step ok r d).1, w') ∧
    abs w' (spec_step ok r d).2 ∧ delivered w cmd (spec_step ok r d).1 w'.

Lemma gather_command_length m cmd length :
  data_ok m cmd length → 0 ≤ length →
  len (gather m (command_segments m cmd length)) = length.
Proof.
  intros [_ Hok] Hl. unfold command_segments in *.
  destruct (has_flag (c_flags cmd) OF_CMD_F_SGL).
  - destruct (Hok eq_refl) as [_ Hs]. rewrite length_gather; [apply Hs |].
    by eapply segment_total.
  - rewrite gather_cons, app_nil_r, dma_read_length. lia.
Qed.

Lemma gathered_blocks m cmd :
  cmd_wf cmd → data_ok m cmd (cmd_length cmd) →
  length (gather m (command_segments m cmd (cmd_length cmd)))
    = (Z.to_nat (c_nblocks cmd) * bs)%nat ∧
  len (to_blocks bs (gather m (command_segments m cmd (cmd_length cmd))))
    = c_nblocks cmd.
Proof.
  intros Hc Hok. pose proof (wf_nblocks _ Hc).
  assert (length (gather m (command_segments m cmd (cmd_length cmd)))
          = (Z.to_nat (c_nblocks cmd) * bs)%nat) as Hg.
  { rewrite <- bs_Z by lia. fold (cmd_length cmd).
    pose proof (gather_command_length m cmd (cmd_length cmd) Hok) as Hl.
    unfold cmd_length, OF_BLOCK_SIZE in *. lia. }
  split; [done |]. rewrite (length_to_blocks _ bs_pos _ _ Hg). lia.
Qed.

Lemma blocks_count w d :
  dev_wf (m_dev w) → abs w d → len (blocks d) = s_capacity (m_dev w) / OF_BLOCK_SIZE.
Proof.
  intros Hwf [(st & Hst & ->) _ _]. by apply storage_blocks.
Qed.

Lemma failure_refines w cmd d r status :
  abs w d → (∀ ok, spec_step ok r d = (failure status, d)) →
  refines w cmd d r (Done (status, 0, w)).
Proof. intros Ha Hr. exists true, w. by rewrite Hr. Qed.

Section Command.
Context (w : machine M F) (d : disk) (cmd : OpenFlashCommand) (st : list byte).
Hypotheses (Hwf : dev_wf (m_dev w)) (Habs : abs w d)
  (Hst : s_storage (m_dev w) = Some st) (Hc : cmd_wf cmd) (Hacc : acceptable w cmd).

Let offset : Z := c_lba cmd * OF_BLOCK_SIZE.

Hypotheses (Hn : c_nblocks cmd ≠ 0)
  (Hr : c_lba cmd + c_nblocks cmd ≤ s_capacity (m_dev w) / OF_BLOCK_SIZE).

Lemma command_fits :
  0 ≤ offset ∧ 0 ≤ cmd_length cmd < 2 ^ 64 ∧ offset + cmd_length cmd ≤ len st ∧
  Z.to_nat (cmd_length cmd) = (Z.to_nat (c_nblocks cmd) * bs)%nat ∧
  in_range d (c_lba cmd) (c_nblocks cmd) = None.
Proof.
  pose proof (wf_lba _ Hc). pose proof (wf_nblocks _ Hc).
  destruct (storage_blocks _ _ Hwf Hst) as (Hlen & _ & Hd).
  split; [unfold offset, OF_BLOCK_SIZE; lia |].
  split; [unfold cmd_length, OF_BLOCK_SIZE; lia |].
  split.
  { rewrite Hlen, <- bs_Z by done. unfold offset, cmd_length, OF_BLOCK_SIZE in *. lia. }
  split; [apply bs_Z; lia |].
  unfold in_range. rewrite (blocks_count w d) by done.
  rewrite (proj2 (Z.eqb_neq _ _)), (proj2 (Z.ltb_ge _ _)) by lia. done.
Qed.

Lemma read_refines :
  c_opcode cmd = OF_OP_READ →
  refines w cmd d (Read (c_lba cmd) (c_nblocks cmd))
    (execute_switch w cmd offset (cmd_length cmd)).
Proof.
  intros Hop. destruct command_fits as (Ho & Hl & Hb & Hlen & Hin).
  destruct Hacc as [Hok Hap]. pose proof (wf_nblocks _ Hc). pose proof (wf_lba _ Hc).
  unfold execute_switch. rewrite Hop, Z.eqb_refl.
  rewrite (transfer_read_eq w cmd offset (cmd_length cmd) st) by auto.
  outcomes. cbn [negb].
  exists true. eexists. unfold spec_step. rewrite Hin. split; [done |].
  split; [by eapply abs_same |].
  unfold delivered. cbn [with_mem m_mem fst r_data success].
  destruct (abs_blocks _ _ Habs) as (st' & Hst' & ->).
  assert (st' = st) as -> by congruence.
  destruct (storage_blocks _ _ Hwf Hst) as (Hst_len & _ & Hcap).
  rewrite <- (to_blocks_slice _ bs_pos st _ _ _ Hst_len), <- bs_Z, <- Hlen by lia.
  rewrite (concat_to_blocks _ bs_pos _ (Z.to_nat (c_nblocks cmd)));
    [| rewrite length_slice; unfold offset in *; lia].
  rewrite bool_decide_eq_false_2; [done |].
  intros E%(f_equal length). 
  rewrite (length_to_blocks _ bs_pos _ (Z.to_nat (c_nblocks cmd))) in E;
    [cbn in E; lia | rewrite length_slice; unfold offset in *; lia].
Qed.

Lemma write_cmd_refines :
  c_opcode cmd = OF_OP_WRITE →
  refines w cmd d
    (Write (c_lba cmd)
       (to_blocks bs (gather (m_mem w) (command_segments (m_mem w) cmd (cmd_length cmd))))
       (has_flag (c_flags cmd) OF_CMD_F_FUA))
    (execute_switch w cmd offset (cmd_length cmd)).
Proof.
  intros Hop. destruct command_fits as (Ho & Hl & Hb & Hlen & Hin).
  destruct Hacc as [Hok _]. pose proof (wf_nblocks _ Hc). pose proof (wf_lba _ Hc).
  unfold execute_switch. rewrite Hop.
  rewrite (transfer_write_eq w cmd offset (cmd_length cmd) st) by auto.
  outcomes. cbn [negb Z.eqb OF_OP_WRITE OF_OP_READ Pos.eqb].
  destruct (gathered_blocks (m_mem w) cmd) as [Hg Hlb]; [done | auto |].
  set (g := gather _ _) in *.
  set (w1 := with_dev _ _).
  assert (abs w1 (write_blocks (c_lba cmd) (to_blocks bs g) d)) as Ha1
    by (apply (write_refines w d st _ _ (c_nblocks cmd)); auto; lia).
  assert (dev_wf (m_dev w1)) as Hwf1.
  { cbn. eapply storage_len_wf; [done.. |]. apply length_splice. unfold offset in *. lia. }
  destruct (persist_refines w1 _ Hwf1 Ha1) as (ok & fs & Hp & Ha2).
  exists ok. unfold spec_step. rewrite Hlb, Hin.
  case_split; [| by eexists].
  rewrite Hp. outcomes. destruct (save ok _) as [saved d'] eqn:Hs. cbn [fst] in *.
  destruct saved; cbn [negb]; by eexists.
Qed.

Lemma discard_refines :
  c_opcode cmd = OF_OP_DISCARD →
  refines w cmd d (Discard (c_lba cmd) (c_nblocks cmd))
    (execute_switch w cmd offset (cmd_length cmd)).
Proof.
  intros Hop. destruct command_fits as (Ho & Hl & Hb & Hlen & Hin).
  pose proof (wf_nblocks _ Hc). pose proof (wf_lba _ Hc).
  unfold execute_switch. rewrite Hop. cbn [Z.eqb OF_OP_WRITE OF_OP_READ OF_OP_DISCARD Pos.eqb].
  rewrite (storage_store_eq _ st) by (done || lia). outcomes.
  exists true. eexists. unfold spec_step. rewrite Hin. split; [done |].
  split; [| done]. cbn [snd].
  unfold zero_block. fold bs. rewrite <- (to_blocks_replicate _ bs_pos), <- Hlen.
  apply (write_refines w d st _ _ (c_nblocks cmd)); auto; [lia.. |].
  by rewrite length_replicate.
Qed.
End Command.

Lemma abs_exists w : dev_wf (m_dev w) → ∃ d, abs w d.
Proof.
  intros Hwf. destruct (wf_storage _ Hwf) as (_ & st & Hst & _).
  exists (Disk (to_blocks bs st) (bool_decide (is_Some (s_backing_file (m_dev w))))
            (name ← s_backing_file (m_dev w);
             to_blocks bs <$> g_file_get_contents (m_files w) name)).
  constructor; cbn; [eauto | done |]. intros name Hn. by rewrite Hn.
Qed.

(** The field and range checks of [openflash_execute], around its switch. *)
Lemma checks_refine w d cmd r :
  dev_wf (m_dev w) → abs w d → cmd_wf cmd → c_lba cmd < 2 ^ 52 →
  (∀ ok e, in_range d (c_lba cmd) (c_nblocks cmd) = Some e →
     spec_step ok r d = (failure e, d)) →
  (c_nblocks cmd ≠ 0 →
   c_lba cmd + c_nblocks cmd ≤ s_capacity (m_dev w) / OF_BLOCK_SIZE →
   refines w cmd d r
     (execute_switch w cmd (c_lba cmd * OF_BLOCK_SIZE) (cmd_length cmd))) →
  refines w cmd d r
    (if c_nblocks cmd =? 0 then Done (OF_SC_INVALID_FIELD, 0, w)
     else if (s_capacity (m_dev w) <? u64 (c_lba cmd * OF_BLOCK_SIZE))
          || (u64 (s_capacity (m_dev w) - u64 (c_lba cmd * OF_BLOCK_SIZE)) <?
              u64 (c_nblocks cmd * OF_BLOCK_SIZE))
     then Done (OF_SC_LBA_RANGE, 0, w)
     else execute_switch w cmd (u64 (c_lba cmd * OF_BLOCK_SIZE))
            (u64 (c_nblocks cmd * OF_BLOCK_SIZE))).
Proof.
  intros Hwf Habs Hc Hlba Hfail Hsw.
  destruct (range_check_blocks (m_dev w) (c_lba cmd) (c_nblocks cmd))
    as (Ho & Hl & Hrange); [done | pose proof (wf_lba _ Hc); lia | apply Hc |].
  rewrite Ho, Hl, Hrange. unfold in_range in Hfail.
  rewrite (blocks_count w d Hwf Habs) in Hfail.
  destruct (Z.eqb_spec (c_nblocks cmd) 0);
    [apply failure_refines; [done |]; intros; by apply Hfail |].
  destruct (Z.ltb_spec (s_capacity (m_dev w) / OF_BLOCK_SIZE) (c_lba cmd + c_nblocks cmd));
    [apply failure_refines; [done |]; intros; by apply Hfail |].
  by apply Hsw.
Qed.

(** Every acceptable block command. *)
Lemma execute_refines w d cmd r :
  dev_wf (m_dev w) → abs w d → cmd_wf cmd → c_lba cmd < 2 ^ 52 →
  acceptable w cmd → request_of w cmd = Some r →
  refines w cmd d r (openflash_execute w cmd).
Proof.
  intros Hwf Habs Hc Hlba Hacc Hreq.
  destruct (abs_blocks _ _ Habs) as (st & Hst & _).
  unfold openflash_execute. unfold request_of in Hreq.
  destruct (Z.eqb_spec (c_opcode cmd) OF_ADMIN_IDENTIFY) as [_ | _]; simplify_eq.
  { exists true, w. cbn. by rewrite (blocks_count w d). }
  destruct (Z.eqb_spec (c_opcode cmd) OF_ADMIN_CREATE_IOQ) as [Hop | _].
  { by rewrite Hop in Hreq. }
  destruct (Z.eqb_spec (c_opcode cmd) OF_OP_FLUSH) as [_ | _]; simplify_eq.
  { destruct (persist_refines w d Hwf Habs) as (ok & fs & -> & Ha). outcomes.
    exists ok, (with_files fs w). cbn. destruct (save ok d) as [[] d']; by cbn in *. }
  apply checks_refine; [done.. | |].
  - intros ok e He. repeat case_split; simplify_eq; cbn; rewrite ?He; try done.
    bprop. destruct (gathered_blocks (m_mem w) cmd) as [_ ->];
      [done | apply Hacc; auto | by rewrite He].
  - intros Hn Hr. repeat case_split; simplify_eq; bprop.
    + by apply (read_refines w d cmd st).
    + by apply (write_cmd_refines w d cmd st).
    + by apply (discard_refines w d cmd st).
Qed.

(** ** Power cycles *)

(** A device created with the same properties over the files [fs]. *)
Definition power_on (s : OpenFlashState) (m : M) (fs : F) : machine M F :=
  Machine {| s_queues := replicate 2 queue_zero; s_control := 0; s_status := 0;
             s_capacity := s_capacity s; s_storage := None;
             s_backing_file := s_backing_file s |} m fs false [].

(** The backing file holds exactly the buffer. *)
Definition saved w : Prop :=
  ∃ name st, s_backing_file (m_dev w) = Some name ∧ s_storage (m_dev w) = Some st ∧
    g_file_get_contents (m_files w) name = Some st ∧
    g_file_test_exists (m_files w) name = true.

Lemma persist_saved w name w' :
  dev_wf (m_dev w) → s_backing_file (m_dev w) = Some name →
  openflash_persist w = Done (true, w') → saved w' ∧ m_dev w' = m_dev w.
Proof.
  intros Hwf Hn. destruct (wf_storage _ Hwf) as ([Hcap _] & st & Hst & Hlen).
  unfold openflash_persist. rewrite Hn, (storage_load_eq _ st) by (done || lia). outcomes.
  unfold slice. rewrite drop_0, take_ge by lia.
  destruct (g_file_set_contents (m_files w) name st) as [fs ok] eqn:E.
  intros ?; simplify_eq. apply set_contents_ok in E as [? ?].
  split; [| done]. by exists name, st.
Qed.

(** A saved device comes back from a power cycle with the same blocks. *)
Lemma saved_power_cycle w m :
  dev_wf (m_dev w) → saved w →
  ∃ w2, openflash_realize true (power_on (m_dev w) m (m_files w)) = (None, w2) ∧
    s_storage (m_dev w2) = s_storage (m_dev w).
Proof.
  intros Hwf (name & st & Hn & Hst & Hg & He).
  destruct (wf_storage _ Hwf) as ([Hcap Hmod] & st' & Hst' & Hlen).
  assert (st' = st) as -> by congruence.
  unfold openflash_realize. cbn [power_on m_dev m_files s_capacity s_backing_file].
  unfold OF_BLOCK_SIZE in *. rewrite (proj2 (Z.ltb_ge _ _)), Hmod, Hn, He, Hg, Hlen by lia.
  rewrite !Z.eqb_refl. cbn [orb negb].
  eexists. split; [done |]. cbn. rewrite Hst. f_equal.
  unfold splice. cbn [take app Nat.add].
  rewrite drop_ge, app_nil_r; [done |]. rewrite length_replicate. lia.
Qed.
End Refinement.
