(* ===== verification/AbiBridge.v ===== *)
(** * Driver and controller read the same bytes the same way

    The header driver/openflash/openflash_abi.h and the declarations of
    qemu/hw/block/openflash.c are written independently.  Here the structures
    one side encodes are decoded by the other. *)
From S2P Require Import Prelude Packed Environment Abi QemuDevice DeviceSafety.

(** A driver command as the controller's structure. *)
Definition controller_command (c : openflash_command) : OpenFlashCommand :=
  {| c_opcode := opcode c; c_flags := flags c; c_qid := qid c; c_cid := cid c;
     c_reserved0 := reserved0 c; c_lba := lba c; c_nblocks := nblocks c;
     c_control := control c; c_data_addr := data_addr c;
     c_metadata_addr := metadata_addr c; c_user_data := user_data c;
     c_reserved1_0 := reserved1_0 c; c_reserved1_1 := reserved1_1 c |}.

Definition controller_sgl (d : openflash_sgl_desc) : OpenFlashSglDesc :=
  {| d_addr := sgl_addr d; d_length := sgl_length d; d_reserved := sgl_reserved d |}.

(** A controller completion as the driver's structure. *)
Definition driver_completion (e : OpenFlashCompletion) : openflash_completion :=
  {| cqe_result := e_result e; cqe_user_data := e_user_data e;
     cqe_sq_head := e_sq_head e; cqe_cid := e_cid e; cqe_status := e_status e;
     cqe_flags := e_flags e; cqe_reserved := [0; 0; 0; 0; 0] |}.

Definition completion_fields (e : OpenFlashCompletion) : list Z :=
  [e_result e; e_user_data e; e_sq_head e; e_cid e; e_status e; e_flags e;
   0; 0; 0; 0; 0].

Lemma command_crosses c :
  fits command_layout (command_fields c) →
  decode_OpenFlashCommand (encode_command c) = controller_command c.
Proof.
  intros Hf. unfold decode_OpenFlashCommand, encode_command.
  change OpenFlashCommand_layout with command_layout. by rewrite unpack_pack.
Qed.

Lemma sgl_crosses d :
  fits sgl_layout [sgl_addr d; sgl_length d; sgl_reserved d] →
  decode_OpenFlashSglDesc (encode_sgl d) = controller_sgl d.
Proof.
  intros Hf. unfold decode_OpenFlashSglDesc, encode_sgl.
  change OpenFlashSglDesc_layout with sgl_layout. by rewrite unpack_pack.
Qed.

Lemma completion_crosses e :
  fits completion_layout (completion_fields e) →
  decode_completion (encode_OpenFlashCompletion e) = driver_completion e.
Proof.
  intros Hf. unfold decode_completion, encode_OpenFlashCompletion.
  change OpenFlashCompletion_layout with completion_layout.
  fold (completion_fields e). by rewrite unpack_pack.
Qed.

Lemma length_encode_command c : length (encode_command c) = 64%nat.
Proof. unfold encode_command. by rewrite length_pack. Qed.

Lemma length_encode_sgl d : length (encode_sgl d) = 16%nat.
Proof. unfold encode_sgl. by rewrite length_pack. Qed.

(** Every register, opcode, status code and flag the controller declares. *)
Definition controller_constants : list Z :=
  [OF_ABI_VERSION; OF_REG_ABI_VERSION; OF_REG_CAPABILITIES; OF_REG_CONTROL;
   OF_REG_STATUS; OF_REG_ADMIN_SQ_LO; OF_REG_ADMIN_SQ_HI; OF_REG_ADMIN_CQ_LO;
   OF_REG_ADMIN_CQ_HI; OF_REG_ADMIN_QSIZE; OF_REG_DOORBELL_BASE;
   OF_CTRL_ENABLE; OF_CTRL_RESET; OF_STATUS_READY;
   OF_OP_READ; OF_OP_WRITE; OF_OP_FLUSH; OF_OP_DISCARD; OF_ADMIN_IDENTIFY;
   OF_ADMIN_CREATE_IOQ; OF_SC_SUCCESS; OF_SC_INVALID_OPCODE;
   OF_SC_INVALID_FIELD; OF_SC_LBA_RANGE; OF_SC_INTERNAL; OF_CMD_F_FUA;
   OF_CMD_F_SGL; OF_MAX_SGL_ENTRIES].

Definition driver_constants : list Z :=
  [OPENFLASH_ABI_VERSION; OPENFLASH_REG_ABI_VERSION; OPENFLASH_REG_CAPABILITIES;
   OPENFLASH_REG_CONTROL; OPENFLASH_REG_STATUS; OPENFLASH_REG_ADMIN_SQ_LO;
   OPENFLASH_REG_ADMIN_SQ_HI; OPENFLASH_REG_ADMIN_CQ_LO;
   OPENFLASH_REG_ADMIN_CQ_HI; OPENFLASH_REG_ADMIN_QSIZE;
   OPENFLASH_REG_DOORBELL_BASE; OPENFLASH_CTRL_ENABLE; OPENFLASH_CTRL_RESET;
   OPENFLASH_STATUS_READY; OPENFLASH_OP_READ; OPENFLASH_OP_WRITE;
   OPENFLASH_OP_FLUSH; OPENFLASH_OP_DISCARD; OPENFLASH_ADMIN_IDENTIFY;
   OPENFLASH_ADMIN_CREATE_IOQ; OPENFLASH_SC_SUCCESS;
   OPENFLASH_SC_INVALID_OPCODE; OPENFLASH_SC_INVALID_FIELD;
   OPENFLASH_SC_LBA_RANGE; OPENFLASH_SC_INTERNAL; OPENFLASH_CMD_F_FUA;
   OPENFLASH_CMD_F_SGL; OPENFLASH_MAX_SGL_ENTRIES].

(** C27. One ABI.  Commands and scatter-gather entries that the driver encodes
    are decoded field for field by the controller, completions that the
    controller encodes are decoded field for field by the driver, each
    structure has the size both sides assume, and both sides agree on every
    constant the controller declares. *)
Theorem abi_agrees c d e :
  fits command_layout (command_fields c) →
  fits sgl_layout [sgl_addr d; sgl_length d; sgl_reserved d] →
  fits completion_layout (completion_fields e) →
  decode_OpenFlashCommand (encode_command c) = controller_command c ∧
  decode_OpenFlashSglDesc (encode_sgl d) = controller_sgl d ∧
  decode_completion (encode_OpenFlashCompletion e) = driver_completion e ∧
  length (encode_command c) = 64%nat ∧ length (encode_sgl d) = 16%nat ∧
  length (encode_OpenFlashCompletion e) = 64%nat ∧
  driver_constants = controller_constants.
Proof.
  intros. repeat split; auto using command_crosses, sgl_crosses, completion_crosses,
    length_encode_command, length_encode_sgl, length_encode_completion.
Qed.

Lemma abi_agrees_witness :
  decode_OpenFlashCommand (encode_command command_zero) = controller_command command_zero.
Proof.
  apply (abi_agrees command_zero {| sgl_addr := 0x1000; sgl_length := 64; sgl_reserved := 0 |}
    {| e_result := 1; e_user_data := 2; e_sq_head := 3; e_cid := 4; e_status := 0;
       e_flags := 1 |}); apply (bool_decide_unpack _); by vm_compute.
Defined.
