(* ===== verification/DeviceFixture.v ===== *)
(** * Concrete device machines

    The set-up the QTests use (qemu/tests/qtest/openflash-test.c): a realized
    device over sparse RAM, its admin queue configured through the registers
    and commands placed in guest memory.  The theorems on the device are
    evaluated on these machines. *)
From S2P Require Import Prelude Packed Environment Abi QemuDevice DeviceSafety.
From S2P Require Import DeviceRegisters.
Export Ram ModelFiles.

Module Fixture.
Abbreviation qemu := (machine Ram.t ModelFiles.t).

Definition sq_base : Z := 0x00100000.
Definition cq_base : Z := 0x00110000.
Definition data_base : Z := 0x00120000.
Definition io_sq_base : Z := 0x00130000.
Definition io_cq_base : Z := 0x00140000.

(** The device as [-device openflash,capacity=8K,backing-file=disk] creates it. *)
Definition created : qemu :=
  Machine {| s_queues := replicate 2 queue_zero; s_control := 0; s_status := 0;
             s_capacity := 8192; s_storage := None;
             s_backing_file := Some "disk"%string |}
    [] (Files ∅ true) true [].

Definition realized : qemu := snd (openflash_realize true created).

Lemma realized_eq : openflash_realize true created = (None, realized).
Proof.
  unfold realized. generalize (eq_refl None : fst (openflash_realize true created) = None).
  destruct (openflash_realize true created) as [e w]. cbn. by intros ->.
Qed.

(** Register writes in order; no fixture serves more than 4096 entries. *)
Definition writels (w : qemu) (rs : list (Z * Z)) : outcome qemu := mmio_writes 4096 w rs.

(** [openflash_configure_queue] of the QTests. *)
Definition configure_queue (depth : Z) : list (Z * Z) :=
  configure sq_base 0 cq_base 0 depth OF_CTRL_ENABLE.

Definition run (o : outcome qemu) : qemu :=
  match o with Done w => w | _ => created end.

(** Evaluation of a machine stops as soon as it is known that it returned. *)
Lemma run_done o : is_done o = true → o = Done (run o).
Proof. by destruct o. Qed.

Definition configured (depth : Z) : qemu := run (writels realized (configure_queue depth)).

(** Guest memory with commands in consecutive slots of a ring. *)
Fixpoint put_commands (m : Ram.t) (base : Z) (cs : list openflash_command) : Ram.t :=
  match cs with
  | [] => m
  | c :: cs => put_commands (dma_write m base (encode_command c)) (base + 64) cs
  end.

Definition command (op cid_ : Z) : openflash_command :=
  {| opcode := op; flags := 0; qid := 0; cid := cid_; reserved0 := 0; lba := 0;
     nblocks := 0; control := 0; data_addr := 0; metadata_addr := 0;
     user_data := 0xcafe; reserved1_0 := 0; reserved1_1 := 0 |}.

(** A block command on one contiguous buffer. *)
Definition io_command (op fl cid_ lba_ nblocks_ buffer : Z) : openflash_command :=
  {| opcode := op; flags := fl; qid := 0; cid := cid_; reserved0 := 0;
     lba := lba_; nblocks := nblocks_; control := 0; data_addr := buffer;
     metadata_addr := 0; user_data := 0; reserved1_0 := 0; reserved1_1 := 0 |}.

(** [CREATE_IOQ] for queue 1 on vector 1. *)
Definition create_ioq (cid_ depth : Z) : openflash_command :=
  {| opcode := 0x81; flags := 0; qid := 0; cid := cid_; reserved0 := 0; lba := 0;
     nblocks := depth; control := 0x10001; data_addr := io_sq_base;
     metadata_addr := io_cq_base; user_data := 0; reserved1_0 := 0;
     reserved1_1 := 0 |}.

(** Three identify commands waiting in an admin ring of four entries. *)
Definition identify3 : qemu :=
  let w := configured 4 in
  with_mem (put_commands (m_mem w) sq_base
              [command 0x80 1; command 0x80 2; command 0x80 3]) w.

(** Machines reached through the registers satisfy the device invariant. *)
Lemma realized_wf : dev_wf (m_dev realized).
Proof.
  exact (realize_wf true created realized eq_refl realized_eq).
Qed.

Lemma mmio_writes_reach fuel rs w w' :
  Forall (λ r, 0 ≤ r.2 < 2 ^ 64) rs → mmio_writes fuel w rs = Done w' →
  rtc (guest_step (M := Ram.t) (F := ModelFiles.t)) w w'.
Proof.
  revert w. induction rs as [| [addr value] rs IH]; intros w Hf E; cbn [mmio_writes] in E.
  { simplify_eq. apply rtc_refl. }
  apply Forall_cons in Hf as [Hv Hf].
  destruct (openflash_mmio_write fuel w addr value) eqn:E1; [| done..].
  eapply rtc_l; [by eapply guest_mmio | by apply IH].
Qed.

Lemma configure_in_range depth :
  0 ≤ depth < 2 ^ 64 → Forall (λ r, 0 ≤ r.2 < 2 ^ 64) (configure_queue depth).
Proof.
  intros Hd. unfold configure_queue, configure.
  repeat first [apply Forall_nil_2 | apply Forall_cons_2]; first [exact Hd | by split].
Qed.

Lemma configured_reach depth :
  0 ≤ depth < 2 ^ 64 →
  writels realized (configure_queue depth) = Done (configured depth) →
  rtc guest_step realized (configured depth).
Proof. intros ?. apply mmio_writes_reach. by apply configure_in_range. Qed.

Lemma configured_4 : writels realized (configure_queue 4) = Done (configured 4).
Proof. apply run_done. evaluated. Qed.

Lemma configured_4_wf : dev_wf (m_dev (configured 4)).
Proof.
  eapply guest_steps_wf; [apply configured_reach; [lia | apply configured_4] |].
  apply realized_wf.
Qed.

(** Decoded commands for the data path. *)
Definition data_command (op fl lba n control_ addr : Z) : OpenFlashCommand :=
  {| c_opcode := op; c_flags := fl; c_qid := 0; c_cid := 1; c_reserved0 := 0;
     c_lba := lba; c_nblocks := n; c_control := control_; c_data_addr := addr;
     c_metadata_addr := 0; c_user_data := 0; c_reserved1_0 := 0;
     c_reserved1_1 := 0 |}.

Definition write1 : OpenFlashCommand := data_command OF_OP_WRITE 0 1 1 0 data_base.
Definition write1_fua : OpenFlashCommand := data_command OF_OP_WRITE 1 1 1 0 data_base.
Definition read1 : OpenFlashCommand := data_command OF_OP_READ 0 1 1 0 (data_base + 4096).
Definition discard1 : OpenFlashCommand := data_command OF_OP_DISCARD 0 1 1 0 0.

Lemma data_command_wf op fl lba n control_ addr :
  0 ≤ lba < 2 ^ 64 → 0 ≤ n < 2 ^ 32 → 0 ≤ control_ < 2 ^ 32 → 0 ≤ addr < 2 ^ 64 →
  cmd_wf (data_command op fl lba n control_ addr).
Proof. intros. constructor; cbn; lia. Qed.

Lemma write1_wf : cmd_wf write1.
Proof. by apply data_command_wf. Qed.
Lemma write1_fua_wf : cmd_wf write1_fua.
Proof. by apply data_command_wf. Qed.
Lemma read1_wf : cmd_wf read1.
Proof. by apply data_command_wf. Qed.
Lemma discard1_wf : cmd_wf discard1.
Proof. by apply data_command_wf. Qed.

(** The realized device with a recognisable start of a data buffer. *)
Definition with_data : qemu :=
  with_mem (dma_write (m_mem realized) data_base
    [Byte.xa5; Byte.x5a; Byte.x3c; Byte.xc3]) realized.

(** Status, result and machine of a command, when it returned. *)
Definition exec_machine (o : outcome (Z * Z * qemu)) : qemu :=
  match o with Done (_, _, w) => w | _ => created end.
Definition exec_reply (o : outcome (Z * Z * qemu)) : option (Z * Z) :=
  match o with Done (status, result, _) => Some (status, result) | _ => None end.

Lemma exec_done o status result :
  exec_reply o = Some (status, result) → o = Done (status, result, exec_machine o).
Proof. destruct o as [[[]] | |]; cbn; congruence. Qed.

(** A scatter-gather write of one block whose second entry has a null address. *)
Definition bad_sgl : qemu :=
  with_mem (dma_write (dma_write (m_mem with_data) 0x150000
    (encode_sgl {| sgl_addr := data_base; sgl_length := 4; sgl_reserved := 0 |}))
    0x150010
    (encode_sgl {| sgl_addr := 0; sgl_length := 4092; sgl_reserved := 0 |})) with_data.

Definition bad_sgl_write : OpenFlashCommand :=
  data_command OF_OP_WRITE 2 0 1 2 0x150000.

Lemma bad_sgl_write_wf : cmd_wf bad_sgl_write.
Proof. by apply data_command_wf. Qed.

(** The write of block 1 with its page in two halves. *)
Definition split_sgl : qemu :=
  with_mem (dma_write (dma_write (m_mem with_data) 0x150000
    (encode_sgl {| sgl_addr := data_base; sgl_length := 2048; sgl_reserved := 0 |}))
    0x150010
    (encode_sgl {| sgl_addr := data_base + 2048; sgl_length := 2048; sgl_reserved := 0 |}))
    with_data.
Definition split_write : OpenFlashCommand := data_command OF_OP_WRITE 2 1 1 2 0x150000.

Definition zeroes8k : list byte := replicate (Z.to_nat 8192) Byte.x00.

Lemma bad_sgl_storage : s_storage (m_dev bad_sgl) = Some zeroes8k.
Proof. evaluated. Qed.

(** The machines after the commands above. *)
Definition written : qemu := exec_machine (openflash_execute with_data write1).
Definition written_fua : qemu := exec_machine (openflash_execute with_data write1_fua).
Definition rejected : qemu := exec_machine (openflash_execute bad_sgl bad_sgl_write).

Lemma written_eq : openflash_execute with_data write1 = Done (OF_SC_SUCCESS, 1, written).
Proof. apply exec_done. evaluated. Qed.
Lemma written_fua_eq :
  openflash_execute with_data write1_fua = Done (OF_SC_SUCCESS, 1, written_fua).
Proof. apply exec_done. evaluated. Qed.
Lemma rejected_eq :
  openflash_execute bad_sgl bad_sgl_write = Done (OF_SC_INVALID_FIELD, 0, rejected).
Proof. apply exec_done. evaluated. Qed.

(** The admin queue of four entries has created an I/O queue of four. *)
Definition io_created : qemu :=
  let w := configured 4 in
  run (openflash_mmio_write 4096
    (with_mem (put_commands (m_mem w) sq_base [create_ioq 1 4]) w)
    OF_REG_DOORBELL_BASE 1).

(** Commands waiting in the I/O ring. *)
Definition io_pending (cs : list openflash_command) : qemu :=
  with_mem (put_commands (m_mem io_created) io_sq_base cs) io_created.

Lemma io_created_eq :
  openflash_mmio_write 4096
    (with_mem (put_commands (m_mem (configured 4)) sq_base [create_ioq 1 4]) (configured 4))
    OF_REG_DOORBELL_BASE 1 = Done io_created.
Proof. apply run_done. evaluated. Qed.

Lemma io_created_reach : rtc guest_step realized io_created.
Proof.
  etrans; [apply (configured_reach 4); [lia | apply configured_4] |].
  eapply rtc_l; [apply guest_memory |].
  eapply rtc_once, guest_mmio, io_created_eq. lia.
Qed.

Lemma io_pending_reach cs : rtc guest_step realized (io_pending cs).
Proof.
  eapply rtc_r; [apply io_created_reach |]. apply guest_memory.
Qed.

Lemma io_pending_wf cs : dev_wf (m_dev (io_pending cs)).
Proof. eapply guest_steps_wf; [apply io_pending_reach | apply realized_wf]. Qed.
End Fixture.
