(* ===== verification/DeviceTheorems.v ===== *)
(** * Theorems on the QEMU device: safety, queue service, termination *)
From S2P Require Import Prelude Packed Environment Rings Abi QemuDevice.
From S2P Require Import DeviceSafety DeviceQueue DeviceRegisters DeviceFixture.

Section Claims.
Context {M F : Type} `{GM : GuestMemory M, !GuestMemoryLaws M, HF : HostFiles F}.
Implicit Types w : machine M F.

(** C4. Memory safety against an arbitrary guest.  Take any machine a guest can
    reach from a realized device by rewriting its memory, toggling MSI-X,
    resetting the device and accessing its registers.  The device state is
    well formed there (in particular the buffer has exactly [capacity] bytes
    and every cursor fits its type), and no register access, doorbells with
    the commands they run included, reaches undefined behaviour. *)
Theorem guest_cannot_break_device msix_ok w0 w1 w :
  s_capacity (m_dev w0) < 2 ^ 64 →
  openflash_realize msix_ok w0 = (None, w1) → rtc guest_step w1 w →
  dev_wf (m_dev w) ∧
  ∀ fuel addr value, 0 ≤ value < 2 ^ 64 →
    openflash_mmio_write fuel w addr value ≠ Undef ∧
    openflash_mmio_read (m_dev w) addr ≠ Undef.
Proof.
  intros Hcap Hr Hs.
  pose proof (guest_steps_wf w1 w Hs (realize_wf _ _ _ Hcap Hr)) as Hwf.
  split; [done |]. intros fuel addr value Hv. split.
  - pose proof (mmio_write_safe fuel w addr value Hwf Hv). by destruct openflash_mmio_write.
  - by destruct (mmio_read_safe (m_dev w) addr Hwf) as [v ->].
Qed.

(** C26. Types.  On a well-formed device every register reads as a 32-bit value, the
    capabilities as a 64-bit value, so that no 32-bit read of a register loses
    bits; and every command fetched from memory is executed to a status the
    interface declares and a 64-bit result, leaving the device well formed. *)
Theorem device_values_typed w addr cmd :
  dev_wf (m_dev w) → cmd_wf cmd →
  (∃ v, openflash_mmio_read (m_dev w) addr = Done v ∧
     0 ≤ v < (if addr =? OF_REG_CAPABILITIES then 2 ^ 64 else 2 ^ 32)) ∧
  (∃ status result w', openflash_execute w cmd = Done (status, result, w') ∧
     dev_wf (m_dev w') ∧ status ∈ completion_codes ∧ 0 ≤ result < 2 ^ 64).
Proof.
  intros Hwf Hc. split; [by apply mmio_read_typed |].
  destruct (execute_safe w cmd Hwf Hc) as (st & res & w' & E & Hs & Hcode & Hres).
  exists st, res, w'. split_and!; try done; [apply Hs | lia | lia].
Qed.

(** C10. A doorbell on the ready admin queue returns, with [depth] iterations at
    most, and serves exactly the entries from the kept head up to the new
    tail: [tr] lists them, fetched from consecutive ring slots, each completed
    in the next completion slot (the completion counter [k] modulo the depth)
    with the phase tag of that counter; afterwards the head equals the tail,
    the counter has grown by the number of entries, and one MSI-X message
    was sent if MSI-X is on. *)
Theorem admin_doorbell_serves fuel w q k t :
  dev_wf (m_dev w) → has_flag (s_status (m_dev w)) OF_STATUS_READY = true →
  s_queues (m_dev w) !! 0%nat = Some q → q_enabled q = true →
  0 ≤ q_sq_head q < q_depth q → posted q k → 0 ≤ t < q_depth q →
  q_depth q ≤ Z.of_nat fuel →
  ∃ tr w' q',
    openflash_process_sq fuel w 0 t =
      Done (if m_msix_enabled w then msix_notify (q_vector q) w' else w') ∧
    serves 0 w tr w' ∧ len tr = (t - q_sq_head q) `mod` q_depth q ∧
    sv_slot <$> tr = ring_slots (q_sq_head q) (length tr) (q_depth q) ∧
    sv_cslot <$> tr = ring_slots k (length tr) (q_depth q) ∧
    sv_phase <$> tr =
      (λ i, phase_of (q_depth q) (k + Z.of_nat i)) <$> seq 0 (length tr) ∧
    s_queues (m_dev w') !! 0%nat = Some q' ∧ q_sq_head q' = t ∧
    posted q' (k + len tr).
Proof.
  intros Hwf Hr Hq Hen Hh Hp Ht Hf.
  destruct (process_sq_serves fuel w 0 q k t) as (tr & w' & q' & Hs); [done.. | by left |].
  exists tr, w', q'. exact Hs.
Qed.

(** C21. The same on the I/O queue, for as long as none of the served commands
    is a [CREATE_IOQ], which the device accepts on any queue. *)
Theorem io_doorbell_serves fuel w q k t :
  dev_wf (m_dev w) → has_flag (s_status (m_dev w)) OF_STATUS_READY = true →
  s_queues (m_dev w) !! 1%nat = Some q → q_enabled q = true →
  0 ≤ q_sq_head q < q_depth q → posted q k → 0 ≤ t < q_depth q →
  q_depth q ≤ Z.of_nat fuel →
  no_create (Z.to_nat ((t - q_sq_head q) `mod` q_depth q)) w 1 →
  ∃ tr w' q',
    openflash_process_sq fuel w 1 t =
      Done (if m_msix_enabled w then msix_notify (q_vector q) w' else w') ∧
    serves 1 w tr w' ∧ len tr = (t - q_sq_head q) `mod` q_depth q ∧
    sv_slot <$> tr = ring_slots (q_sq_head q) (length tr) (q_depth q) ∧
    sv_cslot <$> tr = ring_slots k (length tr) (q_depth q) ∧
    sv_phase <$> tr =
      (λ i, phase_of (q_depth q) (k + Z.of_nat i)) <$> seq 0 (length tr) ∧
    s_queues (m_dev w') !! 1%nat = Some q' ∧ q_sq_head q' = t ∧
    posted q' (k + len tr).
Proof.
  intros Hwf Hr Hq Hen Hh Hp Ht Hf Hk.
  destruct (process_sq_serves fuel w 1 q k t) as (tr & w' & q' & Hs); [done.. | by right |].
  exists tr, w', q'. exact Hs.
Qed.

(** C23. The set-up sequence of registers.  On any well-formed device, writing
    the two 32-bit halves of each ring address, a size between 2 and 4096 and
    the enable bit makes the device ready with an enabled admin queue at
    exactly those 64-bit addresses, every register that was written, the
    control register included, reads back what was written, and the queue
    keeps its cursors and phase, the I/O queue and the stored data are
    untouched. *)
Theorem configure_registers fuel w q sq_lo sq_hi cq_lo cq_hi depth :
  dev_wf (m_dev w) → s_queues (m_dev w) !! 0%nat = Some q →
  0 ≤ sq_lo < 2 ^ 32 → 0 ≤ sq_hi < 2 ^ 32 → 0 ≤ cq_lo < 2 ^ 32 → 0 ≤ cq_hi < 2 ^ 32 →
  2 ≤ depth ≤ 4096 →
  ∃ w',
    mmio_writes fuel w (configure sq_lo sq_hi cq_lo cq_hi depth OF_CTRL_ENABLE) = Done w' ∧
    s_queues (m_dev w') !! 0%nat =
      Some (configured_admin (sq_hi * 2 ^ 32 + sq_lo) (cq_hi * 2 ^ 32 + cq_lo) depth q) ∧
    s_queues (m_dev w') !! 1%nat = s_queues (m_dev w) !! 1%nat ∧
    s_storage (m_dev w') = s_storage (m_dev w) ∧ m_mem w' = m_mem w ∧
    openflash_mmio_read (m_dev w') <$>
      [OF_REG_ADMIN_SQ_LO; OF_REG_ADMIN_SQ_HI; OF_REG_ADMIN_CQ_LO;
       OF_REG_ADMIN_CQ_HI; OF_REG_ADMIN_QSIZE; OF_REG_CONTROL; OF_REG_STATUS] =
    Done <$> [sq_lo; sq_hi; cq_lo; cq_hi; depth; OF_CTRL_ENABLE; OF_STATUS_READY].
Proof.
  intros Hwf Hq Hsl Hsh Hcl Hch Hd.
  pose proof (Forall_lookup_1 _ _ _ _ (wf_queues _ Hwf) Hq) as Hqwf.
  eexists. split; [by apply configure_eq |]. cbn.
  assert (0 < length (s_queues (m_dev w)))%nat by (by eapply lookup_lt_Some).
  rewrite !list_lookup_insert_eq by done. rewrite list_lookup_insert_ne by done.
  do 4 (split; [done |]). cbn -[Z.shiftr Z.add Z.mul Z.pow u32].
  rewrite !Z.shiftr_div_pow2 by done. unfold u32.
  rewrite !(Z.add_comm (_ * 2 ^ 32)), !Z_mod_plus_full, !Z.div_add by done.
  rewrite !Z.mod_small, !Z.div_small by done. done.
Qed.

(** C24. Reset.  A write of the control register with the reset bit keeps the
    stored blocks, the guest's memory and the host's files, and from then on
    every doorbell, completion doorbells included, is ignored, whether or not
    the enable bit is set again, until a queue size is written. *)
Theorem reset_silences_device fuel w value control :
  has_flag value OF_CTRL_RESET = true → has_flag control OF_CTRL_RESET = false →
  ∃ w1,
    openflash_mmio_write fuel w OF_REG_CONTROL value = Done w1 ∧
    s_storage (m_dev w1) = s_storage (m_dev w) ∧ m_mem w1 = m_mem w ∧
    m_files w1 = m_files w ∧ m_notified w1 = m_notified w ∧
    ∃ w2, openflash_mmio_write fuel w1 OF_REG_CONTROL control = Done w2 ∧
      ∀ addr v, OF_REG_DOORBELL_BASE ≤ addr → 0 ≤ v →
        openflash_mmio_write fuel w1 addr v = Done w1 ∧
        openflash_mmio_write fuel w2 addr v = Done w2.
Proof.
  intros Hv Hc. unfold openflash_mmio_write at 1. rewrite Z.eqb_refl, Hv.
  eexists. do 5 (split; [done |]).
  unfold openflash_mmio_write at 1. rewrite Z.eqb_refl, Hc.
  eexists. split; [done |]. intros addr v Ha Hv0.
  split; apply doorbell_ignored; done.
Qed.

(** C25. Refused commands have no effect.  A command completed with
    [LBA_RANGE] or [INVALID_OPCODE] leaves the whole machine as it was; so
    does one whose opcode the device does not know, whose status is the first
    that applies of [INVALID_FIELD] (no blocks), [LBA_RANGE] and
    [INVALID_OPCODE]. *)
Theorem refused_commands_change_nothing w cmd :
  (∀ status res w', openflash_execute w cmd = Done (status, res, w') →
     status = OF_SC_LBA_RANGE ∨ status = OF_SC_INVALID_OPCODE → w' = w ∧ res = 0) ∧
  (c_opcode cmd ∉ known_opcodes →
     openflash_execute w cmd =
       Done (if c_nblocks cmd =? 0 then OF_SC_INVALID_FIELD
             else if out_of_range (m_dev w) cmd then OF_SC_LBA_RANGE
             else OF_SC_INVALID_OPCODE, 0, w)).
Proof.
  split; [apply refused_pure | apply unknown_opcode].
Qed.

(** C34. The device accepts [CREATE_IOQ] on the I/O queue itself, and such a
    command resets the head of the queue being served: when the next command
    of the I/O queue recreates it with one entry, in which the same command
    waits, the doorbell never returns, whatever the number of iterations. *)
Theorem create_on_io_queue_diverges w q cmd t :
  recreation cmd → respawning cmd w q →
  has_flag (s_status (m_dev w)) OF_STATUS_READY = true → q_enabled q = true →
  q_sq_head q ≠ t → 0 < t < q_depth q →
  ∀ fuel, openflash_mmio_write fuel w (OF_REG_DOORBELL_BASE + 8) t = NoFuel.
Proof.
  intros Hrc Hrs Hr Hen Hh Ht fuel. pose proof (rs_queue _ _ _ Hrs) as Hq.
  pose proof (wf_depth _ (Forall_lookup_1 _ _ _ _ (wf_queues _ (rs_wf _ _ _ Hrs)) Hq)).
  change (OF_REG_DOORBELL_BASE + 8) with (OF_REG_DOORBELL_BASE + 1 * 8).
  rewrite sq_doorbell_eq by (auto; by rewrite Hq). rewrite u16_small by lia.
  unfold openflash_process_sq. cbn [Z.leb OF_MAX_QUEUES Z.compare Pos.compare].
  change (Z.to_nat 1) with 1%nat. rewrite Hq. outcomes.
  rewrite Hr, Hen, (proj2 (Z.eqb_neq (q_depth q) 0)), (proj2 (Z.leb_gt (q_depth q) t)) by lia.
  cbn [negb orb]. by rewrite (process_loop_respawns cmd w q t) by (done || lia).
Qed.
End Claims.

Import Fixture.

Lemma guest_cannot_break_device_witness : dev_wf (m_dev (configured 4)).
Proof.
  refine (proj1 (guest_cannot_break_device true created realized (configured 4) _ _ _)).
  - done.
  - by vm_compute.
  - apply configured_reach; [lia | apply configured_4].
Defined.

Definition admin4 : OpenFlashQueue :=
  {| q_sq_addr := sq_base; q_cq_addr := cq_base; q_depth := 4; q_sq_head := 0;
     q_cq_tail := 0; q_cq_head := 0; q_vector := 0; q_cq_phase := 1;
     q_enabled := true |}.

Lemma admin_doorbell_serves_witness :
  ∃ tr w' q',
    openflash_process_sq 4 identify3 0 3 = Done (msix_notify 0 w') ∧
    serves 0 identify3 tr w' ∧ len tr = 3 ∧
    s_queues (m_dev w') !! 0%nat = Some q' ∧ posted q' 3.
Proof.
  destruct (admin_doorbell_serves 4 identify3 admin4 0 3)
    as (tr & w' & q' & H1 & H2 & H3 & _ & _ & _ & H4 & _ & H5).
  - exact configured_4_wf.
  - by vm_compute.
  - by vm_compute.
  - done.
  - cbn. lia.
  - by vm_compute.
  - cbn. lia.
  - cbn. lia.
  - exists tr, w', q'. split; [exact H1 |]. split; [exact H2 |].
    change ((3 - q_sq_head admin4) `mod` q_depth admin4) with 3 in H3.
    rewrite H3 in H5. auto.
Defined.

Definition io4 : OpenFlashQueue :=
  {| q_sq_addr := io_sq_base; q_cq_addr := io_cq_base; q_depth := 4; q_sq_head := 0;
     q_cq_tail := 0; q_cq_head := 0; q_vector := 1; q_cq_phase := 1;
     q_enabled := true |}.

Lemma io_doorbell_serves_witness :
  ∃ tr w' q',
    openflash_process_sq 4 (io_pending [io_command 3 0 9 0 0 0]) 1 1 =
      Done (msix_notify 1 w') ∧
    len tr = 1 ∧ sv_slot <$> tr = [0] ∧
    s_queues (m_dev w') !! 1%nat = Some q' ∧ posted q' 1.
Proof.
  destruct (io_doorbell_serves 4 (io_pending [io_command 3 0 9 0 0 0]) io4 0 1)
    as (tr & w' & q' & H1 & _ & H3 & H2 & _ & _ & H4 & _ & H5).
  - apply io_pending_wf.
  - by vm_compute.
  - by vm_compute.
  - done.
  - cbn. lia.
  - by vm_compute.
  - cbn. lia.
  - cbn. lia.
  - split; [| done]. intros q Hq.
    replace q with io4; [by vm_compute |]. apply (f_equal (from_option id io4)) in Hq.
    vm_compute in Hq. exact Hq.
  - change ((1 - q_sq_head io4) `mod` q_depth io4) with 1 in H3.
    exists tr, w', q'. split; [exact H1 |]. rewrite H3 in H5.
    assert (length tr = 1%nat) as Hl by lia. rewrite Hl in H2. auto.
Defined.

Lemma configure_registers_witness :
  ∃ w', mmio_writes 0 realized (configure 0x100000 0x7 0x110000 0x8 128 OF_CTRL_ENABLE)
          = Done w' ∧
    openflash_mmio_read (m_dev w') OF_REG_ADMIN_SQ_HI = Done 7.
Proof.
  destruct (configure_registers 0 realized (default queue_zero (reset_queues !! 0%nat))
    0x100000 0x7 0x110000 0x8 128) as (w' & H1 & _ & _ & _ & _ & H2);
    [exact realized_wf | done | lia.. |].
  exists w'. split; [exact H1 |].
  apply (f_equal (λ l, l !! 1%nat)) in H2. by injection H2.
Defined.

Lemma reset_silences_device_witness :
  ∃ w1, openflash_mmio_write 4 identify3 OF_REG_CONTROL OF_CTRL_RESET = Done w1 ∧
    openflash_mmio_write 4 w1 OF_REG_DOORBELL_BASE 1 = Done w1.
Proof.
  destruct (reset_silences_device 4 identify3 OF_CTRL_RESET OF_CTRL_ENABLE)
    as (w1 & H1 & _ & _ & _ & _ & w2 & _ & H2); [done | done |].
  exists w1. split; [exact H1 |]. apply (H2 OF_REG_DOORBELL_BASE 1); done.
Defined.

Lemma refused_commands_change_nothing_witness :
  openflash_execute with_data (data_command 0x83 0 0 0 0 0) =
    Done (OF_SC_INVALID_FIELD, 0, with_data).
Proof.
  apply (proj2 (refused_commands_change_nothing with_data (data_command 0x83 0 0 0 0 0))).
  apply (bool_decide_unpack _). by vm_compute.
Defined.

(** A guest that places a [CREATE_IOQ] for a ring of one entry in the I/O ring
    and rings its doorbell with tail 2. *)
Definition recreating : qemu := io_pending [create_ioq 7 1].

Definition recreating_command : OpenFlashCommand :=
  decode_OpenFlashCommand (encode_command (create_ioq 7 1)).

Lemma create_on_io_queue_diverges_witness :
  rtc guest_step realized recreating ∧
  ∀ fuel, openflash_mmio_write fuel recreating (OF_REG_DOORBELL_BASE + 8) 2 = NoFuel.
Proof.
  split; [apply io_pending_reach |].
  apply (create_on_io_queue_diverges recreating io4 recreating_command 2).
  - constructor; first [evaluated | done | by split | right; evaluated | left; done].
  - constructor; [apply io_pending_wf | evaluated..].
  - evaluated.
  - evaluated.
  - done.
  - done.
Defined.

(** An admin ring of four entries, three of them served, then resized to two. *)
Definition shrunk : qemu :=
  run (mmio_writes 4 identify3 [(OF_REG_DOORBELL_BASE, 3); (OF_REG_ADMIN_QSIZE, 2)]).

(** C38. Writing the queue size does not reset the cursors: after a ring of
    four entries, three served, is resized to two, the next doorbell completes
    its command in slot 3, behind the two-entry completion ring. *)
Theorem resize_completes_outside_ring :
  rtc guest_step realized shrunk ∧
  (q_depth <$> s_queues (m_dev shrunk) !! 0%nat) = Some 2 ∧
  ∃ w', openflash_mmio_write 4 shrunk OF_REG_DOORBELL_BASE 1 = Done w' ∧
    dma_read (m_mem shrunk) (cq_base + 3 * 64) 64 = replicate 64 Byte.x00 ∧
    dma_read (m_mem w') (cq_base + 3 * 64) 64 ≠ replicate 64 Byte.x00.
Proof.
  split.
  { etrans; [apply (configured_reach 4); [lia | apply configured_4] |].
    eapply rtc_l; [apply guest_memory |].
    apply (mmio_writes_reach 4 [(OF_REG_DOORBELL_BASE, 3); (OF_REG_ADMIN_QSIZE, 2)]
      identify3).
    - apply Forall_cons_2; [done |]. by apply Forall_singleton.
    - apply run_done. evaluated. }
  split; [by vm_compute |].
  exists (run (openflash_mmio_write 4 shrunk OF_REG_DOORBELL_BASE 1)).
  split; [apply run_done; evaluated |].
  split; [evaluated |]. intros E. apply (f_equal (lookup 20%nat)) in E. vm_compute in E.
  discriminate E.
Qed.

Lemma device_values_typed_witness :
  ∃ v, openflash_mmio_read (m_dev (configured 4)) OF_REG_ADMIN_QSIZE = Done v ∧ 0 ≤ v < 2 ^ 32.
Proof.
  exact (proj1 (device_values_typed (configured 4) OF_REG_ADMIN_QSIZE write1 configured_4_wf
    write1_wf)).
Defined.
