(* ===== verification/BlockTheorems.v ===== *)
(** * Theorems on the data path of the QEMU device *)
From S2P Require Import Prelude Packed Environment Abi Blocks QemuDevice.
From S2P Require Import DeviceSafety DeviceData BlockSpec DeviceFixture.

Section Claims.
Context {M F : Type} `{GM : GuestMemory M, !GuestMemoryLaws M}.
Context `{HF : HostFiles F, !HostFilesLaws F}.
Implicit Types w : machine M F.

(** C7. [openflash_execute] implements the block device specification: on a
    well-formed device that holds the disk [d], every identify, flush, read,
    write and discard command whose block address is below 2^52 (larger ones
    wrap, see lba_aliases_modulo_2_52) and whose data the device accepts
    (contiguous or scatter-gather) completes with the status and result of [spec_step], leaves
    the device holding the specification's next disk, saved image included,
    and leaves guest memory as it was except that a read's blocks are in the
    command's buffers. *)
Theorem execute_implements_block_device w d cmd r :
  dev_wf (m_dev w) → abs w d → cmd_wf cmd → c_lba cmd < 2 ^ 52 →
  acceptable w cmd → request_of w cmd = Some r →
  ∃ ok w',
    openflash_execute w cmd =
      Done (r_status (spec_step ok r d).1, r_result (spec_step ok r d).1, w') ∧
    abs w' (spec_step ok r d).2 ∧ delivered w cmd (spec_step ok r d).1 w'.
Proof. apply execute_refines. Qed.

(** C15. What was written is read back: after a successful write, a read of the
    same blocks into any disjoint guest buffers succeeds and leaves the
    written bytes there, however the two commands segment their data. *)
Theorem write_then_read w cmdw res w1 cmdr :
  dev_wf (m_dev w) → cmd_wf cmdw → cmd_wf cmdr →
  c_opcode cmdw = OF_OP_WRITE → c_opcode cmdr = OF_OP_READ →
  c_lba cmdr = c_lba cmdw → c_nblocks cmdr = c_nblocks cmdw → c_lba cmdw < 2 ^ 52 →
  acceptable w cmdw → openflash_execute w cmdw = Done (OF_SC_SUCCESS, res, w1) →
  acceptable w1 cmdr →
  Forall (λ s, 0 ≤ s.2 ∧ is_ram s.1 s.2)
    (command_segments (m_mem w1) cmdr (cmd_length cmdr)) →
  disjoint_segments (command_segments (m_mem w1) cmdr (cmd_length cmdr)) →
  ∃ w2,
    openflash_execute w1 cmdr = Done (OF_SC_SUCCESS, c_nblocks cmdr, w2) ∧
    gather (m_mem w2) (command_segments (m_mem w1) cmdr (cmd_length cmdr)) =
    gather (m_mem w) (command_segments (m_mem w) cmdw (cmd_length cmdw)).
Proof.
  intros Hwf Hcw Hcr Hopw Hopr Hlba Hn Hl Haw Ew Har Hram Hdis.
  destruct (abs_exists w Hwf) as [d Habs].
  destruct (execute_safe w cmdw Hwf Hcw) as (? & ? & w1' & E' & Hs & _).
  rewrite Ew in E'. injection E' as <- <- <-.
  destruct (gathered_blocks (m_mem w) cmdw) as [Hg Hlen]; [done | apply Haw; auto |].
  set (data := gather (m_mem w) _) in *.
  edestruct (execute_refines w d cmdw) as (ok & w1' & Ew' & Ha1 & _); [done.. | |].
  { unfold request_of. rewrite Hopw. done. }
  rewrite Ew in Ew'. injection Ew' as Hst _ <-.
  apply eq_sym, spec_write_success in Hst as [Hin Hb].
  fold data in Hin, Hb, Ha1. set (d1 := (spec_step _ _ d).2) in *.
  edestruct (execute_refines w1 d1 cmdr) as (ok' & w2 & Er & _ & Hd2);
    [apply Hs | exact Ha1 | done | lia | done | unfold request_of; by rewrite Hopr |].
  rewrite Hlba, Hn, <- Hlen in Er, Hd2.
  pose proof (spec_read_written ok' d d1 (c_lba cmdw) (to_blocks bs data)) as Hrd.
  rewrite Hrd in Er, Hd2 by (done || apply Hcw).
  exists w2. rewrite Er. cbn. rewrite Hlen, Hn. split; [done |].
  rewrite Hd2. cbn [fst r_data success].
  rewrite (concat_to_blocks _ bs_pos _ (Z.to_nat (c_nblocks cmdw)) Hg).
  destruct (in_range_fits d (c_lba cmdw) (len (to_blocks bs data))) as [Hne _];
    [apply Hcw | lia | done |].
  rewrite bool_decide_eq_false_2 by (intros E; by rewrite E in Hne).
  apply gather_scatter; [done.. |].
  destruct (gathered_blocks (m_mem w1) cmdr) as [Hgr _]; [done | apply Har; auto |].
  rewrite <- length_gather with (m := m_mem w1);
    [| eapply Forall_impl; [exact Hram |]; by intros ? []].
  rewrite Hg, Hgr, Hn. done.
Qed.

(** C14. Durability.  When a flush or a FUA write completes successfully on a
    device with a backing file, a device created afterwards with the same
    properties over the host's files realizes, and holds every block as the
    command left it. *)
Theorem durable_after_completion w cmd res w' name m :
  dev_wf (m_dev w) → cmd_wf cmd → s_backing_file (m_dev w) = Some name →
  c_opcode cmd = OF_OP_FLUSH ∨
    c_opcode cmd = OF_OP_WRITE ∧ has_flag (c_flags cmd) OF_CMD_F_FUA = true →
  openflash_execute w cmd = Done (OF_SC_SUCCESS, res, w') →
  ∃ w2, openflash_realize true (power_on (m_dev w') m (m_files w')) = (None, w2) ∧
    s_storage (m_dev w2) = s_storage (m_dev w').
Proof.
  intros Hwf Hc Hn Hop E. enough (saved w') as Hsaved.
  { apply saved_power_cycle; [| done].
    destruct (execute_safe w cmd Hwf Hc) as (? & ? & ? & E' & [] & _).
    rewrite E in E'. by simplify_eq. }
  unfold openflash_execute in E. destruct Hop as [Hop | [Hop Hfua]]; rewrite Hop in E.
  - cbn [Z.eqb OF_OP_FLUSH OF_ADMIN_IDENTIFY OF_ADMIN_CREATE_IOQ Pos.eqb] in E.
    destruct (openflash_persist w) as [[[] w1] | |] eqn:Ep; outcomes in E; simplify_eq.
    by eapply persist_saved.
  - cbn [Z.eqb OF_OP_WRITE OF_OP_FLUSH OF_ADMIN_IDENTIFY OF_ADMIN_CREATE_IOQ Pos.eqb] in E.
    case_split; [done |]. case_split; [done |].
    unfold execute_switch in E. rewrite Hop in E.
    cbn [Z.eqb OF_OP_WRITE OF_OP_READ Pos.eqb] in E.
    pose proof (u64_range (c_lba cmd * OF_BLOCK_SIZE)).
    pose proof (u64_range (c_nblocks cmd * OF_BLOCK_SIZE)).
    destruct (wf_storage _ Hwf) as [[Hcap _] _].
    edestruct (transfer_safe w cmd) as (ok & w1 & Et & Hs);
      [done | | | | rewrite Et in E]; [lia | lia | apply range_check_sound; [lia.. | done] |].
    outcomes in E. destruct ok; cbn [negb] in E; [| done]. rewrite Hfua in E.
    destruct (openflash_persist w1) as [[[] w2] | |] eqn:Ep; outcomes in E; simplify_eq/=.
    eapply persist_saved; [apply Hs | | done].
    rewrite (st_backing _ _ (ds_transport _ _ Hs)). done.
Qed.

(** C19. Isolation of blocks.  Whatever its opcode, its data and its completion
    status, a command whose block address is below 2^52 (larger ones wrap)
    changes no block outside [lba, lba + nblocks): in particular a
    scatter-gather write that is rejected half way. *)
Theorem command_confined_to_range w cmd status res w' st :
  dev_wf (m_dev w) → cmd_wf cmd → c_lba cmd < 2 ^ 52 →
  openflash_execute w cmd = Done (status, res, w') →
  s_storage (m_dev w) = Some st →
  ∃ st', s_storage (m_dev w') = Some st' ∧
    ∀ b, 0 ≤ b → b < c_lba cmd ∨ c_lba cmd + c_nblocks cmd ≤ b →
      to_blocks bs st' !! Z.to_nat b = to_blocks bs st !! Z.to_nat b.
Proof.
  intros Hwf Hc Hl E Hst.
  destruct (execute_safe w cmd Hwf Hc) as (? & ? & w1 & E' & Hs & _).
  rewrite E in E'. injection E' as <- <- <-.
  destruct (execute_confined w cmd status res w' Hc E st Hst) as (st' & Hst' & Heq).
  exists st'. split; [done |]. intros b Hb Hout.
  destruct (storage_blocks _ _ Hwf Hst) as [Hlen _].
  destruct (storage_blocks _ _ (es_wf _ _ _ Hs) Hst') as [Hlen' _].
  rewrite (es_capacity _ _ _ Hs) in Hlen'.
  rewrite !(lookup_to_blocks _ bs_pos _ _ _ Hlen), !(lookup_to_blocks _ bs_pos _ _ _ Hlen').
  case_decide; [| done]. f_equal. apply list_eq. intros i. rewrite !lookup_slice.
  case_decide as Hi; [| done]. apply Heq. pose proof (wf_lba _ Hc).
  rewrite u64_small by (unfold OF_BLOCK_SIZE; lia).
  unfold bs, OF_BLOCK_SIZE in *. lia.
Qed.

(** C22. Which data a write accepts.  An in-range write without FUA succeeds
    exactly when its data address is not null and, for a scatter-gather list,
    it has 1 to 16 entries, none with a null address or zero length, adding up
    to exactly [nblocks * 4096] bytes; otherwise it completes with
    [INVALID_FIELD]. *)
Theorem write_accepts_exactly w cmd :
  dev_wf (m_dev w) → cmd_wf cmd → c_lba cmd < 2 ^ 52 →
  c_opcode cmd = OF_OP_WRITE → has_flag (c_flags cmd) OF_CMD_F_FUA = false →
  c_nblocks cmd ≠ 0 →
  c_lba cmd + c_nblocks cmd ≤ s_capacity (m_dev w) / OF_BLOCK_SIZE →
  ∃ status res w', openflash_execute w cmd = Done (status, res, w') ∧
    (status = OF_SC_SUCCESS ↔ data_ok (m_mem w) cmd (cmd_length cmd)) ∧
    (status = OF_SC_SUCCESS ∨ status = OF_SC_INVALID_FIELD).
Proof.
  intros Hwf Hc Hl Hop Hfua Hn Hr. pose proof (wf_lba _ Hc). pose proof (wf_nblocks _ Hc).
  destruct (range_check_blocks (m_dev w) (c_lba cmd) (c_nblocks cmd))
    as (Ho & Hlen & Hrange); [done | lia | done |].
  destruct (wf_storage _ Hwf) as ([Hcap Hmod] & st & Hst & Hst_len).
  assert (0 ≤ cmd_length cmd < 2 ^ 64 ∧
    c_lba cmd * OF_BLOCK_SIZE + cmd_length cmd ≤ s_capacity (m_dev w)) as [HL Hfit].
  { pose proof (Z.div_mod (s_capacity (m_dev w)) OF_BLOCK_SIZE).
    unfold cmd_length, OF_BLOCK_SIZE in *. lia. }
  unfold openflash_execute. rewrite Hop.
  cbn [Z.eqb OF_OP_WRITE OF_OP_FLUSH OF_ADMIN_IDENTIFY OF_ADMIN_CREATE_IOQ Pos.eqb].
  rewrite Ho, Hlen, Hrange, (proj2 (Z.eqb_neq _ _)), (proj2 (Z.ltb_ge _ _)) by done.
  unfold execute_switch. rewrite Hop, Hfua. cbn [Z.eqb OF_OP_WRITE OF_OP_READ Pos.eqb].
  fold (cmd_length cmd).
  assert (0 ≤ c_lba cmd * OF_BLOCK_SIZE) by (unfold OF_BLOCK_SIZE; lia).
  pose proof (transfer_write_iff w cmd (c_lba cmd * OF_BLOCK_SIZE) (cmd_length cmd)
    Hwf ltac:(done) HL Hfit) as Hiff.
  destruct (transfer_safe w cmd (c_lba cmd * OF_BLOCK_SIZE) (cmd_length cmd) true)
    as (ok & w1 & Et & _); [done | done | lia | done |].
  rewrite Et in *. outcomes. destruct ok; cbn [negb]; do 3 eexists; (split; [done |]).
  - split; [| by left]. split; [intros _; apply Hiff; eauto | done].
  - split; [| by right]. split; [done |]. intros Hok.
    apply Hiff in Hok as [w2 ?]. by simplify_eq.
Qed.

(** C20. Segmentation is irrelevant.  Two writes of the same blocks, with the same
    FUA flag and data the device accepts, have the same outcome (status, result,
    blocks, files, memory) whenever the bytes they name are the same: contiguous
    or scatter-gather, from whatever addresses and in whatever pieces. *)
Theorem segmentation_irrelevant w cmd cmd' :
  dev_wf (m_dev w) → cmd_wf cmd →
  c_opcode cmd = OF_OP_WRITE → c_opcode cmd' = OF_OP_WRITE →
  c_lba cmd' = c_lba cmd → c_nblocks cmd' = c_nblocks cmd →
  has_flag (c_flags cmd') OF_CMD_F_FUA = has_flag (c_flags cmd) OF_CMD_F_FUA →
  data_ok (m_mem w) cmd (cmd_length cmd) → data_ok (m_mem w) cmd' (cmd_length cmd) →
  gather (m_mem w) (command_segments (m_mem w) cmd' (cmd_length cmd)) =
    gather (m_mem w) (command_segments (m_mem w) cmd (cmd_length cmd)) →
  openflash_execute w cmd' = openflash_execute w cmd.
Proof.
  intros Hwf Hc Hop Hop' Hlba Hn Hfua Hok Hok' Hg. pose proof (wf_nblocks _ Hc).
  destruct (wf_storage _ Hwf) as ([Hcap _] & st & Hst & Hlen).
  pose proof (u64_range (c_lba cmd * OF_BLOCK_SIZE)).
  assert (u64 (c_nblocks cmd * OF_BLOCK_SIZE) = cmd_length cmd) as Hu
    by (unfold cmd_length; apply u64_small; unfold OF_BLOCK_SIZE; lia).
  assert (0 ≤ cmd_length cmd < 2 ^ 64) as Hl by (rewrite <- Hu; apply u64_range).
  unfold openflash_execute. rewrite Hop, Hop', Hlba, Hn, Hu.
  cbn [Z.eqb OF_OP_WRITE OF_OP_FLUSH OF_ADMIN_IDENTIFY OF_ADMIN_CREATE_IOQ Pos.eqb].
  case_split; [done |]. case_split; [done |].
  assert (u64 (c_lba cmd * OF_BLOCK_SIZE) + cmd_length cmd ≤ s_capacity (m_dev w)) as Hfit
    by (apply range_check_sound; [lia.. | done]).
  unfold execute_switch. rewrite Hop, Hop', Hfua, Hn.
  cbn [Z.eqb OF_OP_WRITE OF_OP_READ Pos.eqb].
  by rewrite !(transfer_write_eq w _ _ _ st), Hg by (done || lia).
Qed.

(** C36. Block addresses alias modulo [2^52]: [lba * 4096] wraps at 64 bits
    before the range check, so a command behaves exactly as the same command
    with its [lba] reduced modulo [2^52], and is accepted although its [lba] is far
    beyond the device. *)
Theorem lba_aliases_modulo_2_52 w cmd cmd' :
  c_lba cmd' = c_lba cmd `mod` 2 ^ 52 →
  c_opcode cmd' = c_opcode cmd → c_flags cmd' = c_flags cmd →
  c_nblocks cmd' = c_nblocks cmd → c_control cmd' = c_control cmd →
  c_data_addr cmd' = c_data_addr cmd → c_metadata_addr cmd' = c_metadata_addr cmd →
  openflash_execute w cmd' = openflash_execute w cmd.
Proof.
  intros Hl Hop Hf Hn Hct Hd Hm.
  assert (u64 (c_lba cmd' * OF_BLOCK_SIZE) = u64 (c_lba cmd * OF_BLOCK_SIZE)) as Ho.
  { rewrite Hl. unfold u64, OF_BLOCK_SIZE.
    change 4096 with (2 ^ 12). change (2 ^ 64) with (2 ^ 52 * 2 ^ 12).
    rewrite !Z.mul_mod_distr_r by done. by rewrite Z.mod_mod. }
  unfold openflash_execute, execute_create_ioq, created_queue, execute_switch,
    openflash_transfer.
  by rewrite Ho, Hop, Hf, Hn, Hct, Hd, Hm.
Qed.

(** C35. A rejected scatter-gather write has already changed blocks.  When the
    device does not accept an entry of the list of an in-range write (a null
    address, no bytes, or more than are left of the range), the command
    completes with [INVALID_FIELD], and the bytes of all entries before that
    one have been stored from the start of the range on. *)
Theorem rejected_write_changes_block w cmd st good bad rest :
  dev_wf (m_dev w) → cmd_wf cmd → s_storage (m_dev w) = Some st →
  c_opcode cmd = OF_OP_WRITE → has_flag (c_flags cmd) OF_CMD_F_SGL = true →
  c_data_addr cmd ≠ 0 → 0 < u16 (Z.land (c_control cmd) 0xffff) ≤ OF_MAX_SGL_ENTRIES →
  c_lba cmd < 2 ^ 52 → c_nblocks cmd ≠ 0 →
  c_lba cmd + c_nblocks cmd ≤ s_capacity (m_dev w) / OF_BLOCK_SIZE →
  command_segments (m_mem w) cmd (cmd_length cmd) = good ++ bad :: rest →
  Forall (λ s, s.1 ≠ 0 ∧ 0 < s.2) good → total good ≤ cmd_length cmd →
  offending bad (cmd_length cmd - total good) →
  ∃ w', openflash_execute w cmd = Done (OF_SC_INVALID_FIELD, 0, w') ∧
    s_storage (m_dev w') =
      Some (splice (Z.to_nat (c_lba cmd * OF_BLOCK_SIZE)) (gather (m_mem w) good) st).
Proof.
  intros Hwf Hc Hst Hop Hsgl Hda Hct Hl Hn Hr Hsegs Hgood Htot Hbad.
  pose proof (wf_lba _ Hc). pose proof (wf_nblocks _ Hc).
  destruct (range_check_blocks (m_dev w) (c_lba cmd) (c_nblocks cmd))
    as (Ho & Hlen & Hrange); [done | lia | done |].
  destruct (wf_storage _ Hwf) as ([Hcap Hmod] & st' & Hst' & Hst_len).
  rewrite Hst in Hst'. injection Hst' as <-.
  assert (0 ≤ cmd_length cmd < 2 ^ 64 ∧
    c_lba cmd * OF_BLOCK_SIZE + cmd_length cmd ≤ len st) as [HL Hfit].
  { pose proof (Z.div_mod (s_capacity (m_dev w)) OF_BLOCK_SIZE).
    unfold cmd_length, OF_BLOCK_SIZE in *. lia. }
  unfold openflash_execute. rewrite Hop.
  cbn [Z.eqb OF_OP_WRITE OF_OP_FLUSH OF_ADMIN_IDENTIFY OF_ADMIN_CREATE_IOQ Pos.eqb].
  rewrite Ho, Hlen, Hrange, (proj2 (Z.eqb_neq _ _)), (proj2 (Z.ltb_ge _ _)) by done.
  unfold execute_switch. rewrite Hop. cbn [Z.eqb OF_OP_WRITE OF_OP_READ Pos.eqb].
  fold (cmd_length cmd). unfold openflash_transfer, command_segments in *.
  rewrite Hsgl in Hsegs |- *. cbn [negb].
  rewrite !(proj2 (Z.eqb_neq _ _)), (proj2 (Z.ltb_ge _ _)) by (done || lia). cbn [orb].
  rewrite (transfer_sgl_stops _ _ _ _ _ _ _ st good bad rest); try done;
    [| unfold OF_BLOCK_SIZE; lia | lia | by rewrite Z.sub_0_r].
  outcomes. eexists. split; [done |]. cbn. by rewrite Z.add_0_r.
Qed.
End Claims.

Import Fixture.

Lemma realized_disk : abs realized (Disk (replicate 2 zero_block) true None).
Proof.
  constructor.
  - exists zeroes8k. by vm_compute.
  - done.
  - intros name Hn. by vm_compute in Hn; simplify_eq; vm_compute.
Qed.

Lemma write1_acceptable (w : qemu) : acceptable w write1.
Proof. by split. Qed.

Lemma read1_acceptable (w : qemu) : acceptable w read1.
Proof. by split. Qed.

Lemma execute_implements_block_device_witness :
  ∃ w', openflash_execute realized discard1 = Done (OF_SC_SUCCESS, 1, w') ∧
    abs w' (Disk (list_inserts 1 [zero_block] (replicate 2 zero_block)) true None).
Proof.
  destruct (execute_implements_block_device realized
    (Disk (replicate 2 zero_block) true None) discard1 (Discard 1 1)
    realized_wf realized_disk discard1_wf) as (ok & w' & E & Ha & _).
  - done.
  - split; intros H; [destruct H; discriminate | discriminate].
  - reflexivity.
  - exists w'. split; [exact E | exact Ha].
Defined.

Lemma write_then_read_witness :
  ∃ w2,
    openflash_execute written read1 = Done (OF_SC_SUCCESS, 1, w2) ∧
    gather (m_mem w2) [(data_base + 4096, 4096)] = gather (m_mem with_data) [(data_base, 4096)].
Proof.
  apply (write_then_read with_data write1 1 written read1
    realized_wf write1_wf read1_wf eq_refl eq_refl eq_refl eq_refl eq_refl
    (write1_acceptable with_data) written_eq (read1_acceptable written)).
  - repeat constructor; done.
  - by repeat constructor.
Defined.

Lemma durable_after_completion_witness :
  ∃ w2, openflash_realize true (power_on (m_dev written_fua) ([] : Ram.t) (m_files written_fua)) = (None, w2) ∧
      s_storage (m_dev w2) = s_storage (m_dev written_fua).
Proof.
  apply (durable_after_completion with_data write1_fua 1 written_fua "disk"%string ([] : Ram.t)
    realized_wf write1_fua_wf eq_refl); [| exact written_fua_eq].
  right. split; reflexivity.
Defined.

Lemma command_confined_to_range_witness :
  ∃ st', s_storage (m_dev rejected) = Some st' ∧
    to_blocks bs st' !! Z.to_nat 1 = to_blocks bs zeroes8k !! Z.to_nat 1.
Proof.
  destruct (command_confined_to_range bad_sgl bad_sgl_write OF_SC_INVALID_FIELD 0
    rejected zeroes8k realized_wf bad_sgl_write_wf eq_refl rejected_eq bad_sgl_storage)
    as (st' & Hst & Hb).
  exists st'. split; [exact Hst |]. apply Hb; [lia | right; cbn; lia].
Defined.

Lemma write_accepts_exactly_witness :
  ∃ status res w', openflash_execute with_data write1 = Done (status, res, w') ∧
    (status = OF_SC_SUCCESS ↔ data_ok (m_mem with_data) write1 (cmd_length write1)) ∧
    (status = OF_SC_SUCCESS ∨ status = OF_SC_INVALID_FIELD).
Proof.
  apply (write_accepts_exactly with_data write1 realized_wf write1_wf eq_refl
    eq_refl eq_refl); done.
Defined.

Lemma lba_aliases_modulo_2_52_witness :
  openflash_execute with_data (data_command OF_OP_READ 0 0 1 0 data_base) =
  openflash_execute with_data (data_command OF_OP_READ 0 (2 ^ 52) 1 0 data_base).
Proof. apply lba_aliases_modulo_2_52; reflexivity. Defined.

Lemma segmentation_irrelevant_witness :
  openflash_execute split_sgl split_write = openflash_execute split_sgl write1.
Proof.
  apply (segmentation_irrelevant split_sgl write1 split_write realized_wf write1_wf eq_refl
    eq_refl eq_refl eq_refl eq_refl).
  - by split.
  - split; [done |]. intros _. split; [done |]. split; [repeat constructor; done | done].
  - change (gather (m_mem split_sgl) [(data_base, 2048); (data_base + 2048, 2048)] =
      gather (m_mem split_sgl) [(data_base, 4096)]).
    unfold gather. cbn [fmap list_fmap concat fst snd]. rewrite !app_nil_r.
    symmetry. apply (dma_read_app (m_mem split_sgl) data_base 2048 2048); done.
Defined.

Lemma rejected_write_changes_block_witness :
  ∃ w', openflash_execute bad_sgl bad_sgl_write = Done (OF_SC_INVALID_FIELD, 0, w') ∧
    s_storage (m_dev w') =
      Some (splice 0 (gather (m_mem bad_sgl) [(data_base, 4)]) zeroes8k).
Proof.
  apply (rejected_write_changes_block bad_sgl bad_sgl_write zeroes8k [(data_base, 4)] (0, 4092) []
    realized_wf bad_sgl_write_wf bad_sgl_storage eq_refl eq_refl).
  - done.
  - done.
  - done.
  - done.
  - done.
  - reflexivity.
  - by repeat constructor.
  - done.
  - by left.
Defined.
