(* ===== verification/DriverState.v ===== *)
(** * The driver's state and the kernel it runs in (driver/openflash/openflash.h)

    The structures of openflash.h as records, and what the driver uses of its
    surroundings: the controller behind the BAR ([Controller]), the DMA
    memory both sides share ([GuestMemory]), and the kernel.  Kernel services
    that can fail are class fields of [KernelServices]: parameters that
    answer from the state of the kernel, so that every pattern of failures is
    some instance.  The kernel state keeps what the driver's calls change:
    the resources it holds, its live streaming mappings, the requests the
    block layer considers in flight and those that were ended. *)
From S2P Require Import Prelude Packed Environment Abi.

(** ** Linux error numbers and block layer types *)
Definition EIO : Z := 5.
Definition ENOMEM : Z := 12.
Definition ENODEV : Z := 19.
Definition EPROTO : Z := 71.
Definition ETIMEDOUT : Z := 110.

Inductive blk_status_t :=
| BLK_STS_OK | BLK_STS_NOTSUPP | BLK_STS_TIMEOUT | BLK_STS_TARGET
| BLK_STS_MEDIUM | BLK_STS_RESOURCE | BLK_STS_IOERR.

Inductive req_op :=
| REQ_OP_READ | REQ_OP_WRITE | REQ_OP_FLUSH | REQ_OP_DISCARD | REQ_OP_OTHER.

Inductive dma_data_direction := DMA_TO_DEVICE | DMA_FROM_DEVICE.

#[export] Instance blk_status_eq_dec : EqDecision blk_status_t.
Proof. solve_decision. Defined.
#[export] Instance req_op_eq_dec : EqDecision req_op.
Proof. solve_decision. Defined.
#[export] Instance dma_dir_eq_dec : EqDecision dma_data_direction.
Proof. solve_decision. Defined.

(** One step of [rq_for_each_segment]: a piece of one page. *)
Record bio_vec := { bv_page : Z; bv_len : Z }.

#[export] Instance bio_vec_eq_dec : EqDecision bio_vec.
Proof. solve_decision. Defined.

(** [struct request]: position in 512-byte sectors, length in bytes, the
    segments [rq_for_each_segment] visits and [blk_rq_nr_phys_segments], which
    counts physically contiguous runs of them. *)
Record request := {
  rq_tag : nat; rq_pos : Z; rq_bytes : Z; rq_opf : req_op; rq_fua : bool;
  rq_bvecs : list bio_vec; rq_nr_phys_segments : Z;
}.

#[export] Instance request_eq_dec : EqDecision request.
Proof. solve_decision. Defined.

(** ** Constants of openflash.h *)
Definition OPENFLASH_DEFAULT_Q_DEPTH : Z := 128.
Definition OPENFLASH_BLOCK_SIZE : Z := 4096.
Definition OPENFLASH_SECTORS_PER_BLOCK : Z := Z.shiftr OPENFLASH_BLOCK_SIZE 9.

(** ** struct openflash_request, struct openflash_queue, struct openflash_dev *)
Record openflash_request := {
  r_rq : option request; r_sgl_dma : Z; r_nr_mapped : nat;
  r_dma_dir : dma_data_direction;
}.

Definition request_zero : openflash_request :=
  {| r_rq := None; r_sgl_dma := 0; r_nr_mapped := 0; r_dma_dir := DMA_TO_DEVICE |}.

(** The [admin_*] members of [struct openflash_queue]; [aw_done] counts the
    [complete] calls on [admin_done] not yet consumed. *)
Record admin_wait := {
  aw_done : nat; aw_cid : Z; aw_status : Z; aw_result : Z; aw_error : Z;
  aw_pending : bool;
}.

(** The ring pointers [sq_cmds] and [cqes] are the CPU's view of the memory at
    [sq_dma] and [cq_dma]. *)
Record openflash_queue := {
  dq_sq_dma : Z; dq_cq_dma : Z; dq_qid : Z; dq_depth : Z; dq_sq_tail : Z;
  dq_cq_head : Z; dq_cq_phase : Z; dq_next_cid : Z;
  dq_requests : list openflash_request; dq_admin : admin_wait;
}.

(** What [openflash_register_block_device] sets on the disk and its queue. *)
Record gendisk := {
  gd_logical_block_size : Z; gd_physical_block_size : Z; gd_max_hw_sectors : Z;
  gd_max_segments : Z; gd_write_cache : bool; gd_fua : bool; gd_capacity : Z;
}.

Record openflash_dev := {
  of_queues : option (list openflash_queue); of_nr_queues : Z;
  of_queue_depth : Z; of_capacity_blocks : Z; of_capabilities : Z;
  of_tag_set_depth : Z; of_disk : option gendisk; of_reset_pending : Z;
}.

(** A [devm_kzalloc]ed device and [devm_kcalloc]ed queue. *)
Definition aw_zero : admin_wait :=
  {| aw_done := 0; aw_cid := 0; aw_status := 0; aw_result := 0; aw_error := 0;
     aw_pending := false |}.

Definition dq_zero : openflash_queue :=
  {| dq_sq_dma := 0; dq_cq_dma := 0; dq_qid := 0; dq_depth := 0; dq_sq_tail := 0;
     dq_cq_head := 0; dq_cq_phase := 0; dq_next_cid := 0; dq_requests := [];
     dq_admin := aw_zero |}.

Definition dev_zero : openflash_dev :=
  {| of_queues := None; of_nr_queues := 0; of_queue_depth := 0;
     of_capacity_blocks := 0; of_capabilities := 0; of_tag_set_depth := 0;
     of_disk := None; of_reset_pending := 0 |}.

(** ** Kernel state *)
Inductive resource :=
| Coherent (addr size : Z)
| Vectors
| Irq (vector : Z)
| BusMaster
| TagSet
| Disk.

#[export] Instance resource_eq_dec : EqDecision resource.
Proof. solve_decision. Defined.

(** A live streaming mapping: DMA address, length, direction. *)
Definition mapping : Type := Z * Z * dma_data_direction.

Record kernel := {
  k_calls : nat;
  k_held : list resource;
  k_mapped : list mapping;
  k_inflight : list request;
  k_ended : list (request * blk_status_t);
  k_reset_work : bool;
}.

(** Answers of services that can fail.  [k_calls] counts the calls, so that an
    instance can answer each of them differently. *)
Class KernelServices := {
  dma_alloc_coherent : kernel → Z → option Z;
  dma_map_bvec : kernel → bio_vec → dma_data_direction → option Z;
  devm_kcalloc : kernel → bool;
  pci_alloc_irq_vectors : kernel → Z;
  request_irq : kernel → Z → Z;
  pcim_enable_device : kernel → Z;
  dma_set_mask_and_coherent : kernel → Z;
  pcim_iomap_regions : kernel → Z;
  blk_mq_alloc_tag_set : kernel → Z;
  blk_mq_alloc_disk : kernel → Z;
  device_add_disk : kernel → Z;
}.

(** ** The controller behind the BAR *)
Class Controller (W : Type) := {
  ctl_read : W → Z → outcome Z;
  ctl_write : W → Z → Z → outcome W;
}.

(** ** The host and the driver's monad *)
Record host (W : Type) := Host {
  h_bus : W;
  h_kern : kernel;
  h_dev : openflash_dev;
}.
Arguments Host {W}.
Arguments h_bus {W}.
Arguments h_kern {W}.
Arguments h_dev {W}.

Definition drv (W A : Type) : Type := host W → outcome (A * host W).

#[export] Instance drv_ret {W} : MRet (drv W) := λ A a h, Done (a, h).
#[export] Instance drv_bind {W} : MBind (drv W) := λ A B k m h,
  match m h with
  | Done (a, h) => k a h
  | Undef => Undef
  | NoFuel => NoFuel
  end.

Definition undef {W A} : drv W A := λ _, Undef.
Definition no_fuel {W A} : drv W A := λ _, NoFuel.
Definition lift {W A} (o : outcome A) : drv W A := λ h,
  match o with Done a => Done (a, h) | Undef => Undef | NoFuel => NoFuel end.

(** ** Field updates *)
Definition with_cq_head (head phase : Z) (q : openflash_queue) : openflash_queue :=
  {| dq_sq_dma := dq_sq_dma q; dq_cq_dma := dq_cq_dma q; dq_qid := dq_qid q;
     dq_depth := dq_depth q; dq_sq_tail := dq_sq_tail q; dq_cq_head := head;
     dq_cq_phase := phase; dq_next_cid := dq_next_cid q;
     dq_requests := dq_requests q; dq_admin := dq_admin q |}.
Definition with_sq_tail (tail : Z) (q : openflash_queue) : openflash_queue :=
  {| dq_sq_dma := dq_sq_dma q; dq_cq_dma := dq_cq_dma q; dq_qid := dq_qid q;
     dq_depth := dq_depth q; dq_sq_tail := tail; dq_cq_head := dq_cq_head q;
     dq_cq_phase := dq_cq_phase q; dq_next_cid := dq_next_cid q;
     dq_requests := dq_requests q; dq_admin := dq_admin q |}.
Definition with_next_cid (next : Z) (q : openflash_queue) : openflash_queue :=
  {| dq_sq_dma := dq_sq_dma q; dq_cq_dma := dq_cq_dma q; dq_qid := dq_qid q;
     dq_depth := dq_depth q; dq_sq_tail := dq_sq_tail q;
     dq_cq_head := dq_cq_head q; dq_cq_phase := dq_cq_phase q;
     dq_next_cid := next; dq_requests := dq_requests q;
     dq_admin := dq_admin q |}.
Definition with_sq (sq : Z) (q : openflash_queue) : openflash_queue :=
  {| dq_sq_dma := sq; dq_cq_dma := dq_cq_dma q; dq_qid := dq_qid q;
     dq_depth := dq_depth q; dq_sq_tail := dq_sq_tail q;
     dq_cq_head := dq_cq_head q; dq_cq_phase := dq_cq_phase q;
     dq_next_cid := dq_next_cid q; dq_requests := dq_requests q;
     dq_admin := dq_admin q |}.
Definition with_cq (cq : Z) (q : openflash_queue) : openflash_queue :=
  {| dq_sq_dma := dq_sq_dma q; dq_cq_dma := cq; dq_qid := dq_qid q;
     dq_depth := dq_depth q; dq_sq_tail := dq_sq_tail q;
     dq_cq_head := dq_cq_head q; dq_cq_phase := dq_cq_phase q;
     dq_next_cid := dq_next_cid q; dq_requests := dq_requests q;
     dq_admin := dq_admin q |}.
Definition with_shape (id depth phase : Z) (q : openflash_queue) : openflash_queue :=
  {| dq_sq_dma := dq_sq_dma q; dq_cq_dma := dq_cq_dma q; dq_qid := id;
     dq_depth := depth; dq_sq_tail := dq_sq_tail q; dq_cq_head := dq_cq_head q;
     dq_cq_phase := phase; dq_next_cid := dq_next_cid q;
     dq_requests := dq_requests q; dq_admin := dq_admin q |}.
Definition with_requests (rs : list openflash_request) (q : openflash_queue) : openflash_queue :=
  {| dq_sq_dma := dq_sq_dma q; dq_cq_dma := dq_cq_dma q; dq_qid := dq_qid q;
     dq_depth := dq_depth q; dq_sq_tail := dq_sq_tail q;
     dq_cq_head := dq_cq_head q; dq_cq_phase := dq_cq_phase q;
     dq_next_cid := dq_next_cid q; dq_requests := rs; dq_admin := dq_admin q |}.
Definition with_admin (a : admin_wait) (q : openflash_queue) : openflash_queue :=
  {| dq_sq_dma := dq_sq_dma q; dq_cq_dma := dq_cq_dma q; dq_qid := dq_qid q;
     dq_depth := dq_depth q; dq_sq_tail := dq_sq_tail q;
     dq_cq_head := dq_cq_head q; dq_cq_phase := dq_cq_phase q;
     dq_next_cid := dq_next_cid q; dq_requests := dq_requests q;
     dq_admin := a |}.

Definition with_queues (qs : option (list openflash_queue)) (d : openflash_dev) : openflash_dev :=
  {| of_queues := qs; of_nr_queues := of_nr_queues d;
     of_queue_depth := of_queue_depth d;
     of_capacity_blocks := of_capacity_blocks d;
     of_capabilities := of_capabilities d;
     of_tag_set_depth := of_tag_set_depth d; of_disk := of_disk d;
     of_reset_pending := of_reset_pending d |}.
Definition with_nr_queues (n : Z) (d : openflash_dev) : openflash_dev :=
  {| of_queues := of_queues d; of_nr_queues := n;
     of_queue_depth := of_queue_depth d;
     of_capacity_blocks := of_capacity_blocks d;
     of_capabilities := of_capabilities d;
     of_tag_set_depth := of_tag_set_depth d; of_disk := of_disk d;
     of_reset_pending := of_reset_pending d |}.
Definition with_capacity (n : Z) (d : openflash_dev) : openflash_dev :=
  {| of_queues := of_queues d; of_nr_queues := of_nr_queues d;
     of_queue_depth := of_queue_depth d; of_capacity_blocks := n;
     of_capabilities := of_capabilities d;
     of_tag_set_depth := of_tag_set_depth d; of_disk := of_disk d;
     of_reset_pending := of_reset_pending d |}.
Definition with_identity (depth caps : Z) (d : openflash_dev) : openflash_dev :=
  {| of_queues := of_queues d; of_nr_queues := of_nr_queues d;
     of_queue_depth := depth; of_capacity_blocks := of_capacity_blocks d;
     of_capabilities := caps; of_tag_set_depth := of_tag_set_depth d;
     of_disk := of_disk d; of_reset_pending := 0 |}.
Definition with_tag_set (n : Z) (d : openflash_dev) : openflash_dev :=
  {| of_queues := of_queues d; of_nr_queues := of_nr_queues d;
     of_queue_depth := of_queue_depth d;
     of_capacity_blocks := of_capacity_blocks d;
     of_capabilities := of_capabilities d; of_tag_set_depth := n;
     of_disk := of_disk d; of_reset_pending := of_reset_pending d |}.
Definition with_disk (o : option gendisk) (d : openflash_dev) : openflash_dev :=
  {| of_queues := of_queues d; of_nr_queues := of_nr_queues d;
     of_queue_depth := of_queue_depth d;
     of_capacity_blocks := of_capacity_blocks d;
     of_capabilities := of_capabilities d;
     of_tag_set_depth := of_tag_set_depth d; of_disk := o;
     of_reset_pending := of_reset_pending d |}.
Definition with_reset_pending (n : Z) (d : openflash_dev) : openflash_dev :=
  {| of_queues := of_queues d; of_nr_queues := of_nr_queues d;
     of_queue_depth := of_queue_depth d;
     of_capacity_blocks := of_capacity_blocks d;
     of_capabilities := of_capabilities d;
     of_tag_set_depth := of_tag_set_depth d; of_disk := of_disk d;
     of_reset_pending := n |}.

Definition with_call  (k : kernel) : kernel :=
  {| k_calls := S (k_calls k); k_held := k_held k; k_mapped := k_mapped k;
     k_inflight := k_inflight k; k_ended := k_ended k;
     k_reset_work := k_reset_work k |}.
Definition with_held (rs : list resource) (k : kernel) : kernel :=
  {| k_calls := k_calls k; k_held := rs; k_mapped := k_mapped k;
     k_inflight := k_inflight k; k_ended := k_ended k;
     k_reset_work := k_reset_work k |}.
Definition with_mapped (ms : list mapping) (k : kernel) : kernel :=
  {| k_calls := k_calls k; k_held := k_held k; k_mapped := ms;
     k_inflight := k_inflight k; k_ended := k_ended k;
     k_reset_work := k_reset_work k |}.
Definition with_requests_state (live : list request) (ended : list (request * blk_status_t)) (k : kernel) : kernel :=
  {| k_calls := k_calls k; k_held := k_held k; k_mapped := k_mapped k;
     k_inflight := live; k_ended := ended; k_reset_work := k_reset_work k |}.
Definition with_reset_work (b : bool) (k : kernel) : kernel :=
  {| k_calls := k_calls k; k_held := k_held k; k_mapped := k_mapped k;
     k_inflight := k_inflight k; k_ended := k_ended k; k_reset_work := b |}.

(** ** Primitive operations *)
Section Primitives.
Context {W : Type} `{GM : GuestMemory W, CT : Controller W, KS : KernelServices}.

Definition with_bus (w : W) (h : host W) : host W := Host w (h_kern h) (h_dev h).
Definition with_kern (k : kernel) (h : host W) : host W := Host (h_bus h) k (h_dev h).
Definition with_ofdev (d : openflash_dev) (h : host W) : host W :=
  Host (h_bus h) (h_kern h) d.

Definition get_dev : drv W openflash_dev := λ h, Done (h_dev h, h).
Definition put_dev (f : openflash_dev → openflash_dev) : drv W () := λ h,
  Done ((), with_ofdev (f (h_dev h)) h).

(** [&ofdev->queues[i]], and a write through that pointer. *)
Definition get_queue (i : nat) : drv W openflash_queue := λ h,
  match of_queues (h_dev h) ≫= lookup i with
  | Some q => Done (q, h)
  | None => Undef
  end.
Definition put_queue (i : nat) (f : openflash_queue → openflash_queue) : drv W () := λ h,
  match of_queues (h_dev h) ≫= lookup i with
  | Some q => Done ((), with_ofdev (with_queues (alter f i <$> of_queues (h_dev h))
                          (h_dev h)) h)
  | None => Undef
  end.

(** MMIO. *)
Definition readl (addr : Z) : drv W Z := λ h,
  v ← ctl_read (h_bus h) addr; Done (u32 v, h).
Definition readq (addr : Z) : drv W Z := λ h,
  v ← ctl_read (h_bus h) addr; Done (u64 v, h).
Definition writel (value addr : Z) : drv W () := λ h,
  w ← ctl_write (h_bus h) addr (u32 value); Done ((), with_bus w h).

(** Loads and stores of coherent memory. *)
Definition load (addr n : Z) : drv W (list byte) := λ h,
  Done (dma_read (h_bus h) addr n, h).
Definition store (addr : Z) (bs : list byte) : drv W () := λ h,
  Done ((), with_bus (dma_write (h_bus h) addr bs) h).

(** Address of entry [i] of an array of [n] entries of [size] bytes at [base]. *)
Definition slot (base size n i : Z) : drv W Z :=
  if (0 <=? i) && (i <? n) then mret (base + i * size) else undef.

(** A call of a kernel service. *)
Definition ask {A} (f : kernel → A) : drv W A := λ h,
  Done (f (h_kern h), with_kern (with_call (h_kern h)) h).

Definition get_kern : drv W kernel := λ h, Done (h_kern h, h).
Definition put_kern (f : kernel → kernel) : drv W () := λ h,
  Done ((), with_kern (f (h_kern h)) h).

Definition acquire (r : resource) : drv W () :=
  put_kern (λ k, with_held (r :: k_held k) k).

(** Releasing what is not held is undefined. *)
Definition release (r : resource) : drv W () := λ h,
  match remove_one r (k_held (h_kern h)) with
  | Some rs => Done ((), with_kern (with_held rs (h_kern h)) h)
  | None => Undef
  end.

(** [dma_alloc_coherent], whose memory is zeroed, and [dma_free_coherent]. *)
Definition alloc_coherent (size : Z) : drv W (option Z) :=
  o ← ask (λ k, dma_alloc_coherent k size);
  match o with
  | None => mret None
  | Some addr =>
      acquire (Coherent addr size) ;;
      store addr (replicate (Z.to_nat size) Byte.x00) ;;
      mret (Some addr)
  end.
Definition free_coherent (size addr : Z) : drv W () := release (Coherent addr size).

(** [dma_map_bvec] and [dma_unmap_page]; unmapping what is not mapped is
    undefined. *)
Definition map_bvec (bv : bio_vec) (dir : dma_data_direction) : drv W (option Z) :=
  o ← ask (λ k, dma_map_bvec k bv dir);
  match o with
  | None => mret None
  | Some dma =>
      put_kern (λ k, with_mapped ((dma, bv_len bv, dir) :: k_mapped k) k) ;;
      mret (Some dma)
  end.
Definition dma_unmap_page (addr size : Z) (dir : dma_data_direction) : drv W () := λ h,
  match remove_one (addr, size, dir) (k_mapped (h_kern h)) with
  | Some ms => Done ((), with_kern (with_mapped ms (h_kern h)) h)
  | None => Undef
  end.

(** [blk_mq_start_request] and [blk_mq_end_request]; ending a request that is
    not in flight is undefined. *)
Definition blk_mq_start_request (rq : request) : drv W () :=
  put_kern (λ k, with_requests_state (rq :: k_inflight k) (k_ended k) k).
Definition blk_mq_end_request (rq : request) (status : blk_status_t) : drv W () := λ h,
  let k := h_kern h in
  match remove_one rq (k_inflight k) with
  | Some live =>
      Done ((), with_kern (with_requests_state live (k_ended k ++ [(rq, status)]) k) h)
  | None => Undef
  end.
End Primitives.
