(* ===== verification/DriverQueue.v ===== *)
(** * The driver's queues (driver/openflash/openflash_queue.c)

    One definition per function, in source order; the gotos of the set-up
    functions are the [*_free_*] definitions, each continuing with the next
    label.  The host is sequential: an interrupt handler runs to completion at
    the points where the code waits for one, as often as a [schedule] says.
    The locks of the code are not modelled. *)
From S2P Require Import Prelude Packed Environment Abi DriverState.

Definition openflash_blk_status (status : Z) : blk_status_t :=
  if status =? OPENFLASH_SC_SUCCESS then BLK_STS_OK
  else if status =? OPENFLASH_SC_LBA_RANGE then BLK_STS_TARGET
  else if (status =? OPENFLASH_SC_MEDIA_ERROR)
          || (status =? OPENFLASH_SC_ECC_UNCORRECTABLE) then BLK_STS_MEDIUM
  else if (status =? OPENFLASH_SC_INVALID_OPCODE)
          || (status =? OPENFLASH_SC_INVALID_FIELD) then BLK_STS_NOTSUPP
  else BLK_STS_IOERR.

(** How an admin command's wait goes: the bound on the entries one interrupt
    may find, the interrupts delivered before the wait ends and, when it ends
    with a timeout, between the timeout and the clearing of [admin_pending]. *)
Record schedule := { sc_fuel : nat; sc_irqs : nat; sc_late : nat }.

Definition lower_32_bits (a : Z) : Z := u32 a.
Definition upper_32_bits (a : Z) : Z := u32 (Z.shiftr a 32).

(** The [sizeof] of a command, a completion, a scatter-gather descriptor and
    the descriptor list of one request. *)
Definition CMD_SIZE : Z := 64.
Definition CQE_SIZE : Z := 64.
Definition SGL_DESC_SIZE : Z := 16.
Definition SGL_SIZE : Z := OPENFLASH_MAX_SGL_ENTRIES * SGL_DESC_SIZE.

Definition zeroes (n : Z) : list byte := replicate (Z.to_nat n) Byte.x00.

Section DriverQueue.
Context {W : Type} `{GM : GuestMemory W, CT : Controller W, KS : KernelServices}.

(** ** Completion rings *)

(** [queue->cqes[queue->cq_head]] *)
Definition read_cqe (queue : openflash_queue) : drv W openflash_completion :=
  addr ← slot (dq_cq_dma queue) CQE_SIZE (dq_depth queue) (dq_cq_head queue);
  bs ← load addr CQE_SIZE;
  mret (decode_completion bs).

(** The end of the loop body: next head, phase flipped on wrap. *)
Definition advance_cq (i : nat) : drv W () :=
  queue ← get_queue i;
  head ← lift (c_mod (dq_cq_head queue + 1) (dq_depth queue));
  let head := u16 head in
  put_queue i (with_cq_head head
    (if head =? 0 then Z.lxor (dq_cq_phase queue) OPENFLASH_CQE_PHASE
     else dq_cq_phase queue)).

(** The [for (;;)] of [openflash_drain_admin_cq] and of [openflash_io_irq]: they
    differ in what they do with an entry. *)
Fixpoint cq_loop (fuel : nat) (i : nat) (handle : openflash_completion → drv W ())
    (completed : Z) : drv W Z :=
  queue ← get_queue i;
  cqe ← read_cqe queue;
  if negb (Z.land (cqe_flags cqe) OPENFLASH_CQE_PHASE =? dq_cq_phase queue)
  then mret completed
  else match fuel with
       | O => no_fuel
       | S fuel =>
           handle cqe ;;
           advance_cq i ;;
           cq_loop fuel i handle (completed + 1)
       end.

(** A new entry of the admin ring. *)
Definition admin_entry (cqe : openflash_completion) : drv W () :=
  queue ← get_queue 0;
  let a := dq_admin queue in
  if aw_pending a then
    put_queue 0 (with_admin
      (if cqe_cid cqe =? aw_cid a
       then {| aw_done := S (aw_done a); aw_cid := aw_cid a;
               aw_status := cqe_status cqe; aw_result := cqe_result cqe;
               aw_error := 0; aw_pending := false |}
       else {| aw_done := S (aw_done a); aw_cid := aw_cid a;
               aw_status := aw_status a; aw_result := aw_result a;
               aw_error := - EIO; aw_pending := false |}))
  else mret ().

Definition openflash_drain_admin_cq (fuel : nat) : drv W Z :=
  completed ← cq_loop fuel 0 admin_entry 0;
  if completed =? 0 then mret completed
  else
    queue ← get_queue 0;
    writel (dq_cq_head queue) (OPENFLASH_CQ_HEAD_DB (dq_qid queue)) ;;
    mret completed.

(** [true] is [IRQ_HANDLED]. *)
Definition openflash_irq (fuel : nat) : drv W bool :=
  status ← readl OPENFLASH_REG_STATUS;
  if negb (has_flag status OPENFLASH_STATUS_READY) then mret false
  else
    completed ← openflash_drain_admin_cq fuel;
    mret (negb (completed =? 0)).

(** ** I/O completions *)

(** [queue->requests[i]] of queue 1, and a write through that pointer. *)
Definition get_request (i : nat) : drv W openflash_request :=
  queue ← get_queue 1;
  match dq_requests queue !! i with Some r => mret r | None => undef end.
Definition put_request (i : nat) (f : openflash_request → openflash_request) : drv W () :=
  queue ← get_queue 1;
  match dq_requests queue !! i with
  | Some _ => put_queue 1 (with_requests (alter f i (dq_requests queue)))
  | None => undef
  end.

Definition with_rq (o : option request) (r : openflash_request) : openflash_request :=
  {| r_rq := o; r_sgl_dma := r_sgl_dma r; r_nr_mapped := r_nr_mapped r;
     r_dma_dir := r_dma_dir r |}.
Definition with_nr_mapped (n : nat) (dir : dma_data_direction) (r : openflash_request)
    : openflash_request :=
  {| r_rq := r_rq r; r_sgl_dma := r_sgl_dma r; r_nr_mapped := n; r_dma_dir := dir |}.
Definition with_sgl (dma : Z) (r : openflash_request) : openflash_request :=
  {| r_rq := r_rq r; r_sgl_dma := dma; r_nr_mapped := r_nr_mapped r;
     r_dma_dir := r_dma_dir r |}.

(** [request->sgl[n]] of the list at [sgl] *)
Definition read_sgl (sgl : Z) (n : nat) : drv W openflash_sgl_desc :=
  addr ← slot sgl SGL_DESC_SIZE OPENFLASH_MAX_SGL_ENTRIES (Z.of_nat n);
  bs ← load addr SGL_DESC_SIZE;
  mret (decode_sgl bs).

(** The [while (mapped)] loops: unmaps the first [n] entries, last first. *)
Fixpoint unmap_sgl (sgl : Z) (dir : dma_data_direction) (n : nat) : drv W () :=
  match n with
  | O => mret ()
  | S n =>
      desc ← read_sgl sgl n;
      dma_unmap_page (sgl_addr desc) (sgl_length desc) dir ;;
      unmap_sgl sgl dir n
  end.

(** [rq = xchg(&request->rq, NULL)] and, when it was set, the unmapping of its
    segments and its end with [status]. *)
Definition finish_request (i : nat) (status : blk_status_t) : drv W () :=
  request ← get_request i;
  put_request i (with_rq None) ;;
  match r_rq request with
  | None => mret ()
  | Some rq =>
      unmap_sgl (r_sgl_dma request) (r_dma_dir request) (r_nr_mapped request) ;;
      put_request i (with_nr_mapped 0 (r_dma_dir request)) ;;
      blk_mq_end_request rq status
  end.

(** A new entry of the I/O ring; invalid and stale ones are only logged. *)
Definition io_entry (cqe : openflash_completion) : drv W () :=
  queue ← get_queue 1;
  let cid := cqe_cid cqe in
  if (cid =? 0) || (dq_depth queue - 1 <? cid) then mret ()
  else finish_request (Z.to_nat (cid - 1)) (openflash_blk_status (cqe_status cqe)).

Definition openflash_io_irq (fuel : nat) : drv W bool :=
  completed ← cq_loop fuel 1 io_entry 0;
  if completed =? 0 then mret false
  else
    queue ← get_queue 1;
    writel (dq_cq_head queue) (OPENFLASH_CQ_HEAD_DB (dq_qid queue)) ;;
    mret true.

(** ** Admin queue set-up *)
Definition write_admin_registers (queue : openflash_queue) : drv W () :=
  writel (lower_32_bits (dq_sq_dma queue)) OPENFLASH_REG_ADMIN_SQ_LO ;;
  writel (upper_32_bits (dq_sq_dma queue)) OPENFLASH_REG_ADMIN_SQ_HI ;;
  writel (lower_32_bits (dq_cq_dma queue)) OPENFLASH_REG_ADMIN_CQ_LO ;;
  writel (upper_32_bits (dq_cq_dma queue)) OPENFLASH_REG_ADMIN_CQ_HI ;;
  writel (dq_depth queue) OPENFLASH_REG_ADMIN_QSIZE ;;
  writel OPENFLASH_CTRL_ENABLE OPENFLASH_REG_CONTROL.

(** [readl_poll_timeout] on the ready bit.  The registers of a [Controller]
    change by register writes only, so the first read decides. *)
Definition poll_ready : drv W Z :=
  status ← readl OPENFLASH_REG_STATUS;
  mret (if has_flag status OPENFLASH_STATUS_READY then 0 else - ETIMEDOUT).

Definition admin_free_sq (ret : Z) : drv W Z :=
  queue ← get_queue 0;
  free_coherent (dq_depth queue * CMD_SIZE) (dq_sq_dma queue) ;; mret ret.
Definition admin_free_cq (ret : Z) : drv W Z :=
  queue ← get_queue 0;
  free_coherent (dq_depth queue * CQE_SIZE) (dq_cq_dma queue) ;; admin_free_sq ret.
Definition admin_free_vectors (ret : Z) : drv W Z :=
  release Vectors ;; admin_free_cq ret.
Definition admin_disable (ret : Z) : drv W Z :=
  writel 0 OPENFLASH_REG_CONTROL ;;
  put_dev (with_nr_queues 0) ;;
  release (Irq 0) ;; admin_free_vectors ret.

(** From the allocation of the interrupt vectors on. *)
Definition admin_start : drv W Z :=
  ret ← ask pci_alloc_irq_vectors;
  if ret <? 0 then admin_free_cq ret else
  acquire Vectors ;;
  ret ← ask (λ k, request_irq k 0);
  if negb (ret =? 0) then admin_free_vectors ret else
  acquire (Irq 0) ;;
  put_dev (with_nr_queues 1) ;;
  queue ← get_queue 0;
  write_admin_registers queue ;;
  ret ← poll_ready;
  if negb (ret =? 0) then admin_disable ret else mret 0.

Definition openflash_setup_admin_queue : drv W Z :=
  ok ← ask devm_kcalloc;
  if negb ok then put_dev (with_queues None) ;; mret (- ENOMEM) else
  put_dev (λ d, with_queues (Some [with_shape 0 (of_queue_depth d) 1 dq_zero; dq_zero]) d) ;;
  queue ← get_queue 0;
  sq ← alloc_coherent (dq_depth queue * CMD_SIZE);
  match sq with None => mret (- ENOMEM) | Some sq =>
  put_queue 0 (with_sq sq) ;;
  cq ← alloc_coherent (dq_depth queue * CQE_SIZE);
  match cq with None => admin_free_sq (- ENOMEM) | Some cq =>
  put_queue 0 (with_cq cq) ;;
  admin_start
  end end.

(** ** Admin commands *)

(** [n] deliveries of the admin interrupt. *)
Fixpoint deliver_irqs (fuel n : nat) : drv W () :=
  match n with
  | O => mret ()
  | S n => _ ← openflash_irq fuel; deliver_irqs fuel n
  end.

(** [cid = ++queue->next_cid; if (!cid) cid = ++queue->next_cid;] *)
Definition fresh_cid (next_cid : Z) : Z :=
  let cid := u16 (next_cid + 1) in
  if cid =? 0 then u16 (cid + 1) else cid.

Definition with_cid (qid_ cid_ : Z) (cmd : openflash_command) : openflash_command :=
  {| opcode := opcode cmd; flags := flags cmd; qid := qid_; cid := cid_;
     reserved0 := reserved0 cmd; lba := lba cmd; nblocks := nblocks cmd;
     control := control cmd; data_addr := data_addr cmd;
     metadata_addr := metadata_addr cmd; user_data := user_data cmd;
     reserved1_0 := reserved1_0 cmd; reserved1_1 := reserved1_1 cmd |}.

(** Everything up to the doorbell. *)
Definition admin_submit (cmd : openflash_command) : drv W () :=
  queue ← get_queue 0;
  let cid := fresh_cid (dq_next_cid queue) in
  put_queue 0 (with_next_cid cid) ;;
  put_queue 0 (λ q, with_admin
    {| aw_done := 0; aw_cid := cid; aw_status := aw_status (dq_admin q);
       aw_result := aw_result (dq_admin q); aw_error := 0; aw_pending := true |} q) ;;
  addr ← slot (dq_sq_dma queue) CMD_SIZE (dq_depth queue) (dq_sq_tail queue);
  store addr (encode_command (with_cid (dq_qid queue) cid cmd)) ;;
  tail ← lift (c_mod (dq_sq_tail queue + 1) (dq_depth queue));
  put_queue 0 (with_sq_tail (u16 tail)) ;;
  writel (u16 tail) (OPENFLASH_SQ_TAIL_DB (dq_qid queue)).

Definition with_pending (b : bool) (q : openflash_queue) : openflash_queue :=
  with_admin {| aw_done := aw_done (dq_admin q); aw_cid := aw_cid (dq_admin q);
    aw_status := aw_status (dq_admin q); aw_result := aw_result (dq_admin q);
    aw_error := aw_error (dq_admin q); aw_pending := b |} q.
Definition with_done (n : nat) (q : openflash_queue) : openflash_queue :=
  with_admin {| aw_done := n; aw_cid := aw_cid (dq_admin q);
    aw_status := aw_status (dq_admin q); aw_result := aw_result (dq_admin q);
    aw_error := aw_error (dq_admin q); aw_pending := aw_pending (dq_admin q) |} q.

(** [inl ret] with [ret] non-zero, or [inr] of the value stored in [*result]. *)
Definition openflash_admin_command (sc : schedule) (cmd : openflash_command)
    : drv W (Z + Z) :=
  admin_submit cmd ;;
  deliver_irqs (sc_fuel sc) (sc_irqs sc) ;;
  queue ← get_queue 0;
  match aw_done (dq_admin queue) with
  | O =>
      deliver_irqs (sc_fuel sc) (sc_late sc) ;;
      put_queue 0 (with_pending false) ;;
      mret (inl (- ETIMEDOUT))
  | S n =>
      put_queue 0 (with_done n) ;;
      let a := dq_admin queue in
      if negb (aw_error a =? 0) then mret (inl (aw_error a))
      else if negb (aw_status a =? OPENFLASH_SC_SUCCESS) then mret (inl (- EIO))
      else mret (inr (aw_result a))
  end.

Definition openflash_admin_identify (sc : schedule) : drv W Z :=
  r ← openflash_admin_command sc
        {| opcode := OPENFLASH_ADMIN_IDENTIFY; flags := 0; qid := 0; cid := 0;
           reserved0 := 0; lba := 0; nblocks := 0; control := 0; data_addr := 0;
           metadata_addr := 0; user_data := 0; reserved1_0 := 0; reserved1_1 := 0 |};
  match r with
  | inl ret => mret ret
  | inr capacity =>
      if capacity =? 0 then mret (- ENODEV)
      else put_dev (with_capacity capacity) ;; mret 0
  end.

Definition create_ioq_command (queue : openflash_queue) : openflash_command :=
  {| opcode := OPENFLASH_ADMIN_CREATE_IOQ; flags := 0; qid := 0; cid := 0;
     reserved0 := 0; lba := 0; nblocks := dq_depth queue;
     control := OPENFLASH_CREATE_IOQ_CONTROL (dq_qid queue) 1;
     data_addr := dq_sq_dma queue; metadata_addr := dq_cq_dma queue;
     user_data := 0; reserved1_0 := 0; reserved1_1 := 0 |}.

Definition openflash_create_io_queue (sc : schedule) : drv W Z :=
  queue ← get_queue 1;
  r ← openflash_admin_command sc (create_ioq_command queue);
  match r with
  | inl ret => mret ret
  | inr result => mret (if result =? dq_qid queue then 0 else - EPROTO)
  end.

(** ** I/O queue set-up *)

(** The [for] loop over the tags, [n] to go: whether it finished, and [tag]. *)
Fixpoint alloc_sgls (n tag : nat) : drv W (bool * nat) :=
  match n with
  | O => mret (true, tag)
  | S n =>
      o ← alloc_coherent SGL_SIZE;
      match o with
      | None => mret (false, tag)
      | Some dma => put_request tag (with_sgl dma) ;; alloc_sgls n (S tag)
      end
  end.

(** [while (tag--)] *)
Fixpoint free_sgls (tag : nat) : drv W () :=
  match tag with
  | O => mret ()
  | S tag =>
      request ← get_request tag;
      free_coherent SGL_SIZE (r_sgl_dma request) ;;
      free_sgls tag
  end.

(** [None] is a [ret] that was never assigned. *)
Definition io_free_sq (ret : option Z) : drv W Z :=
  queue ← get_queue 1;
  free_coherent (dq_depth queue * CMD_SIZE) (dq_sq_dma queue) ;; lift (deref ret).
Definition io_free_cq (ret : option Z) : drv W Z :=
  queue ← get_queue 1;
  free_coherent (dq_depth queue * CQE_SIZE) (dq_cq_dma queue) ;; io_free_sq ret.
Definition io_free_sgl (tag : nat) (ret : option Z) : drv W Z :=
  free_sgls tag ;; io_free_cq ret.
Definition io_free_irq (tag : nat) (ret : option Z) : drv W Z :=
  release (Irq 1) ;; io_free_sgl tag ret.

(** From the allocation of the descriptor lists on, for [n] tags. *)
Definition io_start (sc : schedule) (n : nat) : drv W Z :=
  '(ok, tag) ← alloc_sgls n 0;
  if negb ok then io_free_sgl tag None else
  ret ← ask (λ k, request_irq k 1);
  if negb (ret =? 0) then io_free_sgl tag (Some ret) else
  acquire (Irq 1) ;;
  ret ← openflash_create_io_queue sc;
  if negb (ret =? 0) then io_free_irq tag (Some ret) else
  put_dev (with_nr_queues 2) ;; mret 0.

(** From the allocation of the request slots on. *)
Definition io_requests (sc : schedule) (n : nat) : drv W Z :=
  ok ← ask devm_kcalloc;
  if negb ok then io_free_cq (Some (- ENOMEM)) else
  put_queue 1 (with_requests (replicate n request_zero)) ;;
  io_start sc n.

Definition openflash_setup_io_queue (sc : schedule) : drv W Z :=
  d ← get_dev;
  put_queue 1 (with_shape 1 (of_queue_depth d) 1) ;;
  queue ← get_queue 1;
  sq ← alloc_coherent (dq_depth queue * CMD_SIZE);
  match sq with None => mret (- ENOMEM) | Some sq =>
  put_queue 1 (with_sq sq) ;;
  cq ← alloc_coherent (dq_depth queue * CQE_SIZE);
  match cq with None => io_free_sq (Some (- ENOMEM)) | Some cq =>
  put_queue 1 (with_cq cq) ;;
  io_requests sc (Z.to_nat (dq_depth queue - 1))
  end end.

(** ** Controller reset *)
Definition clear_rings (queue : openflash_queue) : drv W () :=
  store (dq_sq_dma queue) (zeroes (dq_depth queue * CMD_SIZE)) ;;
  store (dq_cq_dma queue) (zeroes (dq_depth queue * CQE_SIZE)).

Definition rewind (q : openflash_queue) : openflash_queue :=
  with_cq_head 0 1 (with_sq_tail 0 q).

Definition openflash_reset_controller (sc : schedule) : drv W Z :=
  admin ← get_queue 0;
  io ← get_queue 1;
  clear_rings admin ;;
  clear_rings io ;;
  put_queue 0 rewind ;;
  put_queue 1 rewind ;;
  writel OPENFLASH_CTRL_RESET OPENFLASH_REG_CONTROL ;;
  _ ← readl OPENFLASH_REG_STATUS;
  write_admin_registers admin ;;
  ret ← poll_ready;
  if negb (ret =? 0) then mret ret else openflash_create_io_queue sc.

(** ** Teardown *)

(** The [for] loop over the tags, [n] to go. *)
Fixpoint free_sgls_from (n tag : nat) : drv W () :=
  match n with
  | O => mret ()
  | S n =>
      request ← get_request tag;
      free_coherent SGL_SIZE (r_sgl_dma request) ;;
      free_sgls_from n (S tag)
  end.

Definition openflash_teardown_io_queue : drv W () :=
  d ← get_dev;
  if of_nr_queues d <? 2 then mret () else
  queue ← get_queue 1;
  release (Irq 1) ;;
  free_sgls_from (Z.to_nat (dq_depth queue - 1)) 0 ;;
  free_coherent (dq_depth queue * CQE_SIZE) (dq_cq_dma queue) ;;
  free_coherent (dq_depth queue * CMD_SIZE) (dq_sq_dma queue) ;;
  put_dev (with_nr_queues 1).

(** The loop over the tags, [n] to go. *)
Fixpoint fail_requests (n tag : nat) (status : blk_status_t) : drv W () :=
  match n with
  | O => mret ()
  | S n => finish_request tag status ;; fail_requests n (S tag) status
  end.

(** [synchronize_irq] has nothing to wait for: no handler is half way through. *)
Definition openflash_fail_io_requests (status : blk_status_t) : drv W () :=
  d ← get_dev;
  if of_nr_queues d <? 2 then mret () else
  queue ← get_queue 1;
  fail_requests (Z.to_nat (dq_depth queue - 1)) 0 status.

Definition openflash_teardown_admin_queue : drv W () :=
  d ← get_dev;
  match of_queues d with
  | None => mret ()
  | Some _ =>
      queue ← get_queue 0;
      writel 0 OPENFLASH_REG_CONTROL ;;
      _ ← readl OPENFLASH_REG_STATUS;
      release (Irq 0) ;;
      release Vectors ;;
      free_coherent (dq_depth queue * CQE_SIZE) (dq_cq_dma queue) ;;
      free_coherent (dq_depth queue * CMD_SIZE) (dq_sq_dma queue) ;;
      put_dev (with_nr_queues 0)
  end.
End DriverQueue.
