(* ===== verification/DriverCore.v ===== *)
(** * The driver's block layer side (driver/openflash/openflash_core.c)

    Request submission, the timeout and reset path, registration of the disk,
    probe and remove.  Memory released by the device manager after a failed
    probe or a remove ([devm_*], [pcim_*]) is not tracked. *)
From S2P Require Import Prelude Packed Environment Abi DriverState DriverQueue.

Definition OPENFLASH_VENDOR_ID : Z := 0x1d1d.
Definition OPENFLASH_DEVICE_ID : Z := 0xf15a.

Section DriverCore.
Context {W : Type} `{GM : GuestMemory W, CT : Controller W, KS : KernelServices}.

(** ** Submission *)

(** The [rq_for_each_segment] loop: the number of segments mapped and whether
    all of them were. *)
Fixpoint map_segments (sgl : Z) (dir : dma_data_direction) (bvs : list bio_vec)
    (mapped : nat) : drv W (nat * bool) :=
  match bvs with
  | [] => mret (mapped, true)
  | bv :: bvs =>
      o ← map_bvec bv dir;
      match o with
      | None => mret (mapped, false)
      | Some dma =>
          addr ← slot sgl SGL_DESC_SIZE OPENFLASH_MAX_SGL_ENTRIES (Z.of_nat mapped);
          store addr (encode_sgl {| sgl_addr := dma; sgl_length := bv_len bv;
                                    sgl_reserved := 0 |}) ;;
          map_segments sgl dir bvs (S mapped)
      end
  end.

(** The fields set on every path, after the [memset]. *)
Definition base_command (queue : openflash_queue) (rq : request) (op : Z)
    : openflash_command :=
  {| opcode := op; flags := 0; qid := dq_qid queue;
     cid := u16 (Z.of_nat (rq_tag rq) + 1); reserved0 := 0;
     lba := rq_pos rq / OPENFLASH_SECTORS_PER_BLOCK;
     nblocks := rq_bytes rq / OPENFLASH_BLOCK_SIZE; control := 0; data_addr := 0;
     metadata_addr := 0; user_data := 0; reserved1_0 := 0; reserved1_1 := 0 |}.

(** [cmd->flags |= OPENFLASH_CMD_F_FUA] *)
Definition add_fua (cmd : openflash_command) : openflash_command :=
  {| opcode := opcode cmd; flags := Z.lor (flags cmd) OPENFLASH_CMD_F_FUA;
     qid := qid cmd; cid := cid cmd; reserved0 := reserved0 cmd; lba := lba cmd;
     nblocks := nblocks cmd; control := control cmd; data_addr := data_addr cmd;
     metadata_addr := metadata_addr cmd; user_data := user_data cmd;
     reserved1_0 := reserved1_0 cmd; reserved1_1 := reserved1_1 cmd |}.

(** [cmd->flags = OPENFLASH_CMD_F_SGL] with the entry count and the address *)
Definition set_sgl (mapped : nat) (sgl : Z) (cmd : openflash_command)
    : openflash_command :=
  {| opcode := opcode cmd; flags := OPENFLASH_CMD_F_SGL; qid := qid cmd;
     cid := cid cmd; reserved0 := reserved0 cmd; lba := lba cmd;
     nblocks := nblocks cmd; control := Z.of_nat mapped; data_addr := sgl;
     metadata_addr := metadata_addr cmd; user_data := user_data cmd;
     reserved1_0 := reserved1_0 cmd; reserved1_1 := reserved1_1 cmd |}.

(** The command as it is published. *)
Definition final_command (queue : openflash_queue) (rq : request) (op : Z)
    (mapped : nat) (sgl : Z) : openflash_command :=
  let cmd := base_command queue rq op in
  let cmd := if rq_fua rq then add_fua cmd else cmd in
  if (0 <? mapped)%nat then set_sgl mapped sgl cmd else cmd.

(** From the label [submit]; [dir] is used only for mapped segments. *)
Definition submit (rq : request) (op : Z) (dir : dma_data_direction) (mapped : nat)
    : drv W blk_status_t :=
  d ← get_dev;
  queue ← get_queue 1;
  request ← get_request (rq_tag rq);
  match r_rq request with
  | Some _ => unmap_sgl (r_sgl_dma request) dir mapped ;; mret BLK_STS_RESOURCE
  | None =>
      addr ← slot (dq_sq_dma queue) CMD_SIZE (dq_depth queue) (dq_sq_tail queue);
      store addr (encode_command (base_command queue rq op)) ;;
      if rq_fua rq && negb (has_flag (of_capabilities d) OPENFLASH_CAP_FUA) then
        unmap_sgl (r_sgl_dma request) dir mapped ;; mret BLK_STS_NOTSUPP
      else
        put_request (rq_tag rq) (λ r,
          with_nr_mapped mapped (if (0 <? mapped)%nat then dir else r_dma_dir r) r) ;;
        store addr (encode_command
          (final_command queue rq op mapped (r_sgl_dma request))) ;;
        put_request (rq_tag rq) (with_rq (Some rq)) ;;
        blk_mq_start_request rq ;;
        tail ← lift (c_mod (dq_sq_tail queue + 1) (dq_depth queue));
        put_queue 1 (with_sq_tail (u16 tail)) ;;
        writel (u16 tail) (OPENFLASH_SQ_TAIL_DB (dq_qid queue)) ;;
        mret BLK_STS_OK
  end.

(** The mapping of a read's or a write's segments, then [submit]. *)
Definition submit_data (rq : request) (op : Z) (dir : dma_data_direction)
    : drv W blk_status_t :=
  request ← get_request (rq_tag rq);
  if (rq_bytes rq =? 0) || (OPENFLASH_MAX_SGL_ENTRIES <? rq_nr_phys_segments rq)
  then mret BLK_STS_IOERR
  else
    '(mapped, ok) ← map_segments (r_sgl_dma request) dir (rq_bvecs rq) 0;
    if negb ok then
      unmap_sgl (r_sgl_dma request) dir mapped ;; mret BLK_STS_RESOURCE
    else submit rq op dir mapped.

Definition openflash_queue_rq (rq : request) : drv W blk_status_t :=
  queue ← get_queue 1;
  let cid := u16 (Z.of_nat (rq_tag rq) + 1) in
  if negb (rq_pos rq `mod` OPENFLASH_SECTORS_PER_BLOCK =? 0)
     || negb (rq_bytes rq `mod` OPENFLASH_BLOCK_SIZE =? 0)
     || (dq_depth queue <=? cid)
  then mret BLK_STS_IOERR
  else if rq_fua rq && negb (bool_decide (rq_opf rq = REQ_OP_WRITE))
  then mret BLK_STS_NOTSUPP
  else
    match rq_opf rq with
    | REQ_OP_READ => submit_data rq OPENFLASH_OP_READ DMA_FROM_DEVICE
    | REQ_OP_WRITE => submit_data rq OPENFLASH_OP_WRITE DMA_TO_DEVICE
    | REQ_OP_FLUSH => submit rq OPENFLASH_OP_FLUSH DMA_TO_DEVICE 0
    | REQ_OP_DISCARD => submit rq OPENFLASH_OP_DISCARD DMA_TO_DEVICE 0
    | REQ_OP_OTHER => mret BLK_STS_NOTSUPP
    end.

(** ** Timeout and reset *)

(** [atomic_cmpxchg], then [schedule_work]; the answer is [BLK_EH_DONE]. *)
Definition openflash_timeout (rq : request) : drv W () :=
  d ← get_dev;
  if of_reset_pending d =? 0 then
    put_dev (with_reset_pending 1) ;; put_kern (with_reset_work true)
  else mret ().

(** [n] deliveries of the I/O interrupt. *)
Fixpoint deliver_io_irqs (fuel n : nat) : drv W () :=
  match n with
  | O => mret ()
  | S n => _ ← openflash_io_irq fuel; deliver_io_irqs fuel n
  end.

(** [blk_mq_freeze_queue] returns once no request is in flight; [n] interrupts
    arrive while it waits. *)
Definition blk_mq_freeze_queue (fuel n : nat) : drv W () :=
  deliver_io_irqs fuel n ;;
  k ← get_kern;
  match k_inflight k with [] => mret () | _ => no_fuel end.

Definition openflash_reset_work (fuel n : nat) (sc : schedule) : drv W () :=
  d ← get_dev;
  match of_disk d with
  | None => put_dev (with_reset_pending 0)
  | Some _ =>
      blk_mq_freeze_queue fuel n ;;
      openflash_fail_io_requests BLK_STS_TIMEOUT ;;
      _ ← openflash_reset_controller sc;
      put_dev (with_reset_pending 0)
  end.

(** ** The disk *)

(** The limits and the capacity; device numbers, name and operations table of the
    disk are constants no function reads. *)
Definition disk_of (d : openflash_dev) : gendisk :=
  {| gd_logical_block_size := OPENFLASH_BLOCK_SIZE;
     gd_physical_block_size := OPENFLASH_BLOCK_SIZE;
     gd_max_hw_sectors := u32 ((of_queue_depth d - 1) * OPENFLASH_SECTORS_PER_BLOCK);
     gd_max_segments := OPENFLASH_MAX_SGL_ENTRIES;
     gd_write_cache := has_flag (of_capabilities d) OPENFLASH_CAP_FLUSH;
     gd_fua := has_flag (of_capabilities d) OPENFLASH_CAP_FUA;
     gd_capacity := u64 (of_capacity_blocks d * OPENFLASH_SECTORS_PER_BLOCK) |}.

Definition free_tag_set (ret : Z) : drv W Z := release TagSet ;; mret ret.

Definition openflash_register_block_device : drv W Z :=
  put_dev (λ d, with_tag_set (u32 (of_queue_depth d - 1)) d) ;;
  ret ← ask blk_mq_alloc_tag_set;
  if negb (ret =? 0) then mret ret else
  acquire TagSet ;;
  err ← ask blk_mq_alloc_disk;
  if negb (err =? 0) then put_dev (with_disk None) ;; free_tag_set err else
  acquire Disk ;;
  put_dev (λ d, with_disk (Some (disk_of d)) d) ;;
  ret ← ask device_add_disk;
  if negb (ret =? 0) then
    release Disk ;; put_dev (with_disk None) ;; free_tag_set ret
  else mret 0.

(** [del_gendisk] lets no new request in and, like the freeze, returns once no
    request is in flight; [n] interrupts arrive while it waits.  The writes it
    starts for dirty pages are submissions like any other, before the wait. *)
Definition del_gendisk (fuel n : nat) : drv W () := blk_mq_freeze_queue fuel n.

Definition openflash_unregister_block_device (fuel n : nat) : drv W () :=
  d ← get_dev;
  match of_disk d with
  | None => mret ()
  | Some _ =>
      del_gendisk fuel n ;;
      openflash_fail_io_requests BLK_STS_IOERR ;;
      release Disk ;;
      put_dev (with_disk None) ;;
      release TagSet
  end.

(** ** Probe and remove *)

(** [sc1] and [sc2] are the waits of the identify and create commands. *)
Definition openflash_probe (sc1 sc2 : schedule) : drv W Z :=
  ret ← ask pcim_enable_device;
  if negb (ret =? 0) then mret ret else
  ret ← ask dma_set_mask_and_coherent;
  if negb (ret =? 0) then mret ret else
  ret ← ask pcim_iomap_regions;
  if negb (ret =? 0) then mret ret else
  ok ← ask devm_kcalloc;
  if negb ok then mret (- ENOMEM) else
  capabilities ← readq OPENFLASH_REG_CAPABILITIES;
  put_dev (λ _, with_identity OPENFLASH_DEFAULT_Q_DEPTH capabilities dev_zero) ;;
  version ← readl OPENFLASH_REG_ABI_VERSION;
  if negb (version =? OPENFLASH_ABI_VERSION) then mret (- EPROTO) else
  acquire BusMaster ;;
  ret ← openflash_setup_admin_queue;
  if negb (ret =? 0) then release BusMaster ;; mret ret else
  ret ← openflash_admin_identify sc1;
  if negb (ret =? 0) then
    openflash_teardown_admin_queue ;; release BusMaster ;; mret ret else
  ret ← openflash_setup_io_queue sc2;
  if negb (ret =? 0) then
    openflash_teardown_admin_queue ;; release BusMaster ;; mret ret else
  ret ← openflash_register_block_device;
  if negb (ret =? 0) then
    openflash_teardown_io_queue ;; openflash_teardown_admin_queue ;;
    release BusMaster ;; mret ret
  else mret 0.

(** [cancel_work_sync]: a reset work that is queued is not run.  In sequences of
    calls none is half way through when remove is called; a remove that finds
    one waiting for ever waits with it. *)
Definition cancel_work_sync : drv W () := put_kern (with_reset_work false).

(** On a probed device: its driver data is set.  [n] interrupts arrive while
    [del_gendisk] waits. *)
Definition openflash_remove (fuel n : nat) : drv W () :=
  cancel_work_sync ;;
  openflash_unregister_block_device fuel n ;;
  openflash_teardown_io_queue ;;
  openflash_teardown_admin_queue ;;
  release BusMaster.
End DriverCore.
