(* ===== verification/DriverLogic.v ===== *)
(** * Reasoning about the driver's monad

    [wp m Q h]: run on the host [h], [m] returns, and its result and final
    host satisfy [Q] (total correctness).  One rule per primitive of
    [DriverState], and the rule for the completion loop shared by both
    interrupt handlers, by the number of new entries it finds. *)
From S2P Require Import Prelude Packed Environment Rings Abi DriverState DriverQueue.

Section Wp.
Context {W : Type}.

Definition wp {A} (m : drv W A) (Q : A → host W → Prop) (h : host W) : Prop :=
  ∃ a h', m h = Done (a, h') ∧ Q a h'.

Lemma wp_ret {A} (a : A) Q h : Q a h → wp (mret a) Q h.
Proof. intros HQ. by exists a, h. Qed.

Lemma wp_bind {A B} (m : drv W A) (k : A → drv W B) Q h :
  wp m (λ a h', wp (k a) Q h') h → wp (m ≫= k) Q h.
Proof.
  intros (a & h' & E & b & h'' & E' & HQ). exists b, h''.
  split; [| done]. unfold mbind, drv_bind. by rewrite E.
Qed.

Lemma wp_mono {A} (m : drv W A) (Q Q' : A → host W → Prop) h :
  wp m Q h → (∀ a h', Q a h' → Q' a h') → wp m Q' h.
Proof. intros (a & h' & E & HQ) HQQ. exists a, h'. auto. Qed.

Lemma wp_done {A} (m : drv W A) Q h : wp m Q h → ∀ a h', m h = Done (a, h') → Q a h'.
Proof. intros (a & h' & E & HQ) a' h'' E'. rewrite E in E'. by simplify_eq. Qed.

Lemma wp_lift {A} (o : outcome A) a Q h : o = Done a → Q a h → wp (lift o) Q h.
Proof. intros -> HQ. by exists a, h. Qed.
End Wp.

(** Queue [i] of the host. *)
Definition queue_at {W} (h : host W) (i : nat) : option openflash_queue :=
  of_queues (h_dev h) ≫= lookup i.

Section Rules.
Context {W : Type} `{GM : GuestMemory W, CT : Controller W, KS : KernelServices}.
Implicit Types h : host W.

(** The host after a write to queue [i]. *)
Definition upd_queue (i : nat) (f : openflash_queue → openflash_queue) h : host W :=
  with_ofdev (with_queues (alter f i <$> of_queues (h_dev h)) (h_dev h)) h.

Lemma queue_at_upd i f h : queue_at (upd_queue i f h) i = f <$> queue_at h i.
Proof.
  unfold queue_at. cbn. destruct (of_queues (h_dev h)) as [qs |]; [| done].
  cbn. apply list_lookup_alter_eq.
Qed.

Lemma queue_at_upd_ne i j f h : i ≠ j → queue_at (upd_queue i f h) j = queue_at h j.
Proof.
  intros Hne. unfold queue_at. cbn. destruct (of_queues (h_dev h)) as [qs |]; [| done].
  cbn. by apply list_lookup_alter_ne.
Qed.

Lemma wp_get_dev (Q : openflash_dev → host W → Prop) h : Q (h_dev h) h → wp get_dev Q h.
Proof. intros. by eexists _, _. Qed.

Lemma wp_put_dev f (Q : () → host W → Prop) h :
  Q () (with_ofdev (f (h_dev h)) h) → wp (put_dev f) Q h.
Proof. intros. by eexists _, _. Qed.

Lemma wp_get_kern (Q : kernel → host W → Prop) h : Q (h_kern h) h → wp get_kern Q h.
Proof. intros. by eexists _, _. Qed.

Lemma wp_put_kern f (Q : () → host W → Prop) h :
  Q () (with_kern (f (h_kern h)) h) → wp (put_kern f) Q h.
Proof. intros. by eexists _, _. Qed.

Lemma wp_get_queue i q (Q : openflash_queue → host W → Prop) h :
  queue_at h i = Some q → Q q h → wp (get_queue i) Q h.
Proof.
  unfold queue_at. intros Hq HQ. exists q, h. split; [| done].
  unfold get_queue. by rewrite Hq.
Qed.

Lemma wp_put_queue i f q (Q : () → host W → Prop) h :
  queue_at h i = Some q → Q () (upd_queue i f h) → wp (put_queue i f) Q h.
Proof.
  unfold queue_at. intros Hq HQ. exists (), (upd_queue i f h). split; [| done].
  unfold put_queue. by rewrite Hq.
Qed.

Lemma wp_load a n (Q : list byte → host W → Prop) h :
  Q (dma_read (h_bus h) a n) h → wp (load a n) Q h.
Proof. intros. by eexists _, _. Qed.

Lemma wp_store a bs (Q : () → host W → Prop) h :
  Q () (with_bus (dma_write (h_bus h) a bs) h) → wp (store a bs) Q h.
Proof. intros. by eexists _, _. Qed.

Lemma wp_slot base size n i (Q : Z → host W → Prop) h :
  0 ≤ i < n → Q (base + i * size) h → wp (slot base size n i) Q h.
Proof.
  intros Hi HQ. unfold slot.
  rewrite (proj2 (Z.leb_le 0 i)), (proj2 (Z.ltb_lt i n)) by lia. by apply wp_ret.
Qed.

Lemma wp_writel v addr w (Q : () → host W → Prop) h :
  ctl_write (h_bus h) addr (u32 v) = Done w → Q () (with_bus w h) →
  wp (writel v addr) Q h.
Proof.
  intros E HQ. exists (), (with_bus w h). split; [| done]. unfold writel. by rewrite E.
Qed.

Lemma wp_readl addr v (Q : Z → host W → Prop) h :
  ctl_read (h_bus h) addr = Done v → Q (u32 v) h → wp (readl addr) Q h.
Proof.
  intros E HQ. exists (u32 v), h. split; [| done]. unfold readl. by rewrite E.
Qed.

Lemma wp_ask {A} (f : kernel → A) (Q : A → host W → Prop) h :
  Q (f (h_kern h)) (with_kern (with_call (h_kern h)) h) → wp (ask f) Q h.
Proof. intros. by eexists _, _. Qed.

Lemma wp_unmap addr n dir ms (Q : () → host W → Prop) h :
  remove_one (addr, n, dir) (k_mapped (h_kern h)) = Some ms →
  Q () (with_kern (with_mapped ms (h_kern h)) h) → wp (dma_unmap_page addr n dir) Q h.
Proof.
  intros E HQ. eexists (), _. split; [| done]. unfold dma_unmap_page. by rewrite E.
Qed.

Lemma wp_end_request rq st live (Q : () → host W → Prop) h :
  remove_one rq (k_inflight (h_kern h)) = Some live →
  Q () (with_kern (with_requests_state live (k_ended (h_kern h) ++ [(rq, st)])
          (h_kern h)) h) →
  wp (blk_mq_end_request rq st) Q h.
Proof.
  intros E HQ. eexists (), _. split; [| done]. unfold blk_mq_end_request. by rewrite E.
Qed.

(** ** Equations of the primitives *)
Lemma bind_done {A B} (m : drv W A) (k : A → drv W B) h a h' :
  m h = Done (a, h') → (m ≫= k) h = k a h'.
Proof. intros E. unfold mbind, drv_bind. by rewrite E. Qed.

Lemma get_queue_done h i q : queue_at h i = Some q → get_queue i h = Done (q, h).
Proof. unfold queue_at, get_queue. by intros ->. Qed.

Lemma put_queue_done h i q f :
  queue_at h i = Some q → put_queue i f h = Done ((), upd_queue i f h).
Proof. unfold queue_at, put_queue. by intros ->. Qed.

Lemma slot_done h base size n i :
  0 ≤ i < n → slot base size n i h = Done (base + i * size, h).
Proof.
  intros Hi. unfold slot.
  by rewrite (proj2 (Z.leb_le 0 i)), (proj2 (Z.ltb_lt i n)) by lia.
Qed.

Lemma release_done r rs h :
  k_held (h_kern h) ≡ₚ r :: rs →
  ∃ rs', rs' ≡ₚ rs ∧ release r h = Done ((), with_kern (with_held rs' (h_kern h)) h).
Proof.
  intros Hh. destruct (remove_one_elem r (k_held (h_kern h))) as [rs' E].
  { rewrite Hh. apply list_elem_of_here. }
  exists rs'. unfold release. rewrite E. split; [| done].
  apply remove_one_perm in E. rewrite E in Hh. by apply Permutation_cons_inv in Hh.
Qed.
End Rules.

(** ** The completion loop *)
Section Completions.
Context {W : Type} `{GM : GuestMemory W, CT : Controller W, KS : KernelServices}.
Implicit Types h : host W.
Implicit Types q : openflash_queue.

(** Everything of a queue that completions do not touch. *)
Definition geometry q : Z * Z * Z * Z * Z * Z :=
  (dq_sq_dma q, dq_cq_dma q, dq_qid q, dq_depth q, dq_sq_tail q, dq_next_cid q).

(** What of a queue does not change while it is used: the addresses and sizes it
    will be freed with. *)
Definition shape q : Z * Z * Z * list Z :=
  (dq_sq_dma q, dq_cq_dma q, dq_depth q, r_sgl_dma <$> dq_requests q).

(** The driver has consumed [k] completions of the ring since it was created. *)
Definition consumed q (k : Z) : Prop :=
  dq_cq_head q = k `mod` dq_depth q ∧ dq_cq_phase q = phase_of (dq_depth q) k.

(** Entry number [j] of the ring, as it is in memory, and whether the phase tag
    says that the controller has posted it. *)
Definition cq_entry (w : W) q (j : Z) : openflash_completion :=
  decode_completion
    (dma_read w (dq_cq_dma q + j `mod` dq_depth q * CQE_SIZE) CQE_SIZE).
Definition is_new (w : W) q (j : Z) : Prop :=
  Z.land (cqe_flags (cq_entry w q j)) OPENFLASH_CQE_PHASE = phase_of (dq_depth q) j.

#[export] Instance is_new_dec w q j : Decision (is_new w q j).
Proof. unfold is_new. apply _. Defined.

Lemma geometry_inj q q' :
  geometry q = geometry q' →
  dq_sq_dma q = dq_sq_dma q' ∧ dq_cq_dma q = dq_cq_dma q' ∧ dq_qid q = dq_qid q' ∧
  dq_depth q = dq_depth q' ∧ dq_sq_tail q = dq_sq_tail q'.
Proof. unfold geometry. intros. by simplify_eq. Qed.

Lemma cq_entry_geometry w q q' j :
  geometry q = geometry q' → cq_entry w q j = cq_entry w q' j.
Proof. intros (? & Hc & ? & Hd & ?)%geometry_inj. unfold cq_entry. by rewrite Hc, Hd. Qed.

Lemma is_new_geometry w q q' j : geometry q = geometry q' → is_new w q j ↔ is_new w q' j.
Proof.
  intros Hg. unfold is_new. rewrite (cq_entry_geometry w q q') by done.
  apply geometry_inj in Hg as (_ & _ & _ & -> & _). done.
Qed.

(** A ring never looks full of new entries: the slot the walk started from does
    not look new when it comes round, whatever is in memory. *)
Lemma new_entries w q k :
  0 < dq_depth q →
  ∃ n, Z.of_nat n ≤ dq_depth q ∧
    (∀ m, (m < n)%nat → is_new w q (k + Z.of_nat m)) ∧ ¬ is_new w q (k + Z.of_nat n).
Proof.
  intros Hd.
  assert (¬ (is_new w q k ∧ is_new w q (k + dq_depth q))) as Hwrap.
  { unfold is_new, cq_entry. rewrite phase_of_pass by done.
    replace ((k + dq_depth q) `mod` dq_depth q) with (k `mod` dq_depth q)
      by (rewrite <- (Z_mod_plus_full k 1); f_equal; lia).
    intros [-> E]. pose proof (phase_of_bit (dq_depth q) k). lia. }
  destruct (decide (Forall (λ m, is_new w q (k + Z.of_nat m))
    (seq 0 (Z.to_nat (dq_depth q))))) as [Hall | Hex].
  - exists (Z.to_nat (dq_depth q)). rewrite Forall_seq in Hall.
    split; [lia |]. split; [intros; apply Hall; lia |].
    rewrite Z2Nat.id by lia. intros Hnew. apply Hwrap. split; [| done].
    rewrite <- (Z.add_0_r k). apply (Hall 0%nat). lia.
  - apply not_Forall_Exists in Hex; [| apply _].
    assert (∃ m, (m < Z.to_nat (dq_depth q))%nat ∧ ¬ is_new w q (k + Z.of_nat m)) as Hm.
    { apply Exists_exists in Hex as (m & Hm & ?). exists m.
      apply elem_of_seq in Hm. split; [lia | done]. }
    clear Hex. destruct Hm as (m & Hlt & Hm).
    induction m as [m IH] using lt_wf_ind.
    destruct (decide (Exists (λ j, ¬ is_new w q (k + Z.of_nat j)) (seq 0 m))) as [Hex | Hno].
    + apply Exists_exists in Hex as (j & Hj & Hnj). apply elem_of_seq in Hj.
      apply (IH j); [lia | lia | done].
    + apply not_Exists_Forall in Hno; [| apply _]. rewrite Forall_seq in Hno.
      exists m. split; [lia |]. split; [| done].
      intros j Hj. apply dec_stable, Hno. lia.
Qed.

Lemma wp_read_cqe q k (Q : openflash_completion → host W → Prop) h :
  0 < dq_depth q → consumed q k → Q (cq_entry (h_bus h) q k) h → wp (read_cqe q) Q h.
Proof.
  intros Hd [Hh _] HQ. unfold read_cqe. apply wp_bind, wp_slot.
  { rewrite Hh. by apply Z.mod_pos_bound. }
  apply wp_bind, wp_load, wp_ret. by rewrite Hh.
Qed.

Lemma wp_advance_cq i q k (Q : () → host W → Prop) h :
  queue_at h i = Some q → 0 < dq_depth q < 2 ^ 16 → consumed q k →
  Q () (upd_queue i (with_cq_head ((k + 1) `mod` dq_depth q)
          (phase_of (dq_depth q) (k + 1))) h) →
  wp (advance_cq i) Q h.
Proof.
  intros Hq Hd [Hh Hp] HQ. destruct (ring_step (dq_depth q) k) as [H1 H2]; [lia |].
  unfold advance_cq. apply wp_bind. eapply wp_get_queue; [done |].
  apply wp_bind. eapply wp_lift; [apply c_mod_pos; lia |].
  pose proof (Z.mod_pos_bound (k + 1) (dq_depth q)).
  rewrite Hh, Hp, H1, u16_small by lia.
  change OPENFLASH_CQE_PHASE with 1. rewrite H2. by eapply wp_put_queue.
Qed.

(** A walk that finds nothing new. *)
Lemma cq_loop_idle fuel i handle q k c h :
  queue_at h i = Some q → 0 < dq_depth q → consumed q k → ¬ is_new (h_bus h) q k →
  cq_loop fuel i handle c h = Done (c, h).
Proof.
  intros Hq Hd Hk Hnew.
  assert (wp (cq_loop fuel i handle c) (λ c' h', c' = c ∧ h' = h) h)
    as (c' & h' & E & -> & ->); [| done].
  destruct fuel; cbn [cq_loop]; apply wp_bind; (eapply wp_get_queue; [done |]);
    apply wp_bind; (eapply wp_read_cqe; [done | done |]);
    destruct Hk as [_ Hp]; unfold is_new in Hnew;
    rewrite Hp, (proj2 (Z.eqb_neq _ _) Hnew); by apply wp_ret.
Qed.

(** The walk over [n] new entries: [P m] holds after [m] of them. *)
Lemma wp_cq_loop fuel i handle (P : nat → host W → Prop) n q k c h :
  queue_at h i = Some q → 0 < dq_depth q < 2 ^ 16 → consumed q k →
  (∀ m, (m < n)%nat → is_new (h_bus h) q (k + Z.of_nat m)) →
  ¬ is_new (h_bus h) q (k + Z.of_nat n) → (n ≤ fuel)%nat → P 0%nat h →
  (∀ m h1 q1, (m < n)%nat → P m h1 → h_bus h1 = h_bus h → queue_at h1 i = Some q1 →
     geometry q1 = geometry q →
     wp (handle (cq_entry (h_bus h) q (k + Z.of_nat m))) (λ _ h2,
       P (S m) h2 ∧ h_bus h2 = h_bus h1 ∧
       ∃ q2, queue_at h2 i = Some q2 ∧ geometry q2 = geometry q1 ∧
         dq_cq_head q2 = dq_cq_head q1 ∧ dq_cq_phase q2 = dq_cq_phase q1) h1) →
  (∀ m h1 hd ph, P m h1 → P m (upd_queue i (with_cq_head hd ph) h1)) →
  wp (cq_loop fuel i handle c) (λ c' h', c' = c + Z.of_nat n ∧ P n h' ∧
    h_bus h' = h_bus h ∧ ∃ q', queue_at h' i = Some q' ∧ geometry q' = geometry q ∧
      consumed q' (k + Z.of_nat n)) h.
Proof.
  revert fuel P q k c h. induction n as [| n IH];
    intros fuel P q k c h Hq Hd Hk Hnew Hold Hf HP Hstep Hcur.
  all: destruct fuel as [| fuel]; [try lia |]; cbn [cq_loop].
  all: apply wp_bind; eapply wp_get_queue; [done |];
    apply wp_bind; eapply wp_read_cqe; [lia | done |].
  1, 2: rewrite Z.add_0_r in Hold; unfold is_new in Hold; destruct Hk as [Hkh Hkp];
    rewrite Hkp, (proj2 (Z.eqb_neq _ _) Hold); cbn [negb];
    apply wp_ret; rewrite !Z.add_0_r; do 3 (split; [done |]); by exists q.
  pose proof (Hnew 0%nat ltac:(lia)) as Hn0. rewrite Z.add_0_r in Hn0.
  destruct Hk as [Hkh Hkp]. rewrite Hkp. unfold is_new in Hn0.
  rewrite (proj2 (Z.eqb_eq _ _) Hn0). cbn [negb]. apply wp_bind.
  pose proof (Hstep 0%nat h q ltac:(lia) HP eq_refl Hq eq_refl) as Hs.
  rewrite Z.add_0_r in Hs. eapply wp_mono; [exact Hs |].
  intros [] h2 (HP2 & Hb2 & q2 & Hq2 & Hg2 & Hh2 & Hp2). apply wp_bind.
  assert (dq_depth q2 = dq_depth q) as Hd2 by apply (geometry_inj _ _ Hg2).
  eapply (wp_advance_cq i q2 k); [done | lia | split; congruence |].
  rewrite Hd2. set (f := with_cq_head _ _).
  eapply wp_mono; [apply (IH fuel (λ m, P (S m)) (f q2) (k + 1)) |].
  - by rewrite queue_at_upd, Hq2.
  - cbn. lia.
  - split; cbn; by rewrite Hd2.
  - intros m Hm. cbn [upd_queue with_ofdev h_bus]. rewrite Hb2.
    rewrite (is_new_geometry _ (f q2) q) by exact Hg2.
    replace (k + 1 + Z.of_nat m) with (k + Z.of_nat (S m)) by lia. apply Hnew. lia.
  - cbn [upd_queue with_ofdev h_bus]. rewrite Hb2. rewrite (is_new_geometry _ (f q2) q) by exact Hg2.
    by replace (k + 1 + Z.of_nat n) with (k + Z.of_nat (S n)) by lia.
  - lia.
  - by apply Hcur.
  - intros m h1 q1 Hm HP1 Hb1 Hq1 Hg1. cbn [upd_queue with_ofdev h_bus] in *.
    rewrite Hb2 in Hb1 |- *. rewrite (cq_entry_geometry _ (f q2) q) by exact Hg2.
    replace (k + 1 + Z.of_nat m) with (k + Z.of_nat (S m)) by lia.
    apply (Hstep (S m) h1 q1); [lia | done | done | done |]. by etrans.
  - intros. by apply Hcur.
  - intros c' h' (-> & HP' & Hb' & q' & Hq' & Hg' & Hk').
    cbn [upd_queue with_ofdev h_bus] in Hb'. split; [lia |]. split; [done |].
    split; [congruence |]. exists q'. split; [done |]. split; [by etrans |].
    by replace (k + Z.of_nat (S n)) with (k + 1 + Z.of_nat n) by lia.
Qed.
End Completions.
