(* ===== verification/DriverFrame.v ===== *)
(** * What the driver's functions leave alone

    [preserves f m]: whenever [m] returns, from whatever state and with whatever
    controller, [f] of the host is as before.  The I/O path (submission,
    interrupts, timeout and recovery) neither takes nor releases a resource and
    moves no ring; teardown leaves requests and mappings alone.  [bounded m]:
    [m] does not run out of fuel. *)
From S2P Require Import Prelude Packed Environment Rings Abi DriverState DriverQueue.
From S2P Require Import DriverCore DriverLogic.

Create HintDb frame.

(** A controller whose control and status registers answer. *)
Class ResponsiveController (W : Type) `{Controller W} := {
  disable_returns w : ctl_write w OPENFLASH_REG_CONTROL (u32 0) ≠ NoFuel;
  status_returns w : ctl_read w OPENFLASH_REG_STATUS ≠ NoFuel;
}.

Section Frame.
Context {W : Type} `{GM : GuestMemory W, CT : Controller W, KS : KernelServices}.
Implicit Types h : host W.

Definition preserves {A B} (f : host W → B) (m : drv W A) : Prop :=
  ∀ h a h', m h = Done (a, h') → f h' = f h.

(** ** Composition *)
Section Preserves.
Context {B : Type} (f : host W → B).

Lemma preserves_bind {A C} (m : drv W A) (k : A → drv W C) :
  preserves f m → (∀ a, preserves f (k a)) → preserves f (m ≫= k).
Proof.
  intros Hm Hk h c h'. unfold mbind, drv_bind. destruct (m h) as [[a h1] | |] eqn:E; try done.
  intros E'. rewrite (Hk _ _ _ _ E'). exact (Hm _ _ _ E).
Qed.

Lemma preserves_here {A} (m : drv W A) :
  (∀ h, match m h with Done (_, h') => h' = h | _ => True end) → preserves f m.
Proof. intros Hm h a h' E. specialize (Hm h). rewrite E in Hm. by rewrite Hm. Qed.

Lemma preserves_ret {A} (a : A) : preserves f (mret a).
Proof. by apply preserves_here. Qed.
Lemma preserves_undef {A} : preserves f (undef (A := A)).
Proof. by apply preserves_here. Qed.
Lemma preserves_no_fuel {A} : preserves f (no_fuel (A := A)).
Proof. by apply preserves_here. Qed.
Lemma preserves_lift {A} (o : outcome A) : preserves f (lift o).
Proof. apply preserves_here. intros h. unfold lift. by destruct o. Qed.
Lemma preserves_get_dev : preserves f get_dev.
Proof. by apply preserves_here. Qed.
Lemma preserves_get_kern : preserves f get_kern.
Proof. by apply preserves_here. Qed.
Lemma preserves_get_queue i : preserves f (get_queue i).
Proof. apply preserves_here. intros h. unfold get_queue. by destruct (of_queues _ ≫= _). Qed.
Lemma preserves_readl addr : preserves f (readl addr).
Proof. apply preserves_here. intros h. unfold readl. by destruct (ctl_read _ _). Qed.
Lemma preserves_load addr n : preserves f (load addr n).
Proof. by apply preserves_here. Qed.
Lemma preserves_slot base size n i : preserves f (slot base size n i).
Proof. unfold slot. case_match; [apply preserves_ret | apply preserves_undef]. Qed.
End Preserves.

(** ** Resources *)

(** Everything teardown looks at: what is held, the shape of the queues, the
    settings that select what is torn down. *)
Definition footprint h :=
  (k_held (h_kern h), fmap (M := option) (fmap (M := list) shape) (of_queues (h_dev h)),
   (of_nr_queues (h_dev h), of_queue_depth (h_dev h), of_disk (h_dev h))).

(** A write to a queue that keeps its shape. *)
Lemma footprint_upd i g h :
  (∀ q, queue_at h i = Some q → shape (g q) = shape q) →
  footprint (upd_queue i g h) = footprint h.
Proof.
  intros Hg. unfold footprint. cbn. f_equal. f_equal.
  unfold queue_at in Hg. destruct (of_queues (h_dev h)) as [qs |]; [| done].
  cbn in *. f_equal. apply list_eq. intros j. rewrite !list_lookup_fmap.
  destruct (decide (j = i)) as [-> | Hne]; [| by rewrite list_lookup_alter_ne].
  rewrite list_lookup_alter_eq. destruct (qs !! i) eqn:E; cbn; [by rewrite Hg | done].
Qed.

Lemma footprint_writel v addr : preserves footprint (writel v addr).
Proof.
  intros h a h'. unfold writel. destruct (ctl_write _ _ _); cbn; [| done..].
  intros [= _ <-]. done.
Qed.
Lemma footprint_store addr bs : preserves footprint (store addr bs).
Proof. by intros h a h' [= _ <-]. Qed.
Lemma footprint_ask {A} (g : kernel → A) : preserves footprint (ask g).
Proof. by intros h a h' [= _ <-]. Qed.
Lemma footprint_put_kern g :
  (∀ k, k_held (g k) = k_held k) → preserves footprint (put_kern g).
Proof. intros Hg h a h' [= _ <-]. unfold footprint. cbn. by rewrite Hg. Qed.
Lemma footprint_reset_pending n : preserves footprint (put_dev (with_reset_pending n)).
Proof. by intros h a h' [= _ <-]. Qed.
Lemma footprint_unmap_page addr n dir : preserves footprint (dma_unmap_page addr n dir).
Proof. intros h a h'. unfold dma_unmap_page. case_match; [| done]. by intros [= _ <-]. Qed.
Lemma footprint_end_request rq st : preserves footprint (blk_mq_end_request rq st).
Proof. intros h a h'. unfold blk_mq_end_request. case_match; [| done]. by intros [= _ <-]. Qed.
Lemma footprint_put_queue i g :
  (∀ q, shape (g q) = shape q) → preserves footprint (put_queue i g).
Proof.
  intros Hg h a h'. unfold put_queue. case_match; [| done]. intros [= _ <-].
  by apply footprint_upd.
Qed.
Lemma footprint_put_request i g :
  (∀ r, r_sgl_dma (g r) = r_sgl_dma r) → preserves footprint (put_request i g).
Proof.
  intros Hg h a h'. unfold put_request, mbind, drv_bind, get_queue, put_queue.
  destruct (of_queues (h_dev h) ≫= lookup 1%nat) as [q |] eqn:Eq; [| done].
  destruct (dq_requests q !! i) as [r |] eqn:Er; [| done]. rewrite Eq. intros [= _ <-].
  apply footprint_upd. intros q' Hq'. unfold queue_at in Hq'. rewrite Eq in Hq'.
  injection Hq' as <-. unfold shape. cbn. f_equal. apply list_eq. intros j.
  rewrite !list_lookup_fmap. destruct (decide (j = i)) as [-> | Hne].
  - rewrite list_lookup_alter_eq, Er. cbn. by rewrite Hg.
  - by rewrite list_lookup_alter_ne.
Qed.
End Frame.

#[export] Hint Resolve preserves_ret preserves_undef preserves_no_fuel preserves_lift
  preserves_get_dev preserves_get_kern preserves_get_queue preserves_readl preserves_load
  preserves_slot : frame.
#[export] Hint Resolve footprint_writel footprint_store footprint_ask footprint_put_kern
  footprint_reset_pending footprint_unmap_page footprint_end_request footprint_put_queue
  footprint_put_request : frame.

(** Follows the structure of the code down to functions the hints know. *)
Ltac framed :=
  repeat match goal with
  | |- _ => solve [eauto with frame]
  | |- preserves _ (_ ≫= _) => apply preserves_bind; [| intros]
  | |- preserves _ (match _ with _ => _ end) => case_match
  end.

Section Resources.
Context {W : Type} `{GM : GuestMemory W, CT : Controller W, KS : KernelServices}.
Abbreviation neutral m := (preserves (W := W) footprint m).

Lemma neutral_get_request i : neutral (get_request i).
Proof. unfold get_request. framed. Qed.
Lemma neutral_read_cqe q : neutral (read_cqe q).
Proof. unfold read_cqe. framed. Qed.
Lemma neutral_advance_cq i : neutral (advance_cq i).
Proof. unfold advance_cq. framed. Qed.
#[local] Hint Resolve neutral_get_request neutral_read_cqe neutral_advance_cq : frame.

Lemma neutral_cq_loop fuel i handle c :
  (∀ e, neutral (handle e)) → neutral (cq_loop fuel i handle c).
Proof. intros Hh. revert c. induction fuel; intros c; cbn [cq_loop]; framed. Qed.

Lemma neutral_unmap_sgl sgl dir n : neutral (unmap_sgl sgl dir n).
Proof. induction n; cbn [unmap_sgl]; unfold read_sgl; framed. Qed.
#[local] Hint Resolve neutral_cq_loop neutral_unmap_sgl : frame.

Lemma neutral_finish_request i st : neutral (finish_request i st).
Proof. unfold finish_request. framed. Qed.
#[local] Hint Resolve neutral_finish_request : frame.

Lemma neutral_io_entry e : neutral (io_entry e).
Proof. unfold io_entry. framed. Qed.
#[local] Hint Resolve neutral_io_entry : frame.

Lemma neutral_io_irq fuel : neutral (openflash_io_irq fuel).
Proof. unfold openflash_io_irq. framed. Qed.

Lemma neutral_admin_entry e : neutral (admin_entry e).
Proof. unfold admin_entry. framed. Qed.
#[local] Hint Resolve neutral_io_irq neutral_admin_entry : frame.

Lemma neutral_irq fuel : neutral (openflash_irq fuel).
Proof. unfold openflash_irq, openflash_drain_admin_cq. framed. Qed.
#[local] Hint Resolve neutral_irq : frame.

Lemma neutral_deliver_irqs fuel n : neutral (deliver_irqs fuel n).
Proof. induction n; cbn [deliver_irqs]; framed. Qed.
Lemma neutral_deliver_io_irqs fuel n : neutral (deliver_io_irqs fuel n).
Proof. induction n; cbn [deliver_io_irqs]; framed. Qed.
Lemma neutral_fail_requests n tag st : neutral (fail_requests n tag st).
Proof. revert tag. induction n; intros tag; cbn [fail_requests]; framed. Qed.
#[local] Hint Resolve neutral_deliver_irqs neutral_deliver_io_irqs neutral_fail_requests : frame.

Lemma neutral_admin_command sc cmd : neutral (openflash_admin_command sc cmd).
Proof. unfold openflash_admin_command, admin_submit. framed. Qed.
Lemma neutral_fail_io_requests st : neutral (openflash_fail_io_requests st).
Proof. unfold openflash_fail_io_requests. framed. Qed.
#[local] Hint Resolve neutral_admin_command neutral_fail_io_requests : frame.

Lemma neutral_reset_controller sc : neutral (openflash_reset_controller sc).
Proof.
  unfold openflash_reset_controller, clear_rings, write_admin_registers, poll_ready,
    openflash_create_io_queue. framed.
Qed.
#[local] Hint Resolve neutral_reset_controller : frame.

Lemma neutral_reset_work fuel n sc : neutral (openflash_reset_work fuel n sc).
Proof. unfold openflash_reset_work, blk_mq_freeze_queue. framed. Qed.

Lemma neutral_timeout rq : neutral (openflash_timeout rq).
Proof. unfold openflash_timeout. framed. Qed.

Lemma neutral_map_segments sgl dir bvs n : neutral (map_segments sgl dir bvs n).
Proof. revert n. induction bvs; intros n; cbn [map_segments]; unfold map_bvec; framed. Qed.
Lemma neutral_submit rq op dir n : neutral (submit rq op dir n).
Proof. unfold submit, blk_mq_start_request. framed. Qed.
#[local] Hint Resolve neutral_map_segments neutral_submit : frame.

(** Submission neither takes nor releases a resource and moves no ring. *)
Lemma neutral_queue_rq rq : neutral (openflash_queue_rq rq).
Proof. unfold openflash_queue_rq, submit_data. framed. Qed.
End Resources.

(** ** Requests and mappings *)
Section Teardown.
Context {W : Type} `{GM : GuestMemory W, CT : Controller W, KS : KernelServices}.
Implicit Types h : host W.

Definition io_state h :=
  (k_inflight (h_kern h), k_ended (h_kern h), k_mapped (h_kern h)).

Lemma io_state_release r : preserves io_state (release r).
Proof. intros h a h'. unfold release. case_match; [| done]. by intros [= _ <-]. Qed.
Lemma io_state_put_dev g : preserves io_state (put_dev g).
Proof. by intros h a h' [= _ <-]. Qed.
Lemma io_state_writel v addr : preserves io_state (writel v addr).
Proof.
  intros h a h'. unfold writel. destruct (ctl_write _ _ _); cbn; [| done..].
  intros [= _ <-]. done.
Qed.
#[local] Hint Resolve io_state_release io_state_put_dev io_state_writel : frame.

Lemma io_state_free_sgls n tag : preserves io_state (free_sgls_from n tag).
Proof.
  revert tag. induction n; intros tag; cbn [free_sgls_from];
    unfold get_request, free_coherent; framed.
Qed.
#[local] Hint Resolve io_state_free_sgls : frame.

Lemma io_state_store addr bs : preserves io_state (store addr bs).
Proof. by intros h a h' [= _ <-]. Qed.
Lemma io_state_ask {A} (g : kernel → A) : preserves io_state (ask g).
Proof. by intros h a h' [= _ <-]. Qed.
Lemma io_state_acquire r : preserves io_state (acquire r).
Proof. by intros h a h' [= _ <-]. Qed.
Lemma io_state_put_queue i g : preserves io_state (put_queue i g).
Proof.
  intros h a h'. unfold put_queue. destruct (of_queues _ ≫= _); [| done]. by intros [= _ <-].
Qed.
Lemma io_state_readq addr : preserves io_state (readq addr).
Proof. apply preserves_here. intros h. unfold readq. by destruct (ctl_read _ _). Qed.
#[local] Hint Resolve io_state_store io_state_ask io_state_acquire io_state_put_queue
  io_state_readq : frame.

Lemma io_state_teardown_io : preserves io_state openflash_teardown_io_queue.
Proof. unfold openflash_teardown_io_queue, free_coherent. framed. Qed.
Lemma io_state_teardown_admin : preserves io_state openflash_teardown_admin_queue.
Proof. unfold openflash_teardown_admin_queue, free_coherent. framed. Qed.

Lemma io_state_cq_loop fuel c : preserves io_state (cq_loop fuel 0 admin_entry c).
Proof.
  revert c. induction fuel; intros c; cbn [cq_loop];
    unfold read_cqe, advance_cq, admin_entry; framed.
Qed.
#[local] Hint Resolve io_state_cq_loop : frame.

Lemma io_state_deliver_irqs fuel n : preserves io_state (deliver_irqs fuel n).
Proof.
  induction n; cbn [deliver_irqs]; unfold openflash_irq, openflash_drain_admin_cq; framed.
Qed.
#[local] Hint Resolve io_state_deliver_irqs : frame.

Lemma io_state_admin_command sc cmd : preserves io_state (openflash_admin_command sc cmd).
Proof. unfold openflash_admin_command, admin_submit. framed. Qed.
Lemma io_state_alloc size : preserves io_state (alloc_coherent size).
Proof. unfold alloc_coherent. framed. Qed.
#[local] Hint Resolve io_state_admin_command io_state_alloc : frame.

Lemma io_state_alloc_sgls n tag : preserves io_state (alloc_sgls n tag).
Proof. revert tag. induction n; intros tag; cbn [alloc_sgls]; unfold put_request; framed. Qed.
Lemma io_state_free_sgls_down n : preserves io_state (free_sgls n).
Proof. induction n; cbn [free_sgls]; unfold get_request, free_coherent; framed. Qed.
#[local] Hint Resolve io_state_alloc_sgls io_state_free_sgls_down : frame.

Lemma io_state_setup_admin : preserves io_state openflash_setup_admin_queue.
Proof.
  unfold openflash_setup_admin_queue, admin_start, write_admin_registers, poll_ready,
    admin_disable, admin_free_vectors, admin_free_cq, admin_free_sq, free_coherent. framed.
Qed.
Lemma io_state_setup_io sc : preserves io_state (openflash_setup_io_queue sc).
Proof.
  unfold openflash_setup_io_queue, io_requests, io_start, openflash_create_io_queue,
    io_free_irq, io_free_sgl, io_free_cq, io_free_sq, free_coherent. framed.
Qed.
Lemma io_state_register : preserves io_state openflash_register_block_device.
Proof. unfold openflash_register_block_device, free_tag_set. framed. Qed.
#[local] Hint Resolve io_state_teardown_io io_state_teardown_admin io_state_setup_admin
  io_state_setup_io io_state_register : frame.

(** Probing ends no request and maps no page. *)
Lemma io_state_probe sc1 sc2 : preserves io_state (openflash_probe sc1 sc2).
Proof. unfold openflash_probe, openflash_admin_identify. framed. Qed.

(** ** The controller during a remove *)

(** Remove from the end of [del_gendisk] on. *)
Definition remove_rest : drv W () :=
  (openflash_fail_io_requests BLK_STS_IOERR ;; release Disk ;;
   put_dev (with_disk None) ;; release TagSet) ;;
  openflash_teardown_io_queue ;;
  openflash_teardown_admin_queue ;;
  release BusMaster.

Definition cancelled h : host W := with_kern (with_reset_work false (h_kern h)) h.

(** Interrupts arrive, then remove waits for ever or goes on. *)
Lemma remove_eq fuel n h h1 :
  is_Some (of_disk (h_dev h)) → deliver_io_irqs fuel n (cancelled h) = Done ((), h1) →
  openflash_remove fuel n h =
    match k_inflight (h_kern h1) with [] => remove_rest h1 | _ => NoFuel end.
Proof.
  intros [g Hg] E. unfold openflash_remove, openflash_unregister_block_device, remove_rest,
    del_gendisk, blk_mq_freeze_queue, cancel_work_sync, mbind, drv_bind, put_kern, get_dev.
  fold (cancelled h). cbn [h_dev cancelled with_kern]. rewrite Hg. cbn [cancelled].
  fold (cancelled h). rewrite E. cbn. by destruct (k_inflight (h_kern h1)).
Qed.

(** Whatever of the controller the disable bit leaves alone. *)
Section Bus.
Context {B : Type} (g : W → B).
Abbreviation on_bus := (λ h, g (h_bus h)).

Lemma on_bus_release r : preserves on_bus (release r).
Proof. intros h a h'. unfold release. case_match; [| done]. by intros [= _ <-]. Qed.
Lemma on_bus_put_dev f : preserves on_bus (put_dev f).
Proof. by intros h a h' [= _ <-]. Qed.
Lemma on_bus_put_kern f : preserves on_bus (put_kern f).
Proof. by intros h a h' [= _ <-]. Qed.
Lemma on_bus_put_queue i f : preserves on_bus (put_queue i f).
Proof.
  intros h a h'. unfold put_queue. destruct (of_queues _ ≫= _); [| done]. by intros [= _ <-].
Qed.
Lemma on_bus_unmap_page addr n dir : preserves on_bus (dma_unmap_page addr n dir).
Proof. intros h a h'. unfold dma_unmap_page. case_match; [| done]. by intros [= _ <-]. Qed.
Lemma on_bus_end_request rq st : preserves on_bus (blk_mq_end_request rq st).
Proof. intros h a h'. unfold blk_mq_end_request. case_match; [| done]. by intros [= _ <-]. Qed.
#[local] Hint Resolve on_bus_release on_bus_put_dev on_bus_put_kern on_bus_put_queue
  on_bus_unmap_page on_bus_end_request : frame.

Lemma on_bus_unmap_sgl sgl dir n : preserves on_bus (unmap_sgl sgl dir n).
Proof. induction n; cbn [unmap_sgl]; unfold read_sgl; framed. Qed.
#[local] Hint Resolve on_bus_unmap_sgl : frame.

Lemma on_bus_fail_requests n tag st : preserves on_bus (fail_requests n tag st).
Proof.
  revert tag. induction n; intros tag; cbn [fail_requests];
    unfold finish_request, get_request, put_request; framed.
Qed.
Lemma on_bus_free_sgls n tag : preserves on_bus (free_sgls_from n tag).
Proof.
  revert tag. induction n; intros tag; cbn [free_sgls_from];
    unfold get_request, free_coherent; framed.
Qed.
#[local] Hint Resolve on_bus_fail_requests on_bus_free_sgls : frame.

Hypothesis disable_keeps : ∀ w w',
  ctl_write w OPENFLASH_REG_CONTROL (u32 0) = Done w' → g w' = g w.

Lemma on_bus_disable : preserves on_bus (writel 0 OPENFLASH_REG_CONTROL).
Proof.
  intros h a h'. unfold writel. destruct (ctl_write _ _ _) as [w | |] eqn:E; cbn; [| done..].
  intros [= _ <-]. by apply disable_keeps.
Qed.
#[local] Hint Resolve on_bus_disable : frame.

Lemma on_bus_remove : preserves on_bus remove_rest.
Proof.
  unfold remove_rest, openflash_fail_io_requests, openflash_teardown_io_queue, openflash_teardown_admin_queue, free_coherent. framed.
Qed.
End Bus.

(** ** After the wait remove returns *)
Definition bounded {A} (m : drv W A) : Prop := ∀ h, m h ≠ NoFuel.

Lemma bounded_bind {A B} (m : drv W A) (k : A → drv W B) :
  bounded m → (∀ a, bounded (k a)) → bounded (m ≫= k).
Proof.
  intros Hm Hk h. unfold mbind, drv_bind. specialize (Hm h).
  destruct (m h) as [[a h1] | |]; [apply Hk | done..].
Qed.
Lemma bounded_ret {A} (a : A) : bounded (mret a).
Proof. done. Qed.
Lemma bounded_undef {A} : bounded (undef (A := A)).
Proof. done. Qed.
Lemma bounded_get_dev : bounded get_dev.
Proof. done. Qed.
Lemma bounded_put_dev f : bounded (put_dev f).
Proof. done. Qed.
Lemma bounded_put_kern f : bounded (put_kern f).
Proof. done. Qed.
Lemma bounded_load addr n : bounded (load addr n).
Proof. done. Qed.
Lemma bounded_slot base size n i : bounded (slot base size n i).
Proof. unfold slot. by case_match. Qed.
Lemma bounded_get_queue i : bounded (get_queue i).
Proof. intros h. unfold get_queue. by destruct (of_queues _ ≫= _). Qed.
Lemma bounded_put_queue i f : bounded (put_queue i f).
Proof. intros h. unfold put_queue. by destruct (of_queues _ ≫= _). Qed.
Lemma bounded_release r : bounded (release r).
Proof. intros h. unfold release. by case_match. Qed.
Lemma bounded_unmap_page addr n dir : bounded (dma_unmap_page addr n dir).
Proof. intros h. unfold dma_unmap_page. by case_match. Qed.
Lemma bounded_end_request rq st : bounded (blk_mq_end_request rq st).
Proof. intros h. unfold blk_mq_end_request. by case_match. Qed.
#[local] Hint Resolve bounded_ret bounded_undef bounded_get_dev bounded_put_dev
  bounded_put_kern bounded_load bounded_slot bounded_get_queue bounded_put_queue
  bounded_release bounded_unmap_page bounded_end_request : frame.

Ltac bounds :=
  repeat match goal with
  | |- _ => solve [eauto with frame]
  | |- bounded (_ ≫= _) => apply bounded_bind; [| intros]
  | |- bounded (match _ with _ => _ end) => case_match
  end.

Lemma bounded_unmap_sgl sgl dir n : bounded (unmap_sgl sgl dir n).
Proof. induction n; cbn [unmap_sgl]; unfold read_sgl; bounds. Qed.
#[local] Hint Resolve bounded_unmap_sgl : frame.

Lemma bounded_fail_requests n tag st : bounded (fail_requests n tag st).
Proof.
  revert tag. induction n; intros tag; cbn [fail_requests];
    unfold finish_request, get_request, put_request; bounds.
Qed.
Lemma bounded_free_sgls n tag : bounded (free_sgls_from n tag).
Proof.
  revert tag. induction n; intros tag; cbn [free_sgls_from];
    unfold get_request, free_coherent; bounds.
Qed.
#[local] Hint Resolve bounded_fail_requests bounded_free_sgls : frame.

Section Responsive.
Context `{!ResponsiveController W}.

Lemma bounded_disable : bounded (writel 0 OPENFLASH_REG_CONTROL).
Proof.
  intros h. unfold writel. pose proof (disable_returns (h_bus h)). by destruct (ctl_write _ _ _).
Qed.
Lemma bounded_status : bounded (readl OPENFLASH_REG_STATUS).
Proof.
  intros h. unfold readl. pose proof (status_returns (h_bus h)). by destruct (ctl_read _ _).
Qed.
#[local] Hint Resolve bounded_disable bounded_status : frame.

Lemma bounded_teardown_admin : bounded openflash_teardown_admin_queue.
Proof. unfold openflash_teardown_admin_queue, free_coherent. bounds. Qed.
#[local] Hint Resolve bounded_teardown_admin : frame.

(** The rest of remove returns (or is undefined): it has no loop that waits. *)
Lemma bounded_remove : bounded remove_rest.
Proof.
  unfold remove_rest, openflash_fail_io_requests, openflash_teardown_io_queue, free_coherent.
  bounds.
Qed.
End Responsive.
End Teardown.
