(* ===== verification/DriverSafety.v ===== *)
(** * Ownership of requests and DMA mappings in the driver

    [owned h]: every request the block layer considers in flight is held by
    exactly one slot of the I/O queue, under its own tag, and the live DMA
    mappings are exactly those described by the scatter-gather lists of the
    held requests.  Completion handling keeps this invariant whatever the
    controller writes into the completion ring. *)
From S2P Require Import Prelude Packed Environment Rings Abi DriverState DriverQueue.
From S2P Require Import DriverLogic.

(** What the driver relies on of a controller.  [ctl_ok] are the states it can be
    in: memory writes and register accesses keep it there and are never
    undefined, and ringing a completion doorbell returns and leaves memory
    alone. *)
Class ControllerLaws (W : Type) `{GuestMemory W, Controller W} := {
  ctl_ok : W → Prop;
  ctl_ok_store w a bs : ctl_ok w → ctl_ok (dma_write w a bs);
  ctl_ok_read w addr : ctl_ok w → ∃ v, ctl_read w addr = Done v;
  ctl_ok_write w addr v :
    ctl_ok w → 0 ≤ v < 2 ^ 32 →
    match ctl_write w addr v with Done w' => ctl_ok w' | Undef => False | NoFuel => True end;
  cq_doorbell w qid v :
    ctl_ok w → qid = 0 ∨ qid = 1 → 0 ≤ v < 2 ^ 32 →
    ∃ w', ctl_write w (OPENFLASH_CQ_HEAD_DB qid) v = Done w' ∧ ctl_ok w' ∧
      ∀ a n, dma_read w' a n = dma_read w a n;
}.

Section Ownership.
Context {W : Type} `{GM : GuestMemory W, CT : Controller W, KS : KernelServices}.
Implicit Types h : host W.
Implicit Types r : openflash_request.

(** Entry [i] of a scatter-gather list in memory, as a mapping. *)
Definition sgl_mapping (w : W) (sgl : Z) (dir : dma_data_direction) (i : nat) : mapping :=
  let d := decode_sgl (dma_read w (sgl + Z.of_nat i * SGL_DESC_SIZE) SGL_DESC_SIZE) in
  (sgl_addr d, sgl_length d, dir).

(** The mappings a request slot owns. *)
Definition slot_mappings (w : W) r : list mapping :=
  match r_rq r with
  | None => []
  | Some _ => sgl_mapping w (r_sgl_dma r) (r_dma_dir r) <$> seq 0 (r_nr_mapped r)
  end.

Record owned h (q : openflash_queue) : Prop := {
  ow_queue : queue_at h 1 = Some q;
  ow_depth : 0 < dq_depth q < 2 ^ 16;
  ow_slots : len (dq_requests q) = dq_depth q - 1;
  ow_tags : ∀ i r rq, dq_requests q !! i = Some r → r_rq r = Some rq → rq_tag rq = i;
  ow_nr : Forall (λ r, Z.of_nat (r_nr_mapped r) ≤ OPENFLASH_MAX_SGL_ENTRIES)
            (dq_requests q);
  ow_inflight : k_inflight (h_kern h) ≡ₚ omap r_rq (dq_requests q);
  ow_mapped : k_mapped (h_kern h) ≡ₚ dq_requests q ≫= slot_mappings (h_bus h);
}.

(** ** Unmapping *)
Lemma wp_read_sgl sgl n (Q : openflash_sgl_desc → host W → Prop) h :
  Z.of_nat n < OPENFLASH_MAX_SGL_ENTRIES →
  Q (decode_sgl (dma_read (h_bus h) (sgl + Z.of_nat n * SGL_DESC_SIZE) SGL_DESC_SIZE)) h →
  wp (read_sgl sgl n) Q h.
Proof.
  intros Hn HQ. unfold read_sgl. apply wp_bind, wp_slot; [lia |].
  by apply wp_bind, wp_load, wp_ret.
Qed.

Lemma wp_unmap_sgl sgl dir n rest (Q : () → host W → Prop) h :
  Z.of_nat n ≤ OPENFLASH_MAX_SGL_ENTRIES →
  k_mapped (h_kern h) ≡ₚ (sgl_mapping (h_bus h) sgl dir <$> seq 0 n) ++ rest →
  (∀ ms, ms ≡ₚ rest → Q () (with_kern (with_mapped ms (h_kern h)) h)) →
  wp (unmap_sgl sgl dir n) Q h.
Proof.
  revert rest h. induction n as [| n IH]; intros rest h Hn Hm HQ; cbn [unmap_sgl].
  - apply wp_ret. specialize (HQ _ Hm). by destruct h as [? [] ?].
  - apply wp_bind, wp_read_sgl; [lia |]. apply wp_bind.
    rewrite seq_S, fmap_app, <- app_assoc in Hm. cbn [fmap list_fmap] in Hm.
    destruct (remove_one_elem (sgl_mapping (h_bus h) sgl dir n) (k_mapped (h_kern h)))
      as [ms Hms].
    { rewrite Hm. apply elem_of_app. right. apply elem_of_app. left.
      by apply list_elem_of_singleton. }
    eapply wp_unmap; [exact Hms |]. apply (IH rest); [lia | |].
    + cbn. apply remove_one_perm in Hms. rewrite Hms in Hm.
      by apply Permutation_cons_app_inv in Hm.
    + intros ms' Hms'. by apply HQ.
Qed.

(** ** Finishing one request *)
Lemma wp_get_request i q r (Q : openflash_request → host W → Prop) h :
  queue_at h 1 = Some q → dq_requests q !! i = Some r → Q r h → wp (get_request i) Q h.
Proof.
  intros Hq Hr HQ. unfold get_request. apply wp_bind. eapply wp_get_queue; [done |].
  rewrite Hr. by apply wp_ret.
Qed.

Lemma wp_put_request i f q r (Q : () → host W → Prop) h :
  queue_at h 1 = Some q → dq_requests q !! i = Some r →
  Q () (upd_queue 1 (with_requests (alter f i (dq_requests q))) h) →
  wp (put_request i f) Q h.
Proof.
  intros Hq Hr HQ. unfold put_request. apply wp_bind. eapply wp_get_queue; [done |].
  rewrite Hr. by eapply wp_put_queue.
Qed.

(** What completion handling may change: it ends the requests [l], each in
    flight before, and touches neither memory nor the rest of the driver. *)
Record completes h q h' q' (l : list (request * blk_status_t)) : Prop := {
  cp_owned : owned h' q';
  cp_bus : h_bus h' = h_bus h;
  cp_geometry : geometry q' = geometry q;
  cp_ended : k_ended (h_kern h') = k_ended (h_kern h) ++ l;
  cp_inflight : k_inflight (h_kern h) ≡ₚ l.*1 ++ k_inflight (h_kern h');
  cp_held : k_held (h_kern h') = k_held (h_kern h);
  cp_lists : r_sgl_dma <$> dq_requests q' = r_sgl_dma <$> dq_requests q;
  cp_admin : queue_at h' 0 = queue_at h 0;
  cp_dev : with_queues None (h_dev h') = with_queues None (h_dev h);
}.

Lemma completes_refl h q : owned h q → completes h q h q [].
Proof. intros. constructor; try done. by rewrite app_nil_r. Qed.

Lemma completes_trans h1 q1 h2 q2 h3 q3 l1 l2 :
  completes h1 q1 h2 q2 l1 → completes h2 q2 h3 q3 l2 → completes h1 q1 h3 q3 (l1 ++ l2).
Proof.
  intros [] []. constructor; try congruence.
  - rewrite app_assoc. congruence.
  - rewrite fmap_app, <- app_assoc. etrans; [done |]. by apply Permutation_app_head.
Qed.

(** Replacing the entry of a slot. *)
Lemma slot_split (rs : list openflash_request) i r r' :
  rs !! i = Some r → ∃ rest, rs ≡ₚ r :: rest ∧ <[i := r']> rs ≡ₚ r' :: rest.
Proof.
  intros Hr. apply list_elem_of_split_length in Hr as (l1 & l2 & -> & ->).
  exists (l1 ++ l2). rewrite insert_app_r_alt, Nat.sub_diag by done. cbn.
  by rewrite <- !Permutation_middle.
Qed.

(** Emptying a held slot: what the invariant becomes. *)
Lemma owned_release h q i r rq ms live h' q' st :
  owned h q → dq_requests q !! i = Some r → r_rq r = Some rq →
  k_mapped (h_kern h) ≡ₚ slot_mappings (h_bus h) r ++ ms →
  remove_one rq (k_inflight (h_kern h)) = Some live →
  queue_at h' 1 = Some q' → geometry q' = geometry q →
  dq_requests q' = <[i := with_nr_mapped 0 (r_dma_dir r) (with_rq None r)]> (dq_requests q) →
  h_bus h' = h_bus h →
  h_kern h' = with_requests_state live (k_ended (h_kern h) ++ [(rq, st)])
                (with_mapped ms (h_kern h)) →
  owned h' q'.
Proof.
  intros [Hq Hd Hl Ht Hn Hi Hm] Hr Hrq Hms Hlive Hq' Hg Hrs Hb Hk.
  apply geometry_inj in Hg as (_ & _ & _ & Hd' & _).
  destruct (slot_split _ i r (with_nr_mapped 0 (r_dma_dir r) (with_rq None r)) Hr)
    as (rest & Hp & Hp').
  constructor; rewrite ?Hd', ?Hrs, ?Hb, ?Hk; cbn; auto.
  - by rewrite length_insert.
  - intros j r1 rq1 Hj Hj1. destruct (decide (j = i)) as [-> | Hne].
    + rewrite list_lookup_insert_eq in Hj by (by eapply lookup_lt_Some). by simplify_eq/=.
    + rewrite list_lookup_insert_ne in Hj by done. eauto.
  - apply Forall_insert; [done |]. cbn. unfold OPENFLASH_MAX_SGL_ENTRIES. lia.
  - apply remove_one_perm in Hlive. rewrite Hp'. cbn.
    rewrite Hp in Hi. cbn in Hi. rewrite Hrq, Hlive in Hi. by apply Permutation_cons_inv in Hi.
  - rewrite Hp'. cbn. rewrite Hp in Hm. cbn in Hm. rewrite Hms in Hm.
    by apply Permutation_app_inv_l in Hm.
Qed.

Lemma queue_at_kern k h i : queue_at (with_kern k h) i = queue_at h i.
Proof. done. Qed.

(** An empty slot: only a null pointer is written over a null pointer. *)
Lemma completes_empty h q i r :
  owned h q → dq_requests q !! i = Some r → r_rq r = None →
  completes h q (upd_queue 1 (with_requests (alter (with_rq None) i (dq_requests q))) h) q [].
Proof.
  intros Ho Hr Hrq. rewrite (alter_insert _ _ _ r) by done.
  replace (with_rq None r) with r by (destruct r; cbn in *; by subst).
  rewrite list_insert_id by done.
  assert (queue_at (upd_queue 1 (with_requests (dq_requests q)) h) 1 = Some q) as Hq1.
  { rewrite queue_at_upd, (ow_queue _ _ Ho). cbn. f_equal. by destruct q. }
  constructor; try done.
  - destruct Ho. constructor; done.
  - by rewrite app_nil_r.
  - by rewrite queue_at_upd_ne.
Qed.

(** [finish_request] ends the request its slot holds, if any. *)
Lemma wp_finish_request i st q r h :
  owned h q → dq_requests q !! i = Some r →
  wp (finish_request i st) (λ _ h', ∃ q',
    completes h q h' q' ((λ rq, (rq, st)) <$> option_list (r_rq r)) ∧
    (dq_cq_head q', dq_cq_phase q') = (dq_cq_head q, dq_cq_phase q) ∧
    (∃ r', dq_requests q' !! i = Some r' ∧ r_rq r' = None) ∧
    ∀ j, j ≠ i → dq_requests q' !! j = dq_requests q !! j) h.
Proof.
  intros Ho Hr. unfold finish_request. pose proof (ow_queue _ _ Ho) as Hq.
  apply wp_bind. eapply wp_get_request; [done.. |].
  apply wp_bind. eapply wp_put_request; [done.. |].
  destruct (r_rq r) as [rq |] eqn:Hrq; cbn [option_list fmap list_fmap].
  2: { apply wp_ret. exists q. split; [by eapply completes_empty | by eauto]. }
  rewrite (alter_insert _ _ _ r) by done. set (h1 := upd_queue 1 _ h).
  assert (queue_at h1 1 = Some (with_requests (<[i:=with_rq None r]> (dq_requests q)) q))
    as Hq1 by (unfold h1; by rewrite queue_at_upd, Hq).
  destruct (slot_split _ i r r Hr) as (rest & Hp & _). apply wp_bind.
  eapply (wp_unmap_sgl _ _ _ (rest ≫= slot_mappings (h_bus h))).
  { eapply (Forall_lookup_1 _ _ _ _ (ow_nr _ _ Ho)). exact Hr. }
  { cbn. rewrite (ow_mapped _ _ Ho), Hp. cbn. unfold slot_mappings at 1. by rewrite Hrq. }
  intros ms Hms. apply wp_bind.
  assert (<[i := with_rq None r]> (dq_requests q) !! i = Some (with_rq None r)) as Hr1
    by (apply list_lookup_insert_eq; by eapply lookup_lt_Some).
  eapply wp_put_request; [rewrite queue_at_kern; exact Hq1 | exact Hr1 |].
  cbn [dq_requests with_requests]. rewrite (alter_insert _ _ _ _ Hr1), list_insert_insert_eq.
  destruct (remove_one_elem rq (k_inflight (h_kern h))) as [live Hlive].
  { rewrite (ow_inflight _ _ Ho), Hp. cbn. rewrite Hrq. apply list_elem_of_here. }
  eapply wp_end_request; [exact Hlive |]. set (rs' := <[i := _]> (dq_requests q)).
  exists (with_requests rs' q).
  split; [| split; [done |]; split; [eexists; split; [apply list_lookup_insert_eq |]; [by eapply lookup_lt_Some | done] |]; intros j Hj; cbn; unfold rs'; by apply list_lookup_insert_ne].
  constructor; try done.
  - eapply owned_release with (h := h) (q := q); try done.
    + rewrite (ow_mapped _ _ Ho), Hp. cbn. by apply Permutation_app_head.
    + by rewrite queue_at_kern, queue_at_upd, queue_at_kern, Hq1.
  - cbn. by apply remove_one_perm.
  - cbn. unfold rs'. rewrite list_fmap_insert. apply list_insert_id.
    by rewrite list_lookup_fmap, Hr.
  - rewrite queue_at_kern, queue_at_upd_ne, queue_at_kern by done.
    unfold h1. by rewrite queue_at_upd_ne.
Qed.

(** Moving the completion cursor changes nothing that is owned. *)
Lemma completes_cursor h q h' q' l hd ph :
  completes h q h' q' l →
  completes h q (upd_queue 1 (with_cq_head hd ph) h') (with_cq_head hd ph q') l.
Proof.
  intros [Ho Hb Hg He Hi Hh Hls Ha Hd]. constructor; try done.
  - destruct Ho. constructor; try done. by rewrite queue_at_upd, ow_queue0.
  - by rewrite queue_at_upd_ne.
Qed.

Lemma cqe_cid_nonneg bs : 0 ≤ cqe_cid (decode_completion bs).
Proof.
  unfold decode_completion. cbn [completion_layout unpack cqe_cid].
  apply le_combine_bound.
Qed.

(** ** The I/O interrupt *)

(** The requests of the slots, and a reference for the handler: what one entry,
    and what the entries [es] in order, do to the slots and which requests they
    end with which status.  Entries whose id names no slot, or an empty one,
    do nothing. *)
Definition held (q : openflash_queue) : list (option request) := r_rq <$> dq_requests q.

Definition drain_entry (depth : Z)
    (s : list (option request) * list (request * blk_status_t)) (e : openflash_completion)
    : list (option request) * list (request * blk_status_t) :=
  if (cqe_cid e =? 0) || (depth - 1 <? cqe_cid e) then s
  else match s.1 !! Z.to_nat (cqe_cid e - 1) with
       | Some (Some rq) =>
           (<[Z.to_nat (cqe_cid e - 1) := None]> s.1,
            s.2 ++ [(rq, openflash_blk_status (cqe_status e))])
       | _ => s
       end.

Definition drain (depth : Z) (slots : list (option request))
    (es : list openflash_completion) : list (option request) * list (request * blk_status_t) :=
  foldl (drain_entry depth) (slots, []) es.

Lemma wp_io_entry e q h :
  owned h q → 0 ≤ cqe_cid e →
  wp (io_entry e) (λ _ h', ∃ q' l, completes h q h' q' l ∧
    (∀ acc, drain_entry (dq_depth q) (held q, acc) e = (held q', acc ++ l)) ∧
    (dq_cq_head q', dq_cq_phase q') = (dq_cq_head q, dq_cq_phase q)) h.
Proof.
  intros Ho He. unfold io_entry. apply wp_bind.
  eapply wp_get_queue; [apply Ho |]. unfold drain_entry. destruct (_ || _) eqn:Hc.
  { apply wp_ret. exists q, []. split; [by apply completes_refl |]. split; [| done].
    intros acc. by rewrite app_nil_r. }
  bprop. pose proof (ow_slots _ _ Ho) as Hl.
  destruct (lookup_lt_is_Some_2 (dq_requests q) (Z.to_nat (cqe_cid e - 1))) as [r Hr]; [lia |].
  set (i := Z.to_nat (cqe_cid e - 1)) in *.
  eapply wp_mono; [by apply wp_finish_request |].
  intros [] h' (q' & Hcp & Hcur & (r' & Hr' & Hnone) & Hrest).
  eexists q', _. split; [exact Hcp |]. split; [| done]. intros acc. cbn [fst snd].
  assert (held q' = <[i := None]> (held q)) as Hheld.
  { apply list_eq. intros j. unfold held. rewrite list_lookup_fmap.
    destruct (decide (j = i)) as [-> | Hne].
    - rewrite Hr', list_lookup_insert_eq; cbn; [by rewrite Hnone |].
      rewrite length_fmap. by eapply lookup_lt_Some.
    - by rewrite Hrest, list_lookup_insert_ne, list_lookup_fmap by done. }
  assert (held q !! i = Some (r_rq r)) as Hi by (unfold held; by rewrite list_lookup_fmap, Hr).
  rewrite Hheld, Hi. destruct (r_rq r) as [rq |]; cbn; [done |].
  by rewrite (list_insert_id (held q) i None Hi), app_nil_r.
Qed.

Lemma wp_io_loop fuel q k c h :
  owned h q → consumed q k → (Z.to_nat (dq_depth q) ≤ fuel)%nat →
  wp (cq_loop fuel 1 io_entry c) (λ c' h', ∃ n q' l,
    c' = c + Z.of_nat n ∧ Z.of_nat n ≤ dq_depth q ∧ completes h q h' q' l ∧ consumed q' (k + Z.of_nat n) ∧
    drain (dq_depth q) (held q)
      ((λ j, cq_entry (h_bus h) q (k + Z.of_nat j)) <$> seq 0 n) = (held q', l) ∧
    (∀ m, (m < n)%nat → is_new (h_bus h) q (k + Z.of_nat m)) ∧
    ¬ is_new (h_bus h) q (k + Z.of_nat n)) h.
Proof.
  intros Ho Hk Hf. pose proof (ow_depth _ _ Ho) as Hd.
  destruct (new_entries (h_bus h) q k) as (n & Hn & Hnew & Hold); [lia |].
  set (P := λ (m : nat) h1, ∃ q1 l, completes h q h1 q1 l ∧
    drain (dq_depth q) (held q)
      ((λ j, cq_entry (h_bus h) q (k + Z.of_nat j)) <$> seq 0 m) = (held q1, l)).
  eapply wp_mono; [apply (wp_cq_loop fuel 1 io_entry P n q k c h); try done |].
  - apply Ho.
  - lia.
  - exists q, []. split; [by apply completes_refl | done].
  - intros m h1 q1 Hm (q1' & l & Hcp & Hacc) Hb Hq1 Hg.
    pose proof (ow_queue _ _ (cp_owned _ _ _ _ _ Hcp)) as Hq1'.
    rewrite Hq1 in Hq1'. simplify_eq.
    eapply wp_mono; [apply wp_io_entry; [apply Hcp | apply cqe_cid_nonneg] |].
    intros [] h2 (q2 & l2 & Hcp2 & Hl2 & Hcur). split; [| split].
    + exists q2, (l ++ l2). split; [by eapply completes_trans |].
      unfold drain in *. rewrite seq_S, fmap_app, foldl_app, Hacc. cbn [fmap list_fmap foldl].
      pose proof (geometry_inj _ _ (cp_geometry _ _ _ _ _ Hcp)) as (_ & _ & _ & Hd1 & _).
      by rewrite <- Hd1.
    + apply Hcp2.
    + exists q2. split; [apply Hcp2 |]. split; [apply Hcp2 |].
      by injection Hcur as -> ->.
  - intros m h1 hd ph (q1 & l & Hcp & Hacc). exists (with_cq_head hd ph q1), l.
    split; [by apply completes_cursor | done].
  - intros c' h' (-> & (q1 & l & Hcp & Hacc) & Hb & q' & Hq' & Hg & Hk').
    pose proof (ow_queue _ _ (cp_owned _ _ _ _ _ Hcp)) as Hq1.
    rewrite Hq' in Hq1. simplify_eq. exists n, q1, l. by split_and!.
Qed.

(** Ownership depends on memory only through its contents. *)
Lemma owned_same_memory h q w' :
  (∀ a n, dma_read w' a n = dma_read (h_bus h) a n) → owned h q → owned (with_bus w' h) q.
Proof.
  intros Hw []. constructor; try done. cbn. rewrite ow_mapped0.
  assert (∀ r, slot_mappings (h_bus h) r = slot_mappings w' r) as Heq.
  { intros r. unfold slot_mappings, sgl_mapping. destruct (r_rq r); [| done].
    apply list_fmap_ext. intros. by rewrite Hw. }
  by rewrite (list_bind_ext _ _ (dq_requests q) (dq_requests q) Heq).
Qed.

(** Failing what is in flight: [n] tags from [tag] on. *)
Lemma wp_fail_requests n tag st q h :
  owned h q → (tag + n = length (dq_requests q))%nat →
  (∀ j r, (j < tag)%nat → dq_requests q !! j = Some r → r_rq r = None) →
  wp (fail_requests n tag st) (λ _ h', ∃ q' l, completes h q h' q' l ∧
    Forall (λ p, p.2 = st) l ∧ k_inflight (h_kern h') = []) h.
Proof.
  revert tag q h. induction n as [| n IH]; intros tag q h Ho Hl Hdone; cbn [fail_requests].
  - apply wp_ret. exists q, []. split; [by apply completes_refl |]. split; [done |].
    apply Permutation_nil_r. rewrite (ow_inflight _ _ Ho).
    assert (omap r_rq (dq_requests q) = []) as ->; [| done].
    apply elem_of_nil_inv. intros rq Hrq.
    apply list_elem_of_omap in Hrq as (r & Hr & Hrq).
    apply list_elem_of_lookup in Hr as [j Hj].
    rewrite (Hdone j r) in Hrq; [done | | done]. apply lookup_lt_Some in Hj. lia.
  - destruct (lookup_lt_is_Some_2 (dq_requests q) tag) as [r Hr]; [lia |].
    apply wp_bind. eapply wp_mono; [by apply wp_finish_request |].
    intros [] h1 (q1 & Hcp & _ & (r' & Hr' & Hnone) & Hrest).
    assert (length (dq_requests q1) = length (dq_requests q)) as Hlen.
    { pose proof (ow_slots _ _ Ho). pose proof (ow_slots _ _ (cp_owned _ _ _ _ _ Hcp)).
      pose proof (geometry_inj _ _ (cp_geometry _ _ _ _ _ Hcp)) as (_ & _ & _ & Hd & _). lia. }
    eapply wp_mono; [apply (IH (S tag) q1); [apply Hcp | lia |] |].
    + intros j rj Hj Hrj. destruct (decide (j = tag)) as [-> | Hne]; [by simplify_eq |].
      apply (Hdone j); [lia |]. by rewrite <- Hrest.
    + intros [] h' (q' & l & Hcp' & Hst & Hnil). eexists q', _.
      split; [by eapply completes_trans |]. split; [| done].
      apply Forall_app. split; [| done]. apply Forall_fmap.
      by destruct (r_rq r); cbn; repeat constructor.
Qed.

(** Requests in flight are pairwise different: they have different tags. *)
Lemma held_nodup (rs : list openflash_request) off :
  (∀ i r rq, rs !! i = Some r → r_rq r = Some rq → rq_tag rq = (off + i)%nat) →
  NoDup (omap r_rq rs) ∧ Forall (λ rq, off ≤ rq_tag rq)%nat (omap r_rq rs).
Proof.
  revert off. induction rs as [| r rs IH]; intros off Ht; cbn; [split; constructor |].
  destruct (IH (S off)) as [Hnd Hall].
  { intros i r' rq Hi Hrq. rewrite (Ht (S i) r' rq) by done. lia. }
  assert (Forall (λ rq, off ≤ rq_tag rq)%nat (omap r_rq rs)) as Hall'.
  { eapply Forall_impl; [exact Hall |]. cbn. lia. }
  destruct (r_rq r) as [rq |] eqn:Hrq; [| done].
  pose proof (Ht 0%nat r rq eq_refl Hrq) as Htag. split.
  - apply NoDup_cons. split; [| done]. intros Hin.
    apply (proj1 (Forall_forall _ _) Hall) in Hin. lia.
  - apply Forall_cons. split; [lia | done].
Qed.

Lemma owned_nodup h q : owned h q → NoDup (k_inflight (h_kern h)).
Proof.
  intros Ho. rewrite (ow_inflight _ _ Ho).
  apply (held_nodup _ 0). intros. by apply (ow_tags _ _ Ho i r).
Qed.

(** The whole handler: [n] new entries, drained, and the new head reported to the
    controller if there were any. *)
Record drained h q k n h' q' l : Prop := {
  dr_count : Z.of_nat n ≤ dq_depth q;
  dr_new m : (m < n)%nat → is_new (h_bus h) q (k + Z.of_nat m);
  dr_old : ¬ is_new (h_bus h) q (k + Z.of_nat n);
  dr_owned : owned h' q';
  dr_consumed : consumed q' (k + Z.of_nat n);
  dr_slots : drain (dq_depth q) (held q)
    ((λ j, cq_entry (h_bus h) q (k + Z.of_nat j)) <$> seq 0 n) = (held q', l);
  dr_ended : k_ended (h_kern h') = k_ended (h_kern h) ++ l;
  dr_inflight : k_inflight (h_kern h) ≡ₚ l.*1 ++ k_inflight (h_kern h');
  dr_held : k_held (h_kern h') = k_held (h_kern h);
  dr_admin : queue_at h' 0 = queue_at h 0;
  dr_geometry : geometry q' = geometry q;
  dr_lists : r_sgl_dma <$> dq_requests q' = r_sgl_dma <$> dq_requests q;
  dr_bus : if (n =? 0)%nat then h_bus h' = h_bus h
    else ctl_write (h_bus h) (OPENFLASH_CQ_HEAD_DB 1) (u32 (dq_cq_head q')) = Done (h_bus h');
  dr_dev : with_queues None (h_dev h') = with_queues None (h_dev h);
}.

Lemma wp_io_irq `{!ControllerLaws W} fuel h q k :
  owned h q → consumed q k → dq_qid q = 1 → ctl_ok (h_bus h) →
  (Z.to_nat (dq_depth q) ≤ fuel)%nat →
  wp (openflash_io_irq fuel) (λ b h', ∃ n q' l,
    b = negb (n =? 0)%nat ∧ drained h q k n h' q' l) h.
Proof.
  intros Ho Hk Hqid Hok Hf. unfold openflash_io_irq. apply wp_bind.
  eapply wp_mono; [by apply (wp_io_loop fuel q k 0 h) |].
  intros c h1 (n & q1 & l & -> & Hn & Hcp & Hk1 & Hdr & Hnew & Hold).
  destruct n as [| n].
  { apply wp_ret. exists 0%nat, q1, l. split; [done |]. by destruct Hcp; constructor. }
  rewrite (proj2 (Z.eqb_neq _ _)) by lia. pose proof Hcp as [Ho1 Hb Hg He Hi Hh Hls Ha Hdev].
  apply wp_bind. eapply wp_get_queue; [apply Ho1 |].
  pose proof (geometry_inj _ _ Hg) as (_ & _ & Hqid1 & _ & _). rewrite Hqid1, Hqid.
  destruct (cq_doorbell (h_bus h1) 1 (u32 (dq_cq_head q1))) as (w' & Ew & Hok' & Hmem);
    [by rewrite Hb | by right | apply u32_range |].
  apply wp_bind. eapply wp_writel; [done |]. apply wp_ret.
  exists (S n), q1, l. split; [done |]. constructor; try done.
  - by apply owned_same_memory.
  - cbn. by rewrite <- Hb.
Qed.

(** Interrupts that find nothing new. *)
Lemma io_irq_idle fuel h q k :
  queue_at h 1 = Some q → 0 < dq_depth q → consumed q k → ¬ is_new (h_bus h) q k →
  openflash_io_irq fuel h = Done (false, h).
Proof.
  intros. unfold openflash_io_irq. by erewrite bind_done by (by eapply cq_loop_idle).
Qed.
End Ownership.
