(* ===== verification/DriverSubmit.v ===== *)
(** * Submission: mapping of segments and publication of the command

    What [openflash_queue_rq] does to memory, mappings and request slots, up
    to the doorbell: either the request is refused and every mapping made for
    it is undone, or the host is left exactly one register write away from a
    published command whose request is owned by its slot. *)
From S2P Require Import Prelude Packed Environment Rings Abi DriverState DriverQueue.
From S2P Require Import DriverCore DriverLogic DriverSafety.

(** [dma_map_bvec] answers with bus addresses of 64 bits. *)
Class KernelLaws `{KernelServices} := {
  dma_map_bvec_range k bv dir a : dma_map_bvec k bv dir = Some a → 0 ≤ a < 2 ^ 64;
}.

Lemma sgl_roundtrip d :
  fits sgl_layout [sgl_addr d; sgl_length d; sgl_reserved d] → decode_sgl (encode_sgl d) = d.
Proof.
  intros Hf. unfold decode_sgl, encode_sgl. rewrite unpack_pack by done. by destruct d.
Qed.

Lemma length_encode_sgl_driver d : length (encode_sgl d) = 16%nat.
Proof. unfold encode_sgl. by rewrite length_pack. Qed.

Lemma length_encode_command_driver c : length (encode_command c) = 64%nat.
Proof. unfold encode_command. by rewrite length_pack. Qed.

Section Submit.
Context {W : Type} `{GM : GuestMemory W, !GuestMemoryLaws W, CT : Controller W}.
Context `{KS : KernelServices, !KernelLaws}.
Implicit Types h : host W.

(** [w'] differs from [w] in RAM only inside the given regions. *)
Definition outside (regions : list (Z * Z)) (a n : Z) : Prop :=
  Forall (λ r, a + n ≤ r.1 ∨ r.1 + r.2 ≤ a) regions.
Definition changes (regions : list (Z * Z)) (w w' : W) : Prop :=
  ∀ a n, is_ram a n → outside regions a n → dma_read w' a n = dma_read w a n.

Lemma changes_refl regions w : changes regions w w.
Proof. intros ???. done. Qed.

Lemma changes_trans regions w1 w2 w3 :
  changes regions w1 w2 → changes regions w2 w3 → changes regions w1 w3.
Proof. intros H1 H2 a n Ha Hd. by rewrite H2, H1. Qed.

Lemma changes_weaken regions regions' w w' :
  regions ⊆ regions' → changes regions w w' → changes regions' w w'.
Proof.
  intros Hs Hc a n Ha Hd. apply Hc; [done |]. unfold outside in *.
  rewrite Forall_forall in Hd |- *. auto.
Qed.

Lemma changes_l r1 r2 w w' : changes [r1] w w' → changes [r1; r2] w w'.
Proof.
  apply changes_weaken. intros r Hr. apply list_elem_of_singleton in Hr as ->.
  apply list_elem_of_here.
Qed.

Lemma changes_r r1 r2 w w' : changes [r2] w w' → changes [r1; r2] w w'.
Proof. apply changes_weaken. intros r Hr. by apply list_elem_of_further. Qed.

Lemma changes_write regions w a bs base size :
  is_ram a (len bs) → (base, size) ∈ regions → base ≤ a → a + len bs ≤ base + size →
  changes regions w (dma_write w a bs).
Proof.
  intros Hr Hin H1 H2 b n Hb Hd. apply dma_read_write_other; [done | done |].
  apply (proj1 (Forall_forall _ _) Hd) in Hin. cbn in Hin. lia.
Qed.

(** [w'] is [w] after stores by the CPU. *)
Definition stored : W → W → Prop := rtc (λ w w', ∃ a bs, w' = dma_write w a bs).

Lemma stored_write w w1 a bs : stored w w1 → stored w (dma_write w1 a bs).
Proof. intros Hs. eapply rtc_r; [exact Hs |]. by eexists _, _. Qed.

(** The parts of the kernel submission leaves alone while it maps. *)
Definition same_requests (k k' : kernel) : Prop :=
  k_inflight k' = k_inflight k ∧ k_ended k' = k_ended k ∧ k_held k' = k_held k.

(** The kernel mapped [bv] at [a], or refused to. *)
Definition mapped_at (dir : dma_data_direction) (a : Z) (bv : bio_vec) : Prop :=
  ∃ k, dma_map_bvec k bv dir = Some a.
Definition unmappable (dir : dma_data_direction) (bv : bio_vec) : Prop :=
  ∃ k, dma_map_bvec k bv dir = None.

(** The descriptor the code writes for a segment mapped at [a]. *)
Definition segment_desc (a : Z) (bv : bio_vec) : openflash_sgl_desc :=
  {| sgl_addr := a; sgl_length := bv_len bv; sgl_reserved := 0 |}.

Definition sgl_desc_at (w : W) (sgl : Z) (i : nat) : openflash_sgl_desc :=
  decode_sgl (dma_read w (sgl + Z.of_nat i * SGL_DESC_SIZE) SGL_DESC_SIZE).

(** Writing descriptor [n] of a list. *)
Lemma sgl_write w sgl n d :
  is_ram sgl SGL_SIZE → Z.of_nat n < OPENFLASH_MAX_SGL_ENTRIES →
  fits sgl_layout [sgl_addr d; sgl_length d; sgl_reserved d] →
  let w' := dma_write w (sgl + Z.of_nat n * SGL_DESC_SIZE) (encode_sgl d) in
  changes [(sgl, SGL_SIZE)] w w' ∧ sgl_desc_at w' sgl n = d ∧
  ∀ i, (i < n)%nat → sgl_desc_at w' sgl i = sgl_desc_at w sgl i.
Proof.
  intros Hr Hn Hf. assert (len (encode_sgl d) = SGL_DESC_SIZE) as Hl
    by (by rewrite length_encode_sgl_driver).
  unfold SGL_SIZE, SGL_DESC_SIZE, OPENFLASH_MAX_SGL_ENTRIES in *.
  assert (is_ram (sgl + Z.of_nat n * 16) (len (encode_sgl d)))
    as Hd by (eapply is_ram_sub; [exact Hr | lia..]).
  split; [eapply changes_write; [done | apply list_elem_of_here | lia | lia] |]. unfold sgl_desc_at. split.
  - pose proof (dma_read_write_same w _ _ Hd) as E. rewrite Hl in E.
    unfold SGL_DESC_SIZE. rewrite E. by apply sgl_roundtrip.
  - intros i Hi. unfold SGL_DESC_SIZE. rewrite dma_read_write_other; [done | done | | lia].
    eapply is_ram_sub; [exact Hr | lia..].
Qed.

(** ** Mapping *)

(** The state of the mapping loop after [m] segments: the first [m] descriptors
    describe exactly the mappings made, beyond those of before. *)
Record mapped_state h sgl dir h' (m : nat) : Prop := {
  ms_dev : h_dev h' = h_dev h;
  ms_requests : same_requests (h_kern h) (h_kern h');
  ms_memory : changes [(sgl, SGL_SIZE)] (h_bus h) (h_bus h');
  ms_stored : stored (h_bus h) (h_bus h');
  ms_mapped : k_mapped (h_kern h') ≡ₚ
    (sgl_mapping (h_bus h') sgl dir <$> seq 0 m) ++ k_mapped (h_kern h);
}.

Lemma sgl_mapping_desc (w : W) sgl dir i :
  sgl_mapping w sgl dir i =
    (sgl_addr (sgl_desc_at w sgl i), sgl_length (sgl_desc_at w sgl i), dir).
Proof. done. Qed.

(** One more segment. *)
Lemma mapped_step h sgl dir h1 m a bv :
  mapped_state h sgl dir h1 m → is_ram sgl SGL_SIZE →
  Z.of_nat m < OPENFLASH_MAX_SGL_ENTRIES → 0 ≤ a < 2 ^ 64 → 0 ≤ bv_len bv < 2 ^ 32 →
  let w' := dma_write (h_bus h1) (sgl + Z.of_nat m * SGL_DESC_SIZE)
    (encode_sgl (segment_desc a bv)) in
  mapped_state h sgl dir
    (with_bus w' (with_kern (with_mapped ((a, bv_len bv, dir) :: k_mapped (h_kern h1))
       (with_call (h_kern h1))) h1)) (S m) ∧
  sgl_desc_at w' sgl m = segment_desc a bv ∧
  ∀ i, (i < m)%nat → sgl_desc_at w' sgl i = sgl_desc_at (h_bus h1) sgl i.
Proof.
  intros [Hd Hr Hc Hst Hm] Hram Hlt Ha Hbv w'.
  destruct (sgl_write (h_bus h1) sgl m (segment_desc a bv) Hram Hlt)
    as (Hch & Hnew & Hold).
  { repeat constructor; cbn; lia. }
  split; [| done]. constructor; cbn -[seq]; [done | done | | by apply stored_write |].
  - by eapply changes_trans.
  - rewrite seq_S, fmap_app, Hm. cbn [fmap list_fmap].
    rewrite (sgl_mapping_desc _ _ _ m). fold w' in Hnew, Hold. rewrite Hnew.
    cbn [segment_desc sgl_addr sgl_length]. rewrite <- app_assoc. cbn [app].
    rewrite <- Permutation_middle. apply Permutation_skip. f_equiv. apply reflexive_eq.
    apply list_fmap_ext. intros i x Hx. apply lookup_seq in Hx as [-> Hx].
    rewrite !sgl_mapping_desc, Hold by lia. done.
Qed.

Lemma wp_map_segments sgl dir bvs m h h0 :
  mapped_state h0 sgl dir h m → is_ram sgl SGL_SIZE →
  Z.of_nat (m + length bvs) ≤ OPENFLASH_MAX_SGL_ENTRIES →
  Forall (λ bv, 0 ≤ bv_len bv < 2 ^ 32) bvs →
  wp (map_segments sgl dir bvs m) (λ r h', mapped_state h0 sgl dir h' r.1 ∧
    (r.1 ≤ m + length bvs)%nat ∧
    (∀ i, (i < m)%nat → sgl_desc_at (h_bus h') sgl i = sgl_desc_at (h_bus h) sgl i) ∧
    (r.2 = false → Exists (unmappable dir) bvs) ∧
    (r.2 = true → ∃ addrs, Forall2 (mapped_at dir) addrs bvs ∧
       r.1 = (m + length bvs)%nat ∧ sgl_desc_at (h_bus h') sgl <$> seq m (length bvs) = zip_with segment_desc addrs bvs)) h.
Proof.
  revert m h. induction bvs as [| bv bvs IH]; intros m h Hms Hram Hle Hbv;
    cbn [map_segments].
  { apply wp_ret. split; [done |]. split; [cbn; lia |]. split; [done |]. split; [done |].
    intros _. exists []. cbn. split_and!; [constructor | lia | done]. }
  apply Forall_cons in Hbv as [Hb Hbv]. cbn [length] in Hle.
  unfold map_bvec. apply wp_bind, wp_bind, wp_ask.
  destruct (dma_map_bvec (h_kern h) bv dir) as [a |] eqn:Ea.
  2: { apply wp_ret, wp_ret. split; [by destruct Hms |]. cbn.
       split_and!; [lia | done | left; by eexists | done]. }
  apply wp_bind, wp_put_kern, wp_ret, wp_bind, wp_slot; [lia |].
  apply wp_bind, wp_store.
  destruct (mapped_step h0 sgl dir h m a bv Hms Hram) as (Hms' & Hnew & Hold);
    [lia | by eapply dma_map_bvec_range | done |].
  eapply wp_mono; [apply (IH (S m)); [exact Hms' | done | lia | done] |].
  intros [r ok] h' (Hfin & Hr & Hkeep & Hko & Hok). cbn [fst snd] in *.
  split; [done |]. split; [cbn; lia |]. split.
  { intros i Hi. rewrite Hkeep by lia. cbn. apply Hold. lia. }
  split; [intros ->; right; by apply Hko |].
  intros ->. destruct Hok as (addrs & Hl & -> & Hds); [done |].
  exists (a :: addrs). cbn [length zip_with seq fmap list_fmap].
  split; [constructor; [by eexists | done] |]. split; [lia |]. rewrite Hds, Hkeep by lia. f_equal. exact Hnew.
Qed.

Lemma queue_at_bus w h i : queue_at (with_bus w h) i = queue_at h i.
Proof. done. Qed.

(** ** Memory layout of the I/O queue *)
Definition sq_region (q : openflash_queue) : Z * Z :=
  (dq_sq_dma q, dq_depth q * CMD_SIZE).
Definition sgl_region (r : openflash_request) : Z * Z := (r_sgl_dma r, SGL_SIZE).

(** The submission ring and the descriptor lists are separate pieces of RAM. *)
Record io_layout (q : openflash_queue) : Prop := {
  lay_sq : is_ram (dq_sq_dma q) (dq_depth q * CMD_SIZE);
  lay_tail : 0 ≤ dq_sq_tail q < dq_depth q;
  lay_sgl i r : dq_requests q !! i = Some r →
    is_ram (r_sgl_dma r) SGL_SIZE ∧ outside [sq_region q] (r_sgl_dma r) SGL_SIZE;
  lay_apart i j r r' : i ≠ j → dq_requests q !! i = Some r → dq_requests q !! j = Some r' →
    outside [sgl_region r] (r_sgl_dma r') SGL_SIZE;
}.

Lemma outside_sub regions a n b k :
  outside regions a n → a ≤ b → b + k ≤ a + n → outside regions b k.
Proof. intros Ho H1 H2. eapply Forall_impl; [exact Ho |]. cbn. intros. lia. Qed.

(** Descriptors of a list that lies outside the changed regions. *)
Lemma changes_sgl regions w w' sgl i :
  changes regions w w' → is_ram sgl SGL_SIZE → outside regions sgl SGL_SIZE →
  Z.of_nat i < OPENFLASH_MAX_SGL_ENTRIES → sgl_desc_at w' sgl i = sgl_desc_at w sgl i.
Proof.
  intros Hc Hr Ho Hi. unfold sgl_desc_at.
  unfold SGL_SIZE, SGL_DESC_SIZE, OPENFLASH_MAX_SGL_ENTRIES in *.
  rewrite Hc; [done | |].
  - eapply is_ram_sub; [exact Hr | lia..].
  - eapply outside_sub; [exact Ho | lia..].
Qed.

(** Writing the descriptor list of an empty slot and the submission ring keeps
    what the held slots describe. *)
Lemma slot_mappings_kept h q tag r w' :
  owned h q → io_layout q → dq_requests q !! tag = Some r → r_rq r = None →
  changes [sgl_region r; sq_region q] (h_bus h) w' →
  ∀ j r', dq_requests q !! j = Some r' → slot_mappings w' r' = slot_mappings (h_bus h) r'.
Proof.
  intros Ho Hl Hr Hnone Hc j r' Hj. unfold slot_mappings.
  destruct (r_rq r') as [rq |] eqn:Hrq; [| done].
  assert (tag ≠ j) as Hne by (intros ->; simplify_eq).
  apply list_fmap_ext. intros i x Hx. apply lookup_seq in Hx as [-> Hx].
  pose proof (Forall_lookup_1 _ _ _ _ (ow_nr _ _ Ho) Hj) as Hn. cbv beta in Hn.
  rewrite !sgl_mapping_desc. destruct (lay_sgl _ Hl j r' Hj) as [Hram Hsq].
  rewrite (changes_sgl _ _ _ _ _ Hc); [done | done | | lia].
  apply Forall_cons. split; [| done].
  pose proof (lay_apart _ Hl tag j r r' Hne Hr Hj) as Hap. by inversion Hap.
Qed.

(** ** Equations of the primitives *)
Lemma get_request_done h i q r :
  queue_at h 1 = Some q → dq_requests q !! i = Some r → get_request i h = Done (r, h).
Proof.
  intros Hq Hr. unfold get_request. erewrite bind_done by (by apply get_queue_done).
  by rewrite Hr.
Qed.

Lemma put_request_done h i f q r :
  queue_at h 1 = Some q → dq_requests q !! i = Some r →
  put_request i f h =
    Done ((), upd_queue 1 (with_requests (<[i := f r]> (dq_requests q))) h).
Proof.
  intros Hq Hr. unfold put_request. erewrite bind_done by (by apply get_queue_done).
  rewrite Hr, (alter_insert _ _ _ r) by done. by eapply put_queue_done.
Qed.

(** ** The refused and the prepared submission *)

(** The doorbell of the I/O queue, the last step of an accepted submission. *)
Definition ring_io_doorbell (h : host W) (tail : Z) : outcome (blk_status_t * host W) :=
  w ← ctl_write (h_bus h) (OPENFLASH_SQ_TAIL_DB 1) (u32 tail);
  Done (BLK_STS_OK, with_bus w h).

(** A refused request: nothing of it is left. *)
Record refused h q r h' : Prop := {
  rf_owned : owned h' q;
  rf_dev : h_dev h' = h_dev h;
  rf_requests : same_requests (h_kern h) (h_kern h');
  rf_mapped : k_mapped (h_kern h') ≡ₚ k_mapped (h_kern h);
  rf_memory : changes [sgl_region r; sq_region q] (h_bus h) (h_bus h');
}.

Definition held_slot (rq : request) (m : nat) (dir : dma_data_direction)
    (r : openflash_request) : openflash_request :=
  {| r_rq := Some rq; r_sgl_dma := r_sgl_dma r; r_nr_mapped := m;
     r_dma_dir := if (0 <? m)%nat then dir else r_dma_dir r |}.

(** The I/O queue once [rq] is in slot [r] and the tail has moved. *)
Definition published (q : openflash_queue) (rq : request) (m : nat)
    (dir : dma_data_direction) (r : openflash_request) : openflash_queue :=
  with_sq_tail ((dq_sq_tail q + 1) `mod` dq_depth q)
    (with_requests (<[rq_tag rq := held_slot rq m dir r]> (dq_requests q)) q).

(** An accepted request, the doorbell still to be rung. *)
Record prepared h q rq op m dir r hb : Prop := {
  pp_owned : owned hb (published q rq m dir r);
  pp_inflight : k_inflight (h_kern hb) = rq :: k_inflight (h_kern h);
  pp_ended : k_ended (h_kern hb) = k_ended (h_kern h);
  pp_held : k_held (h_kern hb) = k_held (h_kern h);
  pp_dev : with_queues None (h_dev hb) = with_queues None (h_dev h);
  pp_admin : queue_at hb 0 = queue_at h 0;
  pp_memory : changes [sgl_region r; sq_region q] (h_bus h) (h_bus hb);
  pp_stored : stored (h_bus h) (h_bus hb);
  pp_command : dma_read (h_bus hb) (dq_sq_dma q + dq_sq_tail q * CMD_SIZE) CMD_SIZE =
    encode_command (final_command q rq op m (r_sgl_dma r));
}.

(** Ownership after memory changed in an empty slot's list and the ring, and
    the mappings became those of before. *)
Lemma owned_refused h q r tag h' :
  owned h q → io_layout q → dq_requests q !! tag = Some r → r_rq r = None →
  h_dev h' = h_dev h → same_requests (h_kern h) (h_kern h') →
  k_mapped (h_kern h') ≡ₚ k_mapped (h_kern h) →
  changes [sgl_region r; sq_region q] (h_bus h) (h_bus h') → refused h q r h'.
Proof.
  intros Ho Hl Hr Hnone Hd (Hi & He & Hh) Hm Hc. constructor; try done.
  pose proof (slot_mappings_kept h q tag r _ Ho Hl Hr Hnone Hc) as Hkept.
  destruct Ho as [Hq ? ? ? ? Hfl Hmp]. constructor; try done.
  - unfold queue_at. by rewrite Hd.
  - by rewrite Hi.
  - rewrite Hm, Hmp. apply reflexive_eq, bind_ext_elem.
    intros r' (j & Hj)%list_elem_of_lookup. by rewrite (Hkept j).
Qed.

Lemma unmap_refused h q r tag dir m h1 :
  owned h q → io_layout q → dq_requests q !! tag = Some r → r_rq r = None →
  h_dev h1 = h_dev h → same_requests (h_kern h) (h_kern h1) →
  Z.of_nat m ≤ OPENFLASH_MAX_SGL_ENTRIES →
  k_mapped (h_kern h1) ≡ₚ
    (sgl_mapping (h_bus h1) (r_sgl_dma r) dir <$> seq 0 m) ++ k_mapped (h_kern h) →
  changes [sgl_region r; sq_region q] (h_bus h) (h_bus h1) →
  wp (unmap_sgl (r_sgl_dma r) dir m) (λ _ h', refused h q r h') h1.
Proof.
  intros Ho Hl Hr Hnone Hd Hrq Hm Hmap Hc. eapply wp_unmap_sgl; [done | exact Hmap |].
  intros ms Hms. by eapply owned_refused.
Qed.

(** Ownership once the request sits in its slot. *)
Lemma owned_prepared h q r rq m dir hb :
  owned h q → io_layout q → dq_requests q !! rq_tag rq = Some r → r_rq r = None →
  Z.of_nat m ≤ OPENFLASH_MAX_SGL_ENTRIES →
  queue_at hb 1 = Some (published q rq m dir r) →
  k_inflight (h_kern hb) = rq :: k_inflight (h_kern h) →
  k_mapped (h_kern hb) ≡ₚ
    (sgl_mapping (h_bus hb) (r_sgl_dma r) dir <$> seq 0 m) ++ k_mapped (h_kern h) →
  changes [sgl_region r; sq_region q] (h_bus h) (h_bus hb) →
  owned hb (published q rq m dir r).
Proof.
  intros Ho Hl Hr Hnone Hm Hq Hi Hmap Hc.
  pose proof (slot_mappings_kept h q _ r _ Ho Hl Hr Hnone Hc) as Hkept.
  assert (rq_tag rq < length (dq_requests q))%nat as Hlt by (by eapply lookup_lt_Some).
  destruct Ho as [_ Hd Hs Ht Hn Hfl Hmp].
  destruct (slot_split _ (rq_tag rq) r (held_slot rq m dir r) Hr) as (rest & Hp & Hp').
  assert (dq_requests q ≫= slot_mappings (h_bus hb) ≡ₚ
          dq_requests q ≫= slot_mappings (h_bus h)) as Hsame.
  { apply reflexive_eq, bind_ext_elem. intros r' (j & Hj)%list_elem_of_lookup.
    by rewrite (Hkept j). }
  constructor; [done | done | cbn; by rewrite length_insert | | | |].
  - intros i r1 rq1 Hi1 Hrq1. cbn in Hi1. destruct (decide (i = rq_tag rq)) as [-> | Hne].
    + rewrite list_lookup_insert_eq in Hi1 by done. by simplify_eq/=.
    + rewrite list_lookup_insert_ne in Hi1 by done. eauto.
  - cbn. by apply Forall_insert.
  - rewrite Hi, Hfl. cbn. rewrite Hp', Hp. cbn. by rewrite Hnone.
  - rewrite Hmap, Hmp, <- Hsame. cbn [published with_sq_tail with_requests dq_requests].
    rewrite Hp', Hp. cbn [mbind list_bind].
    replace (slot_mappings (h_bus hb) r) with (@nil mapping)
      by (unfold slot_mappings; by rewrite Hnone).
    rewrite app_nil_l. f_equiv. unfold slot_mappings, held_slot. cbn [r_rq r_nr_mapped
      r_sgl_dma r_dma_dir]. by destruct m.
Qed.

Lemma sq_write w q c :
  io_layout q →
  let a := dq_sq_dma q + dq_sq_tail q * CMD_SIZE in
  let w' := dma_write w a (encode_command c) in
  changes [sq_region q] w w' ∧ dma_read w' a CMD_SIZE = encode_command c.
Proof.
  intros Hl a w'. pose proof (lay_tail _ Hl).
  assert (len (encode_command c) = CMD_SIZE) as Hlen
    by (by rewrite length_encode_command_driver).
  assert (is_ram a (len (encode_command c))) as Hr.
  { eapply is_ram_sub; [apply (lay_sq _ Hl) | ..]; unfold a, CMD_SIZE in *; lia. }
  split.
  - eapply changes_write; [done | apply list_elem_of_here | ..];
      unfold a, CMD_SIZE in *; lia.
  - rewrite <- Hlen. by apply dma_read_write_same.
Qed.

(** A FUA request on a controller without FUA. *)
Definition lacks_fua h (rq : request) : Prop :=
  rq_fua rq = true ∧ has_flag (of_capabilities (h_dev h)) OPENFLASH_CAP_FUA = false.

(** ** From the label [submit], with [m] segments mapped into the empty slot [r] *)
Section Slot.
Context (h h1 : host W) (q : openflash_queue) (rq : request) (op : Z).
Context (dir : dma_data_direction) (m : nat) (r : openflash_request).
Hypothesis Ho : owned h q.
Hypothesis Hl : io_layout q.
Hypothesis Hr : dq_requests q !! rq_tag rq = Some r.
Hypothesis Hnone : r_rq r = None.
Hypothesis Hqid : dq_qid q = 1.
Hypothesis Hm : Z.of_nat m ≤ OPENFLASH_MAX_SGL_ENTRIES.
Hypothesis Hms : mapped_state h (r_sgl_dma r) dir h1 m.

Let sq_addr : Z := dq_sq_dma q + dq_sq_tail q * CMD_SIZE.
Let w1 : W := dma_write (h_bus h1) sq_addr (encode_command (base_command q rq op)).
Let w2 : W :=
  dma_write w1 sq_addr (encode_command (final_command q rq op m (r_sgl_dma r))).

Lemma slot_queue : queue_at h1 1 = Some q.
Proof. unfold queue_at. rewrite (ms_dev _ _ _ _ _ Hms). apply Ho. Qed.

Lemma slot_first_store :
  changes [sq_region q] (h_bus h1) w1 ∧ changes [sgl_region r; sq_region q] (h_bus h) w1.
Proof.
  destruct (sq_write (h_bus h1) q (base_command q rq op) Hl) as [Hc _].
  split; [done |]. eapply changes_trans; [apply changes_l, (ms_memory _ _ _ _ _ Hms) |].
  by apply changes_r.
Qed.

Lemma slot_second_store :
  changes [sgl_region r; sq_region q] (h_bus h) w2 ∧
  dma_read w2 sq_addr CMD_SIZE = encode_command (final_command q rq op m (r_sgl_dma r)) ∧
  ∀ i, (i < m)%nat →
    sgl_desc_at w2 (r_sgl_dma r) i = sgl_desc_at (h_bus h1) (r_sgl_dma r) i.
Proof.
  destruct slot_first_store as [Hc1 Hch1]. destruct (lay_sgl _ Hl _ _ Hr) as [Hram Hout].
  destruct (sq_write w1 q (final_command q rq op m (r_sgl_dma r)) Hl) as [Hc2 Hcmd].
  split; [eapply changes_trans; [exact Hch1 | by apply changes_r] |]. split; [done |].
  intros i Hi. etrans; eapply changes_sgl;
    [exact Hc2 | done | done | lia | exact Hc1 | done | done | lia].
Qed.

(** Mappings described by descriptors that a write has kept. *)
Lemma kept_mappings w' :
  (∀ i, (i < m)%nat → sgl_desc_at w' (r_sgl_dma r) i = sgl_desc_at (h_bus h1) (r_sgl_dma r) i) →
  k_mapped (h_kern h1) ≡ₚ
    (sgl_mapping w' (r_sgl_dma r) dir <$> seq 0 m) ++ k_mapped (h_kern h).
Proof.
  intros Hk. rewrite (ms_mapped _ _ _ _ _ Hms). f_equiv. apply reflexive_eq, list_fmap_ext.
  intros i x Hx. apply lookup_seq in Hx as [-> Hx].
  by rewrite !sgl_mapping_desc, Hk by lia.
Qed.

(** The host at the doorbell. *)
Let hb : host W :=
  upd_queue 1 (with_sq_tail ((dq_sq_tail q + 1) `mod` dq_depth q))
    (with_kern (with_requests_state (rq :: k_inflight (h_kern h1)) (k_ended (h_kern h1))
        (h_kern h1))
      (upd_queue 1 (with_requests (<[rq_tag rq := held_slot rq m dir r]> (dq_requests q)))
        (with_bus w2 (upd_queue 1 (with_requests (<[rq_tag rq :=
           with_nr_mapped m (if (0 <? m)%nat then dir else r_dma_dir r) r]> (dq_requests q)))
           (with_bus w1 h1))))).

Lemma slot_prepared : prepared h q rq op m dir r hb.
Proof.
  destruct slot_second_store as (Hch & Hcmd & Hkeep).
  destruct Hms as [Hdev (Hi & He & Hh) _ Hst _].
  assert (queue_at hb 1 = Some (published q rq m dir r)) as Hq.
  { unfold hb. by rewrite queue_at_upd, queue_at_kern, queue_at_upd, queue_at_bus,
      queue_at_upd, queue_at_bus, slot_queue. }
  constructor; try done.
  - eapply owned_prepared; try done.
    + cbn. by rewrite Hi.
    + by apply (kept_mappings w2).
  - cbn. by rewrite Hi.
  - cbn. by rewrite Hdev.
  - unfold hb. rewrite queue_at_upd_ne, queue_at_kern, queue_at_upd_ne, queue_at_bus,
      queue_at_upd_ne, queue_at_bus by done.
    unfold queue_at. by rewrite Hdev.
  - cbn. by apply stored_write, stored_write.
Qed.

(** Both ways on from the test of the FUA capability. *)
Lemma submit_notsupp :
  rq_fua rq && negb (has_flag (of_capabilities (h_dev h)) OPENFLASH_CAP_FUA) = true →
  ∃ h', submit rq op dir m h1 = Done (BLK_STS_NOTSUPP, h') ∧ refused h q r h'.
Proof.
  intros Hfua. destruct slot_first_store as [Hc1 Hch1].
  destruct (lay_sgl _ Hl _ _ Hr) as [Hram Hout]. pose proof Hms as [Hdev Hreq _ _ _].
  unfold submit. erewrite bind_done by done.
  erewrite bind_done by (by apply get_queue_done, slot_queue).
  erewrite bind_done by (by eapply get_request_done; [apply slot_queue |]).
  rewrite Hnone. erewrite bind_done by (by apply slot_done, (lay_tail _ Hl)).
  erewrite bind_done by done. rewrite Hdev, Hfua.
  edestruct (unmap_refused h q r (rq_tag rq) dir m (with_bus w1 h1))
    as ([] & h' & E & Href); try done.
  { apply kept_mappings. intros i Hi. eapply changes_sgl; [exact Hc1 | done | done | lia]. }
  exists h'. erewrite bind_done by exact E. done.
Qed.

Lemma submit_ok :
  rq_fua rq && negb (has_flag (of_capabilities (h_dev h)) OPENFLASH_CAP_FUA) = false →
  submit rq op dir m h1 = ring_io_doorbell hb ((dq_sq_tail q + 1) `mod` dq_depth q).
Proof.
  intros Hfua. pose proof (lay_tail _ Hl) as Ht. pose proof (ow_depth _ _ Ho) as Hd.
  pose proof slot_queue as Hq1. pose proof Hms as [Hdev _ _ _ _].
  pose proof (lookup_lt_Some _ _ _ Hr) as Hlt.
  unfold submit. erewrite bind_done by done.
  erewrite bind_done by (by apply get_queue_done).
  erewrite bind_done by (by eapply get_request_done).
  rewrite Hnone. erewrite bind_done by (by apply slot_done).
  erewrite bind_done by done. rewrite Hdev, Hfua.
  erewrite bind_done by (by eapply put_request_done). cbv beta.
  erewrite bind_done by done.
  erewrite bind_done by (eapply put_request_done;
    [rewrite queue_at_bus, queue_at_upd, queue_at_bus, Hq1; done |
     by apply list_lookup_insert_eq]).
  cbn [dq_requests with_requests]. rewrite list_insert_insert_eq.
  erewrite bind_done by done.
  erewrite bind_done by (unfold lift; by rewrite c_mod_pos by lia).
  pose proof (Z.mod_pos_bound (dq_sq_tail q + 1) (dq_depth q)). rewrite u16_small by lia.
  erewrite bind_done by (eapply put_queue_done; rewrite queue_at_kern, queue_at_upd,
    queue_at_bus, queue_at_upd, queue_at_bus, Hq1; done).
  rewrite Hqid. unfold ring_io_doorbell, mbind, drv_bind, outcome_bind, writel.
  change (with_rq (Some rq) (with_nr_mapped m (if (0 <? m)%nat then dir else r_dma_dir r) r))
    with (held_slot rq m dir r).
  fold sq_addr w1 w2 hb. by destruct ctl_write.
Qed.

Lemma submit_spec :
  (∃ h', submit rq op dir m h1 = Done (BLK_STS_NOTSUPP, h') ∧ lacks_fua h rq ∧
     refused h q r h') ∨
  (∃ hb, ¬ lacks_fua h rq ∧ submit rq op dir m h1 =
       ring_io_doorbell hb ((dq_sq_tail q + 1) `mod` dq_depth q) ∧
     prepared h q rq op m dir r hb ∧
     ∀ i, (i < m)%nat →
       sgl_desc_at (h_bus hb) (r_sgl_dma r) i = sgl_desc_at (h_bus h1) (r_sgl_dma r) i).
Proof.
  destruct (rq_fua rq && negb (has_flag (of_capabilities (h_dev h)) OPENFLASH_CAP_FUA))
    eqn:Hfua.
  - left. destruct (submit_notsupp Hfua) as (h' & E & Href). exists h'.
    apply andb_true_iff in Hfua as [Hf Hcap]. apply negb_true_iff in Hcap. done.
  - right. exists hb. split; [intros [Hf Hc]; by rewrite Hf, Hc in Hfua |].
    split; [by apply submit_ok |]. split; [apply slot_prepared |].
    apply slot_second_store.
Qed.
End Slot.

(** ** openflash_queue_rq *)

(** The opcode of a request, and the direction of its data if it has any. *)
Definition opcode_of (op : req_op) : option (Z * option dma_data_direction) :=
  match op with
  | REQ_OP_READ => Some (OPENFLASH_OP_READ, Some DMA_FROM_DEVICE)
  | REQ_OP_WRITE => Some (OPENFLASH_OP_WRITE, Some DMA_TO_DEVICE)
  | REQ_OP_FLUSH => Some (OPENFLASH_OP_FLUSH, None)
  | REQ_OP_DISCARD => Some (OPENFLASH_OP_DISCARD, None)
  | REQ_OP_OTHER => None
  end.

Definition segments (rq : request) : list bio_vec :=
  match opcode_of (rq_opf rq) with
  | Some (_, Some _) => rq_bvecs rq
  | _ => []
  end.

(** Requests refused before anything is mapped. *)
Definition early_refusal (q : openflash_queue) (rq : request) : option blk_status_t :=
  if negb (rq_pos rq `mod` OPENFLASH_SECTORS_PER_BLOCK =? 0)
     || negb (rq_bytes rq `mod` OPENFLASH_BLOCK_SIZE =? 0)
     || (dq_depth q <=? u16 (Z.of_nat (rq_tag rq) + 1))
  then Some BLK_STS_IOERR
  else if rq_fua rq && negb (bool_decide (rq_opf rq = REQ_OP_WRITE))
  then Some BLK_STS_NOTSUPP
  else match opcode_of (rq_opf rq) with
       | None => Some BLK_STS_NOTSUPP
       | Some (_, None) => None
       | Some (_, Some _) =>
           if (rq_bytes rq =? 0) || (OPENFLASH_MAX_SGL_ENTRIES <? rq_nr_phys_segments rq)
           then Some BLK_STS_IOERR else None
       end.

(** Why a request is refused, with which status. *)
Inductive refusal h q rq : blk_status_t → Prop :=
| refused_early st : early_refusal q rq = Some st → refusal h q rq st
| refused_mapping op dir :
    early_refusal q rq = None → opcode_of (rq_opf rq) = Some (op, Some dir) →
    Exists (unmappable dir) (rq_bvecs rq) → refusal h q rq BLK_STS_RESOURCE
| refused_fua :
    early_refusal q rq = None → lacks_fua h rq → refusal h q rq BLK_STS_NOTSUPP.

(** The outcome of a submission: refused for a reason, or ready for the
    doorbell with one descriptor per segment, at the address the kernel mapped
    it to. *)
Definition submission h q rq r (o : outcome (blk_status_t * host W)) : Prop :=
  (∃ st h', o = Done (st, h') ∧ st ≠ BLK_STS_OK ∧ refusal h q rq st ∧ refused h q r h') ∨
  (∃ op dir addrs hb,
     o = ring_io_doorbell hb ((dq_sq_tail q + 1) `mod` dq_depth q) ∧
     early_refusal q rq = None ∧ ¬ lacks_fua h rq ∧
     (∃ d, opcode_of (rq_opf rq) = Some (op, d) ∧ default dir d = dir) ∧
     prepared h q rq op (length (segments rq)) dir r hb ∧
     Forall2 (mapped_at dir) addrs (segments rq) ∧
     sgl_desc_at (h_bus hb) (r_sgl_dma r) <$> seq 0 (length (segments rq)) =
       zip_with segment_desc addrs (segments rq)).

Lemma mapped_state_refl h sgl dir : mapped_state h sgl dir h 0.
Proof. constructor; [done | done | apply changes_refl | apply rtc_refl | done]. Qed.

Lemma refused_refl h q r : owned h q → refused h q r h.
Proof. intros. constructor; [done.. | apply changes_refl]. Qed.

Lemma submit_nodata h q rq r op :
  owned h q → io_layout q → dq_qid q = 1 → dq_requests q !! rq_tag rq = Some r →
  r_rq r = None → early_refusal q rq = None → opcode_of (rq_opf rq) = Some (op, None) →
  submission h q rq r (submit rq op DMA_TO_DEVICE 0 h).
Proof.
  intros Ho Hl Hqid Hr Hnone Hearly Hop.
  destruct (submit_spec h h q rq op DMA_TO_DEVICE 0 r)
    as [(h' & E & Hf & Href) | (hb & Hf & E & Hp & _)]; try done.
  - left. eexists _, _. split_and!; [done | done | by apply refused_fua | done].
  - right. exists op, DMA_TO_DEVICE, [], hb. unfold segments. rewrite Hop. cbn.
    split_and!; [done | done | done | by exists None | done | constructor | done].
Qed.

Lemma submit_data_spec h q rq r op dir :
  owned h q → io_layout q → dq_qid q = 1 → dq_requests q !! rq_tag rq = Some r →
  r_rq r = None → opcode_of (rq_opf rq) = Some (op, Some dir) →
  early_refusal q rq = (if (rq_bytes rq =? 0)
      || (OPENFLASH_MAX_SGL_ENTRIES <? rq_nr_phys_segments rq)
    then Some BLK_STS_IOERR else None) →
  len (rq_bvecs rq) ≤ OPENFLASH_MAX_SGL_ENTRIES →
  Forall (λ bv, 0 ≤ bv_len bv < 2 ^ 32) (rq_bvecs rq) →
  submission h q rq r (submit_data rq op dir h).
Proof.
  intros Ho Hl Hqid Hr Hnone Hop Hearly Hlen Hbv. unfold submit_data.
  erewrite bind_done by (eapply get_request_done; [apply Ho | done]).
  destruct (_ || _).
  { left. eexists _, _. split_and!; [done | done | by apply refused_early |].
    by apply refused_refl. }
  destruct (lay_sgl _ Hl _ _ Hr) as [Hram _].
  destruct (wp_map_segments (r_sgl_dma r) dir (rq_bvecs rq) 0 h h) as ([m ok] & h1 & E & Hms
    & Hle & _ & Hko & Hok); [apply mapped_state_refl | done | done | done |].
  cbn [fst snd Nat.add] in *. erewrite bind_done by exact E. destruct ok; cbn [negb].
  - destruct Hok as (addrs & Hla & -> & Hds); [done |].
    destruct (submit_spec h h1 q rq op dir (length (rq_bvecs rq)) r)
      as [(h' & E' & Hf & Href) | (hb & Hf & E' & Hp & Hkeep)]; try done.
    { left. eexists _, _. split_and!; [done | done | by apply refused_fua | done]. }
    right. exists op, dir, addrs, hb. unfold segments. rewrite Hop.
    split_and!; [done | done | done | by exists (Some dir) | done | done |].
    rewrite <- Hds. apply list_fmap_ext. intros i x Hx. apply lookup_seq in Hx as [-> Hx].
    by apply Hkeep.
  - left. edestruct (unmap_refused h q r (rq_tag rq) dir m h1) as ([] & h' & E' & Href);
      [done.. | apply Hms | apply Hms | lia | apply Hms | |].
    { apply changes_l, (ms_memory _ _ _ _ _ Hms). }
    exists BLK_STS_RESOURCE, h'. erewrite bind_done by exact E'.
    split_and!; [done | done | | done]. by eapply refused_mapping; [| | apply Hko].
Qed.

Lemma queue_rq_spec h q rq r :
  owned h q → io_layout q → dq_qid q = 1 → dq_requests q !! rq_tag rq = Some r →
  r_rq r = None → len (rq_bvecs rq) ≤ OPENFLASH_MAX_SGL_ENTRIES →
  Forall (λ bv, 0 ≤ bv_len bv < 2 ^ 32) (rq_bvecs rq) →
  submission h q rq r (openflash_queue_rq rq h).
Proof.
  intros Ho Hl Hqid Hr Hnone Hlen Hbv. unfold openflash_queue_rq.
  erewrite bind_done by (apply get_queue_done; apply Ho).
  assert (∀ st, st ≠ BLK_STS_OK → early_refusal q rq = Some st →
    submission h q rq r (Done (st, h))) as Hearly.
  { intros st Hst He. left. eexists _, _.
    split_and!; [done | done | by apply refused_early | by apply refused_refl]. }
  unfold early_refusal in Hearly.
  destruct (_ || _) eqn:E1; [by apply Hearly |].
  destruct (_ && _) eqn:E2; [by apply Hearly |].
  destruct (rq_opf rq) eqn:Hop; cbn [opcode_of] in Hearly.
  1, 2: apply submit_data_spec; try done; [by rewrite Hop |];
    unfold early_refusal; by rewrite E1, Hop, E2.
  1, 2: apply submit_nodata; try done; [| by rewrite Hop];
    unfold early_refusal; by rewrite E1, Hop, E2.
  by apply Hearly.
Qed.

(** ** A slot that is in use *)

(** A request turned away because its slot holds another: nothing is mapped or in
    flight that was not before; the slot's descriptor list may be overwritten. *)
Record turned_away h r h' : Prop := {
  ta_dev : h_dev h' = h_dev h;
  ta_requests : same_requests (h_kern h) (h_kern h');
  ta_mapped : k_mapped (h_kern h') ≡ₚ k_mapped (h_kern h);
  ta_memory : changes [sgl_region r] (h_bus h) (h_bus h');
}.

Lemma unmap_turned_away h r dir m h1 :
  mapped_state h (r_sgl_dma r) dir h1 m → Z.of_nat m ≤ OPENFLASH_MAX_SGL_ENTRIES →
  ∃ h', (unmap_sgl (r_sgl_dma r) dir m ;; mret BLK_STS_RESOURCE) h1 = Done (BLK_STS_RESOURCE, h') ∧
    turned_away h r h'.
Proof.
  intros Hms Hm.
  assert (wp (unmap_sgl (r_sgl_dma r) dir m) (λ _ h', turned_away h r h') h1) as ([] & h' & E & Ht).
  { eapply wp_unmap_sgl; [done | apply Hms |]. intros ms Hp. destruct Hms. by constructor. }
  exists h'. by rewrite (bind_done _ _ _ _ _ E).
Qed.

Lemma submit_busy h h1 q rq r op dir m :
  queue_at h1 1 = Some q → dq_requests q !! rq_tag rq = Some r → r_rq r ≠ None →
  mapped_state h (r_sgl_dma r) dir h1 m → Z.of_nat m ≤ OPENFLASH_MAX_SGL_ENTRIES →
  ∃ h', submit rq op dir m h1 = Done (BLK_STS_RESOURCE, h') ∧ turned_away h r h'.
Proof.
  intros Hq Hr Hbusy Hms Hm. unfold submit. erewrite bind_done by done.
  erewrite bind_done by (by apply get_queue_done).
  erewrite bind_done by (by eapply get_request_done).
  destruct (r_rq r); [| done]. by apply unmap_turned_away.
Qed.

Lemma queue_rq_busy h q rq r :
  queue_at h 1 = Some q → io_layout q → dq_requests q !! rq_tag rq = Some r → r_rq r ≠ None →
  len (rq_bvecs rq) ≤ OPENFLASH_MAX_SGL_ENTRIES →
  Forall (λ bv, 0 ≤ bv_len bv < 2 ^ 32) (rq_bvecs rq) →
  ∃ h', openflash_queue_rq rq h = Done (default BLK_STS_RESOURCE (early_refusal q rq), h') ∧
    turned_away h r h'.
Proof.
  intros Hq Hl Hr Hbusy Hlen Hbv. unfold openflash_queue_rq, early_refusal.
  erewrite bind_done by (by apply get_queue_done).
  assert (turned_away h r h) as Hrefl by (constructor; [done.. | apply changes_refl]).
  destruct (_ || _) eqn:E1; [by exists h |]. destruct (_ && _) eqn:E2; [by exists h |].
  assert (∀ op dir, ∃ h', submit_data rq op dir h = Done (default BLK_STS_RESOURCE
    (if (rq_bytes rq =? 0) || (OPENFLASH_MAX_SGL_ENTRIES <? rq_nr_phys_segments rq)
     then Some BLK_STS_IOERR else None), h') ∧ turned_away h r h') as Hdata.
  { intros op dir. unfold submit_data. erewrite bind_done by (by eapply get_request_done).
    destruct ((rq_bytes rq =? 0) || _); [by exists h |]. destruct (lay_sgl _ Hl _ _ Hr) as [Hram _].
    destruct (wp_map_segments (r_sgl_dma r) dir (rq_bvecs rq) 0 h h) as ([m ok] & h1 & E & Hms
      & Hle & _); [apply mapped_state_refl | done | done | done |].
    cbn [fst snd Nat.add] in *. rewrite (bind_done _ _ _ _ _ E). destruct ok; cbn [negb default].
    - apply (submit_busy h h1 q); try done; [| lia].
      unfold queue_at. by rewrite (ms_dev _ _ _ _ _ Hms).
    - apply unmap_turned_away; [done | lia]. }
  destruct (rq_opf rq); cbn [opcode_of default]; [apply Hdata | apply Hdata | | | by exists h];
    (apply (submit_busy h h q); try done; apply mapped_state_refl).
Qed.

(** The outcome for either state of the slot. *)
Definition outcome_for h q rq r (o : outcome (blk_status_t * host W)) : Prop :=
  match r_rq r with
  | None => submission h q rq r o
  | Some _ => ∃ h', o = Done (default BLK_STS_RESOURCE (early_refusal q rq), h') ∧
      turned_away h r h'
  end.

Lemma outcome_free h q rq r o : outcome_for h q rq r o → r_rq r = None → submission h q rq r o.
Proof. unfold outcome_for. intros Ho Hn. by rewrite Hn in Ho. Qed.

(** ** More segments than descriptors *)
Lemma map_segments_overflow sgl dir bvs m h :
  (∀ k bv dir, dma_map_bvec k bv dir ≠ None) →
  Z.of_nat m ≤ OPENFLASH_MAX_SGL_ENTRIES < Z.of_nat (m + length bvs) →
  map_segments sgl dir bvs m h = Undef.
Proof.
  intros Hmap. revert m h. induction bvs as [| bv bvs IH]; intros m h Hm; cbn in Hm; [lia |].
  cbn [map_segments]. unfold map_bvec.
  destruct (dma_map_bvec (h_kern h) bv dir) as [a |] eqn:Ea; [| by apply Hmap in Ea].
  erewrite bind_done by (erewrite bind_done by done; by rewrite Ea).
  destruct (Z.lt_ge_cases (Z.of_nat m) OPENFLASH_MAX_SGL_ENTRIES) as [Hlt | Hge].
  - erewrite bind_done by (apply slot_done; lia). erewrite bind_done by done.
    apply IH. lia.
  - unfold mbind, drv_bind, slot. rewrite (proj2 (Z.ltb_ge _ _)), andb_false_r by lia. done.
Qed.

(** ** Interrupts while nothing completes *)
Lemma io_irqs_idle fuel n h q k :
  queue_at h 1 = Some q → 0 < dq_depth q → consumed q k → ¬ is_new (h_bus h) q k →
  deliver_io_irqs fuel n h = Done ((), h).
Proof.
  intros Hq Hd Hk Hnew. induction n as [| n IH]; cbn [deliver_io_irqs]; [done |].
  erewrite bind_done by (by eapply io_irq_idle). exact IH.
Qed.
End Submit.
