(* ===== verification/DriverResources.v ===== *)
(** * Resources of the driver on every path of probe and remove

    [swp m Q h]: run on [h], [m] does not reach undefined behaviour, and if
    it returns, [Q] holds.  With releases of unheld resources undefined, this
    shows that set-up and teardown release exactly what was acquired. *)
From S2P Require Import Prelude Packed Environment Rings Abi DriverState DriverQueue.
From S2P Require Import DriverCore DriverLogic DriverFrame DriverSafety.

Section Swp.
Context {W : Type} `{GM : GuestMemory W, CT : Controller W, KS : KernelServices}.
Context `{!ControllerLaws W}.
Implicit Types h : host W.

Definition swp {A} (m : drv W A) (Q : A → host W → Prop) h : Prop :=
  match m h with Done (a, h') => Q a h' | Undef => False | NoFuel => True end.

Lemma swp_ret {A} (a : A) (Q : A → host W → Prop) h : Q a h → swp (mret a) Q h.
Proof. done. Qed.

Lemma swp_bind {A B} (m : drv W A) (k : A → drv W B) Q h :
  swp m (λ a h', swp (k a) Q h') h → swp (m ≫= k) Q h.
Proof. unfold swp, mbind, drv_bind. by destruct (m h) as [[a h'] | |]. Qed.

Lemma swp_mono {A} (m : drv W A) (Q Q' : A → host W → Prop) h :
  swp m Q h → (∀ a h', Q a h' → Q' a h') → swp m Q' h.
Proof. unfold swp. destruct (m h) as [[a h'] | |]; auto. Qed.

(** Total correctness is stronger. *)
Lemma wp_swp {A} (m : drv W A) Q h : wp m Q h → swp m Q h.
Proof. intros (a & h' & E & HQ). unfold swp. by rewrite E. Qed.

Lemma swp_done {A} (m : drv W A) Q h a h' : swp m Q h → m h = Done (a, h') → Q a h'.
Proof. unfold swp. intros HQ E. by rewrite E in HQ. Qed.

(** What [m] preserves comes for free. *)
Lemma swp_keep {A B} (f : host W → B) (m : drv W A) Q h :
  preserves f m → swp m Q h → swp m (λ a h', Q a h' ∧ f h' = f h) h.
Proof.
  unfold swp. intros Hp. destruct (m h) as [[a h'] | |] eqn:E; [| done..].
  intros HQ. split; [done |]. exact (Hp _ _ _ E).
Qed.

Lemma swp_no_fuel {A} (Q : A → host W → Prop) h : swp no_fuel Q h.
Proof. done. Qed.

Lemma swp_writel v addr (Q : () → host W → Prop) h :
  ctl_ok (h_bus h) → (∀ w', ctl_ok w' → Q () (with_bus w' h)) → swp (writel v addr) Q h.
Proof.
  intros Hok HQ. unfold swp, writel.
  pose proof (ctl_ok_write (h_bus h) addr (u32 v) Hok (u32_range v)) as Hw.
  destruct (ctl_write _ _ _); outcomes; auto.
Qed.

Lemma swp_readl addr (Q : Z → host W → Prop) h :
  ctl_ok (h_bus h) → (∀ v, Q v h) → swp (readl addr) Q h.
Proof.
  intros Hok HQ. unfold swp, readl.
  destruct (ctl_ok_read (h_bus h) addr Hok) as [v ->]. apply HQ.
Qed.

Lemma swp_readq addr (Q : Z → host W → Prop) h :
  ctl_ok (h_bus h) → (∀ v, Q v h) → swp (readq addr) Q h.
Proof.
  intros Hok HQ. unfold swp, readq.
  destruct (ctl_ok_read (h_bus h) addr Hok) as [v ->]. apply HQ.
Qed.

(** Releasing a held resource, up to the order of the list. *)
Lemma swp_release r rs (Q : () → host W → Prop) h :
  k_held (h_kern h) ≡ₚ r :: rs →
  (∀ rs', rs' ≡ₚ rs → Q () (with_kern (with_held rs' (h_kern h)) h)) →
  swp (release r) Q h.
Proof.
  intros Hh HQ. destruct (release_done r rs h Hh) as (rs' & Hrs & E).
  unfold swp. rewrite E. by apply HQ.
Qed.

(** ** What admin commands leave alone *)

(** A usable admin queue over a controller that can be accessed. *)
Record admin_ready h : Prop := {
  ar_queue : ∃ q, queue_at h 0 = Some q ∧ 0 < dq_depth q < 2 ^ 16 ∧
    0 ≤ dq_sq_tail q < dq_depth q ∧ 0 ≤ dq_cq_head q < dq_depth q;
  ar_ctl : ctl_ok (h_bus h);
}.

(** [h'] is as usable as [h] and has the same footprint. *)
Definition steady h h' : Prop := admin_ready h' ∧ footprint h' = footprint h.

Lemma steady_trans h1 h2 h3 : steady h1 h2 → steady h2 h3 → steady h1 h3.
Proof. intros [? ?] [? ?]. split; [done | congruence]. Qed.

Lemma steady_bus w h : admin_ready h → ctl_ok w → steady h (with_bus w h).
Proof. intros [Hq _] Hw. split; [by constructor | done]. Qed.

Lemma steady_shape h h' i q q' :
  footprint h' = footprint h → queue_at h i = Some q → queue_at h' i = Some q' →
  shape q' = shape q.
Proof.
  unfold footprint, queue_at. intros E Hq Hq'. injection E as _ E _ _ _.
  destruct (of_queues (h_dev h)) as [qs |]; [| done].
  destruct (of_queues (h_dev h')) as [qs' |]; [| done]. cbn in *. injection E as E.
  apply (f_equal (lookup i)) in E. rewrite !list_lookup_fmap, Hq, Hq' in E.
  cbn [fmap option_fmap option_map] in E. congruence.
Qed.

(** Updates of the admin queue that keep its shape and its cursors in range. *)
Lemma steady_queue f h :
  admin_ready h →
  (∀ q, shape (f q) = shape q) →
  (∀ q, queue_at h 0 = Some q →
     0 ≤ dq_sq_tail q < dq_depth q → 0 ≤ dq_cq_head q < dq_depth q →
     0 ≤ dq_sq_tail (f q) < dq_depth q ∧ 0 ≤ dq_cq_head (f q) < dq_depth q) →
  steady h (upd_queue 0 f h).
Proof.
  intros [(q & Hq & Hd & Ht & Hh) Hok] Hs Hc. split.
  - constructor; [| done]. exists (f q). rewrite queue_at_upd, Hq.
    assert (dq_depth (f q) = dq_depth q) as -> by (specialize (Hs q); unfold shape in Hs; congruence).
    split; [done |]. split; [done |]. by apply Hc.
  - by apply footprint_upd.
Qed.

(** [m] keeps the admin queue usable and the footprint. *)
Definition keeps {A} (m : drv W A) : Prop :=
  ∀ h, admin_ready h → swp m (λ _ h', steady h h') h.

Lemma steady_refl h : admin_ready h → steady h h.
Proof. done. Qed.

Lemma keeps_bind {A B} (m : drv W A) (k : A → drv W B) :
  keeps m → (∀ a, keeps (k a)) → keeps (m ≫= k).
Proof.
  intros Hm Hk h Hr. apply swp_bind. eapply swp_mono; [by apply Hm |].
  intros a h1 H1. eapply swp_mono; [apply Hk, H1 |]. intros b h2 H2. exact (steady_trans _ _ _ H1 H2).
Qed.

Lemma keeps_ret {A} (a : A) : keeps (mret a).
Proof. intros h Hr. by apply swp_ret, steady_refl. Qed.

Lemma keeps_writel v addr : keeps (writel v addr).
Proof. intros h Hr. apply swp_writel; [apply Hr |]. intros. by apply steady_bus. Qed.

Lemma keeps_readl addr : keeps (readl addr).
Proof. intros h Hr. apply swp_readl; [apply Hr |]. intros. by apply steady_refl. Qed.

Lemma keeps_get_queue : keeps (get_queue 0).
Proof.
  intros h Hr. destruct (ar_queue _ Hr) as (q & Hq & _). apply wp_swp.
  eapply wp_get_queue; [done |]. by apply steady_refl.
Qed.

(** Updates that touch neither the shape nor the cursors. *)
Lemma keeps_put_queue f :
  (∀ q, shape (f q) = shape q ∧ dq_sq_tail (f q) = dq_sq_tail q ∧
        dq_cq_head (f q) = dq_cq_head q) → keeps (put_queue 0 f).
Proof.
  intros Hf h Hr. destruct (ar_queue _ Hr) as (q & Hq & _). apply wp_swp.
  eapply wp_put_queue; [done |]. apply steady_queue; [done | apply Hf |].
  intros q' _ ? ?. by destruct (Hf q') as (_ & -> & ->).
Qed.

Lemma keeps_advance_cq : keeps (advance_cq 0).
Proof.
  intros h Hr. destruct (ar_queue _ Hr) as (q & Hq & Hd & Ht & Hh). apply wp_swp.
  unfold advance_cq. apply wp_bind. eapply wp_get_queue; [done |].
  apply wp_bind. eapply wp_lift; [apply c_mod_pos; lia |].
  pose proof (Z.mod_pos_bound (dq_cq_head q + 1) (dq_depth q)).
  rewrite u16_small by lia. eapply wp_put_queue; [done |].
  apply steady_queue; [done | done |]. intros q' Hq' ? ?. rewrite Hq in Hq'. simplify_eq.
  cbn. lia.
Qed.

Lemma keeps_admin_entry e : keeps (admin_entry e).
Proof.
  unfold admin_entry. apply keeps_bind; [apply keeps_get_queue |]. intros q.
  destruct (aw_pending _); [| apply keeps_ret]. by apply keeps_put_queue.
Qed.

Lemma keeps_cq_loop fuel c : keeps (cq_loop fuel 0 admin_entry c).
Proof.
  revert c. induction fuel as [| fuel IH]; intros c h Hr;
    destruct (ar_queue _ Hr) as (q & Hq & Hd & Ht & Hh); cbn [cq_loop];
    apply swp_bind, wp_swp; (eapply wp_get_queue; [done |]);
    apply swp_bind, wp_swp; unfold read_cqe;
    apply wp_bind, wp_slot; try done; apply wp_bind, wp_load, wp_ret;
    case_match; try (by apply swp_ret, steady_refl); [apply swp_no_fuel |].
  refine (keeps_bind _ _ (keeps_admin_entry _) (λ _, _) h Hr).
  apply keeps_bind; [apply keeps_advance_cq | intros _; apply IH].
Qed.

Lemma keeps_irq fuel : keeps (openflash_irq fuel).
Proof.
  unfold openflash_irq, openflash_drain_admin_cq.
  apply keeps_bind; [apply keeps_readl | intros st].
  destruct (negb _); [apply keeps_ret |].
  apply keeps_bind; [| intros; apply keeps_ret].
  apply keeps_bind; [apply keeps_cq_loop | intros c].
  destruct (c =? 0); [apply keeps_ret |].
  apply keeps_bind; [apply keeps_get_queue | intros q].
  apply keeps_bind; [apply keeps_writel | intros; apply keeps_ret].
Qed.

Lemma keeps_deliver fuel n : keeps (deliver_irqs fuel n).
Proof.
  induction n; cbn [deliver_irqs]; [apply keeps_ret |].
  by apply keeps_bind; [apply keeps_irq | intros].
Qed.

Lemma keeps_admin_submit cmd : keeps (admin_submit cmd).
Proof.
  intros h Hr. destruct (ar_queue _ Hr) as (q & Hq & Hd & Ht & Hh). unfold admin_submit.
  apply swp_bind, wp_swp. eapply wp_get_queue; [done |].
  apply swp_bind. eapply swp_mono; [by apply keeps_put_queue |]. intros [] h1 H1.
  apply swp_bind. eapply swp_mono; [apply keeps_put_queue; [done | apply H1] |].
  intros [] h2 H2. pose proof (steady_trans _ _ _ H1 H2) as H12.
  apply swp_bind, wp_swp, wp_slot; [done |]. apply swp_bind, wp_swp, wp_store.
  assert (steady h (with_bus (dma_write (h_bus h2)
    (dq_sq_dma q + dq_sq_tail q * CMD_SIZE)
    (encode_command (with_cid (dq_qid q) (fresh_cid (dq_next_cid q)) cmd))) h2)) as H3.
  { eapply steady_trans; [exact H12 |]. apply steady_bus; [apply H2 |].
    apply ctl_ok_store. apply H2. }
  apply swp_bind, wp_swp. eapply wp_lift; [apply c_mod_pos; lia |].
  pose proof (Z.mod_pos_bound (dq_sq_tail q + 1) (dq_depth q)). rewrite u16_small by lia.
  destruct (ar_queue _ (proj1 H3)) as (q3 & Hq3 & Hd3 & Ht3 & Hh3).
  apply swp_bind, wp_swp. eapply wp_put_queue; [exact Hq3 |].
  assert (dq_depth q3 = dq_depth q) as Hd'.
  { pose proof (steady_shape _ _ _ _ _ (proj2 H3) Hq Hq3) as Hs. by injection Hs. }
  set (h4 := upd_queue 0 _ _). assert (steady h h4) as H4.
  { eapply steady_trans; [exact H3 |]. apply steady_queue; [apply H3 | done |].
    intros q' Hq' ? ?. cbn. rewrite Hq3 in Hq'. simplify_eq. rewrite Hd'. lia. }
  eapply swp_mono; [apply keeps_writel, H4 |].
  intros [] h5 H5. exact (steady_trans _ _ _ H4 H5).
Qed.

Lemma keeps_admin_command sc cmd : keeps (openflash_admin_command sc cmd).
Proof.
  unfold openflash_admin_command.
  apply keeps_bind; [apply keeps_admin_submit | intros _].
  apply keeps_bind; [apply keeps_deliver | intros _].
  apply keeps_bind; [apply keeps_get_queue | intros q].
  destruct (aw_done _).
  - apply keeps_bind; [apply keeps_deliver | intros _].
    apply keeps_bind; [by apply keeps_put_queue | intros _; apply keeps_ret].
  - apply keeps_bind; [by apply keeps_put_queue | intros _].
    repeat case_match; apply keeps_ret.
Qed.

(** ** Acquiring and releasing *)
Abbreviation held h := (k_held (h_kern h)).

Lemma swp_alloc size (Q : option Z → host W → Prop) h :
  ctl_ok (h_bus h) →
  (dma_alloc_coherent (h_kern h) size = None →
   ∀ h', h_dev h' = h_dev h → held h' = held h → ctl_ok (h_bus h') → Q None h') →
  (∀ a h', h_dev h' = h_dev h → held h' = Coherent a size :: held h → ctl_ok (h_bus h') →
     Q (Some a) h') →
  swp (alloc_coherent size) Q h.
Proof.
  intros Hok Hnone Hsome. unfold alloc_coherent. apply swp_bind, wp_swp, wp_ask.
  destruct (dma_alloc_coherent (h_kern h) size) as [a |] eqn:E.
  - unfold acquire. apply swp_bind, wp_swp, wp_put_kern.
    apply swp_bind, wp_swp, wp_store, swp_ret. apply Hsome; [done | done |].
    by apply ctl_ok_store.
  - apply swp_ret. by apply Hnone.
Qed.

Lemma swp_free size a rs (Q : () → host W → Prop) h :
  held h ≡ₚ Coherent a size :: rs →
  (∀ rs', rs' ≡ₚ rs → Q () (with_kern (with_held rs' (h_kern h)) h)) →
  swp (free_coherent size a) Q h.
Proof. apply swp_release. Qed.

(** What a queue's rings occupy. *)
Definition ring_res (q : openflash_queue) : list resource :=
  [Coherent (dq_cq_dma q) (dq_depth q * CQE_SIZE);
   Coherent (dq_sq_dma q) (dq_depth q * CMD_SIZE)].

Definition admin_res (q : openflash_queue) : list resource := Irq 0 :: Vectors :: ring_res q.

Lemma shape_res q q' : shape q = shape q' → ring_res q = ring_res q' ∧ admin_res q = admin_res q'.
Proof. unfold shape, admin_res, ring_res. intros E. injection E as -> -> -> _. done. Qed.

(** What is left is [rs], and the controller can still be accessed. *)
Definition released rs h' : Prop := held h' ≡ₚ rs ∧ ctl_ok (h_bus h').

Lemma admin_free_cq_spec q ret rs h :
  queue_at h 0 = Some q → ctl_ok (h_bus h) → held h ≡ₚ ring_res q ++ rs →
  swp (admin_free_cq ret) (λ r h', r = ret ∧ released rs h') h.
Proof.
  intros Hq Hok Hh. unfold admin_free_cq, admin_free_sq.
  apply swp_bind, wp_swp. eapply wp_get_queue; [done |].
  apply swp_bind. eapply swp_free; [exact Hh |]. intros rs1 H1.
  apply swp_bind, wp_swp. eapply wp_get_queue; [exact Hq |].
  apply swp_bind. eapply swp_free; [exact H1 |]. intros rs2 H2. by apply swp_ret.
Qed.

Lemma admin_free_vectors_spec q ret rs h :
  queue_at h 0 = Some q → ctl_ok (h_bus h) → held h ≡ₚ Vectors :: ring_res q ++ rs →
  swp (admin_free_vectors ret) (λ r h', r = ret ∧ released rs h') h.
Proof.
  intros Hq Hok Hh. unfold admin_free_vectors.
  apply swp_bind. eapply swp_release; [exact Hh |]. intros rs1 H1.
  by apply (admin_free_cq_spec q).
Qed.

Lemma admin_disable_spec q ret rs h :
  queue_at h 0 = Some q → ctl_ok (h_bus h) → held h ≡ₚ admin_res q ++ rs →
  swp (admin_disable ret) (λ r h', r = ret ∧ released rs h') h.
Proof.
  intros Hq Hok Hh. unfold admin_disable.
  apply swp_bind, swp_writel; [done |]. intros w' Hw'.
  apply swp_bind, wp_swp, wp_put_dev.
  apply swp_bind. eapply swp_release; [exact Hh |]. intros rs1 H1.
  by apply (admin_free_vectors_spec q).
Qed.

Lemma teardown_admin_spec q rs h :
  queue_at h 0 = Some q → ctl_ok (h_bus h) → held h ≡ₚ admin_res q ++ rs →
  swp openflash_teardown_admin_queue (λ _ h', released rs h') h.
Proof.
  intros Hq Hok Hh. unfold openflash_teardown_admin_queue.
  apply swp_bind, wp_swp, wp_get_dev.
  destruct (of_queues (h_dev h)) eqn:Eq; [| unfold queue_at in Hq; by rewrite Eq in Hq].
  apply swp_bind, wp_swp. eapply wp_get_queue; [done |].
  apply swp_bind, swp_writel; [done |]. intros w' Hw'.
  apply swp_bind, swp_readl; [done |]. intros _.
  apply swp_bind. eapply swp_release; [exact Hh |]. intros rs1 H1.
  apply swp_bind. eapply swp_release; [exact H1 |]. intros rs2 H2.
  apply swp_bind. eapply swp_free; [exact H2 |]. intros rs3 H3.
  apply swp_bind. eapply swp_free; [exact H3 |]. intros rs4 H4.
  by apply wp_swp, wp_put_dev.
Qed.

(** ** Setting up the admin queue *)
Lemma write_registers_spec q (Q : () → host W → Prop) h :
  ctl_ok (h_bus h) → (∀ w', ctl_ok w' → Q () (with_bus w' h)) →
  swp (write_admin_registers q) Q h.
Proof.
  intros Hok HQ. unfold write_admin_registers.
  do 5 (apply swp_bind, swp_writel; [done |]; intros ? ?).
  apply swp_writel; [done |]. intros w Hw. by apply (HQ w).
Qed.

(** The admin queue is up: [q0] and [q1] are the queues, [rs] is what was held
    before. *)
Record admin_up h (q0 q1 : openflash_queue) rs : Prop := {
  au_ready : admin_ready h;
  au_q0 : queue_at h 0 = Some q0;
  au_q1 : queue_at h 1 = Some q1;
  au_held : held h ≡ₚ admin_res q0 ++ rs;
}.

(** What set-up of the admin queue leaves: its result, or nothing. *)
Definition admin_result h rs (ret : Z) h' : Prop :=
  ctl_ok (h_bus h') ∧
  if ret =? 0
  then (∃ q0 q1, admin_up h' q0 q1 rs) ∧
       of_queue_depth (h_dev h') = of_queue_depth (h_dev h) ∧
       of_disk (h_dev h') = of_disk (h_dev h) ∧ of_nr_queues (h_dev h') = 1
  else held h' ≡ₚ rs.

Lemma released_result h rs ret ret' h' :
  ret ≠ 0 → ret' = ret ∧ released rs h' → admin_result h rs ret' h'.
Proof.
  intros Hne [-> [Hh Hok]]. split; [done |]. by rewrite (proj2 (Z.eqb_neq _ _) Hne).
Qed.

Lemma admin_start_spec h q0 q1 rs :
  queue_at h 0 = Some q0 → queue_at h 1 = Some q1 → ctl_ok (h_bus h) →
  0 < dq_depth q0 < 2 ^ 16 → dq_sq_tail q0 = 0 → dq_cq_head q0 = 0 →
  held h ≡ₚ ring_res q0 ++ rs → swp admin_start (admin_result h rs) h.
Proof.
  intros Hq0 Hq1 Hok Hd Ht Hc Hh. unfold admin_start.
  apply swp_bind, wp_swp, wp_ask. destruct (Z.ltb_spec (pci_alloc_irq_vectors (h_kern h)) 0).
  { eapply swp_mono; [by apply (admin_free_cq_spec q0 _ rs) |].
    intros r h' Hr. eapply released_result, Hr. lia. }
  unfold acquire. apply swp_bind, wp_swp, wp_put_kern.
  apply swp_bind, wp_swp, wp_ask.
  destruct (negb _) eqn:Hirq.
  { eapply swp_mono; [by apply (admin_free_vectors_spec q0 _ rs); cbn; rewrite ?Hh |].
    intros r h' Hr. eapply released_result, Hr. by bprop. }
  apply swp_bind, wp_swp, wp_put_kern. apply swp_bind, wp_swp, wp_put_dev.
  apply swp_bind, wp_swp. eapply wp_get_queue; [exact Hq0 |].
  apply swp_bind, write_registers_spec; [done |]. intros w' Hw'.
  unfold poll_ready. apply swp_bind, swp_bind, swp_readl; [done |]. intros st.
  apply swp_ret. destruct (has_flag st _); cbn [Z.eqb negb].
  - apply swp_ret. split; [done |]. split; [| done].
    exists q0, q1. split; [constructor | done | done |]; [| done |].
    + exists q0. rewrite Ht, Hc. split_and!; [done | lia..].
    + cbn. by rewrite Hh.
  - eapply swp_mono; [apply (admin_disable_spec q0 _ rs); [done | done |] |].
    { cbn. by rewrite Hh. }
    intros r h' Hr. by eapply released_result, Hr.
Qed.

Lemma setup_admin_spec h :
  ctl_ok (h_bus h) → 0 < of_queue_depth (h_dev h) < 2 ^ 16 →
  swp openflash_setup_admin_queue (admin_result h (held h)) h.
Proof.
  intros Hok Hd. unfold openflash_setup_admin_queue.
  apply swp_bind, wp_swp, wp_ask. destruct (devm_kcalloc _); cbn [negb].
  2: { apply swp_bind, wp_swp, wp_put_dev, swp_ret.
       eapply released_result; [| split; [done | by split]]. done. }
  apply swp_bind, wp_swp, wp_put_dev. set (h1 := with_ofdev _ _).
  set (q := with_shape 0 (of_queue_depth (h_dev h)) 1 dq_zero).
  apply swp_bind, wp_swp. eapply wp_get_queue; [done |].
  apply swp_bind, swp_alloc; [done | |].
  { intros _ h2 Hd2 Hh2 Hok2. apply swp_ret.
    eapply released_result; [| split; [done | split; [by rewrite Hh2 | done]]]. done. }
  intros sq h2 Hd2 Hh2 Hok2.
  assert (queue_at h2 0 = Some q) as Hq2 by (unfold queue_at; by rewrite Hd2).
  apply swp_bind, wp_swp. eapply wp_put_queue; [exact Hq2 |].
  set (h3 := upd_queue 0 _ h2).
  assert (queue_at h3 0 = Some (with_sq sq q)) as Hq3 by (unfold h3; by rewrite queue_at_upd, Hq2).
  apply swp_bind, swp_alloc; [done | |].
  { intros _ h4 Hd4 Hh4 Hok4. unfold admin_free_sq.
    apply swp_bind, wp_swp. eapply wp_get_queue.
    { unfold queue_at. rewrite Hd4. exact Hq3. }
    apply swp_bind. eapply (swp_free _ _ (held h)).
    { rewrite Hh4. cbn. rewrite Hh2. done. }
    intros rs Hrs. apply swp_ret.
    eapply released_result; [| split; [done | by split]]. done. }
  intros cq h4 Hd4 Hh4 Hok4.
  assert (queue_at h4 0 = Some (with_sq sq q)) as Hq4 by (unfold queue_at; by rewrite Hd4).
  apply swp_bind, wp_swp. eapply wp_put_queue; [exact Hq4 |].
  assert (of_queue_depth (h_dev h4) = of_queue_depth (h_dev h) ∧
          of_disk (h_dev h4) = of_disk (h_dev h)) as [Hqd Hdk].
  { rewrite Hd4. cbn. by rewrite Hd2. }
  eapply swp_mono; [apply (admin_start_spec _ (with_cq cq (with_sq sq q)) dq_zero (held h)) |].
  - by rewrite queue_at_upd, Hq4.
  - rewrite queue_at_upd_ne by done. unfold queue_at. rewrite Hd4. cbn. by rewrite Hd2.
  - done.
  - done.
  - done.
  - done.
  - cbn. rewrite Hh4. cbn. by rewrite Hh2.
  - intros ret h' [Hok' Hres]. split; [done |]. destruct (ret =? 0); [| done].
    cbn in Hres. by rewrite Hqd, Hdk in Hres.
Qed.

(** ** Setting up the I/O queue *)
Definition sgl_res (l : list openflash_request) : list resource :=
  (λ r, Coherent (r_sgl_dma r) SGL_SIZE) <$> l.
Definition io_res (q : openflash_queue) : list resource :=
  Irq 1 :: sgl_res (dq_requests q) ++ ring_res q.

Lemma shape_io_res q q' :
  shape q = shape q' → io_res q = io_res q' ∧ length (dq_requests q) = length (dq_requests q').
Proof.
  intros E. unfold io_res. rewrite (proj1 (shape_res _ _ E)). injection E as _ _ _ E.
  split; [| by rewrite <- (length_fmap r_sgl_dma), E, length_fmap].
  do 2 f_equal. unfold sgl_res.
  rewrite !(list_fmap_compose r_sgl_dma (λ a, Coherent a SGL_SIZE)). by rewrite E.
Qed.

(** The parts of the device a stage of the set-up leaves alone. *)
Definition settings h : Z * Z * option gendisk :=
  (of_nr_queues (h_dev h), of_queue_depth (h_dev h), of_disk (h_dev h)).

(** A stage of the I/O set-up: the admin queue [q0] is usable, [q] is the I/O
    queue so far, [rs] is held. *)
Record io_stage h (q0 q : openflash_queue) rs : Prop := {
  is_ready : admin_ready h;
  is_q0 : queue_at h 0 = Some q0;
  is_q1 : queue_at h 1 = Some q;
  is_held : held h ≡ₚ rs;
}.

Lemma io_stage_kern h q0 q rs k rs' :
  io_stage h q0 q rs → k_held k ≡ₚ rs' → io_stage (with_kern k h) q0 q rs'.
Proof. intros [[Hr Hok] H0 H1 _] Hk. by constructor. Qed.

Lemma io_stage_queue h q0 q rs f :
  io_stage h q0 q rs → io_stage (upd_queue 1 f h) q0 (f q) rs.
Proof.
  intros [[(qa & Hqa & Hd) Hok] H0 H1 Hh]. constructor; [constructor | | | done].
  - exists qa. by rewrite queue_at_upd_ne.
  - done.
  - by rewrite queue_at_upd_ne.
  - by rewrite queue_at_upd, H1.
Qed.

Lemma io_stage_alloc h h' q0 q rs rs' :
  io_stage h q0 q rs → h_dev h' = h_dev h → ctl_ok (h_bus h') → held h' ≡ₚ rs' →
  io_stage h' q0 q rs' ∧ settings h' = settings h.
Proof.
  intros [[(qa & Hqa & Hd) Hok] H0 H1 Hh] Hdev Hok' Hh'. unfold queue_at in *.
  split; [| unfold settings; by rewrite Hdev].
  constructor; unfold queue_at; rewrite ?Hdev; try done. constructor; [| done].
  exists qa. unfold queue_at. by rewrite Hdev.
Qed.

Lemma alloc_sgls_spec n tag q0 q rs h :
  (∀ k, dma_alloc_coherent k SGL_SIZE ≠ None) →
  io_stage h q0 q (sgl_res (take tag (dq_requests q)) ++ rs) →
  (tag + n = length (dq_requests q))%nat →
  swp (alloc_sgls n tag) (λ r h', r = (true, length (dq_requests q)) ∧
    settings h' = settings h ∧ ∃ l, length l = length (dq_requests q) ∧
      io_stage h' q0 (with_requests l q) (sgl_res l ++ rs)) h.
Proof.
  intros Hall. revert tag q h. induction n as [| n IH]; intros tag q h Hst Hlen;
    cbn [alloc_sgls].
  { apply swp_ret. split; [f_equal; lia |]. split; [done |]. exists (dq_requests q).
    split; [done |]. rewrite firstn_all2 in Hst by lia. by destruct q. }
  apply swp_bind, swp_alloc; [apply Hst | intros E; by apply Hall in E |].
  intros a h1 Hd1 Hh1 Hok1.
  destruct (io_stage_alloc h h1 q0 q _ (Coherent a SGL_SIZE ::
    sgl_res (take tag (dq_requests q)) ++ rs) Hst Hd1 Hok1) as [Hst1 Hset1].
  { rewrite Hh1. by rewrite (is_held _ _ _ _ Hst). }
  destruct (lookup_lt_is_Some_2 (dq_requests q) tag) as [r Hr]; [lia |].
  apply swp_bind, wp_swp. eapply wp_put_request; [apply Hst1 | exact Hr |].
  rewrite (alter_insert _ _ _ r Hr). set (l := <[tag := _]> (dq_requests q)).
  assert (length l = length (dq_requests q)) as Hl by apply length_insert.
  eapply swp_mono; [apply (IH (S tag) (with_requests l q)); [| cbn; lia] |].
  - destruct (io_stage_queue _ _ _ _ (with_requests l) Hst1) as [Hr2 H02 H12 Hh2].
    constructor; [done | done | done |]. rewrite Hh2. cbn [with_requests dq_requests].
    unfold l. rewrite (take_S_r _ _ (with_sgl a r))
      by (apply list_lookup_insert_eq; by eapply lookup_lt_Some).
    rewrite take_insert_ge by done. unfold sgl_res. rewrite fmap_app, <- app_assoc. cbn.
    by rewrite Permutation_middle.
  - cbn [with_requests dq_requests]. intros rv h' (-> & Hset & l' & Hl' & Hst').
    split; [by rewrite Hl |]. split; [by rewrite Hset |]. exists l'. split; [lia |]. done.
Qed.

Lemma free_sgls_spec tag q rs (Q : () → host W → Prop) h :
  queue_at h 1 = Some q → (tag ≤ length (dq_requests q))%nat →
  held h ≡ₚ sgl_res (take tag (dq_requests q)) ++ rs →
  (∀ rs', rs' ≡ₚ rs → Q () (with_kern (with_held rs' (h_kern h)) h)) →
  swp (free_sgls tag) Q h.
Proof.
  revert h. induction tag as [| tag IH]; intros h Hq Hle Hh HQ; cbn [free_sgls].
  { apply swp_ret. specialize (HQ _ Hh). by destruct h as [? [] ?]. }
  destruct (lookup_lt_is_Some_2 (dq_requests q) tag) as [r Hr]; [lia |].
  apply swp_bind, wp_swp. eapply wp_get_request; [done | exact Hr |].
  apply swp_bind. eapply (swp_free _ _ (sgl_res (take tag (dq_requests q)) ++ rs)).
  { rewrite Hh, (take_S_r _ _ r Hr). unfold sgl_res. rewrite fmap_app, <- app_assoc. cbn.
    by rewrite <- Permutation_middle. }
  intros rs1 H1. apply IH; [done | lia | done |]. intros rs2 H2. by apply HQ.
Qed.

Lemma free_sgls_from_spec n tag q rs (Q : () → host W → Prop) h :
  queue_at h 1 = Some q → (tag + n = length (dq_requests q))%nat →
  held h ≡ₚ sgl_res (drop tag (dq_requests q)) ++ rs →
  (∀ rs', rs' ≡ₚ rs → Q () (with_kern (with_held rs' (h_kern h)) h)) →
  swp (free_sgls_from n tag) Q h.
Proof.
  revert tag h. induction n as [| n IH]; intros tag h Hq Hle Hh HQ; cbn [free_sgls_from].
  { apply swp_ret. rewrite drop_ge in Hh by lia. specialize (HQ _ Hh).
    by destruct h as [? [] ?]. }
  destruct (lookup_lt_is_Some_2 (dq_requests q) tag) as [r Hr]; [lia |].
  apply swp_bind, wp_swp. eapply wp_get_request; [done | exact Hr |].
  rewrite (drop_S _ _ _ Hr) in Hh.
  apply swp_bind. eapply swp_free; [exact Hh |]. intros rs1 H1.
  apply (IH (S tag)); [done | lia | done |]. intros rs2 H2. by apply HQ.
Qed.

(** The ways out of the I/O set-up, down to [rs]. *)
Definition io_left (set : Z * Z * option gendisk) q0 rs (r r' : Z) h' : Prop :=
  r' = r ∧ settings h' = set ∧ ∃ q, io_stage h' q0 q rs.

Lemma io_free_sq_spec q0 q r rs h :
  io_stage h q0 q (Coherent (dq_sq_dma q) (dq_depth q * CMD_SIZE) :: rs) →
  swp (io_free_sq (Some r)) (io_left (settings h) q0 rs r) h.
Proof.
  intros Hst. unfold io_free_sq. apply swp_bind, wp_swp. eapply wp_get_queue; [apply Hst |].
  apply swp_bind. eapply swp_free; [apply Hst |]. intros rs1 H1.
  apply wp_swp. eapply wp_lift; [done |]. split; [done |]. split; [done |].
  exists q. by eapply io_stage_kern.
Qed.

Lemma io_free_cq_spec q0 q r rs h :
  io_stage h q0 q (ring_res q ++ rs) → swp (io_free_cq (Some r)) (io_left (settings h) q0 rs r) h.
Proof.
  intros Hst. unfold io_free_cq. apply swp_bind, wp_swp. eapply wp_get_queue; [apply Hst |].
  apply swp_bind. eapply swp_free; [apply Hst |]. intros rs1 H1.
  apply (io_free_sq_spec q0 q r rs (with_kern _ _)). by eapply io_stage_kern.
Qed.

Lemma io_free_sgl_spec q0 q r rs h :
  io_stage h q0 q (sgl_res (dq_requests q) ++ ring_res q ++ rs) →
  swp (io_free_sgl (length (dq_requests q)) (Some r)) (io_left (settings h) q0 rs r) h.
Proof.
  intros Hst. unfold io_free_sgl. apply swp_bind.
  eapply (free_sgls_spec _ q (ring_res q ++ rs)); [apply Hst | done | |].
  { rewrite firstn_all. apply Hst. }
  intros rs1 H1. apply (io_free_cq_spec q0 q r rs (with_kern _ _)). by eapply io_stage_kern.
Qed.

Lemma io_free_irq_spec q0 q r rs h :
  io_stage h q0 q (io_res q ++ rs) →
  swp (io_free_irq (length (dq_requests q)) (Some r)) (io_left (settings h) q0 rs r) h.
Proof.
  intros Hst. unfold io_free_irq. apply swp_bind.
  eapply (swp_release _ (sgl_res (dq_requests q) ++ ring_res q ++ rs)).
  { rewrite (is_held _ _ _ _ Hst). unfold io_res.
    rewrite <- app_comm_cons, <- app_assoc. done. }
  intros rs1 H1. apply (io_free_sgl_spec q0 q r rs (with_kern _ _)). by eapply io_stage_kern.
Qed.

(** A footprint-preserving step keeps a stage, up to the shape of the queues. *)
Lemma steady_queue_at h h' i q :
  footprint h' = footprint h → queue_at h i = Some q →
  ∃ q', queue_at h' i = Some q' ∧ shape q' = shape q.
Proof.
  intros E Hq. assert (is_Some (queue_at h' i)) as [q' Hq'].
  { unfold footprint, queue_at in *. injection E as _ E _ _ _.
    destruct (of_queues (h_dev h)) as [qs |]; [| done].
    destruct (of_queues (h_dev h')) as [qs' |]; [| done]. cbn in *. injection E as E.
    apply lookup_lt_is_Some. rewrite <- (length_fmap shape), E, length_fmap.
    by eapply lookup_lt_Some. }
  exists q'. split; [done |]. by eapply steady_shape.
Qed.

Lemma steady_stage h h' q0 q rs :
  io_stage h q0 q rs → steady h h' →
  ∃ q0' q', io_stage h' q0' q' rs ∧ shape q0' = shape q0 ∧ shape q' = shape q ∧
    settings h' = settings h.
Proof.
  intros Hst [Hr Hf]. destruct (steady_queue_at h h' 0 q0 Hf) as (q0' & H0 & Hs0); [apply Hst |].
  destruct (steady_queue_at h h' 1 q Hf) as (q' & H1 & Hs1); [apply Hst |].
  exists q0', q'. unfold footprint in Hf. injection Hf as Hh _ Hn Hd Hk.
  split; [constructor; [done.. |]; rewrite Hh; apply Hst |].
  do 2 (split; [done |]). unfold settings. congruence.
Qed.

(** The result of the I/O set-up over [rs]: the queue is up, or nothing of it is
    left; either way the admin queue is as it was. *)
Definition io_result h q0 rs (ret : Z) h' : Prop :=
  ∃ q0' q, shape q0' = shape q0 ∧
    of_queue_depth (h_dev h') = of_queue_depth (h_dev h) ∧
    of_disk (h_dev h') = of_disk (h_dev h) ∧
    if ret =? 0
    then io_stage h' q0' q (io_res q ++ rs) ∧ of_nr_queues (h_dev h') = 2 ∧
         len (dq_requests q) = dq_depth q - 1
    else io_stage h' q0' q rs.

Lemma io_left_result h set q0 q0' rs r r' h' :
  r ≠ 0 → shape q0' = shape q0 → set = settings h →
  io_left set q0' rs r r' h' → io_result h q0 rs r' h'.
Proof.
  intros Hne Hs -> (-> & Hset & q & Hst). exists q0', q. unfold settings in Hset.
  injection Hset as _ H1 H2. split; [done |]. split; [congruence |]. split; [congruence |].
  by rewrite (proj2 (Z.eqb_neq _ _) Hne).
Qed.

Lemma create_spec sc h q0 q rs :
  io_stage h q0 q rs →
  swp (openflash_create_io_queue sc) (λ _ h', ∃ q0' q', io_stage h' q0' q' rs ∧
    shape q0' = shape q0 ∧ shape q' = shape q ∧ settings h' = settings h) h.
Proof.
  intros Hst. unfold openflash_create_io_queue.
  apply swp_bind, wp_swp. eapply wp_get_queue; [apply Hst |].
  apply swp_bind. eapply swp_mono; [apply keeps_admin_command, Hst |].
  intros r h' Hs. destruct r; apply swp_ret; by eapply steady_stage.
Qed.

Lemma io_start_spec sc h q0 q rs :
  (∀ k, dma_alloc_coherent k SGL_SIZE ≠ None) →
  io_stage h q0 q (ring_res q ++ rs) → len (dq_requests q) = dq_depth q - 1 →
  swp (io_start sc (length (dq_requests q))) (io_result h q0 rs) h.
Proof.
  intros Hall Hst Hlen. unfold io_start. apply swp_bind.
  eapply swp_mono; [by apply (alloc_sgls_spec _ 0 q0 q (ring_res q ++ rs)) |].
  intros r h1 (-> & Hset1 & l & Hl & Hst1). cbn [negb]. rewrite <- Hl.
  set (q1 := with_requests l q) in *. change l with (dq_requests q1) at 1 2.
  apply swp_bind, wp_swp, wp_ask.
  assert (io_stage (with_kern (with_call (h_kern h1)) h1) q0 q1
    (sgl_res (dq_requests q1) ++ ring_res q1 ++ rs)) as Hst2
    by (eapply io_stage_kern; [done | apply Hst1]).
  destruct (negb _) eqn:Hirq.
  { eapply swp_mono; [apply (io_free_sgl_spec q0 q1 _ rs), Hst2 |].
    intros r h' Hr. eapply io_left_result; [| done | | exact Hr]; [by bprop |].
    unfold settings in *. cbn. congruence. }
  unfold acquire. apply swp_bind, wp_swp, wp_put_kern.
  assert (io_stage (with_kern (with_held (Irq 1 :: held h1) (with_call (h_kern h1))) h1)
    q0 q1 (io_res q1 ++ rs)) as Hst3.
  { eapply io_stage_kern; [exact Hst1 |]. unfold io_res.
    rewrite <- app_comm_cons, <- app_assoc. cbn [with_held k_held].
    by rewrite (is_held _ _ _ _ Hst1). }
  apply swp_bind. eapply swp_mono; [by apply (create_spec sc _ q0 q1 (io_res q1 ++ rs)) |].
  intros r h4 (q0' & q' & Hst4 & Hs0 & Hs1 & Hset4).
  destruct (shape_io_res _ _ Hs1) as [Hres Hlen']. rewrite <- Hres in Hst4.
  destruct (Z.eqb_spec r 0) as [-> | Hne]; cbn [negb].
  - apply swp_bind, wp_swp, wp_put_dev, swp_ret. exists q0', q'.
    unfold settings in *. injection Hset4 as _ H41 H42. injection Hset1 as _ H11 H12.
    split; [done |]. split; [cbn in *; congruence |]. split; [cbn in *; congruence |].
    split; [| split; [done |]].
    + destruct Hst4 as [[Hr Hok] H0 H1 Hh]. by constructor.
    + rewrite Hlen'. cbn. rewrite Hl, Hlen. injection Hs1 as _ _ -> _. done.
  - rewrite <- Hlen'. eapply swp_mono; [apply (io_free_irq_spec q0' q' _ rs), Hst4 |].
    intros r' h' Hr. eapply io_left_result; [exact Hne | done | | exact Hr].
    unfold settings in *. cbn in *. congruence.
Qed.

Lemma io_result_settings h h1 q0 rs ret h' :
  settings h1 = settings h → io_result h1 q0 rs ret h' → io_result h q0 rs ret h'.
Proof.
  unfold settings. intros E (q0' & q & Hs & H1 & H2 & Hres). injection E as _ E1 E2.
  exists q0', q. split; [done |]. split; [congruence |]. split; [congruence | done].
Qed.

(** A refusal with nothing held beyond [rs]. *)
Lemma io_refused h h1 q0 q rs r :
  r ≠ 0 → settings h1 = settings h → io_stage h1 q0 q rs → io_result h q0 rs r h1.
Proof.
  intros Hne Hset Hst. eapply io_left_result; [exact Hne | done | exact Hset |].
  split; [done |]. split; [done |]. by exists q.
Qed.

Lemma io_requests_spec sc h q0 q rs :
  (∀ k, dma_alloc_coherent k SGL_SIZE ≠ None) →
  io_stage h q0 q (ring_res q ++ rs) → 0 < dq_depth q →
  swp (io_requests sc (Z.to_nat (dq_depth q - 1))) (io_result h q0 rs) h.
Proof.
  intros Hall Hst Hd. unfold io_requests. apply swp_bind, wp_swp, wp_ask.
  assert (io_stage (with_kern (with_call (h_kern h)) h) q0 q (ring_res q ++ rs)) as Hst1
    by (eapply io_stage_kern; [exact Hst | apply Hst]).
  destruct (devm_kcalloc _); cbn [negb].
  2: { eapply swp_mono; [apply (io_free_cq_spec q0 q _ rs), Hst1 |].
       intros r h' Hr. eapply io_left_result; [| done | | exact Hr]; done. }
  apply swp_bind, wp_swp. eapply wp_put_queue; [apply Hst1 |].
  set (l := replicate _ request_zero).
  pose proof (io_stage_queue _ _ _ _ (with_requests l) Hst1) as Hst2.
  replace (Z.to_nat (dq_depth q - 1)) with (length l) by apply length_replicate.
  eapply swp_mono; [apply (io_start_spec sc _ q0 (with_requests l q) rs Hall Hst2) |].
  - cbn. unfold l. rewrite length_replicate. lia.
  - intros ret h'. by apply io_result_settings.
Qed.

Lemma setup_io_spec sc h q0 q rs :
  (∀ k, dma_alloc_coherent k SGL_SIZE ≠ None) → io_stage h q0 q rs →
  0 < of_queue_depth (h_dev h) →
  swp (openflash_setup_io_queue sc) (io_result h q0 rs) h.
Proof.
  intros Hall Hst Hd. unfold openflash_setup_io_queue.
  apply swp_bind, wp_swp, wp_get_dev.
  apply swp_bind, wp_swp. eapply wp_put_queue; [apply Hst |].
  set (q1 := with_shape 1 (of_queue_depth (h_dev h)) 1 q).
  pose proof (io_stage_queue _ _ _ _ (with_shape 1 (of_queue_depth (h_dev h)) 1) Hst) as Hst1.
  fold q1 in Hst1. set (h1 := upd_queue 1 _ h) in *.
  apply swp_bind, wp_swp. eapply wp_get_queue; [apply Hst1 |].
  apply swp_bind, swp_alloc; [apply Hst1 | |].
  { intros _ h2 Hd2 Hh2 Hok2.
    destruct (io_stage_alloc _ h2 _ _ _ rs Hst1 Hd2 Hok2) as [Hst2 Hset2];
      [rewrite Hh2; apply Hst1 |].
    apply swp_ret. eapply io_refused; [done | exact Hset2 | exact Hst2]. }
  intros sq h2 Hd2 Hh2 Hok2.
  destruct (io_stage_alloc _ h2 _ _ _ (Coherent sq (dq_depth q1 * CMD_SIZE) :: rs)
    Hst1 Hd2 Hok2) as [Hst2 Hset2]; [rewrite Hh2; by rewrite (is_held _ _ _ _ Hst1) |].
  apply swp_bind, wp_swp. eapply wp_put_queue; [apply Hst2 |].
  pose proof (io_stage_queue _ _ _ _ (with_sq sq) Hst2) as Hst3.
  set (h3 := upd_queue 1 _ h2) in *.
  apply swp_bind, swp_alloc; [apply Hst3 | |].
  { intros _ h4 Hd4 Hh4 Hok4.
    destruct (io_stage_alloc _ h4 _ _ _ (Coherent sq (dq_depth q1 * CMD_SIZE) :: rs)
      Hst3 Hd4 Hok4) as [Hst4 Hset4]; [rewrite Hh4; apply Hst3 |].
    eapply swp_mono; [apply (io_free_sq_spec q0 (with_sq sq q1) _ rs), Hst4 |].
    intros r h' Hr. eapply io_left_result; [| done | | exact Hr]; [done |].
    rewrite Hset4. exact Hset2. }
  intros cq h4 Hd4 Hh4 Hok4.
  destruct (io_stage_alloc _ h4 _ _ _ (ring_res (with_cq cq (with_sq sq q1)) ++ rs)
    Hst3 Hd4 Hok4) as [Hst4 Hset4].
  { rewrite Hh4. by rewrite (is_held _ _ _ _ Hst3). }
  apply swp_bind, wp_swp. eapply wp_put_queue; [apply Hst4 |].
  pose proof (io_stage_queue _ _ _ _ (with_cq cq) Hst4) as Hst5.
  set (h5 := upd_queue 1 _ h4) in *.
  assert (settings h5 = settings h) as Hset5 by (etrans; [exact Hset4 | exact Hset2]).
  eapply swp_mono; [apply (io_requests_spec sc h5 q0 (with_cq cq (with_sq sq q1)) rs);
    [done | exact Hst5 | exact Hd] |].
  intros ret h'. by apply io_result_settings.
Qed.

Lemma teardown_io_spec q rs h :
  queue_at h 1 = Some q → of_nr_queues (h_dev h) = 2 →
  len (dq_requests q) = dq_depth q - 1 → held h ≡ₚ io_res q ++ rs →
  swp openflash_teardown_io_queue (λ _ h', held h' ≡ₚ rs ∧ h_bus h' = h_bus h ∧
    of_queues (h_dev h') = of_queues (h_dev h)) h.
Proof.
  intros Hq Hn Hlen Hh. unfold openflash_teardown_io_queue.
  apply swp_bind, wp_swp, wp_get_dev. rewrite Hn. cbn [Z.ltb Z.compare Pos.compare].
  apply swp_bind, wp_swp. eapply wp_get_queue; [done |].
  unfold io_res in Hh. rewrite <- app_comm_cons, <- app_assoc in Hh.
  apply swp_bind. eapply swp_release; [exact Hh |]. intros rs1 H1.
  apply swp_bind. eapply (free_sgls_from_spec _ _ q (ring_res q ++ rs));
    [done | lia | exact H1 |]. intros rs2 H2.
  apply swp_bind. eapply swp_free; [exact H2 |]. intros rs3 H3.
  apply swp_bind. eapply swp_free; [exact H3 |]. intros rs4 H4.
  by apply wp_swp, wp_put_dev.
Qed.

(** ** The disk *)
Definition disk_res : list resource := [Disk; TagSet].

Lemma register_spec h :
  swp openflash_register_block_device (λ ret h', h_bus h' = h_bus h ∧
    of_queues (h_dev h') = of_queues (h_dev h) ∧
    of_nr_queues (h_dev h') = of_nr_queues (h_dev h) ∧
    if ret =? 0 then held h' ≡ₚ disk_res ++ held h ∧ is_Some (of_disk (h_dev h'))
    else held h' ≡ₚ held h) h.
Proof.
  unfold openflash_register_block_device, acquire, free_tag_set.
  apply swp_bind, wp_swp, wp_put_dev. apply swp_bind, wp_swp, wp_ask.
  destruct (negb _) eqn:E1.
  { apply swp_ret. do 3 (split; [done |]). apply negb_true_iff in E1. by rewrite E1. }
  apply swp_bind, wp_swp, wp_put_kern. apply swp_bind, wp_swp, wp_ask.
  destruct (negb (blk_mq_alloc_disk _ =? 0)) eqn:E2.
  { apply negb_true_iff in E2. apply swp_bind, wp_swp, wp_put_dev.
    apply swp_bind. apply (swp_release _ (held h)); [reflexivity |]. intros rs Hrs.
    apply swp_ret. do 3 (split; [done |]). by rewrite E2. }
  apply swp_bind, wp_swp, wp_put_kern. apply swp_bind, wp_swp, wp_put_dev.
  apply swp_bind, wp_swp, wp_ask.
  destruct (negb (device_add_disk _ =? 0)) eqn:E3.
  - apply negb_true_iff in E3. apply swp_bind.
    apply (swp_release _ (TagSet :: held h)); [reflexivity |]. intros rs Hrs.
    apply swp_bind, wp_swp, wp_put_dev. apply swp_bind. eapply swp_release; [exact Hrs |].
    intros rs' Hrs'. apply swp_ret. do 3 (split; [done |]). by rewrite E3.
  - apply swp_ret. do 3 (split; [done |]). cbn. by split; [| eexists].
Qed.

(** ** Probe and remove *)

(** A probed driver: both queues and the disk are up, over [rs]. *)
Record driver_up h rs : Prop := {
  du_ready : admin_ready h;
  du_nr : of_nr_queues (h_dev h) = 2;
  du_disk : is_Some (of_disk (h_dev h));
  du_queues : ∃ q0 q1, queue_at h 0 = Some q0 ∧ queue_at h 1 = Some q1 ∧
    len (dq_requests q1) = dq_depth q1 - 1 ∧
    held h ≡ₚ disk_res ++ io_res q1 ++ admin_res q0 ++ BusMaster :: rs;
}.

(** What probe leaves: a driver that is up, or nothing. *)
Definition probe_result rs (ret : Z) h' : Prop :=
  if ret =? 0 then driver_up h' rs else held h' ≡ₚ rs.

Lemma probe_failed rs ret h' : ret ≠ 0 → held h' ≡ₚ rs → probe_result rs ret h'.
Proof. intros Hne Hh. unfold probe_result. by rewrite (proj2 (Z.eqb_neq _ _) Hne). Qed.

(** The last two steps of every failure after the admin queue is up. *)
Lemma fail_admin_spec q0 rs ret h :
  ret ≠ 0 → queue_at h 0 = Some q0 → ctl_ok (h_bus h) →
  held h ≡ₚ admin_res q0 ++ BusMaster :: rs →
  swp (openflash_teardown_admin_queue ;; release BusMaster ;; mret ret) (probe_result rs) h.
Proof.
  intros Hne Hq Hok Hh. apply swp_bind. eapply swp_mono; [by apply (teardown_admin_spec q0) |].
  intros [] h1 [Hh1 Hok1]. apply swp_bind. eapply swp_release; [exact Hh1 |].
  intros rs' Hrs'. apply swp_ret. by apply probe_failed.
Qed.

Lemma register_or_fail_spec q0 q1 rs h :
  io_stage h q0 q1 (io_res q1 ++ admin_res q0 ++ BusMaster :: rs) →
  of_nr_queues (h_dev h) = 2 → len (dq_requests q1) = dq_depth q1 - 1 →
  swp (ret ← openflash_register_block_device;
       if negb (ret =? 0) then
         openflash_teardown_io_queue ;; openflash_teardown_admin_queue ;;
         release BusMaster ;; mret ret
       else mret 0) (probe_result rs) h.
Proof.
  intros [[Hr Hok] H0 H1 Hh] Hn Hlen. apply swp_bind.
  eapply swp_mono; [apply register_spec |]. intros ret h1 (Hb1 & Hq1 & Hn1 & Hres).
  unfold queue_at in *. destruct (Z.eqb_spec ret 0) as [-> | Hne]; cbn [negb].
  - destruct Hres as [Hh1 Hdisk]. apply swp_ret. constructor; [constructor | | done |].
    + unfold queue_at. by rewrite Hq1.
    + by rewrite Hb1.
    + congruence.
    + exists q0, q1. unfold queue_at. rewrite Hq1. split_and!; try done.
      by rewrite Hh1, Hh.
  - apply swp_bind. eapply swp_mono; [apply (teardown_io_spec q1 (admin_res q0 ++ BusMaster :: rs)) |].
    + unfold queue_at. by rewrite Hq1.
    + congruence.
    + done.
    + by rewrite Hres, Hh.
    + intros [] h2 (Hh2 & Hb2 & Hq2). apply (fail_admin_spec q0); [done | | | done].
      * unfold queue_at. by rewrite Hq2, Hq1.
      * by rewrite Hb2, Hb1.
Qed.

Lemma keeps_identify sc : keeps (openflash_admin_identify sc).
Proof.
  unfold openflash_admin_identify. apply keeps_bind; [apply keeps_admin_command |].
  intros [ret | capacity]; [apply keeps_ret |].
  destruct (capacity =? 0); [apply keeps_ret |].
  apply keeps_bind; [| intros; apply keeps_ret].
  intros h [Hq Hok]. apply wp_swp, wp_put_dev. by split.
Qed.

(** From the identify command on. *)
Lemma start_io_spec sc1 sc2 q0 q1 rs h :
  (∀ k, dma_alloc_coherent k SGL_SIZE ≠ None) →
  admin_up h q0 q1 (BusMaster :: rs) → of_queue_depth (h_dev h) = OPENFLASH_DEFAULT_Q_DEPTH →
  swp (ret ← openflash_admin_identify sc1;
       if negb (ret =? 0) then
         openflash_teardown_admin_queue ;; release BusMaster ;; mret ret else
       ret ← openflash_setup_io_queue sc2;
       if negb (ret =? 0) then
         openflash_teardown_admin_queue ;; release BusMaster ;; mret ret else
       ret ← openflash_register_block_device;
       if negb (ret =? 0) then
         openflash_teardown_io_queue ;; openflash_teardown_admin_queue ;;
         release BusMaster ;; mret ret
       else mret 0) (probe_result rs) h.
Proof.
  intros Hall [Hready H0 H1 Hh] Hd.
  assert (io_stage h q0 q1 (admin_res q0 ++ BusMaster :: rs)) as Hst by (by constructor).
  apply swp_bind. eapply swp_mono; [by apply keeps_identify |]. intros ret h1 Hs.
  destruct (steady_stage _ _ _ _ _ Hst Hs) as (qa & qb & Hst1 & Hsa & Hsb & Hset).
  rewrite <- (proj2 (shape_res _ _ Hsa)) in Hst1.
  destruct (Z.eqb_spec ret 0) as [-> | Hne]; cbn [negb].
  2: { apply (fail_admin_spec qa); [done | apply Hst1 | apply Hst1 | apply Hst1]. }
  apply swp_bind. eapply swp_mono; [apply (setup_io_spec sc2 h1 qa qb); [done | exact Hst1 |] |].
  { unfold settings in Hset. injection Hset as _ Hqd _. rewrite Hqd, Hd. done. }
  intros ret h2 (qc & qd & Hsc & _ & _ & Hres).
  destruct (Z.eqb_spec ret 0) as [-> | Hne]; cbn [negb].
  - destruct Hres as (Hst2 & Hn & Hlen).
    rewrite <- (proj2 (shape_res _ _ Hsc)) in Hst2. by apply (register_or_fail_spec qc qd).
  - rewrite <- (proj2 (shape_res _ _ Hsc)) in Hres.
    apply (fail_admin_spec qc); [done | apply Hres | apply Hres | apply Hres].
Qed.

(** A service whose failure ends the probe. *)
Lemma ask_or_fail (f : kernel → Z) (m : drv W Z) rs h :
  held h ≡ₚ rs → swp m (probe_result rs) (with_kern (with_call (h_kern h)) h) →
  swp (ret ← ask f; if negb (ret =? 0) then mret ret else m) (probe_result rs) h.
Proof.
  intros Hh Hm. apply swp_bind, wp_swp, wp_ask.
  destruct (Z.eqb_spec (f (h_kern h)) 0) as [_ | Hne]; cbn [negb]; [done |].
  by apply swp_ret, probe_failed.
Qed.

Lemma probe_spec sc1 sc2 h :
  (∀ k, dma_alloc_coherent k SGL_SIZE ≠ None) → ctl_ok (h_bus h) →
  swp (openflash_probe sc1 sc2) (probe_result (held h)) h.
Proof.
  intros Hall Hok. unfold openflash_probe.
  do 3 (apply ask_or_fail; [done |]).
  apply swp_bind, wp_swp, wp_ask. destruct (devm_kcalloc _); cbn [negb].
  2: { by apply swp_ret, probe_failed. }
  apply swp_bind, swp_readq; [done |]. intros caps.
  apply swp_bind, wp_swp, wp_put_dev. apply swp_bind, swp_readl; [done |]. intros version.
  destruct (negb (version =? _)); [by apply swp_ret, probe_failed |].
  unfold acquire. apply swp_bind, wp_swp, wp_put_kern. set (h1 := with_kern _ _).
  apply swp_bind. eapply swp_mono; [apply (setup_admin_spec h1); [done |] |].
  { cbn. unfold OPENFLASH_DEFAULT_Q_DEPTH. lia. }
  intros ret h2 [Hok2 Hres]. destruct (Z.eqb_spec ret 0) as [-> | Hne]; cbn [negb].
  - destruct Hres as ((q0 & q1 & Hup) & Hd & _ & _). by eapply start_io_spec.
  - apply swp_bind. eapply swp_release; [exact Hres |]. intros rs' Hrs'.
    by apply swp_ret, probe_failed.
Qed.

(** What remove relies on; unlike [driver_up] it asks nothing of the cursors of
    the admin queue. *)
Record attached h rs : Prop := {
  at_ctl : ctl_ok (h_bus h);
  at_nr : of_nr_queues (h_dev h) = 2;
  at_disk : is_Some (of_disk (h_dev h));
  at_queues : ∃ q0 q1, queue_at h 0 = Some q0 ∧ queue_at h 1 = Some q1 ∧
    len (dq_requests q1) = dq_depth q1 - 1 ∧
    held h ≡ₚ disk_res ++ io_res q1 ++ admin_res q0 ++ BusMaster :: rs;
}.

Lemma driver_up_attached h rs : driver_up h rs → attached h rs.
Proof. intros [[_ ?] ? ? ?]. by constructor. Qed.

(** It depends on the footprint alone. *)
Lemma attached_footprint h h' rs :
  footprint h' = footprint h → ctl_ok (h_bus h') → attached h rs → attached h' rs.
Proof.
  intros Hf Hok [_ Hn Hd (q0 & q1 & H0 & H1 & Hlen & Hh)].
  destruct (steady_queue_at h h' 0 q0 Hf H0) as (q0' & H0' & Hs0).
  destruct (steady_queue_at h h' 1 q1 Hf H1) as (q1' & H1' & Hs1).
  destruct (shape_io_res _ _ Hs1) as [Hres Hlen']. pose proof Hs1 as Hs1'.
  injection Hs1' as _ _ Hdep _. unfold footprint in Hf. injection Hf as Hk _ En _ Ed.
  constructor; [done | congruence | by rewrite Ed |].
  exists q0', q1'. split_and!; [done | done | congruence |].
  by rewrite Hk, Hres, (proj2 (shape_res _ _ Hs0)).
Qed.

(** What is left after a remove: nothing in flight, nothing mapped, and the
    requests that were in flight ended, each once. *)
Record torn_down rs h h' : Prop := {
  rm_held : held h' ≡ₚ rs;
  rm_inflight : k_inflight (h_kern h') = [];
  rm_mapped : k_mapped (h_kern h') = [];
  rm_ended : ∃ l, k_ended (h_kern h') = k_ended (h_kern h) ++ l ∧
    l.*1 ≡ₚ k_inflight (h_kern h);
}.

Lemma owned_nothing_mapped h q :
  owned h q → k_inflight (h_kern h) = [] → k_mapped (h_kern h) = [].
Proof.
  intros Ho Hi. apply Permutation_nil_r. rewrite (ow_mapped _ _ Ho).
  pose proof (ow_inflight _ _ Ho) as Hp. rewrite Hi in Hp. apply Permutation_nil_l in Hp.
  revert Hp. clear. generalize (dq_requests q). intros l.
  induction l as [| r l IH]; [done |]. cbn. unfold slot_mappings.
  destruct (r_rq r); cbn; [discriminate |]. apply IH.
Qed.

(** Failing requests when none is in flight changes none. *)
Lemma completes_nothing h q h' q' l :
  completes h q h' q' l → k_inflight (h_kern h) = [] →
  io_state h' = ([], k_ended (h_kern h), []).
Proof.
  intros Hcp Hi. pose proof (cp_inflight _ _ _ _ _ Hcp) as Hp. rewrite Hi in Hp.
  apply Permutation_nil_l, eq_sym, app_eq_nil in Hp as [Hl Hi']. apply fmap_nil_inv in Hl as ->.
  unfold io_state. rewrite Hi', (cp_ended _ _ _ _ _ Hcp), app_nil_r.
  by rewrite (owned_nothing_mapped h' q') by (apply Hcp || done).
Qed.

Lemma remove_rest_spec rs h q :
  attached h rs → owned h q → k_inflight (h_kern h) = [] →
  swp remove_rest (λ _ h', released rs h' ∧ io_state h' = ([], k_ended (h_kern h), [])) h.
Proof.
  intros [Hok Hn [disk Hdisk] (q0 & q1 & H0 & H1 & Hlen & Hh)] Ho Hidle.
  assert (q1 = q) as -> by (pose proof (ow_queue _ _ Ho); congruence).
  unfold remove_rest, openflash_fail_io_requests.
  apply swp_bind, swp_bind, swp_bind, wp_swp, wp_get_dev.
  rewrite Hn. cbn [Z.ltb Z.compare Pos.compare].
  apply swp_bind, wp_swp. eapply wp_get_queue; [apply Ho |].
  apply wp_swp. eapply wp_mono; [apply (wp_fail_requests _ 0 _ q h Ho) |].
  { lia. }
  { lia. }
  intros [] h2 (q' & l & Hcp & _ & Hi).
  assert (shape q' = shape q) as Hs.
  { pose proof (cp_geometry _ _ _ _ _ Hcp) as (Ea & Eb & _ & Ed & _)%geometry_inj.
    unfold shape. by rewrite Ea, Eb, Ed, (cp_lists _ _ _ _ _ Hcp). }
  destruct (shape_io_res _ _ Hs) as [Hres Hlen'].
  assert (held h2 ≡ₚ disk_res ++ io_res q' ++ admin_res q0 ++ BusMaster :: rs) as Hh2
    by (by rewrite (cp_held _ _ _ _ _ Hcp), Hres).
  pose proof (cp_dev _ _ _ _ _ Hcp) as Hdev.
  apply swp_bind. eapply swp_release; [exact Hh2 |]. intros rs1 Hrs1.
  apply swp_bind, wp_swp, wp_put_dev. eapply swp_release; [exact Hrs1 |]. intros rs2 Hrs2.
  apply swp_bind. eapply swp_mono; [apply (swp_keep io_state); [exact io_state_teardown_io |];
    apply (teardown_io_spec q' (admin_res q0 ++ BusMaster :: rs)) |].
  - apply (ow_queue _ _ (cp_owned _ _ _ _ _ Hcp)).
  - cbn. apply (f_equal of_nr_queues) in Hdev. cbn in Hdev. congruence.
  - rewrite Hlen'. injection Hs as _ _ -> _. done.
  - exact Hrs2.
  - intros [] h3 [(Hh3 & Hb3 & Hq3) I3]. apply swp_bind.
    eapply swp_mono; [apply (swp_keep io_state); [exact io_state_teardown_admin |];
      apply (teardown_admin_spec q0 (BusMaster :: rs)); [| | done] |].
    + unfold queue_at. rewrite Hq3. cbn. etrans; [apply (cp_admin _ _ _ _ _ Hcp) | done].
    + rewrite Hb3. cbn. by rewrite (cp_bus _ _ _ _ _ Hcp).
    + intros [] h4 [[Hh4 Hok4] I4]. eapply swp_release; [done |]. intros rs3 Hrs3.
      split; [done |]. etrans; [exact (eq_trans I4 I3) |].
      by apply (completes_nothing h q h2 q' l).
Qed.

(** What of the controller reporting a new completion head leaves alone. *)
Definition head_ignored {B} (g : W → B) : Prop := ∀ w v w',
  ctl_write w (OPENFLASH_CQ_HEAD_DB 1) v = Done w' → g w' = g w.

(** What of it disabling leaves alone. *)
Definition disable_ignored {B} (g : W → B) : Prop := ∀ w w',
  ctl_write w OPENFLASH_REG_CONTROL (u32 0) = Done w' → g w' = g w.

(** Any number of interrupts, whatever the completion ring holds. *)
Lemma wp_io_irqs fuel n h q k :
  owned h q → consumed q k → dq_qid q = 1 → ctl_ok (h_bus h) →
  (Z.to_nat (dq_depth q) ≤ fuel)%nat →
  wp (deliver_io_irqs fuel n) (λ _ h', ctl_ok (h_bus h') ∧ ∃ q' l, owned h' q' ∧
    k_ended (h_kern h') = k_ended (h_kern h) ++ l ∧
    k_inflight (h_kern h) ≡ₚ l.*1 ++ k_inflight (h_kern h') ∧
    ∀ B (g : W → B), head_ignored g → g (h_bus h') = g (h_bus h)) h.
Proof.
  intros Ho Hk Hqid Hok Hf. revert h q k Ho Hk Hqid Hok Hf.
  induction n as [| n IH]; intros h q k Ho Hk Hqid Hok Hf; cbn [deliver_io_irqs].
  { apply wp_ret. split; [done |]. exists q, []. by rewrite app_nil_r. }
  apply wp_bind. eapply wp_mono; [by apply (wp_io_irq fuel h q k) |].
  intros b h1 (m & q1 & l & _ & Hdr).
  pose proof (dr_geometry _ _ _ _ _ _ _ Hdr) as (_ & _ & Eq & Ed & _)%geometry_inj.
  pose proof (dr_bus _ _ _ _ _ _ _ Hdr) as Hb.
  assert (ctl_ok (h_bus h1)) as Hok1.
  { destruct (m =? 0)%nat; [by rewrite Hb |].
    pose proof (ctl_ok_write _ (OPENFLASH_CQ_HEAD_DB 1) _ Hok (u32_range (dq_cq_head q1))) as Hw.
    by rewrite Hb in Hw. }
  eapply wp_mono; [apply (IH h1 q1 (k + Z.of_nat m)); try apply Hdr; [congruence | done | by rewrite Ed] |].
  intros [] h' (Hok' & q' & l' & Ho' & He' & Hi' & Hg). split; [done |].
  exists q', (l ++ l'). split; [done |].
  rewrite He', (dr_ended _ _ _ _ _ _ _ Hdr), <- app_assoc. split; [done |]. split.
  - rewrite (dr_inflight _ _ _ _ _ _ _ Hdr), Hi', fmap_app. by rewrite app_assoc.
  - intros B g Hign. rewrite (Hg B g Hign). destruct (m =? 0)%nat; [by rewrite Hb |].
    by eapply Hign.
Qed.

(** Remove waits for the requests in flight: it returns when the interrupts that
    arrive end them all, and waits for ever when they do not. *)
Lemma remove_spec `{!ResponsiveController W} fuel n rs h q k :
  attached h rs → owned h q → consumed q k → dq_qid q = 1 →
  (Z.to_nat (dq_depth q) ≤ fuel)%nat →
  ∃ h1, deliver_io_irqs fuel n (cancelled h) = Done ((), h1) ∧
    (k_inflight (h_kern h1) ≠ [] → openflash_remove fuel n h = NoFuel) ∧
    (k_inflight (h_kern h1) = [] → ∃ h', openflash_remove fuel n h = Done ((), h') ∧
       torn_down rs h h' ∧ k_ended (h_kern h') = k_ended (h_kern h1) ∧ ctl_ok (h_bus h') ∧
       ∀ B (g : W → B), head_ignored g → disable_ignored g → g (h_bus h') = g (h_bus h)).
Proof.
  intros Hat Ho Hk Hqid Hf.
  assert (owned (cancelled h) q) as Ho' by (destruct Ho; by constructor).
  destruct (wp_io_irqs fuel n (cancelled h) q k) as ([] & h1 & E & Hok1 & q1 & l & Ho1 & He & Hi & Hg);
    [done | done | done | apply Hat | done |].
  exists h1. split; [done |]. pose proof (remove_eq fuel n h h1 (at_disk _ _ Hat) E) as Er.
  rewrite Er. split; [by destruct (k_inflight (h_kern h1)) |]. intros Hidle.
  rewrite Hidle in Er |- *.
  assert (attached h1 rs) as Hat1.
  { eapply (attached_footprint (cancelled h)); [by eapply neutral_deliver_io_irqs | done |].
    destruct Hat. by constructor. }
  pose proof (remove_rest_spec rs h1 q1 Hat1 Ho1 Hidle) as Hs. unfold swp in Hs.
  destruct (remove_rest h1) as [[[] h'] | |] eqn:E'; [| done | by destruct (bounded_remove h1)].
  destruct Hs as [[Hh Hok'] [= I1 I2 I3]]. exists h'. split_and!; try done.
  - constructor; try done. exists l. rewrite I2, He. split; [done |].
    change (k_inflight (h_kern h)) with (k_inflight (h_kern (cancelled h))).
    by rewrite Hi, Hidle, app_nil_r.
  - intros B g Hign Hdis. rewrite (on_bus_remove g Hdis _ _ _ E'). exact (Hg B g Hign).
Qed.

(** ** The unassigned return value *)
Lemma io_start_unassigned sc n q rs h :
  queue_at h 1 = Some q → held h ≡ₚ ring_res q ++ rs →
  dma_alloc_coherent (h_kern h) SGL_SIZE = None → io_start sc (S n) h = Undef.
Proof.
  intros Hq Hh Hnone. unfold io_start. set (h1 := with_kern (with_call (h_kern h)) h).
  assert (alloc_sgls (S n) 0 h = Done ((false, 0%nat), h1)) as E.
  { cbn [alloc_sgls]. unfold alloc_coherent, mbind, drv_bind, ask. by rewrite Hnone. }
  erewrite bind_done by exact E. cbn [negb]. unfold io_free_sgl, io_free_cq, io_free_sq.
  erewrite bind_done by done. erewrite bind_done by (by apply get_queue_done).
  destruct (release_done (Coherent (dq_cq_dma q) (dq_depth q * CQE_SIZE))
    (Coherent (dq_sq_dma q) (dq_depth q * CMD_SIZE) :: rs) h1 Hh) as (rs1 & H1 & E1).
  erewrite bind_done by exact E1. erewrite bind_done by (by apply get_queue_done).
  destruct (release_done (Coherent (dq_sq_dma q) (dq_depth q * CMD_SIZE)) rs
    (with_kern (with_held rs1 (h_kern h1)) h1) H1) as (rs2 & H2 & E2).
  by erewrite bind_done by exact E2.
Qed.
End Swp.
