(* ===== verification/System.v ===== *)
(** * The driver on the QEMU controller

    The device of [QemuDevice] is an instance of the interfaces the driver is
    written against: its registers are a [Controller], its memory is the DMA
    memory.  A queue has at most 4096 entries, so 4096 iterations serve any
    doorbell that is served at all. *)
From S2P Require Import Prelude Packed Environment Abi QemuDevice.
From S2P Require Import DeviceSafety DeviceRegisters DriverState DriverQueue DriverSafety DriverSubmit.

Section Instances.
Context {M F : Type} `{GM : GuestMemory M, HF : HostFiles F}.

#[export] Instance qemu_memory : GuestMemory (machine M F) := {
  dma_read w a n := dma_read (m_mem w) a n;
  dma_write w a bs := with_mem (dma_write (m_mem w) a bs) w;
}.

#[export] Program Instance qemu_memory_laws `{!GuestMemoryLaws M} :
    GuestMemoryLaws (machine M F) := {
  is_ram := is_ram (M := M);
}.
Next Obligation. cbn. intros. by eapply is_ram_sub. Qed.
Next Obligation. cbn. intros. apply (dma_read_length (M := M)). Qed.
Next Obligation. cbn. intros. by apply (dma_read_write_same (M := M)). Qed.
Next Obligation. cbn. intros. by apply (dma_read_write_other (M := M)). Qed.
Next Obligation. cbn. intros. by apply (dma_read_app (M := M)). Qed.

#[export] Instance qemu_controller : Controller (machine M F) := {
  ctl_read w addr := openflash_mmio_read (m_dev w) addr;
  ctl_write w addr value := openflash_mmio_write 4096 w addr value;
}.

(** Ringing a completion doorbell only stores the head. *)
#[export] Program Instance qemu_controller_laws `{!GuestMemoryLaws M} :
    ControllerLaws (machine M F) := {
  ctl_ok w := dev_wf (m_dev w);
}.
Next Obligation. done. Qed.
Next Obligation. intros. by apply mmio_read_safe. Qed.
Next Obligation.
  intros ? w addr v Hwf Hv. cbn [ctl_write qemu_controller].
  pose proof (mmio_write_safe 4096 w addr v Hwf ltac:(lia)) as Hs. unfold safe in Hs.
  exact Hs.
Qed.
Next Obligation.
  intros ? w qid v Hwf Hqid Hv. cbn [ctl_write qemu_controller].
  pose proof (mmio_write_safe 4096 w (OPENFLASH_CQ_HEAD_DB qid) v Hwf ltac:(lia)) as Hs.
  pose proof (wf_queues_len _ Hwf) as Hl. unfold OF_MAX_QUEUES in Hl.
  destruct (lookup_lt_is_Some_2 (s_queues (m_dev w)) (Z.to_nat qid)) as [q Hq]; [lia |].
  change (OPENFLASH_CQ_HEAD_DB qid) with (OF_REG_DOORBELL_BASE + qid * 8 + 4) in *.
  rewrite (cq_doorbell_eq 4096 w qid v q Hqid Hq) in Hs |- *.
  eexists. split; [done |]. split; [done |]. intros a n. cbn.
  by destruct (v <? q_depth q).
Qed.
End Instances.

(** ** A kernel in which every service succeeds

    Coherent memory comes from a region of its own, 64 KiB per call; pages are
    mapped at their physical address. *)
Module ModelKernel.
#[export] Instance services : KernelServices := {
  dma_alloc_coherent k size := Some (0x10000000 + 0x10000 * Z.of_nat (k_calls k));
  dma_map_bvec k bv dir := Some (u64 (bv_page bv));
  devm_kcalloc k := true;
  pci_alloc_irq_vectors k := 2;
  request_irq k v := 0;
  pcim_enable_device k := 0;
  dma_set_mask_and_coherent k := 0;
  pcim_iomap_regions k := 0;
  blk_mq_alloc_tag_set k := 0;
  blk_mq_alloc_disk k := 0;
  device_add_disk k := 0;
}.

#[export] Instance services_laws : KernelLaws.
Proof. constructor. cbn. intros k bv dir a E. injection E as <-. apply u64_range. Qed.

Definition boot : kernel :=
  {| k_calls := 0; k_held := []; k_mapped := []; k_inflight := []; k_ended := [];
     k_reset_work := false |}.
End ModelKernel.

(** ** A kernel without memory for descriptor lists *)
Module ScarceKernel.
Definition services : KernelServices := {|
  dma_alloc_coherent k size :=
    if size =? SGL_SIZE then None else @dma_alloc_coherent ModelKernel.services k size;
  dma_map_bvec := @dma_map_bvec ModelKernel.services;
  devm_kcalloc := @devm_kcalloc ModelKernel.services;
  pci_alloc_irq_vectors := @pci_alloc_irq_vectors ModelKernel.services;
  request_irq := @request_irq ModelKernel.services;
  pcim_enable_device := @pcim_enable_device ModelKernel.services;
  dma_set_mask_and_coherent := @dma_set_mask_and_coherent ModelKernel.services;
  pcim_iomap_regions := @pcim_iomap_regions ModelKernel.services;
  blk_mq_alloc_tag_set := @blk_mq_alloc_tag_set ModelKernel.services;
  blk_mq_alloc_disk := @blk_mq_alloc_disk ModelKernel.services;
  device_add_disk := @device_add_disk ModelKernel.services;
|}.
End ScarceKernel.
