(* ===== verification/SystemSync.v ===== *)
(** * Driver and device in step

    The invariant of the composed system: the driver's I/O queue and the
    device's describe the same rings, the device has served every command the
    driver published, and the completions not yet consumed by the driver are
    exactly those of the requests in flight.  The interrupt handler ends these
    requests, each with the status the device gave it. *)
From S2P Require Import Prelude Packed Environment Rings Abi QemuDevice DeviceSafety.
From S2P Require Import DeviceQueue DeviceRegisters AbiBridge DriverState DriverQueue.
From S2P Require Import DriverCore DriverLogic DriverSafety DriverSubmit System.

(** ** What the interrupt handler ends *)

(** Entries that carry the ids and statuses of [p], whose requests sit in their
    slots, end exactly these requests. *)
Lemma drain_pending depth slots acc es (p : list (request * Z)) :
  Forall2 (λ e x, cqe_cid e = Z.of_nat (rq_tag x.1) + 1 ∧ cqe_status e = x.2) es p →
  Forall (λ x, slots !! rq_tag x.1 = Some (Some x.1) ∧
    Z.of_nat (rq_tag x.1) + 1 < depth) p →
  NoDup ((λ x, rq_tag x.1) <$> p) →
  (foldl (drain_entry depth) (slots, acc) es).2 =
    acc ++ ((λ x, (x.1, openflash_blk_status x.2)) <$> p).
Proof.
  intros Hes. revert slots acc.
  induction Hes as [| e [rq st] es p [Hcid Hst] Hes IH]; intros slots acc Hsl Hnd.
  { cbn. by rewrite app_nil_r. }
  apply Forall_cons in Hsl as [[Hs Hd] Hsl]. apply NoDup_cons in Hnd as [Hni Hnd].
  cbn [fst snd] in *. cbn [foldl fmap list_fmap].
  assert (drain_entry depth (slots, acc) e =
    (<[rq_tag rq := None]> slots, acc ++ [(rq, openflash_blk_status st)])) as ->.
  { unfold drain_entry. rewrite Hcid, (proj2 (Z.eqb_neq _ _)), (proj2 (Z.ltb_ge _ _)) by lia.
    cbn [orb fst snd].
    replace (Z.to_nat (Z.of_nat (rq_tag rq) + 1 - 1)) with (rq_tag rq) by lia.
    by rewrite Hs, Hst. }
  rewrite IH; [by rewrite <- app_assoc | | done].
  apply Forall_forall. intros x Hx. apply (proj1 (Forall_forall _ _) Hsl) in Hx as Hx'.
  rewrite list_lookup_insert_ne; [done |]. intros E. apply Hni.
  rewrite E. by apply (list_elem_of_fmap_2 (λ x, rq_tag x.1)).
Qed.

Section Sync.
Context {M F : Type} `{GM : GuestMemory M, !GuestMemoryLaws M, HF : HostFiles F}.
Context `{KS : KernelServices, !KernelLaws}.
Implicit Types (w : machine M F) (h : host (machine M F)) (q : openflash_queue).
Implicit Types (p : list (request * Z)).

(** ** Shared memory *)
Definition cq_region q : Z * Z := (dq_cq_dma q, dq_depth q * CQE_SIZE).

(** The rings of a queue are separate pieces of RAM within the 64-bit bus, not at
    address zero. *)
Record ring_layout q : Prop := {
  rl_sq : is_ram (dq_sq_dma q) (dq_depth q * CMD_SIZE);
  rl_cq : is_ram (dq_cq_dma q) (dq_depth q * CQE_SIZE);
  rl_apart : outside [sq_region q] (dq_cq_dma q) (dq_depth q * CQE_SIZE);
  rl_sq_bus : 0 < dq_sq_dma q ∧ dq_sq_dma q + dq_depth q * CMD_SIZE ≤ 2 ^ 64;
  rl_cq_bus : 0 < dq_cq_dma q ∧ dq_cq_dma q + dq_depth q * CQE_SIZE ≤ 2 ^ 64;
}.

(** Both rings and the descriptor lists are separate, and so is each list. *)
Record shared_layout q : Prop := {
  sl_io : io_layout (W := machine M F) q;
  sl_rings : ring_layout q;
  sl_cq_sgl i r : dq_requests q !! i = Some r →
    outside [cq_region q] (r_sgl_dma r) SGL_SIZE;
  sl_lists i r : dq_requests q !! i = Some r →
    0 < r_sgl_dma r ∧ r_sgl_dma r + SGL_SIZE ≤ 2 ^ 64;
}.

(** The layout is a matter of addresses. *)
Lemma ring_layout_same q q' :
  dq_sq_dma q' = dq_sq_dma q → dq_cq_dma q' = dq_cq_dma q → dq_depth q' = dq_depth q →
  ring_layout q → ring_layout q'.
Proof.
  intros Hs Hc Hd [? ? ? ? ?]. constructor; unfold sq_region in *; by rewrite ?Hs, ?Hc, ?Hd.
Qed.

Lemma shared_layout_same q q' :
  dq_sq_dma q' = dq_sq_dma q → dq_cq_dma q' = dq_cq_dma q → dq_depth q' = dq_depth q →
  0 ≤ dq_sq_tail q' < dq_depth q →
  r_sgl_dma <$> dq_requests q' = r_sgl_dma <$> dq_requests q →
  shared_layout q → shared_layout q'.
Proof.
  intros Hs Hc Hd Ht Hls [[Hsq _ Hsgl Hap] Hrl Hcs Hl].
  assert (∀ i r', dq_requests q' !! i = Some r' →
    ∃ r, dq_requests q !! i = Some r ∧ r_sgl_dma r' = r_sgl_dma r) as Hlook.
  { intros i r' Hi. apply (f_equal (lookup i)) in Hls.
    rewrite !list_lookup_fmap, Hi in Hls. cbn in Hls.
    destruct (dq_requests q !! i) as [r |]; [| done]. cbn in Hls. exists r. by simplify_eq. }
  constructor; unfold cq_region, sq_region in *; rewrite ?Hs, ?Hc, ?Hd; try done.
  - constructor; unfold sq_region, sgl_region in *; rewrite ?Hs, ?Hd; try done.
    + intros i r' (r & Hi & ->)%Hlook. by eapply Hsgl.
    + intros i j r1 r2 Hne (r & Hi & ->)%Hlook (r' & Hj & ->)%Hlook. by eapply Hap.
  - by eapply ring_layout_same.
  - intros i r' (r & Hi & ->)%Hlook. by eapply Hcs.
  - intros i r' (r & Hi & ->)%Hlook. by eapply Hl.
Qed.

(** ** The device's side of a queue *)
Record device_queue w q (k : Z) (dq : OpenFlashQueue) : Prop := {
  dl_queue : s_queues (m_dev w) !! Z.to_nat (dq_qid q) = Some dq;
  dl_enabled : q_enabled dq = true;
  dl_sq : q_sq_addr dq = dq_sq_dma q;
  dl_cq : q_cq_addr dq = dq_cq_dma q;
  dl_depth : q_depth dq = dq_depth q;
  dl_head : q_sq_head dq = dq_sq_tail q;
  dl_posted : posted dq k;
}.

(** ** The invariant

    [k] completions have been consumed; [p] are the requests in flight, in the
    order they were served, with the status the device gave each. *)
Record synced h q (k : Z) p : Prop := {
  sy_owned : owned h q;
  sy_layout : shared_layout q;
  sy_qid : dq_qid q = 1;
  sy_consumed : consumed q k;
  sy_wf : dev_wf (m_dev (h_bus h));
  sy_ready : has_flag (s_status (m_dev (h_bus h))) OF_STATUS_READY = true;
  sy_device : ∃ dq, device_queue (h_bus h) q (k + len p) dq;
  sy_start : 0 ≤ k;
  sy_entries i x : p !! i = Some x →
    is_new (h_bus h) q (k + Z.of_nat i) ∧
    cqe_cid (cq_entry (h_bus h) q (k + Z.of_nat i)) = Z.of_nat (rq_tag x.1) + 1 ∧
    cqe_status (cq_entry (h_bus h) q (k + Z.of_nat i)) = x.2;
  sy_free j : len p ≤ j < dq_depth q → ¬ is_new (h_bus h) q (k + j);
  sy_inflight : k_inflight (h_kern h) ≡ₚ p.*1;
}.

(** A request in flight sits in the slot of its tag. *)
Lemma inflight_slot h q rq :
  owned h q → rq ∈ k_inflight (h_kern h) →
  held q !! rq_tag rq = Some (Some rq) ∧ Z.of_nat (rq_tag rq) + 1 < dq_depth q.
Proof.
  intros Ho Hin. rewrite (ow_inflight _ _ Ho) in Hin.
  apply list_elem_of_omap in Hin as (r & (i & Hi)%list_elem_of_lookup & Hrq).
  rewrite (ow_tags _ _ Ho i r rq Hi Hrq). split.
  - unfold held. by rewrite list_lookup_fmap, Hi, <- Hrq.
  - apply lookup_lt_Some in Hi. pose proof (ow_slots _ _ Ho). lia.
Qed.

Lemma synced_pending h q k p :
  synced h q k p → len p < dq_depth q ∧ NoDup ((λ x, rq_tag x.1) <$> p) ∧
  Forall (λ x, held q !! rq_tag x.1 = Some (Some x.1) ∧
    Z.of_nat (rq_tag x.1) + 1 < dq_depth q) p.
Proof.
  intros Hs. pose proof (sy_owned _ _ _ _ Hs) as Ho.
  assert (∀ x, x ∈ p → held q !! rq_tag x.1 = Some (Some x.1) ∧
    Z.of_nat (rq_tag x.1) + 1 < dq_depth q) as Hsl.
  { intros x Hx. apply (inflight_slot h); [done |].
    rewrite (sy_inflight _ _ _ _ Hs). by apply list_elem_of_fmap_2. }
  assert (NoDup p.*1) as Hnd
    by (rewrite <- (sy_inflight _ _ _ _ Hs); by eapply owned_nodup).
  split; [| split; [| by apply Forall_forall]].
  - pose proof (Permutation_length (sy_inflight _ _ _ _ Hs)) as Hl.
    rewrite (ow_inflight _ _ Ho), length_fmap in Hl. rewrite <- Hl.
    pose proof (ow_slots _ _ Ho). pose proof (length_omap_le r_rq (dq_requests q)). lia.
  - change (λ x : request * Z, rq_tag x.1) with (rq_tag ∘ fst (A := request) (B := Z)).
    rewrite (list_fmap_compose fst rq_tag p). apply NoDup_fmap_2_strong; [| done].
    intros x y (x' & -> & Hx)%list_elem_of_fmap (y' & -> & Hy)%list_elem_of_fmap E.
    apply Hsl in Hx as [Hx _]. apply Hsl in Hy as [Hy _]. rewrite E in Hx. by simplify_eq.
Qed.

(** ** The interrupt *)

(** Reporting the completion head changes nothing else of the machine. *)
Record head_reported (qid : Z) w w' : Prop := {
  hr_wf : dev_wf (m_dev w');
  hr_mem : m_mem w' = m_mem w;
  hr_files : m_files w' = m_files w;
  hr_status : s_status (m_dev w') = s_status (m_dev w);
  hr_storage : s_storage (m_dev w') = s_storage (m_dev w);
  hr_backing : s_backing_file (m_dev w') = s_backing_file (m_dev w);
  hr_capacity : s_capacity (m_dev w') = s_capacity (m_dev w);
  hr_device q k dq : device_queue w q k dq → ∃ dq', device_queue w' q k dq';
  hr_others i : i ≠ Z.to_nat qid → s_queues (m_dev w') !! i = s_queues (m_dev w) !! i;
}.

Lemma report_head w qid v w' :
  dev_wf (m_dev w) → qid = 0 ∨ qid = 1 → 0 ≤ v < 2 ^ 32 →
  ctl_write w (OPENFLASH_CQ_HEAD_DB qid) v = Done w' → head_reported qid w w'.
Proof.
  intros Hwf Hqid Hv E. pose proof (ctl_ok_write w (OPENFLASH_CQ_HEAD_DB qid) v Hwf Hv) as Hs.
  rewrite E in Hs. pose proof (wf_queues_len _ Hwf) as Hl. unfold OF_MAX_QUEUES in Hl.
  destruct (lookup_lt_is_Some_2 (s_queues (m_dev w)) (Z.to_nat qid)) as [dq0 Hq]; [lia |].
  cbn [ctl_write qemu_controller] in E.
  change (OPENFLASH_CQ_HEAD_DB qid) with (OF_REG_DOORBELL_BASE + qid * 8 + 4) in E.
  rewrite (cq_doorbell_eq 4096 w qid v dq0) in E by done.
  injection E as <-. destruct (v <? q_depth dq0); [| by constructor; eauto].
  constructor; try done.
  - intros q k dq [Hdq ? ? ? ? ? Hp].
    destruct (decide (Z.to_nat (dq_qid q) = Z.to_nat qid)) as [Hi | Hne].
    + exists (set_cq_head (u16 v) dq). constructor; try done.
      cbn. by rewrite <- Hi, list_lookup_alter_eq, Hdq.
    + exists dq. constructor; try done. cbn. by rewrite list_lookup_alter_ne.
  - intros i Hi. cbn. by rewrite list_lookup_alter_ne.
Qed.

(** Entries depend on memory and geometry only. *)
Lemma is_new_mem w w' q j : m_mem w' = m_mem w → is_new w' q j ↔ is_new w q j.
Proof. intros Hm. unfold is_new, cq_entry. cbn. by rewrite Hm. Qed.

(** One pass later an entry that was new is not. *)
Lemma is_new_pass w q j :
  0 < dq_depth q → is_new w q j → ¬ is_new w q (j + dq_depth q).
Proof.
  intros Hd Hn Hn'. unfold is_new, cq_entry in *.
  replace ((j + dq_depth q) `mod` dq_depth q) with (j `mod` dq_depth q) in Hn'.
  - rewrite Hn, phase_of_pass in Hn' by done.
    destruct (phase_of_bit (dq_depth q) j) as [E | E]; rewrite E in Hn'; lia.
  - replace (j + dq_depth q) with (j + 1 * dq_depth q) by lia. by rewrite Z.mod_add by lia.
Qed.

Lemma io_irq_synced fuel h q k p :
  synced h q k p → (Z.to_nat (dq_depth q) ≤ fuel)%nat →
  ∃ h' q',
    openflash_io_irq fuel h = Done (negb (length p =? 0)%nat, h') ∧
    synced h' q' (k + len p) [] ∧
    k_ended (h_kern h') =
      k_ended (h_kern h) ++ ((λ x, (x.1, openflash_blk_status x.2)) <$> p) ∧
    shape q' = shape q ∧ queue_at h' 0 = queue_at h 0 ∧
    with_queues None (h_dev h') = with_queues None (h_dev h) ∧
    m_mem (h_bus h') = m_mem (h_bus h) ∧ m_files (h_bus h') = m_files (h_bus h) ∧
    s_storage (m_dev (h_bus h')) = s_storage (m_dev (h_bus h)) ∧
    s_backing_file (m_dev (h_bus h')) = s_backing_file (m_dev (h_bus h)).
Proof.
  intros Hs Hf. destruct (synced_pending _ _ _ _ Hs) as (Hlen & Htags & Hslots).
  pose proof Hs as [Ho Hl Hqid Hk Hwf Hr [dq Hdq] Hk0 Hent Hfree Hin].
  destruct (wp_io_irq fuel h q k) as (b & h' & E & n & q' & l & -> & Hdr); [done.. |].
  assert (n = length p) as ->.
  { destruct (lt_eq_lt_dec n (length p)) as [[Hlt | ->] | Hgt]; [| done |].
    - destruct (lookup_lt_is_Some_2 p n Hlt) as [x Hx].
      destruct (dr_old _ _ _ _ _ _ _ Hdr). by eapply Hent.
    - destruct (Hfree (len p)); [lia |]. by apply (dr_new _ _ _ _ _ _ _ Hdr). }
  assert (l = (λ x, (x.1, openflash_blk_status x.2)) <$> p) as ->.
  { change l with (held q', l).2. rewrite <- (dr_slots _ _ _ _ _ _ _ Hdr).
    apply (drain_pending _ _ []); [| done | done].
    apply Forall2_fmap_l, Forall2_same_length_lookup_2; [by rewrite length_seq |].
    intros i j x Hj Hx. apply lookup_seq in Hj as [-> _]. by apply Hent in Hx as [_ ?]. }
  assert (dev_wf (m_dev (h_bus h')) ∧ m_mem (h_bus h') = m_mem (h_bus h) ∧
    m_files (h_bus h') = m_files (h_bus h) ∧
    s_status (m_dev (h_bus h')) = s_status (m_dev (h_bus h)) ∧
    s_storage (m_dev (h_bus h')) = s_storage (m_dev (h_bus h)) ∧
    s_backing_file (m_dev (h_bus h')) = s_backing_file (m_dev (h_bus h)) ∧
    ∃ dq', device_queue (h_bus h') q (k + len p) dq')
    as (Hwf' & Hm & Hfs & Hst & Hsto & Hbf & dq' & Hdq').
  { pose proof (dr_bus _ _ _ _ _ _ _ Hdr) as Hb.
    destruct (length p =? 0)%nat; [rewrite Hb; by eauto 10 |].
    apply report_head in Hb as []; [| done | by right | apply u32_range].
    split_and!; eauto. }
  pose proof (dr_geometry _ _ _ _ _ _ _ Hdr) as Hg.
  pose proof (geometry_inj _ _ Hg) as (Hg1 & Hg2 & Hg3 & Hg4 & Hg5).
  pose proof (ow_depth _ _ Ho) as Hd.
  exists h', q'. split; [exact E |].
  split; [| split_and!; try done; [apply Hdr | | apply Hdr | apply Hdr]].
  2: { unfold shape. by rewrite Hg1, Hg2, Hg4, (dr_lists _ _ _ _ _ _ _ Hdr). }
  constructor; try apply Hdr.
  - eapply shared_layout_same; try done; [| apply Hdr]. rewrite Hg5. apply Hl.
  - by rewrite Hg3.
  - done.
  - by rewrite Hst.
  - exists dq'. destruct Hdq'. constructor; rewrite ?Hg1, ?Hg2, ?Hg3, ?Hg4, ?Hg5; try done.
    cbn. by rewrite Z.add_0_r.
  - lia.
  - intros i x Hx. by rewrite lookup_nil in Hx.
  - intros j Hj. rewrite (is_new_geometry _ q' q), is_new_mem by done.
    rewrite Hg4 in Hj. cbn in Hj. destruct (decide (len p + j < dq_depth q)) as [Hlt | Hge].
    + rewrite <- Z.add_assoc. apply Hfree. lia.
    + set (i := len p + j - dq_depth q).
      destruct (lookup_lt_is_Some_2 p (Z.to_nat i)) as [x Hx]; [lia |].
      destruct (Hent _ _ Hx) as [Hn _].
      replace (k + len p + j) with (k + Z.of_nat (Z.to_nat i) + dq_depth q) by lia.
      apply is_new_pass; [lia | done].
  - pose proof (dr_inflight _ _ _ _ _ _ _ Hdr) as Hp. rewrite Hin in Hp.
    rewrite <- list_fmap_compose in Hp. cbn [fmap list_fmap].
    apply (Permutation_app_inv_l p.*1).
    rewrite app_nil_r. symmetry. exact Hp.
Qed.
End Sync.
