(* ===== verification/SystemSubmit.v ===== *)
(** * Requests through the driver to the device and back

    On a host in step (file SystemSync), submitting a valid request makes the
    device serve it at once: the driver's command crosses the bus, the device
    finds the segments the driver mapped, answers as the block device
    specification does, and posts the completion the next interrupt consumes. *)
From S2P Require Import Prelude Packed Environment Rings Abi Blocks QemuDevice DeviceSafety.
From S2P Require Import DeviceQueue DeviceData DeviceRegisters BlockSpec AbiBridge.
From S2P Require Import DriverState DriverQueue DriverCore DriverLogic DriverSafety DriverSubmit.
From S2P Require Import System SystemSync.

(** Direct mapping: every segment is mapped, at one bus address. *)
Class DirectMapping `{KernelServices} := {
  bus_addr : bio_vec → Z;
  dma_map_direct k bv dir : dma_map_bvec k bv dir = Some (bus_addr bv);
}.

Section Requests.
Context {M F : Type} `{GM : GuestMemory M, !GuestMemoryLaws M}.
Context `{HF : HostFiles F, !HostFilesLaws F}.
Context `{KS : KernelServices, !KernelLaws, !DirectMapping}.
Implicit Types (w : machine M F) (h : host (machine M F)) (q : openflash_queue).
Implicit Types (rq : DriverState.request) (p : list (DriverState.request * Z)).

(** ** Memory of the composed machine *)

(** The CPU's stores reach memory only. *)
Lemma stored_machine w w' :
  stored w w' → m_dev w' = m_dev w ∧ m_files w' = m_files w ∧
    m_msix_enabled w' = m_msix_enabled w.
Proof.
  induction 1 as [| w1 w2 w3 (a & bs & ->) _ (-> & -> & ->)]; done.
Qed.

Lemma changes_trans_app r1 r2 w1 w2 w3 :
  changes r1 w1 w2 → changes r2 w2 w3 → changes (r1 ++ r2) w1 w3.
Proof.
  intros H1 H2. eapply changes_trans; (eapply changes_weaken; [| done]);
    intros r Hr; apply elem_of_app; auto.
Qed.

Lemma scatter_changes w w' segs data :
  Forall (λ s, 0 ≤ s.2 ∧ is_ram s.1 s.2) segs → len data = total segs →
  m_mem w' = scatter (m_mem w) segs data → changes segs w w'.
Proof.
  intros Hf Hl Hm a n Ha Ho. cbn. rewrite Hm. apply scatter_other; [| done | done].
  eapply Forall_impl; [apply Forall_and; split; [exact Hf | exact Ho] |].
  cbn. unfold apart. intros s [[? ?] ?]. split_and!; [done | done | lia].
Qed.

(** The device's view of a descriptor list is the driver's. *)
Lemma descriptors_seq (m : M) dma index k :
  descriptors m dma index k =
    (λ i, let d := decode_OpenFlashSglDesc
            (dma_read m (u64 (dma + (index + Z.of_nat i) * 16)) 16) in
          (d_addr d, d_length d)) <$> seq 0 k.
Proof.
  revert index. induction k as [| k IH]; intros index; [done |].
  cbn [descriptors seq fmap list_fmap]. rewrite Z.add_0_r. f_equal.
  rewrite IH, <- fmap_S_seq, <- list_fmap_compose. apply list_fmap_ext.
  intros i x _. cbn [compose].
  by replace (index + 1 + Z.of_nat x) with (index + Z.of_nat (S x)) by lia.
Qed.

Lemma sgl_same_fields (bytes : list byte) :
  let d := decode_OpenFlashSglDesc bytes in
  (d_addr d, d_length d) = (sgl_addr (decode_sgl bytes), sgl_length (decode_sgl bytes)).
Proof.
  unfold decode_OpenFlashSglDesc, decode_sgl.
  change OpenFlashSglDesc_layout with sgl_layout.
  by destruct (unpack sgl_layout bytes) as [| ? [| ? [| ? []]]].
Qed.

Lemma descriptors_written w sgl addrs bvs :
  0 ≤ sgl → sgl + SGL_SIZE ≤ 2 ^ 64 → len bvs ≤ OPENFLASH_MAX_SGL_ENTRIES →
  sgl_desc_at w sgl <$> seq 0 (length bvs) = zip_with segment_desc addrs bvs →
  length addrs = length bvs →
  descriptors (m_mem w) sgl 0 (length bvs) = zip_with (λ a bv, (a, bv_len bv)) addrs bvs.
Proof.
  intros Hlo Hhi Hl Hd Ha. rewrite descriptors_seq.
  transitivity ((λ d, (sgl_addr d, sgl_length d)) <$> (sgl_desc_at w sgl <$> seq 0 (length bvs))).
  - rewrite <- list_fmap_compose. apply list_fmap_ext. intros i x Hx.
    apply lookup_seq in Hx as [-> Hx]. cbn [compose Nat.add]. rewrite sgl_same_fields.
    unfold sgl_desc_at, SGL_SIZE, SGL_DESC_SIZE, OPENFLASH_MAX_SGL_ENTRIES in *.
    rewrite u64_small by lia. cbn. by rewrite Z.add_0_l.
  - rewrite Hd. clear. revert bvs.
    induction addrs as [| a addrs IH]; intros [| bv bvs]; cbn; [done.. |]. by rewrite IH.
Qed.

(** ** The completion the device posts *)
Lemma post_completion i w1 q K dq cmd status result :
  ring_layout (M := M) q → 0 < dq_depth q →
  q_cq_addr dq = dq_cq_dma q → q_depth dq = dq_depth q → posted dq K →
  fits completion_layout (completion_fields (completion_of cmd dq status result)) →
  let w' := post i dq cmd status result w1 in
  changes [(dq_cq_dma q + K `mod` dq_depth q * CQE_SIZE, CQE_SIZE)] w1 w' ∧
  cq_entry w' q K = driver_completion (completion_of cmd dq status result).
Proof.
  intros Hl Hd Hcq Hdep (HK & Ht & _) Hf w'.
  pose proof (Z.mod_pos_bound K (dq_depth q) Hd) as Hm. rewrite Hdep in Ht.
  pose proof (rl_cq_bus _ Hl) as Hbus. unfold CQE_SIZE in *.
  set (a := dq_cq_dma q + K `mod` dq_depth q * 64).
  set (bytes := encode_OpenFlashCompletion (completion_of cmd dq status result)).
  assert (len bytes = 64) as Hlen by (unfold bytes; by rewrite length_encode_completion).
  assert (m_mem w' = dma_write (m_mem w1) a bytes) as Hmem.
  { unfold w'. cbn. rewrite Hcq, Ht, u64_small by lia. done. }
  assert (is_ram a (len bytes)) as Hram.
  { rewrite Hlen. eapply is_ram_sub; [apply (rl_cq _ Hl) | ..];
      unfold CQE_SIZE, a; lia. }
  split.
  - intros b n Hb Ho. change (dma_read (m_mem w') b n = dma_read (m_mem w1) b n).
    rewrite Hmem. apply dma_read_write_other; [done | done |].
    rewrite Hlen. unfold outside in Ho. rewrite Forall_singleton in Ho. cbn in Ho. lia.
  - change (decode_completion (dma_read (m_mem w') a 64) =
      driver_completion (completion_of cmd dq status result)).
    rewrite Hmem, <- Hlen, dma_read_write_same by done.
    by apply completion_crosses.
Qed.

(** Completions of well-formed commands have fields within their widths. *)
Lemma completion_of_fits w i dq cmd status result w1 :
  dev_wf (m_dev w) → s_queues (m_dev w) !! i = Some dq → q_enabled dq = true →
  cmd_wf cmd → 0 ≤ c_cid cmd < 2 ^ 16 → 0 ≤ c_user_data cmd < 2 ^ 64 →
  openflash_execute w cmd = Done (status, result, w1) →
  fits completion_layout (completion_fields (completion_of cmd dq status result)).
Proof.
  intros Hwf Hq Hen Hcw Hcid Hud He.
  destruct (execute_safe w cmd Hwf Hcw) as (? & ? & ? & He' & _ & Hst & Hres).
  rewrite He in He'. injection He' as <- <- <-. apply completion_codes_range in Hst.
  pose proof (Forall_lookup_1 _ _ _ _ (wf_queues _ Hwf) Hq) as Hqwf.
  pose proof (wf_sq_head _ (advance_wf dq Hqwf (wf_enabled _ Hqwf Hen))) as Hadv.
  assert (0 ≤ q_cq_phase dq < 2 ^ 16) as Hph by (destruct (wf_phase _ Hqwf) as [-> | ->]; lia).
  unfold fits, completion_layout, completion_fields, completion_of.
  cbn [e_result e_user_data e_sq_head e_cid e_status e_flags].
  repeat constructor; first [done | lia].
Qed.

Lemma entry_kept regions w w' q j :
  changes regions w w' → ring_layout (M := M) q → 0 < dq_depth q →
  outside regions (dq_cq_dma q + j `mod` dq_depth q * CQE_SIZE) CQE_SIZE →
  cq_entry w' q j = cq_entry w q j.
Proof.
  intros Hc Hl Hd Ho. unfold cq_entry. rewrite Hc; [done | | done].
  pose proof (Z.mod_pos_bound j (dq_depth q) Hd).
  eapply is_ram_sub; [apply (rl_cq _ Hl) | ..]; unfold CQE_SIZE; lia.
Qed.

(** Completions one pass apart at most do not overlap. *)
Lemma entry_apart q (a b : Z) :
  a ≠ b → - dq_depth q < a - b < dq_depth q →
  outside [(dq_cq_dma q + b `mod` dq_depth q * CQE_SIZE, CQE_SIZE)]
    (dq_cq_dma q + a `mod` dq_depth q * CQE_SIZE) CQE_SIZE.
Proof.
  intros Hne Hd. apply Forall_singleton. cbn. unfold CQE_SIZE.
  assert (a `mod` dq_depth q ≠ b `mod` dq_depth q); [| lia].
  destruct (Z.lt_trichotomy a b) as [? | [? | ?]]; [| done |].
  - apply slots_differ. lia.
  - apply not_eq_sym, slots_differ. lia.
Qed.

(** ** Valid requests *)
Definition segments_of rq : list (Z * Z) := (λ bv, (bus_addr bv, bv_len bv)) <$> rq_bvecs rq.

Definition shared_regions q : list (Z * Z) :=
  sq_region q :: cq_region q :: (sgl_region <$> dq_requests q).

(** A data segment: RAM with a bus address, not shared with the controller. *)
Definition buffer q (s : Z * Z) : Prop :=
  (0 < s.1 < 2 ^ 64 ∧ 0 < s.2 < 2 ^ 32) ∧ is_ram s.1 s.2 ∧
  outside (shared_regions q) s.1 s.2.

Definition has_data (op : req_op) : bool :=
  match op with REQ_OP_READ | REQ_OP_WRITE => true | _ => false end.

(** The requests the theorems on accepted submissions are about: what the block
    layer guarantees within the limits the driver set on the queue (a free tag,
    whole blocks, an operation and flags the disk advertises, distinct pages of
    the stated total), and at most 16 pages.  The last is not among the limits
    set: the block layer counts runs of contiguous pages ([vr_phys]), the driver
    maps page by page. *)
Record valid_request h q rq (r : openflash_request) : Prop := {
  vr_slot : dq_requests q !! rq_tag rq = Some r;
  vr_free : r_rq r = None;
  vr_pos : 0 ≤ rq_pos rq < 2 ^ 55 ∧ rq_pos rq `mod` OPENFLASH_SECTORS_PER_BLOCK = 0;
  vr_bytes : 0 ≤ rq_bytes rq < 2 ^ 32 ∧ rq_bytes rq `mod` OPENFLASH_BLOCK_SIZE = 0;
  vr_op : rq_opf rq ≠ REQ_OP_OTHER;
  vr_fua : rq_fua rq = true → rq_opf rq = REQ_OP_WRITE ∧
    has_flag (of_capabilities (h_dev h)) OPENFLASH_CAP_FUA = true;
  vr_count : len (rq_bvecs rq) ≤ OPENFLASH_MAX_SGL_ENTRIES;
  vr_phys : rq_nr_phys_segments rq ≤ OPENFLASH_MAX_SGL_ENTRIES;
  vr_buffers : Forall (buffer q) (segments_of rq);
  vr_apart : disjoint_segments (segments_of rq);
  vr_total : has_data (rq_opf rq) = true →
    rq_bytes rq ≠ 0 ∧ total (segments_of rq) = rq_bytes rq;
}.

Lemma valid_lens h q rq r :
  valid_request h q rq r → Forall (λ bv, 0 ≤ bv_len bv < 2 ^ 32) (rq_bvecs rq).
Proof.
  intros Hv. pose proof (vr_buffers _ _ _ _ Hv) as Hb. unfold segments_of in Hb.
  rewrite Forall_fmap in Hb. eapply Forall_impl; [exact Hb |].
  intros bv ((? & ?) & _). cbn in *. lia.
Qed.

(** A valid request is not refused. *)
Lemma valid_tag h q rq r :
  owned h q → valid_request h q rq r → Z.of_nat (rq_tag rq) + 1 < dq_depth q < 2 ^ 16.
Proof.
  intros Ho Hv. pose proof (lookup_lt_Some _ _ _ (vr_slot _ _ _ _ Hv)).
  pose proof (ow_slots _ _ Ho). pose proof (ow_depth _ _ Ho). lia.
Qed.

Lemma valid_accepted h q rq r :
  owned h q → valid_request h q rq r →
  early_refusal q rq = None ∧ ¬ lacks_fua h rq ∧ ∀ st, ¬ refusal h q rq st.
Proof.
  intros Ho Hv. pose proof (valid_tag _ _ _ _ Ho Hv) as Ht.
  assert (early_refusal q rq = None) as He.
  { unfold early_refusal. destruct (vr_pos _ _ _ _ Hv) as [_ ->].
    destruct (vr_bytes _ _ _ _ Hv) as [_ ->]. cbn [Z.eqb negb orb].
    rewrite u16_small, (proj2 (Z.leb_gt _ _)) by lia.
    replace (rq_fua rq && negb (bool_decide (rq_opf rq = REQ_OP_WRITE))) with false.
    2: { destruct (rq_fua rq) eqn:Hf; [| done]. apply (vr_fua _ _ _ _ Hv) in Hf as [-> _].
         by rewrite bool_decide_eq_true_2. }
    pose proof (vr_total _ _ _ _ Hv) as Htot. pose proof (vr_phys _ _ _ _ Hv).
    pose proof (vr_op _ _ _ _ Hv).
    destruct (rq_opf rq); cbn [opcode_of has_data] in *; try done;
      destruct Htot as [Hne _]; [done | | done |];
      by rewrite (proj2 (Z.eqb_neq _ _) Hne), (proj2 (Z.ltb_ge _ _)) by done. }
  assert (¬ lacks_fua h rq) as Hf.
  { intros [Hf Hc]. apply (vr_fua _ _ _ _ Hv) in Hf as [_ Hc']. congruence. }
  split_and!; [done | done |]. intros st Hr. inversion Hr as [? E | ? ? _ _ Hx | _ Hx].
  - congruence.
  - apply Exists_exists in Hx as (bv & _ & k & E). by rewrite dma_map_direct in E.
  - done.
Qed.

(** ** The command that crosses the bus *)
Definition sent q rq (op : Z) (m : nat) (sgl : Z) : OpenFlashCommand :=
  controller_command (final_command q rq op m sgl).

Lemma sent_fields q rq op m sgl :
  let c := sent q rq op m sgl in
  c_opcode c = op ∧ c_cid c = u16 (Z.of_nat (rq_tag rq) + 1) ∧ c_user_data c = 0 ∧
  c_lba c = rq_pos rq / OPENFLASH_SECTORS_PER_BLOCK ∧
  c_nblocks c = rq_bytes rq / OPENFLASH_BLOCK_SIZE ∧
  ((0 < m)%nat → c_flags c = OPENFLASH_CMD_F_SGL ∧ c_control c = Z.of_nat m ∧
     c_data_addr c = sgl).
Proof.
  unfold sent, final_command. destruct (rq_fua rq), m; cbn; split_and!; done || lia.
Qed.

Lemma sent_fits h q rq r op m sgl :
  valid_request h q rq r → dq_qid q = 1 → 0 ≤ op < 2 ^ 8 →
  Z.of_nat m ≤ OPENFLASH_MAX_SGL_ENTRIES → 0 ≤ sgl < 2 ^ 64 →
  fits command_layout (command_fields (final_command q rq op m sgl)).
Proof.
  intros Hv Hqid Hop Hm Hs. destruct (vr_pos _ _ _ _ Hv) as [Hpos _].
  destruct (vr_bytes _ _ _ _ Hv) as [Hby _]. pose proof (u16_range (Z.of_nat (rq_tag rq) + 1)).
  change OPENFLASH_MAX_SGL_ENTRIES with 16 in Hm.
  assert (0 ≤ rq_pos rq / OPENFLASH_SECTORS_PER_BLOCK < 2 ^ 64 ∧
    0 ≤ rq_bytes rq / OPENFLASH_BLOCK_SIZE < 2 ^ 32) as [? ?].
  { change OPENFLASH_SECTORS_PER_BLOCK with 8. change OPENFLASH_BLOCK_SIZE with 4096.
    pose proof (Z.div_mod (rq_pos rq) 8). pose proof (Z.mod_pos_bound (rq_pos rq) 8).
    pose proof (Z.div_mod (rq_bytes rq) 4096). pose proof (Z.mod_pos_bound (rq_bytes rq) 4096).
    lia. }
  unfold final_command, fits, command_layout, command_fields.
  destruct (rq_fua rq), (0 <? m)%nat; unfold set_sgl, add_fua, base_command; cbn [opcode
    flags qid cid reserved0 lba nblocks control data_addr metadata_addr user_data
    reserved1_0 reserved1_1]; rewrite Hqid; repeat constructor; try done; lia.
Qed.

(** Sectors and bytes are whole blocks. *)
Lemma sent_range h q rq r :
  valid_request h q rq r →
  0 ≤ rq_pos rq / OPENFLASH_SECTORS_PER_BLOCK < 2 ^ 52 ∧
  rq_bytes rq / OPENFLASH_BLOCK_SIZE * OF_BLOCK_SIZE = rq_bytes rq.
Proof.
  intros Hv. destruct (vr_pos _ _ _ _ Hv) as [Hpos Hp8].
  destruct (vr_bytes _ _ _ _ Hv) as [Hby Hb]. unfold OF_BLOCK_SIZE.
  change OPENFLASH_SECTORS_PER_BLOCK with 8 in *. change OPENFLASH_BLOCK_SIZE with 4096 in *.
  pose proof (Z.div_mod (rq_pos rq) 8). pose proof (Z.div_mod (rq_bytes rq) 4096). lia.
Qed.

(** A request to the block device, data taken from memory [m]. *)
Definition request_with (fua : bool) (m : M) rq : BlockSpec.request :=
  let lba := rq_pos rq / OPENFLASH_SECTORS_PER_BLOCK in
  let n := rq_bytes rq / OPENFLASH_BLOCK_SIZE in
  match rq_opf rq with
  | REQ_OP_READ => Read lba n
  | REQ_OP_WRITE => Write lba (to_blocks bs (gather m (segments_of rq))) fua
  | REQ_OP_DISCARD => Discard lba n
  | _ => Flush
  end.

(** What the block layer asks for. *)
Definition spec_request (m : M) rq : BlockSpec.request := request_with (rq_fua rq) m rq.

(** What the command the driver publishes asks for: its flags are overwritten
    when it carries data, so a FUA write becomes a plain one.  For every other
    request the two are the same. *)
Definition issued_request (m : M) rq : BlockSpec.request := request_with false m rq.

Lemma issued_plain m rq : rq_fua rq = false → issued_request m rq = spec_request m rq.
Proof. unfold spec_request, issued_request. by intros ->. Qed.

Lemma segments_nonempty h q rq r :
  valid_request h q rq r → has_data (rq_opf rq) = true → (0 < length (rq_bvecs rq))%nat.
Proof.
  intros Hv Hd. destruct (vr_total _ _ _ _ Hv Hd) as [Hne Ht]. unfold segments_of in Ht.
  destruct (rq_bvecs rq); cbn in *; lia.
Qed.

Lemma opcode_small op code d : opcode_of op = Some (code, d) → 0 ≤ code < 2 ^ 8.
Proof. by destruct op; cbn; intros; simplify_eq. Qed.

Section Command.
Context (h : host (machine M F)) (q : openflash_queue) (rq : DriverState.request).
Context (r : openflash_request) (code : Z) (d : option dma_data_direction).
Context (w : machine M F).
Hypothesis Hv : valid_request h q rq r.
Hypothesis Hl : shared_layout (M := M) (F := F) q.
Hypothesis Hop : opcode_of (rq_opf rq) = Some (code, d).
Hypothesis Hsegs : has_data (rq_opf rq) = true →
  descriptors (m_mem w) (r_sgl_dma r) 0 (length (rq_bvecs rq)) = segments_of rq.

Let cmd : OpenFlashCommand := sent q rq code (length (segments rq)) (r_sgl_dma r).

Lemma sent_segments :
  has_data (rq_opf rq) = true →
  c_data_addr cmd = r_sgl_dma r ∧ has_flag (c_flags cmd) OF_CMD_F_SGL = true ∧
  u16 (Z.land (c_control cmd) 0xffff) = len (rq_bvecs rq) ∧
  ∀ n, command_segments (m_mem w) cmd n = segments_of rq.
Proof.
  intros Hd. pose proof (segments_nonempty _ _ _ _ Hv Hd) as Hne.
  pose proof (vr_count _ _ _ _ Hv) as Hc. change OPENFLASH_MAX_SGL_ENTRIES with 16 in Hc.
  destruct (sent_fields q rq code (length (segments rq)) (r_sgl_dma r))
    as (_ & _ & _ & _ & _ & Hf). fold cmd in Hf.
  assert (segments rq = rq_bvecs rq) as Hs
    by (unfold segments; by destruct (rq_opf rq)).
  rewrite Hs in Hf. destruct (Hf Hne) as (Hfl & Hct & Hda).
  assert (u16 (Z.land (c_control cmd) 0xffff) = len (rq_bvecs rq)) as Hu.
  { rewrite Hct. change 0xffff with (Z.ones 16). rewrite Z.land_ones, Z.mod_small by lia.
    apply u16_small. lia. }
  split_and!; [done | by rewrite Hfl | done |]. intros n. unfold command_segments.
  rewrite Hfl, Hu, Hda. cbn [has_flag]. rewrite Nat2Z.id. by apply Hsegs.
Qed.

Lemma sent_length : cmd_length cmd = rq_bytes rq.
Proof.
  unfold cmd_length. destruct (sent_fields q rq code (length (segments rq)) (r_sgl_dma r))
    as (_ & _ & _ & _ & Hn & _). fold cmd in Hn. rewrite Hn. by apply (sent_range h q rq r).
Qed.

Lemma sent_acceptable : acceptable w cmd.
Proof.
  destruct (sent_fields q rq code (length (segments rq)) (r_sgl_dma r))
    as (Hc & _). fold cmd in Hc. unfold acceptable. rewrite Hc, sent_length.
  assert (code = OF_OP_READ ∨ code = OF_OP_WRITE → has_data (rq_opf rq) = true) as Hdata.
  { intros Hcode. destruct (rq_opf rq); cbn in *; simplify_eq; try done; by destruct Hcode. }
  pose proof (sl_lists _ Hl _ _ (vr_slot _ _ _ _ Hv)) as [Hs1 Hs2].
  destruct (lay_sgl _ (sl_io _ Hl) _ _ (vr_slot _ _ _ _ Hv)) as [Hram _].
  pose proof (vr_count _ _ _ _ Hv) as Hcnt. change OPENFLASH_MAX_SGL_ENTRIES with 16 in Hcnt.
  pose proof (vr_buffers _ _ _ _ Hv) as Hb.
  split.
  - intros Hd%Hdata. destruct (sent_segments Hd) as (Hda & Hfl & Hct & Hsg).
    destruct (vr_total _ _ _ _ Hv Hd) as [Hne Htot].
    pose proof (segments_nonempty _ _ _ _ Hv Hd).
    split; [rewrite Hda; lia |]. intros _. rewrite Hct, Hsg. unfold OF_MAX_SGL_ENTRIES.
    split; [lia |]. split; [| done]. eapply Forall_impl; [exact Hb |].
    intros s ((? & ?) & _). split; lia.
  - intros Hrd _. destruct (sent_segments (Hdata (or_introl Hrd))) as (Hda & Hfl & Hct & Hsg).
    rewrite Hct, Hsg, Hda, Nat2Z.id. intros i Hi. unfold SGL_SIZE, SGL_DESC_SIZE in *.
    change OPENFLASH_MAX_SGL_ENTRIES with 16 in *. rewrite u64_small by lia.
    split; [eapply is_ram_sub; [exact Hram | lia..] |].
    eapply Forall_impl; [exact Hb |]. intros s (_ & Hsr & Ho). split; [done |].
    unfold shared_regions, outside in Ho. rewrite !Forall_cons in Ho. destruct Ho as (_ & _ & Ho).
    rewrite Forall_fmap in Ho.
    pose proof (Forall_lookup_1 _ _ _ _ Ho (vr_slot _ _ _ _ Hv)) as Hx.
    unfold sgl_region, SGL_SIZE, SGL_DESC_SIZE in Hx. cbn in Hx.
    change OPENFLASH_MAX_SGL_ENTRIES with 16 in Hx. unfold apart. lia.
Qed.

Lemma sent_request : request_of w cmd = Some (issued_request (m_mem w) rq).
Proof.
  destruct (sent_fields q rq code (length (segments rq)) (r_sgl_dma r))
    as (Hc & _ & _ & Hlba & Hn & Hf). fold cmd in Hc, Hlba, Hn, Hf.
  pose proof sent_segments as Hseg. pose proof (segments_nonempty _ _ _ _ Hv) as Hne.
  unfold request_of. rewrite Hc, Hlba, Hn. unfold issued_request, request_with, segments in *.
  destruct (rq_opf rq) eqn:Eop; [| | | | discriminate Hop]; injection Hop as Hcode _;
    rewrite <- Hcode; [done | | done | done].
  destruct Hseg as (_ & _ & _ & Hsg); [done |].
  cbn [Z.eqb OPENFLASH_OP_WRITE OF_OP_WRITE OF_OP_READ OF_OP_FLUSH OF_ADMIN_IDENTIFY Pos.eqb].
  rewrite Hsg. by destruct Hf as (-> & _ & _); [apply Hne |].
Qed.
End Command.

(** ** Execution of the command *)

(** Where the reply of a request lands in memory. *)
Definition landing rq : list (Z * Z) :=
  match rq_opf rq with REQ_OP_READ => segments_of rq | _ => [] end.

Lemma read_reply_length w d ok lba n :
  dev_wf (m_dev w) → abs w d → 0 ≤ lba → 0 ≤ n →
  r_data (spec_step ok (Read lba n) d).1 ≠ [] →
  len (concat (r_data (spec_step ok (Read lba n) d).1)) = n * OF_BLOCK_SIZE.
Proof.
  intros Hwf Habs Hlba Hn. cbn [spec_step]. destruct (in_range d lba n) eqn:Hr; [done |].
  intros _. apply in_range_fits in Hr as [_ Hfit]; [| done..].
  destruct (abs_blocks _ _ Habs) as (st & Hst & Hb).
  destruct (storage_blocks _ _ Hwf Hst) as (Hlen & Hcount & Hcap). cbn [fst r_data success].
  rewrite Hb in Hfit |- *.
  rewrite <- (to_blocks_slice _ bs_pos st _ _ _ Hlen) by lia.
  rewrite (concat_to_blocks _ bs_pos _ (Z.to_nat n));
    rewrite length_slice; unfold bs, OF_BLOCK_SIZE in *; lia.
Qed.

Lemma reply_data ok (m : M) rq d :
  r_data (spec_step ok (issued_request m rq) d).1 ≠ [] → rq_opf rq = REQ_OP_READ.
Proof.
  unfold issued_request, request_with. destruct (rq_opf rq); [done | ..]; cbn [spec_step]; intros Hne;
    exfalso; apply Hne; unfold save; by repeat case_split.
Qed.

Lemma sent_executes h q rq r code dd w d :
  valid_request h q rq r → shared_layout (M := M) (F := F) q → dq_qid q = 1 →
  opcode_of (rq_opf rq) = Some (code, dd) →
  (has_data (rq_opf rq) = true →
     descriptors (m_mem w) (r_sgl_dma r) 0 (length (rq_bvecs rq)) = segments_of rq) →
  cmd_wf (sent q rq code (length (segments rq)) (r_sgl_dma r)) →
  dev_wf (m_dev w) → abs w d →
  ∃ ok w1,
    let rep := (spec_step ok (issued_request (m_mem w) rq) d).1 in
    openflash_execute w (sent q rq code (length (segments rq)) (r_sgl_dma r)) =
      Done (r_status rep, r_result rep, w1) ∧
    abs w1 (spec_step ok (issued_request (m_mem w) rq) d).2 ∧
    changes (landing rq) w w1 ∧
    (r_data rep ≠ [] → gather (m_mem w1) (segments_of rq) = concat (r_data rep)).
Proof.
  intros Hv Hl Hqid Hop Hsegs Hcw Hwf Habs. set (cmd := sent _ _ _ _ _) in *.
  destruct (sent_range _ _ _ _ Hv) as [Hlba Hbytes].
  destruct (sent_fields q rq code (length (segments rq)) (r_sgl_dma r))
    as (_ & _ & _ & Hc & _ & _). fold cmd in Hc.
  destruct (execute_refines w d cmd (issued_request (m_mem w) rq)) as (ok & w1 & E & Ha & Hd);
    [done | done | done | rewrite Hc; lia | by eapply sent_acceptable |
     by eapply sent_request |].
  exists ok, w1. split; [exact E |]. split; [done |]. unfold delivered in Hd.
  pose proof (vr_buffers _ _ _ _ Hv) as Hb.
  assert (Forall (λ s, 0 ≤ s.2 ∧ is_ram s.1 s.2) (segments_of rq)) as Hb'.
  { eapply Forall_impl; [exact Hb |]. intros s ((_ & ?) & ? & _). split; [lia | done]. }
  set (rep := (spec_step ok (issued_request (m_mem w) rq) d).1) in *.
  destruct (decide (r_data rep = [])) as [Hnil | Hne].
  - split; [| done]. rewrite Hnil, bool_decide_eq_true_2 in Hd by done. cbn in Hd.
    intros a n _ _. cbn. by rewrite Hd.
  - pose proof (reply_data ok (m_mem w) rq d Hne) as Hread.
    rewrite bool_decide_eq_false_2 in Hd by done.
    destruct (sent_segments h q rq r code dd w) as (_ & _ & _ & Hsg);
      [done.. | by rewrite Hread |]. fold cmd in Hsg. rewrite Hsg in Hd.
    assert (len (concat (r_data rep)) = total (segments_of rq)) as Hlen.
    { destruct (vr_total _ _ _ _ Hv) as [_ ->]; [by rewrite Hread |].
      unfold rep, issued_request, request_with in Hne |- *. rewrite Hread in Hne |- *.
      destruct (vr_bytes _ _ _ _ Hv) as [? _].
      rewrite (read_reply_length w d); [done | done | done | lia | | done].
      apply Z.div_pos; [lia |]. done. }
    unfold landing. rewrite Hread. split; [by eapply scatter_changes |].
    intros _. rewrite Hd. apply gather_scatter; [done | apply Hv | done].
Qed.
End Requests.
