(* ===== verification/SystemAdmin.v ===== *)
(** * Admin commands of the composed system

    The admin queue of driver and device in step: every admin command is served
    at its doorbell, and the first interrupt while the driver waits hands its
    status and result to the waiting caller. *)
From S2P Require Import Prelude Packed Environment Rings Abi QemuDevice DeviceSafety.
From S2P Require Import DeviceQueue DeviceRegisters AbiBridge DriverState DriverQueue.
From S2P Require Import DriverCore DriverLogic DriverSafety DriverSubmit System SystemSync SystemSubmit.

Section Admin.
Context {M F : Type} `{GM : GuestMemory M, !GuestMemoryLaws M, HF : HostFiles F}.
Context `{KS : KernelServices}.
Implicit Types (w : machine M F) (h : host (machine M F)) (q : openflash_queue).
Implicit Types (cmd : openflash_command).

(** [k] commands were served and their completions consumed. *)
Record admin_synced h q (k : Z) : Prop := {
  as_queue : queue_at h 0 = Some q;
  as_qid : dq_qid q = 0;
  as_depth : 1 < dq_depth q < 2 ^ 16;
  as_layout : ring_layout (M := M) q;
  as_tail : 0 ≤ dq_sq_tail q < dq_depth q;
  as_consumed : consumed q k;
  as_wf : dev_wf (m_dev (h_bus h));
  as_ready : has_flag (s_status (m_dev (h_bus h))) OF_STATUS_READY = true;
  as_device : ∃ dq, device_queue (h_bus h) q k dq;
  as_free j : 0 ≤ j < dq_depth q → ¬ is_new (h_bus h) q (k + j);
}.

(** The driver outside its admin queue, and the kernel, are as they were. *)
Record only_admin h h' : Prop := {
  oa_kern : h_kern h' = h_kern h;
  oa_io : queue_at h' 1 = queue_at h 1;
  oa_dev : with_queues None (h_dev h') = with_queues None (h_dev h);
}.

Lemma only_admin_trans h1 h2 h3 : only_admin h1 h2 → only_admin h2 h3 → only_admin h1 h3.
Proof. intros [] []. constructor; congruence. Qed.

Lemma only_admin_upd h h' f : only_admin h h' → only_admin h (upd_queue 0 f h').
Proof. intros []. constructor; [done | by rewrite queue_at_upd_ne | done]. Qed.

Lemma only_admin_bus h h' w : only_admin h h' → only_admin h (with_bus w h').
Proof. by intros []. Qed.

(** The command that is published, and the queue that waits for it. *)
Definition admin_sent q cmd : openflash_command :=
  with_cid (dq_qid q) (fresh_cid (dq_next_cid q)) cmd.

Definition waiting_queue q : openflash_queue :=
  let cid := fresh_cid (dq_next_cid q) in
  with_sq_tail ((dq_sq_tail q + 1) `mod` dq_depth q)
    (with_admin {| aw_done := 0; aw_cid := cid; aw_status := aw_status (dq_admin q);
       aw_result := aw_result (dq_admin q); aw_error := 0; aw_pending := true |}
       (with_next_cid cid q)).

Definition sq_slot q : Z := dq_sq_dma q + dq_sq_tail q * CMD_SIZE.

Lemma wp_admin_submit h q cmd w :
  queue_at h 0 = Some q → dq_qid q = 0 → 0 ≤ dq_sq_tail q < dq_depth q → dq_depth q < 2 ^ 16 →
  ctl_write (dma_write (h_bus h) (sq_slot q) (encode_command (admin_sent q cmd)))
    (OPENFLASH_SQ_TAIL_DB 0) ((dq_sq_tail q + 1) `mod` dq_depth q) = Done w →
  wp (admin_submit cmd) (λ _ h', h_bus h' = w ∧ queue_at h' 0 = Some (waiting_queue q) ∧
    only_admin h h') h.
Proof.
  intros Hq Hqid Ht Hd E. unfold admin_submit.
  pose proof (Z.mod_pos_bound (dq_sq_tail q + 1) (dq_depth q)) as Hm.
  apply wp_bind. eapply wp_get_queue; [exact Hq |].
  apply wp_bind. eapply wp_put_queue; [exact Hq |].
  apply wp_bind. eapply wp_put_queue; [by rewrite queue_at_upd, Hq |].
  apply wp_bind, wp_slot; [done |]. apply wp_bind, wp_store.
  apply wp_bind. eapply wp_lift; [apply c_mod_pos; lia |].
  rewrite (u16_small (_ `mod` _)) by lia. set (h2 := with_bus _ _).
  assert (queue_at h2 0 = Some (with_admin {| aw_done := 0;
    aw_cid := fresh_cid (dq_next_cid q); aw_status := aw_status (dq_admin q);
    aw_result := aw_result (dq_admin q); aw_error := 0; aw_pending := true |}
    (with_next_cid (fresh_cid (dq_next_cid q)) q))) as Hq2.
  { change (queue_at h2 0) with (queue_at (upd_queue 0 (λ q0, with_admin {| aw_done := 0;
      aw_cid := fresh_cid (dq_next_cid q); aw_status := aw_status (dq_admin q0);
      aw_result := aw_result (dq_admin q0); aw_error := 0; aw_pending := true |} q0)
      (upd_queue 0 (with_next_cid (fresh_cid (dq_next_cid q))) h)) 0).
    by rewrite !queue_at_upd, Hq. }
  apply wp_bind. eapply wp_put_queue; [exact Hq2 |].
  replace (OPENFLASH_SQ_TAIL_DB (dq_qid q)) with (OPENFLASH_SQ_TAIL_DB 0) by (by rewrite Hqid).
  eapply wp_writel; [rewrite u32_small by lia; exact E |]. split; [done |]. split.
  - change (queue_at (upd_queue 0 (with_sq_tail ((dq_sq_tail q + 1) `mod` dq_depth q)) h2) 0 =
      Some (waiting_queue q)). by rewrite queue_at_upd, Hq2.
  - by apply only_admin_bus, only_admin_upd, only_admin_bus, only_admin_upd, only_admin_upd.
Qed.

(** ** Interrupts *)

Lemma status_ready h :
  has_flag (s_status (m_dev (h_bus h))) OF_STATUS_READY = true → dev_wf (m_dev (h_bus h)) →
  readl OPENFLASH_REG_STATUS h = Done (OF_STATUS_READY, h).
Proof.
  intros Hr Hwf. unfold readl. cbn. destruct (wf_status _ Hwf) as [E | ->]; [| done].
  by rewrite E in Hr.
Qed.

Lemma deliver_irqs_idle fuel n h q k :
  queue_at h 0 = Some q → 0 < dq_depth q → consumed q k → ¬ is_new (h_bus h) q k →
  has_flag (s_status (m_dev (h_bus h))) OF_STATUS_READY = true → dev_wf (m_dev (h_bus h)) →
  deliver_irqs fuel n h = Done ((), h).
Proof.
  intros Hq Hd Hk Hn Hr Hwf. induction n as [| n IH]; [done |]. cbn [deliver_irqs].
  erewrite bind_done; [exact IH |]. unfold openflash_irq.
  rewrite (bind_done _ _ _ _ _ (status_ready h Hr Hwf)).
  change (has_flag OF_STATUS_READY OPENFLASH_STATUS_READY) with true. cbn [negb].
  unfold openflash_drain_admin_cq.
  erewrite bind_done; [| erewrite bind_done by (by eapply cq_loop_idle); done]. done.
Qed.

(** What the waiting caller finds once its completion is there. *)
Definition answer q (status result : Z) : admin_wait :=
  {| aw_done := 1; aw_cid := fresh_cid (dq_next_cid q); aw_status := status;
     aw_result := result; aw_error := 0; aw_pending := false |}.

Lemma wp_admin_entry e h q q1 :
  queue_at h 0 = Some q1 → dq_admin q1 = dq_admin (waiting_queue q) →
  cqe_cid e = fresh_cid (dq_next_cid q) →
  wp (admin_entry e) (λ _ h',
    h' = upd_queue 0 (with_admin (answer q (cqe_status e) (cqe_result e))) h) h.
Proof.
  intros Hq Ha Hc. unfold admin_entry. apply wp_bind. eapply wp_get_queue; [done |].
  rewrite Ha. cbn [waiting_queue dq_admin with_sq_tail with_admin aw_pending aw_cid aw_done].
  rewrite Hc, Z.eqb_refl. by eapply wp_put_queue.
Qed.

(** ** From the doorbell to the completion *)
Section Served.
Context (h : host (machine M F)) (q : openflash_queue) (k : Z) (cmd : openflash_command).
Context (dq : OpenFlashQueue) (status result : Z) (w1 : machine M F).
Hypothesis Hs : admin_synced h q k.
Hypothesis Hdq : device_queue (h_bus h) q k dq.
Hypothesis Hfits : fits command_layout (command_fields (admin_sent q cmd)).

Let c : OpenFlashCommand := controller_command (admin_sent q cmd).
Let w0 : machine M F :=
  dma_write (h_bus h) (sq_slot q) (encode_command (admin_sent q cmd)).

Hypothesis He : openflash_execute w0 c = Done (status, result, w1).
Hypothesis Hmem : m_mem w1 = m_mem w0.

Let w' : machine M F := post 0 dq c status result w1.
Let w'' : machine M F := if m_msix_enabled w0 then msix_notify (q_vector dq) w' else w'.

Lemma admin_slot_ram : is_ram (sq_slot q) (len (encode_command (admin_sent q cmd))).
Proof.
  rewrite length_encode_command. pose proof (as_tail _ _ _ Hs).
  eapply is_ram_sub; [apply (rl_sq _ (as_layout _ _ _ Hs)) | ..];
    unfold sq_slot, CMD_SIZE; lia.
Qed.

Lemma admin_fetch : fetch w0 dq = c.
Proof.
  pose proof (as_tail _ _ _ Hs). destruct (rl_sq_bus _ (as_layout _ _ _ Hs)) as [? ?].
  unfold fetch. rewrite (dl_sq _ _ _ _ Hdq), (dl_head _ _ _ _ Hdq).
  unfold CMD_SIZE in *. rewrite u64_small by lia.
  change (dq_sq_dma q + dq_sq_tail q * 64) with (sq_slot q).
  unfold c. rewrite <- command_crosses by done. f_equal. pose proof (dma_read_write_same (h_bus h) _ _ admin_slot_ram) as E.
  by rewrite length_encode_command in E.
Qed.

Lemma admin_notified :
  m_mem w'' = m_mem w' ∧ m_dev w'' = m_dev w' ∧ m_files w'' = m_files w'.
Proof. unfold w''. by destruct (m_msix_enabled w0). Qed.

Lemma admin_doorbell :
  ctl_write w0 (OPENFLASH_SQ_TAIL_DB 0) ((dq_sq_tail q + 1) `mod` dq_depth q) = Done w'' ∧
  s_queues (m_dev w'') !! 0%nat = Some (advance dq) ∧ dev_wf (m_dev w'') ∧
  s_status (m_dev w'') = s_status (m_dev (h_bus h)).
Proof.
  pose proof (as_tail _ _ _ Hs) as Ht. pose proof (as_depth _ _ _ Hs) as Hd.
  pose proof (Z.mod_pos_bound (dq_sq_tail q + 1) (dq_depth q)) as Hm.
  assert (dev_wf (m_dev w0)) as Hwf by apply Hs.
  pose proof (dl_queue _ _ _ _ Hdq) as Hq. rewrite (as_qid _ _ _ Hs) in Hq.
  destruct (process_sq_one 4096 w0 0 dq status result w1) as (E & _ & Hq2);
    [done | apply Hs | done | done | apply Hdq | | | lia | by left | by rewrite admin_fetch |].
  { rewrite (dl_head _ _ _ _ Hdq), (dl_depth _ _ _ _ Hdq). lia. }
  { rewrite (dl_depth _ _ _ _ Hdq). lia. }
  rewrite admin_fetch, (dl_head _ _ _ _ Hdq), (dl_depth _ _ _ _ Hdq) in E.
  rewrite admin_fetch in Hq2. destruct admin_notified as (_ & Hd'' & _). rewrite Hd''.
  assert (ctl_write w0 (OPENFLASH_SQ_TAIL_DB 0) ((dq_sq_tail q + 1) `mod` dq_depth q) =
    Done w'') as Ec.
  { cbn [ctl_write qemu_controller].
    change (OPENFLASH_SQ_TAIL_DB 0) with (OF_REG_DOORBELL_BASE + 0 * 8).
    rewrite sq_doorbell_eq by (auto; by rewrite Hq). rewrite u16_small by lia. exact E. }
  split; [exact Ec |]. split; [exact Hq2 |].
  destruct (execute_safe w0 c Hwf) as (? & ? & ? & He' & Hst & _);
    [rewrite <- admin_fetch; apply fetch_wf |].
  rewrite He in He'. injection He' as <- <- <-. split.
  - pose proof (ctl_ok_write w0 (OPENFLASH_SQ_TAIL_DB 0)
      ((dq_sq_tail q + 1) `mod` dq_depth q) Hwf ltac:(lia)) as Hok.
    rewrite Ec in Hok. by rewrite <- Hd''.
  - exact (es_status _ _ _ Hst).
Qed.

Let slot : Z * Z := (dq_cq_dma q + k `mod` dq_depth q * CQE_SIZE, CQE_SIZE).

Lemma admin_memory :
  changes [sq_region q; slot] (h_bus h) w'' ∧
  cq_entry w'' q k = driver_completion (completion_of c dq status result).
Proof.
  pose proof (as_depth _ _ _ Hs) as Hd. pose proof (as_tail _ _ _ Hs) as Ht.
  pose proof (dl_queue _ _ _ _ Hdq) as Hq. destruct admin_notified as (Hm & _ & _).
  pose proof (u16_range (dq_next_cid q + 1)).
  pose proof (u16_range (u16 (dq_next_cid q + 1) + 1)).
  destruct (post_completion 0 w1 q k dq c status result) as [Hc Hent];
    [apply Hs | lia | apply Hdq | apply Hdq | apply Hdq | |].
  { eapply (completion_of_fits w0); [apply Hs | exact Hq | apply Hdq | | | | exact He].
    - rewrite <- admin_fetch. apply fetch_wf.
    - cbn. unfold fresh_cid. by case_split.
    - cbn. unfold fits, command_layout, command_fields in Hfits.
      by do 10 apply Forall2_cons in Hfits as [_ Hfits]; apply Forall2_cons in Hfits as [? _]. }
  fold w' in Hc, Hent. fold slot in Hc. split.
  - eapply changes_trans; [apply changes_l | apply changes_r].
    + apply (changes_write _ _ (sq_slot q) (encode_command (admin_sent q cmd))
        (dq_sq_dma q) (dq_depth q * CMD_SIZE)); [apply admin_slot_ram | apply list_elem_of_here | |];
        rewrite ?length_encode_command; unfold sq_slot, CMD_SIZE; lia.
    + intros a n Ha Ho. cbn. rewrite Hm. etrans; [by apply Hc |]. cbn. by rewrite Hmem.
  - rewrite <- Hent. unfold cq_entry. cbn. by rewrite Hm.
Qed.

(** The completion is new, and nothing behind it is. *)
Lemma admin_entries :
  is_new w'' q k ∧ ∀ j, 1 ≤ j < dq_depth q → ¬ is_new w'' q (k + j).
Proof.
  pose proof (as_depth _ _ _ Hs) as Hd. destruct admin_memory as [Hc Hent].
  destruct (dl_posted _ _ _ _ Hdq) as (_ & _ & Hph). split.
  - unfold is_new. rewrite Hent. cbn. rewrite Hph, (dl_depth _ _ _ _ Hdq).
    by destruct (phase_of_bit (dq_depth q) k) as [-> | ->].
  - intros j Hj Hn. apply (as_free _ _ _ Hs j); [lia |]. unfold is_new in *.
    rewrite (entry_kept [sq_region q; slot] (h_bus h) w'') in Hn;
      [done | done | apply Hs | lia |].
    pose proof (rl_apart _ (as_layout _ _ _ Hs)) as Ha.
    pose proof (Z.mod_pos_bound (k + j) (dq_depth q)).
    apply Forall_cons. split; [| apply entry_apart; lia].
    unfold outside in Ha. rewrite Forall_singleton in Ha.
    unfold sq_region, CQE_SIZE in *. cbn in *. lia.
Qed.

(** The first interrupt hands status and result to the caller. *)
Lemma wp_admin_irq fuel hb :
  (0 < fuel)%nat → h_bus hb = w'' → queue_at hb 0 = Some (waiting_queue q) →
  wp (openflash_irq fuel) (λ _ h', ∃ q', queue_at h' 0 = Some q' ∧
    geometry q' = geometry (waiting_queue q) ∧ consumed q' (k + 1) ∧
    dq_admin q' = answer q status result ∧ only_admin hb h' ∧
    ctl_write w'' (OPENFLASH_CQ_HEAD_DB 0) (u32 (dq_cq_head q')) = Done (h_bus h')) hb.
Proof.
  intros Hf Hb Hq. pose proof (as_depth _ _ _ Hs) as Hd.
  destruct admin_doorbell as (_ & _ & Hwf & Hst). destruct admin_entries as [Hnew Hold].
  destruct admin_memory as [_ Hent]. rewrite <- Hb in Hwf, Hst.
  unfold openflash_irq. apply wp_bind. eexists _, _. split; [apply status_ready |].
  { rewrite Hst. apply Hs. }
  { done. }
  change (has_flag OF_STATUS_READY OPENFLASH_STATUS_READY) with true.
  cbn [negb]. apply wp_bind. unfold openflash_drain_admin_cq. apply wp_bind.
  set (P := λ (m : nat) h1, only_admin hb h1 ∧ ∃ q1, queue_at h1 0 = Some q1 ∧
    dq_admin q1 = if (m =? 0)%nat then dq_admin (waiting_queue q) else answer q status result).
  eapply wp_mono; [apply (wp_cq_loop fuel 0 admin_entry P 1 (waiting_queue q) k 0 hb); try done |].
  - cbn. lia.
  - apply Hs.
  - intros m Hm. replace (Z.of_nat m) with 0 by lia. rewrite Z.add_0_r, Hb. exact Hnew.
  - rewrite Hb. apply Hold. lia.
  - split; [done |]. by eexists.
  - intros m h1 q1 Hm [Ho (q1' & Hq1' & Ha)] Hb1 Hq1 Hg. rewrite Hq1 in Hq1'.
    injection Hq1' as <-. assert (m = 0%nat) as -> by lia. rewrite Z.add_0_r, Hb.
    change (cq_entry w'' (waiting_queue q) k) with (cq_entry w'' q k). rewrite Hent.
    eapply wp_mono; [by eapply (wp_admin_entry _ h1 q q1) |]. intros [] h2 ->. split; [| split].
    + split; [by apply only_admin_upd |]. eexists. by rewrite queue_at_upd, Hq1.
    + done.
    + eexists. by rewrite queue_at_upd, Hq1.
  - intros m h1 hd ph [Ho (q1 & Hq1 & Ha)]. split; [by apply only_admin_upd |].
    eexists. rewrite queue_at_upd, Hq1. done.
  - intros n h1 (-> & [Ho (q1 & Hq1 & Ha)] & Hb1 & q' & Hq' & Hg & Hk).
    rewrite Hq' in Hq1. injection Hq1 as ->.
    pose proof (geometry_inj _ _ Hg) as (_ & _ & Hqid & _ & _).
    cbn [Z.add Z.of_nat Z.eqb Pos.of_succ_nat]. apply wp_bind. eapply wp_get_queue; [done |].
    destruct (cq_doorbell w'' 0 (u32 (dq_cq_head q1))) as (w2 & Ew & _ & _);
      [by rewrite <- Hb | by left | apply u32_range |].
    apply wp_bind. eapply wp_writel.
    { rewrite Hb1, Hb, Hqid. change (dq_qid (waiting_queue q)) with (dq_qid q).
      rewrite (as_qid _ _ _ Hs). exact Ew. }
    apply wp_ret, wp_ret. exists q1. split_and!; try done. by apply only_admin_bus.
Qed.
End Served.

(** ** The whole command *)

(** The host after a command that left the machine [w1]: ready for the next one,
    and changed only where the command and the admin rings are. *)
Record admin_answered h q k w1 h' q' : Prop := {
  aa_synced : admin_synced h' q' (k + 1);
  aa_only : only_admin h h';
  aa_shape : (dq_sq_dma q', dq_cq_dma q', dq_depth q') = (dq_sq_dma q, dq_cq_dma q, dq_depth q);
  aa_memory : changes [sq_region q; cq_region q] (h_bus h) (h_bus h');
  aa_queue : s_queues (m_dev (h_bus h')) !! 1%nat = s_queues (m_dev w1) !! 1%nat;
  aa_storage : s_storage (m_dev (h_bus h')) = s_storage (m_dev w1);
  aa_backing : s_backing_file (m_dev (h_bus h')) = s_backing_file (m_dev w1);
  aa_capacity : s_capacity (m_dev (h_bus h')) = s_capacity (m_dev w1);
  aa_files : m_files (h_bus h') = m_files w1;
}.

Lemma admin_synced_done h q k n :
  admin_synced h q k → admin_synced (upd_queue 0 (with_done n) h) (with_done n q) k.
Proof.
  intros [Hq ? ? Hl ? ? ? ? [dq []] ?]. constructor; try done.
  - by rewrite queue_at_upd, Hq.
  - by apply (ring_layout_same q).
  - by exists dq.
Qed.

(** Once the interrupt has consumed the completion. *)
Lemma admin_consumed h q k dq w w2 h2 q2 :
  admin_synced h q k → device_queue (h_bus h) q k dq →
  s_queues (m_dev w) !! 0%nat = Some (advance dq) → dev_wf (m_dev w) →
  s_status (m_dev w) = s_status (m_dev (h_bus h)) →
  is_new w q k → (∀ j, 1 ≤ j < dq_depth q → ¬ is_new w q (k + j)) →
  queue_at h2 0 = Some q2 → geometry q2 = geometry (waiting_queue q) → consumed q2 (k + 1) →
  h_bus h2 = w2 → head_reported 0 w w2 → admin_synced h2 q2 (k + 1).
Proof.
  intros Hs Hdq Hq0 Hwf Hst Hnew Hold Hq2 Hg Hk Hb Hr.
  pose proof (as_depth _ _ _ Hs) as Hd. pose proof (as_tail _ _ _ Hs) as Ht.
  pose proof (geometry_inj _ _ Hg) as (G1 & G2 & G3 & G4 & G5). cbn in G1, G2, G3, G4, G5.
  pose proof (Z.mod_pos_bound (dq_sq_tail q + 1) (dq_depth q)) as Hm.
  pose proof (as_qid _ _ _ Hs) as Hqid.
  destruct (hr_device _ _ _ Hr (waiting_queue q) (k + 1) (advance dq)) as [dq2 Hdq2].
  { pose proof Hdq as [Hq ? ? ? Hdd Hh Hp]. constructor; try done.
    - change (dq_qid (waiting_queue q)) with (dq_qid q). by rewrite Hqid.
    - cbn. by rewrite Hdd, Hh.
    - apply posted_advance; [lia | done]. }
  constructor; rewrite ?Hb; try done.
  - congruence.
  - lia.
  - by apply (ring_layout_same q); [congruence.. | apply Hs].
  - lia.
  - apply Hr.
  - rewrite (hr_status _ _ _ Hr), Hst. apply Hs.
  - exists dq2. destruct Hdq2. constructor; try done; cbn in *; congruence.
  - intros j Hj. rewrite (is_new_geometry _ q2 (waiting_queue q)), (is_new_mem w) by (done || apply Hr).
    change (is_new w (waiting_queue q) (k + 1 + j)) with (is_new w q (k + 1 + j)).
    destruct (decide (j + 1 < dq_depth q)) as [? | ?].
    + rewrite <- Z.add_assoc. apply Hold. lia.
    + replace (k + 1 + j) with (k + dq_depth q) by lia. apply is_new_pass; [lia | done].
Qed.

(** What [openflash_admin_command] makes of a completion. *)
Definition admin_return (status result : Z) : Z + Z :=
  if status =? OPENFLASH_SC_SUCCESS then inr result else inl (- EIO).

Lemma admin_command_served sc h q k cmd status result w1 :
  admin_synced h q k → fits command_layout (command_fields (admin_sent q cmd)) →
  (0 < sc_fuel sc)%nat → (0 < sc_irqs sc)%nat →
  let w0 := dma_write (h_bus h) (sq_slot q) (encode_command (admin_sent q cmd)) in
  openflash_execute w0 (controller_command (admin_sent q cmd)) = Done (status, result, w1) →
  m_mem w1 = m_mem w0 →
  wp (openflash_admin_command sc cmd) (λ r h', r = admin_return status result ∧
    ∃ q', admin_answered h q k w1 h' q') h.
Proof.
  intros Hs Hfits Hf Hi w0 He Hm. destruct (as_device _ _ _ Hs) as [dq Hdq].
  pose proof (as_depth _ _ _ Hs) as Hd.
  destruct (admin_doorbell h q k cmd dq status result w1) as (Edb & Hq0 & Hwf & Hst); [done.. |].
  destruct (admin_entries h q k cmd dq status result w1) as [Hnew Hold]; [done.. |].
  destruct (admin_memory h q k cmd dq status result w1) as [Hc _]; [done.. |].
  destruct (admin_notified h q cmd dq status result w1) as (Hmem & Hdev & Hfiles).
  set (w'' := if m_msix_enabled _ then _ else _) in *.
  unfold openflash_admin_command. apply wp_bind.
  eapply wp_mono; [by apply (wp_admin_submit h q cmd w''); [apply Hs.. | lia |] |].
  intros [] h1 (Hb1 & Hq1 & Ho1). destruct (sc_irqs sc) as [| n]; [lia |].
  cbn [deliver_irqs]. apply wp_bind, wp_bind.
  eapply wp_mono; [by eapply (wp_admin_irq h q k cmd dq status result w1) |].
  intros b h2 (q2 & Hq2 & Hg & Hk & Ha & Ho2 & Ew).
  apply report_head in Ew as Hr; [| done | by left | apply u32_range].
  change (head_reported 0 w'' (h_bus h2)) in Hr.
  pose proof (admin_consumed h q k dq w'' (h_bus h2) h2 q2 Hs Hdq Hq0 Hwf Hst Hnew Hold Hq2 Hg
    Hk eq_refl Hr) as Hs2.
  eexists _, _. split; [eapply (deliver_irqs_idle _ _ h2 q2 (k + 1)) |]; try apply Hs2.
  { pose proof (as_depth _ _ _ Hs2). lia. }
  { rewrite <- (Z.add_0_r (k + 1)). apply Hs2. pose proof (as_depth _ _ _ Hs2). lia. }
  apply wp_bind. eapply wp_get_queue; [exact Hq2 |]. rewrite Ha. cbn [answer aw_done].
  apply wp_bind. eapply wp_put_queue; [exact Hq2 |]. cbn [answer aw_error aw_status aw_result Z.eqb negb].
  pose proof (geometry_inj _ _ Hg) as (G1 & G2 & _ & G4 & _). cbn in G1, G2, G4.
  assert (admin_answered h q k w1 (upd_queue 0 (with_done 0) h2) (with_done 0 q2)) as Haa.
  { constructor; cbn [h_bus upd_queue with_ofdev]; rewrite ?(hr_storage _ _ _ Hr),
      ?(hr_backing _ _ _ Hr), ?(hr_capacity _ _ _ Hr), ?(hr_files _ _ _ Hr), ?Hdev, ?Hfiles; try done.
    - by apply admin_synced_done.
    - by eapply only_admin_upd, only_admin_trans.
    - cbn. congruence.
    - intros a n0 Hram Hout. cbn. rewrite (hr_mem _ _ _ Hr). apply Hc; [done |].
      unfold outside in *. rewrite !Forall_cons in Hout |- *. cbn in *.
      pose proof (Z.mod_pos_bound k (dq_depth q)). unfold CQE_SIZE in *. split_and!; [lia | lia | done].
    - rewrite (hr_others _ _ _ Hr) by done. rewrite Hdev. cbn. by rewrite list_lookup_insert_ne. }
  unfold admin_return. destruct (status =? OPENFLASH_SC_SUCCESS); cbn [negb]; apply wp_ret; eauto.
Qed.

Lemma fresh_cid_range n : 0 ≤ fresh_cid n < 2 ^ 16.
Proof.
  unfold fresh_cid. pose proof (u16_range (n + 1)). pose proof (u16_range (u16 (n + 1) + 1)).
  by case_split.
Qed.

(** ** Identify *)
Lemma identify_served sc h q k :
  admin_synced h q k → (0 < sc_fuel sc)%nat → (0 < sc_irqs sc)%nat →
  let cap := s_capacity (m_dev (h_bus h)) / OF_BLOCK_SIZE in
  wp (openflash_admin_identify sc) (λ ret h', ret = 0 ∧ ∃ w1 h1 q',
    m_dev w1 = m_dev (h_bus h) ∧ m_files w1 = m_files (h_bus h) ∧
    admin_answered h q k w1 h1 q' ∧ h' = with_ofdev (with_capacity cap (h_dev h1)) h1) h.
Proof.
  intros Hs Hf Hi cap. unfold openflash_admin_identify. apply wp_bind.
  set (cmd := {| opcode := _ |}). pose proof (fresh_cid_range (dq_next_cid q)) as Hcid.
  eapply wp_mono; [eapply (admin_command_served sc h q k cmd OF_SC_SUCCESS cap);
    [done | | done | done | reflexivity | done] |].
  - unfold fits, command_layout, command_fields, admin_sent, cmd. cbn [opcode flags qid cid
      reserved0 lba nblocks control data_addr metadata_addr user_data reserved1_0 reserved1_1
      with_cid].
    rewrite (as_qid _ _ _ Hs). repeat constructor; first [done | lia].
  - intros r h1 (-> & q' & Ha). cbn [admin_return Z.eqb OPENFLASH_SC_SUCCESS OF_SC_SUCCESS].
    destruct (wf_storage _ (as_wf _ _ _ Hs)) as [[Hcap _] _].
    assert (0 < cap) as Hpos by (apply Z.div_str_pos; unfold OF_BLOCK_SIZE; lia).
    rewrite (proj2 (Z.eqb_neq cap 0)) by lia. apply wp_bind, wp_put_dev, wp_ret.
    split; [done |]. eexists _, h1, q'.
    split; [| split; [| split; [exact Ha | done]]]; done.
Qed.

(** ** Creation of the I/O queue *)
Lemma create_served sc h q0 k q :
  admin_synced h q0 k → queue_at h 1 = Some q → dq_qid q = 1 → dq_sq_tail q = 0 →
  ring_layout (M := M) q → 0 < dq_depth q ≤ 4096 →
  (0 < sc_fuel sc)%nat → (0 < sc_irqs sc)%nat →
  wp (openflash_create_io_queue sc) (λ ret h', ret = 0 ∧ ∃ w1 q0' dq,
    admin_answered h q0 k w1 h' q0' ∧ device_queue (h_bus h') q 0 dq ∧
    s_storage (m_dev w1) = s_storage (m_dev (h_bus h)) ∧
    s_backing_file (m_dev w1) = s_backing_file (m_dev (h_bus h)) ∧
    m_files w1 = m_files (h_bus h)) h.
Proof.
  intros Hs Hq Hqid Ht Hl Hd Hf Hi. unfold openflash_create_io_queue.
  apply wp_bind. eapply wp_get_queue; [exact Hq |]. apply wp_bind.
  pose proof (fresh_cid_range (dq_next_cid q0)) as Hcid.
  destruct (rl_sq_bus _ Hl) as [Hsq ?]. destruct (rl_cq_bus _ Hl) as [Hcq ?].
  unfold CMD_SIZE, CQE_SIZE in *.
  set (cmd := create_ioq_command q). set (c := controller_command (admin_sent q0 cmd)).
  set (w0 := dma_write (h_bus h) (sq_slot q0) (encode_command (admin_sent q0 cmd))).
  assert (control cmd = 65537) as Hctl by (cbn; by rewrite Hqid).
  pose proof (wf_queues_len _ (as_wf _ _ _ Hs)) as Hlen. unfold OF_MAX_QUEUES in Hlen.
  destruct (lookup_lt_is_Some_2 (s_queues (m_dev (h_bus h))) 1) as [dq1 Hdq1]; [lia |].
  assert (openflash_execute w0 c = Done (OF_SC_SUCCESS, 1,
    with_dev (set_queues (<[1%nat := created_queue c 1]> (s_queues (m_dev w0))) (m_dev w0)) w0))
    as He.
  { unfold openflash_execute. change (c_opcode c) with OF_ADMIN_CREATE_IOQ.
    cbn [Z.eqb OF_ADMIN_IDENTIFY OF_ADMIN_CREATE_IOQ Pos.eqb]. unfold execute_create_ioq.
    change (c_control c) with (control cmd). rewrite Hctl.
    change (c_nblocks c) with (dq_depth q). change (c_data_addr c) with (dq_sq_dma q).
    change (c_metadata_addr c) with (dq_cq_dma q).
    rewrite (proj2 (Z.eqb_neq (dq_depth q) 0)), (proj2 (Z.eqb_neq (dq_sq_dma q) 0)),
      (proj2 (Z.eqb_neq (dq_cq_dma q) 0)), (proj2 (Z.ltb_ge 4096 _)) by lia.
    change (u16 (Z.land 65537 0xffff)) with 1. change (u16 (Z.shiftr 65537 16)) with 1.
    cbn [Z.eqb Z.leb Z.compare OF_MAX_QUEUES Pos.compare Pos.compare_cont orb].
    change (s_queues (m_dev w0) !! _) with (s_queues (m_dev (h_bus h)) !! 1%nat).
    by rewrite Hdq1. }
  eapply wp_mono; [eapply (admin_command_served sc h q0 k cmd); [done | | done | done | exact He | done] |].
  - unfold fits, command_layout, command_fields, admin_sent. cbn [opcode flags qid cid
      reserved0 lba nblocks control data_addr metadata_addr user_data reserved1_0 reserved1_1
      with_cid cmd create_ioq_command].
    rewrite (as_qid _ _ _ Hs). change (OPENFLASH_CREATE_IOQ_CONTROL (dq_qid q) 1) with (control cmd).
    rewrite Hctl. repeat constructor; first [done | lia].
  - intros r h1 (-> & q' & Ha). cbn [admin_return Z.eqb OPENFLASH_SC_SUCCESS OF_SC_SUCCESS].
    rewrite Hqid. cbn [Z.eqb Pos.eqb]. apply wp_ret. split; [done |].
    eexists _, q', (created_queue c 1). split; [exact Ha |]. split; [| done].
    constructor; try done.
    rewrite Hqid. change (Z.to_nat 1) with 1%nat. rewrite (aa_queue _ _ _ _ _ _ Ha). cbn.
    apply list_lookup_insert_eq. by eapply lookup_lt_Some.
Qed.
End Admin.
