(* ===== verification/SystemReset.v ===== *)
(** * Controller reset brings driver and device back in step

    [openflash_reset_controller] from any state of the device: the rings are
    cleared, the device forgets its queues, the admin queue is configured again
    and the I/O queue created again.  When no request is in flight the host is in
    step afterwards, with the disk as it was. *)
From S2P Require Import Prelude Packed Environment Rings Abi Blocks QemuDevice DeviceSafety.
From S2P Require Import DeviceQueue DeviceRegisters BlockSpec AbiBridge DriverState DriverQueue.
From S2P Require Import DriverCore DriverLogic DriverSafety DriverSubmit System SystemSync SystemSubmit.
From S2P Require Import SystemAdmin.

Section Reset.
Context {M F : Type} `{GM : GuestMemory M, !GuestMemoryLaws M, HF : HostFiles F}.
Context `{KS : KernelServices}.
Implicit Types (w : machine M F) (h : host (machine M F)) (q : openflash_queue).

(** ** Blank completion rings *)
Definition blank w q : Prop :=
  dma_read w (dq_cq_dma q) (dq_depth q * CQE_SIZE) = zeroes (dq_depth q * CQE_SIZE).

Lemma blank_not_new w q j :
  ring_layout (M := M) q → blank w q → 0 ≤ j < dq_depth q → ¬ is_new w q j.
Proof.
  intros Hl Hb Hj. unfold is_new, cq_entry. rewrite Z.mod_small by done.
  rewrite (dma_read_sub w (dq_cq_dma q) (dq_depth q * CQE_SIZE));
    [| apply Hl | unfold CQE_SIZE; lia..].
  rewrite Hb. unfold slice, zeroes. rewrite drop_replicate, take_replicate, Nat.min_l
    by (unfold CQE_SIZE; lia).
  unfold phase_of. rewrite Z.div_small by done. by vm_compute.
Qed.

Lemma blank_changes regions w w' q :
  ring_layout (M := M) q → changes regions w w' →
  outside regions (dq_cq_dma q) (dq_depth q * CQE_SIZE) → blank w q → blank w' q.
Proof. intros Hl Hc Ho Hb. unfold blank. rewrite Hc; [done | apply Hl | done]. Qed.

(** ** Clearing the rings of a queue *)
Lemma wp_clear_rings q (Q : () → host (machine M F) → Prop) h :
  ring_layout (M := M) q → 0 ≤ dq_depth q →
  (∀ w, stored (h_bus h) w → changes [sq_region q; cq_region q] (h_bus h) w → blank w q →
     Q () (with_bus w h)) →
  wp (clear_rings q) Q h.
Proof.
  intros Hl Hd HQ. unfold clear_rings. apply wp_bind, wp_store, wp_store.
  assert (∀ n, 0 ≤ n → len (zeroes n) = n) as Hz
    by (intros; unfold zeroes; rewrite length_replicate; lia).
  cbn [h_bus with_bus]. apply (HQ (dma_write (dma_write _ _ _) _ _)).
  - by apply stored_write, stored_write.
  - eapply changes_trans; eapply changes_write; rewrite ?Hz by (unfold CMD_SIZE, CQE_SIZE; lia).
    + apply Hl.
    + apply list_elem_of_here.
    + done.
    + unfold sq_region. done.
    + apply Hl.
    + apply list_elem_of_further, list_elem_of_here.
    + done.
    + done.
  - unfold blank. set (z := zeroes (dq_depth q * CQE_SIZE)).
    assert (len z = dq_depth q * CQE_SIZE) as Hlen by (apply Hz; unfold CQE_SIZE; lia).
    rewrite <- Hlen. apply dma_read_write_same. rewrite Hlen. apply Hl.
Qed.

(** ** The admin queue brought up *)
Lemma halves_whole a : 0 ≤ a < 2 ^ 64 →
  u32 (upper_32_bits a) * 2 ^ 32 + u32 (lower_32_bits a) = a.
Proof.
  intros Ha. unfold upper_32_bits, lower_32_bits, u32.
  rewrite !Z.mod_mod, Z.shiftr_div_pow2 by done.
  pose proof (Z.div_mod a (2 ^ 32)). rewrite (Z.mod_small (a / 2 ^ 32)); [lia |].
  split; [apply Z.div_pos; lia | apply Z.div_lt_upper_bound; lia].
Qed.

Lemma wp_write_admin_registers q (Q : () → host (machine M F) → Prop) h dq :
  s_queues (m_dev (h_bus h)) !! 0%nat = Some dq → queue_wf dq →
  0 ≤ dq_sq_dma q < 2 ^ 64 → 0 ≤ dq_cq_dma q < 2 ^ 64 → 2 ≤ dq_depth q ≤ 4096 →
  Q () (with_bus (with_dev (set_control OF_CTRL_ENABLE OF_STATUS_READY (set_queues
    (<[0%nat := configured_admin (dq_sq_dma q) (dq_cq_dma q) (dq_depth q) dq]>
       (s_queues (m_dev (h_bus h)))) (m_dev (h_bus h)))) (h_bus h)) h) →
  wp (write_admin_registers q) Q h.
Proof.
  intros Hq Hwf Hs Hc Hd HQ.
  pose proof (configure_eq 4096 (h_bus h) dq (u32 (lower_32_bits (dq_sq_dma q)))
    (u32 (upper_32_bits (dq_sq_dma q))) (u32 (lower_32_bits (dq_cq_dma q)))
    (u32 (upper_32_bits (dq_cq_dma q))) (dq_depth q) Hq Hwf (u32_range _) (u32_range _)
    (u32_range _) (u32_range _) Hd) as E.
  rewrite !halves_whole in E by done. unfold configure in E. cbn [mmio_writes] in E.
  do 6 inv_bind E. injection E as E. unfold write_admin_registers.
  do 4 (apply wp_bind; eapply wp_writel; [eassumption |]; cbn [h_bus with_bus]).
  apply wp_bind. eapply wp_writel; [rewrite u32_small by lia; eassumption |].
  eapply wp_writel; [eassumption |]. rewrite E. exact HQ.
Qed.

(** A device without queues, rings blank: configuring the admin queue puts both
    sides at their beginning. *)
Lemma admin_up h q w1 :
  queue_at h 0 = Some q → dq_qid q = 0 → 2 ≤ dq_depth q ≤ 4096 →
  ring_layout (M := M) q → dq_sq_tail q = 0 → dq_cq_head q = 0 → dq_cq_phase q = 1 →
  blank (h_bus h) q → dev_wf (m_dev w1) → s_queues (m_dev w1) = reset_queues →
  h_bus h = with_dev (set_control OF_CTRL_ENABLE OF_STATUS_READY (set_queues
    (<[0%nat := configured_admin (dq_sq_dma q) (dq_cq_dma q) (dq_depth q)
        (default queue_zero (reset_queues !! 0%nat))]> reset_queues) (m_dev w1))) w1 →
  admin_synced h q 0.
Proof.
  intros Hq Hqid Hd Hl Ht Hh Hp Hb Hwf Hrq Hbus.
  destruct (rl_sq_bus _ Hl) as [? ?]. destruct (rl_cq_bus _ Hl) as [? ?].
  unfold CMD_SIZE, CQE_SIZE in *. assert (phase_of (dq_depth q) 0 = 1) as Hph
    by (unfold phase_of; by rewrite Z.div_0_l by lia).
  constructor; try done; try lia.
  - rewrite Hbus. destruct Hwf. constructor; cbn; try done; [| by right].
    repeat constructor; cbn; try done; try lia; by left || by right.
  - by rewrite Hbus.
  - eexists. constructor; rewrite ?Hqid, ?Hbus; try done.
  - intros j Hj. by apply blank_not_new.
Qed.

(** A blank I/O queue that the device has just created is in step. *)
Lemma synced_fresh h q dq :
  owned h q → k_inflight (h_kern h) = [] → shared_layout (M := M) (F := F) q → dq_qid q = 1 →
  dq_cq_head q = 0 → dq_cq_phase q = 1 → dev_wf (m_dev (h_bus h)) →
  has_flag (s_status (m_dev (h_bus h))) OF_STATUS_READY = true →
  device_queue (h_bus h) q 0 dq → blank (h_bus h) q → synced h q 0 [].
Proof.
  intros Ho Hin Hl Hqid Hh Hp Hwf Hr Hdq Hb. pose proof (ow_depth _ _ Ho) as Hd.
  constructor; try done.
  - by exists dq.
  - intros j Hj. cbn in Hj. apply blank_not_new; [apply Hl | done | lia].
  - by rewrite Hin.
Qed.

(** From a device without queues to one with both: the last part of the reset. *)
Lemma wp_bring_up sc h q0 q :
  queue_at h 0 = Some (rewind q0) → dq_qid q0 = 0 → 2 ≤ dq_depth q0 ≤ 4096 →
  ring_layout (M := M) q0 → blank (h_bus h) q0 →
  queue_at h 1 = Some (rewind q) → dq_qid q = 1 → 0 < dq_depth q ≤ 4096 →
  ring_layout (M := M) q → dev_wf (m_dev (h_bus h)) →
  s_queues (m_dev (h_bus h)) = reset_queues → (0 < sc_fuel sc)%nat → (0 < sc_irqs sc)%nat →
  wp (write_admin_registers q0 ;; ret ← poll_ready;
      if negb (ret =? 0) then mret ret else openflash_create_io_queue sc)
    (λ ret h', ret = 0 ∧ ∃ q0' dq, admin_synced h' q0' 1 ∧
      (dq_sq_dma q0', dq_cq_dma q0', dq_depth q0') = (dq_sq_dma q0, dq_cq_dma q0, dq_depth q0) ∧
      device_queue (h_bus h') (rewind q) 0 dq ∧ only_admin h h' ∧
      changes [sq_region q0; cq_region q0] (h_bus h) (h_bus h') ∧
      s_storage (m_dev (h_bus h')) = s_storage (m_dev (h_bus h)) ∧
      s_backing_file (m_dev (h_bus h')) = s_backing_file (m_dev (h_bus h)) ∧
      m_files (h_bus h') = m_files (h_bus h)) h.
Proof.
  intros Hq0 Hqid0 Hd0 Hl0 Hb0 Hq Hqid Hd Hl Hwf Hrq Hf Hi.
  destruct (rl_sq_bus _ Hl0) as [? ?]. destruct (rl_cq_bus _ Hl0) as [? ?].
  unfold CMD_SIZE, CQE_SIZE in *. apply wp_bind.
  eapply (wp_write_admin_registers q0); [by rewrite Hrq | | lia | lia | done |].
  { by eapply (Forall_lookup_1 _ _ 0%nat _ (wf_queues _ Hwf)); rewrite Hrq. }
  set (hu := with_bus _ h).
  assert (admin_synced hu (rewind q0) 0) as Hs.
  { apply (admin_up hu (rewind q0) (h_bus h)); try done; [by apply (ring_layout_same q0) |].
    unfold hu. cbn [h_bus with_bus]. by rewrite Hrq. }
  apply wp_bind. unfold poll_ready. apply wp_bind. eexists _, _. split; [apply status_ready; apply Hs |].
  apply wp_ret. change (has_flag OF_STATUS_READY OPENFLASH_STATUS_READY) with true.
  cbn [Z.eqb negb].
  eapply wp_mono; [eapply (create_served sc hu (rewind q0) 0 (rewind q)); try done;
    by apply (ring_layout_same q) |].
  intros ret h' (-> & w1 & q0' & dq & Ha & Hdq & Hst & Hbf & Hfs). split; [done |].
  exists q0', dq. pose proof (aa_shape _ _ _ _ _ _ Ha) as Hsh.
  split_and!; [apply Ha | exact Hsh | done | | exact (aa_memory _ _ _ _ _ _ Ha) | ..].
  - eapply only_admin_trans; [by apply only_admin_bus | apply Ha].
  - by rewrite (aa_storage _ _ _ _ _ _ Ha), Hst.
  - by rewrite (aa_backing _ _ _ _ _ _ Ha), Hbf.
  - by rewrite (aa_files _ _ _ _ _ _ Ha), Hfs.
Qed.

(** ** Reset *)

(** The driver's admin queue and its rings, apart from those of the I/O queue. *)
Record admin_rings h q0 q : Prop := {
  ar_queue : queue_at h 0 = Some q0;
  ar_qid : dq_qid q0 = 0;
  ar_depth : 2 ≤ dq_depth q0 ≤ 4096;
  ar_layout : ring_layout (M := M) q0;
  ar_cq : outside [sq_region q; cq_region q] (dq_cq_dma q0) (dq_depth q0 * CQE_SIZE);
  ar_io_cq : outside [sq_region q0; cq_region q0] (dq_cq_dma q) (dq_depth q * CQE_SIZE);
}.

Lemma admin_rings_same h h' q0 q q' :
  queue_at h' 0 = queue_at h 0 → shape q' = shape q → admin_rings h q0 q → admin_rings h' q0 q'.
Proof.
  intros Hq Hsh [Hq0 ? ? ? Ha Hb]. injection Hsh as Hs Hc Hd _.
  constructor; unfold sq_region, cq_region in *; by rewrite ?Hq, ?Hs, ?Hc, ?Hd.
Qed.

(** What recovery relies on: no request in flight and the rings where the driver
    allocated them.  Nothing is assumed of the device but a well-formed state. *)
Record recoverable h q0 q : Prop := {
  rv_owned : owned h q;
  rv_idle : k_inflight (h_kern h) = [];
  rv_layout : shared_layout (M := M) (F := F) q;
  rv_qid : dq_qid q = 1;
  rv_depth : dq_depth q ≤ 4096;
  rv_admin : admin_rings h q0 q;
  rv_wf : dev_wf (m_dev (h_bus h));
}.

(** Without requests, ownership does not depend on memory. *)
Lemma owned_idle h h' q q' :
  owned h q → k_inflight (h_kern h) = [] → queue_at h' 1 = Some q' →
  dq_depth q' = dq_depth q → dq_requests q' = dq_requests q → h_kern h' = h_kern h →
  owned h' q'.
Proof.
  intros [Hq Hd Hs Ht Hn Hi Hm] Hidle Hq' Hdep Hreq Hk.
  assert (∀ w r, r ∈ dq_requests q → slot_mappings w r = []) as Hnone.
  { intros w r Hr. unfold slot_mappings. destruct (r_rq r) as [rq |] eqn:E; [| done].
    rewrite Hidle in Hi. apply Permutation_nil_l in Hi.
    assert (rq ∈ omap r_rq (dq_requests q)) as Hin by (apply list_elem_of_omap; eauto).
    rewrite <- Hi in Hin. by apply elem_of_nil in Hin. }
  constructor; rewrite ?Hdep, ?Hreq, ?Hk; try done.
  rewrite Hm. apply reflexive_eq, bind_ext_elem. intros r Hr. by rewrite !Hnone.
Qed.

(** The host after a successful reset. *)
Record reset_done h q0 q h' : Prop := {
  rd_synced : synced h' (rewind q) 0 [];
  rd_admin : ∃ q0', admin_synced h' q0' 1 ∧
    (dq_sq_dma q0', dq_cq_dma q0', dq_depth q0') = (dq_sq_dma q0, dq_cq_dma q0, dq_depth q0);
  rd_kern : h_kern h' = h_kern h;
  rd_dev : with_queues None (h_dev h') = with_queues None (h_dev h);
  rd_storage : s_storage (m_dev (h_bus h')) = s_storage (m_dev (h_bus h));
  rd_backing : s_backing_file (m_dev (h_bus h')) = s_backing_file (m_dev (h_bus h));
  rd_files : m_files (h_bus h') = m_files (h_bus h);
  rd_memory : changes ([sq_region q0; cq_region q0] ++ [sq_region q; cq_region q])
    (h_bus h) (h_bus h');
}.

(** The rings cleared, the cursors at their beginning, the device without queues. *)
Record forgotten h q0 q h1 : Prop := {
  fg_admin : queue_at h1 0 = Some (rewind q0);
  fg_io : queue_at h1 1 = Some (rewind q);
  fg_blank_admin : blank (h_bus h1) q0;
  fg_blank : blank (h_bus h1) q;
  fg_wf : dev_wf (m_dev (h_bus h1));
  fg_queues : s_queues (m_dev (h_bus h1)) = reset_queues;
  fg_kern : h_kern h1 = h_kern h;
  fg_dev : with_queues None (h_dev h1) = with_queues None (h_dev h);
  fg_storage : s_storage (m_dev (h_bus h1)) = s_storage (m_dev (h_bus h));
  fg_backing : s_backing_file (m_dev (h_bus h1)) = s_backing_file (m_dev (h_bus h));
  fg_files : m_files (h_bus h1) = m_files (h_bus h);
  fg_memory : changes ([sq_region q0; cq_region q0] ++ [sq_region q; cq_region q])
    (h_bus h) (h_bus h1);
}.

Lemma wp_forget {A} (rest : drv (machine M F) A) Q h q0 q :
  recoverable h q0 q → (∀ h1, forgotten h q0 q h1 → wp rest Q h1) →
  wp (clear_rings q0 ;; clear_rings q ;; put_queue 0 rewind ;; put_queue 1 rewind ;;
      writel OPENFLASH_CTRL_RESET OPENFLASH_REG_CONTROL ;;
      _ ← readl OPENFLASH_REG_STATUS; rest) Q h.
Proof.
  intros Hrv HQ. destruct Hrv as [Ho _ Hl _ _ [Hq0 _ Hd0 Hl0 Hap _] Hwf].
  pose proof (ow_depth _ _ Ho) as Hd. pose proof (ow_queue _ _ Ho) as Hq.
  apply wp_bind, wp_clear_rings; [done | lia |]. intros wa Hsa Hca Hba.
  apply wp_bind, wp_clear_rings; [apply Hl | lia |]. cbn [h_bus with_bus]. intros wb Hsb Hcb Hbb.
  destruct (stored_machine _ _ Hsa) as (Hda & Hfa & _).
  destruct (stored_machine _ _ Hsb) as (Hdb & Hfb & _).
  set (hb := with_bus wb (with_bus wa h)).
  apply wp_bind. eapply (wp_put_queue 0); [exact Hq0 |].
  apply wp_bind. eapply (wp_put_queue 1); [rewrite queue_at_upd_ne by done; exact Hq |].
  apply wp_bind. eapply wp_writel; [reflexivity |].
  apply wp_bind. eapply wp_readl; [reflexivity |]. apply HQ.
  set (hu := upd_queue 1 rewind (upd_queue 0 rewind hb)).
  assert (queue_at hu 0 = Some (rewind q0) ∧ queue_at hu 1 = Some (rewind q)) as [Hq01 Hq1].
  { unfold hu. rewrite queue_at_upd_ne, !queue_at_upd, queue_at_upd_ne by done.
    by change (queue_at hb) with (queue_at h); rewrite Hq0, Hq. }
  constructor; try done; cbn; rewrite ?Hdb, ?Hda, ?Hfb, ?Hfa; try done.
  - by eapply blank_changes.
  - by apply reset_wf.
  - exact (changes_trans_app _ _ _ _ _ Hca Hcb).
Qed.

Lemma wp_reset_controller sc h q0 q :
  recoverable h q0 q → (0 < sc_fuel sc)%nat → (0 < sc_irqs sc)%nat →
  wp (openflash_reset_controller sc) (λ ret h', ret = 0 ∧ reset_done h q0 q h') h.
Proof.
  intros Hrv Hf Hi. pose proof Hrv as [Ho Hidle Hl Hqid Hdep [Hq0 Hqid0 Hd0 Hl0 _ Hap] _].
  pose proof (ow_depth _ _ Ho) as Hd. unfold openflash_reset_controller.
  apply wp_bind. eapply wp_get_queue; [exact Hq0 |].
  apply wp_bind. eapply wp_get_queue; [apply Ho |]. apply (wp_forget _ _ h q0 q Hrv).
  intros h1 [Hq01 Hq1 Hb0 Hb Hwf1 Hrq Hk1 Hdev1 Hst1 Hbf1 Hfs1 Hm1].
  eapply wp_mono; [apply (wp_bring_up sc h1 q0 q); try done; [lia | apply Hl] |].
  intros ret h' (-> & q0' & dq & Has & Hsh & Hdq & [Hk Hio Hdev] & Hc & Hst & Hbf & Hfs).
  split; [done |].
  assert (blank (h_bus h') (rewind q)) as Hblank.
  { eapply (blank_changes _ (h_bus h1)); [| exact Hc | done | exact Hb].
    apply (ring_layout_same q); [done.. | apply Hl]. }
  constructor; try congruence.
  - apply (synced_fresh h' (rewind q) dq); try done.
    + eapply (owned_idle h); try done; [by rewrite Hio | by rewrite Hk].
    + by rewrite Hk, Hk1.
    + apply (shared_layout_same q); try done. cbn. lia.
    + apply Has.
    + apply Has.
  - by exists q0'.
  - intros a n Hr Hout. apply Forall_app in Hout as Hout'.
    rewrite Hc by (done || apply Hout'). by apply Hm1.
Qed.

(** The rings stay where they are. *)
Lemma reset_admin_rings h q0 q h' :
  admin_rings h q0 q → reset_done h q0 q h' → ∃ q0', admin_rings h' q0' (rewind q).
Proof.
  intros [_ _ Hd _ Hc Hi] [_ (q0' & Has & E) _ _ _ _ _ _]. injection E as E1 E2 E3.
  exists q0'. constructor; try apply Has.
  - by rewrite E3.
  - by rewrite E2, E3.
  - unfold sq_region, cq_region in *. by rewrite E1, E2, E3.
Qed.

(** ** The reset work *)

(** Being in step is a matter of the queues, the requests and the machine, not of
    the rest of the driver and the kernel. *)
Lemma synced_local h h' q k p :
  of_queues (h_dev h') = of_queues (h_dev h) → h_bus h' = h_bus h →
  k_inflight (h_kern h') = k_inflight (h_kern h) → k_mapped (h_kern h') = k_mapped (h_kern h) →
  synced h q k p → synced h' q k p.
Proof.
  intros Hd Hb Hi Hm [[Hq ? ? ? ? ? ?] ? ? ? ? ? ? ? ? ? ?].
  constructor; rewrite ?Hb, ?Hi; try done. constructor; rewrite ?Hb, ?Hi, ?Hm; try done.
  unfold queue_at in *. by rewrite Hd.
Qed.

(** Interrupts while the queue is frozen end every request the device served. *)
Lemma wp_deliver_io_irqs fuel n h q k p :
  synced h q k p → (Z.to_nat (dq_depth q) ≤ fuel)%nat → (0 < n)%nat →
  wp (deliver_io_irqs fuel n) (λ _ h', ∃ q', synced h' q' (k + len p) [] ∧
    k_ended (h_kern h') =
      k_ended (h_kern h) ++ ((λ x, (x.1, openflash_blk_status x.2)) <$> p) ∧
    shape q' = shape q ∧ queue_at h' 0 = queue_at h 0 ∧
    with_queues None (h_dev h') = with_queues None (h_dev h) ∧
    m_files (h_bus h') = m_files (h_bus h) ∧
    s_storage (m_dev (h_bus h')) = s_storage (m_dev (h_bus h)) ∧
    s_backing_file (m_dev (h_bus h')) = s_backing_file (m_dev (h_bus h))) h.
Proof.
  intros Hs Hf Hn. destruct n as [| n]; [lia |]. clear Hn. cbn [deliver_io_irqs].
  destruct (io_irq_synced fuel h q k p Hs Hf)
    as (h1 & q1 & E & Hs1 & He & Hsh & Hq0 & Hdev & _ & Hfs & Hst & Hbf).
  apply wp_bind. eexists _, h1. split; [exact E |].
  assert (deliver_io_irqs fuel n h1 = Done ((), h1)) as Hidle.
  { pose proof (ow_depth _ _ (sy_owned _ _ _ _ Hs1)) as Hd.
    induction n as [| n IH]; [done |]. cbn [deliver_io_irqs]. erewrite bind_done; [exact IH |].
    eapply io_irq_idle; [apply Hs1 | lia | apply Hs1 |].
    rewrite <- (Z.add_0_r (k + len p)). apply Hs1. cbn. lia. }
  eexists _, _. split; [exact Hidle |]. by exists q1.
Qed.

(** Nothing is left to fail once the queue is idle. *)
Lemma wp_fail_nothing st h q :
  owned h q → k_inflight (h_kern h) = [] →
  wp (openflash_fail_io_requests st) (λ _ h', ∃ q', owned h' q' ∧ h_bus h' = h_bus h ∧
    k_ended (h_kern h') = k_ended (h_kern h) ∧ k_inflight (h_kern h') = [] ∧
    dq_qid q' = dq_qid q ∧ dq_sq_tail q' = dq_sq_tail q ∧ shape q' = shape q ∧
    queue_at h' 0 = queue_at h 0 ∧
    with_queues None (h_dev h') = with_queues None (h_dev h)) h.
Proof.
  intros Ho Hin. unfold openflash_fail_io_requests. apply wp_bind, wp_get_dev.
  destruct (_ <? 2); [apply wp_ret; by exists q |].
  apply wp_bind. eapply wp_get_queue; [apply Ho |].
  pose proof (ow_slots _ _ Ho) as Hl. eapply wp_mono; [apply (wp_fail_requests _ 0 st q h Ho) |].
  - lia.
  - intros j r Hj. lia.
  - intros [] h' (q' & l & [Ho' Hb Hg He Hi _ Hls Ha Hd] & _ & Hnil).
    rewrite Hin in Hi. apply Permutation_nil_l, eq_sym, app_eq_nil in Hi as [Hl0 _].
    apply fmap_nil_inv in Hl0 as ->. rewrite app_nil_r in He.
    pose proof (geometry_inj _ _ Hg) as (G1 & G2 & G3 & G4 & G5).
    exists q'. split_and!; try done. unfold shape. by rewrite G1, G2, G4, Hls.
Qed.

Lemma wp_reset_work fuel n sc h q0 q k p :
  synced h q k p → admin_rings h q0 q → dq_depth q ≤ 4096 → is_Some (of_disk (h_dev h)) →
  (Z.to_nat (dq_depth q) ≤ fuel)%nat → (0 < n)%nat →
  (0 < sc_fuel sc)%nat → (0 < sc_irqs sc)%nat →
  wp (openflash_reset_work fuel n sc) (λ _ h', of_reset_pending (h_dev h') = 0 ∧
    (∃ q', synced h' q' 0 [] ∧ shape q' = shape q ∧ ∃ q0', admin_rings h' q0' q') ∧
    of_disk (h_dev h') = of_disk (h_dev h) ∧
    k_ended (h_kern h') =
      k_ended (h_kern h) ++ ((λ x, (x.1, openflash_blk_status x.2)) <$> p) ∧
    m_files (h_bus h') = m_files (h_bus h) ∧
    s_storage (m_dev (h_bus h')) = s_storage (m_dev (h_bus h)) ∧
    s_backing_file (m_dev (h_bus h')) = s_backing_file (m_dev (h_bus h))) h.
Proof.
  intros Hs Har Hdep [g Hg] Hf Hn Hsf Hsi. unfold openflash_reset_work.
  apply wp_bind, wp_get_dev. rewrite Hg. unfold blk_mq_freeze_queue.
  apply wp_bind, wp_bind. eapply wp_mono; [by apply (wp_deliver_io_irqs fuel n h q k p) |].
  intros [] h1 (q1 & Hs1 & He1 & Hsh1 & Hq1 & Hd1 & Hfs1 & Hst1 & Hbf1).
  pose proof (sy_inflight _ _ _ _ Hs1) as Hin. cbn in Hin. apply Permutation_nil_r in Hin.
  apply wp_bind, wp_get_kern. rewrite Hin. apply wp_ret, wp_bind.
  eapply wp_mono; [apply wp_fail_nothing; [apply Hs1 | done] |].
  intros [] h2 (q2 & Ho2 & Hb2 & He2 & Hin2 & Hqid2 & Ht2 & Hsh2 & Hq2 & Hd2).
  pose proof Hsh1 as Hsh1'. injection Hsh1' as _ _ Hdep1 _.
  pose proof Hsh2 as Hsh2'. injection Hsh2' as G1 G2 Hdep2 G3.
  apply wp_bind. eapply wp_mono; [apply (wp_reset_controller sc h2 q0 q2); try done |].
  - constructor; try done.
    + apply (shared_layout_same q1); try done; [| apply Hs1].
      rewrite Ht2. apply (lay_tail _ (sl_io _ (sy_layout _ _ _ _ Hs1))).
    + by rewrite Hqid2, (sy_qid _ _ _ _ Hs1).
    + by rewrite Hdep2, Hdep1.
    + eapply (admin_rings_same h); [by rewrite Hq2 | by rewrite Hsh2 | done].
    + rewrite Hb2. apply Hs1.
  - intros ret h3 (_ & Hrd). pose proof Hrd as [Hs3 _ Hk3 Hd3 Hst3 Hbf3 Hfs3 _]. apply wp_put_dev.
    split; [done |]. cbn [h_bus h_kern with_ofdev]. rewrite Hk3, Hst3, Hbf3, Hfs3, Hb2, He2.
    split; [| split; [| done]].
    + exists (rewind q2). split; [by apply (synced_local h3) |].
      split; [by rewrite <- Hsh1, <- Hsh2 |].
      destruct (reset_admin_rings h2 q0 q2 h3) as [q0' Har']; [| done |].
      * by apply (admin_rings_same h h2 q0 q q2); [rewrite Hq2 | rewrite Hsh2 |].
      * exists q0'. by apply (admin_rings_same h3 _ q0' (rewind q2)).
    + apply (f_equal of_disk) in Hd1, Hd2, Hd3. cbn in *. congruence.
Qed.
End Reset.
