(* ===== verification/SystemProbe.v ===== *)
(** * The probe puts driver and device in step

    On a realized device that no driver has used, and in a kernel whose services
    succeed, [openflash_probe] returns 0 and leaves driver and device in step:
    the invariant under which requests are served (file SystemRun) is
    established by the code itself. *)
From S2P Require Import Prelude Packed Environment Rings Abi Blocks QemuDevice DeviceSafety.
From S2P Require Import DeviceQueue DeviceRegisters BlockSpec AbiBridge DriverState DriverQueue.
From S2P Require Import DriverCore DriverLogic DriverSafety DriverSubmit System SystemSync SystemSubmit.
From S2P Require Import SystemAdmin SystemReset.

(** A kernel whose services succeed while there is [room] for more calls.
    Coherent memory is RAM on the 64-bit bus, apart from what is held. *)
Class GenerousKernel (M : Type) `{GuestMemoryLaws M, KernelServices} := {
  room : nat → kernel → Prop;
  room_call n k : room (S n) k → room n (with_call k);
  room_acquire n k r : (∀ a size, r ≠ Coherent a size) → room n k →
    room n (with_held (r :: k_held k) k);
  room_alloc n k size : room (S n) k → 0 ≤ size ≤ 0x10000 →
    ∃ a, dma_alloc_coherent k size = Some a ∧ 0 < a ∧ a + size ≤ 2 ^ 64 ∧ is_ram a size ∧
      (∀ b s, Coherent b s ∈ k_held k → a + size ≤ b ∨ b + s ≤ a) ∧
      room n (with_held (Coherent a size :: k_held k) (with_call k));
  devm_kcalloc_ok k : devm_kcalloc k = true;
  irq_vectors_ok k : 0 ≤ pci_alloc_irq_vectors k;
  request_irq_ok k v : request_irq k v = 0;
  enable_ok k : pcim_enable_device k = 0;
  dma_mask_ok k : dma_set_mask_and_coherent k = 0;
  iomap_ok k : pcim_iomap_regions k = 0;
  tag_set_ok k : blk_mq_alloc_tag_set k = 0;
  alloc_disk_ok k : blk_mq_alloc_disk k = 0;
  add_disk_ok k : device_add_disk k = 0;
}.

Section Probe.
Context {M F : Type} `{GM : GuestMemory M, !GuestMemoryLaws M, HF : HostFiles F}.
Context `{KS : KernelServices, !GenerousKernel M}.
Implicit Types (w : machine M F) (h : host (machine M F)) (q : openflash_queue).

(** ** Memory that is held stays as it is *)
Record grown h h' : Prop := {
  gr_dev : m_dev (h_bus h') = m_dev (h_bus h);
  gr_files : m_files (h_bus h') = m_files (h_bus h);
  gr_inflight : k_inflight (h_kern h') = k_inflight (h_kern h);
  gr_mapped : k_mapped (h_kern h') = k_mapped (h_kern h);
  gr_held b s : Coherent b s ∈ k_held (h_kern h) → Coherent b s ∈ k_held (h_kern h');
  gr_memory b s : Coherent b s ∈ k_held (h_kern h) → is_ram b s →
    dma_read (h_bus h') b s = dma_read (h_bus h) b s;
}.

Lemma grown_dev h d : grown h (with_ofdev d h).
Proof. done. Qed.

Lemma grown_trans h1 h2 h3 : grown h1 h2 → grown h2 h3 → grown h1 h3.
Proof.
  intros [] []. constructor; try congruence; [auto |]. intros b s Hin Hr. by etrans; auto.
Qed.

(** Changes of the driver's own structures, and of the count of calls. *)
Lemma grown_local h h' :
  h_bus h' = h_bus h → k_inflight (h_kern h') = k_inflight (h_kern h) →
  k_mapped (h_kern h') = k_mapped (h_kern h) → k_held (h_kern h) ⊆ k_held (h_kern h') →
  grown h h'.
Proof. intros Hb Hi Hm Hh. constructor; rewrite ?Hb; auto. Qed.

Lemma queue_at_dev h h' i : h_dev h' = h_dev h → queue_at h' i = queue_at h i.
Proof. intros E. unfold queue_at. by rewrite E. Qed.

(** ** Calls of the kernel *)
Lemma wp_call {A} (f : kernel → A) n (Q : A → host (machine M F) → Prop) h :
  room (S n) (h_kern h) →
  (∀ h', grown h h' → h_dev h' = h_dev h → h_bus h' = h_bus h → room n (h_kern h') →
     Q (f (h_kern h)) h') →
  wp (ask f) Q h.
Proof.
  intros Hr HQ. apply wp_ask, HQ; try done. by apply room_call.
Qed.

Lemma wp_acquire r n (Q : () → host (machine M F) → Prop) h :
  (∀ a size, r ≠ Coherent a size) → room n (h_kern h) →
  (∀ h', grown h h' → h_dev h' = h_dev h → h_bus h' = h_bus h → room n (h_kern h') → Q () h') →
  wp (acquire r) Q h.
Proof.
  intros Hne Hr HQ. unfold acquire. apply wp_put_kern, HQ; try done; [| by apply room_acquire].
  apply grown_local; try done. cbn. set_solver.
Qed.

Lemma wp_alloc size n (Q : option Z → host (machine M F) → Prop) h :
  room (S n) (h_kern h) → 0 ≤ size ≤ 0x10000 →
  (∀ a h', 0 < a → a + size ≤ 2 ^ 64 → is_ram (M := M) a size →
     (∀ b s, Coherent b s ∈ k_held (h_kern h) → a + size ≤ b ∨ b + s ≤ a) →
     grown h h' → h_dev h' = h_dev h → room n (h_kern h') →
     Coherent a size ∈ k_held (h_kern h') → dma_read (h_bus h') a size = zeroes size →
     Q (Some a) h') →
  wp (alloc_coherent size) Q h.
Proof.
  intros Hr Hs HQ. destruct (room_alloc n (h_kern h) size Hr Hs)
    as (a & E & Ha & Hhi & Hram & Hfree & Hr').
  assert (len (zeroes size) = size) as Hlen by (unfold zeroes; rewrite length_replicate; lia).
  unfold alloc_coherent. apply wp_bind, wp_ask. rewrite E.
  apply wp_bind. unfold acquire. apply wp_put_kern, wp_bind, wp_store, wp_ret.
  fold (zeroes size). apply HQ; try done.
  - constructor; try done.
    + intros b s Hin. by right.
    + intros b s Hin Hrb. cbn. apply dma_read_write_other; rewrite ?Hlen; [done | done |].
      apply Hfree in Hin. lia.
  - apply list_elem_of_here.
  - cbn. rewrite <- Hlen at 2. apply dma_read_write_same. by rewrite Hlen.
Qed.

(** ** The admin queue *)
Definition rings_held h q : Prop :=
  Coherent (dq_sq_dma q) (dq_depth q * CMD_SIZE) ∈ k_held (h_kern h) ∧
  Coherent (dq_cq_dma q) (dq_depth q * CQE_SIZE) ∈ k_held (h_kern h).

Lemma rings_held_grown h h' q : grown h h' → rings_held h q → rings_held h' q.
Proof. intros Hg []. split; by apply (gr_held _ _ Hg). Qed.

Lemma cq_entry_ring w w' q j :
  ring_layout (M := M) q → 0 < dq_depth q →
  dma_read w' (dq_cq_dma q) (dq_depth q * CQE_SIZE) =
    dma_read w (dq_cq_dma q) (dq_depth q * CQE_SIZE) →
  cq_entry w' q j = cq_entry w q j.
Proof.
  intros Hl Hd E. pose proof (Z.mod_pos_bound j (dq_depth q) Hd) as Hm. unfold cq_entry. f_equal.
  rewrite !(dma_read_sub _ (dq_cq_dma q) (dq_depth q * CQE_SIZE) (_ + _))
    by (apply Hl || (unfold CQE_SIZE; lia)).
  by rewrite E.
Qed.

Lemma blank_grown h h' q :
  grown h h' → ring_layout (M := M) q → rings_held h q → blank (h_bus h) q → blank (h_bus h') q.
Proof. intros Hg Hl [_ Hc] Hb. unfold blank. rewrite (gr_memory _ _ Hg); [done | done | apply Hl]. Qed.

Lemma admin_synced_grown h h' q k :
  grown h h' → queue_at h' 0 = queue_at h 0 → rings_held h q →
  admin_synced h q k → admin_synced h' q k.
Proof.
  intros Hg Hq [_ Hc] [Hq0 ? ? Hl ? ? Hwf ? [dq Hdq] Hfree].
  constructor; rewrite ?(gr_dev _ _ Hg); try done; [by rewrite Hq | |].
  - exists dq. destruct Hdq. constructor; try done. by rewrite (gr_dev _ _ Hg).
  - intros j Hj. unfold is_new. rewrite (cq_entry_ring (h_bus h)); [by apply Hfree | done | lia |].
    apply (gr_memory _ _ Hg); [done | apply Hl].
Qed.

(** Placing the rings of a queue in fresh memory. *)
Lemma fresh_rings q sq cq :
  0 < sq → sq + dq_depth q * CMD_SIZE ≤ 2 ^ 64 → is_ram (M := M) sq (dq_depth q * CMD_SIZE) →
  0 < cq → cq + dq_depth q * CQE_SIZE ≤ 2 ^ 64 → is_ram (M := M) cq (dq_depth q * CQE_SIZE) →
  cq + dq_depth q * CQE_SIZE ≤ sq ∨ sq + dq_depth q * CMD_SIZE ≤ cq →
  ring_layout (M := M) (with_cq cq (with_sq sq q)).
Proof. intros. constructor; try done. by apply Forall_singleton. Qed.

(** What [openflash_setup_admin_queue] leaves behind. *)
Record admin_set_up h h' (q0 : openflash_queue) (n : nat) : Prop := {
  au_synced : admin_synced h' q0 0;
  au_held : rings_held h' q0;
  au_io : queue_at h' 1 = Some dq_zero;
  au_room : room n (h_kern h');
  au_dev : with_queues None (h_dev h') = with_nr_queues 1 (with_queues None (h_dev h));
  au_storage : s_storage (m_dev (h_bus h')) = s_storage (m_dev (h_bus h));
  au_backing : s_backing_file (m_dev (h_bus h')) = s_backing_file (m_dev (h_bus h));
  au_capacity : s_capacity (m_dev (h_bus h')) = s_capacity (m_dev (h_bus h));
  au_files : m_files (h_bus h') = m_files (h_bus h);
  au_inflight : k_inflight (h_kern h') = k_inflight (h_kern h);
  au_mapped : k_mapped (h_kern h') = k_mapped (h_kern h);
}.

(** The registers of the admin queue written: rings and size are those of [q],
    the cursors those the device's queue [dq] had. *)
Definition admin_on w q dq : machine M F :=
  with_dev (set_control OF_CTRL_ENABLE OF_STATUS_READY (set_queues
    (<[0%nat := configured_admin (dq_sq_dma q) (dq_cq_dma q) (dq_depth q) dq]>
       (s_queues (m_dev w))) (m_dev w))) w.

(** The driver's admin queue is set up, over a device whose admin queue was [dq]. *)
Record admin_configured h h' (q0 : openflash_queue) dq (n : nat) : Prop := {
  ac_queue : queue_at h' 0 = Some q0;
  ac_layout : ring_layout (M := M) q0;
  ac_blank : blank (h_bus h') q0;
  ac_held : rings_held h' q0;
  ac_io : queue_at h' 1 = Some dq_zero;
  ac_room : room n (h_kern h');
  ac_dev : with_queues None (h_dev h') = with_nr_queues 1 (with_queues None (h_dev h));
  ac_bus : ∃ w, m_dev w = m_dev (h_bus h) ∧ m_files w = m_files (h_bus h) ∧
    h_bus h' = admin_on w q0 dq;
  ac_inflight : k_inflight (h_kern h') = k_inflight (h_kern h);
  ac_mapped : k_mapped (h_kern h') = k_mapped (h_kern h);
}.

Lemma wp_admin_start n h q dq :
  queue_at h 0 = Some q → queue_at h 1 = Some dq_zero → rings_held h q →
  2 ≤ dq_depth q ≤ 4096 → ring_layout (M := M) q → blank (h_bus h) q →
  s_queues (m_dev (h_bus h)) !! 0%nat = Some dq → queue_wf dq → room (2 + n) (h_kern h) →
  wp admin_start (λ ret h', ret = 0 ∧ admin_configured h h' q dq n) h.
Proof.
  intros Hq Hq1 Hh Hd Hl Hb Hdq Hwf Hr. unfold admin_start.
  destruct (rl_sq_bus _ Hl) as [? ?]. destruct (rl_cq_bus _ Hl) as [? ?].
  unfold CMD_SIZE, CQE_SIZE in *.
  apply wp_bind, (wp_call _ (S n)); [done |]. intros h1 G1 D1 B1 R1.
  rewrite (proj2 (Z.ltb_ge _ _) (irq_vectors_ok _)).
  apply wp_bind, (wp_acquire _ (S n)); [done | done |]. intros h2 G2 D2 B2 R2.
  apply wp_bind, (wp_call _ n); [done |]. intros h3 G3 D3 B3 R3. rewrite request_irq_ok.
  cbn [Z.eqb negb]. apply wp_bind, (wp_acquire _ n); [done | done |]. intros h4 G4 D4 B4 R4.
  pose proof (grown_trans _ _ _ G1 (grown_trans _ _ _ G2 (grown_trans _ _ _ G3 G4))) as G.
  assert (h_dev h4 = h_dev h) as D by congruence. assert (h_bus h4 = h_bus h) as B by congruence.
  clear D1 D2 D3 D4 B1 B2 B3 B4 G1 G2 G3 G4 R1 R2 R3.
  apply wp_bind, wp_put_dev. set (h5 := with_ofdev _ h4).
  assert (queue_at h5 0 = Some q ∧ queue_at h5 1 = Some dq_zero) as [Hq5 Hq51].
  { unfold queue_at in *. cbn. by rewrite D. }
  apply wp_bind. eapply wp_get_queue; [exact Hq5 |]. apply wp_bind.
  eapply (wp_write_admin_registers q); [cbn; by rewrite B | done | lia | lia | done |].
  cbn [h_bus with_ofdev h5]. rewrite B. set (hu := with_bus _ h5).
  apply wp_bind. unfold poll_ready. apply wp_bind. eexists _, _.
  split; [reflexivity |]. apply wp_ret.
  change (has_flag _ OPENFLASH_STATUS_READY) with true. cbn [Z.eqb negb].
  apply wp_ret. split; [done |]. constructor; try done.
  - exact (rings_held_grown h h4 q G Hh).
  - cbn. by rewrite D.
  - by exists (h_bus h).
  - apply G.
  - apply G.
Qed.

Lemma admin_configured_grown h h1 h' q dq n :
  grown h h1 → with_queues None (h_dev h1) = with_queues None (h_dev h) →
  admin_configured h1 h' q dq n → admin_configured h h' q dq n.
Proof.
  intros [Gd Gf Gi Gm _ _] Hd [? ? ? ? ? ? Hdev (w & Hw & Hf & Hb) Hin Hma].
  constructor; rewrite ?Hdev, ?Hin, ?Hma; try done; [by rewrite Hd |].
  exists w. rewrite Hw, Hf, Gd, Gf. done.
Qed.

(** A new queue of the driver, empty and expecting completions of the first pass. *)
Record fresh_queue (depth : Z) (q : openflash_queue) : Prop := {
  fq_qid : dq_qid q = 0;
  fq_depth : dq_depth q = depth;
  fq_tail : dq_sq_tail q = 0;
  fq_head : dq_cq_head q = 0;
  fq_phase : dq_cq_phase q = 1;
}.

Lemma wp_configure_admin_queue n h dq :
  2 ≤ of_queue_depth (h_dev h) ≤ 1024 → s_queues (m_dev (h_bus h)) !! 0%nat = Some dq →
  queue_wf dq → room (5 + n) (h_kern h) →
  wp openflash_setup_admin_queue (λ ret h', ret = 0 ∧ ∃ q0, admin_configured h h' q0 dq n ∧
    fresh_queue (of_queue_depth (h_dev h)) q0) h.
Proof.
  intros Hd Hdq Hwf Hr. unfold openflash_setup_admin_queue.
  apply wp_bind, (wp_call _ (4 + n)); [done |]. intros h1 G1 D1 B1 R1. rewrite devm_kcalloc_ok.
  cbn [negb]. apply wp_bind, wp_put_dev. rewrite D1.
  set (q := with_shape 0 (of_queue_depth (h_dev h)) 1 dq_zero). set (h2 := with_ofdev _ h1).
  apply wp_bind. eapply (wp_get_queue 0 q); [done |].
  change (dq_depth q) with (of_queue_depth (h_dev h)). set (d := of_queue_depth (h_dev h)) in *.
  apply wp_bind, (wp_alloc _ (3 + n)); [done | unfold CMD_SIZE; lia |].
  intros sq h3 Hs1 Hs2 Hs3 _ G3 D3 R3 Hin3 _. apply wp_bind.
  eapply (wp_put_queue 0 _ q); [unfold queue_at; by rewrite D3 |]. set (h4 := upd_queue 0 _ h3).
  apply wp_bind, (wp_alloc _ (2 + n) _ h4); [done | unfold CQE_SIZE; lia |].
  intros cq h5 Hc1 Hc2 Hc3 Hfree G5 D5 R5 Hin5 Hz. apply Hfree in Hin3 as Hap. apply wp_bind.
  assert (of_queues (h_dev h5) = Some [with_sq sq q; dq_zero]) as Hqs
    by (rewrite D5; cbn; by rewrite D3).
  eapply (wp_put_queue 0 _ (with_sq sq q)); [unfold queue_at; by rewrite Hqs |].
  set (h6 := upd_queue 0 _ h5). set (q0 := with_cq cq (with_sq sq q)).
  assert (of_queues (h_dev h6) = Some [q0; dq_zero]) as Hqs6 by (cbn; by rewrite Hqs).
  assert (grown h h6) as G.
  { eapply grown_trans; [exact G1 |]. eapply (grown_trans _ h2); [apply grown_dev |].
    eapply grown_trans; [exact G3 |]. eapply (grown_trans _ h4); [apply grown_dev |].
    eapply grown_trans; [exact G5 | apply grown_dev]. }
  eapply wp_mono; [apply (wp_admin_start n h6 q0 dq); try done |].
  - unfold queue_at. by rewrite Hqs6.
  - unfold queue_at. by rewrite Hqs6.
  - split; [by apply (gr_held _ _ G5) | done].
  - change (2 ≤ d ≤ 4096). lia.
  - by apply (fresh_rings q sq cq).
  - by rewrite (gr_dev _ _ G).
  - intros ret h' [-> Hup]. split; [done |]. exists q0. split; [| done].
    eapply (admin_configured_grown h h6); [exact G | cbn; rewrite D5; cbn; by rewrite D3 | done].
Qed.

(** On a device without queues both sides are then in step. *)
Lemma wp_setup_admin_queue n h :
  2 ≤ of_queue_depth (h_dev h) ≤ 1024 → dev_wf (m_dev (h_bus h)) →
  s_queues (m_dev (h_bus h)) = reset_queues → room (5 + n) (h_kern h) →
  wp openflash_setup_admin_queue (λ ret h', ret = 0 ∧ ∃ q0, admin_set_up h h' q0 n ∧
    dq_depth q0 = of_queue_depth (h_dev h)) h.
Proof.
  intros Hd Hwf Hrq Hr.
  eapply wp_mono; [apply (wp_configure_admin_queue n h (default queue_zero (reset_queues !! 0%nat)));
    [done | by rewrite Hrq | | done] |].
  { eapply (Forall_lookup_1 _ _ 0%nat _ (wf_queues _ Hwf)). by rewrite Hrq. }
  intros ret h' (-> & q0 & Hc & [? Hdep ? ? ?]). split; [done |]. exists q0. split; [| done].
  destruct Hc as [? ? ? ? ? ? ? (w & Hw & Hf & Hb) ? ?].
  constructor; rewrite ?Hb; cbn; rewrite ?Hw; try done.
  apply (admin_up h' q0 w); rewrite ?Hw; try done; [lia |].
  rewrite Hb. unfold admin_on. by rewrite Hw, Hrq.
Qed.

(** ** The descriptor lists *)

(** The lists of the first [tag] slots are in place; every slot is empty. *)
Record lists_ready h q (tag : nat) : Prop := {
  lr_queue : queue_at h 1 = Some q;
  lr_empty : Forall (λ r, r_rq r = None ∧ r_nr_mapped r = 0%nat) (dq_requests q);
  lr_list i r : (i < tag)%nat → dq_requests q !! i = Some r →
    (0 < r_sgl_dma r ∧ r_sgl_dma r + SGL_SIZE ≤ 2 ^ 64) ∧ is_ram (M := M) (r_sgl_dma r) SGL_SIZE ∧
    Coherent (r_sgl_dma r) SGL_SIZE ∈ k_held (h_kern h) ∧
    outside [sq_region q; cq_region q] (r_sgl_dma r) SGL_SIZE;
  lr_apart i j r r' : (i < tag)%nat → (j < tag)%nat → i ≠ j →
    dq_requests q !! i = Some r → dq_requests q !! j = Some r' →
    outside [sgl_region r] (r_sgl_dma r') SGL_SIZE;
}.

Lemma lists_ready_step h q tag h1 dma r :
  lists_ready h q tag → rings_held h q → dq_requests q !! tag = Some r →
  0 < dma → dma + SGL_SIZE ≤ 2 ^ 64 → is_ram (M := M) dma SGL_SIZE →
  (∀ b s, Coherent b s ∈ k_held (h_kern h) → dma + SGL_SIZE ≤ b ∨ b + s ≤ dma) →
  grown h h1 → h_dev h1 = h_dev h → Coherent dma SGL_SIZE ∈ k_held (h_kern h1) →
  let rs := <[tag := with_sgl dma r]> (dq_requests q) in
  lists_ready (upd_queue 1 (with_requests rs) h1) (with_requests rs q) (S tag).
Proof.
  intros [Hq He Hl Ha] [Hsq Hcq] Hr H1 H2 H3 Hfree G D Hin rs.
  pose proof (lookup_lt_Some _ _ _ Hr) as Hlt.
  assert (rs !! tag = Some (with_sgl dma r)) as Hnew by (by apply list_lookup_insert_eq).
  assert (∀ i, i ≠ tag → rs !! i = dq_requests q !! i) as Hold
    by (intros; by apply list_lookup_insert_ne).
  assert (∀ i r', (i < tag)%nat → dq_requests q !! i = Some r' →
    dma + SGL_SIZE ≤ r_sgl_dma r' ∨ r_sgl_dma r' + SGL_SIZE ≤ dma) as Hlists.
  { intros i r' Hi Hr'. destruct (Hl i r' Hi Hr') as (_ & _ & Hh & _). by apply Hfree. }
  constructor; cbn [dq_requests with_requests].
  - rewrite queue_at_upd. unfold queue_at in *. by rewrite D, Hq.
  - apply Forall_insert; [done |]. by apply (Forall_lookup_1 _ _ _ _ He) in Hr.
  - intros i r' Hi Hr'. cbn [h_kern upd_queue with_ofdev].
    destruct (decide (i = tag)) as [-> | Hne].
    + rewrite Hnew in Hr'. injection Hr' as <-. cbn [r_sgl_dma with_sgl].
      split_and!; [done | done | done | done |]. unfold outside, sq_region, cq_region.
      apply Hfree in Hsq, Hcq. rewrite !Forall_cons. cbn. split_and!; [lia | lia | done].
    + rewrite Hold in Hr' by done. destruct (Hl i r') as (? & ? & ? & ?); [lia | done |].
      split_and!; try done; try apply (gr_held _ _ G); tauto.
  - intros i j r1 r2 Hi Hj Hne Hr1 Hr2. apply Forall_singleton. cbn.
    destruct (decide (i = tag)) as [-> | Hni].
    + rewrite Hnew in Hr1. injection Hr1 as <-. rewrite Hold in Hr2 by done. cbn.
      assert (j < tag)%nat as Hjt by lia. pose proof (Hlists j r2 Hjt Hr2). lia.
    + rewrite Hold in Hr1 by done. destruct (decide (j = tag)) as [-> | Hnj].
      * rewrite Hnew in Hr2. injection Hr2 as <-. cbn.
        assert (i < tag)%nat as Hit by lia. pose proof (Hlists i r1 Hit Hr1). lia.
      * rewrite Hold in Hr2 by done.
        pose proof (Ha i j r1 r2 ltac:(lia) ltac:(lia) Hne Hr1 Hr2) as Ho.
        unfold outside in Ho. rewrite Forall_singleton in Ho. exact Ho.
Qed.

Lemma wp_alloc_sgls m n tag h q :
  lists_ready h q tag → rings_held h q → (tag + m = length (dq_requests q))%nat →
  room (m + n) (h_kern h) →
  wp (alloc_sgls m tag) (λ o h', o = (true, tag + m)%nat ∧ ∃ rs,
    length rs = length (dq_requests q) ∧ lists_ready h' (with_requests rs q) (tag + m) ∧
    grown h h' ∧ room n (h_kern h') ∧ queue_at h' 0 = queue_at h 0 ∧
    with_queues None (h_dev h') = with_queues None (h_dev h)) h.
Proof.
  revert tag h q. induction m as [| m IH]; intros tag h q Hl Hh Hm Hr; cbn [alloc_sgls].
  { apply wp_ret. rewrite Nat.add_0_r. split; [done |]. exists (dq_requests q).
    split_and!; try done. by destruct q. }
  destruct (lookup_lt_is_Some_2 (dq_requests q) tag) as [r Hlook]; [lia |].
  apply wp_bind, (wp_alloc _ (m + n)); [done | done |].
  intros dma h1 H1 H2 H3 Hfree G D R Hin _. apply wp_bind.
  pose proof (lists_ready_step h q tag h1 dma r Hl Hh Hlook H1 H2 H3 Hfree G D Hin) as Hstep.
  eapply (wp_put_request tag _ q r); [unfold queue_at; rewrite D; apply Hl | done |].
  rewrite (alter_insert _ _ _ r) by done. cbn zeta in Hstep. set (rs := <[tag := _]> _) in *.
  eapply wp_mono; [apply (IH (S tag) _ (with_requests rs q)); try done |].
  - by apply (rings_held_grown _ _ q G).
  - cbn. unfold rs. rewrite length_insert. lia.
  - intros o h' (-> & rs' & Hlen & Hl' & G' & R' & Hq0 & Hd). split; [f_equal; lia |].
    exists rs'. replace (tag + S m)%nat with (S tag + m)%nat by lia. split_and!; try done.
    + rewrite Hlen. cbn. unfold rs. by rewrite length_insert.
    + eapply grown_trans; [exact G |]. eapply grown_trans; [| exact G']. apply grown_dev.
    + rewrite Hq0, queue_at_upd_ne by done. unfold queue_at. by rewrite D.
    + rewrite Hd. cbn. by rewrite D.
Qed.

(** ** The I/O queue *)
Lemma owned_empty h q :
  queue_at h 1 = Some q → 0 < dq_depth q < 2 ^ 16 → len (dq_requests q) = dq_depth q - 1 →
  Forall (λ r, r_rq r = None ∧ r_nr_mapped r = 0%nat) (dq_requests q) →
  k_inflight (h_kern h) = [] → k_mapped (h_kern h) = [] → owned h q.
Proof.
  intros Hq Hd Hl He Hi Hm. rewrite Forall_forall in He. constructor; try done.
  - intros i r rq Hr Hrq. apply list_elem_of_lookup_2, He in Hr as [Hn _]. congruence.
  - apply Forall_forall. intros r Hr. by apply He in Hr as [_ ->].
  - rewrite Hi. apply reflexive_eq. symmetry. apply elem_of_nil_inv.
    intros rq (r & Hr & Hrq)%list_elem_of_omap. apply He in Hr as [Hn _]. congruence.
  - rewrite Hm. apply reflexive_eq. symmetry. apply bind_nil. intros r Hr.
    unfold slot_mappings. by apply He in Hr as [-> _].
Qed.

Lemma ready_layout h q :
  lists_ready h q (length (dq_requests q)) → ring_layout (M := M) q →
  0 ≤ dq_sq_tail q < dq_depth q → shared_layout (M := M) (F := F) q.
Proof.
  intros [_ _ Hl Ha] Hr Ht. constructor; [constructor | done | ..].
  - apply Hr.
  - done.
  - intros i r Hi. destruct (Hl i r (lookup_lt_Some _ _ _ Hi) Hi) as (_ & ? & _ & Ho).
    split; [done |]. unfold outside in *. rewrite !Forall_cons in Ho.
    apply Forall_singleton, Ho.
  - intros i j r r' Hne Hi Hj. by apply (Ha i j); eauto using lookup_lt_Some.
  - intros i r Hi. destruct (Hl i r (lookup_lt_Some _ _ _ Hi) Hi) as (_ & _ & _ & Ho).
    unfold outside in *. rewrite !Forall_cons in Ho. apply Forall_singleton, Ho.
  - intros i r Hi. by destruct (Hl i r (lookup_lt_Some _ _ _ Hi) Hi) as (? & _).
Qed.

(** The rings of the I/O queue are in place and blank, those of the admin queue
    elsewhere. *)
Record io_rings h q0 q : Prop := {
  ir_queue : queue_at h 1 = Some q;
  ir_held : rings_held h q;
  ir_layout : ring_layout (M := M) q;
  ir_blank : blank (h_bus h) q;
  ir_qid : dq_qid q = 1;
  ir_depth : 2 ≤ dq_depth q ≤ 1024;
  ir_start : (dq_sq_tail q, dq_cq_head q, dq_cq_phase q) = (0, 0, 1);
  ir_cq : outside [sq_region q; cq_region q] (dq_cq_dma q0) (dq_depth q0 * CQE_SIZE);
  ir_io_cq : outside [sq_region q0; cq_region q0] (dq_cq_dma q) (dq_depth q * CQE_SIZE);
}.

(** The host once the I/O queue is up. *)
Record io_set_up h h' (n : nat) : Prop := {
  iu_synced : ∃ q, synced h' q 0 [] ∧ dq_depth q ≤ 1024 ∧
    ∃ q0, admin_rings h' q0 q;
  iu_room : room n (h_kern h');
  iu_dev : with_queues None (h_dev h') = with_nr_queues 2 (with_queues None (h_dev h));
  iu_storage : s_storage (m_dev (h_bus h')) = s_storage (m_dev (h_bus h));
  iu_backing : s_backing_file (m_dev (h_bus h')) = s_backing_file (m_dev (h_bus h));
  iu_files : m_files (h_bus h') = m_files (h_bus h);
}.

Lemma io_rings_grown h h' q0 q rs :
  io_rings h q0 q → grown h h' → queue_at h' 1 = Some (with_requests rs q) →
  io_rings h' q0 (with_requests rs q).
Proof.
  intros [Hq Hh Hl Hb ? ? ? ? ?] G Hq'. constructor; try done.
  - exact (rings_held_grown h h' q G Hh).
  - by apply (ring_layout_same q).
  - exact (blank_grown h h' q G Hl Hh Hb).
Qed.

Lemma lists_ready_grown h h' q tag :
  lists_ready h q tag → grown h h' → queue_at h' 1 = Some q → lists_ready h' q tag.
Proof.
  intros [_ He Hl Ha] G Hq. constructor; try done. intros i r Hi Hr.
  destruct (Hl i r Hi Hr) as (? & ? & ? & ?). split_and!; try tauto. by apply (gr_held _ _ G).
Qed.

Lemma wp_io_create sc tag n h q0 k q :
  admin_synced h q0 k → dq_depth q0 ≤ 1024 → io_rings h q0 q →
  lists_ready h q (length (dq_requests q)) → len (dq_requests q) = dq_depth q - 1 →
  k_inflight (h_kern h) = [] → k_mapped (h_kern h) = [] → room n (h_kern h) →
  (0 < sc_fuel sc)%nat → (0 < sc_irqs sc)%nat →
  wp (ret ← openflash_create_io_queue sc;
      if negb (ret =? 0) then io_free_irq tag (Some ret)
      else put_dev (with_nr_queues 2) ;; mret 0)
    (λ ret h', ret = 0 ∧ io_set_up h h' n) h.
Proof.
  intros Ha Hd0 [Hq Hh Hl Hb Hqid Hd Hst Hcq Hicq] Hls Hlen Hin Hma Hr Hsf Hsi.
  injection Hst as Ht Hhd Hph. apply wp_bind.
  eapply wp_mono; [apply (create_served sc h q0 k q); try done; lia |].
  intros ret h1 (-> & w1 & q0' & dq & Haa & Hdq & Hs1 & Hb1 & Hf1). cbn [Z.eqb negb].
  destruct (aa_only _ _ _ _ _ _ Haa) as [Hk Hio Hdev].
  pose proof (aa_synced _ _ _ _ _ _ Haa) as Ha1.
  pose proof (aa_shape _ _ _ _ _ _ Haa) as E. injection E as E1 E2 E3.
  apply wp_bind, wp_put_dev, wp_ret. split; [done |]. set (h2 := with_ofdev _ h1).
  assert (blank (h_bus h1) q) as Hb'
    by (eapply blank_changes; [done | apply Haa | done | done]).
  constructor; cbn [h_bus h_kern with_ofdev h2].
  - exists q. split; [| split; [lia |]].
    + apply (synced_local h1); try done. apply (synced_fresh h1 q dq); try done; try apply Ha1.
      * apply owned_empty; rewrite ?Hk; try done; [by rewrite Hio | lia | apply Hls].
      * by rewrite Hk.
      * apply (ready_layout h); [done | done | lia].
    + exists q0'. constructor; unfold sq_region, cq_region in *; rewrite ?E1, ?E2, ?E3; try done.
      * apply Ha1.
      * apply Ha1.
      * pose proof (as_depth _ _ _ Ha). lia.
      * apply Ha1.
  - by rewrite Hk.
  - change (with_nr_queues 2 (with_queues None (h_dev h1)) =
      with_nr_queues 2 (with_queues None (h_dev h))). by rewrite Hdev.
  - by rewrite (aa_storage _ _ _ _ _ _ Haa).
  - by rewrite (aa_backing _ _ _ _ _ _ Haa).
  - by rewrite (aa_files _ _ _ _ _ _ Haa).
Qed.

Lemma io_set_up_grown h h1 h' n :
  grown h h1 → with_queues None (h_dev h1) = with_queues None (h_dev h) →
  io_set_up h1 h' n → io_set_up h h' n.
Proof.
  intros [Gd Gf _ _ _ _] Hd [? ? Hdev Hst Hbf Hfs].
  constructor; rewrite ?Hdev, ?Hst, ?Hbf, ?Hfs, ?Gd; try done. by rewrite Hd.
Qed.

Lemma wp_io_start sc m n h q0 k q :
  admin_synced h q0 k → rings_held h q0 → dq_depth q0 ≤ 1024 → io_rings h q0 q →
  dq_requests q = replicate m request_zero → Z.of_nat m = dq_depth q - 1 →
  k_inflight (h_kern h) = [] → k_mapped (h_kern h) = [] → room (m + S n) (h_kern h) →
  (0 < sc_fuel sc)%nat → (0 < sc_irqs sc)%nat →
  wp (io_start sc m) (λ ret h', ret = 0 ∧ io_set_up h h' n) h.
Proof.
  intros Ha Hh0 Hd0 Hio Hrq Hm Hin Hma Hr Hsf Hsi. unfold io_start. apply wp_bind.
  pose proof (ir_depth _ _ _ Hio) as Hd. pose proof (ir_start _ _ _ Hio) as Hst.
  injection Hst as Ht Hhd Hph.
  eapply wp_mono; [apply (wp_alloc_sgls m (S n) 0 h q) |].
  - constructor; [apply Hio | | lia | lia]. rewrite Hrq. by apply Forall_replicate.
  - apply Hio.
  - by rewrite Hrq, length_replicate.
  - done.
  - intros o h1 (-> & rs & Hlen & Hl1 & G1 & R1 & Hq1 & D1). cbn [negb].
    rewrite Hrq, length_replicate in Hlen. set (q' := with_requests rs q) in *.
    apply wp_bind, (wp_call _ n); [done |]. intros h2 G2 D2 B2 R2. rewrite request_irq_ok.
    cbn [Z.eqb negb]. apply wp_bind, (wp_acquire _ n); [done | done |]. intros h3 G3 D3 B3 R3.
    pose proof (grown_trans _ _ _ G1 (grown_trans _ _ _ G2 G3)) as G.
    assert (h_dev h3 = h_dev h1) as D by congruence. clear D2 D3 B2 B3 R2.
    assert (queue_at h3 0 = queue_at h 0 ∧ queue_at h3 1 = Some q') as [Q0 Q1].
    { pose proof (lr_queue _ _ _ Hl1). unfold queue_at in *. rewrite D. by rewrite Hq1. }
    eapply wp_mono; [apply (wp_io_create sc _ n h3 q0 k q'); try done |].
    + by eapply admin_synced_grown.
    + by apply (io_rings_grown h).
    + cbn [dq_requests with_requests q']. rewrite Hlen.
      apply (lists_ready_grown h1); [done | by eapply grown_trans | done].
    + cbn [dq_requests with_requests q' dq_depth]. lia.
    + by rewrite (gr_inflight _ _ G).
    + by rewrite (gr_mapped _ _ G).
    + intros ret h' [-> Hup]. split; [done |].
      eapply io_set_up_grown; [exact G | by rewrite D | done].
Qed.

Lemma wp_io_requests sc m n h q0 k q :
  admin_synced h q0 k → rings_held h q0 → dq_depth q0 ≤ 1024 → io_rings h q0 q →
  Z.of_nat m = dq_depth q - 1 →
  k_inflight (h_kern h) = [] → k_mapped (h_kern h) = [] → room (S (m + S n)) (h_kern h) →
  (0 < sc_fuel sc)%nat → (0 < sc_irqs sc)%nat →
  wp (io_requests sc m) (λ ret h', ret = 0 ∧ io_set_up h h' n) h.
Proof.
  intros Ha Hh0 Hd0 Hio Hm Hin Hma Hr Hsf Hsi. unfold io_requests.
  apply wp_bind, (wp_call _ (m + S n)); [done |]. intros h1 G1 D1 _ R1.
  rewrite devm_kcalloc_ok. cbn [negb]. apply wp_bind.
  assert (queue_at h1 1 = Some q) as Hq1 by (unfold queue_at; rewrite D1; apply Hio).
  eapply (wp_put_queue 1 _ q); [done |]. set (h2 := upd_queue 1 _ h1).
  assert (grown h h2) as G by (eapply grown_trans; [exact G1 | apply grown_dev]).
  eapply wp_mono; [apply (wp_io_start sc m n h2 q0 k (with_requests (replicate m request_zero) q));
    try done |].
  - eapply admin_synced_grown; [exact G | | done | done].
    unfold h2. by rewrite queue_at_upd_ne, (queue_at_dev h).
  - by apply (rings_held_grown h).
  - apply (io_rings_grown h); [done | done |]. unfold h2. by rewrite queue_at_upd, Hq1.
  - by rewrite (gr_inflight _ _ G).
  - by rewrite (gr_mapped _ _ G).
  - intros ret h' [-> Hup]. split; [done |].
    eapply io_set_up_grown; [exact G | cbn; by rewrite D1 | done].
Qed.

Lemma wp_setup_io_queue sc n h q0 k :
  let d := of_queue_depth (h_dev h) in
  admin_synced h q0 k → rings_held h q0 → dq_depth q0 ≤ 1024 → queue_at h 1 = Some dq_zero →
  2 ≤ d ≤ 1024 → k_inflight (h_kern h) = [] → k_mapped (h_kern h) = [] →
  room (3 + (Z.to_nat (d - 1) + S n)) (h_kern h) →
  (0 < sc_fuel sc)%nat → (0 < sc_irqs sc)%nat →
  wp (openflash_setup_io_queue sc) (λ ret h', ret = 0 ∧ io_set_up h h' n) h.
Proof.
  intros d Ha Hh0 Hd0 Hq1 Hd Hin Hma Hr Hsf Hsi. unfold openflash_setup_io_queue.
  apply wp_bind, wp_get_dev. fold d. apply wp_bind. eapply (wp_put_queue 1 _ dq_zero); [done |].
  set (h1 := upd_queue 1 _ h). set (q := with_shape 1 d 1 dq_zero).
  assert (queue_at h1 1 = Some q) as Q1 by (unfold h1; by rewrite queue_at_upd, Hq1).
  apply wp_bind. eapply (wp_get_queue 1 q); [done |]. change (dq_depth q) with d.
  apply wp_bind, (wp_alloc _ (2 + (Z.to_nat (d - 1) + S n)) _ h1); [done | unfold CMD_SIZE; lia |].
  intros sq h2 Hs1 Hs2 Hs3 Hsf2 G2 D2 R2 Hin2 _. apply wp_bind.
  assert (queue_at h2 1 = Some q) as Q2 by (unfold queue_at; by rewrite D2).
  eapply (wp_put_queue 1 _ q); [done |]. set (h3 := upd_queue 1 _ h2).
  apply wp_bind, (wp_alloc _ (1 + (Z.to_nat (d - 1) + S n)) _ h3); [done | unfold CQE_SIZE; lia |].
  intros cq h4 Hc1 Hc2 Hc3 Hfree G4 D4 R4 Hin4 Hz. apply Hfree in Hin2 as Hap. apply wp_bind.
  assert (queue_at h4 1 = Some (with_sq sq q)) as Q4
    by (rewrite (queue_at_dev h3) by done; unfold h3; by rewrite queue_at_upd, Q2).
  eapply (wp_put_queue 1 _ (with_sq sq q)); [done |]. set (h5 := upd_queue 1 _ h4).
  assert (grown h h2) as G02 by (eapply grown_trans; [apply grown_dev | exact G2]).
  assert (grown h h5) as G.
  { eapply grown_trans; [exact G02 |]. eapply (grown_trans _ h3); [apply grown_dev |].
    eapply grown_trans; [exact G4 | apply grown_dev]. }
  assert (queue_at h5 0 = queue_at h 0) as Q0.
  { unfold h5. rewrite queue_at_upd_ne, (queue_at_dev h3) by done.
    unfold h3. rewrite queue_at_upd_ne, (queue_at_dev h1) by done.
    unfold h1. by rewrite queue_at_upd_ne. }
  eapply wp_mono; [apply (wp_io_requests sc _ n h5 q0 k (with_cq cq (with_sq sq q))); try done |].
  - by eapply admin_synced_grown.
  - by apply (rings_held_grown h).
  - destruct Hh0 as [Hh1 Hh2]. apply (gr_held _ _ G02) in Hh1 as Hh1', Hh2 as Hh2'.
    apply Hsf2 in Hh2 as Hx1. apply Hfree in Hh1' as Hx2, Hh2' as Hx3.
    constructor; try done; unfold outside, sq_region, cq_region; rewrite ?Forall_cons.
    + unfold h5. by rewrite queue_at_upd, Q4.
    + split; [by apply (gr_held _ _ G4) | done].
    + by apply (fresh_rings q sq cq).
    + cbn. fold d. split_and!; [lia | lia | done].
    + cbn. fold d. split_and!; [lia | lia | done].
  - change (Z.of_nat (Z.to_nat (d - 1)) = d - 1). lia.
  - by rewrite (gr_inflight _ _ G).
  - by rewrite (gr_mapped _ _ G).
  - intros ret h' [-> Hup]. split; [done |].
    eapply io_set_up_grown; [exact G | cbn; rewrite D4; cbn; rewrite D2; done | done].
Qed.

(** ** The disk *)
Lemma wp_register_block_device n h :
  room (3 + n) (h_kern h) →
  wp openflash_register_block_device (λ ret h', ret = 0 ∧ grown h h' ∧ h_bus h' = h_bus h ∧
    h_dev h' = with_disk (Some (disk_of (h_dev h)))
      (with_tag_set (u32 (of_queue_depth (h_dev h) - 1)) (h_dev h))) h.
Proof.
  intros Hr. unfold openflash_register_block_device. apply wp_bind, wp_put_dev.
  set (h0 := with_ofdev _ h).
  apply wp_bind, (wp_call _ (2 + n) _ h0); [done |]. intros h1 G1 D1 B1 R1. rewrite tag_set_ok.
  cbn [Z.eqb negb]. apply wp_bind, (wp_acquire _ (2 + n)); [done | done |]. intros h2 G2 D2 B2 R2.
  apply wp_bind, (wp_call _ (1 + n)); [done |]. intros h3 G3 D3 B3 R3. rewrite alloc_disk_ok.
  cbn [Z.eqb negb]. apply wp_bind, (wp_acquire _ (1 + n)); [done | done |]. intros h4 G4 D4 B4 R4.
  apply wp_bind, wp_put_dev. set (h5 := with_ofdev _ h4).
  apply wp_bind, (wp_call _ n _ h5); [done |]. intros h6 G6 D6 B6 R6. rewrite add_disk_ok.
  cbn [Z.eqb negb]. apply wp_ret. split; [done |]. split; [| split].
  - eapply (grown_trans _ h0); [apply grown_dev |]. eapply grown_trans; [exact G1 |].
    eapply grown_trans; [exact G2 |]. eapply grown_trans; [exact G3 |].
    eapply grown_trans; [exact G4 |]. eapply (grown_trans _ h5); [apply grown_dev | exact G6].
  - rewrite B6. cbn [h5 h_bus with_ofdev]. by rewrite B4, B3, B2, B1.
  - rewrite D6. cbn [h5 h_dev with_ofdev]. by rewrite D4, D3, D2, D1.
Qed.

(** ** The whole probe *)

(** The host after a successful probe of the device of [w]. *)
Record probe_done w h' : Prop := {
  pd_synced : ∃ q q0, synced h' q 0 [] ∧ dq_depth q ≤ 1024 ∧ admin_rings h' q0 q;
  pd_capacity : of_capacity_blocks (h_dev h') = s_capacity (m_dev w) / OF_BLOCK_SIZE;
  pd_disk : of_disk (h_dev h') = Some (disk_of (h_dev h'));
  pd_queues : of_nr_queues (h_dev h') = 2;
  pd_reset : of_reset_pending (h_dev h') = 0;
  pd_storage : s_storage (m_dev (h_bus h')) = s_storage (m_dev w);
  pd_backing : s_backing_file (m_dev (h_bus h')) = s_backing_file (m_dev w);
  pd_files : m_files (h_bus h') = m_files w;
}.

Lemma wp_probe_queues sc1 sc2 h :
  of_queue_depth (h_dev h) = 128 → dev_wf (m_dev (h_bus h)) →
  s_queues (m_dev (h_bus h)) = reset_queues → k_inflight (h_kern h) = [] →
  k_mapped (h_kern h) = [] → room 139 (h_kern h) →
  (0 < sc_fuel sc1)%nat → (0 < sc_irqs sc1)%nat → (0 < sc_fuel sc2)%nat → (0 < sc_irqs sc2)%nat →
  wp openflash_setup_admin_queue (λ ret h1, ret = 0 ∧
    wp (openflash_admin_identify sc1) (λ ret h2, ret = 0 ∧
      wp (openflash_setup_io_queue sc2) (λ ret h', ret = 0 ∧ room 3 (h_kern h') ∧
        (∃ q q0, synced h' q 0 [] ∧ dq_depth q ≤ 1024 ∧ admin_rings h' q0 q) ∧
        with_queues None (h_dev h') = with_nr_queues 2 (with_capacity
          (s_capacity (m_dev (h_bus h)) / OF_BLOCK_SIZE) (with_queues None (h_dev h))) ∧
        s_storage (m_dev (h_bus h')) = s_storage (m_dev (h_bus h)) ∧
        s_backing_file (m_dev (h_bus h')) = s_backing_file (m_dev (h_bus h)) ∧
        m_files (h_bus h') = m_files (h_bus h)) h2) h1) h.
Proof.
  intros Hd Hwf Hrq Hin Hma Hr Hf1 Hi1 Hf2 Hi2.
  eapply wp_mono; [apply (wp_setup_admin_queue 134 h); [rewrite Hd; lia | done..] |].
  intros ret h1 (-> & q0 & [Hs1 Hh1 Hq1 Hr1 Hd1 Hst1 Hbf1 Hcap1 Hfs1 Hin1 Hma1] & Hdep).
  split; [done |].
  eapply wp_mono; [by apply (identify_served sc1 h1 q0 0) |].
  intros ret h2 (-> & w1 & h1' & q0' & Hw1 & Hwf1 & Haa & ->). split; [done |].
  destruct (aa_only _ _ _ _ _ _ Haa) as [Hk2 Hio2 Hdev2].
  pose proof (aa_shape _ _ _ _ _ _ Haa) as E. injection E as E1 E2 E3.
  set (cap := s_capacity (m_dev (h_bus h1)) / OF_BLOCK_SIZE). set (h2 := with_ofdev _ h1').
  assert (rings_held h1' q0') as Hh2 by (unfold rings_held; by rewrite Hk2, E1, E2, E3).
  assert (of_queue_depth (h_dev h2) = 128) as Hd2.
  { apply (f_equal of_queue_depth) in Hdev2, Hd1. cbn in Hdev2, Hd1 |- *. by rewrite Hdev2, Hd1. }
  eapply wp_mono; [apply (wp_setup_io_queue sc2 3 h2 q0' 1); rewrite ?Hd2; try done |].
  - apply (admin_synced_grown h1'); [apply grown_dev | done | done | apply Haa].
  - lia.
  - change (queue_at h1' 1 = Some dq_zero). by rewrite Hio2.
  - cbn. by rewrite Hk2, Hin1.
  - cbn. by rewrite Hk2, Hma1.
  - cbn. by rewrite Hk2.
  - intros ret h' (-> & [(q & Hs & Hdq & q1 & Har) Hr' Hdev Hst Hbf Hfs]). split; [done |].
    split_and!; [done | by exists q, q1 | | ..].
    + rewrite Hdev. change (with_queues None (h_dev h2)) with
        (with_capacity cap (with_queues None (h_dev h1'))).
      unfold cap. by rewrite Hdev2, Hd1, Hcap1.
    + rewrite Hst. cbn. by rewrite (aa_storage _ _ _ _ _ _ Haa), Hw1.
    + rewrite Hbf. cbn. by rewrite (aa_backing _ _ _ _ _ _ Haa), Hw1.
    + rewrite Hfs. cbn. by rewrite (aa_files _ _ _ _ _ _ Haa), Hwf1.
Qed.

Lemma wp_probe sc1 sc2 h :
  dev_wf (m_dev (h_bus h)) → s_queues (m_dev (h_bus h)) = reset_queues →
  k_inflight (h_kern h) = [] → k_mapped (h_kern h) = [] → room 143 (h_kern h) →
  (0 < sc_fuel sc1)%nat → (0 < sc_irqs sc1)%nat → (0 < sc_fuel sc2)%nat → (0 < sc_irqs sc2)%nat →
  wp (openflash_probe sc1 sc2) (λ ret h', ret = 0 ∧ probe_done (h_bus h) h') h.
Proof.
  intros Hwf Hrq Hin Hma Hr Hf1 Hi1 Hf2 Hi2. unfold openflash_probe.
  apply wp_bind, (wp_call _ 142); [done |]. intros h1 G1 D1 B1 R1. rewrite enable_ok.
  cbn [Z.eqb negb]. apply wp_bind, (wp_call _ 141); [done |]. intros h2 G2 D2 B2 R2.
  rewrite dma_mask_ok. cbn [Z.eqb negb]. apply wp_bind, (wp_call _ 140); [done |].
  intros h3 G3 D3 B3 R3. rewrite iomap_ok. cbn [Z.eqb negb].
  apply wp_bind, (wp_call _ 139); [done |]. intros h4 G4 D4 B4 R4. rewrite devm_kcalloc_ok.
  cbn [negb]. apply wp_bind. eexists _, _. split; [reflexivity |].
  apply wp_bind, wp_put_dev. set (h5 := with_ofdev _ h4).
  apply wp_bind. eapply (wp_readl _ OF_ABI_VERSION); [done |].
  change (negb (u32 OF_ABI_VERSION =? OPENFLASH_ABI_VERSION)) with false. cbv iota.
  apply wp_bind, (wp_acquire _ 139 _ h5); [done | done |]. intros h6 G6 D6 B6 R6.
  assert (h_bus h6 = h_bus h) as B by (rewrite B6; cbn [h5 h_bus with_ofdev]; congruence).
  pose proof (grown_trans _ _ _ G1 (grown_trans _ _ _ G2 (grown_trans _ _ _ G3 G4))) as G.
  apply wp_bind. eapply wp_mono; [apply (wp_probe_queues sc1 sc2 h6); rewrite ?B, ?D6; try done |].
  { rewrite (gr_inflight _ _ G6). cbn. by rewrite (gr_inflight _ _ G). }
  { rewrite (gr_mapped _ _ G6). cbn. by rewrite (gr_mapped _ _ G). }
  intros ret h7 [-> Hid]. cbn [Z.eqb negb]. apply wp_bind. eapply wp_mono; [exact Hid |].
  intros ret' h8 [-> Hio]. cbn [Z.eqb negb]. apply wp_bind. eapply wp_mono; [exact Hio |].
  intros ret'' h9 (-> & R9 & (q & q0 & Hs & Hdep & Har) & Hdev & Hst & Hbf & Hfs).
  cbn [Z.eqb negb]. apply wp_bind. eapply wp_mono; [by apply (wp_register_block_device 0) |].
  intros ret''' h' (-> & G' & B' & D'). cbn [Z.eqb negb]. apply wp_ret. split; [done |].
  rewrite B in Hdev, Hst, Hbf, Hfs. rewrite D6 in Hdev.
  constructor; rewrite ?B'; try done.
  - exists q, q0. split_and!; [| done |].
    + apply (synced_local h9); [by rewrite D' | done | apply G' | apply G' | done].
    + apply (admin_rings_same h9 h' q0 q q); [unfold queue_at; by rewrite D' | done | done].
  - rewrite D'. apply (f_equal of_capacity_blocks) in Hdev. exact Hdev.
  - by rewrite D'.
  - rewrite D'. apply (f_equal of_nr_queues) in Hdev. exact Hdev.
  - rewrite D'. apply (f_equal of_reset_pending) in Hdev. exact Hdev.
Qed.
End Probe.
