(* ===== verification/SystemRun.v ===== *)
(** * The composed system serves requests

    Submission of a valid request on a host in step: it is accepted, the device
    answers it as the block device specification says, and the host is in step
    again with one more completion to consume. *)
From S2P Require Import Prelude Packed Environment Rings Abi Blocks QemuDevice DeviceSafety.
From S2P Require Import DeviceQueue DeviceData DeviceRegisters BlockSpec AbiBridge.
From S2P Require Import DriverState DriverQueue DriverCore DriverLogic DriverSafety DriverSubmit.
From S2P Require Import System SystemSync SystemSubmit.

Section Run.
Context {M F : Type} `{GM : GuestMemory M, !GuestMemoryLaws M}.
Context `{HF : HostFiles F, !HostFilesLaws F}.
Context `{KS : KernelServices, !KernelLaws, !DirectMapping}.
Implicit Types (w : machine M F) (h : host (machine M F)) (q : openflash_queue).
Implicit Types (rq : DriverState.request) (p : list (DriverState.request * Z)).

(** ** What of a queue does not change while it is used *)
Lemma shape_regions q q' : shape q' = shape q → shared_regions q' = shared_regions q.
Proof.
  intros E. injection E as Hs Hc Hd Hl. unfold shared_regions, sq_region, cq_region.
  rewrite Hs, Hc, Hd. do 2 f_equal. unfold sgl_region.
  change (λ r, (r_sgl_dma r, SGL_SIZE)) with ((λ a, (a, SGL_SIZE)) ∘ r_sgl_dma).
  by rewrite !list_fmap_compose, Hl.
Qed.

Lemma published_shape q rq m dir r :
  dq_requests q !! rq_tag rq = Some r → shape (published q rq m dir r) = shape q.
Proof.
  intros Hr. unfold shape. cbn. f_equal. rewrite list_fmap_insert.
  apply list_insert_id. by rewrite list_lookup_fmap, Hr.
Qed.

(** Ownership while memory changes outside the descriptor lists. *)
Lemma owned_changes h q regions w' :
  owned h q → changes regions (h_bus h) w' →
  (∀ i r, dq_requests q !! i = Some r →
     is_ram (r_sgl_dma r) SGL_SIZE ∧ outside regions (r_sgl_dma r) SGL_SIZE) →
  owned (with_bus w' h) q.
Proof.
  intros Ho Hc Hout. pose proof (ow_nr _ _ Ho) as Hnr.
  destruct Ho as [? ? ? ? ? ? Hm]. constructor; try done. cbn. rewrite Hm.
  apply reflexive_eq, bind_ext_elem. intros r (i & Hi)%list_elem_of_lookup.
  destruct (Hout i r Hi) as [Hram Ho].
  pose proof (Forall_lookup_1 _ _ _ _ Hnr Hi) as Hn. cbv beta in Hn.
  unfold slot_mappings. destruct (r_rq r); [| done].
  apply list_fmap_ext. intros j x Hx. apply lookup_seq in Hx as [-> Hx].
  rewrite !sgl_mapping_desc, (changes_sgl _ _ _ _ _ Hc); [done | done | done | lia].
Qed.

(** The regions a request changes leave the other descriptor lists alone. *)
Lemma landing_outside h q rq r a n :
  valid_request h q rq r → (a, n) ∈ shared_regions q → outside (landing rq) a n.
Proof.
  intros Hv Hin. unfold landing. destruct (rq_opf rq); try constructor.
  eapply Forall_impl; [apply (vr_buffers _ _ _ _ Hv) |]. intros s (_ & _ & Ho).
  apply (proj1 (Forall_forall _ _) Ho) in Hin. cbn in Hin. lia.
Qed.

Lemma outside_app r1 r2 a n : outside r1 a n → outside r2 a n → outside (r1 ++ r2) a n.
Proof. intros. by apply Forall_app. Qed.

Lemma list_in_regions q i r :
  dq_requests q !! i = Some r → sgl_region r ∈ shared_regions q.
Proof.
  intros Hi. unfold shared_regions. do 2 right.
  apply list_elem_of_fmap_2. by eapply list_elem_of_lookup_2.
Qed.

(** Completion slot [j] lies outside what the submission and the reply change. *)
Lemma entry_outside h q rq r j :
  valid_request h q rq r → shared_layout (M := M) (F := F) q → 0 < dq_depth q →
  outside ([sgl_region r; sq_region q] ++ landing rq)
    (dq_cq_dma q + j `mod` dq_depth q * CQE_SIZE) CQE_SIZE.
Proof.
  intros Hv Hl Hd. pose proof (Z.mod_pos_bound j (dq_depth q) Hd) as Hm.
  apply outside_app; (eapply outside_sub;
    [| instantiate (1 := dq_cq_dma q); unfold CQE_SIZE; lia
     | instantiate (1 := dq_depth q * CQE_SIZE); unfold CQE_SIZE; lia]).
  - pose proof (rl_apart _ (sl_rings _ Hl)) as Hs.
    pose proof (sl_cq_sgl _ Hl _ _ (vr_slot _ _ _ _ Hv)) as Hg.
    unfold outside in *. rewrite Forall_singleton in Hs, Hg.
    apply Forall_cons. split; [| by apply Forall_singleton].
    unfold sgl_region, cq_region in *. cbn in *. lia.
  - eapply landing_outside; [done |]. right. apply list_elem_of_here.
Qed.

(** ** From the doorbell to the completion *)
Section Served.
Context (h hb : host (machine M F)) (q : openflash_queue) (rq : DriverState.request).
Context (r : openflash_request) (k code : Z) (dir : dma_data_direction).
Context (dd : option dma_data_direction) (p : list (DriverState.request * Z)).
Context (dq : OpenFlashQueue).
Hypothesis Hs : synced h q k p.
Hypothesis Hv : valid_request h q rq r.
Hypothesis Hop : opcode_of (rq_opf rq) = Some (code, dd).
Hypothesis Hp : prepared h q rq code (length (segments rq)) dir r hb.
Hypothesis Hdq : device_queue (h_bus h) q (k + len p) dq.

Let cmd : OpenFlashCommand := sent q rq code (length (segments rq)) (r_sgl_dma r).

Lemma segments_count : Z.of_nat (length (segments rq)) ≤ OPENFLASH_MAX_SGL_ENTRIES.
Proof.
  pose proof (vr_count _ _ _ _ Hv). unfold segments.
  destruct (rq_opf rq); cbn [opcode_of]; try done.
Qed.

Lemma prepared_device :
  m_dev (h_bus hb) = m_dev (h_bus h) ∧ m_files (h_bus hb) = m_files (h_bus h).
Proof. destruct (stored_machine _ _ (pp_stored _ _ _ _ _ _ _ _ Hp)) as (? & ? & _). done. Qed.

(** The device fetches the command the driver published. *)
Lemma fetch_sent : fetch (h_bus hb) dq = cmd.
Proof.
  pose proof (sy_layout _ _ _ _ Hs) as Hl. pose proof (lay_tail _ (sl_io _ Hl)) as Ht.
  destruct (rl_sq_bus _ (sl_rings _ Hl)) as [? ?]. unfold CMD_SIZE in *.
  unfold fetch. rewrite (dl_sq _ _ _ _ Hdq), (dl_head _ _ _ _ Hdq), u64_small by lia.
  pose proof (pp_command _ _ _ _ _ _ _ _ Hp) as Hc. cbn in Hc.
  change (dma_read (m_mem (h_bus hb)) (dq_sq_dma q + dq_sq_tail q * 64) 64 =
    encode_command (final_command q rq code (length (segments rq)) (r_sgl_dma r))) in Hc.
  rewrite Hc. apply command_crosses. destruct (sl_lists _ Hl _ _ (vr_slot _ _ _ _ Hv)).
  unfold SGL_SIZE, SGL_DESC_SIZE in *. change OPENFLASH_MAX_SGL_ENTRIES with 16 in *.
  eapply sent_fits; [done | apply Hs | by eapply opcode_small | apply segments_count | lia].
Qed.

Lemma sent_not_create : c_opcode cmd ≠ OF_ADMIN_CREATE_IOQ.
Proof.
  destruct (sent_fields q rq code (length (segments rq)) (r_sgl_dma r)) as (Hc & _).
  fold cmd in Hc. rewrite Hc. destruct (rq_opf rq); cbn in Hop; by simplify_eq.
Qed.

Context (status result : Z) (w1 : machine M F).
Hypothesis He : openflash_execute (h_bus hb) cmd = Done (status, result, w1).
Hypothesis Hland : changes (landing rq) (h_bus hb) w1.

Let w' : machine M F := post 1 dq cmd status result w1.
Let w'' : machine M F :=
  if m_msix_enabled (h_bus hb) then msix_notify (q_vector dq) w' else w'.

Lemma notified_same : m_dev w'' = m_dev w' ∧ m_mem w'' = m_mem w' ∧ m_files w'' = m_files w'.
Proof. unfold w''. by destruct (m_msix_enabled _). Qed.

Lemma doorbell_served :
  ring_io_doorbell hb ((dq_sq_tail q + 1) `mod` dq_depth q) =
    Done (BLK_STS_OK, with_bus w'' hb) ∧
  s_queues (m_dev w'') !! 1%nat = Some (advance dq) ∧ dev_wf (m_dev w'') ∧
  s_status (m_dev w'') = s_status (m_dev (h_bus h)).
Proof.
  destruct prepared_device as [Hdev _]. pose proof (sy_owned _ _ _ _ Hs) as Ho.
  pose proof (sy_layout _ _ _ _ Hs) as Hl. pose proof (lay_tail _ (sl_io _ Hl)) as Ht.
  pose proof (valid_tag _ _ _ _ Ho Hv) as Htag.
  pose proof (Z.mod_pos_bound (dq_sq_tail q + 1) (dq_depth q)) as Hmod.
  pose proof (sy_wf _ _ _ _ Hs) as Hwf. pose proof (dl_queue _ _ _ _ Hdq) as Hq.
  rewrite <- Hdev in Hwf, Hq. rewrite (sy_qid _ _ _ _ Hs) in Hq.
  edestruct (process_sq_one 4096 (h_bus hb) 1 dq status result w1) as (E & Hq1 & Hq2);
    [done | rewrite Hdev; apply Hs | done | exact Hq | apply Hdq | | | lia | | |].
  { rewrite (dl_head _ _ _ _ Hdq), (dl_depth _ _ _ _ Hdq). lia. }
  { rewrite (dl_depth _ _ _ _ Hdq). lia. }
  { right. rewrite fetch_sent. apply sent_not_create. }
  { by rewrite fetch_sent. }
  rewrite fetch_sent, (dl_head _ _ _ _ Hdq), (dl_depth _ _ _ _ Hdq) in E.
  rewrite fetch_sent in Hq2. change (Z.to_nat 1) with 1%nat in E, Hq2. fold w' in E, Hq2.
  assert (ctl_write (h_bus hb) (OPENFLASH_SQ_TAIL_DB 1)
    (u32 ((dq_sq_tail q + 1) `mod` dq_depth q)) = Done w'') as Ec.
  { cbn [ctl_write qemu_controller].
    change (OPENFLASH_SQ_TAIL_DB 1) with (OF_REG_DOORBELL_BASE + 1 * 8).
    rewrite sq_doorbell_eq by (auto; by rewrite Hq).
    rewrite (u32_small ((dq_sq_tail q + 1) `mod` dq_depth q)), u16_small by lia. exact E. }
  unfold ring_io_doorbell. rewrite Ec. destruct notified_same as (Hd & _ & _). rewrite Hd.
  split; [done |]. split; [done |].
  destruct (execute_safe (h_bus hb) cmd Hwf) as (? & ? & ? & He' & Hst & _);
    [rewrite <- fetch_sent; apply fetch_wf |].
  rewrite He in He'. injection He' as <- <- <-. split.
  - pose proof (ctl_ok_write (h_bus hb) (OPENFLASH_SQ_TAIL_DB 1)
      (u32 ((dq_sq_tail q + 1) `mod` dq_depth q)) Hwf (u32_range _)) as Hok.
    rewrite Ec in Hok. by rewrite <- Hd.
  - change (s_status (m_dev w')) with (s_status (m_dev w1)).
    by rewrite (es_status _ _ _ Hst), Hdev.
Qed.

Lemma completion_fits :
  fits completion_layout (completion_fields (completion_of cmd dq status result)).
Proof.
  destruct prepared_device as [Hdev _]. pose proof (sy_wf _ _ _ _ Hs) as Hwf.
  rewrite <- Hdev in Hwf. pose proof (dl_queue _ _ _ _ Hdq) as Hq.
  destruct (sent_fields q rq code (length (segments rq)) (r_sgl_dma r))
    as (_ & Hcid & Hud & _). fold cmd in Hcid, Hud.
  eapply completion_of_fits; [exact Hwf | by rewrite Hdev | apply Hdq | | | | exact He].
  - rewrite <- fetch_sent. apply fetch_wf.
  - rewrite Hcid. apply u16_range.
  - by rewrite Hud.
Qed.

Let slot : Z * Z :=
  (dq_cq_dma q + (k + len p) `mod` dq_depth q * CQE_SIZE, CQE_SIZE).
Let changed : list (Z * Z) := ([sgl_region r; sq_region q] ++ landing rq) ++ [slot].

Lemma served_memory :
  changes [slot] w1 w'' ∧ changes changed (h_bus h) w'' ∧
  cq_entry w'' q (k + len p) = driver_completion (completion_of cmd dq status result).
Proof.
  pose proof (ow_depth _ _ (sy_owned _ _ _ _ Hs)) as Hd.
  destruct notified_same as (_ & Hm & _).
  destruct (post_completion 1 w1 q (k + len p) dq cmd status result) as [Hc Hent];
    [apply Hs | lia | apply Hdq | apply Hdq | apply Hdq | apply completion_fits |].
  fold w' in Hc, Hent. fold slot in Hc.
  assert (changes [slot] w1 w'') as Hc'.
  { intros a n Ha Ho. etrans; [| by apply Hc]. cbn. by rewrite Hm. }
  split; [done |]. split.
  - eapply changes_trans_app; [| exact Hc'].
    eapply changes_trans_app; [apply (pp_memory _ _ _ _ _ _ _ _ Hp) | done].
  - rewrite <- Hent. unfold cq_entry. cbn. by rewrite Hm.
Qed.

Let q' : openflash_queue := published q rq (length (segments rq)) dir r.

(** Entries other than the new one are as they were. *)
Lemma served_entry j :
  j ≠ len p → 0 ≤ j < dq_depth q →
  cq_entry w'' q' (k + j) = cq_entry (h_bus h) q (k + j).
Proof.
  intros Hne Hj. destruct served_memory as (_ & Hc & _).
  pose proof (ow_depth _ _ (sy_owned _ _ _ _ Hs)) as Hd.
  destruct (synced_pending _ _ _ _ Hs) as (Hlen & _ & _).
  change (cq_entry w'' q' (k + j)) with (cq_entry w'' q (k + j)).
  eapply entry_kept; [exact Hc | apply Hs | lia |]. apply outside_app.
  - eapply entry_outside; [done | apply Hs | lia].
  - apply entry_apart; lia.
Qed.

Lemma served_lists i r' :
  dq_requests q' !! i = Some r' →
  is_ram (r_sgl_dma r') SGL_SIZE ∧ outside (landing rq ++ [slot]) (r_sgl_dma r') SGL_SIZE.
Proof.
  intros Hi. pose proof (sy_layout _ _ _ _ Hs) as Hl.
  pose proof (ow_depth _ _ (sy_owned _ _ _ _ Hs)) as Hd.
  pose proof (published_shape q rq (length (segments rq)) dir r (vr_slot _ _ _ _ Hv)) as Hsh.
  assert (∃ r0, dq_requests q !! i = Some r0 ∧ r_sgl_dma r' = r_sgl_dma r0)
    as (r0 & Hi0 & ->).
  { injection Hsh as Hls. apply (f_equal (lookup i)) in Hls.
    rewrite !list_lookup_fmap in Hls. unfold q' in Hi. cbn in Hi. rewrite Hi in Hls.
    cbn in Hls. destruct (dq_requests q !! i) as [r0 |]; [| done]. exists r0.
    cbn in Hls. split; [done |]. by injection Hls. }
  destruct (lay_sgl _ (sl_io _ Hl) _ _ Hi0) as [Hram _]. split; [done |].
  apply outside_app.
  - eapply landing_outside; [done |]. by eapply (list_in_regions q i r0).
  - pose proof (sl_cq_sgl _ Hl _ _ Hi0) as Ho. unfold outside in *.
    rewrite Forall_singleton in Ho |- *. unfold cq_region, slot, CQE_SIZE in *. cbn in *.
    pose proof (Z.mod_pos_bound (k + len p) (dq_depth q)). lia.
Qed.

Lemma served_synced : synced (with_bus w'' hb) q' k (p ++ [(rq, status)]).
Proof.
  destruct doorbell_served as (_ & Hq & Hwf & Hst). destruct served_memory as (Hc1 & Hc & Hent).
  pose proof Hs as [Ho Hl Hqid Hk _ Hr _ Hk0 Hents Hfree Hin].
  pose proof (ow_depth _ _ Ho) as Hd. destruct (synced_pending _ _ _ _ Hs) as (Hlen & _ & _).
  pose proof (valid_tag _ _ _ _ Ho Hv) as Htag. pose proof (lay_tail _ (sl_io _ Hl)) as Ht.
  pose proof (Z.mod_pos_bound (dq_sq_tail q + 1) (dq_depth q)) as Hmod.
  destruct (sent_fields q rq code (length (segments rq)) (r_sgl_dma r)) as (_ & Hcid & _).
  fold cmd in Hcid. pose proof (dl_posted _ _ _ _ Hdq) as (HK & Htl & Hph).
  constructor; cbn [h_bus h_kern with_bus]; rewrite ?length_app.
  - eapply owned_changes; [apply Hp | | apply served_lists].
    eapply changes_trans_app; [exact Hland | exact Hc1].
  - apply (shared_layout_same q); try done; [cbn; lia |].
    pose proof (published_shape q rq (length (segments rq)) dir r (vr_slot _ _ _ _ Hv)) as E.
    by injection E.
  - done.
  - done.
  - done.
  - by rewrite Hst.
  - pose proof (dl_depth _ _ _ _ Hdq) as Hdep. pose proof (dl_head _ _ _ _ Hdq) as Hhd.
    exists (advance dq). constructor; try done; try apply Hdq.
    + change (dq_qid q') with (dq_qid q). by rewrite Hqid.
    + cbn. by rewrite Hdep, Hhd.
    + cbn [length]. rewrite Nat2Z.inj_add, Z.add_assoc.
      apply posted_advance; [lia | apply Hdq].
  - done.
  - intros i x Hx. apply lookup_app_Some in Hx as [Hx | [Hge Hx]].
    + pose proof (lookup_lt_Some _ _ _ Hx) as Hlt. destruct (Hents _ _ Hx) as (Hn & ? & ?).
      unfold is_new in Hn |- *. rewrite served_entry by lia. done.
    + apply list_lookup_singleton_Some in Hx as [Hi <-].
      replace i with (length p) by lia. cbn [fst snd].
      unfold is_new. change (cq_entry w'' q' (k + len p)) with (cq_entry w'' q (k + len p)).
      rewrite Hent. cbn [driver_completion completion_of cqe_flags cqe_cid cqe_status e_flags
        e_cid e_status].
      split_and!; [| rewrite Hcid; apply u16_small; lia | done].
      rewrite Hph, (dl_depth _ _ _ _ Hdq). change (dq_depth q') with (dq_depth q).
      by destruct (phase_of_bit (dq_depth q) (k + len p)) as [-> | ->].
  - intros j Hj. cbn [length] in Hj. change (dq_depth q') with (dq_depth q) in Hj.
    intros Hn. apply (Hfree j); [lia |]. unfold is_new in *.
    rewrite served_entry in Hn by lia. exact Hn.
  - rewrite (pp_inflight _ _ _ _ _ _ _ _ Hp), Hin, fmap_app. cbn.
    apply Permutation_cons_append.
Qed.
End Served.

(** ** Submission *)
Lemma gather_changes regions w w' segs :
  changes regions w w' → Forall (λ s, is_ram s.1 s.2 ∧ outside regions s.1 s.2) segs →
  gather (m_mem w') segs = gather (m_mem w) segs.
Proof.
  intros Hc Hf. unfold gather. f_equal. apply list_fmap_ext. intros i s Hs.
  destruct (Forall_lookup_1 _ _ _ _ Hf Hs) as [Hr Ho]. by apply Hc.
Qed.

(** Data segments are not touched by changes to shared memory. *)
Lemma buffers_kept h q rq r regions w w' :
  valid_request h q rq r → changes regions w w' →
  (∀ a n, outside (shared_regions q) a n → outside regions a n) →
  gather (m_mem w') (segments_of rq) = gather (m_mem w) (segments_of rq).
Proof.
  intros Hv Hc Hsub. eapply gather_changes; [exact Hc |].
  eapply Forall_impl; [apply (vr_buffers _ _ _ _ Hv) |].
  intros s (_ & Hr & Ho). auto.
Qed.

Lemma outside_submission q i r a n :
  dq_requests q !! i = Some r → outside (shared_regions q) a n →
  outside [sgl_region r; sq_region q] a n.
Proof.
  intros Hi Ho. unfold outside in *. rewrite Forall_forall in Ho.
  apply Forall_cons. split; [apply Ho; by eapply list_in_regions |].
  apply Forall_singleton, Ho, list_elem_of_here.
Qed.

Lemma outside_slot q j a n :
  0 < dq_depth q → outside (shared_regions q) a n →
  outside [(dq_cq_dma q + j `mod` dq_depth q * CQE_SIZE, CQE_SIZE)] a n.
Proof.
  intros Hd Ho. unfold outside in *. rewrite Forall_forall in Ho.
  pose proof (Ho (cq_region q) ltac:(right; apply list_elem_of_here)) as Hc.
  pose proof (Z.mod_pos_bound j (dq_depth q) Hd). apply Forall_singleton.
  unfold cq_region, CQE_SIZE in *. cbn in *. lia.
Qed.

Lemma mapped_direct rq dir addrs bvs :
  Forall2 (mapped_at dir) addrs bvs → addrs = bus_addr <$> bvs.
Proof.
  induction 1 as [| a bv addrs bvs (k & E) _ ->]; [done |].
  rewrite dma_map_direct in E. cbn. by simplify_eq.
Qed.

(** A host after a request was served: in step, with its completion pending. *)
Record request_served h q k p rq (d : disk) (ok : bool) h' q' : Prop := {
  rs_synced : synced h' q' k
    (p ++ [(rq, r_status (spec_step ok (issued_request (m_mem (h_bus h)) rq) d).1)]);
  rs_disk : abs (h_bus h') (spec_step ok (issued_request (m_mem (h_bus h)) rq) d).2;
  rs_data :
    let data := r_data (spec_step ok (issued_request (m_mem (h_bus h)) rq) d).1 in
    data ≠ [] → gather (m_mem (h_bus h')) (segments_of rq) = concat data;
  rs_memory : changes (shared_regions q ++ landing rq) (h_bus h) (h_bus h');
  rs_ended : k_ended (h_kern h') = k_ended (h_kern h);
  rs_shape : shape q' = shape q;
  rs_admin : queue_at h' 0 = queue_at h 0;
  rs_dev : with_queues None (h_dev h') = with_queues None (h_dev h);
}.

Lemma queue_rq_synced h q k p rq r d :
  synced h q k p → valid_request h q rq r → abs (h_bus h) d →
  ∃ ok h' q', openflash_queue_rq rq h = Done (BLK_STS_OK, h') ∧
    request_served h q k p rq d ok h' q'.
Proof.
  intros Hs Hv Habs. pose proof (sy_owned _ _ _ _ Hs) as Ho.
  pose proof (sy_layout _ _ _ _ Hs) as Hl. pose proof (ow_depth _ _ Ho) as Hd.
  destruct (valid_accepted _ _ _ _ Ho Hv) as (_ & _ & Hacc).
  destruct (queue_rq_spec h q rq r) as [(st & h' & _ & _ & Href & _) | Hsub];
    [done | apply Hl | apply Hs | apply Hv | apply Hv | apply Hv | by eapply valid_lens | |].
  { by apply Hacc in Href. }
  destruct Hsub as (code & dir & addrs & hb & -> & _ & _ & (dd & Hop & _) & Hp & Ha & Hds).
  destruct (sy_device _ _ _ _ Hs) as [dq Hdq].
  destruct (prepared_device h hb q rq r code dir Hp) as [Hdev Hfs].
  assert (has_data (rq_opf rq) = true → descriptors (m_mem (h_bus hb)) (r_sgl_dma r) 0
    (length (rq_bvecs rq)) = segments_of rq) as Hdesc.
  { intros Hdata. assert (segments rq = rq_bvecs rq) as Hsg
      by (unfold segments; by destruct (rq_opf rq)).
    rewrite Hsg in Ha, Hds. destruct (sl_lists _ Hl _ _ (vr_slot _ _ _ _ Hv)).
    rewrite (descriptors_written _ _ addrs); [| lia | done | apply Hv | done |].
    - rewrite (mapped_direct rq dir _ _ Ha). unfold segments_of.
      by rewrite zip_with_fmap_l, zip_with_diag.
    - by apply Forall2_length in Ha. }
  assert (gather (m_mem (h_bus hb)) (segments_of rq) =
    gather (m_mem (h_bus h)) (segments_of rq)) as Hg.
  { eapply buffers_kept; [done | apply (pp_memory _ _ _ _ _ _ _ _ Hp) |].
    intros a n. eapply outside_submission, Hv. }
  destruct (sent_executes h q rq r code dd (h_bus hb) d) as (ok & w1 & He & Hw1 & Hland & Hdat);
    [done | done | apply Hs | done | done | | by rewrite Hdev; apply Hs |
     by eapply abs_same |].
  { rewrite <- (fetch_sent h hb q rq r k code dir dd p dq) by done. apply fetch_wf. }
  replace (issued_request (m_mem (h_bus hb)) rq) with (issued_request (m_mem (h_bus h)) rq) in *
    by (unfold issued_request, request_with; by rewrite Hg).
  set (rep := (spec_step ok (issued_request (m_mem (h_bus h)) rq) d).1) in *.
  edestruct (doorbell_served h hb q rq r k code dir dd p dq) as (E & _); [done.. |].
  edestruct (notified_same hb q rq r code dq) as (Hd'' & Hm'' & Hf'').
  edestruct (served_memory h hb q rq r k code dir dd p dq) as (Hc1 & Hc & _); [done.. |].
  pose proof (served_synced h hb q rq r k code dir dd p dq Hs Hv Hop Hp Hdq _ _ _ He Hland)
    as Hsy.
  exists ok. eexists _, _. split; [exact E |]. constructor.
  - exact Hsy.
  - eapply abs_ext; [exact Hw1 | ..]; cbn [h_bus with_bus]; by rewrite ?Hd'', ?Hf''.
  - intros data Hne. etrans; [| exact (Hdat Hne)]. eapply buffers_kept; [done | exact Hc1 |].
    intros a n. apply outside_slot. lia.
  - intros a n Hram Hout. apply Forall_app in Hout as [Hsh Hla]. apply Hc; [done |].
    apply outside_app; [apply outside_app; [| done] |].
    + eapply outside_submission, Hsh. apply Hv.
    + apply outside_slot; [lia | done].
  - apply Hp.
  - apply published_shape, Hv.
  - exact (pp_admin _ _ _ _ _ _ _ _ Hp).
  - apply Hp.
Qed.

(** ** One request from submission to completion *)

(** A request stays valid while its tag is free. *)
Lemma valid_transfer h q h' q' rq r :
  valid_request h q rq r → shape q' = shape q → owned h' q' →
  with_queues None (h_dev h') = with_queues None (h_dev h) →
  Forall (λ x, rq_tag x ≠ rq_tag rq) (k_inflight (h_kern h')) →
  ∃ r', valid_request h' q' rq r'.
Proof.
  intros Hv Hsh Ho Hdev Hfree. pose proof (shape_regions _ _ Hsh) as Hreg.
  injection Hsh as _ _ _ Hls. apply (f_equal (lookup (rq_tag rq))) in Hls.
  rewrite !list_lookup_fmap, (vr_slot _ _ _ _ Hv) in Hls.
  destruct (dq_requests q' !! rq_tag rq) as [r' |] eqn:Hr'; [| done].
  assert (r_rq r' = None) as Hn.
  { destruct (r_rq r') as [x |] eqn:Hx; [| done]. exfalso.
    apply (proj1 (Forall_forall _ _) Hfree x); [| by apply (ow_tags _ _ Ho _ r')].
    rewrite (ow_inflight _ _ Ho). apply list_elem_of_omap. exists r'.
    split; [by eapply list_elem_of_lookup_2 | done]. }
  apply (f_equal of_capabilities) in Hdev. cbn in Hdev.
  exists r'. destruct Hv. constructor; try done.
  - by rewrite Hdev.
  - eapply Forall_impl; [eassumption |]. intros seg. unfold buffer. by rewrite Hreg.
Qed.

Definition do_request (fuel : nat) rq : drv (machine M F) blk_status_t :=
  st ← openflash_queue_rq rq; _ ← openflash_io_irq fuel; mret st.

(** An idle host in step after [rq] was ended, answered by the disk [d] as the
    request [a] to it. *)
Record answered h q rq (a : BlockSpec.request) (d : disk) (ok : bool) h' q' : Prop := {
  an_synced : ∃ k, synced h' q' k [];
  an_disk : abs (h_bus h') (spec_step ok a d).2;
  an_ended : k_ended (h_kern h') = k_ended (h_kern h) ++
    [(rq, openflash_blk_status (r_status (spec_step ok a d).1))];
  an_data : let data := r_data (spec_step ok a d).1 in
    data ≠ [] → gather (m_mem (h_bus h')) (segments_of rq) = concat data;
  an_memory : changes (shared_regions q ++ landing rq) (h_bus h) (h_bus h');
  an_shape : shape q' = shape q;
  an_dev : with_queues None (h_dev h') = with_queues None (h_dev h);
}.

Lemma do_request_answered fuel h q k rq r d :
  synced h q k [] → valid_request h q rq r → abs (h_bus h) d →
  (Z.to_nat (dq_depth q) ≤ fuel)%nat →
  ∃ ok h' q', do_request fuel rq h = Done (BLK_STS_OK, h') ∧
    answered h q rq (issued_request (m_mem (h_bus h)) rq) d ok h' q'.
Proof.
  intros Hs Hv Ha Hf.
  destruct (queue_rq_synced h q k [] rq r d) as (ok & h1 & q1 & E1 & [Hs1 Hd1 Hdat Hm He Hsh _ Hdev]);
    [done.. |].
  pose proof Hsh as Hsh'. injection Hsh' as _ _ Hdep _.
  edestruct (io_irq_synced fuel h1 q1) as (h2 & q2 & E2 & Hs2 & He2 & Hsh2 & Hq0 & Hdev2 & Hm2 & Hfs
    & Hst & Hbf); [exact Hs1 | by rewrite Hdep |].
  exists ok, h2, q2. unfold do_request. erewrite bind_done by exact E1.
  erewrite bind_done by exact E2. split; [done |]. constructor.
  - by eexists.
  - by eapply abs_ext.
  - by rewrite He2, He.
  - intros data Hne. rewrite Hm2. by apply Hdat.
  - intros a n Hr Ho. cbn. rewrite Hm2. by apply Hm.
  - by rewrite Hsh2.
  - by rewrite Hdev2.
Qed.

(** ** A write and a read of the same blocks *)
Lemma blk_status_ok status :
  openflash_blk_status status = BLK_STS_OK → status = OF_SC_SUCCESS.
Proof. unfold openflash_blk_status. by repeat case_split; bprop. Qed.

(** The data of a valid write is a whole, positive number of blocks. *)
Lemma write_data_blocks h q rq r (m : M) :
  valid_request h q rq r → has_data (rq_opf rq) = true →
  let n := rq_bytes rq / OPENFLASH_BLOCK_SIZE in
  let data := gather m (segments_of rq) in
  n ≠ 0 ∧ length data = (Z.to_nat n * bs)%nat ∧ len (to_blocks bs data) = n.
Proof.
  intros Hv Hdata n data. destruct (sent_range _ _ _ _ Hv) as [_ Hwhole]. fold n in Hwhole.
  destruct (vr_total _ _ _ _ Hv Hdata) as [Hne Htot].
  assert (len data = rq_bytes rq) as Hlen.
  { unfold data. rewrite length_gather, Htot; [done |].
    eapply Forall_impl; [apply (vr_buffers _ _ _ _ Hv) |]. intros s ((_ & ?) & _). lia. }
  assert (0 ≤ n) as Hn
    by (apply Z.div_pos; [destruct (vr_bytes _ _ _ _ Hv); lia | done]).
  assert (length data = (Z.to_nat n * bs)%nat) as Hdl by (rewrite <- bs_Z, Hwhole by done; lia).
  split; [unfold OF_BLOCK_SIZE in Hwhole; lia |]. split; [done |].
  rewrite (length_to_blocks _ bs_pos _ (Z.to_nat n) Hdl). lia.
Qed.

Lemma spec_write_then_read ok ok' h q rw r d (m m' : M) rr :
  valid_request h q rw r → rq_opf rw = REQ_OP_WRITE → rq_opf rr = REQ_OP_READ →
  rq_pos rr = rq_pos rw → rq_bytes rr = rq_bytes rw →
  r_status (spec_step ok (issued_request m rw) d).1 = OF_SC_SUCCESS →
  let rep := (spec_step ok' (issued_request m' rr) (spec_step ok (issued_request m rw) d).2).1 in
  r_status rep = OF_SC_SUCCESS ∧ r_data rep ≠ [] ∧
  concat (r_data rep) = gather m (segments_of rw).
Proof.
  intros Hv Hopw Hopr Hpos Hbytes Hst. destruct (sent_range _ _ _ _ Hv) as [[Hlba _] _].
  destruct (write_data_blocks h q rw r m Hv) as (Hn0 & Hdl & Hn); [by rewrite Hopw |].
  unfold issued_request, request_with in Hst |- *. rewrite Hopw in Hst |- *. rewrite Hopr, Hpos, Hbytes.
  apply spec_write_success in Hst as [Hin Hb].
  pose proof (spec_read_written ok' d _ _ _ Hlba Hin Hb) as Hrd. rewrite Hn in Hrd.
  rewrite Hrd. cbn [fst r_status r_data success]. split; [done |].
  split; [| by apply (concat_to_blocks _ bs_pos _ _ Hdl)].
  intros E. apply Hn0. rewrite <- Hn, E. done.
Qed.

(** ** A FUA write *)

(** The command that is sent stores the blocks and saves nothing. *)
Lemma fua_lost ok m rq d :
  rq_opf rq = REQ_OP_WRITE →
  let d' := (spec_step ok (issued_request m rq) d).2 in
  image d' = image d ∧ blocks d' = blocks (spec_step true (spec_request m rq) d).2 ∧
  (spec_step ok (issued_request m rq) d).1 = (spec_step true (request_with false m rq) d).1.
Proof.
  intros Hop. unfold issued_request, spec_request, request_with. rewrite Hop. cbn [spec_step].
  set (data := to_blocks _ _). destruct (in_range d _ (len data)); [done |].
  destruct (rq_fua rq); [| done]. split; [done |]. split; [| done].
  pose proof (save_blocks true (write_blocks (rq_pos rq / OPENFLASH_SECTORS_PER_BLOCK) data d))
    as Hb. destruct (save true _) as [saved d2]. done.
Qed.

(** ** Batches *)
Fixpoint submit_all (rqs : list DriverState.request)
    : drv (machine M F) (list blk_status_t) :=
  match rqs with
  | [] => mret []
  | rq :: rqs =>
      st ← openflash_queue_rq rq; sts ← submit_all rqs; mret (st :: sts)
  end.

(** The disk answers requests in order, their data as it is in memory [m]. *)
Inductive disk_run (m : M) : disk → list (DriverState.request * Z) → disk → Prop :=
| disk_run_nil d : disk_run m d [] d
| disk_run_cons d rq ok l d' :
    disk_run m (spec_step ok (spec_request m rq) d).2 l d' →
    disk_run m d ((rq, r_status (spec_step ok (spec_request m rq) d).1) :: l) d'.

(** No read of the batch lands in the data of a later request. *)
Fixpoint undisturbed (rqs : list DriverState.request) : Prop :=
  match rqs with
  | [] => True
  | rq :: rqs =>
      Forall (λ rq', Forall (λ s, outside (landing rq) s.1 s.2) (segments_of rq')) rqs ∧
      undisturbed rqs
  end.

Lemma disk_run_memory m m' d l d' :
  Forall (λ x, gather m' (segments_of x.1) = gather m (segments_of x.1)) l →
  disk_run m' d l d' → disk_run m d l d'.
Proof.
  intros Hf Hr. induction Hr as [| d rq ok l d' Hr IH]; [constructor |].
  apply Forall_cons in Hf as [Hg Hf]. cbn [fst] in Hg.
  assert (spec_request m' rq = spec_request m rq) as E
    by (unfold spec_request, request_with; by rewrite Hg).
  rewrite E in *. constructor. by apply IH.
Qed.

Lemma submit_all_served rqs h q k p d :
  synced h q k p → abs (h_bus h) d → NoDup (rq_tag <$> rqs) → undisturbed rqs →
  Forall (λ rq, ∃ r, valid_request h q rq r) rqs → Forall (λ rq, rq_fua rq = false) rqs →
  ∃ sts h' q' d',
    submit_all rqs h = Done (replicate (length rqs) BLK_STS_OK, h') ∧
    length sts = length rqs ∧ synced h' q' k (p ++ zip rqs sts) ∧
    disk_run (m_mem (h_bus h)) d (zip rqs sts) d' ∧ abs (h_bus h') d' ∧
    k_ended (h_kern h') = k_ended (h_kern h) ∧ shape q' = shape q.
Proof.
  revert h q p d. induction rqs as [| rq rqs IH]; intros h q p d Hs Ha Hnd Hun Hval Hpl.
  { exists [], h, q, d. cbn. rewrite app_nil_r. split_and!; try done. constructor. }
  apply Forall_cons in Hval as [[r Hv] Hval]. cbn in Hnd. apply NoDup_cons in Hnd as [Hni Hnd].
  destruct Hun as [Hun Hun']. apply Forall_cons in Hpl as [Hp Hpl].
  destruct (queue_rq_synced h q k p rq r d) as (ok & h1 & q1 & E1 & [Hs1 Hd1 _ Hm He Hsh _ Hdev]);
    [done.. |].
  rewrite issued_plain in Hs1, Hd1 by done.
  assert (Forall (λ rq', ∃ r', valid_request h1 q1 rq' r') rqs) as Hval1.
  { apply Forall_forall. intros rq' Hin.
    destruct (proj1 (Forall_forall _ _) Hval _ Hin) as [r' Hv'].
    eapply valid_transfer; [exact Hv' | done | apply Hs1 | done |].
    rewrite (sy_inflight _ _ _ _ Hs1), fmap_app, Forall_app. split.
    - rewrite <- (sy_inflight _ _ _ _ Hs). apply Forall_forall. intros x Hx E.
      destruct (inflight_slot h q x (sy_owned _ _ _ _ Hs) Hx) as [Hx' _].
      rewrite E in Hx'. unfold held in Hx'. rewrite list_lookup_fmap, (vr_slot _ _ _ _ Hv') in Hx'.
      cbn in Hx'. by rewrite (vr_free _ _ _ _ Hv') in Hx'.
    - apply Forall_singleton. cbn. intros E. apply Hni. rewrite E.
      by apply list_elem_of_fmap_2. }
  destruct (IH h1 q1 _ _ Hs1 Hd1 Hnd Hun' Hval1 Hpl) as (sts & h' & q' & d' & E2 & Hlen & Hs' & Hrun & Ha' & He' & Hsh').
  eexists (_ :: sts), h', q', d'. cbn [submit_all zip zip_with length replicate].
  erewrite bind_done by exact E1. erewrite bind_done by exact E2.
  split_and!; [done | by rewrite Hlen | by rewrite <- app_assoc in Hs' | | done |
    by rewrite He' | by rewrite Hsh'].
  constructor. eapply disk_run_memory; [| exact Hrun].
  apply Forall_forall. intros [rq' st'] Hin. cbn [fst].
  apply elem_of_zip_l in Hin.
  destruct (proj1 (Forall_forall _ _) Hval _ Hin) as [r' Hv'].
  eapply gather_changes; [exact Hm |].
  pose proof (proj1 (Forall_forall _ _) Hun _ Hin) as Hl.
  eapply Forall_impl; [apply Forall_and; split; [apply (vr_buffers _ _ _ _ Hv') | exact Hl] |].
  intros sg [(_ & Hr & Ho) Hl']. split; [done | by apply outside_app].
Qed.
End Run.
