(* ===== verification/SystemTrace.v ===== *)
(** * Any run of the system

    Submissions, interrupts, recoveries and stores of the block layer's clients
    into their own pages, in any order: the composed system simulates a block
    device with a queue of answered requests, and ends the requests in the order
    they were submitted, each once. *)
From S2P Require Import Prelude Packed Environment Rings Abi Blocks QemuDevice DeviceSafety.
From S2P Require Import DeviceQueue DeviceData DeviceRegisters BlockSpec AbiBridge.
From S2P Require Import DriverState DriverQueue DriverCore DriverLogic DriverSafety DriverSubmit.
From S2P Require Import System SystemSync SystemSubmit SystemAdmin SystemReset SystemRun.

(** What happens to the driver from outside. *)
Inductive action :=
| Submit (rq : DriverState.request)
| Interrupt
| Recover
| Touch (addr : Z) (bytes : list byte).

(** The requests submitted, in order. *)
Definition submitted_by (acts : list action) : list DriverState.request :=
  omap (λ a, match a with Submit rq => Some rq | _ => None end) acts.

(** The specification: a disk, the requests it has answered but not yet ended,
    with their status, and the requests ended. *)
Record block_state := BlockState {
  bl_disk : disk;
  bl_pending : list (DriverState.request * Z);
  bl_ended : list (DriverState.request * blk_status_t);
}.

Definition end_pending (s : block_state) : block_state :=
  BlockState (bl_disk s) []
    (bl_ended s ++ ((λ x, (x.1, openflash_blk_status x.2)) <$> bl_pending s)).

Section Trace.
Context {M F : Type} `{GM : GuestMemory M, !GuestMemoryLaws M}.
Context `{HF : HostFiles F, !HostFilesLaws F}.
Context `{KS : KernelServices, !KernelLaws, !DirectMapping}.
Context (fuel : nat) (sc : schedule).
Hypothesis Hfuel : (0 < sc_fuel sc)%nat.
Hypothesis Hirqs : (0 < sc_irqs sc)%nat.
Implicit Types (w : machine M F) (h : host (machine M F)) (q : openflash_queue).

(** A request is answered when it is submitted, with its data as it is then in
    memory [m]; interrupts and recoveries end what is answered. *)
Inductive block_step (m : M) : action → block_state → block_state → Prop :=
| block_submit rq ok s :
    block_step m (Submit rq) s
      (BlockState (spec_step ok (spec_request m rq) (bl_disk s)).2
         (bl_pending s ++ [(rq, r_status (spec_step ok (spec_request m rq) (bl_disk s)).1)])
         (bl_ended s))
| block_interrupt s : block_step m Interrupt s (end_pending s)
| block_recover s : block_step m Recover s (end_pending s)
| block_touch a bs s : block_step m (Touch a bs) s s.

(** The same actions on the driver; the result is whether a request was accepted. *)
Definition perform (a : action) : drv (machine M F) bool :=
  match a with
  | Submit rq => st ← openflash_queue_rq rq; mret (bool_decide (st = BLK_STS_OK))
  | Interrupt => _ ← openflash_io_irq fuel; mret true
  | Recover => openflash_reset_work fuel 1 sc ;; mret true
  | Touch a bs => store a bs ;; mret true
  end.

(** Requests are valid when they are submitted, and ask for no FUA, which the
    driver loses; clients store into RAM they do not share with the controller. *)
Definition permitted h q (a : action) : Prop :=
  match a with
  | Submit rq => rq_fua rq = false ∧ ∃ r, valid_request h q rq r
  | Touch a bs => is_ram (M := M) a (len bs) ∧ outside (shared_regions q) a (len bs)
  | _ => True
  end.

(** The simulation relation. *)
Record implements h (s : block_state) : Prop := {
  im_synced : ∃ q0 q k, synced h q k (bl_pending s) ∧ admin_rings h q0 q ∧
    dq_depth q ≤ 4096 ∧ (Z.to_nat (dq_depth q) ≤ fuel)%nat;
  im_disk : abs (h_bus h) (bl_disk s);
  im_ended : k_ended (h_kern h) = bl_ended s;
  im_registered : is_Some (of_disk (h_dev h));
}.

(** Stores outside shared memory leave driver and device in step. *)
Lemma synced_touch h q k p a bs :
  synced h q k p → is_ram (M := M) a (len bs) → outside (shared_regions q) a (len bs) →
  synced (with_bus (dma_write (h_bus h) a bs) h) q k p.
Proof.
  intros Hs Hr Ho. pose proof Hs as [Hown Hl ? ? ? ? [dq []] ? Hent Hfree ?].
  pose proof (ow_depth _ _ Hown) as Hd.
  assert (changes [(a, len bs)] (h_bus h) (dma_write (h_bus h) a bs)) as Hc
    by (eapply changes_write; [done | apply list_elem_of_here | done | done]).
  assert (∀ b n, (b, n) ∈ shared_regions q → outside [(a, len bs)] b n) as Hout.
  { intros b n Hin. apply (proj1 (Forall_forall _ _) Ho) in Hin. apply Forall_singleton.
    cbn in *. lia. }
  assert (∀ j, cq_entry (dma_write (h_bus h) a bs) q j = cq_entry (h_bus h) q j) as He.
  { intros j. pose proof (Z.mod_pos_bound j (dq_depth q)).
    eapply entry_kept; [exact Hc | apply Hl | lia |].
    eapply outside_sub; [apply (Hout (dq_cq_dma q) (dq_depth q * CQE_SIZE)) | ..];
      [right; apply list_elem_of_here | unfold CQE_SIZE; lia..]. }
  constructor; try done.
  - eapply owned_changes; [done | exact Hc |]. intros i r Hi. split.
    + apply (lay_sgl _ (sl_io _ Hl) _ _ Hi).
    + apply Hout. by apply (list_in_regions q i).
  - by exists dq.
  - intros i x Hx. unfold is_new. rewrite He. by apply Hent.
  - intros j Hj. unfold is_new. rewrite He. by apply Hfree.
Qed.

(** ** Simulation *)
Lemma perform_submit rq h s q :
  implements h s → queue_at h 1 = Some q → permitted h q (Submit rq) →
  ∃ h' s', perform (Submit rq) h = Done (true, h') ∧
    block_step (m_mem (h_bus h)) (Submit rq) s s' ∧ implements h' s'.
Proof.
  intros [(q0 & q' & k & Hs & Har & Hd & Hf) Ha He Hg] Hq [Hpl [r Hv]].
  rewrite (ow_queue _ _ (sy_owned _ _ _ _ Hs)) in Hq. injection Hq as ->.
  destruct (queue_rq_synced h q k (bl_pending s) rq r (bl_disk s) Hs Hv Ha)
    as (ok & h' & q1 & E & [Hs1 Ha1 _ _ He1 Hsh Hq0 Hdev]).
  rewrite issued_plain in Hs1, Ha1 by done.
  pose proof Hsh as Hsh'. injection Hsh' as _ _ Hdep _.
  eexists h', _. split; [| split; [apply (block_submit _ _ ok) |]].
  - cbn [perform]. erewrite bind_done by exact E. done.
  - constructor; cbn [bl_disk bl_pending bl_ended]; try done.
    + exists q0, q1, k. rewrite Hdep. split_and!; try done.
      by apply (admin_rings_same h h' q0 q q1).
    + by rewrite He1.
    + apply (f_equal of_disk) in Hdev. cbn in Hdev. by rewrite Hdev.
Qed.

Lemma perform_interrupt h s :
  implements h s → ∃ h', perform Interrupt h = Done (true, h') ∧ implements h' (end_pending s).
Proof.
  intros [(q0 & q & k & Hs & Har & Hd & Hf) Ha He Hg].
  destruct (io_irq_synced fuel h q k (bl_pending s) Hs Hf)
    as (h' & q' & E & Hs' & He' & Hsh & Hq0 & Hdev & _ & Hfs & Hst & Hbf).
  pose proof Hsh as Hsh'. injection Hsh' as _ _ Hdep _.
  exists h'. split; [cbn [perform]; by erewrite bind_done by exact E |].
  constructor; cbn [end_pending bl_disk bl_pending bl_ended].
  - exists q0, q', (k + len (bl_pending s)). rewrite Hdep. split_and!; try done.
    by apply (admin_rings_same h h' q0 q q').
  - by eapply abs_ext.
  - by rewrite He', He.
  - apply (f_equal of_disk) in Hdev. cbn in Hdev. by rewrite Hdev.
Qed.

Lemma perform_recover h s :
  implements h s → ∃ h', perform Recover h = Done (true, h') ∧ implements h' (end_pending s).
Proof.
  intros [(q0 & q & k & Hs & Har & Hd & Hf) Ha He Hg].
  destruct (wp_reset_work fuel 1 sc h q0 q k (bl_pending s))
    as ([] & h' & E & _ & (q' & Hs' & Hsh & q0' & Har') & Hg' & He' & Hfs & Hst & Hbf);
    try done; [lia |].
  injection Hsh as _ _ Hdep _.
  exists h'. split; [cbn [perform]; by erewrite bind_done by exact E |].
  constructor; cbn [end_pending bl_disk bl_pending bl_ended].
  - exists q0', q', 0. rewrite Hdep. by split_and!.
  - by eapply abs_ext.
  - by rewrite He', He.
  - by rewrite Hg'.
Qed.

Lemma perform_simulates a h s q :
  implements h s → queue_at h 1 = Some q → permitted h q a →
  ∃ h' s', perform a h = Done (true, h') ∧ block_step (m_mem (h_bus h)) a s s' ∧
    implements h' s'.
Proof.
  intros Him Hq Hp. destruct a as [rq | | | a bs].
  - by eapply perform_submit.
  - destruct (perform_interrupt h s Him) as (h' & E & Him'). eexists h', _. split; [done |].
    split; [constructor | done].
  - destruct (perform_recover h s Him) as (h' & E & Him'). eexists h', _. split; [done |].
    split; [constructor | done].
  - destruct Him as [(q0 & q' & k & Hs & Har & Hd & Hf) Ha He Hg]. destruct Hp as [Hr Ho].
    rewrite (ow_queue _ _ (sy_owned _ _ _ _ Hs)) in Hq. injection Hq as ->.
    eexists _, s. split; [reflexivity |]. split; [constructor |]. constructor; try done.
    + exists q0, q, k. split_and!; try done; [by apply synced_touch |].
      by apply (admin_rings_same h _ q0 q q).
    + by eapply abs_ext.
Qed.

(** ** Runs *)
Inductive runs : host (machine M F) → block_state → list action →
    host (machine M F) → block_state → Prop :=
| runs_nil h s : runs h s [] h s
| runs_cons h s a h1 s1 acts h' s' :
    perform a h = Done (true, h1) → block_step (m_mem (h_bus h)) a s s1 →
    runs h1 s1 acts h' s' → runs h s (a :: acts) h' s'.

(** Every action is permitted when its turn comes. *)
Fixpoint allowed (acts : list action) h : Prop :=
  match acts with
  | [] => True
  | a :: acts =>
      (∀ q, queue_at h 1 = Some q → permitted h q a) ∧
      ∀ h', perform a h = Done (true, h') → allowed acts h'
  end.

Lemma allowed_runs acts h s :
  implements h s → allowed acts h → ∃ h' s', runs h s acts h' s' ∧ implements h' s'.
Proof.
  revert h s. induction acts as [| a acts IH]; intros h s Him Hal.
  { exists h, s. split; [constructor | done]. }
  destruct Hal as [Hp Hal]. destruct (im_synced _ _ Him) as (q0 & q & k & Hs & _).
  pose proof (ow_queue _ _ (sy_owned _ _ _ _ Hs)) as Hq.
  destruct (perform_simulates a h s q Him Hq (Hp q Hq)) as (h1 & s1 & E & Hb & Him1).
  destruct (IH h1 s1 Him1 (Hal h1 E)) as (h' & s' & Hr & Him').
  exists h', s'. split; [by econstructor | done].
Qed.

(** Requests are ended in the order they were submitted, each once. *)
Lemma runs_order h s acts h' s' :
  runs h s acts h' s' →
  (bl_ended s').*1 ++ (bl_pending s').*1 =
    (bl_ended s).*1 ++ (bl_pending s).*1 ++ submitted_by acts.
Proof.
  induction 1 as [h s | h s a h1 s1 acts h' s' _ Hb _ IH]; [by rewrite app_nil_r |].
  rewrite IH. destruct Hb as [rq ok s | s | s | a bs s]; cbn.
  - rewrite fmap_app, <- !app_assoc. done.
  - rewrite fmap_app, <- list_fmap_compose, <- app_assoc. done.
  - rewrite fmap_app, <- list_fmap_compose, <- app_assoc. done.
  - done.
Qed.
End Trace.
