(* ===== verification/SystemLife.v ===== *)
(** * The driver from probe to remove

    On the QEMU controller a remove returns.  A driver that is probed, used in
    any way [SystemTrace] allows and removed holds at the end what was held at
    the beginning, and has ended every request it was given, each once. *)
From S2P Require Import Prelude Packed Environment Rings Abi Blocks QemuDevice DeviceSafety.
From S2P Require Import DeviceQueue DeviceData DeviceRegisters BlockSpec AbiBridge.
From S2P Require Import DriverState DriverQueue DriverCore DriverLogic DriverFrame DriverSafety.
From S2P Require Import DriverSubmit DriverResources System SystemSync SystemSubmit SystemAdmin.
From S2P Require Import SystemReset SystemProbe SystemRun SystemTrace.

Section Life.
Context {M F : Type} `{GM : GuestMemory M, !GuestMemoryLaws M}.
Context `{HF : HostFiles F, !HostFilesLaws F}.
Context `{KS : KernelServices, !KernelLaws, !DirectMapping}.
Implicit Types (w : machine M F) (h : host (machine M F)).

(** ** Remove *)

(** What a disk is made of. *)
Definition stored w := (s_storage (m_dev w), s_backing_file (m_dev w), m_files w).

Lemma abs_stored w w' d : stored w' = stored w → abs w d → abs w' d.
Proof. intros [= E1 E2 E3] Ha. by eapply abs_ext. Qed.

Lemma disable_eq w :
  ctl_write w OPENFLASH_REG_CONTROL (u32 0) = Done (with_dev (set_control 0 0 (m_dev w)) w).
Proof. done. Qed.

(** Reporting a head changes the completion head of queue 1 at most. *)
Lemma head_eq w v w' :
  ctl_write w (OPENFLASH_CQ_HEAD_DB 1) v = Done w' →
  w' = w ∨ w' = with_dev (update_queue 1 (set_cq_head (u16 v)) (m_dev w)) w.
Proof.
  assert (ctl_write w (OPENFLASH_CQ_HEAD_DB 1) v =
    (queue ← deref (s_queues (m_dev w) !! 1%nat);
     if v <? q_depth queue
     then Done (with_dev (update_queue 1 (set_cq_head (u16 v)) (m_dev w)) w)
     else Done w)) as -> by done.
  destruct (s_queues (m_dev w) !! 1%nat) as [q |]; outcomes; [| done].
  destruct (v <? q_depth q); intros [= <-]; auto.
Qed.

#[export] Instance qemu_responsive : ResponsiveController (machine M F).
Proof. split; [intros w; by rewrite disable_eq | done]. Qed.

(** The cursors of the device's admin queue. *)
Definition admin_cursors w : option (Z * Z * Z) :=
  (λ q, (q_sq_head q, q_cq_tail q, q_cq_phase q)) <$> s_queues (m_dev w) !! 0%nat.

(** Remove of a driver in step: the interrupt that arrives while it waits ends
    what the device has answered. *)
Lemma remove_synced fuel n rs h q k p :
  attached h rs → synced h q k p → (Z.to_nat (dq_depth q) ≤ fuel)%nat → (0 < n)%nat →
  ∃ h', openflash_remove fuel n h = Done ((), h') ∧ torn_down rs h h' ∧
    k_ended (h_kern h') =
      k_ended (h_kern h) ++ ((λ x, (x.1, openflash_blk_status x.2)) <$> p) ∧
    dev_wf (m_dev (h_bus h')) ∧ stored (h_bus h') = stored (h_bus h) ∧
    admin_cursors (h_bus h') = admin_cursors (h_bus h).
Proof.
  intros Hat Hs Hf Hn. pose proof Hs as [Ho _ Hqid Hk _ _ _ _ _ _ _].
  destruct (remove_spec fuel n rs h q k) as (h1 & E & _ & Hret); [done.. |].
  assert (synced (cancelled h) q k p) as Hs' by (by apply (synced_local h)).
  pose proof (wp_done _ _ _ (wp_deliver_io_irqs fuel n (cancelled h) q k p Hs' Hf Hn) _ _ E)
    as (q1 & Hs1 & He1 & _).
  destruct Hret as (h' & Er & Ht & He & Hok & Hg).
  { apply Permutation_nil_r, (sy_inflight _ _ _ _ Hs1). }
  exists h'. split_and!; try done; [by rewrite He, He1 | |]; apply Hg.
  - intros w v w' Ew. by destruct (head_eq _ _ _ Ew) as [-> | ->].
  - intros w w'. rewrite disable_eq. by intros [= <-].
  - intros w v w' Ew. destruct (head_eq _ _ _ Ew) as [-> | ->]; [done |].
    unfold admin_cursors. cbn. by rewrite list_lookup_alter_ne.
  - intros w w'. rewrite disable_eq. by intros [= <-].
Qed.

(** ** Use *)
Section Use.
Context (fuel : nat) (sc : schedule).

(** No action takes or releases a resource. *)
Lemma neutral_perform a : preserves footprint (perform fuel sc a).
Proof.
  destruct a; cbn [perform]; apply preserves_bind;
    eauto using neutral_queue_rq, neutral_io_irq, neutral_reset_work with frame.
Qed.

Lemma runs_footprint h s acts h' s' :
  runs fuel sc h s acts h' s' → footprint h' = footprint h.
Proof.
  induction 1 as [| h s a h1 s1 acts h' s' E _ _ IH]; [done |].
  rewrite IH. exact (neutral_perform a _ _ _ E).
Qed.

(** A driver in use can be removed at any point; the requests still in flight
    are ended with the status the device gave them. *)
Lemma remove_after_run n rs h s acts h1 s1 :
  attached h rs → runs fuel sc h s acts h1 s1 → implements fuel h1 s1 → (0 < n)%nat →
  ∃ h2, openflash_remove fuel n h1 = Done ((), h2) ∧ torn_down rs h1 h2 ∧
    abs (h_bus h2) (bl_disk s1) ∧ k_ended (h_kern h2) = bl_ended (end_pending s1).
Proof.
  intros Hat Hr [(q0 & q & k & Hs & _ & _ & Hf) Ha He _] Hn.
  assert (attached h1 rs) as Hat1.
  { eapply attached_footprint; [by eapply runs_footprint | apply Hs | done]. }
  destruct (remove_synced fuel n rs h1 q k (bl_pending s1)) as (h2 & E & Ht & Hen & _ & Hst & _);
    [done.. |].
  exists h2. split_and!; [done | done | by eapply abs_stored |]. by rewrite Hen, He.
Qed.

(** With nothing pending at the end, the requests ended are those submitted. *)
Lemma runs_all_ended h s acts h1 s1 :
  runs fuel sc h s acts h1 s1 →
  (bl_ended (end_pending s1)).*1 = (bl_ended s).*1 ++ (bl_pending s).*1 ++ submitted_by acts.
Proof.
  intros Hr. rewrite <- (runs_order fuel sc _ _ _ _ _ Hr). cbn.
  by rewrite fmap_app, <- list_fmap_compose.
Qed.
End Use.

(** ** Probe *)
Lemma probe_implements `{!GenerousKernel M} fuel sc1 sc2 h d :
  dev_wf (m_dev (h_bus h)) → s_queues (m_dev (h_bus h)) = reset_queues →
  k_inflight (h_kern h) = [] → k_mapped (h_kern h) = [] → room 143 (h_kern h) →
  (∀ k, dma_alloc_coherent k SGL_SIZE ≠ None) →
  (0 < sc_fuel sc1)%nat → (0 < sc_irqs sc1)%nat → (0 < sc_fuel sc2)%nat → (0 < sc_irqs sc2)%nat →
  abs (h_bus h) d → (1024 ≤ fuel)%nat →
  ∃ h', openflash_probe sc1 sc2 h = Done (0, h') ∧ attached h' (k_held (h_kern h)) ∧
    implements fuel h' (BlockState d [] (k_ended (h_kern h))).
Proof.
  intros Hwf Hq Hin Hma Hr Hall Hf1 Hi1 Hf2 Hi2 Ha Hf.
  destruct (wp_probe sc1 sc2 h) as (ret & h' & E & -> & Hp); [done.. |].
  exists h'. split; [done |]. split.
  { apply driver_up_attached. exact (swp_done _ _ _ _ _ (probe_spec sc1 sc2 h Hall Hwf) E). }
  destruct (pd_synced _ _ Hp) as (q & q0 & Hs & Hd & Har). constructor; cbn.
  - exists q0, q, 0. split_and!; try done; lia.
  - eapply abs_stored; [| done]. unfold stored.
    by rewrite (pd_storage _ _ Hp), (pd_backing _ _ Hp), (pd_files _ _ Hp).
  - pose proof (io_state_probe sc1 sc2 _ _ _ E) as [= _ He _]. exact He.
  - rewrite (pd_disk _ _ Hp). done.
Qed.
End Life.
