(* ===== verification/SystemRebind.v ===== *)
(** * Loading the driver again

    Remove disables the controller without resetting it: the device keeps the
    cursors of its admin queue.  A driver loaded afterwards starts its rings at
    slot 0, so the device, which is [c] slots ahead, answers its first command
    with the phase of the next pass, or not at all, and the probe times out
    whatever interrupts arrive. *)
From S2P Require Import Prelude Packed Environment Rings Abi QemuDevice DeviceSafety.
From S2P Require Import DeviceQueue DeviceRegisters BlockSpec AbiBridge DriverState DriverQueue.
From S2P Require Import DriverCore DriverLogic DriverFrame DriverSafety DriverSubmit.
From S2P Require Import DriverResources System SystemSync SystemSubmit SystemAdmin SystemReset.
From S2P Require Import SystemProbe SystemRun SystemTrace SystemLife.

(** ** The last completion of a doorbell *)
Section Doorbell.
Context {M F : Type} `{GM : GuestMemory M, !GuestMemoryLaws M, HF : HostFiles F}.
Implicit Types (w : machine M F) (q : openflash_queue) (dq : OpenFlashQueue).

Lemma fetch_ids w dq :
  0 ≤ c_cid (fetch w dq) < 2 ^ 16 ∧ 0 ≤ c_user_data (fetch w dq) < 2 ^ 64.
Proof.
  unfold fetch, decode_OpenFlashCommand. set (bs := dma_read _ _ _).
  assert (length bs = 64%nat) as Hl by (unfold bs; by rewrite dma_read_length).
  pose proof (unpack_fits OpenFlashCommand_layout bs Hl) as Hf.
  pose proof (length_unpack OpenFlashCommand_layout bs) as Hn.
  destruct (unpack OpenFlashCommand_layout bs) as [| ? l]; [done |].
  do 12 (destruct l as [| ? l]; [done |]). destruct l; [| done].
  unfold fits, OpenFlashCommand_layout in Hf. rewrite !Forall2_cons in Hf.
  destruct_and!. done.
Qed.

(** What the last of the served entries left behind. *)
Lemma serves_last w tr w' dq k :
  serves 0 w tr w' → dev_wf (m_dev w) → s_queues (m_dev w) !! 0%nat = Some dq →
  q_enabled dq = true → posted dq k →
  loop_step 0 w w' ∧ (tr ≠ [] → ∃ w1 dq1 cmd status result,
    w' = post 0 dq1 cmd status result w1 ∧ q_cq_addr dq1 = q_cq_addr dq ∧
    q_depth dq1 = q_depth dq ∧ posted dq1 (k + len tr - 1) ∧
    fits completion_layout (completion_fields (completion_of cmd dq1 status result))).
Proof.
  intros Hs. revert dq k. induction Hs as [w | w q0 st r w1 tr w' Hq0 He Hq1 Hs IH];
    intros dq k Hwf Hq Hen Hp.
  { split; [| done]. constructor; eauto. }
  rewrite Hq in Hq0. injection Hq0 as <-.
  pose proof (Forall_lookup_1 _ _ _ _ (wf_queues _ Hwf) Hq) as Hqw.
  pose proof (wf_enabled _ Hqw Hen) as Hd.
  destruct (process_command_safe w 0 dq Hwf Hq Hen) as (w2 & Epc & Hstep).
  rewrite (process_command_eq w 0 dq st r w1 dq Hq He Hq1 Hqw Hd) in Epc.
  injection Epc as <-.
  assert (s_queues (m_dev (post 0 dq (fetch w dq) st r w1)) !! 0%nat = Some (advance dq)) as Hq2
    by (cbn; apply list_lookup_insert_eq; by eapply lookup_lt_Some).
  destruct (IH (advance dq) (k + 1)) as [Hls Hlast];
    [apply Hstep | done | done | by apply posted_advance |].
  split; [by eapply loop_step_trans |]. intros _. destruct tr as [| sv tr].
  - inversion Hs; subst. exists w1, dq, (fetch w dq), st, r. cbn [length].
    split_and!; [done.. | by replace (k + Z.of_nat 1 - 1) with k by lia |].
    destruct (fetch_ids w dq). eapply (completion_of_fits w); try done. apply fetch_wf.
  - destruct Hlast as (v & dq1 & cmd & s & res & -> & Ha & Hdep & Hp1 & Hf); [done |].
    exists v, dq1, cmd, s, res. cbn [length] in *.
    split_and!; [done | done | done | | done].
    by replace (k + Z.of_nat (S (S (length tr))) - 1)
      with (k + 1 + Z.of_nat (S (length tr)) - 1) by lia.
Qed.

(** A device whose admin queue is [c] entries ahead of a driver that begins with
    slot 0: a doorbell for the first entry leaves no new completion for it. *)
Lemma stale_doorbell w q dq c :
  dev_wf (m_dev w) → has_flag (s_status (m_dev w)) OF_STATUS_READY = true →
  s_queues (m_dev w) !! 0%nat = Some dq → q_enabled dq = true →
  q_sq_head dq = c → posted dq c → 0 < c < q_depth dq → 1 < q_depth dq →
  q_depth dq = dq_depth q → q_cq_addr dq = dq_cq_dma q → ring_layout (M := M) q →
  ¬ is_new w q 0 →
  ∃ w', ctl_write w (OPENFLASH_SQ_TAIL_DB 0) 1 = Done w' ∧ ¬ is_new w' q 0 ∧
    dev_wf (m_dev w') ∧ s_status (m_dev w') = s_status (m_dev w).
Proof.
  intros Hwf Hr Hq Hen Hh Hp Hc H1 Hdep Hcq Hl Hn.
  pose proof (Forall_lookup_1 _ _ _ _ (wf_queues _ Hwf) Hq) as Hqw.
  pose proof (wf_depth _ Hqw) as Hd.
  destruct (process_sq_serves 4096 w 0 dq c 1) as (tr & w' & q' & E & Hsv & Hlen & _);
    [done.. | lia | done | lia | lia | by left |].
  destruct (serves_last w tr w' dq c Hsv Hwf Hq Hen Hp) as [Hls Hlast].
  set (w2 := if m_msix_enabled w then msix_notify (q_vector dq) w' else w') in E.
  assert (m_mem w2 = m_mem w' ∧ m_dev w2 = m_dev w') as [Hm Hd2]
    by (unfold w2; by destruct (m_msix_enabled w)).
  assert (¬ is_new w' q 0) as Hn'.
  { destruct tr as [| sv tr]; [by inversion Hsv; subst |].
    destruct Hlast as (w1 & dq1 & cmd & st & res & -> & Ha & Hdp & Hp1 & Hf); [done |].
    rewrite Hh in Hlen.
    assert (c + len (sv :: tr) - 1 = dq_depth q) as EK.
    { rewrite Hlen, <- Hdep. destruct (decide (c = 1)) as [-> | Hne].
      - rewrite Z.sub_diag, Z.mod_0_l in Hlen by lia. done.
      - rewrite <- (Z_mod_plus_full (1 - c) 1), Z.mod_small by lia. lia. }
    rewrite EK in Hp1.
    destruct (post_completion 0 w1 q (dq_depth q) dq1 cmd st res) as [_ Hent];
      [done | lia | congruence | congruence | done | done |].
    unfold is_new. replace (cq_entry _ q 0) with (cq_entry (post 0 dq1 cmd st res w1) q (dq_depth q))
      by (unfold cq_entry; by rewrite Z.mod_same, Z.mod_0_l by lia).
    rewrite Hent. cbn [driver_completion cqe_flags completion_of e_flags].
    destruct Hp1 as (_ & _ & ->). rewrite Hdp, Hdep.
    pose proof (phase_of_pass (dq_depth q) 0) as Hpp. rewrite Z.add_0_l in Hpp.
    rewrite Hpp by lia. unfold OPENFLASH_CQE_PHASE.
    by destruct (phase_of_bit (dq_depth q) 0) as [-> | ->]. }
  exists w2. split_and!.
  - cbn [ctl_write qemu_controller].
    change (OPENFLASH_SQ_TAIL_DB 0) with (OF_REG_DOORBELL_BASE + 0 * 8).
    rewrite sq_doorbell_eq by (auto; by rewrite Hq). exact E.
  - unfold is_new, cq_entry in *. cbn in *. by rewrite Hm.
  - rewrite Hd2. apply Hls.
  - rewrite Hd2. apply Hls.
Qed.
End Doorbell.

(** ** A probe that times out *)
Section Rebind.
Context {M F : Type} `{GM : GuestMemory M, !GuestMemoryLaws M, HF : HostFiles F}.
Context `{KS : KernelServices, !GenerousKernel M}.
Implicit Types (w : machine M F) (h : host (machine M F)).

(** [m] does not run out of fuel, and what it returns satisfies [Q]. *)
Definition uwp {A} (m : drv (machine M F) A) (Q : A → host (machine M F) → Prop) h : Prop :=
  match m h with Done (a, h') => Q a h' | Undef => True | NoFuel => False end.

Lemma wp_uwp {A B} (m : drv _ A) (k : A → drv _ B) Q h :
  wp m (λ a h', uwp (k a) Q h') h → uwp (m ≫= k) Q h.
Proof. intros (a & h' & E & HQ). unfold uwp, mbind, drv_bind. by rewrite E. Qed.

Lemma bounded_uwp {A B} (m : drv _ A) h (a : B) : bounded m → uwp (m ;; mret a) (λ r _, r = a) h.
Proof.
  intros Hm. unfold uwp, mbind, drv_bind. specialize (Hm h).
  by destruct (m h) as [[x h1] | |].
Qed.

(** The admin queue just set up over a device that is [c] entries ahead: identify
    times out, whatever interrupts arrive before and after the timeout. *)
Lemma identify_times_out sc h0 h q dq c n :
  admin_configured h0 h q dq n → fresh_queue 128 q → dev_wf (m_dev (h_bus h0)) →
  s_queues (m_dev (h_bus h0)) !! 0%nat = Some dq →
  (q_sq_head dq, q_cq_tail dq, q_cq_phase dq) = (c, c, 1) → 0 < c < 128 →
  ∃ h', openflash_admin_identify sc h = Done (- ETIMEDOUT, h').
Proof.
  intros [Hq Hl Hb _ _ _ _ (w & Hw & _ & Hbus) _ _] [Hqid Hdep Htail Hhead Hphase] Hwf Hdq
    Hcur Hc. injection Hcur as Hsh Hct Hcp. rewrite <- Hw in Hwf, Hdq.
  destruct (rl_sq_bus _ Hl) as [Hs0 Hs1]. destruct (rl_cq_bus _ Hl) as [Hc0 Hc1].
  rewrite Hdep in Hs1, Hc1. unfold CMD_SIZE, CQE_SIZE in Hs1, Hc1.
  pose proof (Forall_lookup_1 _ _ _ _ (wf_queues _ Hwf) Hdq) as Hdqw.
  set (dq' := configured_admin (dq_sq_dma q) (dq_cq_dma q) (dq_depth q) dq).
  assert (queue_wf dq') as Hdqw'.
  { destruct Hdqw. constructor; cbn; try done; try lia; intros; lia. }
  assert (dev_wf (m_dev (h_bus h))) as Hwfh.
  { rewrite Hbus. destruct Hwf. constructor; cbn; try done; [by rewrite length_insert | | by right].
    by apply Forall_insert. }
  assert (s_queues (m_dev (h_bus h)) !! 0%nat = Some dq') as Hdq'.
  { rewrite Hbus. cbn. apply list_lookup_insert_eq. by eapply lookup_lt_Some. }
  set (cmd := {| opcode := OPENFLASH_ADMIN_IDENTIFY; flags := 0; qid := 0; cid := 0;
    reserved0 := 0; lba := 0; nblocks := 0; control := 0; data_addr := 0;
    metadata_addr := 0; user_data := 0; reserved1_0 := 0; reserved1_1 := 0 |}).
  set (w0 := dma_write (h_bus h) (sq_slot q) (encode_command (admin_sent q cmd))).
  destruct (stale_doorbell w0 q dq' c) as (w' & Ew & Hn & Hwf' & Hst');
    [done | unfold w0; cbn; by rewrite Hbus | done | done | done | | cbn; lia | cbn; lia | done
    | done | done | |].
  { unfold posted. cbn. rewrite Hct, Hcp, Hdep, Z.mod_small by lia.
    unfold phase_of. rewrite Z.div_small by lia. split; [lia | done]. }
  { unfold is_new. rewrite (entry_kept [sq_region q] (h_bus h)); [| | done | lia |].
    - apply blank_not_new; [done | done | lia].
    - apply (changes_write _ _ (sq_slot q) _ (dq_sq_dma q) (dq_depth q * CMD_SIZE));
        rewrite ?length_encode_command; [| apply list_elem_of_here | |];
        unfold sq_slot; rewrite Htail; unfold CMD_SIZE in *; [| lia..].
      eapply is_ram_sub; [apply (rl_sq _ Hl) | ..]; unfold CMD_SIZE; lia.
    - pose proof (rl_apart _ Hl) as Ha. unfold outside in *.
      rewrite Forall_singleton in Ha |- *. rewrite Z.mod_0_l by lia.
      unfold sq_region, CQE_SIZE in *. cbn in *. lia. }
  destruct (wp_admin_submit h q cmd w') as ([] & h1 & E1 & Hb1 & Hq1 & _);
    [done | done | lia | lia | |].
  { rewrite Htail, Hdep. exact Ew. }
  assert (∀ fuel m, deliver_irqs fuel m h1 = Done ((), h1)) as Hirqs.
  { intros fuel m. apply (deliver_irqs_idle fuel m h1 (waiting_queue q) 0); rewrite ?Hb1;
      [done | cbn; lia | | done | rewrite Hst'; unfold w0; cbn; by rewrite Hbus | done].
    split; cbn; [by rewrite Hhead, Z.mod_0_l by lia |]. by rewrite Hphase, Hdep. }
  assert (∃ h', openflash_admin_command sc cmd h = Done (inl (- ETIMEDOUT), h')) as [h' E].
  { unfold openflash_admin_command. rewrite (bind_done _ _ _ _ _ E1), (bind_done _ _ _ _ _ (Hirqs _ _)).
    rewrite (bind_done _ _ _ _ _ (get_queue_done _ _ _ Hq1)).
    cbn [aw_done dq_admin waiting_queue with_sq_tail with_admin].
    rewrite (bind_done _ _ _ _ _ (Hirqs _ _)). unfold mbind, drv_bind, put_queue.
    unfold queue_at in Hq1. rewrite Hq1. by eexists. }
  exists h'. unfold openflash_admin_identify. fold cmd. by rewrite (bind_done _ _ _ _ _ E).
Qed.

(** Probing a device whose admin queue has served [c] commands since its reset. *)
Lemma probe_times_out sc1 sc2 h c :
  dev_wf (m_dev (h_bus h)) → admin_cursors (h_bus h) = Some (c, c, 1) → 0 < c < 128 →
  (∀ k, dma_alloc_coherent k SGL_SIZE ≠ None) → room 9 (h_kern h) →
  ∃ h', openflash_probe sc1 sc2 h = Done (- ETIMEDOUT, h') ∧
    k_held (h_kern h') ≡ₚ k_held (h_kern h).
Proof.
  intros Hwf Hcur Hc Hall Hr.
  assert (uwp (openflash_probe sc1 sc2) (λ ret _, ret = - ETIMEDOUT) h) as Hu.
  { unfold openflash_probe.
    apply wp_uwp, (wp_call _ 8); [done |]. intros h1 G1 D1 B1 R1. rewrite enable_ok.
    cbn [Z.eqb negb]. apply wp_uwp, (wp_call _ 7); [done |]. intros h2 G2 D2 B2 R2.
    rewrite dma_mask_ok. cbn [Z.eqb negb]. apply wp_uwp, (wp_call _ 6); [done |].
    intros h3 G3 D3 B3 R3. rewrite iomap_ok. cbn [Z.eqb negb].
    apply wp_uwp, (wp_call _ 5); [done |]. intros h4 G4 D4 B4 R4. rewrite devm_kcalloc_ok.
    cbn [negb]. apply wp_uwp. eexists _, _. split; [reflexivity |].
    apply wp_uwp, wp_put_dev. set (h5 := with_ofdev _ h4).
    apply wp_uwp. eapply (wp_readl _ OF_ABI_VERSION); [done |].
    change (negb (u32 OF_ABI_VERSION =? OPENFLASH_ABI_VERSION)) with false. cbv iota.
    apply wp_uwp, (wp_acquire _ 5 _ h5); [done | done |]. intros h6 G6 D6 B6 R6.
    assert (h_bus h6 = h_bus h) as B by (rewrite B6; cbn [h5 h_bus with_ofdev]; congruence).
    unfold admin_cursors in Hcur.
    destruct (s_queues (m_dev (h_bus h)) !! 0%nat) as [dq |] eqn:Hdq; [| done].
    injection Hcur as E1 E2 E3.
    apply wp_uwp. eapply wp_mono; [apply (wp_configure_admin_queue 0 h6 dq) |].
    { rewrite D6. by split. }
    { by rewrite B. }
    { by apply (Forall_lookup_1 _ _ _ _ (wf_queues _ Hwf) Hdq). }
    { done. }
    intros ret h7 (-> & q0 & Hcf & Hfr). cbn [Z.eqb negb].
    assert (of_queue_depth (h_dev h6) = 128) as Hd6 by (by rewrite D6). rewrite Hd6 in Hfr.
    destruct (identify_times_out sc1 h6 h7 q0 dq c 0) as [h8 E8];
      [done | done | by rewrite B | by rewrite B | by rewrite E1, E2, E3 | done |].
    apply wp_uwp. eexists _, h8. split; [exact E8 |].
    change (negb (- ETIMEDOUT =? 0)) with true. cbv iota.
    unfold uwp, mbind at 1, drv_bind at 1.
    pose proof (bounded_teardown_admin h8) as Hb.
    destruct (openflash_teardown_admin_queue h8) as [[[] h9] | |]; [| done..].
    exact (bounded_uwp (release BusMaster) h9 (- ETIMEDOUT) (bounded_release _)). }
  pose proof (probe_spec sc1 sc2 h Hall Hwf) as Hs. unfold swp, uwp in *.
  destruct (openflash_probe sc1 sc2 h) as [[ret h'] | |]; [| done..]. subst ret.
  exists h'. split; [done | exact Hs].
Qed.

(** A driver in step is removed and loaded again. *)
Lemma rebind_fails `{!HostFilesLaws F, !KernelLaws, !DirectMapping}
    fuel n sc1 sc2 rs h q k p c :
  attached h rs → synced h q k p → admin_cursors (h_bus h) = Some (c, c, 1) → 0 < c < 128 →
  (Z.to_nat (dq_depth q) ≤ fuel)%nat → (0 < n)%nat →
  (∀ k, dma_alloc_coherent k SGL_SIZE ≠ None) →
  (∀ h1, openflash_remove fuel n h = Done ((), h1) → room 9 (h_kern h1)) →
  ∃ h1 h2, openflash_remove fuel n h = Done ((), h1) ∧ torn_down rs h h1 ∧
    openflash_probe sc1 sc2 h1 = Done (- ETIMEDOUT, h2) ∧ k_held (h_kern h2) ≡ₚ rs.
Proof.
  intros Hat Hs Hcur Hc Hf Hn Hall Hroom.
  destruct (remove_synced fuel n rs h q k p Hat Hs Hf Hn) as (h1 & E & Ht & _ & Hwf & _ & Hcur1).
  destruct (probe_times_out sc1 sc2 h1 c) as (h2 & E2 & Hh2);
    [done | by rewrite Hcur1 | done | done | by apply Hroom |].
  exists h1, h2. split_and!; try done. by rewrite Hh2, (rm_held _ _ _ Ht).
Qed.
End Rebind.
