(* ===== verification/SystemFixture.v ===== *)
(** * A probed driver on the QEMU controller

    The driver's probe run on the realized device of [DeviceFixture], in a
    kernel whose services succeed, and what holds of the resulting host. *)
From S2P Require Import Prelude Packed Environment Rings Abi QemuDevice DeviceSafety.
From S2P Require Import BlockSpec DeviceFixture DriverState DriverQueue DriverCore DriverLogic.
From S2P Require Import DriverSafety DriverSubmit DriverResources System SystemSync.
From S2P Require Import DeviceQueue DeviceData SystemSubmit SystemAdmin SystemReset SystemProbe.
From S2P Require Import SystemRun SystemTrace SystemLife SystemRebind.
Export ModelKernel.

Module SystemFixture.
Import Fixture.
Abbreviation pc := (host qemu).

(** One interrupt per admin command; no ring holds more than 128 entries. *)
Definition prompt : schedule := {| sc_fuel := 128; sc_irqs := 1; sc_late := 0 |}.

Definition cold : pc := Host realized boot dev_zero.

Definition host_of {A} (o : outcome (A * pc)) : pc :=
  match o with Done (_, h) => h | _ => cold end.

Definition result_of {A} (o : outcome (A * pc)) : option A :=
  match o with Done (a, _) => Some a | _ => None end.

Lemma host_done {A} (o : outcome (A * pc)) a : result_of o = Some a → o = Done (a, host_of o).
Proof. destruct o as [[] | |]; cbn; congruence. Qed.

Lemma default_some {A} (d : A) o : bool_decide (is_Some o) = true → o = Some (default d o).
Proof. by destruct o. Qed.

Definition probed : pc := host_of (openflash_probe prompt prompt cold).

Lemma probed_eq : openflash_probe prompt prompt cold = Done (0, probed).
Proof. refine (host_done (openflash_probe prompt prompt cold) 0 _). evaluated. Qed.

(** The I/O queue of the probed driver. *)
Definition io_queue : openflash_queue := default dq_zero (queue_at probed 1).

Lemma probed_queue : queue_at probed 1 = Some io_queue.
Proof. refine (default_some dq_zero (queue_at probed 1) _). evaluated. Qed.

(** An idle I/O queue: rings of 128 entries at [base], its 127 empty slots with
    lists 64 KiB apart from [base + 0x30000] on. *)
Record idle_queue (base : Z) (q : openflash_queue) : Prop := {
  iq_base : 0 < base;
  iq_sq : dq_sq_dma q = base;
  iq_depth : dq_depth q = 128;
  iq_tail : 0 ≤ dq_sq_tail q < 128;
  iq_lists : (λ r, (r_rq r, r_nr_mapped r, r_sgl_dma r)) <$> dq_requests q =
    (λ i, (None, 0%nat, base + 0x30000 + 0x10000 * Z.of_nat i)) <$> seq 0 127;
}.

Lemma idle_slot base q i r :
  idle_queue base q → dq_requests q !! i = Some r →
  (i < 127)%nat ∧ r_rq r = None ∧ r_nr_mapped r = 0%nat ∧
  r_sgl_dma r = base + 0x30000 + 0x10000 * Z.of_nat i.
Proof.
  intros Hid Hi. pose proof (f_equal (lookup i) (iq_lists _ _ Hid)) as E.
  rewrite !list_lookup_fmap, Hi in E. cbn [fmap option_fmap option_map] in E.
  destruct (decide (i < 127)%nat) as [Hlt | Hge].
  - rewrite lookup_seq_lt in E by done. cbn [fmap option_fmap option_map Nat.add] in E.
    injection E as E1 E2 E3. split_and!; assumption.
  - rewrite lookup_seq_ge in E by lia. discriminate E.
Qed.

Lemma idle_owned base q (h : pc) :
  idle_queue base q → queue_at h 1 = Some q →
  k_inflight (h_kern h) = [] → k_mapped (h_kern h) = [] → owned h q.
Proof.
  intros Hid Hq Hin Hma. pose proof (iq_depth _ _ Hid).
  pose proof (f_equal length (iq_lists _ _ Hid)) as Hl. rewrite !length_fmap in Hl.
  rewrite length_seq in Hl. constructor; [done | lia | lia | | | |].
  - intros i r rq Hi. apply (idle_slot base) in Hi as (_ & -> & _); done.
  - apply Forall_lookup. intros i r Hi. apply (idle_slot base) in Hi as (_ & _ & -> & _); done.
  - rewrite Hin. apply reflexive_eq. symmetry. apply elem_of_nil_inv.
    intros rq (r & (i & Hi)%list_elem_of_lookup & Hrq)%list_elem_of_omap.
    apply (idle_slot base) in Hi as (_ & Hn & _); [congruence | done].
  - rewrite Hma. apply reflexive_eq. symmetry. apply bind_nil.
    intros r (i & Hi)%list_elem_of_lookup.
    apply (idle_slot base) in Hi as (_ & Hn & _); [| done].
    unfold slot_mappings. by rewrite Hn.
Qed.

Lemma idle_layout base q : idle_queue base q → io_layout (W := qemu) q.
Proof.
  intros Hid. pose proof Hid as [Hb Hsq Hd Ht _].
  constructor; rewrite ?Hd, ?Hsq; [split; [lia | done] | done | |].
  - intros i r Hi. apply (idle_slot base) in Hi as (Hlt & _ & _ & ->); [| done]. split.
    + split; [lia | done].
    + apply Forall_singleton. unfold sq_region. cbn [fst snd]. rewrite Hd, Hsq.
      unfold CMD_SIZE. lia.
  - intros i j r r' Hne Hi Hj.
    apply (idle_slot base) in Hi as (Hi & _ & _ & Er); [| done].
    apply (idle_slot base) in Hj as (Hj & _ & _ & Er'); [| done].
    apply Forall_singleton. unfold sgl_region. cbn [fst snd]. rewrite Er, Er'.
    change SGL_SIZE with 256. lia.
Qed.

(** ** The kernel has room for a probe *)
Definition brk (k : kernel) : Z := 0x10000000 + 0x10000 * Z.of_nat (k_calls k).

#[export] Program Instance generous : GenerousKernel Ram.t := {
  room n k := Z.of_nat (k_calls k + n) ≤ 2 ^ 32 ∧
    ∀ b s, Coherent b s ∈ k_held k → b + s ≤ brk k;
}.
Next Obligation.
  intros n k [Hn Hh]. unfold brk in *. cbn. split; [lia |].
  intros b s Hin. apply Hh in Hin. lia.
Qed.
Next Obligation.
  intros n k r Hr [Hn Hh]. split; [done |]. intros b s Hin. cbn in Hin.
  apply elem_of_cons in Hin as [E | Hin]; [by destruct (Hr b s) | by apply Hh].
Qed.
Next Obligation.
  intros n k size [Hn Hh] Hs. exists (brk k). unfold brk in *. split; [done |].
  split; [lia |]. split; [lia |]. split; [split; lia |]. split.
  - intros b s Hin. apply Hh in Hin. lia.
  - cbn. split; [lia |]. intros b s Hin.
    apply elem_of_cons in Hin as [E | Hin]; [injection E as -> ->; lia |].
    apply Hh in Hin. lia.
Qed.
Next Obligation. done. Qed.
Next Obligation. done. Qed.
Next Obligation. done. Qed.
Next Obligation. done. Qed.
Next Obligation. done. Qed.
Next Obligation. done. Qed.
Next Obligation. done. Qed.
Next Obligation. done. Qed.
Next Obligation. done. Qed.

Lemma empty_room n k :
  Z.of_nat (k_calls k + n) ≤ 2 ^ 32 → k_held k = [] → room (M := Ram.t) n k.
Proof. intros Hn Hh. split; [done |]. intros b s Hin. rewrite Hh in Hin. by apply elem_of_nil in Hin. Qed.

Lemma boot_room : room (M := Ram.t) 143 boot.
Proof. split; [done |]. intros b s Hin. by apply elem_of_nil in Hin. Qed.

Lemma realized_queues : s_queues (m_dev realized) = reset_queues.
Proof. evaluated. Qed.

(** ** The probed host *)
Definition ring_base : Z := 0x10090000.

Lemma probed_idle : idle_queue ring_base io_queue.
Proof.
  constructor; [done | | | |].
  - evaluated.
  - evaluated.
  - assert (dq_sq_tail io_queue = 0) as -> by evaluated. lia.
  - evaluated.
Qed.

Lemma io_queue_qid : dq_qid io_queue = 1.
Proof. evaluated. Qed.

Lemma probed_inflight : k_inflight (h_kern probed) = [].
Proof. evaluated. Qed.

Lemma probed_mapped : k_mapped (h_kern probed) = [].
Proof. evaluated. Qed.

Lemma probed_owned : owned probed io_queue.
Proof.
  exact (idle_owned ring_base io_queue probed probed_idle probed_queue probed_inflight
    probed_mapped).
Qed.

Lemma probed_layout : io_layout (W := qemu) io_queue.
Proof. exact (idle_layout ring_base io_queue probed_idle). Qed.

Lemma io_queue_consumed : consumed io_queue 0.
Proof.
  split; [evaluated | evaluated].
Qed.

Lemma lists_available : ∀ k, dma_alloc_coherent k SGL_SIZE ≠ None.
Proof. done. Qed.

Lemma probed_up : driver_up probed [].
Proof.
  exact (swp_done _ _ _ _ _ (probe_spec prompt prompt cold lists_available realized_wf)
    probed_eq).
Qed.

(** The controller of the probed host is well formed. *)
Lemma probed_ok : dev_wf (m_dev (h_bus probed)).
Proof. exact (DriverResources.ar_ctl _ (du_ready _ _ probed_up)). Qed.

(** ** The probed host is in step *)
Lemma idle_shared base q :
  idle_queue base q → dq_cq_dma q = base + 0x10000 → base + 0x830000 ≤ 2 ^ 64 →
  shared_layout (M := Ram.t) (F := ModelFiles.t) q.
Proof.
  intros Hid Hcq Hhi. pose proof Hid as [Hb Hsq Hd Ht _].
  constructor; unfold cq_region, sq_region, outside; rewrite ?Hcq, ?Hsq, ?Hd;
    unfold CQE_SIZE, CMD_SIZE.
  - by apply (idle_layout base).
  - constructor; unfold sq_region, outside; rewrite ?Hcq, ?Hsq, ?Hd; unfold CQE_SIZE, CMD_SIZE;
      [split; lia | split; lia | | lia | lia].
    apply Forall_singleton. cbn. lia.
  - intros i r Hi. apply (idle_slot base) in Hi as (? & _ & _ & ->); [| done].
    apply Forall_singleton. cbn [fst snd]. change SGL_SIZE with 256. lia.
  - intros i r Hi. apply (idle_slot base) in Hi as (? & _ & _ & ->); [| done].
    change SGL_SIZE with 256. lia.
Qed.

Definition io_device : OpenFlashQueue :=
  {| q_sq_addr := ring_base; q_cq_addr := ring_base + 0x10000; q_depth := 128;
     q_sq_head := 0; q_cq_tail := 0; q_cq_head := 0; q_vector := 1; q_cq_phase := 1;
     q_enabled := true |}.

Lemma probed_cq : dq_cq_dma io_queue = ring_base + 0x10000.
Proof. evaluated. Qed.
Lemma probed_tail : dq_sq_tail io_queue = 0.
Proof. evaluated. Qed.
Lemma probed_device_queue : s_queues (m_dev (h_bus probed)) !! 1%nat = Some io_device.
Proof. evaluated. Qed.
Lemma probed_ready : has_flag (s_status (m_dev (h_bus probed))) OF_STATUS_READY = true.
Proof. evaluated. Qed.

(** No completion slot carries the phase of the first pass. *)
Lemma probed_no_entries :
  forallb (λ j, bool_decide (¬ is_new (h_bus probed) io_queue (0 + Z.of_nat j))) (seq 0 128)
    = true.
Proof. evaluated. Qed.

Lemma probed_device : device_queue (h_bus probed) io_queue 0 io_device.
Proof.
  constructor.
  - rewrite io_queue_qid. exact probed_device_queue.
  - exact eq_refl.
  - exact (eq_sym (iq_sq _ _ probed_idle)).
  - exact (eq_sym probed_cq).
  - exact (eq_sym (iq_depth _ _ probed_idle)).
  - exact (eq_sym probed_tail).
  - by split.
Qed.

Lemma probed_synced : synced probed io_queue 0 [].
Proof.
  constructor.
  - exact probed_owned.
  - exact (idle_shared ring_base io_queue probed_idle probed_cq ltac:(done)).
  - exact io_queue_qid.
  - exact io_queue_consumed.
  - exact probed_ok.
  - exact probed_ready.
  - exists io_device. exact probed_device.
  - lia.
  - intros i x Hx. by rewrite lookup_nil in Hx.
  - intros j Hj. rewrite (iq_depth _ _ probed_idle) in Hj. cbn in Hj.
    pose proof (proj1 (forallb_forall _ _) probed_no_entries (Z.to_nat j)) as Hn.
    cbv beta in Hn. rewrite Z2Nat.id in Hn by lia. eapply bool_decide_eq_true_1, Hn.
    apply in_seq. lia.
  - rewrite probed_inflight. constructor.
Qed.

#[export] Instance direct_mapping : DirectMapping := {
  bus_addr bv := u64 (bv_page bv);
  dma_map_direct k bv dir := eq_refl;
}.

(** The admin queue: its rings are below those of the I/O queue. *)
Definition admin_queue : openflash_queue := default dq_zero (queue_at probed 0).

Lemma admin_queue_eq : queue_at probed 0 = Some admin_queue.
Proof. refine (default_some dq_zero (queue_at probed 0) _). evaluated. Qed.
Lemma admin_queue_shape :
  (dq_qid admin_queue, dq_depth admin_queue, dq_sq_dma admin_queue, dq_cq_dma admin_queue) =
  (0, 128, ring_base - 0x40000, ring_base - 0x30000).
Proof. evaluated. Qed.

Lemma idle_admin_rings base (h : pc) q0 q :
  idle_queue base q → dq_cq_dma q = base + 0x10000 → 0x40000 < base < 2 ^ 63 →
  queue_at h 0 = Some q0 →
  (dq_qid q0, dq_depth q0, dq_sq_dma q0, dq_cq_dma q0) =
    (0, 128, base - 0x40000, base - 0x30000) →
  admin_rings (M := Ram.t) (F := ModelFiles.t) h q0 q.
Proof.
  intros [_ Hsq Hd _ _] Hcq Hb Hq0 E. injection E as Hqid Hd0 Hs0 Hc0.
  constructor; unfold outside, sq_region, cq_region; rewrite ?Hd0, ?Hd, ?Hs0, ?Hc0, ?Hsq, ?Hcq;
    try done.
  - constructor; unfold outside, sq_region; rewrite ?Hd0, ?Hs0, ?Hc0;
      unfold CMD_SIZE, CQE_SIZE; [split; lia | split; lia | | lia | lia].
    apply Forall_singleton. cbn. lia.
  - rewrite !Forall_cons. cbn. unfold CMD_SIZE, CQE_SIZE. split_and!; [lia | lia | done].
  - rewrite !Forall_cons. cbn. unfold CMD_SIZE, CQE_SIZE. split_and!; [lia | lia | done].
Qed.

Lemma probed_admin_rings :
  admin_rings (M := Ram.t) (F := ModelFiles.t) probed admin_queue io_queue.
Proof.
  exact (idle_admin_rings ring_base probed admin_queue io_queue probed_idle probed_cq
    ltac:(done) admin_queue_eq admin_queue_shape).
Qed.

Definition probed_gendisk : gendisk := default (disk_of dev_zero) (of_disk (h_dev probed)).

Lemma probed_disk : of_disk (h_dev probed) = Some probed_gendisk.
Proof. refine (default_some (disk_of dev_zero) (of_disk (h_dev probed)) _). evaluated. Qed.

(** A host whose controller has lost its queues. *)
Definition wreck (h : pc) : pc :=
  with_bus (with_dev (openflash_reset (m_dev (h_bus h))) (h_bus h)) h.
Definition wrecked : pc := wreck probed.

Lemma wreck_recoverable (h : pc) q0 q base :
  idle_queue base q → dq_cq_dma q = base + 0x10000 → 0x40000 < base < 2 ^ 63 →
  queue_at h 0 = Some q0 →
  (dq_qid q0, dq_depth q0, dq_sq_dma q0, dq_cq_dma q0) =
    (0, 128, base - 0x40000, base - 0x30000) →
  queue_at h 1 = Some q → dq_qid q = 1 →
  k_inflight (h_kern h) = [] → k_mapped (h_kern h) = [] → dev_wf (m_dev (h_bus h)) →
  recoverable (wreck h) q0 q.
Proof.
  intros Hid Hcq Hb Hq0 E Hq Hqid Hin Hma Hwf. constructor.
  - by apply (idle_owned base).
  - done.
  - apply (idle_shared base); [done | done | lia].
  - done.
  - rewrite (iq_depth _ _ Hid). lia.
  - by apply (idle_admin_rings base).
  - by apply reset_wf.
Qed.

Lemma wrecked_recoverable : recoverable wrecked admin_queue io_queue.
Proof.
  exact (wreck_recoverable probed admin_queue io_queue ring_base probed_idle probed_cq
    ltac:(done) admin_queue_eq admin_queue_shape probed_queue io_queue_qid probed_inflight
    probed_mapped probed_ok).
Qed.

(** The host whose I/O queue has its rings and nothing else. *)
Definition scarce : pc :=
  Host realized (with_held (ring_res dq_zero) boot)
    (with_queues (Some [dq_zero; dq_zero]) dev_zero).

(** ** Requests *)

(** A write of block 1 from one page, with and without FUA. *)
Definition write_request (fua : bool) : request :=
  {| rq_tag := 0; rq_pos := 8; rq_bytes := 4096; rq_opf := REQ_OP_WRITE; rq_fua := fua;
     rq_bvecs := [{| bv_page := data_base; bv_len := 4096 |}]; rq_nr_phys_segments := 1 |}.

(** A read of the same block into another page. *)
Definition read_request (tag : nat) : request :=
  {| rq_tag := tag; rq_pos := 8; rq_bytes := 4096; rq_opf := REQ_OP_READ; rq_fua := false;
     rq_bvecs := [{| bv_page := data_base + 8192; bv_len := 4096 |}];
     rq_nr_phys_segments := 1 |}.

(** A write of 17 contiguous pages: one physical segment. *)
Definition contiguous_request : request :=
  {| rq_tag := 0; rq_pos := 0; rq_bytes := 17 * 4096; rq_opf := REQ_OP_WRITE;
     rq_fua := false;
     rq_bvecs := (λ i, {| bv_page := data_base + 4096 * Z.of_nat i; bv_len := 4096 |})
                   <$> seq 0 17;
     rq_nr_phys_segments := 1 |}.

(** The first slot of the I/O queue. *)
Definition slot0 : openflash_request := default request_zero (dq_requests io_queue !! 0%nat).

Lemma slot0_eq : dq_requests io_queue !! 0%nat = Some slot0.
Proof. refine (default_some request_zero (dq_requests io_queue !! 0%nat) _). evaluated. Qed.

Lemma slot0_free : r_rq slot0 = None.
Proof. evaluated. Qed.

(** Memory below the rings is free for data. *)
Lemma idle_buffer base q a n :
  idle_queue base q → dq_cq_dma q = base + 0x10000 →
  0 < a < 2 ^ 64 → 0 < n < 2 ^ 32 → a + n ≤ base → buffer (M := Ram.t) q (a, n).
Proof.
  intros Hid Hcq Ha Hn Hle. pose proof Hid as [Hb Hsq Hd Ht _].
  split; [done |]. split; [split; cbn; lia |].
  unfold outside, shared_regions, sq_region, cq_region. rewrite !Forall_cons. cbn [fst snd].
  rewrite Hsq, Hcq. split; [lia |]. split; [lia |]. apply Forall_fmap, Forall_lookup.
  intros i r Hi. apply (idle_slot base) in Hi as (? & _ & _ & E); [| done].
  cbn. rewrite E. lia.
Qed.

(** Any request for one block, one page of data below the rings. *)
Lemma idle_valid base q (h : pc) i r op fua a :
  (fua = true → op = REQ_OP_WRITE ∧
     has_flag (of_capabilities (h_dev h)) OPENFLASH_CAP_FUA = true) →
  idle_queue base q → dq_cq_dma q = base + 0x10000 → base < 2 ^ 63 →
  dq_requests q !! i = Some r → 0 < a → a + 4096 ≤ base →
  op = REQ_OP_READ ∨ op = REQ_OP_WRITE →
  valid_request (M := Ram.t) (F := ModelFiles.t) h q
    {| rq_tag := i; rq_pos := 8; rq_bytes := 4096; rq_opf := op; rq_fua := fua;
       rq_bvecs := [{| bv_page := a; bv_len := 4096 |}]; rq_nr_phys_segments := 1 |} r.
Proof.
  intros Hfua Hid Hcq Hb Hi Ha Hle Hop. assert (u64 a = a) as Hu by (apply u64_small; lia).
  constructor; cbn [rq_tag rq_pos rq_bytes rq_opf rq_fua rq_bvecs rq_nr_phys_segments];
    try done.
  - apply (idle_slot base _ i) in Hi as (_ & ? & _); done.
  - by destruct Hop as [-> | ->].
  - unfold segments_of. cbn [rq_bvecs fmap list_fmap bus_addr direct_mapping bv_page bv_len].
    rewrite Hu. apply Forall_singleton. apply (idle_buffer base q); [done | done | lia..].
Qed.

(** The second slot. *)
Definition slot1 : openflash_request := default request_zero (dq_requests io_queue !! 1%nat).

Lemma slot1_eq : dq_requests io_queue !! 1%nat = Some slot1.
Proof. refine (default_some request_zero (dq_requests io_queue !! 1%nat) _). evaluated. Qed.

Lemma not_fua (P : Prop) : false = true → P.
Proof. done. Qed.

Lemma probed_fua : has_flag (of_capabilities (h_dev probed)) OPENFLASH_CAP_FUA = true.
Proof. evaluated. Qed.

Lemma fua_valid :
  valid_request (M := Ram.t) (F := ModelFiles.t) probed io_queue (write_request true) slot0.
Proof.
  refine (idle_valid ring_base io_queue probed 0 slot0 REQ_OP_WRITE true data_base
    (λ _, conj eq_refl probed_fua) probed_idle probed_cq _ slot0_eq _ _ _);
    [done | done | done | by right].
Qed.

Lemma write_valid :
  valid_request (M := Ram.t) (F := ModelFiles.t) probed io_queue (write_request false) slot0.
Proof.
  refine (idle_valid ring_base io_queue probed 0 slot0 REQ_OP_WRITE false data_base (not_fua _) probed_idle
    probed_cq _ slot0_eq _ _ _); [done | done | done | by right].
Qed.

Lemma read_valid :
  valid_request (M := Ram.t) (F := ModelFiles.t) probed io_queue (read_request 1) slot1.
Proof.
  refine (idle_valid ring_base io_queue probed 1 slot1 REQ_OP_READ false (data_base + 8192)
    (not_fua _) probed_idle probed_cq _ slot1_eq _ _ _); [done | done | done | by left].
Qed.

(** The probed host implements an idle block device. *)
Lemma idle_implements fuel (h : pc) q0 q d g :
  synced h q 0 [] → admin_rings (M := Ram.t) (F := ModelFiles.t) h q0 q → dq_depth q = 128 →
  (128 ≤ fuel)%nat → k_ended (h_kern h) = [] → of_disk (h_dev h) = Some g →
  abs (h_bus h) d → implements fuel h (BlockState d [] []).
Proof.
  intros Hs Ha Hd Hf He Hg Hab. constructor; cbn; try done.
  exists q0, q, 0. rewrite Hd. split_and!; [done | done | lia | lia].
Qed.

Lemma probed_ended : k_ended (h_kern probed) = [].
Proof. evaluated. Qed.

Lemma probed_implements d :
  abs (h_bus probed) d → implements 128 probed (BlockState d [] []).
Proof.
  exact (idle_implements 128 probed admin_queue io_queue d probed_gendisk probed_synced
    probed_admin_rings (iq_depth _ _ probed_idle) (Nat.le_refl 128) probed_ended probed_disk).
Qed.

(** Interrupts and recoveries are always permitted. *)
Lemma ends_allowed fuel sc acts (h : pc) :
  Forall (λ a, a = Recover ∨ a = Interrupt) acts → allowed fuel sc acts h.
Proof.
  intros Ha. revert h. induction Ha as [| a acts [-> | ->] _ IH]; intros h; [done | ..];
    (split; [done | intros h' _; apply IH]).
Qed.

(** A page is filled, then a request submitted, then anything that ends requests. *)
Lemma touch_submit_allowed fuel sc (h : pc) q a bs rq r acts :
  queue_at h 1 = Some q → is_ram (M := Ram.t) a (len bs) →
  outside (shared_regions q) a (len bs) → rq_fua rq = false →
  (∀ h', valid_request (M := Ram.t) (F := ModelFiles.t) h' q rq r) →
  Forall (λ a, a = Recover ∨ a = Interrupt) acts →
  allowed fuel sc (Touch a bs :: Submit rq :: acts) h.
Proof.
  intros Hq Hr Ho Hp Hv Ha. cbn [allowed permitted]. split.
  { intros q' Hq'. rewrite Hq in Hq'. by injection Hq' as <-. }
  intros h' E. injection E as <-. split; [| intros; by apply ends_allowed].
  intros q' Hq'. change (queue_at h 1 = Some q') in Hq'. rewrite Hq in Hq'.
  injection Hq' as <-. split; [done | by exists r].
Qed.

Lemma write_allowed fuel acts :
  Forall (λ a, a = Recover ∨ a = Interrupt) acts →
  allowed fuel prompt (Touch data_base [Byte.xa5] :: Submit (write_request false) :: acts) probed.
Proof.
  refine (touch_submit_allowed fuel prompt probed io_queue data_base [Byte.xa5]
    (write_request false) slot0 acts probed_queue _ _ eq_refl _).
  - done.
  - exact (proj2 (proj2 (idle_buffer ring_base io_queue data_base 1 probed_idle probed_cq
      ltac:(done) ltac:(done) ltac:(done)))).
  - intros h'. refine (idle_valid ring_base io_queue h' 0 slot0 REQ_OP_WRITE false data_base
      (not_fua _) probed_idle probed_cq _ slot0_eq _ _ _); [done | done | done | by right].
Qed.

Lemma done_host {A} (o : outcome (A * pc)) a h h' : o = Done (a, h) → o = Done (a, h') → h = h'.
Proof. congruence. Qed.

(** Wherever the probe of [cold] leads. *)
Lemma write_allowed_probed fuel h0 acts :
  openflash_probe prompt prompt cold = Done (0, h0) →
  Forall (λ a, a = Recover ∨ a = Interrupt) acts →
  allowed fuel prompt (Touch data_base [Byte.xa5] :: Submit (write_request false) :: acts) h0.
Proof.
  intros E. rewrite <- (done_host _ _ _ _ probed_eq E). apply write_allowed.
Qed.

(** The probed host after the submission of a request, and after the interrupt
    that follows. *)
Definition submitted (rq : request) : pc := host_of (openflash_queue_rq rq probed).
Definition finished (rq : request) : pc := host_of (openflash_io_irq 128 (submitted rq)).

(** A plain write, then a flush. *)
Definition flush_request : request :=
  {| rq_tag := 1; rq_pos := 0; rq_bytes := 0; rq_opf := REQ_OP_FLUSH; rq_fua := false;
     rq_bvecs := []; rq_nr_phys_segments := 0 |}.
Definition flushed : pc :=
  host_of (openflash_io_irq 128
    (host_of (openflash_queue_rq flush_request (finished (write_request false))))).

(** The driver unloaded, and loaded again. *)
Definition removed : pc := host_of (openflash_remove 128 1 probed).
Lemma removed_eq : openflash_remove 128 1 probed = Done ((), removed).
Proof. refine (host_done (openflash_remove 128 1 probed) () _). evaluated. Qed.

Lemma removed_room : room (M := Ram.t) 9 (h_kern removed).
Proof.
  apply (empty_room 9 (h_kern removed)); [| evaluated].
  apply (Z.leb_le (Z.of_nat (k_calls (h_kern removed) + 9)) (2 ^ 32)). evaluated.
Qed.

Lemma removed_room_any h1 :
  openflash_remove 128 1 probed = Done ((), h1) → room (M := Ram.t) 9 (h_kern h1).
Proof. intros E. rewrite <- (done_host _ _ _ _ removed_eq E). exact removed_room. Qed.

(** The device served the two admin commands of the probe. *)
Lemma probed_cursors : admin_cursors (h_bus probed) = Some (2, 2, 1).
Proof. evaluated. Qed.

(** A controller that lost its queues after the probe: doorbells are ignored. *)
Definition lost : pc :=
  host_of (openflash_queue_rq (write_request false) wrecked).

Definition lost_queue : openflash_queue := default dq_zero (queue_at lost 1).

Definition lost_gendisk : gendisk := default (disk_of dev_zero) (of_disk (h_dev lost)).

Lemma lost_disk : of_disk (h_dev lost) = Some lost_gendisk.
Proof. refine (default_some (disk_of dev_zero) (of_disk (h_dev lost)) _). evaluated. Qed.
Lemma lost_queue_eq : queue_at lost 1 = Some lost_queue.
Proof. refine (default_some dq_zero (queue_at lost 1) _). evaluated. Qed.
Lemma lost_depth : dq_depth lost_queue = 128.
Proof. evaluated. Qed.
Lemma lost_consumed : consumed lost_queue 0.
Proof. split; evaluated. Qed.
Lemma lost_inflight : k_inflight (h_kern lost) = [write_request false].
Proof. evaluated. Qed.
Lemma lost_no_entry : ¬ is_new (h_bus lost) lost_queue 0.
Proof. apply (bool_decide_eq_false (is_new (h_bus lost) lost_queue 0)). evaluated. Qed.
End SystemFixture.
