(* ===== verification/DriverTheorems.v ===== *)
(** * Theorems on the driver

    Submission, the I/O interrupt, probe and remove, for any controller behind
    the registers and any answers of the kernel; then the defects of the
    driver, the last one evaluated on the probed host of SystemFixture. *)
From S2P Require Import Prelude Packed Environment Rings Abi QemuDevice DeviceSafety.
From S2P Require Import DeviceRegisters DeviceFixture DriverState DriverQueue DriverCore.
From S2P Require Import DriverLogic DriverFrame DriverSafety DriverSubmit DriverResources.
From S2P Require Import System SystemLife SystemFixture.

Section Claims.
Context {W : Type} `{GM : GuestMemory W, !GuestMemoryLaws W, CT : Controller W}.
Context `{KS : KernelServices, !KernelLaws}.
Implicit Types h : host W.

(** C5. Submission is all or nothing.  For a request of at most 16 pages,
    [openflash_queue_rq] on a free slot either refuses it with the status of
    the first reason that applies (misalignment, operation, size, a failed
    mapping, FUA without the capability), and then no mapping, no request and
    no ring cursor is changed (every mapping made on the way is undone,
    whichever [dma_map_bvec] failed), or, without such a reason, it equals
    ringing the doorbell on a host in which the request is in flight and owned
    by its slot, the submission slot holds exactly its command and the
    descriptor list exactly its segments.  On a slot in use it refuses the
    request, and again no mapping, request, driver structure or memory changes,
    except that the slot's descriptor list may be overwritten. *)
Theorem submission_all_or_nothing h q rq r :
  owned h q → io_layout q → dq_qid q = 1 → dq_requests q !! rq_tag rq = Some r →
  len (rq_bvecs rq) ≤ OPENFLASH_MAX_SGL_ENTRIES →
  Forall (λ bv, 0 ≤ bv_len bv < 2 ^ 32) (rq_bvecs rq) →
  outcome_for h q rq r (openflash_queue_rq rq h).
Proof.
  intros Ho Hl Hqid Hr Hlen Hbv. unfold outcome_for. destruct (r_rq r) eqn:Hrq.
  - apply queue_rq_busy; try done; [apply Ho | by rewrite Hrq].
  - by apply queue_rq_spec.
Qed.

(** C6. The I/O interrupt handler is safe against any completion ring.  Whatever
    entries the controller wrote (unknown, repeated or out-of-range command
    ids included), the handler returns; it consumes exactly the [n <= depth]
    new entries, and the requests it ends, with their statuses, and the slots
    it leaves are those of the reference [drain] on these entries.  Every
    request is ended at most once, and ownership holds again: exactly the
    mappings of the requests still in flight are left. *)
Theorem io_interrupt_safe `{!ControllerLaws W} fuel h q k :
  owned h q → consumed q k → dq_qid q = 1 → ctl_ok (h_bus h) →
  (Z.to_nat (dq_depth q) ≤ fuel)%nat →
  ∃ n h' q' l,
    openflash_io_irq fuel h = Done (negb (n =? 0)%nat, h') ∧
    Z.of_nat n ≤ dq_depth q ∧
    (∀ m, (m < n)%nat → is_new (h_bus h) q (k + Z.of_nat m)) ∧
    ¬ is_new (h_bus h) q (k + Z.of_nat n) ∧
    owned h' q' ∧ consumed q' (k + Z.of_nat n) ∧
    drain (dq_depth q) (held q)
      ((λ j, cq_entry (h_bus h) q (k + Z.of_nat j)) <$> seq 0 n) = (held q', l) ∧
    k_ended (h_kern h') = k_ended (h_kern h) ++ l ∧
    k_inflight (h_kern h) ≡ₚ l.*1 ++ k_inflight (h_kern h') ∧ NoDup l.*1.
Proof.
  intros Ho Hk Hqid Hok Hf.
  destruct (wp_io_irq fuel h q k) as (b & h' & E & n & q' & l & -> & Hdr); [done.. |].
  exists n, h', q', l. split_and!; try apply Hdr; [done |].
  pose proof (owned_nodup _ _ Ho) as Hnd. rewrite (dr_inflight _ _ _ _ _ _ _ Hdr) in Hnd.
  by apply NoDup_app in Hnd as [? _].
Qed.

(** C30. A request of more than 16 segments is written past the end of the
    descriptor list.  The code limits [blk_rq_nr_phys_segments], which counts
    contiguous runs, and iterates over the pieces of one page each: with 17
    or more of those, and no mapping failing, it stores out of bounds. *)
Theorem segments_overflow_list h q rq r :
  queue_at h 1 = Some q → dq_requests q !! rq_tag rq = Some r →
  rq_opf rq = REQ_OP_READ ∨ rq_opf rq = REQ_OP_WRITE → rq_fua rq = false →
  rq_pos rq `mod` OPENFLASH_SECTORS_PER_BLOCK = 0 →
  rq_bytes rq `mod` OPENFLASH_BLOCK_SIZE = 0 → rq_bytes rq ≠ 0 →
  Z.of_nat (rq_tag rq) + 1 < dq_depth q → dq_depth q < 2 ^ 16 →
  rq_nr_phys_segments rq ≤ OPENFLASH_MAX_SGL_ENTRIES →
  OPENFLASH_MAX_SGL_ENTRIES < len (rq_bvecs rq) →
  (∀ k bv dir, dma_map_bvec k bv dir ≠ None) →
  openflash_queue_rq rq h = Undef.
Proof.
  intros Hq Hr Hop Hfua Hpos Hbytes Hne Htag Hd Hphys Hlen Hmap.
  unfold openflash_queue_rq. erewrite bind_done by (by apply get_queue_done).
  rewrite u16_small, Hpos, Hbytes, (proj2 (Z.leb_gt _ _)), Hfua by lia.
  cbn [Z.eqb negb orb andb].
  assert (∀ op dir, submit_data rq op dir h = Undef) as Hsub; [| by destruct Hop as [-> | ->]].
  intros op dir. unfold submit_data. erewrite bind_done by (by eapply get_request_done).
  rewrite (proj2 (Z.eqb_neq _ _) Hne), (proj2 (Z.ltb_ge _ _) Hphys). cbn [orb].
  unfold mbind at 1, drv_bind. by rewrite map_segments_overflow by (done || lia).
Qed.

(** C31. Recovery waits for itself.  When a request is in flight and its
    completion never comes, the reset work, which is what a timeout
    schedules, never gets past freezing the queue, however many interrupts
    arrive: the requests it would fail are those the freeze waits for. *)
Theorem reset_work_never_returns fuel n sc h q k disk :
  of_disk (h_dev h) = Some disk → queue_at h 1 = Some q → 0 < dq_depth q →
  consumed q k → ¬ is_new (h_bus h) q k → k_inflight (h_kern h) ≠ [] →
  openflash_reset_work fuel n sc h = NoFuel.
Proof.
  intros Hdisk Hq Hd Hk Hnew Hin. unfold openflash_reset_work.
  erewrite bind_done by done. rewrite Hdisk.
  unfold mbind at 1, drv_bind at 1, blk_mq_freeze_queue.
  erewrite bind_done by (by eapply io_irqs_idle). erewrite bind_done by done.
  by destruct (k_inflight (h_kern h)).
Qed.

(** C32. Remove waits for a completion that never comes.  When a request is in
    flight and its completion never comes, [openflash_remove] never gets past
    [del_gendisk], however many interrupts arrive: the call that would fail the
    request comes after the one that waits for it. *)
Theorem remove_never_returns fuel n h q k disk :
  of_disk (h_dev h) = Some disk → queue_at h 1 = Some q → 0 < dq_depth q →
  consumed q k → ¬ is_new (h_bus h) q k → k_inflight (h_kern h) ≠ [] →
  openflash_remove fuel n h = NoFuel.
Proof.
  intros Hdisk Hq Hd Hk Hnew Hin. rewrite (remove_eq fuel n h (cancelled h)).
  - cbn. by destruct (k_inflight (h_kern h)).
  - by rewrite Hdisk.
  - by eapply io_irqs_idle.
Qed.
End Claims.

Section Resources.
Context {W : Type} `{GM : GuestMemory W, CT : Controller W, KS : KernelServices}.
Context `{!ControllerLaws W}.

(** C16. Probe is balanced on every path.  Whatever the kernel's services answer,
    as long as descriptor lists can be allocated, and however the admin
    commands go, probing never reaches undefined behaviour (no out-of-range
    ring access, no release of something not held); when it returns an error,
    the resources held are those held before, and when it returns zero they
    are those and exactly the ones [openflash_remove] releases. *)
Theorem probe_balanced sc1 sc2 (h : host W) :
  (∀ k, dma_alloc_coherent k SGL_SIZE ≠ None) → ctl_ok (h_bus h) →
  match openflash_probe sc1 sc2 h with
  | Done (ret, h') =>
      if ret =? 0 then driver_up h' (k_held (h_kern h))
      else k_held (h_kern h') ≡ₚ k_held (h_kern h)
  | Undef => False
  | NoFuel => True
  end.
Proof. apply probe_spec. Qed.

(** C17. Remove waits, then releases everything.  On a probed driver, with any
    requests in flight and whatever the completion ring holds, the interrupts
    that arrive while [openflash_remove] waits for the requests in flight are
    handled.  If a request is left in flight, remove never returns; otherwise
    it returns with exactly the resources held before the probe, nothing in
    flight or mapped, and every request that was in flight ended exactly once. *)
Theorem remove_balanced `{!ResponsiveController W} fuel n rs (h : host W) q k :
  driver_up h rs → owned h q → consumed q k → dq_qid q = 1 →
  (Z.to_nat (dq_depth q) ≤ fuel)%nat →
  ∃ h1, deliver_io_irqs fuel n (cancelled h) = Done ((), h1) ∧
    (k_inflight (h_kern h1) ≠ [] → openflash_remove fuel n h = NoFuel) ∧
    (k_inflight (h_kern h1) = [] →
       ∃ h', openflash_remove fuel n h = Done ((), h') ∧ torn_down rs h h').
Proof.
  intros Hup Ho Hk Hqid Hf. apply driver_up_attached in Hup.
  destruct (remove_spec fuel n rs h q k Hup Ho Hk Hqid Hf) as (h1 & E & Hn & Hr).
  exists h1. split_and!; [done.. |]. intros Hi. destruct (Hr Hi) as (h' & E' & Ht & _).
  by exists h'.
Qed.

(** C18. The I/O path is neutral.  From any state of the host and with any
    controller behind the registers, whenever a submission, an interrupt of
    either kind, a request timeout or the reset work returns, exactly the
    resources held before are held, both queues are at their addresses with
    their depths and descriptor lists, and what selects the teardown is
    unchanged. *)
Theorem io_path_keeps_resources (rq : request) fuel n sc :
  preserves (W := W) footprint (openflash_queue_rq rq) ∧
  preserves (W := W) footprint (openflash_io_irq fuel) ∧
  preserves (W := W) footprint (openflash_irq fuel) ∧
  preserves (W := W) footprint (openflash_timeout rq) ∧
  preserves (W := W) footprint (openflash_reset_work fuel n sc).
Proof.
  split_and!; [apply neutral_queue_rq | apply neutral_io_irq | apply neutral_irq
    | apply neutral_timeout | apply neutral_reset_work].
Qed.

(** C37. When the allocation of the first descriptor list fails, the set-up of the
    I/O queue frees the rings and returns a variable that was never
    assigned. *)
Theorem list_failure_unassigned sc n q rs (h : host W) :
  queue_at h 1 = Some q → k_held (h_kern h) ≡ₚ ring_res q ++ rs →
  dma_alloc_coherent (h_kern h) SGL_SIZE = None → io_start sc (S n) h = Undef.
Proof. apply io_start_unassigned. Qed.
End Resources.

Import Fixture SystemFixture.

Lemma submission_all_or_nothing_witness :
  submission probed io_queue (write_request false) slot0
    (openflash_queue_rq (write_request false) probed).
Proof.
  refine (outcome_free probed io_queue (write_request false) slot0 _
    (submission_all_or_nothing probed io_queue (write_request false) slot0
      probed_owned probed_layout io_queue_qid slot0_eq _ _) slot0_free).
  - done.
  - apply Forall_singleton. by split.
Defined.

Lemma io_interrupt_safe_witness :
  ∃ n h', openflash_io_irq 128 probed = Done (negb (n =? 0)%nat, h').
Proof.
  destruct (io_interrupt_safe 128 probed io_queue 0 probed_owned io_queue_consumed
    io_queue_qid) as (n & h' & q' & l & E & _).
  - exact probed_ok.
  - rewrite (iq_depth _ _ probed_idle). lia.
  - exists n, h'. exact E.
Defined.

Lemma segments_overflow_list_witness :
  openflash_queue_rq contiguous_request probed = Undef.
Proof.
  refine (segments_overflow_list probed io_queue contiguous_request slot0 probed_queue slot0_eq
    (or_intror eq_refl) eq_refl eq_refl eq_refl _ _ _ _ _ _).
  - done.
  - rewrite (iq_depth _ _ probed_idle). by compute.
  - rewrite (iq_depth _ _ probed_idle). lia.
  - done.
  - done.
  - done.
Defined.

Lemma reset_work_never_returns_witness :
  openflash_reset_work 128 5 prompt lost = NoFuel.
Proof.
  refine (reset_work_never_returns 128 5 prompt lost lost_queue 0 lost_gendisk
    lost_disk lost_queue_eq _ lost_consumed lost_no_entry _).
  - rewrite lost_depth. lia.
  - rewrite lost_inflight. discriminate.
Defined.

Lemma remove_never_returns_witness :
  openflash_remove 128 5 lost = NoFuel.
Proof.
  refine (remove_never_returns 128 5 lost lost_queue 0 lost_gendisk
    lost_disk lost_queue_eq _ lost_consumed lost_no_entry _).
  - rewrite lost_depth. lia.
  - rewrite lost_inflight. discriminate.
Defined.

Lemma probe_balanced_witness : driver_up probed [].
Proof.
  exact (swp_done (openflash_probe prompt prompt)
    (λ ret h', if ret =? 0 then driver_up h' [] else k_held (h_kern h') ≡ₚ []) cold 0 probed
    (probe_balanced prompt prompt cold lists_available realized_wf) probed_eq).
Defined.

Lemma remove_balanced_witness :
  ∃ h1, deliver_io_irqs 128 1 (cancelled probed) = Done ((), h1) ∧
    (k_inflight (h_kern h1) = [] →
       ∃ h', openflash_remove 128 1 probed = Done ((), h') ∧ torn_down [] probed h').
Proof.
  destruct (remove_balanced 128 1 [] probed io_queue 0 probed_up probed_owned
    io_queue_consumed io_queue_qid) as (h1 & E & _ & Hr).
  - rewrite (iq_depth _ _ probed_idle). apply Nat.le_refl.
  - exists h1. exact (conj E Hr).
Defined.

Lemma list_failure_unassigned_witness :
  io_start (KS := ScarceKernel.services) prompt 127 scarce = Undef.
Proof.
  apply (list_failure_unassigned (KS := ScarceKernel.services) prompt 126 dq_zero []).
  - done.
  - done.
  - done.
Defined.

(** ** The driver and the device together, evaluated *)

