(* ===== verification/SystemTheorems.v ===== *)
(** * Theorems on the driver and the device together

    A block device made of two programs: requests go through the Linux driver
    to the QEMU device and back. *)
From S2P Require Import Prelude Packed Environment Rings Abi Blocks QemuDevice DeviceSafety.
From S2P Require Import DeviceQueue DeviceData BlockSpec.
From S2P Require Import DriverState DriverQueue DriverCore DriverLogic DriverSafety DriverSubmit.
From S2P Require Import System SystemSync SystemSubmit SystemAdmin SystemReset SystemProbe.
From S2P Require Import DriverResources SystemRun SystemTrace SystemLife SystemRebind DeviceFixture SystemFixture.

Section Claims.
Context {M F : Type} `{GM : GuestMemory M, !GuestMemoryLaws M}.
Context `{HF : HostFiles F, !HostFilesLaws F}.
Context `{KS : KernelServices, !KernelLaws, !DirectMapping}.
Implicit Types (h : host (machine M F)) (q : openflash_queue).
Implicit Types (rq : DriverState.request) (p : list (DriverState.request * Z)).

(** C1. The system simulates a block device in every run.  From a host that
    implements the state [s] of the specification, any sequence of submissions
    of valid requests without FUA, interrupts, recoveries and stores of clients into memory
    they do not share with the controller is carried out, every request
    accepted, and leads to a host that implements the state the specification
    reaches by the same steps: the same disk, the same requests ended with the
    same statuses, the same requests in flight.  Requests are ended in the
    order they were submitted, each at most once, and none is lost. *)
Theorem system_simulates_block_device fuel sc acts h s :
  (0 < sc_fuel sc)%nat → (0 < sc_irqs sc)%nat →
  implements fuel h s → allowed fuel sc acts h →
  ∃ h' s', runs fuel sc h s acts h' s' ∧ implements fuel h' s' ∧
    abs (h_bus h') (bl_disk s') ∧ k_ended (h_kern h') = bl_ended s' ∧
    k_inflight (h_kern h') ≡ₚ (bl_pending s').*1 ∧
    (bl_ended s').*1 ++ (bl_pending s').*1 =
      (bl_ended s).*1 ++ (bl_pending s).*1 ++ submitted_by acts.
Proof.
  intros Hf Hi Him Hal. destruct (allowed_runs fuel sc Hf Hi acts h s Him Hal)
    as (h' & s' & Hr & Him'). exists h', s'. pose proof Him' as [(q0 & q & k & Hs & _) ? ? _].
  split_and!; try done; [apply Hs | by eapply runs_order].
Qed.

(** C3. The system implements the block device.  On an idle host in step that
    holds the disk [d], a valid request without FUA is accepted, served by the
    device and ended by the interrupt exactly once: with the status of the
    block device specification, the specification's next disk in the device,
    the data of a read in the pages of the request, no other memory changed
    than that and the queue's own, and the host in step and idle again. *)
Theorem system_implements_block_device fuel h q k rq r d :
  synced h q k [] → valid_request h q rq r → rq_fua rq = false → abs (h_bus h) d →
  (Z.to_nat (dq_depth q) ≤ fuel)%nat →
  ∃ ok h' q', do_request fuel rq h = Done (BLK_STS_OK, h') ∧
    answered h q rq (spec_request (m_mem (h_bus h)) rq) d ok h' q'.
Proof.
  intros Hs Hv Hf Ha Hfu. rewrite <- issued_plain by done. by eapply do_request_answered.
Qed.

(** C28. A FUA write is served as a plain one.  On an idle host in step that holds
    the disk [d], every valid FUA write is accepted and ended with the status
    of the write without FUA; the blocks of the disk are those the FUA write
    should leave, but the image saved in the backing file is the one of
    before, whether or not the write was ended successfully. *)
Theorem fua_write_served_plain fuel h q k rq r d :
  synced h q k [] → valid_request h q rq r → rq_fua rq = true → abs (h_bus h) d →
  (Z.to_nat (dq_depth q) ≤ fuel)%nat →
  ∃ h' d', do_request fuel rq h = Done (BLK_STS_OK, h') ∧ abs (h_bus h') d' ∧
    image d' = image d ∧
    blocks d' = blocks (spec_step true (spec_request (m_mem (h_bus h)) rq) d).2 ∧
    k_ended (h_kern h') = k_ended (h_kern h) ++ [(rq, openflash_blk_status
      (r_status (spec_step true (request_with false (m_mem (h_bus h)) rq) d).1))].
Proof.
  intros Hs Hv Hf Ha Hfu. destruct (vr_fua _ _ _ _ Hv Hf) as [Hw _].
  destruct (do_request_answered fuel h q k rq r d) as (ok & h' & q' & E & Han); [done.. |].
  exists h', (spec_step ok (issued_request (m_mem (h_bus h)) rq) d).2.
  split; [done |]. split; [apply Han |].
  destruct (fua_lost ok (m_mem (h_bus h)) rq d Hw) as (Hi & Hb & Hst).
  rewrite <- Hst. by split_and!; [.. | apply Han].
Qed.

(** C11. Requests are ended in the order they were served.  Any number of valid
    requests without FUA, with different tags and such that no read lands in
    the data of a later one, submitted one after the other without an
    interrupt in between, are all accepted; the one interrupt that follows
    ends exactly these requests, in order, each with the status the disk gives
    it when it answers them in that order. *)
Theorem batch_ended_in_order fuel h q k rqs d :
  synced h q k [] → abs (h_bus h) d → NoDup (rq_tag <$> rqs) → undisturbed rqs →
  Forall (λ rq, ∃ r, valid_request h q rq r) rqs → Forall (λ rq, rq_fua rq = false) rqs →
  (Z.to_nat (dq_depth q) ≤ fuel)%nat →
  ∃ sts h1 h2 q2 d',
    submit_all rqs h = Done (replicate (length rqs) BLK_STS_OK, h1) ∧
    openflash_io_irq fuel h1 = Done (negb (length rqs =? 0)%nat, h2) ∧
    length sts = length rqs ∧
    k_ended (h_kern h2) =
      k_ended (h_kern h) ++ zip rqs (openflash_blk_status <$> sts) ∧
    disk_run (m_mem (h_bus h)) d (zip rqs sts) d' ∧ abs (h_bus h2) d' ∧
    synced h2 q2 (k + len rqs) [].
Proof.
  intros Hs Ha Hnd Hun Hv Hp Hf.
  destruct (submit_all_served rqs h q k [] d)
    as (sts & h1 & q1 & d' & E1 & Hlen & Hs1 & Hrun & Ha1 & He1 & Hsh); [done.. |].
  injection Hsh as _ _ Hdep _.
  destruct (io_irq_synced fuel h1 q1 k ([] ++ zip rqs sts))
    as (h2 & q2 & E2 & Hs2 & He2 & _ & _ & _ & _ & Hfs & Hst & Hbf); [done | by rewrite Hdep |].
  assert (length ([] ++ zip rqs sts) = length rqs) as Hz
    by (cbn; rewrite length_zip_with; lia).
  rewrite Hz in E2, Hs2.
  exists sts, h1, h2, q2, d'. split_and!; try done; [| by eapply abs_ext].
  rewrite He2, He1. f_equal. cbn [app]. clear -Hlen. revert sts Hlen.
  induction rqs as [| rq rqs IH]; intros [| st sts] Hlen; cbn in *; try done.
  f_equal. apply IH. lia.
Qed.

(** C12. What was written through the driver is read back through the driver.  On
    an idle host in step, a write is ended; if its status is OK, a read of the
    same blocks, into whatever pages, is ended with OK as well and leaves the
    bytes the write had in its pages. *)
Theorem system_write_then_read fuel h q k rw r_w rr r_r :
  synced h q k [] → valid_request h q rw r_w → valid_request h q rr r_r →
  rq_opf rw = REQ_OP_WRITE → rq_opf rr = REQ_OP_READ →
  rq_pos rr = rq_pos rw → rq_bytes rr = rq_bytes rw →
  (Z.to_nat (dq_depth q) ≤ fuel)%nat →
  ∃ st h1 h2,
    do_request fuel rw h = Done (BLK_STS_OK, h1) ∧
    k_ended (h_kern h1) = k_ended (h_kern h) ++ [(rw, st)] ∧
    do_request fuel rr h1 = Done (BLK_STS_OK, h2) ∧
    (st = BLK_STS_OK →
       k_ended (h_kern h2) = k_ended (h_kern h1) ++ [(rr, BLK_STS_OK)] ∧
       gather (m_mem (h_bus h2)) (segments_of rr) =
       gather (m_mem (h_bus h)) (segments_of rw)).
Proof.
  intros Hs Hvw Hvr Hopw Hopr Hpos Hbytes Hf.
  destruct (abs_exists (h_bus h) (sy_wf _ _ _ _ Hs)) as [d Ha].
  destruct (do_request_answered fuel h q k rw r_w d)
    as (ok & h1 & q1 & E1 & [[k1 Hs1] Hd1 He1 _ _ Hsh Hdev]); [done.. |].
  destruct (valid_transfer h q h1 q1 rr r_r) as [r' Hvr'];
    [done | done | apply Hs1 | done | by rewrite (sy_inflight _ _ _ _ Hs1) |].
  pose proof Hsh as Hsh'. injection Hsh' as _ _ Hdep _.
  destruct (do_request_answered fuel h1 q1 k1 rr r' _ Hs1 Hvr' Hd1)
    as (ok2 & h2 & q2 & E2 & [_ _ He2 Hdat _ _ _]); [by rewrite Hdep |].
  eexists _, h1, h2. split; [exact E1 |]. split; [exact He1 |]. split; [exact E2 |].
  intros Hok%blk_status_ok.
  destruct (spec_write_then_read ok ok2 h q rw r_w d (m_mem (h_bus h)) (m_mem (h_bus h1)) rr)
    as (Hst & Hne & Hc); [done.. |].
  rewrite Hst in He2. split; [exact He2 |]. rewrite <- Hc. by apply Hdat.
Qed.

(** C8. The probe establishes the invariant.  On a well-formed device that no
    driver has configured since its reset, in a kernel whose services succeed,
    and with an interrupt before each of the two timeouts, the probe returns 0:
    driver and device are in step and idle, the disk is registered with the
    capacity of the device, and what the device stores is as it was. *)
Theorem probe_establishes_step `{!GenerousKernel M} sc1 sc2 h :
  dev_wf (m_dev (h_bus h)) → s_queues (m_dev (h_bus h)) = reset_queues →
  k_inflight (h_kern h) = [] → k_mapped (h_kern h) = [] → room 143 (h_kern h) →
  (0 < sc_fuel sc1)%nat → (0 < sc_irqs sc1)%nat → (0 < sc_fuel sc2)%nat → (0 < sc_irqs sc2)%nat →
  ∃ h', openflash_probe sc1 sc2 h = Done (0, h') ∧ probe_done (h_bus h) h' ∧
    ∀ d, abs (h_bus h) d → abs (h_bus h') d.
Proof.
  intros Hwf Hq Hin Hma Hr Hf1 Hi1 Hf2 Hi2.
  destruct (wp_probe sc1 sc2 h Hwf Hq Hin Hma Hr Hf1 Hi1 Hf2 Hi2) as (ret & h' & E & -> & Hp).
  exists h'. split; [done |]. split; [done |]. intros d Hd. by eapply abs_ext; [| apply Hp..].
Qed.

(** C9. A reset brings the controller back from any state.  Whatever the device's
    queues and registers are, with no request in flight and an interrupt
    before the timeout of the create command, [openflash_reset_controller]
    returns 0: driver and device are in step with empty rings, the admin queue
    is ready for the next command, no memory but the rings changed, and no
    block, file or request did. *)
Theorem reset_recovers_controller sc h q0 q :
  recoverable h q0 q → (0 < sc_fuel sc)%nat → (0 < sc_irqs sc)%nat →
  ∃ h', openflash_reset_controller sc h = Done (0, h') ∧ reset_done h q0 q h' ∧
    ∀ d, abs (h_bus h) d → abs (h_bus h') d.
Proof.
  intros Hrv Hf Hi. destruct (wp_reset_controller sc h q0 q Hrv Hf Hi) as (r & h' & E & -> & Hd).
  exists h'. split; [done |]. split; [done |]. intros d Ha. by eapply abs_ext; [| apply Hd..].
Qed.

(** C13. The reset work returns when the device has answered.  On a host in step
    with the completions of [p] not yet consumed, and an interrupt while the
    queue freezes, [openflash_reset_work] ends exactly these requests with the
    status the device gave them, fails none, resets the controller and leaves
    driver and device in step and idle, with the disk as it was and the next
    reset allowed. *)
Theorem reset_work_recovers fuel n sc h q0 q k p :
  synced h q k p → admin_rings h q0 q → dq_depth q ≤ 4096 → is_Some (of_disk (h_dev h)) →
  (Z.to_nat (dq_depth q) ≤ fuel)%nat → (0 < n)%nat →
  (0 < sc_fuel sc)%nat → (0 < sc_irqs sc)%nat →
  ∃ h' q', openflash_reset_work fuel n sc h = Done ((), h') ∧
    synced h' q' 0 [] ∧ shape q' = shape q ∧ of_reset_pending (h_dev h') = 0 ∧
    k_ended (h_kern h') =
      k_ended (h_kern h) ++ ((λ x, (x.1, openflash_blk_status x.2)) <$> p) ∧
    ∀ d, abs (h_bus h) d → abs (h_bus h') d.
Proof.
  intros Hs Ha Hd Hg Hf Hn Hsf Hsi.
  destruct (wp_reset_work fuel n sc h q0 q k p Hs Ha Hd Hg Hf Hn Hsf Hsi)
    as ([] & h' & E & Hp & (q' & Hs' & Hsh & _) & _ & He & Hfs & Hst & Hbf).
  exists h', q'. split_and!; try done. intros d Hab. by eapply abs_ext.
Qed.

(** C2. The driver's life is balanced.  On a device no driver has configured
    since its reset, in a kernel whose services succeed: the probe returns 0;
    any sequence of submissions of valid requests without FUA, interrupts,
    recoveries and client stores is carried out and simulates the block
    device; a remove at any point of it, with an interrupt while it waits for
    the requests in flight, returns.  Afterwards exactly the resources held
    before the probe are held, nothing is in flight or mapped, every request
    submitted has been ended, once, in order and with the status the
    specification gave it, and the device holds the disk the specification
    reached. *)
Theorem life_cycle_balanced `{!GenerousKernel M} fuel n sc sc1 sc2 acts h d :
  dev_wf (m_dev (h_bus h)) → s_queues (m_dev (h_bus h)) = reset_queues →
  k_inflight (h_kern h) = [] → k_mapped (h_kern h) = [] → room 143 (h_kern h) →
  (∀ k, dma_alloc_coherent k SGL_SIZE ≠ None) →
  (0 < sc_fuel sc1)%nat → (0 < sc_irqs sc1)%nat → (0 < sc_fuel sc2)%nat → (0 < sc_irqs sc2)%nat →
  (0 < sc_fuel sc)%nat → (0 < sc_irqs sc)%nat → (0 < n)%nat → (1024 ≤ fuel)%nat →
  abs (h_bus h) d →
  (∀ h0, openflash_probe sc1 sc2 h = Done (0, h0) → allowed fuel sc acts h0) →
  ∃ h0 h1 s1 h2,
    openflash_probe sc1 sc2 h = Done (0, h0) ∧
    runs fuel sc h0 (BlockState d [] (k_ended (h_kern h))) acts h1 s1 ∧
    openflash_remove fuel n h1 = Done ((), h2) ∧ torn_down (k_held (h_kern h)) h1 h2 ∧
    k_ended (h_kern h2) = bl_ended (end_pending s1) ∧
    (k_ended (h_kern h2)).*1 = (k_ended (h_kern h)).*1 ++ submitted_by acts ∧
    abs (h_bus h2) (bl_disk s1).
Proof.
  intros Hwf Hq Hin Hma Hr Hall Hf1 Hi1 Hf2 Hi2 Hf Hi Hn Hfu Ha Hal.
  destruct (probe_implements fuel sc1 sc2 h d) as (h0 & E0 & Hat & Him); [done.. |].
  destruct (allowed_runs fuel sc Hf Hi acts h0 _ Him (Hal h0 E0)) as (h1 & s1 & Hr1 & Him1).
  destruct (remove_after_run fuel sc n _ h0 _ acts h1 s1 Hat Hr1 Him1 Hn)
    as (h2 & E2 & Ht & Hd & He).
  exists h0, h1, s1, h2. split_and!; try done. rewrite He.
  exact (runs_all_ended fuel sc _ _ _ _ _ Hr1).
Qed.

(** C33. A driver that is removed and loaded again fails.  Remove disables the
    controller without resetting it: the device keeps the cursors of its admin
    queue while the new driver starts from slot 0.  When the device has served
    at least one and fewer than 128 admin commands since its reset, remove of
    a driver in step returns with everything released, and the probe that
    follows returns [-ETIMEDOUT], whatever interrupts arrive while it waits,
    and gives back everything it took. *)
Theorem rebind_times_out `{!GenerousKernel M} fuel n sc1 sc2 rs h q k p c :
  attached h rs → synced h q k p → admin_cursors (h_bus h) = Some (c, c, 1) → 0 < c < 128 →
  (Z.to_nat (dq_depth q) ≤ fuel)%nat → (0 < n)%nat →
  (∀ k, dma_alloc_coherent k SGL_SIZE ≠ None) →
  (∀ h1, openflash_remove fuel n h = Done ((), h1) → room 9 (h_kern h1)) →
  ∃ h1 h2, openflash_remove fuel n h = Done ((), h1) ∧ torn_down rs h h1 ∧
    openflash_probe sc1 sc2 h1 = Done (- ETIMEDOUT, h2) ∧ k_held (h_kern h2) ≡ₚ rs.
Proof. apply rebind_fails. Qed.
End Claims.

Import Fixture SystemFixture.

Lemma depth_bound : (Z.to_nat (dq_depth io_queue) ≤ 128)%nat.
Proof. rewrite (iq_depth _ _ probed_idle). lia. Qed.

Lemma system_implements_block_device_witness :
  ∃ h', do_request 128 (write_request false) probed = Done (BLK_STS_OK, h').
Proof.
  destruct (abs_exists (h_bus probed) probed_ok) as [d Hd].
  destruct (system_implements_block_device 128 probed io_queue 0 (write_request false) slot0 d
    probed_synced write_valid eq_refl Hd depth_bound) as (ok & h' & q' & E & _).
  exists h'. exact E.
Defined.

Lemma batch_ended_in_order_witness :
  ∃ h1 h2 st1 st2,
    submit_all [write_request false; read_request 1] probed =
      Done ([BLK_STS_OK; BLK_STS_OK], h1) ∧
    openflash_io_irq 128 h1 = Done (true, h2) ∧
    k_ended (h_kern h2) =
      k_ended (h_kern probed) ++ [(write_request false, st1); (read_request 1, st2)].
Proof.
  destruct (abs_exists (h_bus probed) probed_ok) as [d Hd].
  destruct (batch_ended_in_order 128 probed io_queue 0 [write_request false; read_request 1] d
    probed_synced Hd) as (sts & h1 & h2 & q2 & d' & E1 & E2 & Hl & He & _).
  - apply (bool_decide_unpack _). reflexivity.
  - split; [| by split]. apply Forall_singleton, Forall_singleton, Forall_nil_2.
  - apply Forall_cons. split; [exists slot0; exact write_valid |].
    apply Forall_singleton. exists slot1. exact read_valid.
  - by repeat constructor.
  - exact depth_bound.
  - destruct sts as [| st1 [| st2 []]]; [discriminate Hl | discriminate Hl | | discriminate Hl].
    exists h1, h2, (openflash_blk_status st1), (openflash_blk_status st2).
    split; [exact E1 |]. split; [exact E2 | exact He].
Defined.

Lemma system_write_then_read_witness :
  ∃ st h1 h2,
    do_request 128 (write_request false) probed = Done (BLK_STS_OK, h1) ∧
    do_request 128 (read_request 1) h1 = Done (BLK_STS_OK, h2) ∧
    (st = BLK_STS_OK →
       gather (m_mem (h_bus h2)) [(data_base + 8192, 4096)] =
       gather (m_mem (h_bus probed)) [(data_base, 4096)]).
Proof.
  destruct (system_write_then_read 128 probed io_queue 0 (write_request false) slot0
    (read_request 1) slot1 probed_synced write_valid read_valid eq_refl eq_refl eq_refl eq_refl
    depth_bound) as (st & h1 & h2 & E1 & _ & E2 & Hrd).
  exists st, h1, h2. split; [exact E1 |]. split; [exact E2 |].
  intros Hok. exact (proj2 (Hrd Hok)).
Defined.

Lemma probe_establishes_step_witness :
  ∃ h', openflash_probe prompt prompt cold = Done (0, h') ∧ ∃ q, synced h' q 0 [].
Proof.
  destruct (probe_establishes_step (M := Ram.t) prompt prompt cold realized_wf realized_queues
    eq_refl eq_refl boot_room) as (h' & E & Hp & _); [apply Nat.lt_0_succ.. |].
  exists h'. split; [exact E |]. destruct (pd_synced _ _ Hp) as (q & q0 & Hs & _).
  exists q. exact Hs.
Defined.

Lemma reset_recovers_controller_witness :
  ∃ h', openflash_reset_controller prompt wrecked = Done (0, h') ∧ synced h' (rewind io_queue) 0 [].
Proof.
  destruct (reset_recovers_controller prompt wrecked admin_queue io_queue wrecked_recoverable)
    as (h' & E & Hd & _); [apply Nat.lt_0_succ.. |].
  exists h'. split; [exact E | exact (rd_synced _ _ _ _ Hd)].
Defined.

Lemma reset_work_recovers_witness :
  ∃ h', openflash_reset_work 128 1 prompt probed = Done ((), h') ∧ of_reset_pending (h_dev h') = 0.
Proof.
  destruct (reset_work_recovers 128 1 prompt probed admin_queue io_queue 0 [] probed_synced
    probed_admin_rings) as (h' & q' & E & _ & _ & Hp & _).
  - rewrite (iq_depth _ _ probed_idle). apply Z.leb_le. reflexivity.
  - exists probed_gendisk. exact probed_disk.
  - exact depth_bound.
  - apply Nat.lt_0_succ.
  - apply Nat.lt_0_succ.
  - apply Nat.lt_0_succ.
  - exists h'. split; [exact E | exact Hp].
Defined.

Lemma system_simulates_block_device_witness :
  ∃ h' s' d,
    runs 128 prompt probed (BlockState d [] [])
      [Touch data_base [Byte.xa5]; Submit (write_request false); Recover; Interrupt] h' s' ∧
    (bl_ended s').*1 ++ (bl_pending s').*1 = [write_request false].
Proof.
  destruct (abs_exists (h_bus probed) probed_ok) as [d Hd].
  destruct (system_simulates_block_device 128 prompt
    [Touch data_base [Byte.xa5]; Submit (write_request false); Recover; Interrupt]
    probed (BlockState d [] [])) as (h' & s' & Hr & _ & _ & _ & _ & He).
  - apply Nat.lt_0_succ.
  - apply Nat.lt_0_succ.
  - exact (probed_implements d Hd).
  - apply write_allowed. constructor; [by left |]. constructor; [by right | constructor].
  - exists h', s', d. split; [exact Hr | exact He].
Defined.

Lemma life_cycle_balanced_witness :
  ∃ h0 h1 h2, openflash_probe prompt prompt cold = Done (0, h0) ∧
    openflash_remove 1024 1 h1 = Done ((), h2) ∧ k_held (h_kern h2) ≡ₚ [] ∧
    (k_ended (h_kern h2)).*1 = [write_request false].
Proof.
  destruct (abs_exists (h_bus cold) realized_wf) as [d Hd].
  destruct (life_cycle_balanced (M := Ram.t) 1024 1 prompt prompt prompt
    [Touch data_base [Byte.xa5]; Submit (write_request false)] cold d
    realized_wf realized_queues eq_refl eq_refl boot_room lists_available)
    as (h0 & h1 & s1 & h2 & E0 & _ & E2 & Ht & _ & He & _); [apply Nat.lt_0_succ.. | | exact Hd | |].
  - apply Nat.le_refl.
  - intros h0 E0. exact (write_allowed_probed 1024 h0 [] E0 (Forall_nil_2 _)).
  - exists h0, h1, h2. exact (conj E0 (conj E2 (conj (rm_held _ _ _ Ht) He))).
Defined.

Lemma rebind_times_out_witness :
  ∃ h1 h2, openflash_remove 128 1 probed = Done ((), h1) ∧
    openflash_probe prompt prompt h1 = Done (- ETIMEDOUT, h2) ∧ k_held (h_kern h2) ≡ₚ [].
Proof.
  destruct (rebind_times_out (M := Ram.t) 128 1 prompt prompt [] probed io_queue 0 [] 2
    (driver_up_attached probed [] probed_up) probed_synced probed_cursors)
    as (h1 & h2 & E1 & _ & E2 & Hh).
  - lia.
  - rewrite (iq_depth _ _ probed_idle). apply Nat.le_refl.
  - apply Nat.lt_0_succ.
  - exact lists_available.
  - exact removed_room_any.
  - exists h1, h2. exact (conj E1 (conj E2 Hh)).
Defined.

Lemma fua_write_served_plain_witness :
  ∃ h' d d', do_request 128 (write_request true) probed = Done (BLK_STS_OK, h') ∧
    abs (h_bus h') d' ∧ image d' = image d.
Proof.
  destruct (abs_exists (h_bus probed) probed_ok) as [d Hd].
  destruct (fua_write_served_plain 128 probed io_queue 0 (write_request true) slot0 d
    probed_synced fua_valid eq_refl Hd) as (h' & d' & E & Ha & Hi & _).
  - rewrite (iq_depth _ _ probed_idle). apply Nat.le_refl.
  - exists h', d, d'. exact (conj E (conj Ha Hi)).
Defined.
